(* ===== verification/_CoqProject ===== *)
-Q . S2P
Prelude.v
Protocol.v
GoStrings.v
Encoding.v
Regex.v
Api.v
GoHeap.v
DeepCopy.v
SafeLabel.v
GoNet.v
Platform.v
CloudInit.v
FileWriter.v
HostAgent.v
ByoMachine.v
Installer.v
InstallerConfig.v
ByoHostCtrl.v
ByoClusterCtrl.v
Admission.v
Registration.v
AgentMain.v
HostOps.v
Logger.v
Onboard.v
Byohctl.v
Lifecycle.v
Interference.v
Provisioning.v
Bootstrap.v
Watches.v
ManagerMain.v
MemPlatform.v
HeapWitnesses.v
ManagerWitnesses.v
WatchWitnesses.v
HostWitnesses.v
Witnesses.v
ProvisionWitnesses.v
