(* ===== verification/Prelude.v ===== *)
(** * dg-byoh: a verification library for the Bring-Your-Own-Host provider

    ** The program

    A Cluster API infrastructure provider for hosts that already run an
    operating system.  A _manager_ (controllers/infrastructure, apis) runs
    controllers in a management cluster: the ByoMachine controller reserves
    a free ByoHost for a machine and follows it until its node is ready, the
    K8sInstallerConfig controller publishes install and uninstall scripts, the
    ByoHost controller tidies up after released hosts, the ByoCluster
    controller keeps the cluster's endpoint and finalizer, two admission
    components guard hosts and certificate requests, and the
    BootstrapKubeconfig controller hands out tokens for new hosts.  An _agent_
    (agent) runs on every host: it obtains a certificate, registers its host,
    installs Kubernetes and runs the bootstrap script when the host is
    claimed, and cleans the host up when it is marked.  A _command-line tool_
    (cmd/byohctl) onboards, deauthorises and decommissions a host.  The
    components meet in the ByoHost object: labels, annotations, machine
    reference and secrets of it are the protocol between them.

    ** How the model is built

    Go functions are functions in the monad [M] below: they read and write an
    abstract outside world, a local store (the objects their pointers reach),
    emit the effects they perform in order, and end in a value or a panic.
    Every library and service outside the repository is a class of operations
    on the world, so its answers, failures and interference included, are
    universally quantified in the theorems; what the sources rely on of its
    documented behaviour is a class of laws, and MemPlatform.v and the
    witness files have instances with proofs of the laws.  Effects carry the
    arguments and the answers of the calls; where a theorem says what the
    outside answered it also names the operation that gave the answer in some
    world.  [wp] is the weakest precondition of a computation, [scoped] a
    deferred function.

    ** Files

    - Prelude.v: results, errors, the monad, [wp], its automation.
    - Protocol.v: automata over effects and the rules that a run follows one.
    - GoStrings.v, Encoding.v, Regex.v, GoNet.v: the parts of strings,
      path/filepath, strconv, encoding/hex and base64, crypto/sha256, regexp,
      net/url and encoding/pem the sources use.  A regular expression is
      parsed with fuel 3 * length + 3, a PEM block is searched with fuel
      length + 1: every step consumes input, and the patterns of the sources
      are shown to parse.
    - Api.v: the API types (byohost_types.go, byomachine_types.go,
      byocluster_types.go, k8sinstallerconfig_types.go,
      bootstrapkubeconfig_types.go, condition_consts.go, the template types).
    - GoHeap.v: pointers, slices and maps on a heap, what a struct in memory
      represents, and what it means to copy it deeply.
    - DeepCopy.v: the API objects in memory, zz_generated.deepcopy.go, the
      registration of the types with the scheme (groupversion_info.go and the
      init functions of the package).
    - SafeLabel.v: generateSafeLabelValue.
    - Platform.v: effects, the API server's client, the patch helper,
      conditions and labels of Cluster API; [maintains], the judgement that a
      handler keeps an invariant and patches only in a given way.
    - CloudInit.v: cloudinit.go, template_parser.go, common/utils.go.
    - FileWriter.v: file_writer.go on a model of the file system with faults,
      cmd_runner.go.
    - HostAgent.v: host_reconciler.go.
    - ByoMachine.v: byomachine_controller.go, byomachine_scope.go.
    - Installer.v: installer.go, registry.go, bundle_downloader.go,
      internal/algo.
    - InstallerConfig.v: k8sinstallerconfig_controller.go.
    - ByoHostCtrl.v: byohost_controller.go.
    - ByoClusterCtrl.v: byocluster_controller.go.
    - Admission.v: byoadmission_controller.go, byohost_webhook.go.
    - Registration.v: host_registrar.go, csr.go.
    - AgentMain.v: agent/main.go.
    - HostOps.v: byohctl's host_operations.go, helper.go, the client calls of
      k8s.go, decommission.go and deauthorise.go.
    - Logger.v: byohctl's logger.go.
    - Onboard.v: byohctl's onboard.go, auth.go, agent.go, the rest of k8s.go.
    - Byohctl.v: byohctl's main.go, root.go, version.go and the declarations
      of its commands and flags: the process around Onboard.v and HostOps.v.
    - Lifecycle.v: the life cycle of a host over all components.
    - Interference.v: the life cycle when the writers work from older versions
      of the host and the API server merges their patches; the merge is a
      parameter with the behaviour of JSON merge patches as laws.
    - Provisioning.v: progress of agent and machine controller, and what a
      host brings from one life into the next.
    - Bootstrap.v: token.go, bootstrapkubeconfig_webhook.go,
      bootstrapkubeconfig_controller.go.
    - Watches.v: the SetupWithManager functions of all controllers as
      declarations, controller-runtime as a parameter with laws,
      byomachinetemplate_controller.go.
    - ManagerMain.v: main.go, and the manager as the collection of the
      reconcilers it registers.
    - MemPlatform.v: a platform in memory that satisfies the laws.
    - HeapWitnesses.v: the structs of Kubernetes and Cluster API in memory, an
      instance of the parameters of DeepCopy.v.
    - ManagerWitnesses.v, WatchWitnesses.v, HostWitnesses.v, Witnesses.v,
      ProvisionWitnesses.v: the theorems with hypotheses at concrete states.

    ** What the theorems show

    - The composition (Lifecycle.v, Interference.v): agent, start-up, machine
      controller and host controller, in any order and in any worlds, move a
      host only through free, claimed, cleaning and back, and the parts of a
      claim are always whole or absent.  In Interference.v a step may start
      from any version that was ever stored or that a writer holds; only
      patches that change the claim have to start from the stored claim, and
      [stale_claim_steals_host] shows that this cannot be dropped.  The three
      requests in which the patch helper sends metadata, status and
      conditions are one step.
    - From claim to node and back (Provisioning.v): the agent provisions a
      claimed host, by exactly the scripts its secrets hold, and the machine
      becomes ready with the provider ID of its node, when what they call
      works; a cleaned host is free, selectable and starts its next life from
      nothing, except for an uninstall secret nobody cleared.
    - The manager as a whole (Watches.v, ManagerMain.v): it starts with
      everything registered or not at all, none of its other controllers
      patches hosts, events of a claimed host wake its machine, pausing stops
      the agent, and which certificate requests reach the approver.
    - The agent: what a cleanup does, that it can be retried; over any calls
      of the reconciler ([HostAgent.attempts]) it resets and installs at most
      once, and once more for each patch the server did not accept; what a
      bootstrap run does and when it succeeds, which files are on disk after
      it, also over the files of a former run, that decoding inverts encoding;
      start of the process beside the goroutine that rotates its certificate,
      under any schedule of its polls; label flags, certificate renewal, the
      identity the agent requests and the manager admits.
    - The manager: a reservation takes only free hosts and is found again,
      readiness is sound, deletion marks the host before the finalizer goes,
      provider IDs, label values (bound, validity, when they collide),
      installer selection, secrets of the installer and their life time,
      clusters, deletion guard, tokens and kubeconfigs, address validation.
    - Objects in memory (DeepCopy.v): a deep copy has the value of the object
      and shares no memory with it, so the snapshot of a patch helper is the
      object as it was, and objects may be values in the rest of the library.
    - The tool: onboarding, deauthorisation and decommission follow their
      protocols, and the wait for a release ends: 62 polls of five seconds
      exceed its timeout of five minutes.  The process runs one command, after
      it has set up its log, or fails without doing anything else.

    ** Not modelled

    cobra, pflag and the parsing of command lines (parameters); the scheme
    beyond the registration of the types of this package; test code: the
    generated fakes of the cloud-init interfaces, the builders of test/builder
    and the helpers of the end-to-end tests, which no process of the system
    runs; the shell scripts themselves and html or text templates
    (parameters); log messages of the controllers; other requests between the
    parts of one patch; creation and deletion of host objects in the life
    cycle; set-user-ID bits and symbolic links; capacities of slices; the
    version variables set at build time and the text the agent prints of them;
    letters and spaces outside ASCII in strings.ToLower and TrimSpace; zones
    of IPv6 addresses and escapes in the host of a URL; the data race of the
    rotation goroutine on the error variable of the agent's main function (its
    polls are whole, between the calls of main). *)

From stdpp Require Export base tactics decidable option list strings gmap sets.
From Stdlib Require Export ZArith Lia.

#[global] Arguments String.append !_ _ / : simpl nomatch.

(** ** Go values: results, errors and panics *)

Declare Scope go_scope.
Delimit Scope go_scope with go.
Open Scope go_scope.

(** The classes of API errors the sources test for
    ([apierrors.IsNotFound], [apierrors.IsAlreadyExists], [os.IsNotExist]). *)
Inductive ErrKind := ENotFound | EAlreadyExists | EOther.

#[export] Instance ErrKind_eq_dec : EqDecision ErrKind.
Proof. solve_decision. Defined.

(** A Go [error] value: what [errors.As]-style predicates see of it, and its text. *)
Record GoError := mkError { err_kind : ErrKind; err_msg : string }.

#[export] Instance GoError_eq_dec : EqDecision GoError.
Proof. solve_decision. Defined.

(** [errors.New] / [fmt.Errorf] without [%w]. *)
Definition errors_New (msg : string) : GoError := mkError EOther msg.

(** [errors.Wrap] / [fmt.Errorf("...: %w")]: the class of the wrapped error stays visible. *)
Definition errors_Wrap (e : GoError) (msg : string) : GoError :=
  mkError (err_kind e) (msg +:+ ": " +:+ err_msg e).

Definition IsNotFound (e : GoError) : bool := bool_decide (err_kind e = ENotFound).
Definition IsAlreadyExists (e : GoError) : bool := bool_decide (err_kind e = EAlreadyExists).

(** A Go pair [(T, error)]: exactly one side is meaningful. *)
Inductive result (A : Type) := Ok (a : A) | Err (e : GoError).
Arguments Ok {A} a.
Arguments Err {A} e.

(** How a call ends: normally with a value, or by a run-time panic. *)
Inductive Outcome (A : Type) := Val (a : A) | Panic.
Arguments Val {A} a.
Arguments Panic {A}.

(** ** The effect monad

    A computation reads and writes the outside world [E] (API server, host,
    clock; always abstract in the components), a local store [L] (the Go
    objects its pointers reach), emits the list of effects it performs in
    order, and ends in an [Outcome].  The local store survives a panic, since
    deferred functions run and see it. *)
Section Monad.
  Context {Event E L : Type}.

Record Res (A : Type) := mkRes {
  r_env : E;
  r_loc : L;
  r_trace : list Event;
  r_out : Outcome A }.
Arguments mkRes {A}.
Arguments r_env {A}.
Arguments r_loc {A}.
Arguments r_trace {A}.
Arguments r_out {A}.

Definition M (A : Type) : Type := E → L → Res A.

Definition ret {A} (a : A) : M A := λ e l, mkRes e l [] (Val a).

Definition panic {A} : M A := λ e l, mkRes e l [] Panic.

Definition bind {A B} (m : M A) (f : A → M B) : M B := λ e l,
  match m e l with
  | mkRes e1 l1 t1 (Val a) =>
      match f a e1 l1 with
      | mkRes e2 l2 t2 o => mkRes e2 l2 (t1 ++ t2) o
      end
  | mkRes e1 l1 t1 Panic => mkRes e1 l1 t1 Panic
  end.

(** A call of code outside the repository: it may change the world in any
    way, and the call with its answer is recorded. *)
Definition call {A} (f : E → E * A) (ev : A → list Event) : M A := λ e l,
  let '(e1, a) := f e in mkRes e1 l (ev a) (Val a).

Definition emit (ev : Event) : M unit := λ e l, mkRes e l [ev] (Val tt).

Definition get_local : M L := λ e l, mkRes e l [] (Val l).
Definition put_local (l : L) : M unit := λ e _, mkRes e l [] (Val tt).
Definition modify (f : L → L) : M unit := λ e l, mkRes e (f l) [] (Val tt).

(** Dereferencing a pointer: [nil] panics. *)
Definition deref {A} (p : option A) : M A :=
  match p with Some a => ret a | None => panic end.

(** Weakest precondition: [Q] holds of however [m] ends. *)
Definition wp {A} (m : M A) (e : E) (l : L)
    (Q : E → L → list Event → Outcome A → Prop) : Prop :=
  Q (r_env (m e l)) (r_loc (m e l)) (r_trace (m e l)) (r_out (m e l)).

Lemma wp_ret {A} (a : A) e l Q : Q e l [] (Val a) → wp (ret a) e l Q.
Proof. done. Qed.

Lemma wp_bind {A B} (m : M A) (f : A → M B) e l Q :
  wp m e l (λ e1 l1 t1 o,
    match o with
    | Val a => wp (f a) e1 l1 (λ e2 l2 t2 o2, Q e2 l2 (t1 ++ t2) o2)
    | Panic => Q e1 l1 t1 Panic
    end) →
  wp (bind m f) e l Q.
Proof.
  unfold wp, bind. destruct (m e l) as [e1 l1 t1 [a|]]; simpl; [|done].
  by destruct (f a e1 l1).
Qed.

Lemma wp_mono {A} (m : M A) e l (Q R : E → L → list Event → Outcome A → Prop) :
  wp m e l Q → (∀ e' l' t o, Q e' l' t o → R e' l' t o) → wp m e l R.
Proof. unfold wp. eauto. Qed.

Lemma wp_and {A} (m : M A) e l (Q R : E → L → list Event → Outcome A → Prop) :
  wp m e l Q → wp m e l R → wp m e l (λ e' l' t o, Q e' l' t o ∧ R e' l' t o).
Proof. unfold wp. eauto. Qed.

Lemma wp_elim {A} (m : M A) e l Q e' l' t o :
  wp m e l Q → m e l = mkRes e' l' t o → Q e' l' t o.
Proof. unfold wp. intros H Heq. by rewrite Heq in H. Qed.

Lemma wp_intro {A} (m : M A) e l (Q : E → L → list Event → Outcome A → Prop) :
  (∀ e' l' t o, m e l = mkRes e' l' t o → Q e' l' t o) → wp m e l Q.
Proof. intros H. unfold wp. apply H. by destruct (m e l). Qed.

Lemma wp_call {A} (f : E → E * A) ev e l Q :
  (∀ e1 a, f e = (e1, a) → Q e1 l (ev a) (Val a)) → wp (call f ev) e l Q.
Proof. intros H. unfold wp, call. destruct (f e) as [e1 a]. by apply H. Qed.

(** A call whose answer is known in every world. *)
Lemma wp_call_ans {A} (f : E → E * A) ev (a : A) e l Q :
  (∀ e, (f e).2 = a) → (∀ e1, Q e1 l (ev a) (Val a)) → wp (call f ev) e l Q.
Proof. intros Ha HQ. apply wp_call. intros e1 a' Heq. specialize (Ha e). rewrite Heq in Ha. by subst. Qed.

Lemma wp_emit ev e l Q : Q e l [ev] (Val tt) → wp (emit ev) e l Q.
Proof. done. Qed.
Lemma wp_get_local e l Q : Q e l [] (Val l) → wp get_local e l Q.
Proof. done. Qed.
Lemma wp_modify f e l Q : Q e (f l) [] (Val tt) → wp (modify f) e l Q.
Proof. done. Qed.
Lemma wp_put_local l' e l Q : Q e l' [] (Val tt) → wp (put_local l') e l Q.
Proof. done. Qed.
Lemma wp_panic {A} e l (Q : E → L → list Event → Outcome A → Prop) :
  Q e l [] Panic → wp panic e l Q.
Proof. done. Qed.
Lemma wp_deref {A} (p : option A) e l Q :
  match p with Some a => Q e l [] (Val a) | None => Q e l [] Panic end →
  wp (deref p) e l Q.
Proof. by destruct p. Qed.
End Monad.

Arguments Res : clear implicits.
Arguments mkRes {Event E L A}.
Arguments r_env {Event E L A}.
Arguments r_loc {Event E L A}.
Arguments r_trace {Event E L A}.
Arguments r_out {Event E L A}.
Arguments M : clear implicits.

Notation "'let!' x ':=' m 'in' k" := (bind m (λ x, k))
  (at level 10, x name, m at level 99, k at level 200, only parsing) : go_scope.
Notation "'let!' ' pat ':=' m 'in' k" := (bind m (λ x, match x with pat => k end))
  (at level 10, pat pattern, m at level 99, k at level 200, only parsing) : go_scope.
Notation "m ;;; k" := (bind m (λ _, k))
  (at level 199, right associativity, only parsing) : go_scope.

(** ** Scopes with a deferred function

    [scoped l0 body zero d] runs [body] on a fresh local store [l0] and then
    the deferred function [d], which sees the final store and the (named)
    results of [body] and may replace them.  When [body] panics, [d] still
    runs, on the zero results, and the panic goes on. *)
Definition scoped {Event E L L' A} (l0 : L') (body : M Event E L' A) (zero : A)
    (d : A → M Event E L' A) : M Event E L A := λ e l,
  match body e l0 with
  | mkRes e1 l1 t1 o1 =>
      match d (match o1 with Val a => a | Panic => zero end) e1 l1 with
      | mkRes e2 _ t2 o2 =>
          mkRes e2 l (t1 ++ t2) (match o1 with Val _ => o2 | Panic => Panic end)
      end
  end.

Lemma wp_scoped {Event E L L' A} (l0 : L') (body : M Event E L' A) (zero : A)
    (d : A → M Event E L' A) e (l : L) Q :
  wp body e l0 (λ e1 l1 t1 o1,
    wp (d (match o1 with Val a => a | Panic => zero end)) e1 l1 (λ e2 _ t2 o2,
      Q e2 l (t1 ++ t2) (match o1 with Val _ => o2 | Panic => Panic end))) →
  wp (scoped l0 body zero d) e l Q.
Proof.
  unfold wp, scoped. destruct (body e l0) as [e1 l1 t1 o1]; simpl.
  by destruct (d _ e1 l1).
Qed.

(** ** Lists *)

(** Two images of one list under relations that pick the same image agree. *)
Lemma Forall2_agree {A B} (P Q : A → B → Prop) l k1 k2 :
  (∀ a b1 b2, P a b1 → Q a b2 → b1 = b2) → Forall2 P l k1 → Forall2 Q l k2 → k1 = k2.
Proof.
  intros HPQ H1. revert k2. induction H1 as [|a b l k Hab _ IH]; intros k2 H2.
  - by inversion H2.
  - inversion H2; subst. f_equal; eauto.
Qed.

(** ** Automation

    [wp_step] takes one step of symbolic execution, [wp_run] takes all of
    them, splitting on every answer of the outside world and every branch of
    the code. *)
Create HintDb go discriminated.
Create Rewrite HintDb go.

Ltac wp_prim :=
  first
    [ apply wp_bind | apply wp_ret | apply wp_scoped | apply wp_emit
    | apply wp_get_local | apply wp_modify | apply wp_put_local | apply wp_panic
    | (apply wp_deref; case_match)
    | (apply wp_call; intros ? ? ?) ].

Ltac wp_step :=
  lazymatch goal with
  | |- wp (match ?x with _ => _ end) _ _ _ => destruct x eqn:?
  | |- wp _ _ _ _ => wp_prim
  end; cbn beta iota zeta.

Ltac wp_run := cbn beta iota zeta; repeat wp_step.
