(* ===== verification/Protocol.v ===== *)
(** * Protocols over the effects of a run

    A protocol is a deterministic automaton over events.  [fwp] is the weakest
    precondition that also tracks the stage of the automaton: a computation
    that satisfies it performs only effects the protocol allows. *)

From S2P Require Import Prelude.

Section Protocol.
  Context {Event Stage : Type} (next : Stage → Event → option Stage).

Fixpoint follow (s : Stage) (t : list Event) : option Stage :=
  match t with
  | [] => Some s
  | ev :: t' => match next s ev with Some s' => follow s' t' | None => None end
  end.

Lemma follow_app s t1 t2 :
  follow s (t1 ++ t2) = match follow s t1 with Some s1 => follow s1 t2 | None => None end.
Proof. revert s. induction t1 as [|ev t1 IH]; intros s; simpl; [done|]. by destruct (next s ev). Qed.

Section Rules.
  Context {E L : Type}.

Definition fwp {A} (s : Stage) (m : M Event E L A) (e : E) (l : L) (Q : Stage → Outcome A → Prop) : Prop :=
  wp m e l (λ _ _ t o, ∃ s', follow s t = Some s' ∧ Q s' o).

Lemma fwp_ret {A} s (a : A) e l Q : Q s (Val a) → fwp s (ret a) e l Q.
Proof. intros HQ. apply wp_ret. eauto. Qed.
Lemma fwp_mono {A} s (m : M Event E L A) e l (Q R : Stage → Outcome A → Prop) :
  fwp s m e l Q → (∀ s o, Q s o → R s o) → fwp s m e l R.
Proof.
  intros Hm HQR. unfold fwp in *. eapply wp_mono; [exact Hm|]. cbn beta. intros ???? (s' & ? & ?). eauto.
Qed.
Lemma fwp_bind {A B} s (m : M Event E L A) (f : A → M Event E L B) e l Q :
  fwp s m e l (λ s1 o, match o with Val a => ∀ e1 l1, fwp s1 (f a) e1 l1 Q | Panic => Q s1 Panic end) →
  fwp s (bind m f) e l Q.
Proof.
  intros Hm. unfold fwp in *. apply wp_bind. eapply wp_mono; [exact Hm|]. cbn beta.
  intros e1 l1 t1 [a|] (s1 & Hs & H1); [|eauto].
  eapply wp_mono; [apply H1|]. cbn beta. intros e2 l2 t2 o2 (s2 & Hs2 & HQ). exists s2. by rewrite follow_app, Hs.
Qed.
Lemma fwp_call {A} s (f : E → E * A) ev e l Q :
  (∀ a, ∃ s', follow s (ev a) = Some s' ∧ Q s' (Val a)) → fwp s (call f ev) e l Q.
Proof. intros HQ. apply wp_call. eauto. Qed.
(** A call without a recorded effect. *)
Lemma fwp_quiet {A} s (f : E → E * A) e l Q : (∀ a, Q s (Val a)) → fwp s (call f (λ _, [])) e l Q.
Proof. intros HQ. apply fwp_call. eauto. Qed.
(** A call with one effect. *)
Lemma fwp_event {A} s (f : E → E * A) ev e l Q :
  (∀ a, ∃ s', next s (ev a) = Some s' ∧ Q s' (Val a)) → fwp s (call f (λ a, [ev a])) e l Q.
Proof. intros HQ. apply fwp_call. intros a. destruct (HQ a) as (s' & Hn & ?). exists s'. cbn. by rewrite Hn. Qed.
Lemma fwp_deref {A} s (p : option A) e l Q :
  match p with Some a => Q s (Val a) | None => Q s Panic end → fwp s (deref p) e l Q.
Proof. destruct p; intros HQ; [by apply fwp_ret|]. apply wp_panic. eauto. Qed.
Lemma fwp_modify s (f : L → L) e l Q : Q s (Val tt) → fwp s (modify f) e l Q.
Proof. intros HQ. apply wp_modify. eauto. Qed.
Lemma fwp_get_local s e l Q : Q s (Val l) → fwp s get_local e l Q.
Proof. intros HQ. apply wp_get_local. eauto. Qed.

(** The same with the local store in the postcondition. *)
Definition lfwp {A} (s : Stage) (m : M Event E L A) (e : E) (l : L) (Q : Stage → L → Outcome A → Prop) : Prop :=
  wp m e l (λ _ l' t o, ∃ s', follow s t = Some s' ∧ Q s' l' o).

Lemma lfwp_ret {A} s (a : A) e l Q : Q s l (Val a) → lfwp s (ret a) e l Q.
Proof. intros HQ. apply wp_ret. eauto. Qed.
Lemma lfwp_mono {A} s (m : M Event E L A) e l (Q R : Stage → L → Outcome A → Prop) :
  lfwp s m e l Q → (∀ s l o, Q s l o → R s l o) → lfwp s m e l R.
Proof.
  intros Hm HQR. unfold lfwp in *. eapply wp_mono; [exact Hm|]. cbn beta. intros ???? (s' & ? & ?). eauto.
Qed.
Lemma lfwp_bind {A B} s (m : M Event E L A) (f : A → M Event E L B) e l Q :
  lfwp s m e l (λ s1 l1 o, match o with Val a => ∀ e1, lfwp s1 (f a) e1 l1 Q | Panic => Q s1 l1 Panic end) →
  lfwp s (bind m f) e l Q.
Proof.
  intros Hm. unfold lfwp in *. apply wp_bind. eapply wp_mono; [exact Hm|]. cbn beta.
  intros e1 l1 t1 [a|] (s1 & Hs & H1); [|eauto].
  eapply wp_mono; [apply H1|]. cbn beta. intros e2 l2 t2 o2 (s2 & Hs2 & HQ). exists s2. by rewrite follow_app, Hs.
Qed.
Lemma lfwp_quiet {A} s (f : E → E * A) e l Q : (∀ a, Q s l (Val a)) → lfwp s (call f (λ _, [])) e l Q.
Proof. intros HQ. apply wp_call. eauto. Qed.
Lemma lfwp_event {A} s (f : E → E * A) ev e l Q :
  (∀ a, ∃ s', next s (ev a) = Some s' ∧ Q s' l (Val a)) → lfwp s (call f (λ a, [ev a])) e l Q.
Proof.
  intros HQ. apply wp_call. intros e1 a _. destruct (HQ a) as (s' & Hn & ?). exists s'. cbn. by rewrite Hn.
Qed.
Lemma lfwp_modify s (f : L → L) e l Q : Q s (f l) (Val tt) → lfwp s (modify f) e l Q.
Proof. intros HQ. apply wp_modify. eauto. Qed.
Lemma lfwp_get_local s e l Q : Q s l (Val l) → lfwp s get_local e l Q.
Proof. intros HQ. apply wp_get_local. eauto. Qed.
End Rules.
End Protocol.
