(* ===== verification/GoStrings.v ===== *)
(** * Go standard library: package [strings] and [path/filepath]

    The string functions the sources use, on byte strings.  [ToLower] and
    [TrimSpace] are the ASCII part of the Go functions: every constant the
    sources compare the result with is ASCII. *)

From S2P Require Import Prelude.
From stdpp Require Import strings.

Implicit Types (s t : string) (c : Ascii.ascii).

(** Characters by code, for escapes. *)
Definition chr (n : nat) : Ascii.ascii := Ascii.ascii_of_nat n.
Definition newline : string := String (chr 10) EmptyString.
Definition dquote : Ascii.ascii := chr 34.

(** [s[:n]] and [s[n:]], for [n] at most the length. *)
Fixpoint slice_to (n : nat) (s : string) : string :=
  match n, s with
  | S n', String c s' => String c (slice_to n' s')
  | _, _ => EmptyString
  end.
Fixpoint slice_from (n : nat) (s : string) : string :=
  match n, s with
  | O, _ => s
  | S n', String _ s' => slice_from n' s'
  | S _, EmptyString => EmptyString
  end.

Fixpoint HasPrefix (s prefix : string) : bool :=
  match prefix, s with
  | EmptyString, _ => true
  | String p prefix', String c s' => Ascii.eqb p c && HasPrefix s' prefix'
  | String _ _, EmptyString => false
  end.

(** [strings.Contains(s, substr)] *)
Fixpoint Contains (s substr : string) : bool :=
  HasPrefix s substr ||
  match s with
  | EmptyString => false
  | String _ s' => Contains s' substr
  end.

Fixpoint contains_char (c : Ascii.ascii) (s : string) : bool :=
  match s with
  | EmptyString => false
  | String d s' => Ascii.eqb c d || contains_char c s'
  end.

(** [strings.Split(s, sep)] for a one-byte separator: at least one element. *)
Fixpoint Split (s : string) (sep : Ascii.ascii) : list string :=
  match s with
  | EmptyString => [EmptyString]
  | String c s' =>
      if Ascii.eqb c sep then EmptyString :: Split s' sep
      else match Split s' sep with
           | [] => [String c EmptyString]
           | w :: ws => String c w :: ws
           end
  end.

(** [strings.SplitN(s, sep, 2)]: one element when [sep] does not occur. *)
Fixpoint SplitN2 (s : string) (sep : Ascii.ascii) : list string :=
  match s with
  | EmptyString => [EmptyString]
  | String c s' =>
      if Ascii.eqb c sep then [EmptyString; s']
      else match SplitN2 s' sep with
           | [] => [String c EmptyString]
           | w :: ws => String c w :: ws
           end
  end.

(** [strconv.Quote], the [%q] verb, on ASCII text; other bytes are left as they are. *)
Definition hex_char (n : nat) : Ascii.ascii :=
  if n <? 10 then chr (48 + n) else chr (87 + n).
Definition quote_char (c : Ascii.ascii) : string :=
  let n := Ascii.nat_of_ascii c in
  let esc (m : nat) := String (chr 92) (String (chr m) EmptyString) in
  if (n =? 34) || (n =? 92) then esc n
  else if n =? 7 then esc 97 else if n =? 8 then esc 98 else if n =? 12 then esc 102
  else if n =? 10 then esc 110 else if n =? 13 then esc 114 else if n =? 9 then esc 116
  else if n =? 11 then esc 118
  else if (n <? 32) || (n =? 127) then
    esc 120 +:+ String (hex_char (n / 16)) (String (hex_char (n mod 16)) EmptyString)
  else String c EmptyString.
Fixpoint quote_body (s : string) : string :=
  match s with
  | EmptyString => EmptyString
  | String c s' => quote_char c +:+ quote_body s'
  end.
Definition strconv_Quote (s : string) : string :=
  String dquote (quote_body s) +:+ String dquote EmptyString.

(** [strings.Join(l, sep)] *)
Fixpoint Join (l : list string) (sep : string) : string :=
  match l with
  | [] => EmptyString
  | [w] => w
  | w :: ws => w +:+ sep +:+ Join ws sep
  end.

(** [strings.ReplaceAll(s, old, new)] for a non-empty [old]; [skip] counts the
    bytes of an occurrence still to be dropped. *)
Fixpoint replace_all (skip : nat) (s old new : string) : string :=
  match s with
  | EmptyString => EmptyString
  | String c s' =>
      match skip with
      | S skip' => replace_all skip' s' old new
      | O =>
          if HasPrefix s old
          then new +:+ replace_all (String.length old - 1) s' old new
          else String c (replace_all 0 s' old new)
      end
  end.
Definition ReplaceAll (s old new : string) : string := replace_all 0 s old new.

Fixpoint map_string (f : Ascii.ascii → Ascii.ascii) (s : string) : string :=
  match s with
  | EmptyString => EmptyString
  | String c s' => String (f c) (map_string f s')
  end.

Definition is_upper (c : Ascii.ascii) : bool :=
  let n := Ascii.nat_of_ascii c in (65 <=? n) && (n <=? 90).
Definition is_lower (c : Ascii.ascii) : bool :=
  let n := Ascii.nat_of_ascii c in (97 <=? n) && (n <=? 122).
Definition is_digit (c : Ascii.ascii) : bool :=
  let n := Ascii.nat_of_ascii c in (48 <=? n) && (n <=? 57).
Definition is_alnum (c : Ascii.ascii) : bool := is_upper c || is_lower c || is_digit c.
Definition lower_ascii (c : Ascii.ascii) : Ascii.ascii :=
  if is_upper c then Ascii.ascii_of_nat (Ascii.nat_of_ascii c + 32) else c.
Definition ToLower (s : string) : string := map_string lower_ascii s.

Definition is_space (c : Ascii.ascii) : bool :=
  let n := Ascii.nat_of_ascii c in ((9 <=? n) && (n <=? 13)) || (n =? 32).

(** Trimming the bytes that satisfy [p], on the left and on the right. *)
Fixpoint trim_left (p : Ascii.ascii → bool) (s : string) : string :=
  match s with
  | EmptyString => EmptyString
  | String c s' => if p c then trim_left p s' else s
  end.
Fixpoint trim_right (p : Ascii.ascii → bool) (s : string) : string :=
  match s with
  | EmptyString => EmptyString
  | String c s' =>
      match trim_right p s' with
      | EmptyString => if p c then EmptyString else String c EmptyString
      | r => String c r
      end
  end.
Definition trim_by (p : Ascii.ascii → bool) (s : string) : string := trim_right p (trim_left p s).
Definition TrimSpace (s : string) : string := trim_by is_space s.
(** [strings.Trim(s, cutset)] for a one-byte cutset. *)
Definition Trim1 (s : string) (c : Ascii.ascii) : string := trim_by (Ascii.eqb c) s.

(** [filepath.Clean]: lexical processing of the elements of the path. *)
Fixpoint clean_elems (rooted : bool) (out elems : list string) : list string :=
  match elems with
  | [] => rev out
  | e :: rest =>
      if bool_decide (e = "") || bool_decide (e = ".") then clean_elems rooted out rest
      else if bool_decide (e = "..") then
        match out with
        | w :: out' =>
            if bool_decide (w = "..") then clean_elems rooted (".." :: out) rest
            else clean_elems rooted out' rest
        | [] => if rooted then clean_elems rooted [] rest else clean_elems rooted [".."] rest
        end
      else clean_elems rooted (e :: out) rest
  end.
Definition slash : Ascii.ascii := chr 47.
Definition Clean (path : string) : string :=
  let rooted := HasPrefix path "/" in
  let body := Join (clean_elems rooted [] (Split path slash)) "/" in
  if rooted then "/" +:+ body else if bool_decide (body = "") then "." else body.

(** [filepath.Dir]: everything up to the last separator, cleaned. *)
Definition Dir (path : string) : string :=
  match rev (Split path slash) with
  | [] | [_] => "."
  | _ :: init => Clean (Join (rev init) "/" +:+ "/")
  end.

(** [filepath.Join(a, b)]: empty elements are ignored. *)
Definition filepath_Join (elems : list string) : string :=
  match filter (λ e, e ≠ "") elems with
  | [] => ""
  | es => Clean (Join es "/")
  end.

Example Dir_ex : Dir "/run/kubeadm/x.yaml" = "/run/kubeadm". Proof. reflexivity. Qed.
Example Dir_ex2 : Dir "file" = ".". Proof. reflexivity. Qed.
Example Dir_ex3 : Dir "/a" = "/". Proof. reflexivity. Qed.
Example Clean_ex : Clean "/a/./b//../c" = "/a/c". Proof. reflexivity. Qed.
Example ReplaceAll_ex : ReplaceAll "K8sInstallerConfigTemplate" "Template" "" = "K8sInstallerConfig".
Proof. reflexivity. Qed.
Example TrimSpace_ex : TrimSpace "  a b " = "a b". Proof. reflexivity. Qed.

(** ** Lemmas *)

Lemma length_sapp s t : String.length (s +:+ t) = String.length s + String.length t.
Proof. induction s; simpl; congruence. Qed.

Lemma length_slice_to n s : String.length (slice_to n s) = Nat.min n (String.length s).
Proof. revert s. induction n; intros [|c s]; simpl; auto. Qed.

Lemma slice_to_app s t : slice_to (String.length s) (s +:+ t) = s.
Proof. induction s; simpl; [by destruct t|congruence]. Qed.

Lemma slice_from_app s t : slice_from (String.length s) (s +:+ t) = t.
Proof. induction s; simpl; auto. Qed.

Lemma sapp_inj_1 s1 t1 s2 t2 :
  String.length s1 = String.length s2 → s1 +:+ t1 = s2 +:+ t2 → s1 = s2 ∧ t1 = t2.
Proof.
  revert s2. induction s1; intros [|c s2]; simpl; intros; simplify_eq; [done|].
  destruct (IHs1 s2) as [-> ->]; auto.
Qed.

Lemma sapp_assoc s t u : (s +:+ t) +:+ u = s +:+ (t +:+ u).
Proof. induction s; simpl; congruence. Qed.

Lemma sapp_nil_r s : s +:+ "" = s.
Proof. induction s; simpl; congruence. Qed.

Lemma Split_not_nil s sep : Split s sep ≠ [].
Proof. destruct s; simpl; [done|]. case_match; [done|]. by destruct (Split _ _). Qed.

Lemma HasPrefix_app s t : HasPrefix (s +:+ t) s = true.
Proof. induction s; simpl; [by destruct t|]. by rewrite Ascii.eqb_refl. Qed.

Lemma HasPrefix_spec s p : HasPrefix s p = true ↔ ∃ t, s = p +:+ t.
Proof.
  split.
  - revert s. induction p as [|c p IH]; intros s; simpl; [by exists s|].
    destruct s as [|d s]; [done|]. intros [Hc H]%andb_prop.
    apply Ascii.eqb_eq in Hc as ->. destruct (IH _ H) as [t ->]. by exists t.
  - intros [t ->]. apply HasPrefix_app.
Qed.

(** Splitting at the first separator, when the left part does not contain it. *)
Lemma SplitN2_app s sep t :
  contains_char sep s = false →
  SplitN2 (s +:+ String sep t) sep = [s; t].
Proof.
  induction s as [|c s IH]; simpl; intros H.
  - by rewrite Ascii.eqb_refl.
  - apply orb_false_elim in H as [Hc H]. rewrite Ascii.eqb_sym, Hc. by rewrite IH.
Qed.

Lemma Split_no_sep s sep : contains_char sep s = false → Split s sep = [s].
Proof.
  induction s as [|c s IH]; simpl; [done|].
  intros [Hc H]%orb_false_elim. rewrite Ascii.eqb_sym, Hc. by rewrite IH.
Qed.

Lemma Split_app s sep t :
  contains_char sep s = false → Split (s +:+ String sep t) sep = s :: Split t sep.
Proof.
  induction s as [|c s IH]; simpl; intros H.
  - by rewrite Ascii.eqb_refl.
  - apply orb_false_elim in H as [Hc H]. rewrite Ascii.eqb_sym, Hc. by rewrite IH.
Qed.

(** A separator-free prefix is determined by the whole string. *)
Lemma sep_prefix_inj sep s1 t1 s2 t2 :
  contains_char sep s1 = false → contains_char sep s2 = false →
  s1 +:+ String sep t1 = s2 +:+ String sep t2 → s1 = s2 ∧ t1 = t2.
Proof.
  intros H1 H2 Heq. apply (f_equal (λ s, SplitN2 s sep)) in Heq.
  rewrite !SplitN2_app in Heq by done. by simplify_eq.
Qed.

Lemma Join_Split s sep : Join (Split s sep) (String sep EmptyString) = s.
Proof.
  induction s as [|c s IH]; simpl; [done|].
  destruct (Ascii.eqb_spec c sep) as [->|Hne].
  - destruct (Split s sep) as [|w ws] eqn:Hs; [by apply Split_not_nil in Hs|].
    change (Join ("" :: w :: ws) (String sep "")) with
      ("" +:+ String sep "" +:+ Join (w :: ws) (String sep "")).
    simpl in *. by rewrite IH.
  - destruct (Split s sep) as [|w ws] eqn:Hs; [by apply Split_not_nil in Hs|].
    destruct ws; simpl in *; congruence.
Qed.

#[export] Hint Rewrite length_sapp length_slice_to : go.
