(* ===== verification/Encoding.v ===== *)
(** * Go standard library: [encoding/base64] (StdEncoding), [encoding/hex] and [crypto/sha256]

    Executable models of the three encodings the sources use: the base64
    decoder of cloud-init contents, kubeconfigs and CA data, and the SHA-256
    hex digest that shortens label values.  The round trip of base64 and the
    lengths of the digest are proved here. *)

From S2P Require Import Prelude GoStrings.

Local Open Scope N_scope.

(** ** Bytes of a string *)

Fixpoint bytes_of (s : string) : list N :=
  match s with
  | EmptyString => []
  | String c s' => Ascii.N_of_ascii c :: bytes_of s'
  end.
Fixpoint string_of (l : list N) : string :=
  match l with
  | [] => EmptyString
  | b :: l' => String (Ascii.ascii_of_N b) (string_of l')
  end.

Lemma string_of_bytes_of s : string_of (bytes_of s) = s.
Proof. induction s; simpl; [done|]. by rewrite Ascii.ascii_N_embedding, IHs. Qed.

Lemma bytes_of_bounded s : Forall (λ b, b < 256) (bytes_of s).
Proof. induction s; simpl; constructor; auto. apply Ascii.N_ascii_bounded. Qed.

Lemma string_of_app l1 l2 : string_of (l1 ++ l2) = string_of l1 +:+ string_of l2.
Proof. induction l1; simpl; congruence. Qed.

Lemma length_string_of l : String.length (string_of l) = length l.
Proof. induction l; simpl; congruence. Qed.

(** ** Base64 *)
Module Base64.

Definition pad : Ascii.ascii := chr 61.

Definition enc64 (n : N) : Ascii.ascii :=
  Ascii.ascii_of_N
    (if n <? 26 then 65 + n
     else if n <? 52 then 71 + n
     else if n <? 62 then n - 4
     else if n =? 62 then 43 else 47).

Definition dec64 (c : Ascii.ascii) : option N :=
  let n := Ascii.N_of_ascii c in
  if (65 <=? n) && (n <=? 90) then Some (n - 65)
  else if (97 <=? n) && (n <=? 122) then Some (n - 71)
  else if (48 <=? n) && (n <=? 57) then Some (n + 4)
  else if n =? 43 then Some 62
  else if n =? 47 then Some 63
  else None.

Fixpoint encode (l : list N) : string :=
  match l with
  | [] => EmptyString
  | [a] => String (enc64 (a / 4)) (String (enc64 (a mod 4 * 16)) (String pad (String pad EmptyString)))
  | [a; b] =>
      String (enc64 (a / 4)) (String (enc64 (a mod 4 * 16 + b / 16))
        (String (enc64 (b mod 16 * 4)) (String pad EmptyString)))
  | a :: b :: c :: l' =>
      String (enc64 (a / 4)) (String (enc64 (a mod 4 * 16 + b / 16))
        (String (enc64 (b mod 16 * 4 + c / 64)) (String (enc64 (c mod 64)) (encode l'))))
  end.
Definition EncodeToString (s : string) : string := encode (bytes_of s).

(** The decoder skips line breaks everywhere. *)
Definition is_break (c : Ascii.ascii) : bool := Ascii.eqb c (chr 10) || Ascii.eqb c (chr 13).
Fixpoint strip_breaks (s : string) : string :=
  match s with
  | EmptyString => EmptyString
  | String c s' => if is_break c then strip_breaks s' else String c (strip_breaks s')
  end.

(** The padded quantum that ends the input; nothing may follow it. *)
Definition decode_last (a b : N) (c d : Ascii.ascii) : option (list N) :=
  if Ascii.eqb d pad then
    if Ascii.eqb c pad then Some [(a * 4 + b / 16) mod 256]
    else match dec64 c with
         | Some c' => Some [(a * 4 + b / 16) mod 256; (b * 16 + c' / 4) mod 256]
         | None => None
         end
  else None.

Fixpoint decode (s : string) : option (list N) :=
  match s with
  | EmptyString => Some []
  | String a (String b (String c (String d s'))) =>
      match dec64 a, dec64 b with
      | Some a', Some b' =>
          match dec64 c, dec64 d with
          | Some c', Some d' =>
              match decode s' with
              | Some l => Some ((a' * 4 + b' / 16) mod 256 :: (b' * 16 + c' / 4) mod 256
                                  :: (c' * 64 + d') mod 256 :: l)
              | None => None
              end
          | _, _ => if bool_decide (s' = EmptyString) then decode_last a' b' c d else None
          end
      | _, _ => None
      end
  | _ => None
  end.

(** [base64.StdEncoding.DecodeString] *)
Definition DecodeString (s : string) : result string :=
  match decode (strip_breaks s) with
  | Some l => Ok (string_of l)
  | None => Err (errors_New "illegal base64 data")
  end.

Lemma dec64_enc64 n : n < 64 → dec64 (enc64 n) = Some n.
Proof.
  intros Hn.
  assert (forallb (λ k, bool_decide (dec64 (enc64 (N.of_nat k)) = Some (N.of_nat k))) (seq 0 64) = true)
    as Hall by (vm_compute; reflexivity).
  rewrite forallb_forall in Hall.
  specialize (Hall (N.to_nat n)). rewrite N2Nat.id in Hall.
  apply (bool_decide_eq_true_1 _), Hall, in_seq. lia.
Qed.

Lemma enc64_not_break n : n < 64 → is_break (enc64 n) = false.
Proof.
  intros Hn.
  assert (forallb (λ k, negb (is_break (enc64 (N.of_nat k)))) (seq 0 64) = true)
    as Hall by (vm_compute; reflexivity).
  rewrite forallb_forall in Hall.
  specialize (Hall (N.to_nat n)). rewrite N2Nat.id in Hall.
  apply negb_true_iff, Hall, in_seq. lia.
Qed.

Ltac quantum_lia := zify; Z.to_euclidean_division_equations; lia.

(** Induction by quanta of three bytes. *)
Lemma quantum_ind (P : list N → Prop) :
  P [] → (∀ a, P [a]) → (∀ a b, P [a; b]) →
  (∀ a b c l, P l → P (a :: b :: c :: l)) → ∀ l, P l.
Proof.
  intros H0 H1 H2 H3 l. remember (length l) as n eqn:Hn.
  revert l Hn. induction (lt_wf n) as [n _ IH]; intros l ->.
  destruct l as [|a [|b [|c l]]]; auto. apply H3. by apply (IH (length l)); simpl; [lia|].
Qed.

Lemma dec64_pad : dec64 pad = None.
Proof. reflexivity. Qed.

Lemma strip_breaks_encode l :
  Forall (λ b, b < 256) l → strip_breaks (encode l) = encode l.
Proof.
  induction l using quantum_ind; intros Hb; repeat (apply Forall_cons in Hb as [? Hb]); simpl;
    rewrite ?enc64_not_break by quantum_lia; try done.
  by rewrite IHl.
Qed.

Lemma decode_encode l : Forall (λ b, b < 256) l → decode (encode l) = Some l.
Proof.
  induction l using quantum_ind; intros Hb; repeat (apply Forall_cons in Hb as [? Hb]); simpl;
    rewrite ?dec64_enc64 by quantum_lia; [done|..].
  - rewrite ?dec64_pad. unfold decode_last. simpl. repeat f_equal. quantum_lia.
  - rewrite ?dec64_pad. rewrite ?bool_decide_eq_true_2 by done. unfold decode_last.
    rewrite dec64_enc64 by quantum_lia.
    destruct (Ascii.eqb_spec (enc64 (b mod 16 * 4)) pad) as [He|_].
    + apply (f_equal dec64) in He. by rewrite dec64_enc64 in He by quantum_lia.
    + simpl. do 2 f_equal; [quantum_lia|f_equal; quantum_lia].
  - rewrite IHl by done. do 2 f_equal; [quantum_lia|]. f_equal; [quantum_lia|]. f_equal. quantum_lia.
Qed.

Lemma DecodeString_EncodeToString s : DecodeString (EncodeToString s) = Ok s.
Proof.
  unfold DecodeString, EncodeToString.
  rewrite strip_breaks_encode, decode_encode by apply bytes_of_bounded.
  by rewrite string_of_bytes_of.
Qed.

Example decode_hello : DecodeString "aGVsbG8gd29ybGQ=" = Ok "hello world".
Proof. vm_compute. reflexivity. Qed.
Example decode_bad : DecodeString "aGVsbG8" = Err (errors_New "illegal base64 data").
Proof. vm_compute. reflexivity. Qed.
End Base64.

(** ** Hexadecimal *)

Definition hex_digit (n : N) : Ascii.ascii :=
  Ascii.ascii_of_N (if n <? 10 then 48 + n else 87 + n).
(** [hex.EncodeToString] *)
Fixpoint hex_EncodeToString (l : list N) : string :=
  match l with
  | [] => EmptyString
  | b :: l' => String (hex_digit (b / 16)) (String (hex_digit (b mod 16)) (hex_EncodeToString l'))
  end.

Lemma length_hex l : String.length (hex_EncodeToString l) = (2 * length l)%nat.
Proof. induction l; simpl; lia. Qed.

(** ** SHA-256 *)
Module Sha256.

Definition w32 : N := 4294967296.
Definition add32 (a b : N) : N := (a + b) mod w32.
Definition rotr (n x : N) : N := N.lor (N.shiftr x n) ((N.shiftl x (32 - n)) mod w32).

(** The constants of the algorithm, from their definition: the first 32 bits
    of the fractional parts of the cube roots (for the rounds) and of the
    square roots (for the initial registers) of the first primes. *)
Definition is_prime (n : nat) : bool :=
  forallb (λ d, negb (Nat.modulo n d =? 0)%nat) (seq 2 (n - 2)).
Definition primes : list N :=
  Eval vm_compute in map N.of_nat (List.filter is_prime (seq 2 310)).

(** The integer cube root below [2^bits], bit by bit. *)
Fixpoint cube_root (bits : nat) (acc n : N) : N :=
  match bits with
  | O => acc
  | S b =>
      let c := acc + N.shiftl 1 (N.of_nat b) in
      cube_root b (if c * c * c <=? n then c else acc) n
  end.

Definition K : list N :=
  Eval vm_compute in map (λ p, cube_root 36 0 (N.shiftl p 96) mod w32) primes.
Definition H0 : list N :=
  Eval vm_compute in map (λ p, N.sqrt (N.shiftl p 64) mod w32) (firstn 8 primes).

Definition ssig0 (x : N) : N := N.lxor (N.lxor (rotr 7 x) (rotr 18 x)) (N.shiftr x 3).
Definition ssig1 (x : N) : N := N.lxor (N.lxor (rotr 17 x) (rotr 19 x)) (N.shiftr x 10).
Definition bsig0 (x : N) : N := N.lxor (N.lxor (rotr 2 x) (rotr 13 x)) (rotr 22 x).
Definition bsig1 (x : N) : N := N.lxor (N.lxor (rotr 6 x) (rotr 11 x)) (rotr 25 x).
Definition Ch (x y z : N) : N := N.lxor (N.land x y) (N.land (N.lxor x (w32 - 1)) z).
Definition Maj (x y z : N) : N := N.lxor (N.lxor (N.land x y) (N.land x z)) (N.land y z).

(** Big-endian words of a block, the message schedule (newest word first), one round. *)
Fixpoint words (l : list N) : list N :=
  match l with
  | a :: b :: c :: d :: l' => (a * 16777216 + b * 65536 + c * 256 + d) :: words l'
  | _ => []
  end.

Fixpoint schedule (n : nat) (rev_w : list N) : list N :=
  match n with
  | O => rev_w
  | S n' =>
      let at_ i := nth i rev_w 0 in
      schedule n' (add32 (add32 (ssig1 (at_ 1%nat)) (at_ 6%nat))
                     (add32 (ssig0 (at_ 14%nat)) (at_ 15%nat)) :: rev_w)
  end.

Record Regs := mkRegs { ra : N; rb : N; rc : N; rd : N; re : N; rf : N; rg : N; rh : N }.

Definition round (r : Regs) (kw : N * N) : Regs :=
  let t1 := add32 (add32 (add32 (rh r) (bsig1 (re r))) (add32 (Ch (re r) (rf r) (rg r)) (fst kw))) (snd kw) in
  let t2 := add32 (bsig0 (ra r)) (Maj (ra r) (rb r) (rc r)) in
  mkRegs (add32 t1 t2) (ra r) (rb r) (rc r) (add32 (rd r) t1) (re r) (rf r) (rg r).

Definition block (h : Regs) (b : list N) : Regs :=
  let w := rev (schedule 48 (rev (words b))) in
  let r := fold_left round (combine K w) h in
  mkRegs (add32 (ra h) (ra r)) (add32 (rb h) (rb r)) (add32 (rc h) (rc r)) (add32 (rd h) (rd r))
         (add32 (re h) (re r)) (add32 (rf h) (rf r)) (add32 (rg h) (rg r)) (add32 (rh h) (rh r)).

(** [n] blocks of 64 bytes. *)
Fixpoint blocks (n : nat) (h : Regs) (l : list N) : Regs :=
  match n with
  | O => h
  | S n' => blocks n' (block h (firstn 64 l)) (skipn 64 l)
  end.

Definition be_bytes (k : nat) (n : N) : list N :=
  (fix go k n acc := match k with O => acc | S k' => go k' (n / 256) (n mod 256 :: acc) end) k n [].

(** Padding: 0x80, zeros up to 56 modulo 64, the bit length on 8 bytes. *)
Definition padding (len : nat) : list N :=
  let z := ((119 - len mod 64) mod 64)%nat in
  0x80 :: repeat 0 z ++ be_bytes 8 (8 * N.of_nat len).

Definition regs_bytes (r : Regs) : list N :=
  be_bytes 4 (ra r) ++ be_bytes 4 (rb r) ++ be_bytes 4 (rc r) ++ be_bytes 4 (rd r) ++
  be_bytes 4 (re r) ++ be_bytes 4 (rf r) ++ be_bytes 4 (rg r) ++ be_bytes 4 (rh r).

Definition init_regs : Regs :=
  let at_ i := nth i H0 0 in
  mkRegs (at_ 0%nat) (at_ 1%nat) (at_ 2%nat) (at_ 3%nat) (at_ 4%nat) (at_ 5%nat) (at_ 6%nat) (at_ 7%nat).

(** [h := sha256.New(); h.Write(data); h.Sum(nil)] *)
Definition Sum (data : list N) : list N :=
  let msg := data ++ padding (length data) in
  regs_bytes (blocks (length msg / 64)%nat init_regs msg).

Lemma length_Sum data : length (Sum data) = 32%nat.
Proof. reflexivity. Qed.

(** The padded message is a whole number of blocks. *)
Lemma padded_blocks data : (64 | Z.of_nat (length (data ++ padding (length data))))%Z.
Proof.
  unfold padding. rewrite length_app, length_cons, length_app, repeat_length.
  change (length (be_bytes 8 _)) with 8%nat.
  pose proof (Nat.div_mod_eq (length data) 64) as H1.
  pose proof (Nat.div_mod_eq (119 - length data mod 64) 64) as H2.
  pose proof (Nat.mod_upper_bound (length data) 64) as H3.
  exists (Z.of_nat (length data / 64) + 2 - Z.of_nat ((119 - length data mod 64) / 64))%Z.
  lia.
Qed.

(** FIPS 180-4 test vectors. *)
Example sha256_abc : hex_EncodeToString (Sum (bytes_of "abc")) =
  "ba7816bf8f01cfea414140de5dae2223b00361a396177a9cb410ff61f20015ad".
Proof. vm_compute. reflexivity. Qed.
Example sha256_two_blocks :
  hex_EncodeToString (Sum (bytes_of "abcdbcdecdefdefgefghfghighijhijkijkljklmklmnlmnomnopnopq")) =
  "248d6a61d20638b8e5c026930c3e6039a33ce45964ff2167f6ecedd419db06c1".
Proof. vm_compute. reflexivity. Qed.
Example sha256_empty : hex_EncodeToString (Sum []) =
  "e3b0c44298fc1c149afbf4c8996fb92427ae41e4649b934ca495991b7852b855".
Proof. vm_compute. reflexivity. Qed.
End Sha256.
