(* ===== verification/Regex.v ===== *)
(** * Go standard library: package [regexp], on ASCII text

    The patterns the sources compile: literals, [.], classes, groups,
    alternation, the repetition operators and the anchors.  A parser turns a
    pattern into a regular expression, and derivatives decide an unanchored
    match.  The anchors match the two end markers that surround the text.
    Theorem of this file: the matcher decides the language of the expression. *)

From S2P Require Import Prelude GoStrings.
From Stdlib Require Import Ascii.

(** ** Expressions and their languages *)

(** A symbol of the input: a byte, or the begin or end of the text. *)
Inductive sym := SBegin | SChar (c : ascii) | SEnd.

#[export] Instance sym_eq_dec : EqDecision sym.
Proof. solve_decision. Defined.

(** What one symbol is tested for: a byte in (or not in) ranges of codes, any
    byte but newline, an anchor, or anything at all. *)
Inductive test :=
  | TRanges (neg : bool) (ranges : list (nat * nat))
  | TDot | TBegin | TEnd | TAny.

Definition in_ranges (n : nat) (rs : list (nat * nat)) : bool :=
  existsb (λ r, (r.1 <=? n) && (n <=? r.2)) rs.

Definition test_ok (t : test) (x : sym) : bool :=
  match t, x with
  | TRanges neg rs, SChar c => xorb neg (in_ranges (nat_of_ascii c) rs)
  | TDot, SChar c => negb (nat_of_ascii c =? 10)
  | TBegin, SBegin => true
  | TEnd, SEnd => true
  | TAny, _ => true
  | _, _ => false
  end.

Inductive regex :=
  | RNone | REps | RTest (t : test)
  | RSeq (r1 r2 : regex) | RAlt (r1 r2 : regex) | RStar (r : regex).

Inductive matches : regex → list sym → Prop :=
  | M_eps : matches REps []
  | M_test t x : test_ok t x = true → matches (RTest t) [x]
  | M_seq r1 r2 l1 l2 : matches r1 l1 → matches r2 l2 → matches (RSeq r1 r2) (l1 ++ l2)
  | M_alt_l r1 r2 l : matches r1 l → matches (RAlt r1 r2) l
  | M_alt_r r1 r2 l : matches r2 l → matches (RAlt r1 r2) l
  | M_star_nil r : matches (RStar r) []
  | M_star_app r x l1 l2 :
      matches r (x :: l1) → matches (RStar r) l2 → matches (RStar r) (x :: l1 ++ l2).

#[export] Hint Constructors matches : go.

(** ** Matching by derivatives *)

Fixpoint nullable (r : regex) : bool :=
  match r with
  | RNone | RTest _ => false
  | REps | RStar _ => true
  | RSeq r1 r2 => nullable r1 && nullable r2
  | RAlt r1 r2 => nullable r1 || nullable r2
  end.

(** Constructors that drop what cannot match. *)
Definition seq_ (r1 r2 : regex) : regex :=
  match r1 with RNone => RNone | REps => r2 | _ => RSeq r1 r2 end.
Definition alt_ (r1 r2 : regex) : regex :=
  match r1, r2 with RNone, _ => r2 | _, RNone => r1 | _, _ => RAlt r1 r2 end.

Fixpoint deriv (x : sym) (r : regex) : regex :=
  match r with
  | RNone | REps => RNone
  | RTest t => if test_ok t x then REps else RNone
  | RSeq r1 r2 =>
      if nullable r1 then alt_ (seq_ (deriv x r1) r2) (deriv x r2) else seq_ (deriv x r1) r2
  | RAlt r1 r2 => alt_ (deriv x r1) (deriv x r2)
  | RStar r1 => seq_ (deriv x r1) (RStar r1)
  end.

Definition accepts (r : regex) (l : list sym) : bool := nullable (foldl (λ r x, deriv x r) r l).

Lemma not_matches_none l : ¬ matches RNone l.
Proof. inversion 1. Qed.

Lemma matches_seq_split r1 r2 l :
  matches (RSeq r1 r2) l ↔ ∃ l1 l2, l = l1 ++ l2 ∧ matches r1 l1 ∧ matches r2 l2.
Proof.
  split; [inversion 1; subst; eauto|]. intros (l1 & l2 & -> & H1 & H2). by constructor.
Qed.

Lemma matches_eps l : matches REps l ↔ l = [].
Proof. split; [by inversion 1|intros ->; constructor]. Qed.

Lemma matches_seq_ r1 r2 l : matches (seq_ r1 r2) l ↔ matches (RSeq r1 r2) l.
Proof.
  destruct r1; simpl; try done; split.
  - by intros ?%not_matches_none.
  - by intros (? & ? & ? & []%not_matches_none & ?)%matches_seq_split.
  - intros H. by apply (M_seq REps r2 [] l M_eps).
  - by intros (? & ? & -> & ->%matches_eps & ?)%matches_seq_split.
Qed.

Lemma matches_alt r1 r2 l : matches (RAlt r1 r2) l ↔ matches r1 l ∨ matches r2 l.
Proof. split; [inversion 1; auto|intros []; eauto with go]. Qed.

Lemma matches_alt_ r1 r2 l : matches (alt_ r1 r2) l ↔ matches r1 l ∨ matches r2 l.
Proof.
  pose proof (not_matches_none l).
  destruct r1, r2; simpl; rewrite ?matches_alt; tauto.
Qed.

Lemma nullable_spec r : nullable r = true ↔ matches r [].
Proof.
  induction r as [| |t|r1 IH1 r2 IH2|r1 IH1 r2 IH2|r IH]; simpl.
  - split; [done|by intros ?%not_matches_none].
  - split; eauto with go.
  - split; [done|inversion 1].
  - rewrite andb_true_iff, IH1, IH2. split.
    + intros [H1 H2]. apply (M_seq _ _ [] [] H1 H2).
    + intros (l1 & l2 & Hnil & H1 & H2)%matches_seq_split.
      symmetry in Hnil. by apply app_eq_nil in Hnil as [-> ->].
  - rewrite orb_true_iff, IH1, IH2, matches_alt. done.
  - split; eauto with go.
Qed.

Lemma matches_seq_cons r1 r2 x l :
  matches (RSeq r1 r2) (x :: l) ↔
  (∃ l1 l2, l = l1 ++ l2 ∧ matches r1 (x :: l1) ∧ matches r2 l2) ∨
  (matches r1 [] ∧ matches r2 (x :: l)).
Proof.
  split.
  - intros (l1 & l2 & Heq & H1 & H2)%matches_seq_split.
    destruct l1 as [|y l1]; simplify_eq/=; [by right|left; eauto].
  - intros [(l1 & l2 & -> & H1 & H2)|[H1 H2]].
    + by apply (M_seq _ _ (x :: l1) l2).
    + by apply (M_seq _ _ [] (x :: l)).
Qed.

Lemma deriv_spec r : ∀ x l, matches (deriv x r) l ↔ matches r (x :: l).
Proof.
  induction r as [| |t|r1 IH1 r2 IH2|r1 IH1 r2 IH2|r IH]; intros x l; simpl.
  - split; by intros ?%not_matches_none.
  - split; [by intros ?%not_matches_none|inversion 1].
  - destruct (test_ok t x) eqn:Ht; split.
    + inversion 1. by constructor.
    + inversion 1; subst. constructor.
    + by intros ?%not_matches_none.
    + inversion 1; subst. congruence.
  - rewrite matches_seq_cons, <- nullable_spec.
    assert (matches (seq_ (deriv x r1) r2) l ↔
      ∃ l1 l2, l = l1 ++ l2 ∧ matches r1 (x :: l1) ∧ matches r2 l2) as Hs.
    { rewrite matches_seq_, matches_seq_split. by setoid_rewrite IH1. }
    destruct (nullable r1); rewrite ?matches_alt_, Hs, ?IH2; intuition congruence.
  - rewrite matches_alt_, matches_alt, IH1, IH2. done.
  - rewrite matches_seq_, matches_seq_split. setoid_rewrite IH. split.
    + intros (l1 & l2 & -> & H1 & H2). by constructor.
    + inversion 1; subst; eauto.
Qed.

Lemma accepts_spec r l : accepts r l = true ↔ matches r l.
Proof.
  unfold accepts. revert r. induction l as [|x l IH]; intros r; simpl.
  - apply nullable_spec.
  - by rewrite IH, deriv_spec.
Qed.

(** ** Parsing a pattern *)

Definition lit (c : ascii) : regex := RTest (TRanges false [(nat_of_ascii c, nat_of_ascii c)]).
Definition RPlus (r : regex) : regex := RSeq r (RStar r).
Definition ROpt (r : regex) : regex := RAlt r REps.
Fixpoint RPow (n : nat) (r : regex) : regex :=
  match n with O => REps | S n' => RSeq r (RPow n' r) end.
Fixpoint RUpTo (n : nat) (r : regex) : regex :=
  match n with O => REps | S n' => RAlt (RSeq r (RUpTo n' r)) REps end.

Definition is_char (n : nat) (c : ascii) : bool := nat_of_ascii c =? n.

(** A decimal number and what follows it. *)
Fixpoint digits (s : string) (acc : option nat) : option nat * string :=
  match s with
  | String c s' =>
      let n := nat_of_ascii c in
      if (48 <=? n) && (n <=? 57) then digits s' (Some (10 * default 0 acc + (n - 48))) else (acc, s)
  | EmptyString => (acc, EmptyString)
  end.

(** [{n}], [{n,}] or [{n,m}], after the opening brace. *)
Definition parse_repeat (s : string) : option (nat * option (option nat) * string) :=
  match digits s None with
  | (Some n, String c s1) =>
      if is_char 125 c then Some (n, None, s1)
      else if is_char 44 c then
        match digits s1 None with
        | (m, String d s2) => if is_char 125 d then Some (n, Some m, s2) else None
        | _ => None
        end
      else None
  | _ => None
  end.

(** A repetition operator after an atom; a [?] after it (lazy matching) does
    not change which texts match. *)
Definition skip_lazy (s : string) : string :=
  match s with String c s' => if is_char 63 c then s' else s | EmptyString => s end.
Definition postfix (r : regex) (s : string) : regex * string :=
  match s with
  | String c s' =>
      if is_char 42 c then (RStar r, skip_lazy s')
      else if is_char 43 c then (RPlus r, skip_lazy s')
      else if is_char 63 c then (ROpt r, skip_lazy s')
      else if is_char 123 c then
        match parse_repeat s' with
        | Some (n, None, s2) => (RPow n r, skip_lazy s2)
        | Some (n, Some None, s2) => (RSeq (RPow n r) (RStar r), skip_lazy s2)
        | Some (n, Some (Some m), s2) => (RSeq (RPow n r) (RUpTo (m - n) r), skip_lazy s2)
        | None => (r, s)
        end
      else (r, s)
  | EmptyString => (r, s)
  end.

(** The items of a class, up to the closing bracket; [first] says that a
    closing bracket would be a literal. *)
Fixpoint parse_class (first : bool) (s : string) (acc : list (nat * nat)) :
    option (list (nat * nat) * string) :=
  match s with
  | EmptyString => None
  | String c s1 =>
      if is_char 93 c && negb first then Some (acc, s1)
      else
        let lo := nat_of_ascii c in
        match s1 with
        | String d (String e s3) =>
            if is_char 45 d && negb (is_char 93 e) then
              let hi := nat_of_ascii e in
              if lo <=? hi then parse_class false s3 ((lo, hi) :: acc) else None
            else parse_class false s1 ((lo, lo) :: acc)
        | _ => parse_class false s1 ((lo, lo) :: acc)
        end
  end.

Definition is_escape_literal (c : ascii) : bool :=
  negb (is_alnum c).

Fixpoint parse_alt (fuel : nat) (s : string) : option (regex * string) :=
  match fuel with
  | O => None
  | S f =>
      match parse_seq f s with
      | Some (r, String c s') =>
          if is_char 124 c then
            match parse_alt f s' with Some (r2, s2) => Some (RAlt r r2, s2) | None => None end
          else Some (r, String c s')
      | x => x
      end
  end
with parse_seq (fuel : nat) (s : string) : option (regex * string) :=
  match fuel with
  | O => None
  | S f =>
      match s with
      | EmptyString => Some (REps, EmptyString)
      | String c _ =>
          if is_char 41 c || is_char 124 c then Some (REps, s)
          else
            match parse_atom f s with
            | None => None
            | Some (a, s1) =>
                let '(a', s2) := postfix a s1 in
                match parse_seq f s2 with
                | Some (r, s3) => Some (RSeq a' r, s3)
                | None => None
                end
            end
      end
  end
with parse_atom (fuel : nat) (s : string) : option (regex * string) :=
  match fuel with
  | O => None
  | S f =>
      match s with
      | EmptyString => None
      | String c s' =>
          if is_char 46 c then Some (RTest TDot, s')
          else if is_char 94 c then Some (RTest TBegin, s')
          else if is_char 36 c then Some (RTest TEnd, s')
          else if is_char 42 c || is_char 43 c || is_char 63 c then None
          else if is_char 92 c then
            match s' with
            | String d s2 => if is_escape_literal d then Some (lit d, s2) else None
            | EmptyString => None
            end
          else if is_char 91 c then
            match s' with
            | String d s2 =>
                if is_char 94 d then
                  match parse_class true s2 [] with
                  | Some (rs, s3) => Some (RTest (TRanges true rs), s3)
                  | None => None
                  end
                else
                  match parse_class true s' [] with
                  | Some (rs, s3) => Some (RTest (TRanges false rs), s3)
                  | None => None
                  end
            | EmptyString => None
            end
          else if is_char 40 c then
            match parse_alt f s' with
            | Some (r, String d s2) => if is_char 41 d then Some (r, s2) else None
            | _ => None
            end
          else Some (lit c, s')
      end
  end.

(** Each level of the grammar consumes at most one unit of fuel per byte and
    per group, three in all. *)
Definition regexp_Compile (pattern : string) : option regex :=
  match parse_alt (3 * String.length pattern + 3) pattern with
  | Some (r, EmptyString) => Some r
  | _ => None
  end.

Fixpoint syms (s : string) : list sym :=
  match s with EmptyString => [] | String c s' => SChar c :: syms s' end.
Definition text (s : string) : list sym := SBegin :: syms s ++ [SEnd].

(** [re.MatchString(s)]: some part of the text matches. *)
Definition anything : regex := RStar (RTest TAny).
Definition search (r : regex) (s : string) : bool :=
  accepts (RSeq anything (RSeq r anything)) (text s).

(** [regexp.MatchString(pattern, s)] *)
Definition regexp_MatchString (pattern s : string) : result bool :=
  match regexp_Compile pattern with
  | Some r => Ok (search r s)
  | None => Err (errors_New ("error parsing regexp: " +:+ pattern))
  end.

(** ** What a search means *)

Lemma matches_anything l : matches anything l.
Proof.
  induction l as [|x l IH]; [constructor|].
  by apply (M_star_app (RTest TAny) x [] l); [constructor|].
Qed.

Lemma search_spec r s :
  search r s = true ↔ ∃ l1 l l2, text s = l1 ++ l ++ l2 ∧ matches r l.
Proof.
  unfold search. rewrite accepts_spec, matches_seq_split. setoid_rewrite matches_seq_split. split.
  - intros (l1 & ? & -> & _ & l & l2 & -> & Hr & _). eauto.
  - intros (l1 & l & l2 & -> & Hr). eauto 10 using matches_anything.
Qed.

Example match_os : regexp_MatchString "Ubuntu_20.04.*_x86-64" "Ubuntu_20.04.6_LTS_x86-64" = Ok true.
Proof. vm_compute. reflexivity. Qed.
Example match_os_no : regexp_MatchString "Ubuntu_20.04.*_x86-64" "Ubuntu_22.04.3_LTS_x86-64" = Ok false.
Proof. vm_compute. reflexivity. Qed.
Example match_email :
  regexp_MatchString "^[a-zA-Z0-9._%+-]+@[a-zA-Z0-9.-]+\.[a-zA-Z]{2,}$" "jo.doe@example.com" = Ok true.
Proof. vm_compute. reflexivity. Qed.

(** ** Patterns of plain text

    A string without operators stands for itself, except that [.] stands for
    any byte but a newline. *)

Definition plain_char (c : ascii) : bool :=
  negb (existsb (λ n, is_char n c) [36; 40; 41; 42; 43; 63; 91; 92; 94; 123; 124]).

Fixpoint plain (s : string) : bool :=
  match s with EmptyString => true | String c s' => plain_char c && plain s' end.

Definition char_re (c : ascii) : regex := if is_char 46 c then RTest TDot else lit c.
Fixpoint chain (s : string) (r : regex) : regex :=
  match s with EmptyString => r | String c s' => RSeq (char_re c) (chain s' r) end.

(** The texts a plain pattern stands for. *)
Fixpoint like (s w : string) : Prop :=
  match s, w with
  | EmptyString, EmptyString => True
  | String c s', String d w' =>
      (if is_char 46 c then is_char 10 d = false else d = c) ∧ like s' w'
  | _, _ => False
  end.

Definition no_postfix (s : string) : bool :=
  match s with
  | String c _ => negb (existsb (λ n, is_char n c) [42; 43; 63; 123])
  | EmptyString => true
  end.

Lemma postfix_none a s : no_postfix s = true → postfix a s = (a, s).
Proof.
  destruct s as [|c s]; [done|]. cbn -[is_char].
  by destruct (is_char 42 c), (is_char 43 c), (is_char 63 c), (is_char 123 c).
Qed.

Lemma parse_atom_plain f c s : plain_char c = true → parse_atom (S f) (String c s) = Some (char_re c, s).
Proof.
  unfold plain_char, char_re. cbn -[is_char]. intros H.
  destruct (is_char 46 c); [done|].
  by destruct (is_char 94 c), (is_char 36 c), (is_char 42 c), (is_char 43 c), (is_char 63 c),
    (is_char 92 c), (is_char 91 c), (is_char 40 c), (is_char 41 c), (is_char 123 c), (is_char 124 c).
Qed.

Lemma plain_no_postfix c s : plain_char c = true → no_postfix (String c s) = true.
Proof.
  unfold plain_char. cbn -[is_char].
  by destruct (is_char 42 c), (is_char 43 c), (is_char 63 c), (is_char 123 c), (is_char 36 c),
    (is_char 40 c), (is_char 41 c), (is_char 91 c), (is_char 92 c), (is_char 94 c), (is_char 124 c).
Qed.

Lemma plain_not_close c : plain_char c = true → is_char 41 c || is_char 124 c = false.
Proof.
  unfold plain_char. cbn -[is_char].
  destruct (is_char 41 c), (is_char 124 c); try done; by rewrite ?orb_true_r.
Qed.

Lemma parse_seq_plain s rest r rest' f :
  plain s = true → no_postfix rest = true → parse_seq f rest = Some (r, rest') → (1 < f)%nat →
  parse_seq (String.length s + f) (s +:+ rest) = Some (chain s r, rest').
Proof.
  intros Hs Hrest Hp Hf. revert Hs. induction s as [|c s IH]; [done|]. simpl plain.
  intros [Hc Hs]%andb_prop. specialize (IH Hs).
  change (String c s +:+ rest) with (String c (s +:+ rest)).
  change (String.length (String c s) + f) with (S (String.length s + f)). cbn [parse_seq].
  rewrite (plain_not_close _ Hc).
  destruct (String.length s + f) as [|g] eqn:Hg; [lia|].
  rewrite parse_atom_plain by done. rewrite postfix_none.
  2:{ destruct s as [|d s]; [done|]. apply andb_prop in Hs as [Hd _]. by apply plain_no_postfix. }
  by rewrite IH.
Qed.

Lemma matches_test t l : matches (RTest t) l ↔ ∃ x, l = [x] ∧ test_ok t x = true.
Proof. split; [inversion 1; subst; eauto|]. intros (x & -> & ?). by constructor. Qed.

Lemma test_char c x :
  matches (char_re c) [x] ↔ ∃ d, x = SChar d ∧ if is_char 46 c then is_char 10 d = false else d = c.
Proof.
  unfold char_re, lit. destruct (is_char 46 c); rewrite matches_test.
  - split.
    + intros (y & [= <-] & Ht). destruct x as [|d|]; try done. exists d. split; [done|].
      by apply negb_true_iff.
    + intros (d & -> & Hd). exists (SChar d). split; [done|]. cbn. by apply negb_true_iff.
  - split.
    + intros (y & [= <-] & Ht). destruct x as [|d|]; try done. exists d. split; [done|].
      cbn in Ht. rewrite orb_false_r in Ht. apply andb_prop in Ht as [?%Nat.leb_le ?%Nat.leb_le].
      rewrite <- (ascii_nat_embedding d), <- (ascii_nat_embedding c). f_equal. lia.
    + intros (d & -> & ->). exists (SChar c). split; [done|]. cbn. by rewrite Nat.leb_refl.
Qed.

Lemma matches_char_re c l : matches (char_re c) l → ∃ x, l = [x].
Proof. unfold char_re, lit. destruct (is_char 46 c); intros (x & -> & _)%matches_test; eauto. Qed.

Lemma matches_chain s r l :
  matches (chain s r) l ↔ ∃ w l', l = syms w ++ l' ∧ like s w ∧ matches r l'.
Proof.
  revert l. induction s as [|c s IH]; intros l; simpl.
  - split.
    + intros H. by exists EmptyString, l.
    + intros ([|] & l' & -> & H & Hr); done.
  - rewrite matches_seq_split. split.
    + intros (l1 & l2 & -> & H1 & (w & l' & -> & Hw & Hr)%IH).
      destruct (matches_char_re _ _ H1) as [x ->]. apply test_char in H1 as (d & -> & Hd).
      exists (String d w), l'. done.
    + intros ([|d w] & l' & -> & Hlike & Hr); [done|]. destruct Hlike as [Hd Hw].
      exists [SChar d], (syms w ++ l'). split_and!; [done|apply test_char; eauto|].
      apply IH. eauto.
Qed.

Lemma syms_app s t : syms (s +:+ t) = syms s ++ syms t.
Proof. induction s as [|c s IH]; [done|]. simpl. by rewrite IH. Qed.

(** A non-empty piece of the text made of bytes is a piece of the string. *)
Lemma syms_prefix u s l : syms s ++ [SEnd] = syms u ++ l → ∃ post, s = u +:+ post.
Proof.
  revert s. induction u as [|c u IH]; intros s; [by exists s|].
  destruct s as [|d s]; [done|]. simpl. intros [= -> H]. destruct (IH _ H) as [post ->].
  by exists post.
Qed.

Lemma syms_piece c u s l1 l2 : syms s ++ [SEnd] = l1 ++ syms (String c u) ++ l2 →
  ∃ pre post, s = pre +:+ String c u +:+ post.
Proof.
  revert s. induction l1 as [|x l1 IH]; intros s H.
  { destruct (syms_prefix (String c u) s l2 H) as [post ->]. by exists EmptyString, post. }
  destruct s as [|d s].
  { simpl in H. injection H as _ H. by destruct l1. }
  simpl in H. injection H as _ H. destruct (IH _ H) as (pre & post & ->).
  by exists (String d pre), post.
Qed.

Lemma text_piece c u s l1 l2 : text s = l1 ++ syms (String c u) ++ l2 →
  ∃ pre post, s = pre +:+ String c u +:+ post.
Proof. unfold text. destruct l1 as [|x l1]; [done|]. intros [= _ H]. exact (syms_piece c u s l1 l2 H). Qed.

Lemma string_app_assoc (s t u : string) : s +:+ t +:+ u = (s +:+ t) +:+ u.
Proof.
  induction s as [|c s IH]; [done|].
  change (String c (s +:+ t +:+ u) = String c ((s +:+ t) +:+ u)). by rewrite IH.
Qed.

(** A plain pattern followed by [.+]: it matches the strings that contain a
    text the plain part stands for, followed by one more byte. *)
Definition plus_tail : regex := RSeq (RPlus (RTest TDot)) REps.

Lemma compile_plain_plus s : plain s = true →
  regexp_Compile (s +:+ ".+") = Some (chain s plus_tail).
Proof.
  intros Hs. unfold regexp_Compile.
  assert (∃ f, 3 * String.length (s +:+ ".+") + 3 = S (String.length s + S (S (S f)))) as [f Hf].
  { exists (2 * String.length s + 5). rewrite length_sapp. simpl. lia. }
  rewrite Hf. cbn [parse_alt].
  rewrite (parse_seq_plain s ".+" plus_tail EmptyString (S (S (S f)))); [done|done|done| |lia].
  reflexivity.
Qed.

Lemma matches_plus_tail l : matches plus_tail l →
  ∃ c l', l = SChar c :: l' ∧ is_char 10 c = false.
Proof.
  unfold plus_tail, RPlus. rewrite matches_seq_split. intros (l1 & l2 & -> & H1 & _).
  apply matches_seq_split in H1 as (l3 & l4 & -> & H3 & _).
  apply matches_test in H3 as (x & -> & Hx). destruct x as [|c|]; try done.
  exists c, (l4 ++ l2). split; [done|]. by apply negb_true_iff.
Qed.

Lemma plus_tail_one c : is_char 10 c = false → matches plus_tail [SChar c].
Proof.
  intros Hc. apply (M_seq _ _ [SChar c] []); [|constructor].
  apply (M_seq _ _ [SChar c] []); [|constructor]. constructor. by apply negb_true_iff.
Qed.

Lemma match_plain_plus s x : plain s = true →
  regexp_MatchString (s +:+ ".+") x = Ok true ↔
  ∃ pre w c post, x = pre +:+ w +:+ String c post ∧ like s w ∧ is_char 10 c = false.
Proof.
  intros Hs. unfold regexp_MatchString. rewrite compile_plain_plus by done.
  transitivity (search (chain s plus_tail) x = true); [split; [by intros [= ->]|by intros ->]|].
  rewrite search_spec. setoid_rewrite matches_chain. split.
  - intros (l1 & l & l2 & Ht & w & l' & -> & Hw & (c & l'' & -> & Hc)%matches_plus_tail).
    assert (text x = l1 ++ syms (w +:+ String c EmptyString) ++ (l'' ++ l2)) as Hp.
    { rewrite Ht, syms_app. simpl. by rewrite <- !app_assoc. }
    assert (∃ pre post, x = pre +:+ (w +:+ String c EmptyString) +:+ post) as (pre & post & ->).
    { destruct w as [|d w]; by apply text_piece in Hp. }
    exists pre, w, c, post. split_and!; [|done..]. by rewrite <- string_app_assoc.
  - intros (pre & w & c & post & -> & Hw & Hc).
    exists (SBegin :: syms pre), (syms w ++ [SChar c]), (syms post ++ [SEnd]). split.
    + unfold text. rewrite !syms_app. simpl. by rewrite <- !app_assoc.
    + exists w, [SChar c]. auto using plus_tail_one.
Qed.

Lemma like_refl s : contains_char (chr 10) s = false → like s s.
Proof.
  induction s as [|c s IH]; [done|]. cbn [contains_char like].
  intros [Hc Hs]%orb_false_iff. split; [|by apply IH].
  destruct (is_char 46 c); [|done]. unfold is_char. apply Nat.eqb_neq. intros Heq.
  apply Ascii.eqb_neq in Hc. apply Hc. unfold chr. by rewrite <- Heq, Ascii.ascii_nat_embedding.
Qed.

Lemma like_eq s w : contains_char (chr 46) s = false → like s w → w = s.
Proof.
  revert w. induction s as [|c s IH]; intros [|d w]; try done. cbn [contains_char like].
  intros [Hc Hs]%orb_false_iff [Hd Hw]. rewrite (IH w) by done. f_equal.
  destruct (is_char 46 c) eqn:H46; [|done]. unfold is_char in H46. apply Nat.eqb_eq in H46.
  apply Ascii.eqb_neq in Hc. exfalso. apply Hc. unfold chr.
  by rewrite <- H46, Ascii.ascii_nat_embedding.
Qed.
