(* ===== verification/Api.v ===== *)
(** * The API objects (apis/infrastructure/v1beta1)

    The custom resources of the provider as records with the source's fields,
    the field setters the Go assignments become, the constants of the package,
    and the fields the sources read of the Kubernetes and Cluster API types.
    A Go [map[string]string] is a [gmap string string]; a nil map and an empty
    one are identified, since the sources never write to a map without first
    replacing nil by an empty one. *)

From S2P Require Import Prelude.

(** ** Kubernetes types *)

Record NamespacedName := mkKey { key_Namespace : string; key_Name : string }.

#[export] Instance NamespacedName_eq_dec : EqDecision NamespacedName.
Proof. solve_decision. Defined.

Record OwnerReference := mkOwnerReference {
  or_APIVersion : string; or_Kind : string; or_Name : string; or_UID : string;
  or_Controller : bool }.

#[export] Instance OwnerReference_eq_dec : EqDecision OwnerReference.
Proof. solve_decision. Defined.

(** [corev1.ObjectReference] *)
Record ObjectReference := mkObjectReference {
  ref_Kind : string; ref_Namespace : string; ref_Name : string;
  ref_UID : string; ref_APIVersion : string }.

#[export] Instance ObjectReference_eq_dec : EqDecision ObjectReference.
Proof. solve_decision. Defined.

(** [schema.GroupVersionKind] *)
Record GVK := mkGVK { gvk_Group : string; gvk_Version : string; gvk_Kind : string }.

#[export] Instance GVK_eq_dec : EqDecision GVK.
Proof. solve_decision. Defined.

(** [metav1.TypeMeta] and [metav1.ObjectMeta]; [DeletionTimestamp.IsZero()] is
    [DeletionTimestamp = None]. *)
Record TypeMeta := mkTypeMeta { tm_Kind : string; tm_APIVersion : string }.

Record ObjectMeta := mkObjectMeta {
  meta_Name : string;
  meta_Namespace : string;
  meta_UID : string;
  meta_Labels : gmap string string;
  meta_Annotations : gmap string string;
  meta_Finalizers : list string;
  meta_OwnerReferences : list OwnerReference;
  meta_DeletionTimestamp : option Z }.

#[export] Instance TypeMeta_eq_dec : EqDecision TypeMeta.
Proof. solve_decision. Defined.
#[export] Instance ObjectMeta_eq_dec : EqDecision ObjectMeta.
Proof. solve_decision. Defined.

Definition set_Labels (f : gmap string string → gmap string string) (m : ObjectMeta) : ObjectMeta :=
  mkObjectMeta (meta_Name m) (meta_Namespace m) (meta_UID m) (f (meta_Labels m))
    (meta_Annotations m) (meta_Finalizers m) (meta_OwnerReferences m) (meta_DeletionTimestamp m).
Definition set_Annotations (f : gmap string string → gmap string string) (m : ObjectMeta) : ObjectMeta :=
  mkObjectMeta (meta_Name m) (meta_Namespace m) (meta_UID m) (meta_Labels m)
    (f (meta_Annotations m)) (meta_Finalizers m) (meta_OwnerReferences m) (meta_DeletionTimestamp m).
Definition set_Finalizers (f : list string → list string) (m : ObjectMeta) : ObjectMeta :=
  mkObjectMeta (meta_Name m) (meta_Namespace m) (meta_UID m) (meta_Labels m)
    (meta_Annotations m) (f (meta_Finalizers m)) (meta_OwnerReferences m) (meta_DeletionTimestamp m).

(** [metav1.LabelSelector] and the [labels.Selector] it is converted to. *)
Record LabelSelectorRequirement := mkLSR {
  lsr_Key : string; lsr_Operator : string; lsr_Values : list string }.
Record LabelSelector := mkLabelSelector {
  ls_MatchLabels : gmap string string; ls_MatchExpressions : list LabelSelectorRequirement }.

#[export] Instance LabelSelectorRequirement_eq_dec : EqDecision LabelSelectorRequirement.
Proof. solve_decision. Defined.
#[export] Instance LabelSelector_eq_dec : EqDecision LabelSelector.
Proof. solve_decision. Defined.

(** [selection.Operator], the operators the sources use and the rest. *)
Inductive Operator := DoesNotExist | Equals | OtherOperator (op : string).
Record Requirement := mkRequirement {
  req_Key : string; req_Operator : Operator; req_Values : list string }.
Definition Selector : Type := list Requirement.

(** [client.ListOptions]; the empty namespace lists all namespaces. *)
Record ListOptions := mkListOptions { lo_LabelSelector : Selector; lo_Namespace : string }.

(** [ctrl.Result]; durations are nanoseconds. *)
Record Result := mkResult { Requeue : bool; RequeueAfter : Z }.
Definition Result0 : Result := mkResult false 0.
Definition Second : Z := 1000000000.
Definition Minute : Z := 60 * Second.

#[export] Instance Result_eq_dec : EqDecision Result.
Proof. solve_decision. Defined.

(** JSON content of an [unstructured.Unstructured] object. *)
#[warnings="-register-all"]
Inductive Json :=
  | JNull | JBool (b : bool) | JNum (n : Z) | JStr (s : string)
  | JArr (l : list Json) | JObj (fields : list (string * Json)).

Record Unstructured := mkUnstructured {
  un_GVK : GVK; un_Meta : ObjectMeta; un_Content : Json }.

(** [corev1.Secret] *)
Record Secret := mkSecret {
  sec_Type : TypeMeta; sec_Meta : ObjectMeta;
  sec_Data : gmap string string; sec_SecretType : string }.

(** [corev1.Node] *)
Record Node := mkNode { node_Meta : ObjectMeta; node_ProviderID : string }.

(** ** Conditions (clusterv1.Condition) *)

Inductive ConditionStatus := ConditionTrue | ConditionFalse | ConditionUnknown.
Inductive ConditionSeverity := SeverityError | SeverityWarning | SeverityInfo | SeverityNone.

#[export] Instance ConditionStatus_eq_dec : EqDecision ConditionStatus.
Proof. solve_decision. Defined.
#[export] Instance ConditionSeverity_eq_dec : EqDecision ConditionSeverity.
Proof. solve_decision. Defined.

Record Condition := mkCondition {
  cond_Type : string; cond_Status : ConditionStatus; cond_Severity : ConditionSeverity;
  cond_Reason : string; cond_Message : string }.

#[export] Instance Condition_eq_dec : EqDecision Condition.
Proof. solve_decision. Defined.

Definition Conditions : Type := list Condition.

(** ** Cluster API types *)

Record CapiMachine := mkCapiMachine {
  mach_Meta : ObjectMeta;
  mach_Version : option string;         (* Spec.Version *)
  mach_DataSecretName : option string   (* Spec.Bootstrap.DataSecretName *) }.

Record CapiCluster := mkCapiCluster {
  clus_Meta : ObjectMeta;
  clus_Paused : bool;                   (* Spec.Paused *)
  clus_EndpointHost : string;           (* Spec.ControlPlaneEndpoint.Host *)
  clus_InfrastructureRef : option ObjectReference;
  clus_InfrastructureReady : bool       (* Status.InfrastructureReady *) }.

Definition ClusterNameLabel : string := "cluster.x-k8s.io/cluster-name".
Definition PausedAnnotation : string := "cluster.x-k8s.io/paused".
Definition ReadyCondition : string := "Ready".
Definition ClusterSecretType : string := "cluster.x-k8s.io/secret".

(** [schema.GroupVersion] of the package, [GroupVersion.String()] and [WithKind]. *)
Definition GroupVersion_Group : string := "infrastructure.cluster.x-k8s.io".
Definition GroupVersion_Version : string := "v1beta1".
Definition GroupVersion_String : string := GroupVersion_Group +:+ "/" +:+ GroupVersion_Version.
Definition WithKind (kind : string) : GVK := mkGVK GroupVersion_Group GroupVersion_Version kind.

(** ** ByoHost (byohost_types.go) *)

Definition HostCleanupAnnotation : string := "byoh.infrastructure.cluster.x-k8s.io/unregistering".
Definition EndPointIPAnnotation : string := "byoh.infrastructure.cluster.x-k8s.io/endpointip".
Definition K8sVersionAnnotation : string := "byoh.infrastructure.cluster.x-k8s.io/k8sversion".
Definition AttachedByoMachineLabel : string := "byoh.infrastructure.cluster.x-k8s.io/byomachine-name".
Definition BundleLookupBaseRegistryAnnotation : string :=
  "byoh.infrastructure.cluster.x-k8s.io/bundle-registry".
Definition ClusterLabel : string := "kaapi.pf9.io/cluster-name".
Definition ClusterLabelCP : string := "kaapi.pf9.io/cluster-name-cp".
Definition MaxK8sLabelValueLength : nat := 63.
Definition LabelHashLength : nat := 8.
Definition LabelSeparator : string := "-".
Definition MaxLabelPrefixLength : nat :=
  MaxK8sLabelValueLength - LabelHashLength - String.length LabelSeparator.

Record ByoHostSpec := mkByoHostSpec {
  BootstrapSecret : option ObjectReference;
  InstallationSecret : option ObjectReference;
  UninstallationSecret : option ObjectReference }.

Record HostInfo := mkHostInfo { OSName : string; OSImage : string; Architecture : string }.

#[export] Instance HostInfo_eq_dec : EqDecision HostInfo.
Proof. solve_decision. Defined.

(** [NetworkStatus] (byomachine_types.go) *)
Record NetworkStatus := mkNetworkStatus {
  Connected : bool; IPAddrs : list string; MACAddr : string;
  NetworkInterfaceName : string; IsDefault : bool }.

#[export] Instance NetworkStatus_eq_dec : EqDecision NetworkStatus.
Proof. solve_decision. Defined.

Record ByoHostStatus := mkByoHostStatus {
  MachineRef : option ObjectReference;
  HostConditions : Conditions;
  HostDetails : HostInfo;
  Network : list NetworkStatus }.

Record ByoHost := mkByoHost {
  host_Type : TypeMeta; host_Meta : ObjectMeta;
  host_Spec : ByoHostSpec; host_Status : ByoHostStatus }.

#[export] Instance ByoHostSpec_eq_dec : EqDecision ByoHostSpec.
Proof. solve_decision. Defined.
#[export] Instance ByoHostStatus_eq_dec : EqDecision ByoHostStatus.
Proof. solve_decision. Defined.
#[export] Instance ByoHost_eq_dec : EqDecision ByoHost.
Proof. solve_decision. Defined.

Definition host_Labels (h : ByoHost) : gmap string string := meta_Labels (host_Meta h).
Definition host_Annotations (h : ByoHost) : gmap string string := meta_Annotations (host_Meta h).
Definition host_Name (h : ByoHost) : string := meta_Name (host_Meta h).
Definition host_MachineRef (h : ByoHost) : option ObjectReference := MachineRef (host_Status h).
Definition host_BootstrapSecret (h : ByoHost) := BootstrapSecret (host_Spec h).
Definition host_InstallationSecret (h : ByoHost) := InstallationSecret (host_Spec h).
Definition host_UninstallationSecret (h : ByoHost) := UninstallationSecret (host_Spec h).

(** [GetConditions] / [SetConditions] *)
Definition host_GetConditions (h : ByoHost) : Conditions := HostConditions (host_Status h).
Definition host_SetConditions (c : Conditions) (h : ByoHost) : ByoHost :=
  mkByoHost (host_Type h) (host_Meta h) (host_Spec h)
    (mkByoHostStatus (MachineRef (host_Status h)) c (HostDetails (host_Status h)) (Network (host_Status h))).

(** Assignments to fields of a host. *)
Definition host_set_Meta (f : ObjectMeta → ObjectMeta) (h : ByoHost) : ByoHost :=
  mkByoHost (host_Type h) (f (host_Meta h)) (host_Spec h) (host_Status h).
Definition host_set_MachineRef (r : option ObjectReference) (h : ByoHost) : ByoHost :=
  mkByoHost (host_Type h) (host_Meta h) (host_Spec h)
    (mkByoHostStatus r (HostConditions (host_Status h)) (HostDetails (host_Status h)) (Network (host_Status h))).
Definition host_set_HostDetails (i : HostInfo) (h : ByoHost) : ByoHost :=
  mkByoHost (host_Type h) (host_Meta h) (host_Spec h)
    (mkByoHostStatus (MachineRef (host_Status h)) (HostConditions (host_Status h)) i (Network (host_Status h))).
Definition host_set_Network (n : list NetworkStatus) (h : ByoHost) : ByoHost :=
  mkByoHost (host_Type h) (host_Meta h) (host_Spec h)
    (mkByoHostStatus (MachineRef (host_Status h)) (HostConditions (host_Status h)) (HostDetails (host_Status h)) n).
Definition host_set_BootstrapSecret (r : option ObjectReference) (h : ByoHost) : ByoHost :=
  mkByoHost (host_Type h) (host_Meta h)
    (mkByoHostSpec r (InstallationSecret (host_Spec h)) (UninstallationSecret (host_Spec h))) (host_Status h).
Definition host_set_InstallationSecret (r : option ObjectReference) (h : ByoHost) : ByoHost :=
  mkByoHost (host_Type h) (host_Meta h)
    (mkByoHostSpec (BootstrapSecret (host_Spec h)) r (UninstallationSecret (host_Spec h))) (host_Status h).
Definition host_set_UninstallationSecret (r : option ObjectReference) (h : ByoHost) : ByoHost :=
  mkByoHost (host_Type h) (host_Meta h)
    (mkByoHostSpec (BootstrapSecret (host_Spec h)) (InstallationSecret (host_Spec h)) r) (host_Status h).
Definition host_set_Labels (f : gmap string string → gmap string string) : ByoHost → ByoHost :=
  host_set_Meta (set_Labels f).
Definition host_set_Annotations (f : gmap string string → gmap string string) : ByoHost → ByoHost :=
  host_set_Meta (set_Annotations f).

(** ** ByoMachine (byomachine_types.go) *)

Definition MachineFinalizer : string := "byomachine.infrastructure.cluster.x-k8s.io".

Record ByoMachineSpec := mkByoMachineSpec {
  bm_Selector : option LabelSelector;
  bm_ProviderID : string;
  bm_InstallerRef : option ObjectReference }.

Record ByoMachineStatus := mkByoMachineStatus {
  bm_HostInfo : HostInfo;
  bm_Ready : bool;
  bm_Conditions : Conditions }.

Record ByoMachine := mkByoMachine {
  bm_Type : TypeMeta; bm_Meta : ObjectMeta;
  bm_Spec : ByoMachineSpec; bm_Status : ByoMachineStatus }.

Definition bm_Name (m : ByoMachine) : string := meta_Name (bm_Meta m).
Definition bm_Namespace (m : ByoMachine) : string := meta_Namespace (bm_Meta m).
Definition bm_GetConditions (m : ByoMachine) : Conditions := bm_Conditions (bm_Status m).
Definition bm_SetConditions (c : Conditions) (m : ByoMachine) : ByoMachine :=
  mkByoMachine (bm_Type m) (bm_Meta m) (bm_Spec m)
    (mkByoMachineStatus (bm_HostInfo (bm_Status m)) (bm_Ready (bm_Status m)) c).

Definition bm_set_Meta (f : ObjectMeta → ObjectMeta) (m : ByoMachine) : ByoMachine :=
  mkByoMachine (bm_Type m) (f (bm_Meta m)) (bm_Spec m) (bm_Status m).
Definition bm_set_ProviderID (p : string) (m : ByoMachine) : ByoMachine :=
  mkByoMachine (bm_Type m) (bm_Meta m)
    (mkByoMachineSpec (bm_Selector (bm_Spec m)) p (bm_InstallerRef (bm_Spec m))) (bm_Status m).
Definition bm_set_Ready (b : bool) (m : ByoMachine) : ByoMachine :=
  mkByoMachine (bm_Type m) (bm_Meta m) (bm_Spec m)
    (mkByoMachineStatus (bm_HostInfo (bm_Status m)) b (bm_Conditions (bm_Status m))).
Definition bm_set_HostInfo (i : HostInfo) (m : ByoMachine) : ByoMachine :=
  mkByoMachine (bm_Type m) (bm_Meta m) (bm_Spec m)
    (mkByoMachineStatus i (bm_Ready (bm_Status m)) (bm_Conditions (bm_Status m))).

(** ** ByoCluster (byocluster_types.go) *)

Definition ClusterFinalizer : string := "byocluster.infrastructure.cluster.x-k8s.io".

Record APIEndpoint := mkAPIEndpoint { ep_Host : string; ep_Port : Z (* int32 *) }.

Record ByoClusterSpec := mkByoClusterSpec {
  bc_ControlPlaneEndpoint : APIEndpoint; bc_BundleLookupBaseRegistry : string }.

(** [clusterv1.FailureDomainSpec] *)
Record FailureDomainSpec := mkFailureDomainSpec {
  fd_ControlPlane : bool; fd_Attributes : gmap string string }.

Record ByoClusterStatus := mkByoClusterStatus {
  bc_Ready : bool; bc_Conditions : Conditions; bc_FailureDomains : gmap string FailureDomainSpec }.

Record ByoCluster := mkByoCluster {
  bc_Type : TypeMeta; bc_Meta : ObjectMeta;
  bc_Spec : ByoClusterSpec; bc_Status : ByoClusterStatus }.

Definition bc_GetConditions (c : ByoCluster) : Conditions := bc_Conditions (bc_Status c).
Definition bc_SetConditions (cs : Conditions) (c : ByoCluster) : ByoCluster :=
  mkByoCluster (bc_Type c) (bc_Meta c) (bc_Spec c)
    (mkByoClusterStatus (bc_Ready (bc_Status c)) cs (bc_FailureDomains (bc_Status c))).
Definition bc_set_Meta (f : ObjectMeta → ObjectMeta) (c : ByoCluster) : ByoCluster :=
  mkByoCluster (bc_Type c) (f (bc_Meta c)) (bc_Spec c) (bc_Status c).
Definition bc_set_Port (p : Z) (c : ByoCluster) : ByoCluster :=
  mkByoCluster (bc_Type c) (bc_Meta c)
    (mkByoClusterSpec (mkAPIEndpoint (ep_Host (bc_ControlPlaneEndpoint (bc_Spec c))) p)
       (bc_BundleLookupBaseRegistry (bc_Spec c))) (bc_Status c).
Definition bc_set_Ready (b : bool) (c : ByoCluster) : ByoCluster :=
  mkByoCluster (bc_Type c) (bc_Meta c) (bc_Spec c)
    (mkByoClusterStatus b (bc_Conditions (bc_Status c)) (bc_FailureDomains (bc_Status c))).

(** ** K8sInstallerConfig (k8sinstallerconfig_types.go) *)

Definition K8sInstallerConfigFinalizer : string := "k8sinstallerconfig.infrastructure.cluster.x-k8s.io".

Record K8sInstallerConfigSpec := mkK8sInstallerConfigSpec { BundleRepo : string; BundleType : string }.

Record K8sInstallerConfigStatus := mkK8sInstallerConfigStatus {
  kic_Ready : bool;
  kic_InstallationSecret : option ObjectReference;
  kic_UninstallationSecret : option ObjectReference }.

Record K8sInstallerConfig := mkK8sInstallerConfig {
  kic_Type : TypeMeta; kic_Meta : ObjectMeta;
  kic_Spec : K8sInstallerConfigSpec; kic_Status : K8sInstallerConfigStatus }.

Definition kic_set_Meta (f : ObjectMeta → ObjectMeta) (c : K8sInstallerConfig) : K8sInstallerConfig :=
  mkK8sInstallerConfig (kic_Type c) (f (kic_Meta c)) (kic_Spec c) (kic_Status c).
Definition kic_set_Status (f : K8sInstallerConfigStatus → K8sInstallerConfigStatus)
    (c : K8sInstallerConfig) : K8sInstallerConfig :=
  mkK8sInstallerConfig (kic_Type c) (kic_Meta c) (kic_Spec c) (f (kic_Status c)).

(** ** BootstrapKubeconfig (bootstrapkubeconfig_types.go) *)

Record BootstrapKubeconfigSpec := mkBootstrapKubeconfigSpec {
  APIServer : string; InsecureSkipTLSVerify : bool; CertificateAuthorityData : string }.

Record BootstrapKubeconfig := mkBootstrapKubeconfig {
  bk_Type : TypeMeta; bk_Meta : ObjectMeta; bk_Spec : BootstrapKubeconfigSpec;
  BootstrapKubeconfigData : option string (* Status *) }.

Definition DefaultClusterName : string := "default-cluster".
Definition DefaultContext : string := "default-context".
Definition DefaultNamespace : string := "default".
Definition DefaultAuth : string := "default-auth".
Definition BootstrapTokenDescription : string :=
  "Token generated by cluster-api-provider-bringyourownhost".
Definition BootstrapTokenExtraGroups : string := "system:bootstrappers:byoh".

(** ** Templates (byomachinetemplate_types.go, byoclustertemplate.go,
    k8sinstallerconfigtemplate_types.go) *)

Record ByoMachineTemplateResource := mkMachineTemplateResource { mtr_Spec : ByoMachineSpec }.
Record ByoMachineTemplateSpec := mkByoMachineTemplateSpec { mt_Template : ByoMachineTemplateResource }.
Record ByoMachineTemplateStatus := mkByoMachineTemplateStatus {}.
Record ByoMachineTemplate := mkByoMachineTemplate {
  mt_Type : TypeMeta; mt_Meta : ObjectMeta;
  mt_Spec : ByoMachineTemplateSpec; mt_Status : ByoMachineTemplateStatus }.

(** [clusterv1.ObjectMeta], the metadata of the objects made from a template *)
Record TemplateMeta := mkTemplateMeta {
  tmeta_Labels : gmap string string; tmeta_Annotations : gmap string string }.

Record ByoClusterTemplateResource := mkClusterTemplateResource {
  ctr_Meta : TemplateMeta; ctr_Spec : ByoClusterSpec }.
Record ByoClusterTemplateSpec := mkByoClusterTemplateSpec { ct_Template : ByoClusterTemplateResource }.
Record ByoClusterTemplate := mkByoClusterTemplate {
  ct_Type : TypeMeta; ct_Meta : ObjectMeta; ct_Spec : ByoClusterTemplateSpec }.

Record K8sInstallerConfigTemplateResource := mkConfigTemplateResource { kctr_Spec : K8sInstallerConfigSpec }.
Record K8sInstallerConfigTemplateSpec := mkConfigTemplateSpec {
  kct_Template : K8sInstallerConfigTemplateResource }.
Record K8sInstallerConfigTemplateStatus := mkConfigTemplateStatus {}.
Record K8sInstallerConfigTemplate := mkConfigTemplate {
  kct_Type : TypeMeta; kct_Meta : ObjectMeta;
  kct_Spec : K8sInstallerConfigTemplateSpec; kct_Status : K8sInstallerConfigTemplateStatus }.

(** ** Lists *)

(** [metav1.ListMeta] *)
Record ListMeta := mkListMeta {
  lm_SelfLink : string; lm_ResourceVersion : string; lm_Continue : string;
  lm_RemainingItemCount : option Z }.

(** The value of a list type: [ByoHostList] and the like. *)
Record ObjectList (A : Type) := mkObjectList {
  list_Type : TypeMeta; list_Meta : ListMeta; list_Items : list A }.
Arguments mkObjectList {A}.
Arguments list_Type {A}.
Arguments list_Meta {A}.
Arguments list_Items {A}.

(** ** Condition types and reasons (condition_consts.go) *)

Definition K8sNodeBootstrapSucceeded : string := "K8sNodeBootstrapSucceeded".
Definition K8sComponentsInstallationSucceeded : string := "K8sComponentsInstallationSucceeded".
Definition WaitingForMachineRefReason : string := "WaitingForMachineRefToBeAssigned".
Definition BootstrapDataSecretUnavailableReason : string := "BootstrapDataSecretUnavailable".
Definition K8sInstallationSecretUnavailableReason : string := "K8sInstallationSecretUnavailable".
Definition CleanK8sDirectoriesFailedReason : string := "CleanK8sDirectoriesFailed".
Definition CloudInitExecutionFailedReason : string := "CloudInitExecutionFailed".
Definition K8sNodeAbsentReason : string := "K8sNodeAbsent".
Definition K8sComponentsInstallationFailedReason : string := "K8sComponentsInstallationFailed".
Definition BYOHostReady : string := "BYOHostReady".
Definition WaitingForClusterInfrastructureReason : string := "WaitingForClusterInfrastructure".
Definition WaitingForBootstrapDataSecretReason : string := "WaitingForBootstrapDataSecret".
Definition BYOHostsUnavailableReason : string := "BYOHostsUnavailable".
Definition InstallationSecretNotAvailableReason : string := "InstallationSecretNotAvailable".
Definition ClusterOrResourcePausedReason : string := "ClusterOrResourcePaused".

(** ** Objects of any kind *)

Inductive Kind :=
  | KByoHost | KByoMachine | KByoCluster | KK8sInstallerConfig | KBootstrapKubeconfig
  | KSecret | KUnstructured (gvk : GVK).

Definition obj (k : Kind) : Type :=
  match k with
  | KByoHost => ByoHost
  | KByoMachine => ByoMachine
  | KByoCluster => ByoCluster
  | KK8sInstallerConfig => K8sInstallerConfig
  | KBootstrapKubeconfig => BootstrapKubeconfig
  | KSecret => Secret
  | KUnstructured _ => Unstructured
  end.

Inductive Object :=
  | OByoHost (h : ByoHost) | OByoMachine (m : ByoMachine) | OByoCluster (c : ByoCluster)
  | OK8sInstallerConfig (c : K8sInstallerConfig) | OBootstrapKubeconfig (b : BootstrapKubeconfig)
  | OSecret (s : Secret) | OUnstructured (u : Unstructured).

Definition to_object (k : Kind) : obj k → Object :=
  match k with
  | KByoHost => OByoHost
  | KByoMachine => OByoMachine
  | KByoCluster => OByoCluster
  | KK8sInstallerConfig => OK8sInstallerConfig
  | KBootstrapKubeconfig => OBootstrapKubeconfig
  | KSecret => OSecret
  | KUnstructured _ => OUnstructured
  end.

Definition meta_of (k : Kind) : obj k → ObjectMeta :=
  match k with
  | KByoHost => host_Meta
  | KByoMachine => bm_Meta
  | KByoCluster => bc_Meta
  | KK8sInstallerConfig => kic_Meta
  | KBootstrapKubeconfig => bk_Meta
  | KSecret => sec_Meta
  | KUnstructured _ => un_Meta
  end.

Definition key_of (k : Kind) (o : obj k) : NamespacedName :=
  mkKey (meta_Namespace (meta_of k o)) (meta_Name (meta_of k o)).

Definition ref_key (r : ObjectReference) : NamespacedName := mkKey (ref_Namespace r) (ref_Name r).
