(* ===== verification/GoHeap.v ===== *)
(** * The Go heap: pointers, slices, maps and deep copies

    A heap maps locations to cells.  A Go struct that holds pointers, slices
    or maps is a record of locations, and a _view_ reads the value it
    represents off the heap together with its _footprint_, the set of all
    locations that are read.  [HM] is the monad of code that reads and
    allocates cells; [None] is a nil or ill-typed dereference, a panic.

    [Local] says that a view depends on its footprint only, [Copies] that a
    function copies deeply: the same value, a footprint of new locations, and
    the old heap as it was.  Both are closed under pointers, slices and maps,
    and [copy_fields] proves them for structs. *)

From S2P Require Import Prelude.

#[global] Abbreviation loc := nat.

Section Heap.
Context {Cell : Type}.

#[local] Abbreviation Heap := (gmap loc Cell).
Definition HM (A : Type) : Type := Heap → option (Heap * A).

Definition hret {A} (a : A) : HM A := λ h, Some (h, a).
Definition hbind {A B} (m : HM A) (f : A → HM B) : HM B := λ h,
  match m h with Some (h', a) => f a h' | None => None end.

(** How values of a type are kept in a cell. *)
Class Storable (T : Type) := {
  to_cell : T → Cell;
  of_cell : Cell → option T;
  of_to_cell : ∀ x, of_cell (to_cell x) = Some x }.

(** [*p], and [new(T)] with the assignment that fills it. *)
Definition peek {T} `{Storable T} (h : Heap) (l : loc) : option T := h !! l ≫= of_cell.
Definition load {T} `{Storable T} (l : loc) : HM T := λ h,
  match peek h l with Some x => Some (h, x) | None => None end.
Definition new {T} `{Storable T} (x : T) : HM loc := λ h,
  let l := fresh (dom h) in Some (<[l := to_cell x]> h, l).

(** [*T], [[]T] and [map[string]T]; [None] is nil.  A slice is a window of an
    array. *)
Definition Ptr (T : Type) : Type := option loc.
Record Window := mkWindow { win_array : loc; win_off : nat; win_len : nat }.
Definition Slice (T : Type) : Type := option Window.
Definition GoMap (T : Type) : Type := option loc.

(** ** Copying *)

(** [new(T)] filled from [*in], nothing for nil: the copy of a pointer field,
    and the shape of every generated [DeepCopy]. *)
Definition copy_ptr {T} `{Storable T} (into : T → HM T) (p : Ptr T) : HM (Ptr T) :=
  match p with
  | None => hret None
  | Some l => hbind (load l) (λ x, hbind (into x) (λ y, hbind (new y) (λ l', hret (Some l'))))
  end.

Fixpoint copy_list {T} (into : T → HM T) (xs : list T) : HM (list T) :=
  match xs with
  | [] => hret []
  | x :: xs => hbind (into x) (λ y, hbind (copy_list into xs) (λ ys, hret (y :: ys)))
  end.

(** The elements of the window, when it lies inside the array. *)
Definition window {T} (w : Window) (xs : list T) : option (list T) :=
  if decide (win_off w + win_len w ≤ length xs)
  then Some (take (win_len w) (drop (win_off w) xs)) else None.

(** [*out = make([]T, len( *in)); for i := range *in { ... }]; [copy] is the
    case that [into] is [hret]. *)
Definition copy_slice {T} `{Storable (list T)} (into : T → HM T) (s : Slice T) : HM (Slice T) :=
  match s with
  | None => hret None
  | Some w =>
      hbind (load (win_array w)) (λ arr,
      match window w arr with
      | None => λ _, None
      | Some xs => hbind (copy_list into xs) (λ ys, hbind (new ys) (λ l',
          hret (Some (mkWindow l' 0 (win_len w)))))
      end)
  end.

(** [for key, val := range *in { ( *out)[key] = ... }] over the entries in the
    order the run time picks. *)
Fixpoint copy_entries {T} (into : T → HM T) (kvs : list (string * T)) (out : gmap string T) :
    HM (gmap string T) :=
  match kvs with
  | [] => hret out
  | (key, val) :: kvs => hbind (into val) (λ y, copy_entries into kvs (<[key := y]> out))
  end.

(** The order in which [range] visits a map: any, but every entry once. *)
Class RangeOrder := range_order : ∀ T, gmap string T → list (string * T).
Class RangeLaws `{RangeOrder} :=
  range_perm : ∀ T (m : gmap string T), range_order T m ≡ₚ map_to_list m.

Definition copy_map `{RangeOrder} {T} `{Storable (gmap string T)} (into : T → HM T) (m : GoMap T) :
    HM (GoMap T) :=
  match m with
  | None => hret None
  | Some l => hbind (load l) (λ kvs,
      hbind (copy_entries into (range_order T kvs) ∅) (λ out,
      hbind (new out) (λ l', hret (Some l'))))
  end.

(** ** Views *)

Definition View (V : Type) : Type := option (V * gset loc).
Definition vret {V} (v : V) : View V := Some (v, ∅).
Definition vap {V W} (f : View (V → W)) (a : View V) : View W :=
  match f, a with Some (g, S1), Some (v, S2) => Some (g v, S1 ∪ S2) | _, _ => None end.

#[global] Arguments vap : simpl never.

Definition vbind {A V} (o : option A) (f : A → View V) : View V :=
  match o with Some a => f a | None => None end.

Definition view_plain {T} (h : Heap) (x : T) : View T := vret x.

Definition at_loc {V} (l : loc) (a : View V) : View V :=
  match a with Some (v, fp) => Some (v, {[l]} ∪ fp) | None => None end.

(** What is kept in a location. *)
Definition view_cell {T V} `{Storable T} (view : Heap → T → View V) (h : Heap) (l : loc) : View V :=
  at_loc l (vbind (peek h l) (view h)).

Definition view_ptr {T V} `{Storable T} (view : Heap → T → View V) (h : Heap) (p : Ptr T) :
    View (option V) :=
  match p with
  | None => vret None
  | Some l => vap (vret Some) (view_cell view h l)
  end.

Fixpoint view_list {T V} (view : Heap → T → View V) (h : Heap) (xs : list T) : View (list V) :=
  match xs with
  | [] => vret []
  | x :: xs => vap (vap (vret cons) (view h x)) (view_list view h xs)
  end.

Definition view_window {T V} (view : Heap → T → View V) (w : Window) (h : Heap) (arr : list T) :
    View (list V) :=
  vbind (window w arr) (view_list view h).

Definition view_slice {T V} `{Storable (list T)} (view : Heap → T → View V) (h : Heap) (s : Slice T) :
    View (list V) :=
  match s with
  | None => vret []
  | Some w => view_cell (view_window view w) h (win_array w)
  end.

(** Keys and values of a map; its footprint is that of its values. *)
Definition footprint {V} (a : View V) : gset loc := match a with Some (_, fp) => fp | None => ∅ end.
Definition view_gmap {T V} (view : Heap → T → View V) (h : Heap) (m : gmap string T) :
    View (gmap string V) :=
  if decide (map_Forall (λ _ x, is_Some (view h x)) m)
  then Some (omap (λ x, fst <$> view h x) m,
             ⋃ ((λ kx, footprint (view h kx.2)) <$> map_to_list m))
  else None.

Definition view_map {T V} `{Storable (gmap string T)} (view : Heap → T → View V) (h : Heap)
    (m : GoMap T) : View (gmap string V) :=
  match m with
  | None => vret ∅
  | Some l => view_cell (view_gmap view) h l
  end.

(** ** Locality *)

Class Local {T V} (view : Heap → T → View V) := {
  view_local : ∀ h h' x v S, view h x = Some (v, S) →
    (∀ l, l ∈ S → h' !! l = h !! l) → view h' x = Some (v, S);
  view_dom : ∀ h x v S, view h x = Some (v, S) → S ⊆ dom h }.

(** ** Deep copies *)

(** In [h], [y] represents [v] in locations that [h0] does not have. *)
Definition copy_of {T V} (view : Heap → T → View V) (h0 : Heap) (v : V) (h : Heap) (y : T) : Prop :=
  ∃ S, view h y = Some (v, S) ∧ S ## dom h0.

Definition hwp {A} (m : HM A) (h : Heap) (Q : Heap → A → Prop) : Prop :=
  match m h with Some (h', a) => Q h' a | None => False end.

Class Copies {T V} (view : Heap → T → View V) (into : T → HM T) :=
  copies : ∀ h x v S, view h x = Some (v, S) →
    hwp (into x) h (λ h' y, h ⊆ h' ∧ copy_of view h v h' y).

(** ** Rules *)

Lemma hwp_ret {A} (a : A) h (Q : Heap → A → Prop) : Q h a → hwp (hret a) h Q.
Proof. done. Qed.

Lemma hwp_bind {A B} (m : HM A) (f : A → HM B) h (Q : Heap → B → Prop) :
  hwp m h (λ h' a, hwp (f a) h' Q) → hwp (hbind m f) h Q.
Proof. unfold hwp, hbind. by destruct (m h) as [[h' a]|]. Qed.

Lemma hwp_mono {A} (m : HM A) h (Q R : Heap → A → Prop) :
  hwp m h Q → (∀ h' a, Q h' a → R h' a) → hwp m h R.
Proof. unfold hwp. destruct (m h) as [[h' a]|]; eauto. Qed.

Lemma hwp_elim {A} (m : HM A) h (Q : Heap → A → Prop) :
  hwp m h Q → ∃ h' a, m h = Some (h', a) ∧ Q h' a.
Proof. unfold hwp. destruct (m h) as [[h' a]|]; [eauto|done]. Qed.

Lemma peek_local {T} `{Storable T} (h h' : Heap) l : h' !! l = h !! l → peek h' l = peek h l.
Proof. unfold peek. by intros ->. Qed.

Lemma peek_dom {T} `{Storable T} (h : Heap) l (x : T) : peek h l = Some x → l ∈ dom h.
Proof. unfold peek. intros (c & Hc & _)%bind_Some. by apply elem_of_dom_2 in Hc. Qed.

Lemma hwp_load {T} `{Storable T} (l : loc) (x : T) h (Q : Heap → T → Prop) :
  peek h l = Some x → Q h x → hwp (load l) h Q.
Proof. unfold hwp, load. by intros ->. Qed.

(** [new] returns a location the heap did not have. *)
Lemma hwp_new {T} `{Storable T} (x : T) h (Q : Heap → loc → Prop) :
  (∀ h' l, h ⊆ h' → l ∉ dom h → peek h' l = Some x → Q h' l) → hwp (new x) h Q.
Proof.
  intros HQ. unfold hwp, new. pose proof (is_fresh (dom h)) as Hfresh. apply HQ.
  - by apply insert_subseteq, not_elem_of_dom.
  - done.
  - unfold peek. rewrite lookup_insert_eq. apply of_to_cell.
Qed.

(** ** Composition of views *)

Lemma vap_Some {V W} (f : View (V → W)) (a : View V) w S :
  vap f a = Some (w, S) ↔
    ∃ g v S1 S2, f = Some (g, S1) ∧ a = Some (v, S2) ∧ w = g v ∧ S = S1 ∪ S2.
Proof.
  unfold vap. split.
  - intros Heq. destruct f as [[g S1]|], a as [[v S2]|]; simplify_eq. eauto 10.
  - by intros (g & v & S1 & S2 & -> & -> & -> & ->).
Qed.

Lemma vret_Some {V} (v w : V) S : vret v = Some (w, S) → w = v ∧ S = ∅.
Proof. unfold vret. by intros [= -> <-]. Qed.

Lemma at_loc_Some {V} l (a : View V) v S :
  at_loc l a = Some (v, S) ↔ ∃ S', a = Some (v, S') ∧ S = {[l]} ∪ S'.
Proof.
  unfold at_loc. split.
  - intros Heq. destruct a as [[v' S']|]; simplify_eq. eauto.
  - by intros (S' & -> & ->).
Qed.

(** A view stays as it is when the heap grows. *)
Lemma view_mono {T V} (view : Heap → T → View V) `{!Local view} h h' x v S :
  h ⊆ h' → view h x = Some (v, S) → view h' x = Some (v, S).
Proof.
  intros Hsub Hv. eapply view_local; [done|]. intros l Hl.
  apply (view_dom _ _ _ _ Hv), elem_of_dom in Hl as [c Hc].
  rewrite Hc. by eapply lookup_weaken.
Qed.

Lemma copy_of_mono {T V} (view : Heap → T → View V) `{!Local view} h0 v h h' y :
  h ⊆ h' → copy_of view h0 v h y → copy_of view h0 v h' y.
Proof. intros Hsub (S & Hv & Hdisj). exists S. eauto using view_mono. Qed.

(** Copying one part of a bigger object whose copy began in [h0]: the rest of
    the copy may grow the heap further, the part stays copied. *)
Lemma hwp_copy {T V} (view : Heap → T → View V) `{!Local view} (into : T → HM T)
    `{!Copies view into} h0 h x v S (Q : Heap → T → Prop) :
  view h0 x = Some (v, S) → h0 ⊆ h →
  (∀ h' y, h0 ⊆ h' → (∀ h'', h' ⊆ h'' → copy_of view h0 v h'' y) → h ⊆ h' → Q h' y) →
  hwp (into x) h Q.
Proof.
  intros Hv Hsub HQ.
  eapply hwp_mono; [eapply copies, view_mono; done|].
  intros h' y (Hh' & S' & Hy & Hdisj). apply HQ; [by etrans| |done].
  intros h'' Hh''. exists S'. split; [by eapply view_mono|].
  apply subseteq_dom in Hsub. set_solver.
Qed.

(** ** The combinators are local *)

Lemma vbind_Some {A V} (o : option A) (f : A → View V) r :
  vbind o f = Some r ↔ ∃ a, o = Some a ∧ f a = Some r.
Proof. destruct o; simpl; naive_solver. Qed.

#[export] Instance Local_plain {T} : Local (view_plain (T:=T)).
Proof. split; [done|]. unfold view_plain, vret. intros. simplify_eq. set_solver. Qed.

Lemma Local_ret {T V} (f : T → V) : Local (λ _ x, vret (f x)).
Proof. split; [done|]. unfold vret. intros. simplify_eq. set_solver. Qed.

Lemma Local_comp {T U V} (g : T → U) (view : Heap → U → View V) :
  Local view → Local (λ h x, view h (g x)).
Proof. intros Hl. split; intros; [by eapply view_local|by eapply view_dom]. Qed.

Lemma Local_ap {T V W} (vf : Heap → T → View (V → W)) (va : Heap → T → View V) :
  Local vf → Local va → Local (λ h x, vap (vf h x) (va h x)).
Proof.
  intros Hf Ha. split.
  - intros h h' x v S (g & a & S1 & S2 & H1 & H2 & -> & ->)%vap_Some Hag.
    apply vap_Some. exists g, a, S1, S2.
    split_and!; [|..|done|done]; (eapply view_local; [done|]); set_solver.
  - intros h x v S (g & a & S1 & S2 & H1%view_dom & H2%view_dom & -> & ->)%vap_Some. set_solver.
Qed.

#[export] Instance Local_cell {T V} `{Storable T} (view : Heap → T → View V) :
  Local view → Local (view_cell view).
Proof.
  intros Hl. split.
  - intros h h' l v S (S' & (x & Hx & Hv)%vbind_Some & ->)%at_loc_Some Hag.
    apply at_loc_Some. exists S'. split; [|done]. apply vbind_Some. exists x. split.
    + rewrite <-Hx. apply peek_local, Hag. set_solver.
    + eapply view_local; [done|]. set_solver.
  - intros h l v S (S' & (x & Hx & Hv)%vbind_Some & ->)%at_loc_Some.
    apply peek_dom in Hx. apply view_dom in Hv. set_solver.
Qed.

#[export] Instance Local_ptr {T V} `{Storable T} (view : Heap → T → View V) :
  Local view → Local (view_ptr view).
Proof.
  intros Hl. assert (Local (λ h l, vap (vret Some) (view_cell view h l))) as [HA HB].
  { apply Local_ap; [apply Local_ret|apply _]. }
  split; [intros h h' [l|] v S|intros h [l|] v S]; simpl; eauto;
    unfold vret; intros; simplify_eq; set_solver.
Qed.

#[export] Instance Local_list {T V} (view : Heap → T → View V) :
  Local view → Local (view_list view).
Proof.
  intros Hl. split.
  - intros h h' xs. induction xs as [|x xs IH]; intros v S; simpl; [done|].
    intros (g & a & S1 & S2 & (g0 & b & S3 & S4 & Hc & Hx & -> & ->)%vap_Some & Hxs & -> & ->)%vap_Some Hag.
    unfold vret in Hc; simplify_eq. apply vap_Some.
    exists (cons b), a, (∅ ∪ S4), S2. split_and!; try done.
    + apply vap_Some. exists cons, b, ∅, S4. split_and!; try done.
      eapply view_local; [done|]. set_solver.
    + apply IH; [done|]. set_solver.
  - intros h xs. induction xs as [|x xs IH]; intros v S; simpl.
    { unfold vret. intros; simplify_eq. set_solver. }
    intros (g & a & S1 & S2 & (g0 & b & S3 & S4 & Hc & Hx%view_dom & -> & ->)%vap_Some & Hxs%IH & -> & ->)%vap_Some.
    unfold vret in Hc; simplify_eq. set_solver.
Qed.

Lemma Local_window {T V} (view : Heap → T → View V) w : Local view → Local (view_window view w).
Proof.
  intros Hl. split; unfold view_window.
  - intros h h' x v S (xs & Hw & Hv)%vbind_Some Hag. apply vbind_Some.
    exists xs. split; [done|]. by eapply view_local.
  - intros h x v S (xs & Hw & Hv%view_dom)%vbind_Some. done.
Qed.

#[export] Instance Local_slice {T V} `{Storable (list T)} (view : Heap → T → View V) :
  Local view → Local (view_slice view).
Proof.
  intros Hl. pose proof (λ w, Local_cell _ (Local_window view w Hl)) as Hc.
  split; [intros h h' [w|] v S|intros h [w|] v S]; simpl.
  - apply (view_local (Local := Hc w)).
  - done.
  - apply (view_dom (Local := Hc w)).
  - unfold vret. intros. simplify_eq. set_solver.
Qed.

Lemma gmap_footprint {T V} (view : Heap → T → View V) h (m : gmap string T) l :
  l ∈ ⋃ ((λ kx, footprint (view h kx.2)) <$> map_to_list m) ↔
    ∃ k x v F, m !! k = Some x ∧ view h x = Some (v, F) ∧ l ∈ F.
Proof.
  rewrite elem_of_union_list. setoid_rewrite list_elem_of_fmap. split.
  - intros (X & ([k x] & -> & Hkx%elem_of_map_to_list) & Hl). simpl in Hl.
    destruct (view h x) as [[v F]|] eqn:Hx; simpl in Hl; [eauto 10|set_solver].
  - intros (k & x & v & F & Hk & Hx & Hl). exists F. split; [|done].
    exists (k, x). split; [by simpl; rewrite Hx|by apply elem_of_map_to_list].
Qed.

(** What the view of a map says of each key. *)
Lemma view_gmap_Some {T V} (view : Heap → T → View V) h m vm S :
  view_gmap view h m = Some (vm, S) ↔
    (∀ k x, m !! k = Some x → ∃ v F, view h x = Some (v, F) ∧ vm !! k = Some v) ∧
    (∀ k, m !! k = None → vm !! k = None) ∧
    (∀ l, l ∈ S ↔ ∃ k x v F, m !! k = Some x ∧ view h x = Some (v, F) ∧ l ∈ F).
Proof.
  pose proof (gmap_footprint view h m) as Hfp.
  unfold view_gmap. case_decide as Hall.
  - split.
    + intros Heq. simplify_eq. split_and!; [| |done].
      * intros k x Hk. destruct (Hall k x Hk) as [[v F] Hx]. exists v, F. split; [done|].
        by rewrite lookup_omap, Hk; simpl; rewrite Hx.
      * intros k Hk. by rewrite lookup_omap, Hk.
    + intros (Hsome & Hnone & HS). f_equal. f_equal.
      * apply map_eq. intros k. rewrite lookup_omap. destruct (m !! k) as [x|] eqn:Hk; simpl.
        -- destruct (Hsome k x Hk) as (v & F & -> & ->). done.
        -- symmetry. by apply Hnone.
      * apply leibniz_equiv. intros l. by rewrite HS, Hfp.
  - split; [done|]. intros (Hsome & _). exfalso. apply Hall. intros k x Hk.
    destruct (Hsome k x Hk) as (v & F & Hx & _). eauto.
Qed.

#[export] Instance Local_gmap {T V} (view : Heap → T → View V) :
  Local view → Local (view_gmap view).
Proof.
  intros Hl. split.
  - intros h h' m vm S (Hs & Hn & HS)%view_gmap_Some Hag.
    assert (∀ k x v F, m !! k = Some x → view h x = Some (v, F) → view h' x = Some (v, F)) as Hsame.
    { intros k x v F Hk Hx. eapply view_local; [done|]. intros l Hin. apply Hag, HS. eauto 10. }
    apply view_gmap_Some. split_and!; [|done|].
    + intros k x Hk. destruct (Hs k x Hk) as (v & F & Hx & Hv). eauto.
    + intros l. rewrite HS. split; intros (k & x & v & F & Hk & Hx & Hin).
      * exists k, x, v, F. eauto.
      * destruct (Hs k x Hk) as (v' & F' & Hx' & _). pose proof (Hsame _ _ _ _ Hk Hx').
        simplify_eq. exists k, x, v, F. eauto.
  - intros h m vm S (Hs & Hn & HS)%view_gmap_Some l (k & x & v & F & _ & Hx%view_dom & Hin)%HS.
    set_solver.
Qed.

#[export] Instance Local_map {T V} `{Storable (gmap string T)} (view : Heap → T → View V) :
  Local view → Local (view_map view).
Proof.
  intros Hl. pose proof (Local_cell _ (Local_gmap view Hl)) as Hc.
  split; [intros h h' [l|] v S|intros h [l|] v S]; simpl.
  - apply (view_local (Local := Hc)).
  - done.
  - apply (view_dom (Local := Hc)).
  - unfold vret. intros. simplify_eq. set_solver.
Qed.

(** ** The combinators copy deeply *)

(** Storing a copy in a new cell. *)
Lemma hwp_new_copy {T V} `{Storable T} (view : Heap → T → View V) `{!Local view} h0 h (y : T) v
    (Q : Heap → loc → Prop) :
  h0 ⊆ h → copy_of view h0 v h y →
  (∀ h' l, h0 ⊆ h' → copy_of (view_cell view) h0 v h' l → Q h' l) →
  hwp (new y) h Q.
Proof.
  intros Hsub (S & Hy & Hdisj) HQ. apply hwp_new. intros h' l Hh' Hl Hpeek.
  apply HQ; [by etrans|]. exists ({[l]} ∪ S). split.
  - unfold view_cell. rewrite Hpeek. simpl. by rewrite (view_mono _ _ _ _ _ _ Hh' Hy).
  - apply subseteq_dom in Hsub. set_solver.
Qed.

#[export] Instance Copies_plain {T} : Copies (view_plain (T:=T)) hret.
Proof. intros h x v S Hv. split; [done|]. exists S. unfold view_plain, vret in *. simplify_eq. set_solver. Qed.

#[export] Instance Copies_ptr {T V} `{Storable T} (view : Heap → T → View V) `{!Local view} into :
  Copies view into → Copies (view_ptr view) (copy_ptr into).
Proof.
  intros Hc h [l|] v S; simpl; [|intros [= <- <-]; split; [done|]; exists ∅; set_solver].
  intros (g & w & S1 & S2 & [= <- <-] & (S' & (x & Hx & Hv)%vbind_Some & ->)%at_loc_Some & -> & ->)%vap_Some.
  apply hwp_bind. eapply hwp_load; [done|]. apply hwp_bind.
  eapply hwp_copy; [done..|]. intros h1 y Hh1 Hy _. apply hwp_bind.
  eapply (hwp_new_copy view); [done|by apply Hy|]. intros h2 l' Hh2 (F & HF & Hdisj).
  split; [done|]. exists F. simpl. rewrite HF. unfold vap; simpl.
  by rewrite (left_id_L ∅ (∪)).
Qed.

Lemma hwp_copy_list {T V} (view : Heap → T → View V) `{!Local view} into `{!Copies view into}
    h0 h xs vs S (Q : Heap → list T → Prop) :
  view_list view h0 xs = Some (vs, S) → h0 ⊆ h →
  (∀ h' ys, h0 ⊆ h' → copy_of (view_list view) h0 vs h' ys → h ⊆ h' → length ys = length xs → Q h' ys) →
  hwp (copy_list into xs) h Q.
Proof.
  revert h vs S Q. induction xs as [|x xs IH]; intros h vs S Q; simpl.
  - intros [= <- <-] Hsub HQ. apply HQ; try done. exists ∅. set_solver.
  - intros (g & ws & S1 & S2 & (g0 & w & S3 & S4 & [= <- <-] & Hx & -> & ->)%vap_Some & Hxs & -> & ->)%vap_Some
      Hsub HQ.
    apply hwp_bind. eapply hwp_copy; [done..|]. intros h1 y Hh1 Hy Hh. apply hwp_bind.
    eapply IH; [done..|]. intros h2 ys Hh2 (F2 & HF2 & Hd2) Hh12 Hlen.
    destruct (Hy h2 Hh12) as (F1 & HF1 & Hd1).
    apply hwp_ret, HQ; [done| |by etrans|by simpl; rewrite Hlen].
    exists (F1 ∪ F2). simpl. rewrite HF1, HF2. unfold vap; simpl.
    rewrite (left_id_L ∅ (∪)). split; [done|set_solver].
Qed.

Lemma window_length {T} w (arr xs : list T) : window w arr = Some xs → length xs = win_len w.
Proof.
  unfold window. intros Hw. case_decide; simplify_eq. rewrite length_take, length_drop. lia.
Qed.

Lemma window_all {T} l (xs : list T) : window (mkWindow l 0 (length xs)) xs = Some xs.
Proof. unfold window. simpl. rewrite decide_True by lia. by rewrite drop_0, firstn_all. Qed.

#[export] Instance Copies_slice {T V} `{Storable (list T)} (view : Heap → T → View V) `{!Local view} into :
  Copies view into → Copies (view_slice view) (copy_slice into).
Proof.
  intros Hc h [w|] v S; simpl; [|intros [= <- <-]; split; [done|]; exists ∅; set_solver].
  intros (S' & (arr & Harr & (xs & Hw & Hv)%vbind_Some)%vbind_Some & ->)%at_loc_Some.
  apply hwp_bind. eapply hwp_load; [done|]. rewrite Hw. apply hwp_bind.
  eapply hwp_copy_list; [done..|]. intros h1 ys Hh1 (F & HF & Hdisj) _ Hlen. apply hwp_bind.
  rewrite (window_length _ _ _ Hw) in Hlen.
  pose proof (Local_window view (mkWindow 0 0 (win_len w)) Local0).
  eapply (hwp_new_copy (view_window view (mkWindow 0 0 (win_len w)))).
  - exact Hh1.
  - exists F. split; [|done]. unfold view_window. by rewrite <-Hlen, window_all.
  - intros h2 l' Hh2 Hcopy. by split.
Qed.

(** After the loop every visited key holds a copy, the other keys are as
    they were. *)
Lemma hwp_copy_entries {T V} (view : Heap → T → View V) `{!Local view} into `{!Copies view into}
    h0 h kvs out (Q : Heap → gmap string T → Prop) :
  NoDup kvs.*1 → (∀ k x, (k, x) ∈ kvs → is_Some (view h0 x)) → h0 ⊆ h →
  (∀ h' out', h0 ⊆ h' → h ⊆ h' →
    (∀ k x, (k, x) ∈ kvs → ∃ y v F, view h0 x = Some (v, F) ∧ out' !! k = Some y ∧
       ∀ h'', h' ⊆ h'' → copy_of view h0 v h'' y) →
    (∀ k, k ∉ kvs.*1 → out' !! k = out !! k) → Q h' out') →
  hwp (copy_entries into kvs out) h Q.
Proof.
  revert h out Q. induction kvs as [|[k x] kvs IH]; intros h out Q; simpl.
  - intros _ _ Hsub HQ. apply HQ; try done. intros k x Hin. set_solver.
  - intros [Hk Hnd]%NoDup_cons Hviews Hsub HQ. apply hwp_bind.
    destruct (Hviews k x) as [[v F] Hx]; [set_solver|].
    eapply hwp_copy; [done..|]. intros h1 y Hh1 Hy Hh.
    apply IH; [done|set_solver|done|]. intros h2 out' Hh2 Hh12 Hin Hout.
    apply HQ; [done|by etrans| |].
    + intros k' x' [[= -> ->]|Hin']%elem_of_cons; [|by apply Hin].
      exists y, v, F. split_and!; [done| |].
      * rewrite Hout by done. by rewrite lookup_insert_eq.
      * intros h'' Hh''. apply Hy. by etrans.
    + intros k' [Hne Hk']%not_elem_of_cons. rewrite Hout by done. by rewrite lookup_insert_ne.
Qed.

Lemma range_elem `{RangeLaws} {T} (m : gmap string T) k x :
  (k, x) ∈ range_order T m ↔ m !! k = Some x.
Proof. rewrite range_perm. apply elem_of_map_to_list. Qed.

Lemma range_NoDup `{RangeLaws} {T} (m : gmap string T) : NoDup (range_order T m).*1.
Proof. rewrite range_perm. apply NoDup_fst_map_to_list. Qed.

Lemma not_elem_of_range `{RangeLaws} {T} (m : gmap string T) k :
  m !! k = None → k ∉ (range_order T m).*1.
Proof. intros Hk ([k' x] & -> & Hx%range_elem)%list_elem_of_fmap. simpl in Hk. congruence. Qed.

(** A map is a copy when each of its entries is. *)
Lemma copy_of_gmap {T V} (view : Heap → T → View V) h0 vm h (out : gmap string T) :
  (∀ k y, out !! k = Some y → ∃ v, vm !! k = Some v ∧ copy_of view h0 v h y) →
  (∀ k, out !! k = None → vm !! k = None) →
  copy_of (view_gmap view) h0 vm h out.
Proof.
  intros Hs Hn. eexists. split.
  - apply view_gmap_Some. split_and!; [|done|apply gmap_footprint].
    intros k y (v & Hv & F & Hy & _)%Hs. eauto.
  - intros l (k & y & v & F & Hk & Hy & Hin)%gmap_footprint.
    destruct (Hs k y Hk) as (v' & _ & F' & Hy' & Hdisj). simplify_eq. set_solver.
Qed.

Lemma hwp_copy_gmap `{RangeLaws} {T V} (view : Heap → T → View V) `{!Local view} into `{!Copies view into}
    h m vm S (Q : Heap → gmap string T → Prop) :
  view_gmap view h m = Some (vm, S) →
  (∀ h' out, h ⊆ h' → copy_of (view_gmap view) h vm h' out → Q h' out) →
  hwp (copy_entries into (range_order T m) ∅) h Q.
Proof.
  intros (Hs & Hn & HS)%view_gmap_Some HQ.
  apply (hwp_copy_entries view _ h); [apply range_NoDup| |done|].
  { intros k x (v & F & Hx & _)%range_elem%Hs. eauto. }
  intros h' out Hh' _ Hin Hout. apply HQ; [done|].
  apply copy_of_gmap; intros k; destruct (m !! k) as [x|] eqn:Hk.
  - intros y Hy. destruct (Hin k x) as (y' & v & F & Hx & Hy' & Hc); [by apply range_elem|].
    destruct (Hs k x Hk) as (v' & F' & Hx' & Hv'). simplify_eq. eauto.
  - intros y. rewrite Hout; [done|]. by apply not_elem_of_range.
  - intros Hnone. destruct (Hin k x) as (y' & v & F & Hx & Hy' & Hc); [by apply range_elem|].
    congruence.
  - intros _. by apply Hn.
Qed.

#[export] Instance Copies_map `{RangeLaws} {T V} `{Storable (gmap string T)} (view : Heap → T → View V)
    `{!Local view} into :
  Copies view into → Copies (view_map view) (copy_map into).
Proof.
  intros Hc h [l|] v S; simpl; [|intros [= <- <-]; split; [done|]; exists ∅; set_solver].
  intros (S' & (m & Hm & Hv)%vbind_Some & ->)%at_loc_Some.
  apply hwp_bind. eapply hwp_load; [done|]. apply hwp_bind.
  eapply (hwp_copy_gmap view); [apply _|done|]. intros h1 out Hh1 Hout. apply hwp_bind.
  eapply (hwp_new_copy (view_gmap view)); [done..|]. intros h2 l' Hh2 Hl'. by split.
Qed.
End Heap.

Abbreviation Heap := (gmap loc).
Arguments HM : clear implicits.
Arguments Storable : clear implicits.

Notation "'let*' x ':=' m 'in' k" := (hbind m (λ x, k))
  (at level 10, x name, m at level 99, k at level 200, only parsing) : go_scope.

(** The constructor of a struct applied to the views of its fields. *)
Notation "f ⊛ a" := (vap f a) (at level 50, left associativity) : go_scope.

Ltac head t := lazymatch t with ?f _ => head f | _ => t end.

(** [Local] for a struct: the view applies the constructor to the views of
    the fields. *)
Ltac local_fields :=
  lazymatch goal with |- Local ?view => let f := head view in unfold f end;
  repeat apply Local_ap;
  lazymatch goal with
  | |- Local (λ _ _, vret _) => apply (Local_ret (λ _, _))
  | |- Local (λ h x, ?v h (@?g x)) => apply (Local_comp g v); apply _
  end.

(** Take the view of a struct apart. *)
Ltac view_inv :=
  repeat match goal with
  | H : vap _ _ = Some _ |- _ =>
      let g := fresh "g" in let v := fresh "v" in let F1 := fresh "F" in let F2 := fresh "F" in
      let H1 := fresh "H" in let H2 := fresh "Hv" in
      apply vap_Some in H as (g & v & F1 & F2 & H1 & H2 & -> & ->)
  | H : vret _ = Some _ |- _ => apply vret_Some in H as [-> ->]
  | H : view_plain _ _ = Some _ |- _ => apply vret_Some in H as [-> ->]
  end.

(** What is copied already stays copied in the bigger heap. *)
Ltac copies_grow Hgrow :=
  repeat match goal with
  | H : copy_of _ _ _ ?h _ |- _ =>
      lazymatch type of Hgrow with h ⊆ _ => eapply (copy_of_mono _ _ _ _ _ _ Hgrow) in H end
  end; clear Hgrow.

(** [Copies] for a struct: one [hwp_copy] per field that is copied. *)
Ltac copy_fields :=
  let h := fresh "h" in let x := fresh "x" in let v := fresh "v" in let fp := fresh "fp" in
  let Hv := fresh "Hv" in let Hsub := fresh "Hsub" in
  lazymatch goal with |- Copies ?view ?into =>
    intros h x v fp Hv; let f := head view in unfold f in Hv; view_inv; unfold into;
    assert (h ⊆ h) as Hsub by done
  end;
  repeat (apply hwp_bind;
    let h' := fresh "h" in let y := fresh "y" in let Hy := fresh "Hy" in
    let Hsub' := fresh "Hsub" in let Hgrow := fresh "Hgrow" in
    lazymatch goal with |- hwp (?f ?z) _ _ =>
      match goal with Hz : ?view h z = Some _ |- _ => eapply (hwp_copy view f _ _ _ _ _ _ Hz Hsub) end
    end;
    intros h' y Hsub' Hy Hgrow; specialize (Hy h' (reflexivity h'));
    copies_grow Hgrow; clear Hsub; rename Hsub' into Hsub);
  apply hwp_ret; split; [exact Hsub|];
  repeat match goal with
  | H : copy_of _ _ _ _ _ |- _ =>
      let F := fresh "F" in let Hview := fresh "Hview" in let Hd := fresh "Hd" in
      destruct H as (F & Hview & Hd)
  end;
  eexists; split;
  [lazymatch goal with |- ?view _ _ = _ => let f := head view in unfold f end;
   repeat match goal with Hview : _ = Some _ |- _ => cbn; rewrite Hview; clear Hview end;
   unfold view_plain, vap, vret; cbn; reflexivity
  |set_solver].
