(* ===== verification/DeepCopy.v ===== *)
(** * Deep copies of the API objects (zz_generated.deepcopy.go)

    The API objects as they are in memory: structs whose pointers, slices and
    maps are locations of the heap of GoHeap.v.  For every type the generated
    [DeepCopyInto] (a function of the struct [*in] that returns the struct left
    in [*out]), [DeepCopy] and [DeepCopyObject] are translated, and shown to
    copy deeply.  The rest of the library treats API objects as values; the
    snapshot a patch helper takes with [DeepCopyObject] before a handler
    changes its object is a value because of the theorems here.

    The structs of Kubernetes and Cluster API that the objects embed, and
    their generated functions, are parameters: a struct type, what it
    represents, and that its [DeepCopyInto] copies deeply. *)

From S2P Require Import Prelude Api GoHeap.

(** ** Structs in memory *)

(** The structs of the libraries, and the cells their pointers point to. *)
Class LibTypes := {
  GObjectMeta : Type;          (* metav1.ObjectMeta *)
  GListMeta : Type;            (* metav1.ListMeta *)
  GLabelSelector : Type;       (* metav1.LabelSelector *)
  GCondition : Type;           (* clusterv1.Condition *)
  GFailureDomainSpec : Type;   (* clusterv1.FailureDomainSpec *)
  GTemplateMeta : Type;        (* clusterv1.ObjectMeta *)
  LibCell : Type }.

Section DeepCopy.
Context {LT : LibTypes}.

Record GNetworkStatus := mkGNetworkStatus {
  gns_Connected : bool;
  gns_IPAddrs : Slice string;
  gns_MACAddr : string;
  gns_NetworkInterfaceName : string;
  gns_IsDefault : bool }.

Record GByoHostSpec := mkGByoHostSpec {
  ghs_BootstrapSecret : Ptr ObjectReference;
  ghs_InstallationSecret : Ptr ObjectReference;
  ghs_UninstallationSecret : Ptr ObjectReference }.

Record GByoHostStatus := mkGByoHostStatus {
  ght_MachineRef : Ptr ObjectReference;
  ght_Conditions : Slice GCondition;
  ght_HostDetails : HostInfo;
  ght_Network : Slice GNetworkStatus }.

Record GByoHost := mkGByoHost {
  gh_TypeMeta : TypeMeta;
  gh_ObjectMeta : GObjectMeta;
  gh_Spec : GByoHostSpec;
  gh_Status : GByoHostStatus }.

Record GByoMachineSpec := mkGByoMachineSpec {
  gms_Selector : Ptr GLabelSelector;
  gms_ProviderID : string;
  gms_InstallerRef : Ptr ObjectReference }.

Record GByoMachineStatus := mkGByoMachineStatus {
  gmst_HostInfo : HostInfo;
  gmst_Ready : bool;
  gmst_Conditions : Slice GCondition }.

Record GByoMachine := mkGByoMachine {
  gm_TypeMeta : TypeMeta;
  gm_ObjectMeta : GObjectMeta;
  gm_Spec : GByoMachineSpec;
  gm_Status : GByoMachineStatus }.

Record GByoMachineTemplateResource := mkGByoMachineTemplateResource {
  gmr_Spec : GByoMachineSpec }.

Record GByoMachineTemplateSpec := mkGByoMachineTemplateSpec {
  gmts_Template : GByoMachineTemplateResource }.

Record GByoMachineTemplate := mkGByoMachineTemplate {
  gmt_TypeMeta : TypeMeta;
  gmt_ObjectMeta : GObjectMeta;
  gmt_Spec : GByoMachineTemplateSpec;
  gmt_Status : ByoMachineTemplateStatus }.

Record GByoClusterStatus := mkGByoClusterStatus {
  gcst_Ready : bool;
  gcst_Conditions : Slice GCondition;
  gcst_FailureDomains : GoMap GFailureDomainSpec }.

Record GByoCluster := mkGByoCluster {
  gc_TypeMeta : TypeMeta;
  gc_ObjectMeta : GObjectMeta;
  gc_Spec : ByoClusterSpec;
  gc_Status : GByoClusterStatus }.

Record GByoClusterTemplateResource := mkGByoClusterTemplateResource {
  gcr_ObjectMeta : GTemplateMeta;
  gcr_Spec : ByoClusterSpec }.

Record GByoClusterTemplateSpec := mkGByoClusterTemplateSpec {
  gcts_Template : GByoClusterTemplateResource }.

Record GByoClusterTemplate := mkGByoClusterTemplate {
  gct_TypeMeta : TypeMeta;
  gct_ObjectMeta : GObjectMeta;
  gct_Spec : GByoClusterTemplateSpec }.

Record GK8sInstallerConfigStatus := mkGK8sInstallerConfigStatus {
  gkst_Ready : bool;
  gkst_InstallationSecret : Ptr ObjectReference;
  gkst_UninstallationSecret : Ptr ObjectReference }.

Record GK8sInstallerConfig := mkGK8sInstallerConfig {
  gk_TypeMeta : TypeMeta;
  gk_ObjectMeta : GObjectMeta;
  gk_Spec : K8sInstallerConfigSpec;
  gk_Status : GK8sInstallerConfigStatus }.

Record GK8sInstallerConfigTemplate := mkGK8sInstallerConfigTemplate {
  gkt_TypeMeta : TypeMeta;
  gkt_ObjectMeta : GObjectMeta;
  gkt_Spec : K8sInstallerConfigTemplateSpec;
  gkt_Status : K8sInstallerConfigTemplateStatus }.

Record GBootstrapKubeconfigStatus := mkGBootstrapKubeconfigStatus {
  gbst_BootstrapKubeconfigData : Ptr string }.

Record GBootstrapKubeconfig := mkGBootstrapKubeconfig {
  gb_TypeMeta : TypeMeta;
  gb_ObjectMeta : GObjectMeta;
  gb_Spec : BootstrapKubeconfigSpec;
  gb_Status : GBootstrapKubeconfigStatus }.

(** [ByoHostList] and the other list types *)
Record GObjectList (G : Type) := mkGObjectList {
  gl_TypeMeta : TypeMeta;
  gl_ListMeta : GListMeta;
  gl_Items : Slice G }.
#[global] Arguments mkGObjectList {G}.
#[global] Arguments gl_TypeMeta {G}.
#[global] Arguments gl_ListMeta {G}.
#[global] Arguments gl_Items {G}.

Definition GBootstrapKubeconfigList : Type := GObjectList GBootstrapKubeconfig.
Definition GByoClusterList : Type := GObjectList GByoCluster.
Definition GByoClusterTemplateList : Type := GObjectList GByoClusterTemplate.
Definition GByoHostList : Type := GObjectList GByoHost.
Definition GByoMachineList : Type := GObjectList GByoMachine.
Definition GByoMachineTemplateList : Type := GObjectList GByoMachineTemplate.
Definition GK8sInstallerConfigList : Type := GObjectList GK8sInstallerConfig.
Definition GK8sInstallerConfigTemplateList : Type := GObjectList GK8sInstallerConfigTemplate.

(** What a location holds: a struct, the array of a slice, or a map. *)
Inductive Cell :=
  | CString (x : string)
  | CObjectReference (x : ObjectReference)
  | CLabelSelector (x : GLabelSelector)
  | CAPIEndpoint (x : APIEndpoint)
  | CBootstrapKubeconfigSpec (x : BootstrapKubeconfigSpec)
  | CByoClusterSpec (x : ByoClusterSpec)
  | CByoMachineTemplateStatus (x : ByoMachineTemplateStatus)
  | CHostInfo (x : HostInfo)
  | CK8sInstallerConfigSpec (x : K8sInstallerConfigSpec)
  | CK8sInstallerConfigTemplateResource (x : K8sInstallerConfigTemplateResource)
  | CK8sInstallerConfigTemplateSpec (x : K8sInstallerConfigTemplateSpec)
  | CK8sInstallerConfigTemplateStatus (x : K8sInstallerConfigTemplateStatus)
  | CNetworkStatus (x : GNetworkStatus)
  | CByoHostSpec (x : GByoHostSpec)
  | CByoHostStatus (x : GByoHostStatus)
  | CByoHost (x : GByoHost)
  | CByoMachineSpec (x : GByoMachineSpec)
  | CByoMachineStatus (x : GByoMachineStatus)
  | CByoMachine (x : GByoMachine)
  | CByoMachineTemplateResource (x : GByoMachineTemplateResource)
  | CByoMachineTemplateSpec (x : GByoMachineTemplateSpec)
  | CByoMachineTemplate (x : GByoMachineTemplate)
  | CByoClusterStatus (x : GByoClusterStatus)
  | CByoCluster (x : GByoCluster)
  | CByoClusterTemplateResource (x : GByoClusterTemplateResource)
  | CByoClusterTemplateSpec (x : GByoClusterTemplateSpec)
  | CByoClusterTemplate (x : GByoClusterTemplate)
  | CK8sInstallerConfigStatus (x : GK8sInstallerConfigStatus)
  | CK8sInstallerConfig (x : GK8sInstallerConfig)
  | CK8sInstallerConfigTemplate (x : GK8sInstallerConfigTemplate)
  | CBootstrapKubeconfigStatus (x : GBootstrapKubeconfigStatus)
  | CBootstrapKubeconfig (x : GBootstrapKubeconfig)
  | CBootstrapKubeconfigList (x : GBootstrapKubeconfigList)
  | CByoClusterList (x : GByoClusterList)
  | CByoClusterTemplateList (x : GByoClusterTemplateList)
  | CByoHostList (x : GByoHostList)
  | CByoMachineList (x : GByoMachineList)
  | CByoMachineTemplateList (x : GByoMachineTemplateList)
  | CK8sInstallerConfigList (x : GK8sInstallerConfigList)
  | CK8sInstallerConfigTemplateList (x : GK8sInstallerConfigTemplateList)
  | CStrings (xs : list string)
  | CConditions (xs : list GCondition)
  | CNetwork (xs : list GNetworkStatus)
  | CBootstrapKubeconfigs (xs : list GBootstrapKubeconfig)
  | CByoClusters (xs : list GByoCluster)
  | CByoClusterTemplates (xs : list GByoClusterTemplate)
  | CByoHosts (xs : list GByoHost)
  | CByoMachines (xs : list GByoMachine)
  | CByoMachineTemplates (xs : list GByoMachineTemplate)
  | CK8sInstallerConfigs (xs : list GK8sInstallerConfig)
  | CK8sInstallerConfigTemplates (xs : list GK8sInstallerConfigTemplate)
  | CFailureDomains (m : gmap string GFailureDomainSpec)
  | CLib (x : LibCell).

#[local] Abbreviation Storable := (Storable Cell).
#[local] Abbreviation HM := (HM Cell).
#[local] Abbreviation Heap := (Heap Cell).

(** The constructor of a type, and its inverse. *)
Ltac storable con :=
  unshelve refine {| to_cell := con |};
  [ let c := fresh "c" in let x := fresh "x" in
    intros c; case c; intros x; first [exact (Some x) | exact None]
  | reflexivity ].

#[export] Instance Storable_String : Storable string.
Proof. storable CString. Defined.
#[export] Instance Storable_ObjectReference : Storable ObjectReference.
Proof. storable CObjectReference. Defined.
#[export] Instance Storable_LabelSelector : Storable GLabelSelector.
Proof. storable CLabelSelector. Defined.
#[export] Instance Storable_APIEndpoint : Storable APIEndpoint.
Proof. storable CAPIEndpoint. Defined.
#[export] Instance Storable_BootstrapKubeconfigSpec : Storable BootstrapKubeconfigSpec.
Proof. storable CBootstrapKubeconfigSpec. Defined.
#[export] Instance Storable_ByoClusterSpec : Storable ByoClusterSpec.
Proof. storable CByoClusterSpec. Defined.
#[export] Instance Storable_ByoMachineTemplateStatus : Storable ByoMachineTemplateStatus.
Proof. storable CByoMachineTemplateStatus. Defined.
#[export] Instance Storable_HostInfo : Storable HostInfo.
Proof. storable CHostInfo. Defined.
#[export] Instance Storable_K8sInstallerConfigSpec : Storable K8sInstallerConfigSpec.
Proof. storable CK8sInstallerConfigSpec. Defined.
#[export] Instance Storable_K8sInstallerConfigTemplateResource : Storable K8sInstallerConfigTemplateResource.
Proof. storable CK8sInstallerConfigTemplateResource. Defined.
#[export] Instance Storable_K8sInstallerConfigTemplateSpec : Storable K8sInstallerConfigTemplateSpec.
Proof. storable CK8sInstallerConfigTemplateSpec. Defined.
#[export] Instance Storable_K8sInstallerConfigTemplateStatus : Storable K8sInstallerConfigTemplateStatus.
Proof. storable CK8sInstallerConfigTemplateStatus. Defined.
#[export] Instance Storable_NetworkStatus : Storable GNetworkStatus.
Proof. storable CNetworkStatus. Defined.
#[export] Instance Storable_ByoHostSpec : Storable GByoHostSpec.
Proof. storable CByoHostSpec. Defined.
#[export] Instance Storable_ByoHostStatus : Storable GByoHostStatus.
Proof. storable CByoHostStatus. Defined.
#[export] Instance Storable_ByoHost : Storable GByoHost.
Proof. storable CByoHost. Defined.
#[export] Instance Storable_ByoMachineSpec : Storable GByoMachineSpec.
Proof. storable CByoMachineSpec. Defined.
#[export] Instance Storable_ByoMachineStatus : Storable GByoMachineStatus.
Proof. storable CByoMachineStatus. Defined.
#[export] Instance Storable_ByoMachine : Storable GByoMachine.
Proof. storable CByoMachine. Defined.
#[export] Instance Storable_ByoMachineTemplateResource : Storable GByoMachineTemplateResource.
Proof. storable CByoMachineTemplateResource. Defined.
#[export] Instance Storable_ByoMachineTemplateSpec : Storable GByoMachineTemplateSpec.
Proof. storable CByoMachineTemplateSpec. Defined.
#[export] Instance Storable_ByoMachineTemplate : Storable GByoMachineTemplate.
Proof. storable CByoMachineTemplate. Defined.
#[export] Instance Storable_ByoClusterStatus : Storable GByoClusterStatus.
Proof. storable CByoClusterStatus. Defined.
#[export] Instance Storable_ByoCluster : Storable GByoCluster.
Proof. storable CByoCluster. Defined.
#[export] Instance Storable_ByoClusterTemplateResource : Storable GByoClusterTemplateResource.
Proof. storable CByoClusterTemplateResource. Defined.
#[export] Instance Storable_ByoClusterTemplateSpec : Storable GByoClusterTemplateSpec.
Proof. storable CByoClusterTemplateSpec. Defined.
#[export] Instance Storable_ByoClusterTemplate : Storable GByoClusterTemplate.
Proof. storable CByoClusterTemplate. Defined.
#[export] Instance Storable_K8sInstallerConfigStatus : Storable GK8sInstallerConfigStatus.
Proof. storable CK8sInstallerConfigStatus. Defined.
#[export] Instance Storable_K8sInstallerConfig : Storable GK8sInstallerConfig.
Proof. storable CK8sInstallerConfig. Defined.
#[export] Instance Storable_K8sInstallerConfigTemplate : Storable GK8sInstallerConfigTemplate.
Proof. storable CK8sInstallerConfigTemplate. Defined.
#[export] Instance Storable_BootstrapKubeconfigStatus : Storable GBootstrapKubeconfigStatus.
Proof. storable CBootstrapKubeconfigStatus. Defined.
#[export] Instance Storable_BootstrapKubeconfig : Storable GBootstrapKubeconfig.
Proof. storable CBootstrapKubeconfig. Defined.
#[export] Instance Storable_BootstrapKubeconfigList : Storable GBootstrapKubeconfigList.
Proof. storable CBootstrapKubeconfigList. Defined.
#[export] Instance Storable_ByoClusterList : Storable GByoClusterList.
Proof. storable CByoClusterList. Defined.
#[export] Instance Storable_ByoClusterTemplateList : Storable GByoClusterTemplateList.
Proof. storable CByoClusterTemplateList. Defined.
#[export] Instance Storable_ByoHostList : Storable GByoHostList.
Proof. storable CByoHostList. Defined.
#[export] Instance Storable_ByoMachineList : Storable GByoMachineList.
Proof. storable CByoMachineList. Defined.
#[export] Instance Storable_ByoMachineTemplateList : Storable GByoMachineTemplateList.
Proof. storable CByoMachineTemplateList. Defined.
#[export] Instance Storable_K8sInstallerConfigList : Storable GK8sInstallerConfigList.
Proof. storable CK8sInstallerConfigList. Defined.
#[export] Instance Storable_K8sInstallerConfigTemplateList : Storable GK8sInstallerConfigTemplateList.
Proof. storable CK8sInstallerConfigTemplateList. Defined.
#[export] Instance Storable_Strings : Storable (list string).
Proof. storable CStrings. Defined.
#[export] Instance Storable_Conditions : Storable (list GCondition).
Proof. storable CConditions. Defined.
#[export] Instance Storable_Network : Storable (list GNetworkStatus).
Proof. storable CNetwork. Defined.
#[export] Instance Storable_BootstrapKubeconfigs : Storable (list GBootstrapKubeconfig).
Proof. storable CBootstrapKubeconfigs. Defined.
#[export] Instance Storable_ByoClusters : Storable (list GByoCluster).
Proof. storable CByoClusters. Defined.
#[export] Instance Storable_ByoClusterTemplates : Storable (list GByoClusterTemplate).
Proof. storable CByoClusterTemplates. Defined.
#[export] Instance Storable_ByoHosts : Storable (list GByoHost).
Proof. storable CByoHosts. Defined.
#[export] Instance Storable_ByoMachines : Storable (list GByoMachine).
Proof. storable CByoMachines. Defined.
#[export] Instance Storable_ByoMachineTemplates : Storable (list GByoMachineTemplate).
Proof. storable CByoMachineTemplates. Defined.
#[export] Instance Storable_K8sInstallerConfigs : Storable (list GK8sInstallerConfig).
Proof. storable CK8sInstallerConfigs. Defined.
#[export] Instance Storable_K8sInstallerConfigTemplates : Storable (list GK8sInstallerConfigTemplate).
Proof. storable CK8sInstallerConfigTemplates. Defined.
#[export] Instance Storable_FailureDomains : Storable (gmap string GFailureDomainSpec).
Proof. storable CFailureDomains. Defined.

(** ** What the structs of the libraries represent, and their generated code *)

Class LibCopy := {
  view_ObjectMeta : Heap → GObjectMeta → View ObjectMeta;
  view_ListMeta : Heap → GListMeta → View ListMeta;
  view_LabelSelector : Heap → GLabelSelector → View LabelSelector;
  view_Condition : Heap → GCondition → View Condition;
  view_FailureDomainSpec : Heap → GFailureDomainSpec → View FailureDomainSpec;
  view_TemplateMeta : Heap → GTemplateMeta → View TemplateMeta;
  ObjectMeta_DeepCopyInto : GObjectMeta → HM GObjectMeta;
  ListMeta_DeepCopyInto : GListMeta → HM GListMeta;
  LabelSelector_DeepCopyInto : GLabelSelector → HM GLabelSelector;
  Condition_DeepCopyInto : GCondition → HM GCondition;
  FailureDomainSpec_DeepCopyInto : GFailureDomainSpec → HM GFailureDomainSpec;
  TemplateMeta_DeepCopyInto : GTemplateMeta → HM GTemplateMeta }.

(** The documented behaviour of the libraries: what a struct represents is
    read from its own cells, and [DeepCopyInto] copies deeply. *)
Class LibLaws `{LibCopy} := {
  #[export] Local_ObjectMeta :: Local view_ObjectMeta;
  #[export] Local_ListMeta :: Local view_ListMeta;
  #[export] Local_LabelSelector :: Local view_LabelSelector;
  #[export] Local_Condition :: Local view_Condition;
  #[export] Local_FailureDomainSpec :: Local view_FailureDomainSpec;
  #[export] Local_TemplateMeta :: Local view_TemplateMeta;
  #[export] Copies_ObjectMeta :: Copies view_ObjectMeta ObjectMeta_DeepCopyInto;
  #[export] Copies_ListMeta :: Copies view_ListMeta ListMeta_DeepCopyInto;
  #[export] Copies_LabelSelector :: Copies view_LabelSelector LabelSelector_DeepCopyInto;
  #[export] Copies_Condition :: Copies view_Condition Condition_DeepCopyInto;
  #[export] Copies_FailureDomainSpec :: Copies view_FailureDomainSpec FailureDomainSpec_DeepCopyInto;
  #[export] Copies_TemplateMeta :: Copies view_TemplateMeta TemplateMeta_DeepCopyInto }.

Context `{LC : LibCopy} `{RO : RangeOrder}.

(** ** The generated functions *)

(** Structs without pointers: [*out = *in]. *)
Definition APIEndpoint_DeepCopyInto (in_ : APIEndpoint) : HM APIEndpoint := hret in_.
Definition BootstrapKubeconfigSpec_DeepCopyInto (in_ : BootstrapKubeconfigSpec) : HM BootstrapKubeconfigSpec :=
  hret in_.
Definition ByoClusterSpec_DeepCopyInto (in_ : ByoClusterSpec) : HM ByoClusterSpec := hret in_.
Definition ByoMachineTemplateStatus_DeepCopyInto (in_ : ByoMachineTemplateStatus) : HM ByoMachineTemplateStatus :=
  hret in_.
Definition HostInfo_DeepCopyInto (in_ : HostInfo) : HM HostInfo := hret in_.
Definition K8sInstallerConfigSpec_DeepCopyInto (in_ : K8sInstallerConfigSpec) : HM K8sInstallerConfigSpec :=
  hret in_.
Definition K8sInstallerConfigTemplateResource_DeepCopyInto (in_ : K8sInstallerConfigTemplateResource) : HM K8sInstallerConfigTemplateResource :=
  hret in_.
Definition K8sInstallerConfigTemplateSpec_DeepCopyInto (in_ : K8sInstallerConfigTemplateSpec) : HM K8sInstallerConfigTemplateSpec :=
  hret in_.
Definition K8sInstallerConfigTemplateStatus_DeepCopyInto (in_ : K8sInstallerConfigTemplateStatus) : HM K8sInstallerConfigTemplateStatus :=
  hret in_.

(** [*out = *in], and a copy of every field that points somewhere.  The fields
    [new] and [make] allocate are written when their contents are copied. *)
Definition NetworkStatus_DeepCopyInto (in_ : GNetworkStatus) : HM GNetworkStatus :=
  let* ipAddrs := copy_slice hret (gns_IPAddrs in_) in
  hret (mkGNetworkStatus (gns_Connected in_) ipAddrs (gns_MACAddr in_)
    (gns_NetworkInterfaceName in_) (gns_IsDefault in_)).

Definition ByoHostSpec_DeepCopyInto (in_ : GByoHostSpec) : HM GByoHostSpec :=
  let* bootstrapSecret := copy_ptr hret (ghs_BootstrapSecret in_) in
  let* installationSecret := copy_ptr hret (ghs_InstallationSecret in_) in
  let* uninstallationSecret := copy_ptr hret (ghs_UninstallationSecret in_) in
  hret (mkGByoHostSpec bootstrapSecret installationSecret uninstallationSecret).

Definition ByoHostStatus_DeepCopyInto (in_ : GByoHostStatus) : HM GByoHostStatus :=
  let* machineRef := copy_ptr hret (ght_MachineRef in_) in
  let* conditions := copy_slice Condition_DeepCopyInto (ght_Conditions in_) in
  let* network := copy_slice NetworkStatus_DeepCopyInto (ght_Network in_) in
  hret (mkGByoHostStatus machineRef conditions (ght_HostDetails in_) network).

Definition ByoHost_DeepCopyInto (in_ : GByoHost) : HM GByoHost :=
  let* objectMeta := ObjectMeta_DeepCopyInto (gh_ObjectMeta in_) in
  let* spec := ByoHostSpec_DeepCopyInto (gh_Spec in_) in
  let* status := ByoHostStatus_DeepCopyInto (gh_Status in_) in
  hret (mkGByoHost (gh_TypeMeta in_) objectMeta spec status).

Definition ByoMachineSpec_DeepCopyInto (in_ : GByoMachineSpec) : HM GByoMachineSpec :=
  let* selector := copy_ptr LabelSelector_DeepCopyInto (gms_Selector in_) in
  let* installerRef := copy_ptr hret (gms_InstallerRef in_) in
  hret (mkGByoMachineSpec selector (gms_ProviderID in_) installerRef).

Definition ByoMachineStatus_DeepCopyInto (in_ : GByoMachineStatus) : HM GByoMachineStatus :=
  let* conditions := copy_slice Condition_DeepCopyInto (gmst_Conditions in_) in
  hret (mkGByoMachineStatus (gmst_HostInfo in_) (gmst_Ready in_) conditions).

Definition ByoMachine_DeepCopyInto (in_ : GByoMachine) : HM GByoMachine :=
  let* objectMeta := ObjectMeta_DeepCopyInto (gm_ObjectMeta in_) in
  let* spec := ByoMachineSpec_DeepCopyInto (gm_Spec in_) in
  let* status := ByoMachineStatus_DeepCopyInto (gm_Status in_) in
  hret (mkGByoMachine (gm_TypeMeta in_) objectMeta spec status).

Definition ByoMachineTemplateResource_DeepCopyInto (in_ : GByoMachineTemplateResource) : HM GByoMachineTemplateResource :=
  let* spec := ByoMachineSpec_DeepCopyInto (gmr_Spec in_) in
  hret (mkGByoMachineTemplateResource spec).

Definition ByoMachineTemplateSpec_DeepCopyInto (in_ : GByoMachineTemplateSpec) : HM GByoMachineTemplateSpec :=
  let* template := ByoMachineTemplateResource_DeepCopyInto (gmts_Template in_) in
  hret (mkGByoMachineTemplateSpec template).

Definition ByoMachineTemplate_DeepCopyInto (in_ : GByoMachineTemplate) : HM GByoMachineTemplate :=
  let* objectMeta := ObjectMeta_DeepCopyInto (gmt_ObjectMeta in_) in
  let* spec := ByoMachineTemplateSpec_DeepCopyInto (gmt_Spec in_) in
  hret (mkGByoMachineTemplate (gmt_TypeMeta in_) objectMeta spec (gmt_Status in_)).

(** [( *out)[key] = *val.DeepCopy()]: the struct [DeepCopyInto] leaves in the new
    location. *)
Definition ByoClusterStatus_DeepCopyInto (in_ : GByoClusterStatus) : HM GByoClusterStatus :=
  let* conditions := copy_slice Condition_DeepCopyInto (gcst_Conditions in_) in
  let* failureDomains := copy_map FailureDomainSpec_DeepCopyInto (gcst_FailureDomains in_) in
  hret (mkGByoClusterStatus (gcst_Ready in_) conditions failureDomains).

Definition ByoCluster_DeepCopyInto (in_ : GByoCluster) : HM GByoCluster :=
  let* objectMeta := ObjectMeta_DeepCopyInto (gc_ObjectMeta in_) in
  let* status := ByoClusterStatus_DeepCopyInto (gc_Status in_) in
  hret (mkGByoCluster (gc_TypeMeta in_) objectMeta (gc_Spec in_) status).

Definition ByoClusterTemplateResource_DeepCopyInto (in_ : GByoClusterTemplateResource) : HM GByoClusterTemplateResource :=
  let* objectMeta := TemplateMeta_DeepCopyInto (gcr_ObjectMeta in_) in
  hret (mkGByoClusterTemplateResource objectMeta (gcr_Spec in_)).

Definition ByoClusterTemplateSpec_DeepCopyInto (in_ : GByoClusterTemplateSpec) : HM GByoClusterTemplateSpec :=
  let* template := ByoClusterTemplateResource_DeepCopyInto (gcts_Template in_) in
  hret (mkGByoClusterTemplateSpec template).

Definition ByoClusterTemplate_DeepCopyInto (in_ : GByoClusterTemplate) : HM GByoClusterTemplate :=
  let* objectMeta := ObjectMeta_DeepCopyInto (gct_ObjectMeta in_) in
  let* spec := ByoClusterTemplateSpec_DeepCopyInto (gct_Spec in_) in
  hret (mkGByoClusterTemplate (gct_TypeMeta in_) objectMeta spec).

Definition K8sInstallerConfigStatus_DeepCopyInto (in_ : GK8sInstallerConfigStatus) : HM GK8sInstallerConfigStatus :=
  let* installationSecret := copy_ptr hret (gkst_InstallationSecret in_) in
  let* uninstallationSecret := copy_ptr hret (gkst_UninstallationSecret in_) in
  hret (mkGK8sInstallerConfigStatus (gkst_Ready in_) installationSecret uninstallationSecret).

Definition K8sInstallerConfig_DeepCopyInto (in_ : GK8sInstallerConfig) : HM GK8sInstallerConfig :=
  let* objectMeta := ObjectMeta_DeepCopyInto (gk_ObjectMeta in_) in
  let* status := K8sInstallerConfigStatus_DeepCopyInto (gk_Status in_) in
  hret (mkGK8sInstallerConfig (gk_TypeMeta in_) objectMeta (gk_Spec in_) status).

Definition K8sInstallerConfigTemplate_DeepCopyInto (in_ : GK8sInstallerConfigTemplate) : HM GK8sInstallerConfigTemplate :=
  let* objectMeta := ObjectMeta_DeepCopyInto (gkt_ObjectMeta in_) in
  hret (mkGK8sInstallerConfigTemplate (gkt_TypeMeta in_) objectMeta (gkt_Spec in_) (gkt_Status in_)).

Definition BootstrapKubeconfigStatus_DeepCopyInto (in_ : GBootstrapKubeconfigStatus) : HM GBootstrapKubeconfigStatus :=
  let* bootstrapKubeconfigData := copy_ptr hret (gbst_BootstrapKubeconfigData in_) in
  hret (mkGBootstrapKubeconfigStatus bootstrapKubeconfigData).

Definition BootstrapKubeconfig_DeepCopyInto (in_ : GBootstrapKubeconfig) : HM GBootstrapKubeconfig :=
  let* objectMeta := ObjectMeta_DeepCopyInto (gb_ObjectMeta in_) in
  let* status := BootstrapKubeconfigStatus_DeepCopyInto (gb_Status in_) in
  hret (mkGBootstrapKubeconfig (gb_TypeMeta in_) objectMeta (gb_Spec in_) status).

Definition BootstrapKubeconfigList_DeepCopyInto (in_ : GBootstrapKubeconfigList) : HM GBootstrapKubeconfigList :=
  let* listMeta := ListMeta_DeepCopyInto (gl_ListMeta in_) in
  let* items := copy_slice BootstrapKubeconfig_DeepCopyInto (gl_Items in_) in
  hret (mkGObjectList (gl_TypeMeta in_) listMeta items).

Definition ByoClusterList_DeepCopyInto (in_ : GByoClusterList) : HM GByoClusterList :=
  let* listMeta := ListMeta_DeepCopyInto (gl_ListMeta in_) in
  let* items := copy_slice ByoCluster_DeepCopyInto (gl_Items in_) in
  hret (mkGObjectList (gl_TypeMeta in_) listMeta items).

Definition ByoClusterTemplateList_DeepCopyInto (in_ : GByoClusterTemplateList) : HM GByoClusterTemplateList :=
  let* listMeta := ListMeta_DeepCopyInto (gl_ListMeta in_) in
  let* items := copy_slice ByoClusterTemplate_DeepCopyInto (gl_Items in_) in
  hret (mkGObjectList (gl_TypeMeta in_) listMeta items).

Definition ByoHostList_DeepCopyInto (in_ : GByoHostList) : HM GByoHostList :=
  let* listMeta := ListMeta_DeepCopyInto (gl_ListMeta in_) in
  let* items := copy_slice ByoHost_DeepCopyInto (gl_Items in_) in
  hret (mkGObjectList (gl_TypeMeta in_) listMeta items).

Definition ByoMachineList_DeepCopyInto (in_ : GByoMachineList) : HM GByoMachineList :=
  let* listMeta := ListMeta_DeepCopyInto (gl_ListMeta in_) in
  let* items := copy_slice ByoMachine_DeepCopyInto (gl_Items in_) in
  hret (mkGObjectList (gl_TypeMeta in_) listMeta items).

Definition ByoMachineTemplateList_DeepCopyInto (in_ : GByoMachineTemplateList) : HM GByoMachineTemplateList :=
  let* listMeta := ListMeta_DeepCopyInto (gl_ListMeta in_) in
  let* items := copy_slice ByoMachineTemplate_DeepCopyInto (gl_Items in_) in
  hret (mkGObjectList (gl_TypeMeta in_) listMeta items).

Definition K8sInstallerConfigList_DeepCopyInto (in_ : GK8sInstallerConfigList) : HM GK8sInstallerConfigList :=
  let* listMeta := ListMeta_DeepCopyInto (gl_ListMeta in_) in
  let* items := copy_slice K8sInstallerConfig_DeepCopyInto (gl_Items in_) in
  hret (mkGObjectList (gl_TypeMeta in_) listMeta items).

Definition K8sInstallerConfigTemplateList_DeepCopyInto (in_ : GK8sInstallerConfigTemplateList) : HM GK8sInstallerConfigTemplateList :=
  let* listMeta := ListMeta_DeepCopyInto (gl_ListMeta in_) in
  let* items := copy_slice K8sInstallerConfigTemplate_DeepCopyInto (gl_Items in_) in
  hret (mkGObjectList (gl_TypeMeta in_) listMeta items).

(** [DeepCopy]: nil for nil, otherwise [new] filled by [DeepCopyInto]. *)
Definition APIEndpoint_DeepCopy (in_ : Ptr APIEndpoint) : HM (Ptr APIEndpoint) :=
  copy_ptr APIEndpoint_DeepCopyInto in_.
Definition BootstrapKubeconfigSpec_DeepCopy (in_ : Ptr BootstrapKubeconfigSpec) : HM (Ptr BootstrapKubeconfigSpec) :=
  copy_ptr BootstrapKubeconfigSpec_DeepCopyInto in_.
Definition ByoClusterSpec_DeepCopy (in_ : Ptr ByoClusterSpec) : HM (Ptr ByoClusterSpec) :=
  copy_ptr ByoClusterSpec_DeepCopyInto in_.
Definition ByoMachineTemplateStatus_DeepCopy (in_ : Ptr ByoMachineTemplateStatus) : HM (Ptr ByoMachineTemplateStatus) :=
  copy_ptr ByoMachineTemplateStatus_DeepCopyInto in_.
Definition HostInfo_DeepCopy (in_ : Ptr HostInfo) : HM (Ptr HostInfo) :=
  copy_ptr HostInfo_DeepCopyInto in_.
Definition K8sInstallerConfigSpec_DeepCopy (in_ : Ptr K8sInstallerConfigSpec) : HM (Ptr K8sInstallerConfigSpec) :=
  copy_ptr K8sInstallerConfigSpec_DeepCopyInto in_.
Definition K8sInstallerConfigTemplateResource_DeepCopy (in_ : Ptr K8sInstallerConfigTemplateResource) : HM (Ptr K8sInstallerConfigTemplateResource) :=
  copy_ptr K8sInstallerConfigTemplateResource_DeepCopyInto in_.
Definition K8sInstallerConfigTemplateSpec_DeepCopy (in_ : Ptr K8sInstallerConfigTemplateSpec) : HM (Ptr K8sInstallerConfigTemplateSpec) :=
  copy_ptr K8sInstallerConfigTemplateSpec_DeepCopyInto in_.
Definition K8sInstallerConfigTemplateStatus_DeepCopy (in_ : Ptr K8sInstallerConfigTemplateStatus) : HM (Ptr K8sInstallerConfigTemplateStatus) :=
  copy_ptr K8sInstallerConfigTemplateStatus_DeepCopyInto in_.
Definition NetworkStatus_DeepCopy (in_ : Ptr GNetworkStatus) : HM (Ptr GNetworkStatus) :=
  copy_ptr NetworkStatus_DeepCopyInto in_.
Definition ByoHostSpec_DeepCopy (in_ : Ptr GByoHostSpec) : HM (Ptr GByoHostSpec) :=
  copy_ptr ByoHostSpec_DeepCopyInto in_.
Definition ByoHostStatus_DeepCopy (in_ : Ptr GByoHostStatus) : HM (Ptr GByoHostStatus) :=
  copy_ptr ByoHostStatus_DeepCopyInto in_.
Definition ByoHost_DeepCopy (in_ : Ptr GByoHost) : HM (Ptr GByoHost) :=
  copy_ptr ByoHost_DeepCopyInto in_.
Definition ByoMachineSpec_DeepCopy (in_ : Ptr GByoMachineSpec) : HM (Ptr GByoMachineSpec) :=
  copy_ptr ByoMachineSpec_DeepCopyInto in_.
Definition ByoMachineStatus_DeepCopy (in_ : Ptr GByoMachineStatus) : HM (Ptr GByoMachineStatus) :=
  copy_ptr ByoMachineStatus_DeepCopyInto in_.
Definition ByoMachine_DeepCopy (in_ : Ptr GByoMachine) : HM (Ptr GByoMachine) :=
  copy_ptr ByoMachine_DeepCopyInto in_.
Definition ByoMachineTemplateResource_DeepCopy (in_ : Ptr GByoMachineTemplateResource) : HM (Ptr GByoMachineTemplateResource) :=
  copy_ptr ByoMachineTemplateResource_DeepCopyInto in_.
Definition ByoMachineTemplateSpec_DeepCopy (in_ : Ptr GByoMachineTemplateSpec) : HM (Ptr GByoMachineTemplateSpec) :=
  copy_ptr ByoMachineTemplateSpec_DeepCopyInto in_.
Definition ByoMachineTemplate_DeepCopy (in_ : Ptr GByoMachineTemplate) : HM (Ptr GByoMachineTemplate) :=
  copy_ptr ByoMachineTemplate_DeepCopyInto in_.
Definition ByoClusterStatus_DeepCopy (in_ : Ptr GByoClusterStatus) : HM (Ptr GByoClusterStatus) :=
  copy_ptr ByoClusterStatus_DeepCopyInto in_.
Definition ByoCluster_DeepCopy (in_ : Ptr GByoCluster) : HM (Ptr GByoCluster) :=
  copy_ptr ByoCluster_DeepCopyInto in_.
Definition ByoClusterTemplateResource_DeepCopy (in_ : Ptr GByoClusterTemplateResource) : HM (Ptr GByoClusterTemplateResource) :=
  copy_ptr ByoClusterTemplateResource_DeepCopyInto in_.
Definition ByoClusterTemplateSpec_DeepCopy (in_ : Ptr GByoClusterTemplateSpec) : HM (Ptr GByoClusterTemplateSpec) :=
  copy_ptr ByoClusterTemplateSpec_DeepCopyInto in_.
Definition ByoClusterTemplate_DeepCopy (in_ : Ptr GByoClusterTemplate) : HM (Ptr GByoClusterTemplate) :=
  copy_ptr ByoClusterTemplate_DeepCopyInto in_.
Definition K8sInstallerConfigStatus_DeepCopy (in_ : Ptr GK8sInstallerConfigStatus) : HM (Ptr GK8sInstallerConfigStatus) :=
  copy_ptr K8sInstallerConfigStatus_DeepCopyInto in_.
Definition K8sInstallerConfig_DeepCopy (in_ : Ptr GK8sInstallerConfig) : HM (Ptr GK8sInstallerConfig) :=
  copy_ptr K8sInstallerConfig_DeepCopyInto in_.
Definition K8sInstallerConfigTemplate_DeepCopy (in_ : Ptr GK8sInstallerConfigTemplate) : HM (Ptr GK8sInstallerConfigTemplate) :=
  copy_ptr K8sInstallerConfigTemplate_DeepCopyInto in_.
Definition BootstrapKubeconfigStatus_DeepCopy (in_ : Ptr GBootstrapKubeconfigStatus) : HM (Ptr GBootstrapKubeconfigStatus) :=
  copy_ptr BootstrapKubeconfigStatus_DeepCopyInto in_.
Definition BootstrapKubeconfig_DeepCopy (in_ : Ptr GBootstrapKubeconfig) : HM (Ptr GBootstrapKubeconfig) :=
  copy_ptr BootstrapKubeconfig_DeepCopyInto in_.
Definition BootstrapKubeconfigList_DeepCopy (in_ : Ptr GBootstrapKubeconfigList) : HM (Ptr GBootstrapKubeconfigList) :=
  copy_ptr BootstrapKubeconfigList_DeepCopyInto in_.
Definition ByoClusterList_DeepCopy (in_ : Ptr GByoClusterList) : HM (Ptr GByoClusterList) :=
  copy_ptr ByoClusterList_DeepCopyInto in_.
Definition ByoClusterTemplateList_DeepCopy (in_ : Ptr GByoClusterTemplateList) : HM (Ptr GByoClusterTemplateList) :=
  copy_ptr ByoClusterTemplateList_DeepCopyInto in_.
Definition ByoHostList_DeepCopy (in_ : Ptr GByoHostList) : HM (Ptr GByoHostList) :=
  copy_ptr ByoHostList_DeepCopyInto in_.
Definition ByoMachineList_DeepCopy (in_ : Ptr GByoMachineList) : HM (Ptr GByoMachineList) :=
  copy_ptr ByoMachineList_DeepCopyInto in_.
Definition ByoMachineTemplateList_DeepCopy (in_ : Ptr GByoMachineTemplateList) : HM (Ptr GByoMachineTemplateList) :=
  copy_ptr ByoMachineTemplateList_DeepCopyInto in_.
Definition K8sInstallerConfigList_DeepCopy (in_ : Ptr GK8sInstallerConfigList) : HM (Ptr GK8sInstallerConfigList) :=
  copy_ptr K8sInstallerConfigList_DeepCopyInto in_.
Definition K8sInstallerConfigTemplateList_DeepCopy (in_ : Ptr GK8sInstallerConfigTemplateList) : HM (Ptr GK8sInstallerConfigTemplateList) :=
  copy_ptr K8sInstallerConfigTemplateList_DeepCopyInto in_.

(** [runtime.Object]: an interface value holds a typed pointer, which may be
    nil; [None] is the nil interface. *)
Inductive RuntimeObject :=
  | RBootstrapKubeconfig (p : Ptr GBootstrapKubeconfig)
  | RBootstrapKubeconfigList (p : Ptr GBootstrapKubeconfigList)
  | RByoCluster (p : Ptr GByoCluster)
  | RByoClusterList (p : Ptr GByoClusterList)
  | RByoClusterTemplate (p : Ptr GByoClusterTemplate)
  | RByoClusterTemplateList (p : Ptr GByoClusterTemplateList)
  | RByoHost (p : Ptr GByoHost)
  | RByoHostList (p : Ptr GByoHostList)
  | RByoMachine (p : Ptr GByoMachine)
  | RByoMachineList (p : Ptr GByoMachineList)
  | RByoMachineTemplate (p : Ptr GByoMachineTemplate)
  | RByoMachineTemplateList (p : Ptr GByoMachineTemplateList)
  | RK8sInstallerConfig (p : Ptr GK8sInstallerConfig)
  | RK8sInstallerConfigList (p : Ptr GK8sInstallerConfigList)
  | RK8sInstallerConfigTemplate (p : Ptr GK8sInstallerConfigTemplate)
  | RK8sInstallerConfigTemplateList (p : Ptr GK8sInstallerConfigTemplateList).

(** [if c := in.DeepCopy(); c != nil { return c }; return nil]: the interface
    is nil, and does not hold a nil pointer. *)
Definition box {G} (con : Ptr G → RuntimeObject) (c : Ptr G) : option RuntimeObject :=
  match c with Some _ => Some (con c) | None => None end.

Definition BootstrapKubeconfig_DeepCopyObject (in_ : Ptr GBootstrapKubeconfig) : HM (option RuntimeObject) :=
  let* c := BootstrapKubeconfig_DeepCopy in_ in hret (box RBootstrapKubeconfig c).
Definition BootstrapKubeconfigList_DeepCopyObject (in_ : Ptr GBootstrapKubeconfigList) : HM (option RuntimeObject) :=
  let* c := BootstrapKubeconfigList_DeepCopy in_ in hret (box RBootstrapKubeconfigList c).
Definition ByoCluster_DeepCopyObject (in_ : Ptr GByoCluster) : HM (option RuntimeObject) :=
  let* c := ByoCluster_DeepCopy in_ in hret (box RByoCluster c).
Definition ByoClusterList_DeepCopyObject (in_ : Ptr GByoClusterList) : HM (option RuntimeObject) :=
  let* c := ByoClusterList_DeepCopy in_ in hret (box RByoClusterList c).
Definition ByoClusterTemplate_DeepCopyObject (in_ : Ptr GByoClusterTemplate) : HM (option RuntimeObject) :=
  let* c := ByoClusterTemplate_DeepCopy in_ in hret (box RByoClusterTemplate c).
Definition ByoClusterTemplateList_DeepCopyObject (in_ : Ptr GByoClusterTemplateList) : HM (option RuntimeObject) :=
  let* c := ByoClusterTemplateList_DeepCopy in_ in hret (box RByoClusterTemplateList c).
Definition ByoHost_DeepCopyObject (in_ : Ptr GByoHost) : HM (option RuntimeObject) :=
  let* c := ByoHost_DeepCopy in_ in hret (box RByoHost c).
Definition ByoHostList_DeepCopyObject (in_ : Ptr GByoHostList) : HM (option RuntimeObject) :=
  let* c := ByoHostList_DeepCopy in_ in hret (box RByoHostList c).
Definition ByoMachine_DeepCopyObject (in_ : Ptr GByoMachine) : HM (option RuntimeObject) :=
  let* c := ByoMachine_DeepCopy in_ in hret (box RByoMachine c).
Definition ByoMachineList_DeepCopyObject (in_ : Ptr GByoMachineList) : HM (option RuntimeObject) :=
  let* c := ByoMachineList_DeepCopy in_ in hret (box RByoMachineList c).
Definition ByoMachineTemplate_DeepCopyObject (in_ : Ptr GByoMachineTemplate) : HM (option RuntimeObject) :=
  let* c := ByoMachineTemplate_DeepCopy in_ in hret (box RByoMachineTemplate c).
Definition ByoMachineTemplateList_DeepCopyObject (in_ : Ptr GByoMachineTemplateList) : HM (option RuntimeObject) :=
  let* c := ByoMachineTemplateList_DeepCopy in_ in hret (box RByoMachineTemplateList c).
Definition K8sInstallerConfig_DeepCopyObject (in_ : Ptr GK8sInstallerConfig) : HM (option RuntimeObject) :=
  let* c := K8sInstallerConfig_DeepCopy in_ in hret (box RK8sInstallerConfig c).
Definition K8sInstallerConfigList_DeepCopyObject (in_ : Ptr GK8sInstallerConfigList) : HM (option RuntimeObject) :=
  let* c := K8sInstallerConfigList_DeepCopy in_ in hret (box RK8sInstallerConfigList c).
Definition K8sInstallerConfigTemplate_DeepCopyObject (in_ : Ptr GK8sInstallerConfigTemplate) : HM (option RuntimeObject) :=
  let* c := K8sInstallerConfigTemplate_DeepCopy in_ in hret (box RK8sInstallerConfigTemplate c).
Definition K8sInstallerConfigTemplateList_DeepCopyObject (in_ : Ptr GK8sInstallerConfigTemplateList) : HM (option RuntimeObject) :=
  let* c := K8sInstallerConfigTemplateList_DeepCopy in_ in hret (box RK8sInstallerConfigTemplateList c).

(** The method call on the interface. *)
Definition DeepCopyObject (o : RuntimeObject) : HM (option RuntimeObject) :=
  match o with
  | RBootstrapKubeconfig p => BootstrapKubeconfig_DeepCopyObject p
  | RBootstrapKubeconfigList p => BootstrapKubeconfigList_DeepCopyObject p
  | RByoCluster p => ByoCluster_DeepCopyObject p
  | RByoClusterList p => ByoClusterList_DeepCopyObject p
  | RByoClusterTemplate p => ByoClusterTemplate_DeepCopyObject p
  | RByoClusterTemplateList p => ByoClusterTemplateList_DeepCopyObject p
  | RByoHost p => ByoHost_DeepCopyObject p
  | RByoHostList p => ByoHostList_DeepCopyObject p
  | RByoMachine p => ByoMachine_DeepCopyObject p
  | RByoMachineList p => ByoMachineList_DeepCopyObject p
  | RByoMachineTemplate p => ByoMachineTemplate_DeepCopyObject p
  | RByoMachineTemplateList p => ByoMachineTemplateList_DeepCopyObject p
  | RK8sInstallerConfig p => K8sInstallerConfig_DeepCopyObject p
  | RK8sInstallerConfigList p => K8sInstallerConfigList_DeepCopyObject p
  | RK8sInstallerConfigTemplate p => K8sInstallerConfigTemplate_DeepCopyObject p
  | RK8sInstallerConfigTemplateList p => K8sInstallerConfigTemplateList_DeepCopyObject p
  end.

(** ** What the structs represent *)

Definition view_NetworkStatus (h : Heap) (x : GNetworkStatus) : View NetworkStatus :=
  vret mkNetworkStatus
    ⊛ view_plain h (gns_Connected x)
    ⊛ view_slice view_plain h (gns_IPAddrs x)
    ⊛ view_plain h (gns_MACAddr x)
    ⊛ view_plain h (gns_NetworkInterfaceName x)
    ⊛ view_plain h (gns_IsDefault x).

Definition view_ByoHostSpec (h : Heap) (x : GByoHostSpec) : View ByoHostSpec :=
  vret mkByoHostSpec
    ⊛ view_ptr view_plain h (ghs_BootstrapSecret x)
    ⊛ view_ptr view_plain h (ghs_InstallationSecret x)
    ⊛ view_ptr view_plain h (ghs_UninstallationSecret x).

Definition view_ByoHostStatus (h : Heap) (x : GByoHostStatus) : View ByoHostStatus :=
  vret mkByoHostStatus
    ⊛ view_ptr view_plain h (ght_MachineRef x)
    ⊛ view_slice view_Condition h (ght_Conditions x)
    ⊛ view_plain h (ght_HostDetails x)
    ⊛ view_slice view_NetworkStatus h (ght_Network x).

Definition view_ByoHost (h : Heap) (x : GByoHost) : View ByoHost :=
  vret mkByoHost
    ⊛ view_plain h (gh_TypeMeta x)
    ⊛ view_ObjectMeta h (gh_ObjectMeta x)
    ⊛ view_ByoHostSpec h (gh_Spec x)
    ⊛ view_ByoHostStatus h (gh_Status x).

Definition view_ByoMachineSpec (h : Heap) (x : GByoMachineSpec) : View ByoMachineSpec :=
  vret mkByoMachineSpec
    ⊛ view_ptr view_LabelSelector h (gms_Selector x)
    ⊛ view_plain h (gms_ProviderID x)
    ⊛ view_ptr view_plain h (gms_InstallerRef x).

Definition view_ByoMachineStatus (h : Heap) (x : GByoMachineStatus) : View ByoMachineStatus :=
  vret mkByoMachineStatus
    ⊛ view_plain h (gmst_HostInfo x)
    ⊛ view_plain h (gmst_Ready x)
    ⊛ view_slice view_Condition h (gmst_Conditions x).

Definition view_ByoMachine (h : Heap) (x : GByoMachine) : View ByoMachine :=
  vret mkByoMachine
    ⊛ view_plain h (gm_TypeMeta x)
    ⊛ view_ObjectMeta h (gm_ObjectMeta x)
    ⊛ view_ByoMachineSpec h (gm_Spec x)
    ⊛ view_ByoMachineStatus h (gm_Status x).

Definition view_ByoMachineTemplateResource (h : Heap) (x : GByoMachineTemplateResource) : View ByoMachineTemplateResource :=
  vret mkMachineTemplateResource
    ⊛ view_ByoMachineSpec h (gmr_Spec x).

Definition view_ByoMachineTemplateSpec (h : Heap) (x : GByoMachineTemplateSpec) : View ByoMachineTemplateSpec :=
  vret mkByoMachineTemplateSpec
    ⊛ view_ByoMachineTemplateResource h (gmts_Template x).

Definition view_ByoMachineTemplate (h : Heap) (x : GByoMachineTemplate) : View ByoMachineTemplate :=
  vret mkByoMachineTemplate
    ⊛ view_plain h (gmt_TypeMeta x)
    ⊛ view_ObjectMeta h (gmt_ObjectMeta x)
    ⊛ view_ByoMachineTemplateSpec h (gmt_Spec x)
    ⊛ view_plain h (gmt_Status x).

Definition view_ByoClusterStatus (h : Heap) (x : GByoClusterStatus) : View ByoClusterStatus :=
  vret mkByoClusterStatus
    ⊛ view_plain h (gcst_Ready x)
    ⊛ view_slice view_Condition h (gcst_Conditions x)
    ⊛ view_map view_FailureDomainSpec h (gcst_FailureDomains x).

Definition view_ByoCluster (h : Heap) (x : GByoCluster) : View ByoCluster :=
  vret mkByoCluster
    ⊛ view_plain h (gc_TypeMeta x)
    ⊛ view_ObjectMeta h (gc_ObjectMeta x)
    ⊛ view_plain h (gc_Spec x)
    ⊛ view_ByoClusterStatus h (gc_Status x).

Definition view_ByoClusterTemplateResource (h : Heap) (x : GByoClusterTemplateResource) : View ByoClusterTemplateResource :=
  vret mkClusterTemplateResource
    ⊛ view_TemplateMeta h (gcr_ObjectMeta x)
    ⊛ view_plain h (gcr_Spec x).

Definition view_ByoClusterTemplateSpec (h : Heap) (x : GByoClusterTemplateSpec) : View ByoClusterTemplateSpec :=
  vret mkByoClusterTemplateSpec
    ⊛ view_ByoClusterTemplateResource h (gcts_Template x).

Definition view_ByoClusterTemplate (h : Heap) (x : GByoClusterTemplate) : View ByoClusterTemplate :=
  vret mkByoClusterTemplate
    ⊛ view_plain h (gct_TypeMeta x)
    ⊛ view_ObjectMeta h (gct_ObjectMeta x)
    ⊛ view_ByoClusterTemplateSpec h (gct_Spec x).

Definition view_K8sInstallerConfigStatus (h : Heap) (x : GK8sInstallerConfigStatus) : View K8sInstallerConfigStatus :=
  vret mkK8sInstallerConfigStatus
    ⊛ view_plain h (gkst_Ready x)
    ⊛ view_ptr view_plain h (gkst_InstallationSecret x)
    ⊛ view_ptr view_plain h (gkst_UninstallationSecret x).

Definition view_K8sInstallerConfig (h : Heap) (x : GK8sInstallerConfig) : View K8sInstallerConfig :=
  vret mkK8sInstallerConfig
    ⊛ view_plain h (gk_TypeMeta x)
    ⊛ view_ObjectMeta h (gk_ObjectMeta x)
    ⊛ view_plain h (gk_Spec x)
    ⊛ view_K8sInstallerConfigStatus h (gk_Status x).

Definition view_K8sInstallerConfigTemplate (h : Heap) (x : GK8sInstallerConfigTemplate) : View K8sInstallerConfigTemplate :=
  vret mkConfigTemplate
    ⊛ view_plain h (gkt_TypeMeta x)
    ⊛ view_ObjectMeta h (gkt_ObjectMeta x)
    ⊛ view_plain h (gkt_Spec x)
    ⊛ view_plain h (gkt_Status x).

Definition view_BootstrapKubeconfigStatus (h : Heap) (x : GBootstrapKubeconfigStatus) : View (option string) :=
  vret id
    ⊛ view_ptr view_plain h (gbst_BootstrapKubeconfigData x).

Definition view_BootstrapKubeconfig (h : Heap) (x : GBootstrapKubeconfig) : View BootstrapKubeconfig :=
  vret mkBootstrapKubeconfig
    ⊛ view_plain h (gb_TypeMeta x)
    ⊛ view_ObjectMeta h (gb_ObjectMeta x)
    ⊛ view_plain h (gb_Spec x)
    ⊛ view_BootstrapKubeconfigStatus h (gb_Status x).

Definition view_ObjectList {G V} `{Storable (list G)} (view : Heap → G → View V) (h : Heap)
    (x : GObjectList G) : View (ObjectList V) :=
  vret mkObjectList
    ⊛ view_plain h (gl_TypeMeta x)
    ⊛ view_ListMeta h (gl_ListMeta x)
    ⊛ view_slice view h (gl_Items x).

(** The value of an object: an object of its kind. *)
Inductive ObjectValue :=
  | VBootstrapKubeconfig (v : BootstrapKubeconfig)
  | VBootstrapKubeconfigList (v : ObjectList BootstrapKubeconfig)
  | VByoCluster (v : ByoCluster)
  | VByoClusterList (v : ObjectList ByoCluster)
  | VByoClusterTemplate (v : ByoClusterTemplate)
  | VByoClusterTemplateList (v : ObjectList ByoClusterTemplate)
  | VByoHost (v : ByoHost)
  | VByoHostList (v : ObjectList ByoHost)
  | VByoMachine (v : ByoMachine)
  | VByoMachineList (v : ObjectList ByoMachine)
  | VByoMachineTemplate (v : ByoMachineTemplate)
  | VByoMachineTemplateList (v : ObjectList ByoMachineTemplate)
  | VK8sInstallerConfig (v : K8sInstallerConfig)
  | VK8sInstallerConfigList (v : ObjectList K8sInstallerConfig)
  | VK8sInstallerConfigTemplate (v : K8sInstallerConfigTemplate)
  | VK8sInstallerConfigTemplateList (v : ObjectList K8sInstallerConfigTemplate).

(** The object an interface holds; a nil pointer represents none. *)
Definition unbox {V} (con : V → ObjectValue) (a : View (option V)) : View ObjectValue :=
  match a with Some (Some v, fp) => Some (con v, fp) | _ => None end.

Definition view_object (h : Heap) (o : RuntimeObject) : View ObjectValue :=
  match o with
  | RBootstrapKubeconfig p => unbox VBootstrapKubeconfig (view_ptr view_BootstrapKubeconfig h p)
  | RBootstrapKubeconfigList p => unbox VBootstrapKubeconfigList
      (view_ptr (view_ObjectList view_BootstrapKubeconfig) h p)
  | RByoCluster p => unbox VByoCluster (view_ptr view_ByoCluster h p)
  | RByoClusterList p => unbox VByoClusterList
      (view_ptr (view_ObjectList view_ByoCluster) h p)
  | RByoClusterTemplate p => unbox VByoClusterTemplate (view_ptr view_ByoClusterTemplate h p)
  | RByoClusterTemplateList p => unbox VByoClusterTemplateList
      (view_ptr (view_ObjectList view_ByoClusterTemplate) h p)
  | RByoHost p => unbox VByoHost (view_ptr view_ByoHost h p)
  | RByoHostList p => unbox VByoHostList
      (view_ptr (view_ObjectList view_ByoHost) h p)
  | RByoMachine p => unbox VByoMachine (view_ptr view_ByoMachine h p)
  | RByoMachineList p => unbox VByoMachineList
      (view_ptr (view_ObjectList view_ByoMachine) h p)
  | RByoMachineTemplate p => unbox VByoMachineTemplate (view_ptr view_ByoMachineTemplate h p)
  | RByoMachineTemplateList p => unbox VByoMachineTemplateList
      (view_ptr (view_ObjectList view_ByoMachineTemplate) h p)
  | RK8sInstallerConfig p => unbox VK8sInstallerConfig (view_ptr view_K8sInstallerConfig h p)
  | RK8sInstallerConfigList p => unbox VK8sInstallerConfigList
      (view_ptr (view_ObjectList view_K8sInstallerConfig) h p)
  | RK8sInstallerConfigTemplate p => unbox VK8sInstallerConfigTemplate (view_ptr view_K8sInstallerConfigTemplate h p)
  | RK8sInstallerConfigTemplateList p => unbox VK8sInstallerConfigTemplateList
      (view_ptr (view_ObjectList view_K8sInstallerConfigTemplate) h p)
  end.

(** ** Every generated function copies deeply *)

Context `{LL : !LibLaws} `{RL : !RangeLaws}.

#[export] Instance Local_NetworkStatus : Local view_NetworkStatus.
Proof. local_fields. Qed.
#[export] Instance Copies_NetworkStatus :
  Copies view_NetworkStatus NetworkStatus_DeepCopyInto.
Proof. copy_fields. Qed.

#[export] Instance Local_ByoHostSpec : Local view_ByoHostSpec.
Proof. local_fields. Qed.
#[export] Instance Copies_ByoHostSpec :
  Copies view_ByoHostSpec ByoHostSpec_DeepCopyInto.
Proof. copy_fields. Qed.

#[export] Instance Local_ByoHostStatus : Local view_ByoHostStatus.
Proof. local_fields. Qed.
#[export] Instance Copies_ByoHostStatus :
  Copies view_ByoHostStatus ByoHostStatus_DeepCopyInto.
Proof. copy_fields. Qed.

#[export] Instance Local_ByoHost : Local view_ByoHost.
Proof. local_fields. Qed.
#[export] Instance Copies_ByoHost :
  Copies view_ByoHost ByoHost_DeepCopyInto.
Proof. copy_fields. Qed.

#[export] Instance Local_ByoMachineSpec : Local view_ByoMachineSpec.
Proof. local_fields. Qed.
#[export] Instance Copies_ByoMachineSpec :
  Copies view_ByoMachineSpec ByoMachineSpec_DeepCopyInto.
Proof. copy_fields. Qed.

#[export] Instance Local_ByoMachineStatus : Local view_ByoMachineStatus.
Proof. local_fields. Qed.
#[export] Instance Copies_ByoMachineStatus :
  Copies view_ByoMachineStatus ByoMachineStatus_DeepCopyInto.
Proof. copy_fields. Qed.

#[export] Instance Local_ByoMachine : Local view_ByoMachine.
Proof. local_fields. Qed.
#[export] Instance Copies_ByoMachine :
  Copies view_ByoMachine ByoMachine_DeepCopyInto.
Proof. copy_fields. Qed.

#[export] Instance Local_ByoMachineTemplateResource : Local view_ByoMachineTemplateResource.
Proof. local_fields. Qed.
#[export] Instance Copies_ByoMachineTemplateResource :
  Copies view_ByoMachineTemplateResource ByoMachineTemplateResource_DeepCopyInto.
Proof. copy_fields. Qed.

#[export] Instance Local_ByoMachineTemplateSpec : Local view_ByoMachineTemplateSpec.
Proof. local_fields. Qed.
#[export] Instance Copies_ByoMachineTemplateSpec :
  Copies view_ByoMachineTemplateSpec ByoMachineTemplateSpec_DeepCopyInto.
Proof. copy_fields. Qed.

#[export] Instance Local_ByoMachineTemplate : Local view_ByoMachineTemplate.
Proof. local_fields. Qed.
#[export] Instance Copies_ByoMachineTemplate :
  Copies view_ByoMachineTemplate ByoMachineTemplate_DeepCopyInto.
Proof. copy_fields. Qed.

#[export] Instance Local_ByoClusterStatus : Local view_ByoClusterStatus.
Proof. local_fields. Qed.
#[export] Instance Copies_ByoClusterStatus :
  Copies view_ByoClusterStatus ByoClusterStatus_DeepCopyInto.
Proof. copy_fields. Qed.

#[export] Instance Local_ByoCluster : Local view_ByoCluster.
Proof. local_fields. Qed.
#[export] Instance Copies_ByoCluster :
  Copies view_ByoCluster ByoCluster_DeepCopyInto.
Proof. copy_fields. Qed.

#[export] Instance Local_ByoClusterTemplateResource : Local view_ByoClusterTemplateResource.
Proof. local_fields. Qed.
#[export] Instance Copies_ByoClusterTemplateResource :
  Copies view_ByoClusterTemplateResource ByoClusterTemplateResource_DeepCopyInto.
Proof. copy_fields. Qed.

#[export] Instance Local_ByoClusterTemplateSpec : Local view_ByoClusterTemplateSpec.
Proof. local_fields. Qed.
#[export] Instance Copies_ByoClusterTemplateSpec :
  Copies view_ByoClusterTemplateSpec ByoClusterTemplateSpec_DeepCopyInto.
Proof. copy_fields. Qed.

#[export] Instance Local_ByoClusterTemplate : Local view_ByoClusterTemplate.
Proof. local_fields. Qed.
#[export] Instance Copies_ByoClusterTemplate :
  Copies view_ByoClusterTemplate ByoClusterTemplate_DeepCopyInto.
Proof. copy_fields. Qed.

#[export] Instance Local_K8sInstallerConfigStatus : Local view_K8sInstallerConfigStatus.
Proof. local_fields. Qed.
#[export] Instance Copies_K8sInstallerConfigStatus :
  Copies view_K8sInstallerConfigStatus K8sInstallerConfigStatus_DeepCopyInto.
Proof. copy_fields. Qed.

#[export] Instance Local_K8sInstallerConfig : Local view_K8sInstallerConfig.
Proof. local_fields. Qed.
#[export] Instance Copies_K8sInstallerConfig :
  Copies view_K8sInstallerConfig K8sInstallerConfig_DeepCopyInto.
Proof. copy_fields. Qed.

#[export] Instance Local_K8sInstallerConfigTemplate : Local view_K8sInstallerConfigTemplate.
Proof. local_fields. Qed.
#[export] Instance Copies_K8sInstallerConfigTemplate :
  Copies view_K8sInstallerConfigTemplate K8sInstallerConfigTemplate_DeepCopyInto.
Proof. copy_fields. Qed.

#[export] Instance Local_BootstrapKubeconfigStatus : Local view_BootstrapKubeconfigStatus.
Proof. local_fields. Qed.
#[export] Instance Copies_BootstrapKubeconfigStatus :
  Copies view_BootstrapKubeconfigStatus BootstrapKubeconfigStatus_DeepCopyInto.
Proof. copy_fields. Qed.

#[export] Instance Local_BootstrapKubeconfig : Local view_BootstrapKubeconfig.
Proof. local_fields. Qed.
#[export] Instance Copies_BootstrapKubeconfig :
  Copies view_BootstrapKubeconfig BootstrapKubeconfig_DeepCopyInto.
Proof. copy_fields. Qed.

#[export] Instance Local_ObjectList {G V} `{Storable (list G)} (view : Heap → G → View V) :
  Local view → Local (view_ObjectList view).
Proof. intros Hl. local_fields. Qed.

#[export] Instance Copies_BootstrapKubeconfigList :
  Copies (view_ObjectList view_BootstrapKubeconfig) BootstrapKubeconfigList_DeepCopyInto.
Proof. copy_fields. Qed.
#[export] Instance Copies_ByoClusterList :
  Copies (view_ObjectList view_ByoCluster) ByoClusterList_DeepCopyInto.
Proof. copy_fields. Qed.
#[export] Instance Copies_ByoClusterTemplateList :
  Copies (view_ObjectList view_ByoClusterTemplate) ByoClusterTemplateList_DeepCopyInto.
Proof. copy_fields. Qed.
#[export] Instance Copies_ByoHostList :
  Copies (view_ObjectList view_ByoHost) ByoHostList_DeepCopyInto.
Proof. copy_fields. Qed.
#[export] Instance Copies_ByoMachineList :
  Copies (view_ObjectList view_ByoMachine) ByoMachineList_DeepCopyInto.
Proof. copy_fields. Qed.
#[export] Instance Copies_ByoMachineTemplateList :
  Copies (view_ObjectList view_ByoMachineTemplate) ByoMachineTemplateList_DeepCopyInto.
Proof. copy_fields. Qed.
#[export] Instance Copies_K8sInstallerConfigList :
  Copies (view_ObjectList view_K8sInstallerConfig) K8sInstallerConfigList_DeepCopyInto.
Proof. copy_fields. Qed.
#[export] Instance Copies_K8sInstallerConfigTemplateList :
  Copies (view_ObjectList view_K8sInstallerConfigTemplate) K8sInstallerConfigTemplateList_DeepCopyInto.
Proof. copy_fields. Qed.

(** [DeepCopy] of the structs the objects are made of copies deeply, too. *)
Lemma DeepCopy_parts :
  Copies (view_ptr view_plain) APIEndpoint_DeepCopy ∧
  Copies (view_ptr view_plain) BootstrapKubeconfigSpec_DeepCopy ∧
  Copies (view_ptr view_plain) ByoClusterSpec_DeepCopy ∧
  Copies (view_ptr view_plain) ByoMachineTemplateStatus_DeepCopy ∧
  Copies (view_ptr view_plain) HostInfo_DeepCopy ∧
  Copies (view_ptr view_plain) K8sInstallerConfigSpec_DeepCopy ∧
  Copies (view_ptr view_plain) K8sInstallerConfigTemplateResource_DeepCopy ∧
  Copies (view_ptr view_plain) K8sInstallerConfigTemplateSpec_DeepCopy ∧
  Copies (view_ptr view_plain) K8sInstallerConfigTemplateStatus_DeepCopy ∧
  Copies (view_ptr view_NetworkStatus) NetworkStatus_DeepCopy ∧
  Copies (view_ptr view_ByoHostSpec) ByoHostSpec_DeepCopy ∧
  Copies (view_ptr view_ByoHostStatus) ByoHostStatus_DeepCopy ∧
  Copies (view_ptr view_ByoMachineSpec) ByoMachineSpec_DeepCopy ∧
  Copies (view_ptr view_ByoMachineStatus) ByoMachineStatus_DeepCopy ∧
  Copies (view_ptr view_ByoMachineTemplateResource) ByoMachineTemplateResource_DeepCopy ∧
  Copies (view_ptr view_ByoMachineTemplateSpec) ByoMachineTemplateSpec_DeepCopy ∧
  Copies (view_ptr view_ByoClusterStatus) ByoClusterStatus_DeepCopy ∧
  Copies (view_ptr view_ByoClusterTemplateResource) ByoClusterTemplateResource_DeepCopy ∧
  Copies (view_ptr view_ByoClusterTemplateSpec) ByoClusterTemplateSpec_DeepCopy ∧
  Copies (view_ptr view_K8sInstallerConfigStatus) K8sInstallerConfigStatus_DeepCopy ∧
  Copies (view_ptr view_BootstrapKubeconfigStatus) BootstrapKubeconfigStatus_DeepCopy.
Proof. split_and!; by (apply Copies_ptr; [apply _|]; first [apply _|apply Copies_plain]). Qed.

#[export] Instance Local_object : Local view_object.
Proof.
  assert (∀ G V `{Storable G} (view : Heap → G → View V) (con : V → ObjectValue),
    Local view → Local (λ h p, unbox con (view_ptr view h p))) as Hunbox.
  { intros G V HS view con Hl. split; unfold unbox.
    - intros h h' p v fp Hv Hag.
      destruct (view_ptr view h p) as [[[w|] F]|] eqn:Hp; simplify_eq.
      by rewrite (view_local _ _ _ _ _ Hp Hag).
    - intros h p v fp Hv.
      destruct (view_ptr view h p) as [[[w|] F]|] eqn:Hp; simplify_eq. by apply view_dom in Hp. }
  split; intros h; [intros h'|]; intros []; simpl;
    (apply (view_local (Local := Hunbox _ _ _ _ _ _)) || apply (view_dom (Local := Hunbox _ _ _ _ _ _))).
Qed.

(** [DeepCopyObject] of one kind. *)
Lemma hwp_DeepCopyObject {G V} `{Storable G} (view : Heap → G → View V) `{!Local view} into
    `{!Copies view into} (rcon : Ptr G → RuntimeObject) (vcon : V → ObjectValue) h p v S :
  (∀ h' c, view_object h' (rcon c) = unbox vcon (view_ptr view h' c)) →
  unbox vcon (view_ptr view h p) = Some (v, S) →
  hwp (let* c := copy_ptr into p in hret (box rcon c)) h (λ h' r,
    h ⊆ h' ∧ ∃ o, r = Some o ∧ copy_of view_object h v h' o).
Proof.
  intros Hobj Hv. unfold unbox in Hv.
  destruct (view_ptr view h p) as [[[w|] F]|] eqn:Hp; simplify_eq.
  apply hwp_bind. eapply (hwp_copy (view_ptr view) (copy_ptr into)); [exact Hp|done|]. intros h' c Hsub Hc _.
  destruct (Hc h' (reflexivity h')) as (S' & Hview & Hdisj). apply hwp_ret. split; [done|].
  destruct c as [l|]; [|done].
  exists (rcon (Some l)). split; [done|]. exists S'. split; [|done].
  by rewrite Hobj, Hview.
Qed.

Lemma DeepCopyObject_copies h o v S :
  view_object h o = Some (v, S) →
  hwp (DeepCopyObject o) h (λ h' r, h ⊆ h' ∧ ∃ o', r = Some o' ∧ copy_of view_object h v h' o').
Proof.
  destruct o; simpl; intros Hv; (eapply hwp_DeepCopyObject; [..|exact Hv]); try apply _; done.
Qed.

(** C16. [DeepCopyObject] takes a snapshot: for an object of any kind
    of the API it returns an object of the same kind with the same value and
    changes nothing that was there.  Whatever is done afterwards to the cells
    that existed before, the object itself included, and whatever is allocated
    since, the copy keeps the value; and whatever is done to the cells of the
    copy, the object keeps its value. *)
Theorem DeepCopyObject_snapshot h o v S :
  view_object h o = Some (v, S) →
  ∃ h' o' S', DeepCopyObject o h = Some (h', Some o') ∧ h ⊆ h' ∧
    view_object h' o' = Some (v, S') ∧
    (∀ h'', (∀ l, l ∈ dom h' → l ∉ dom h → h'' !! l = h' !! l) → view_object h'' o' = Some (v, S')) ∧
    (∀ h'', (∀ l, l ∉ S' → h'' !! l = h' !! l) → view_object h'' o = Some (v, S)).
Proof.
  intros Hv. pose proof (DeepCopyObject_copies _ _ _ _ Hv) as Hc.
  apply hwp_elim in Hc as (h' & r & Hrun & Hsub & o' & -> & S' & Ho' & Hdisj).
  exists h', o', S'. split_and!; [done..| |].
  - intros h'' Hag. eapply view_local; [exact Ho'|]. intros l Hl.
    apply Hag; [by apply (view_dom _ _ _ _ Ho')|set_solver].
  - intros h'' Hag. eapply view_local; [exact (view_mono _ _ _ _ _ _ Hsub Hv)|]. intros l Hl.
    apply Hag. apply (view_dom _ _ _ _ Hv) in Hl. set_solver.
Qed.

(** A nil pointer in the interface comes back as the nil interface, never as
    an interface that holds a nil pointer. *)
Definition pointer (o : RuntimeObject) : option loc :=
  match o with
  | RBootstrapKubeconfig p => p
  | RBootstrapKubeconfigList p => p
  | RByoCluster p => p
  | RByoClusterList p => p
  | RByoClusterTemplate p => p
  | RByoClusterTemplateList p => p
  | RByoHost p => p
  | RByoHostList p => p
  | RByoMachine p => p
  | RByoMachineList p => p
  | RByoMachineTemplate p => p
  | RByoMachineTemplateList p => p
  | RK8sInstallerConfig p => p
  | RK8sInstallerConfigList p => p
  | RK8sInstallerConfigTemplate p => p
  | RK8sInstallerConfigTemplateList p => p
  end.

Lemma box_pointer {G} (con : Ptr G → RuntimeObject) (m : HM (Ptr G)) h h' o :
  (let* c := m in hret (box con c)) h = Some (h', Some o) →
  (∀ p, pointer (con p) = p) → is_Some (pointer o).
Proof.
  unfold hbind, hret. intros Heq Hp. destruct (m h) as [[h1 [l|]]|]; simplify_eq/=.
  rewrite Hp. eauto.
Qed.

Lemma DeepCopyObject_nil o h : pointer o = None → DeepCopyObject o h = Some (h, None).
Proof. by destruct o; simpl; intros ->. Qed.

Lemma DeepCopyObject_typed h o h' o' :
  DeepCopyObject o h = Some (h', Some o') → is_Some (pointer o').
Proof. by destruct o; intros Heq; (eapply box_pointer; [exact Heq|]). Qed.

(** ** The scheme

    [SchemeBuilder.Register] in the [init] functions of the package, in the
    order of its files, and the kinds [AddToScheme] adds: the name of the type
    in the group and version of the package. *)

Definition type_name (o : RuntimeObject) : string :=
  match o with
  | RBootstrapKubeconfig _ => "BootstrapKubeconfig"
  | RBootstrapKubeconfigList _ => "BootstrapKubeconfigList"
  | RByoCluster _ => "ByoCluster"
  | RByoClusterList _ => "ByoClusterList"
  | RByoClusterTemplate _ => "ByoClusterTemplate"
  | RByoClusterTemplateList _ => "ByoClusterTemplateList"
  | RByoHost _ => "ByoHost"
  | RByoHostList _ => "ByoHostList"
  | RByoMachine _ => "ByoMachine"
  | RByoMachineList _ => "ByoMachineList"
  | RByoMachineTemplate _ => "ByoMachineTemplate"
  | RByoMachineTemplateList _ => "ByoMachineTemplateList"
  | RK8sInstallerConfig _ => "K8sInstallerConfig"
  | RK8sInstallerConfigList _ => "K8sInstallerConfigList"
  | RK8sInstallerConfigTemplate _ => "K8sInstallerConfigTemplate"
  | RK8sInstallerConfigTemplateList _ => "K8sInstallerConfigTemplateList"
  end.

Definition SchemeBuilder_Register (objs : list RuntimeObject) (builder : list RuntimeObject) : list RuntimeObject :=
  builder ++ objs.

Definition bootstrapkubeconfig_init : list RuntimeObject → list RuntimeObject :=
  SchemeBuilder_Register [RBootstrapKubeconfig None; RBootstrapKubeconfigList None].
Definition byocluster_init : list RuntimeObject → list RuntimeObject :=
  SchemeBuilder_Register [RByoCluster None; RByoClusterList None].
Definition byoclustertemplate_init : list RuntimeObject → list RuntimeObject :=
  SchemeBuilder_Register [RByoClusterTemplate None; RByoClusterTemplateList None].
Definition byohost_init : list RuntimeObject → list RuntimeObject :=
  SchemeBuilder_Register [RByoHost None; RByoHostList None].
Definition byomachine_init : list RuntimeObject → list RuntimeObject :=
  SchemeBuilder_Register [RByoMachine None; RByoMachineList None].
Definition byomachinetemplate_init : list RuntimeObject → list RuntimeObject :=
  SchemeBuilder_Register [RByoMachineTemplate None; RByoMachineTemplateList None].
Definition k8sinstallerconfig_init : list RuntimeObject → list RuntimeObject :=
  SchemeBuilder_Register [RK8sInstallerConfig None; RK8sInstallerConfigList None].
Definition k8sinstallerconfigtemplate_init : list RuntimeObject → list RuntimeObject :=
  SchemeBuilder_Register [RK8sInstallerConfigTemplate None; RK8sInstallerConfigTemplateList None].

Definition SchemeBuilder : list RuntimeObject :=
  foldl (λ b init, init b) []
    [bootstrapkubeconfig_init; byocluster_init; byoclustertemplate_init; byohost_init; byomachine_init;
     byomachinetemplate_init; k8sinstallerconfig_init; k8sinstallerconfigtemplate_init].

Definition AddToScheme (builder : list RuntimeObject) : list GVK := (WithKind ∘ type_name) <$> builder.

(** Every type of the package that has a [DeepCopyObject] is in the scheme,
    under a kind of its own. *)
Lemma scheme_complete : NoDup (AddToScheme SchemeBuilder) ∧
  ∀ o, WithKind (type_name o) ∈ AddToScheme SchemeBuilder.
Proof.
  split; [by apply (bool_decide_unpack _); vm_compute|].
  by intros []; apply (bool_decide_unpack _); vm_compute.
Qed.
End DeepCopy.
