(* ===== verification/SafeLabel.v ===== *)
(** * Label values (generateSafeLabelValue, byomachine_controller.go)

    The value of the label that ties a host to its machine: the namespaced
    name of the machine, shortened with a hash when it exceeds what Kubernetes
    accepts.  The theorems: the bound, the identity on short names, that the
    value is one Kubernetes accepts, and which machines can share a value. *)

From S2P Require Import Prelude GoStrings Encoding Api.

(** ** What Kubernetes accepts as a label value and a label key *)

Definition is_label_char (c : Ascii.ascii) : bool :=
  is_alnum c || Ascii.eqb c (chr 45) || Ascii.eqb c (chr 95) || Ascii.eqb c (chr 46).

Fixpoint all_chars (p : Ascii.ascii → bool) (s : string) : bool :=
  match s with
  | EmptyString => true
  | String c s' => p c && all_chars p s'
  end.

Definition first_char (s : string) : option Ascii.ascii :=
  match s with EmptyString => None | String c _ => Some c end.
Fixpoint last_char (s : string) : option Ascii.ascii :=
  match s with
  | EmptyString => None
  | String c EmptyString => Some c
  | String _ s' => last_char s'
  end.

(** A non-empty string of label characters that starts and ends with an alphanumeric. *)
Definition label_word (s : string) : bool :=
  all_chars is_label_char s &&
  match first_char s, last_char s with
  | Some a, Some b => is_alnum a && is_alnum b
  | _, _ => false
  end.

Definition valid_label_value (s : string) : bool :=
  bool_decide (s = "") || (label_word s && (String.length s <=? 63)).

(** [prefix/name] with a DNS prefix, or a plain name. *)
Definition valid_label_key (s : string) : bool :=
  match Split s slash with
  | [name] => label_word name && (String.length name <=? 63)
  | [prefix; name] =>
      label_word prefix && (String.length prefix <=? 253) &&
      label_word name && (String.length name <=? 63)
  | _ => false
  end.

(** ** Names *)

(** The names Kubernetes gives to hosts and namespaces. *)
Definition is_dns_char (c : Ascii.ascii) : bool :=
  is_alnum c || Ascii.eqb c (chr 45) || Ascii.eqb c (chr 46).
Definition dns_name (s : string) : bool := all_chars is_dns_char s.

Lemma all_ascii (p : Ascii.ascii → bool) :
  forallb (λ n, p (Ascii.ascii_of_nat n)) (seq 0 256) = true → ∀ c, p c = true.
Proof.
  intros H c. rewrite forallb_forall in H. specialize (H (Ascii.nat_of_ascii c)).
  rewrite Ascii.ascii_nat_embedding in H. apply H, in_seq.
  pose proof (Ascii.nat_ascii_bounded c). lia.
Qed.

Lemma contains_char_app c s t : contains_char c (s +:+ t) = contains_char c s || contains_char c t.
Proof. induction s as [|d s IH]; [done|]. simpl. by rewrite IH, orb_assoc. Qed.

Lemma dns_no_newline s : dns_name s = true → contains_char (chr 10) s = false.
Proof.
  unfold dns_name. induction s as [|c s IH]; [done|]. simpl. intros [Hc Hs]%andb_prop.
  rewrite IH by done. rewrite orb_false_r.
  assert (implb (is_dns_char c) (negb (Ascii.eqb (chr 10) c)) = true) as H.
  { revert c Hc. intros c _. revert c. apply all_ascii. vm_compute. reflexivity. }
  rewrite Hc in H. by apply negb_true_iff.
Qed.

(** A class of bytes without a given one. *)
Lemma all_chars_not_contains (p : Ascii.ascii → bool) c s :
  p c = false → all_chars p s = true → contains_char c s = false.
Proof.
  intros Hp. induction s as [|d s IH]; [done|]. cbn [all_chars contains_char].
  intros [Hd Hs]%andb_prop. rewrite IH by done. rewrite orb_false_r.
  apply Ascii.eqb_neq. intros ->. congruence.
Qed.

(** ** The function *)

Definition generateSafeLabelValue (namespace name : string) : string :=
  let originalValue := namespace +:+ "." +:+ name in
  if String.length originalValue <=? MaxK8sLabelValueLength then originalValue
  else
    let hashBytes := Sha256.Sum (bytes_of originalValue) in
    let hashSuffix := slice_to LabelHashLength (hex_EncodeToString hashBytes) in
    let prefixToUse := slice_to MaxLabelPrefixLength originalValue in
    prefixToUse +:+ LabelSeparator +:+ hashSuffix.

(** ** Properties of its pieces *)

Definition safe_hash (s : string) : string :=
  slice_to LabelHashLength (hex_EncodeToString (Sha256.Sum (bytes_of s))).

Lemma length_safe_hash s : String.length (safe_hash s) = 8.
Proof.
  unfold safe_hash. rewrite length_slice_to, length_hex, Sha256.length_Sum. reflexivity.
Qed.

Lemma all_chars_app p s t : all_chars p (s +:+ t) = all_chars p s && all_chars p t.
Proof. induction s; simpl; [done|]. by rewrite IHs, andb_assoc. Qed.

Lemma all_chars_slice p n s : all_chars p s = true → all_chars p (slice_to n s) = true.
Proof.
  revert s. induction n; intros [|c s]; simpl; try done.
  intros [-> H]%andb_prop. simpl. auto.
Qed.

Lemma all_chars_impl (p q : Ascii.ascii → bool) s :
  (∀ c, p c = true → q c = true) → all_chars p s = true → all_chars q s = true.
Proof.
  intros Hpq. induction s as [|c s IH]; simpl; [done|].
  intros [Hc H]%andb_prop. by rewrite (Hpq _ Hc), IH.
Qed.

Lemma is_alnum_label c : is_alnum c = true → is_label_char c = true.
Proof. unfold is_label_char. intros ->. done. Qed.

Lemma hex_digit_alnum n : (n < 16)%N → is_alnum (hex_digit n) = true.
Proof.
  intros Hn.
  assert (forallb (λ k, is_alnum (hex_digit (N.of_nat k))) (seq 0 16) = true)
    as Hall by (vm_compute; reflexivity).
  rewrite forallb_forall in Hall.
  specialize (Hall (N.to_nat n)). rewrite N2Nat.id in Hall. apply Hall, in_seq. lia.
Qed.

Lemma be_bytes_bounded k n : Forall (λ b, (b < 256)%N) (Sha256.be_bytes k n).
Proof.
  unfold Sha256.be_bytes.
  assert (Forall (λ b, (b < 256)%N) []) as H by constructor. revert H.
  generalize (@nil N) as acc. revert n. induction k as [|k IH]; intros n acc H; [done|].
  apply IH. constructor; [|done]. by apply N.mod_lt.
Qed.

Lemma Sum_bounded l : Forall (λ b, (b < 256)%N) (Sha256.Sum l).
Proof. unfold Sha256.Sum, Sha256.regs_bytes. repeat apply Forall_app_2; apply be_bytes_bounded. Qed.

Lemma hex_alnum l : Forall (λ b, (b < 256)%N) l → all_chars is_alnum (hex_EncodeToString l) = true.
Proof.
  induction 1 as [|b l Hb _ IH]; simpl; [done|].
  assert (b / 16 < 16 ∧ b mod 16 < 16)%N as [H1 H2].
  { split; [apply N.Div0.div_lt_upper_bound; lia|by apply N.mod_lt]. }
  by rewrite !hex_digit_alnum, IH.
Qed.

Lemma safe_hash_alnum s : all_chars is_alnum (safe_hash s) = true.
Proof. apply all_chars_slice, hex_alnum, Sum_bounded. Qed.

Lemma last_char_app s t c : last_char t = Some c → last_char (s +:+ t) = Some c.
Proof.
  intros Ht. induction s as [|d s IH]; [done|].
  change (String d s +:+ t) with (String d (s +:+ t)). simpl.
  destruct (s +:+ t) eqn:E; [|done]. by destruct s, t.
Qed.

Lemma last_char_alnum s : s ≠ "" → all_chars is_alnum s = true →
  ∃ c, last_char s = Some c ∧ is_alnum c = true.
Proof.
  induction s as [|c s IH]; [done|]. simpl. intros _ [Hc H]%andb_prop.
  destruct s as [|d s]; [by exists c|]. by apply IH.
Qed.

Lemma first_char_app s t c : first_char s = Some c → first_char (s +:+ t) = Some c.
Proof. by destruct s. Qed.

Lemma first_char_slice n s : n ≠ 0 → first_char (slice_to n s) = first_char s.
Proof. by destruct n, s. Qed.

(** The two shapes of a value. *)
Lemma generateSafeLabelValue_short ns n :
  String.length (ns +:+ "." +:+ n) ≤ 63 → generateSafeLabelValue ns n = ns +:+ "." +:+ n.
Proof.
  intros H. unfold generateSafeLabelValue, MaxK8sLabelValueLength.
  by rewrite (proj2 (Nat.leb_le _ _) H).
Qed.

Lemma generateSafeLabelValue_long ns n :
  63 < String.length (ns +:+ "." +:+ n) →
  generateSafeLabelValue ns n =
    slice_to 54 (ns +:+ "." +:+ n) +:+ "-" +:+ safe_hash (ns +:+ "." +:+ n).
Proof.
  intros H. unfold generateSafeLabelValue, MaxK8sLabelValueLength.
  by rewrite (proj2 (Nat.leb_gt _ _) H).
Qed.

Lemma slice_to_prefix k s t :
  k ≤ String.length s → slice_to k (slice_to k s +:+ t) = slice_to k s.
Proof.
  intros H. pose proof (slice_to_app (slice_to k s) t) as E.
  by rewrite length_slice_to, Nat.min_l in E.
Qed.

Lemma length_generateSafeLabelValue ns n :
  String.length (generateSafeLabelValue ns n) = Nat.min 63 (String.length (ns +:+ "." +:+ n)).
Proof.
  destruct (decide (String.length (ns +:+ "." +:+ n) ≤ 63)) as [H|H].
  - rewrite generateSafeLabelValue_short by done. lia.
  - rewrite generateSafeLabelValue_long by lia.
    remember (ns +:+ "." +:+ n) as v.
    rewrite !length_sapp, length_safe_hash, length_slice_to. change (String.length "-") with 1. lia.
Qed.

Lemma label_word_app s t :
  label_word s = true → label_word t = true → label_word (s +:+ "." +:+ t) = true.
Proof.
  unfold label_word. rewrite !andb_true_iff. intros [Hs Hs'] [Ht Ht'].
  destruct (first_char s) as [a|] eqn:Ha; [|done]. destruct (last_char s) as [b|] eqn:Hb; [|done].
  destruct (first_char t) as [a'|] eqn:Ha'; [|done]. destruct (last_char t) as [b'|] eqn:Hb'; [|done].
  split.
  - rewrite !all_chars_app, Hs, Ht. done.
  - rewrite (first_char_app _ _ a Ha), (last_char_app _ _ b') by (by apply last_char_app).
    apply andb_prop in Hs' as [-> _]. apply andb_prop in Ht' as [_ ->]. done.
Qed.

Lemma generateSafeLabelValue_word ns n :
  label_word ns = true → label_word n = true → label_word (generateSafeLabelValue ns n) = true.
Proof.
  intros Hns Hn. pose proof (label_word_app _ _ Hns Hn) as Hw.
  destruct (decide (String.length (ns +:+ "." +:+ n) ≤ 63)) as [H|H].
  { by rewrite generateSafeLabelValue_short by done. }
  rewrite generateSafeLabelValue_long by lia.
  remember (ns +:+ "." +:+ n) as v. unfold label_word in *. apply andb_prop in Hw as [Hall Hends].
  destruct (first_char v) as [a|] eqn:Ha; [|done]. destruct (last_char v) as [b|]; [|done].
  destruct (last_char_alnum (safe_hash v)) as (c & Hc & Hcal).
  { intros E. pose proof (length_safe_hash v) as L. by rewrite E in L. }
  { apply safe_hash_alnum. }
  rewrite (first_char_app _ _ a) by (by rewrite first_char_slice).
  rewrite (last_char_app _ _ c) by (by apply last_char_app).
  rewrite !all_chars_app, (all_chars_slice _ _ _ Hall).
  rewrite (all_chars_impl is_alnum is_label_char _ is_alnum_label (safe_hash_alnum v)).
  apply andb_prop in Hends as [-> _]. by rewrite Hcal.
Qed.

Lemma generateSafeLabelValue_valid_aux ns n :
  label_word ns = true → label_word n = true →
  valid_label_value (generateSafeLabelValue ns n) = true.
Proof.
  intros Hns Hn. unfold valid_label_value.
  rewrite generateSafeLabelValue_word by done.
  rewrite (proj2 (Nat.leb_le _ _)); [by rewrite orb_true_r|].
  rewrite length_generateSafeLabelValue. lia.
Qed.

(** ** Theorems *)

(** A value has at most the 63 bytes Kubernetes allows, and exactly
    63 when the namespaced name had to be shortened. *)
Theorem generateSafeLabelValue_bound ns n :
  String.length (generateSafeLabelValue ns n) ≤ MaxK8sLabelValueLength ∧
  (MaxK8sLabelValueLength < String.length (ns +:+ "." +:+ n) →
   String.length (generateSafeLabelValue ns n) = MaxK8sLabelValueLength).
Proof.
  rewrite length_generateSafeLabelValue. unfold MaxK8sLabelValueLength. lia.
Qed.

(** C14. The value is one Kubernetes accepts for a label, the shortened
    ones included, when the namespace and the name are label words: the
    requirement the controller builds from it cannot be refused. *)
Theorem generateSafeLabelValue_valid ns n :
  label_word ns = true → label_word n = true →
  valid_label_value (generateSafeLabelValue ns n) = true.
Proof. apply generateSafeLabelValue_valid_aux. Qed.

(** C15. Two machines share a value only when they are the same machine, or when
    both names have the full length or more, agree on the first 54 bytes and,
    when both are shortened, on the first 32 bits of their SHA-256. *)
Theorem generateSafeLabelValue_inj ns1 n1 ns2 n2 :
  contains_char (chr 46) ns1 = false → contains_char (chr 46) ns2 = false →
  generateSafeLabelValue ns1 n1 = generateSafeLabelValue ns2 n2 →
  (ns1 = ns2 ∧ n1 = n2) ∨
  (63 ≤ String.length (ns1 +:+ "." +:+ n1) ∧ 63 ≤ String.length (ns2 +:+ "." +:+ n2) ∧
   slice_to 54 (ns1 +:+ "." +:+ n1) = slice_to 54 (ns2 +:+ "." +:+ n2) ∧
   (63 < String.length (ns1 +:+ "." +:+ n1) → 63 < String.length (ns2 +:+ "." +:+ n2) →
    safe_hash (ns1 +:+ "." +:+ n1) = safe_hash (ns2 +:+ "." +:+ n2))).
Proof.
  intros H1 H2 Heq.
  pose proof (f_equal String.length Heq) as Hlen. rewrite !length_generateSafeLabelValue in Hlen.
  destruct (decide (String.length (ns1 +:+ "." +:+ n1) ≤ 63)) as [L1|L1],
           (decide (String.length (ns2 +:+ "." +:+ n2) ≤ 63)) as [L2|L2].
  - left. rewrite !generateSafeLabelValue_short in Heq by done. by eapply sep_prefix_inj.
  - right. rewrite generateSafeLabelValue_short, generateSafeLabelValue_long in Heq by lia.
    split_and!; [lia..| |lia]. by rewrite Heq, slice_to_prefix by lia.
  - right. rewrite generateSafeLabelValue_long, generateSafeLabelValue_short in Heq by lia.
    split_and!; [lia..| |lia]. by rewrite <- Heq, slice_to_prefix by lia.
  - right. rewrite !generateSafeLabelValue_long in Heq by lia.
    apply sapp_inj_1 in Heq as [Hs Hh]; [|rewrite !length_slice_to; lia].
    split_and!; [lia..|done|]. intros _ _. by apply sapp_inj_1 in Hh as [_ ?].
Qed.
