(* ===== verification/GoNet.v ===== *)
(** * Go standard library: [net/url.Parse] and [encoding/pem.Decode]

    The two decoders the webhook on bootstrap kubeconfigs calls, after the
    library's algorithm: for a URL the scheme, host and port the sources
    read, with the errors of the parse; for PEM whether a block is found. *)

From S2P Require Import Prelude GoStrings Encoding SafeLabel.
From Stdlib Require Import Ascii.

Implicit Types (s t : string) (c : ascii).

(** ** Cutting strings *)

(** [strings.Cut(s, sep)] at the first separator byte. *)
Fixpoint Cut (s : string) (sep : ascii) : string * string * bool :=
  match s with
  | EmptyString => (EmptyString, EmptyString, false)
  | String c s' =>
      if Ascii.eqb c sep then (EmptyString, s', true)
      else match Cut s' sep with (a, b, found) => (String c a, b, found) end
  end.

(** [s[:i]] and [s[i+1:]] for [i] the last index of the separator, if any. *)
Fixpoint cut_last (s : string) (sep : ascii) : option (string * string) :=
  match s with
  | EmptyString => None
  | String c s' =>
      match cut_last s' sep with
      | Some (a, b) => Some (String c a, b)
      | None => if Ascii.eqb c sep then Some (EmptyString, s') else None
      end
  end.

Fixpoint count_char (c : ascii) (s : string) : nat :=
  match s with
  | EmptyString => 0
  | String d s' => (if Ascii.eqb c d then 1 else 0) + count_char c s'
  end.

(** ** url.Parse *)

Definition code (c : ascii) : nat := nat_of_ascii c.

Definition is_ctl (c : ascii) : bool := (code c <? 32) || (code c =? 127).
Definition is_letter (c : ascii) : bool := is_upper c || is_lower c.
Definition is_hex (c : ascii) : bool :=
  is_digit c || ((97 <=? code c) && (code c <=? 102)) || ((65 <=? code c) && (code c <=? 70)).

Inductive scheme_scan := NoScheme | SchemeError | Scheme (scheme rest : string).

(** [getScheme]: letters, then also digits and [+-.], up to a colon. *)
Fixpoint get_scheme (first : bool) (s : string) : scheme_scan :=
  match s with
  | EmptyString => NoScheme
  | String c s' =>
      let continue_ := match get_scheme false s' with
                       | Scheme a b => Scheme (String c a) b
                       | x => x
                       end in
      if is_letter c then continue_
      else if is_digit c || (code c =? 43) || (code c =? 45) || (code c =? 46) then
        if first then NoScheme else continue_
      else if code c =? 58 then if first then SchemeError else Scheme EmptyString s'
      else NoScheme
  end.

(** Percent escapes outside of the host: two hexadecimal digits. *)
Fixpoint escapes_ok (s : string) : bool :=
  match s with
  | EmptyString => true
  | String c s' =>
      if code c =? 37 then
        match s' with
        | String a (String b s'') => is_hex a && is_hex b && escapes_ok s''
        | _ => false
        end
      else escapes_ok s'
  end.

(** Bytes a host may contain unescaped; [shouldEscape(c, encodeHost)] is the
    negation on ASCII. *)
Definition host_char (c : ascii) : bool :=
  (128 <=? code c) || is_alnum c ||
  existsb (λ n, code c =? n) [33; 34; 36; 38; 39; 40; 41; 42; 43; 44; 45; 46; 58; 59; 60; 61; 62; 91; 93; 95; 126].

(** In a host, only bytes above 127 may be escaped ([%25] of a zone apart). *)
Definition hex_value (c : ascii) : nat :=
  if is_digit c then code c - 48 else if 97 <=? code c then code c - 87 else code c - 55.
Fixpoint url_host_ok (s : string) : bool :=
  match s with
  | EmptyString => true
  | String c s' =>
      if code c =? 37 then
        match s' with
        | String a (String b s'') => is_hex a && is_hex b && (8 <=? hex_value a) && url_host_ok s''
        | _ => false
        end
      else host_char c && url_host_ok s'
  end.

(** [validOptionalPort]: empty, or a colon and digits. *)
Definition valid_optional_port (s : string) : bool :=
  match s with
  | EmptyString => true
  | String c s' => (code c =? 58) && all_chars is_digit s'
  end.

Definition valid_userinfo (s : string) : bool :=
  all_chars (λ c, is_alnum c ||
    existsb (λ n, code c =? n) [33; 36; 37; 38; 39; 40; 41; 42; 43; 44; 45; 46; 58; 59; 61; 64; 95; 126]) s.

(** [parseHost], without IPv6 zones. *)
Definition parse_host (host : string) : option string :=
  if HasPrefix host "[" then
    match cut_last host (chr 93) with
    | None => None
    | Some (_, colonPort) => if valid_optional_port colonPort && url_host_ok host then Some host else None
    end
  else
    match cut_last host (chr 58) with
    | Some (_, port) =>
        if valid_optional_port (String (chr 58) port) && url_host_ok host then Some host else None
    | None => if url_host_ok host then Some host else None
    end.

Definition parse_authority (authority : string) : option string :=
  match cut_last authority (chr 64) with
  | None => parse_host authority
  | Some (userinfo, host) =>
      match parse_host host with
      | None => None
      | Some h => if valid_userinfo userinfo && escapes_ok userinfo then Some h else None
      end
  end.

Record URL := mkURL { url_Scheme : string; url_Host : string }.

Definition parse_url (raw : string) : option URL :=
  if existsb is_ctl (String.list_ascii_of_string raw) then None
  else if bool_decide (raw = "*") then Some (mkURL "" "")
  else
    let parsed := match get_scheme true raw with
                  | NoScheme => Some ("", raw)
                  | SchemeError => None
                  | Scheme a b => Some (ToLower a, b)
                  end in
    match parsed with
    | None => None
    | Some (scheme, rest) =>
        let rest := (Cut rest (chr 63)).1.1 in
        if negb (HasPrefix rest "/") then
          if bool_decide (scheme ≠ "") then Some (mkURL scheme "")
          else
            let segment := (Cut rest slash).1.1 in
            if contains_char (chr 58) segment then None
            else if escapes_ok rest then Some (mkURL scheme "") else None
        else if (bool_decide (scheme ≠ "") || negb (HasPrefix rest "///")) && HasPrefix rest "//" then
          match Cut (slice_from 2 rest) slash with
          | (authority, path, found) =>
              match parse_authority authority with
              | None => None
              | Some host => if escapes_ok path then Some (mkURL scheme host) else None
              end
          end
        else if escapes_ok rest then Some (mkURL scheme "") else None
    end.

(** [url.Parse]: the fragment is cut off first and must be well escaped. *)
Definition url_Parse (raw : string) : result URL :=
  match Cut raw (chr 35) with
  | (u, frag, _) =>
      match parse_url u with
      | Some url => if escapes_ok frag then Ok url else Err (errors_New "invalid URL escape")
      | None => Err (errors_New ("parse " +:+ raw))
      end
  end.

(** [u.Port()] *)
Definition url_Port (u : URL) : string :=
  match cut_last (url_Host u) (chr 58) with
  | Some (_, port) => if valid_optional_port (String (chr 58) port) then port else ""
  | None => ""
  end.

Example url_ok : url_Parse "https://10.0.0.1:6443/x" = Ok (mkURL "https" "10.0.0.1:6443").
Proof. reflexivity. Qed.
Example url_bad_port : match url_Parse "https://host:64a" with Err _ => true | Ok _ => false end = true.
Proof. reflexivity. Qed.

(** ** pem.Decode *)

(** [getLine]: the first line without trailing blanks, and what follows it. *)
Definition is_blank (c : ascii) : bool := (code c =? 32) || (code c =? 9).
Definition strip_cr (s : string) : string :=
  match cut_last s (chr 13) with Some (a, EmptyString) => a | _ => s end.
Definition getLine (s : string) : string * string :=
  match Cut s (chr 10) with
  | (line, rest, true) => (trim_right is_blank (strip_cr line), rest)
  | (line, _, false) => (trim_right is_blank line, EmptyString)
  end.

(** What follows the first occurrence of [pat], and what precedes it. *)
Fixpoint find_sub (pat s : string) : option (string * string) :=
  if HasPrefix s pat then Some (EmptyString, slice_from (String.length pat) s)
  else match s with
       | EmptyString => None
       | String c s' => match find_sub pat s' with Some (a, b) => Some (String c a, b) | None => None end
       end.

Definition dashes : string := "-----".
Definition has_suffix (s suf : string) : bool :=
  (String.length suf <=? String.length s) &&
  bool_decide (slice_from (String.length s - String.length suf) s = suf).

(** Header lines, each with a colon; they end at a line without one. *)
Fixpoint skip_headers (fuel : nat) (any : bool) (rest : string) : option (bool * string) :=
  match fuel with
  | O => None
  | S f =>
      match rest with
      | EmptyString => None
      | _ =>
          let '(line, next) := getLine rest in
          if contains_char (chr 58) line then skip_headers f true next else Some (any, rest)
      end
  end.

Definition strip_blanks (s : string) : string :=
  String.string_of_list_ascii (List.filter (λ c, negb (is_blank c)) (String.list_ascii_of_string s)).

(** One attempt after a BEGIN marker: [Some true] a block, [Some false] none
    here, keep looking in the remaining text, [None] give up. *)
Definition pem_block (rest : string) : option (bool * string) :=
  let '(typeLine, rest) := getLine rest in
  if negb (has_suffix typeLine dashes) then Some (false, rest)
  else
    let typ := slice_to (String.length typeLine - 5) typeLine in
    match skip_headers (S (String.length rest)) false rest with
    | None => None
    | Some (any, rest) =>
        let found := if negb any && HasPrefix rest "-----END "
                     then Some (EmptyString, slice_from 9 rest)
                     else find_sub (newline +:+ "-----END ") rest in
        match found with
        | None => Some (false, rest)
        | Some (body, trailer) =>
            let n := String.length typ + 5 in
            if String.length trailer <? n then Some (false, rest)
            else
              let endLine := slice_to n trailer in
              if negb (HasPrefix endLine typ && has_suffix endLine dashes) then Some (false, rest)
              else if negb (bool_decide (fst (getLine (slice_from n trailer)) = "")) then Some (false, rest)
              else
                match Base64.DecodeString (strip_blanks body) with
                | Err _ => Some (false, rest)
                | Ok _ => Some (true, rest)
                end
        end
    end.

Fixpoint pem_scan (fuel : nat) (rest : string) : bool :=
  match fuel with
  | O => false
  | S f =>
      let start := if HasPrefix rest "-----BEGIN " then Some (slice_from 11 rest)
                   else match find_sub (newline +:+ "-----BEGIN ") rest with
                        | Some (_, r) => Some r
                        | None => None
                        end in
      match start with
      | None => false
      | Some rest =>
          match pem_block rest with
          | None => false
          | Some (true, _) => true
          | Some (false, rest) => pem_scan f rest
          end
      end
  end.

(** [block, _ := pem.Decode(data)]: whether [block] is not nil.  Every round
    consumes a marker, so the length of the data bounds the rounds. *)
Definition pem_Decode_found (data : string) : bool := pem_scan (S (String.length data)) data.

Definition sample_pem : string :=
  "-----BEGIN CERTIFICATE-----" +:+ newline +:+ "aGVsbG8=" +:+ newline +:+
  "-----END CERTIFICATE-----" +:+ newline.
Example pem_ok : pem_Decode_found sample_pem = true.
Proof. vm_compute. reflexivity. Qed.
Example pem_no : pem_Decode_found "hello" = false.
Proof. vm_compute. reflexivity. Qed.

(** ** Lemmas *)

Lemma Cut_none s sep : contains_char sep s = false → Cut s sep = (s, EmptyString, false).
Proof.
  induction s as [|c s IH]; [done|]. cbn [contains_char Cut].
  intros [Hc Hs]%orb_false_iff. by rewrite Ascii.eqb_sym, Hc, IH.
Qed.
Lemma cut_last_none s sep : contains_char sep s = false → cut_last s sep = None.
Proof.
  induction s as [|c s IH]; [done|]. cbn [contains_char cut_last].
  intros [Hc Hs]%orb_false_iff. by rewrite IH, Ascii.eqb_sym, Hc.
Qed.
Lemma cut_last_app s sep t : contains_char sep t = false →
  cut_last (s +:+ String sep t) sep = Some (s, t).
Proof.
  intros Ht. induction s as [|c s IH].
  - cbn. by rewrite cut_last_none, Ascii.eqb_refl.
  - change (String c s +:+ String sep t) with (String c (s +:+ String sep t)). cbn [cut_last]. by rewrite IH.
Qed.

Lemma url_host_ok_chars s :
  all_chars (λ c, host_char c && negb (code c =? 37)) s = true → url_host_ok s = true.
Proof.
  induction s as [|c s IH]; [done|]. cbn [all_chars url_host_ok].
  intros [[Hc Hn]%andb_prop Hs]%andb_prop. apply negb_true_iff in Hn. by rewrite Hn, Hc, IH.
Qed.

Lemma no_ctl_chars s : all_chars (λ c, negb (is_ctl c)) s = true →
  existsb is_ctl (String.list_ascii_of_string s) = false.
Proof.
  induction s as [|c s IH]; [done|]. cbn. intros [Hc Hs]%andb_prop.
  apply negb_true_iff in Hc. by rewrite Hc, IH.
Qed.

(** Bytes of the names and addresses a server URL is written with. *)
Definition name_char (c : ascii) : bool := is_alnum c || (code c =? 45) || (code c =? 46).

Lemma name_char_facts c : name_char c = true →
  (host_char c && negb (code c =? 37)) = true ∧ negb (is_ctl c) = true.
Proof.
  assert (implb (name_char c) (host_char c && negb (code c =? 37) && negb (is_ctl c)) = true) as H.
  { revert c. apply all_ascii. vm_compute. reflexivity. }
  intros Hc. rewrite Hc in H. by apply andb_prop in H.
Qed.
Lemma name_no_bracket c s : name_char c = true → HasPrefix (String c s) "[" = false.
Proof.
  intros Hc. cbn [HasPrefix]. apply andb_false_iff. left. apply Ascii.eqb_neq. by intros <-.
Qed.
Lemma digit_name_char c : is_digit c = true → name_char c = true.
Proof. unfold name_char, is_alnum. intros ->. by rewrite !orb_true_r. Qed.

(** A URL of a named host with a port. *)
Lemma parse_https host port :
  all_chars name_char host = true → host ≠ "" → all_chars is_digit port = true →
  url_Parse ("https://" +:+ host +:+ String (chr 58) port) =
    Ok (mkURL "https" (host +:+ String (chr 58) port)).
Proof.
  intros Hh Hne Hp. set (hp := host +:+ String (chr 58) port).
  assert (all_chars name_char port = true) as Hpn by (by eapply all_chars_impl, Hp; apply digit_name_char).
  assert (∀ c, name_char c = false → c ≠ chr 58 → contains_char c hp = false) as Hnot.
  { intros c Hc Hcolon. unfold hp. rewrite contains_char_app. cbn [contains_char].
    rewrite !(all_chars_not_contains name_char) by done. rewrite orb_false_r, orb_false_l.
    by apply Ascii.eqb_neq. }
  assert (∀ q, (∀ c, name_char c = true → q c = true) → q (chr 58) = true → all_chars q hp = true) as Hall.
  { intros q Hq Hq58. unfold hp. rewrite all_chars_app. cbn [all_chars].
    by rewrite Hq58, !(all_chars_impl name_char q). }
  assert (parse_authority hp = Some hp) as Hauth.
  { unfold parse_authority. rewrite cut_last_none by (by apply Hnot).
    unfold parse_host. replace (HasPrefix hp "[") with false.
    2:{ unfold hp. destruct host as [|c host]; [done|]. cbn in Hh. apply andb_prop in Hh as [Hc _].
        symmetry. apply name_no_bracket, Hc. }
    unfold hp at 1. rewrite cut_last_app by (by eapply all_chars_not_contains, Hpn).
    cbn [valid_optional_port]. rewrite Hp, url_host_ok_chars; [done|].
    apply Hall; [|reflexivity]. intros c Hc. by apply name_char_facts. }
  unfold url_Parse. rewrite Cut_none.
  2:{ change ("https://" +:+ hp) with (String "h" (String "t" (String "t" (String "p" (String "s" (String ":" (String "/" (String "/" hp)))))))).
      cbn. by apply Hnot. }
  unfold parse_url. rewrite no_ctl_chars.
  2:{ cbn. apply Hall; [|reflexivity]. intros c Hc. by apply name_char_facts. }
  rewrite bool_decide_eq_false_2 by done.
  replace (get_scheme true ("https://" +:+ hp)) with (Scheme "https" (String "/" (String "/" hp))) by done.
  rewrite (Cut_none (String "/" (String "/" hp)) (chr 63)) by (cbn; by apply Hnot).
  change (slice_from 2 (String "/" (String "/" hp), EmptyString, false).1.1) with hp.
  rewrite (Cut_none hp slash) by (by apply Hnot). rewrite Hauth.
  change (ToLower "https") with "https". rewrite (bool_decide_eq_true_2 ("https" ≠ "")) by done.
  change (HasPrefix _ "/") with true. by destruct hp.
Qed.
