(* ===== verification/Platform.v ===== *)
(** * The platform: what the sources call and the repository does not contain

    Every library or service outside the repository is a class of operations
    on an abstract world [E], so each answer of the outside is universally
    quantified in the theorems, failures and interference by other processes
    included.  What the sources rely on of the documented behaviour of such
    code is stated as laws, in classes of their own, which a theorem lists
    when it uses them.  Each performed effect is recorded as an [Event]. *)

From S2P Require Import Prelude Api SafeLabel.

(** ** Events: the effects a run performs, in order *)

Inductive Event :=
  (* API server *)
  | EvGet (k : Kind) (key : NamespacedName) (answer : result Object)
  | EvList (k : Kind) (opts : ListOptions)
  | EvCreate (o : Object) (err : option GoError)
  | EvUpdate (o : Object) (err : option GoError)
  | EvDelete (o : Object) (err : option GoError)
  | EvPatch (before after : Object) (err : option GoError)
  | EvRecord (about : Object) (etype reason message : string)
  | EvUpdateApproval (csr : string) (types : list string) (err : option GoError)
  | EvLoadConfig (path : string)
  | EvRequestCertificate (csrData name signer : string) (duration : Z) (usages : list string) (err : option GoError)
  | EvWaitForCertificate (name : string) (err : option GoError)
  | EvWriteKubeconfig (path : string) (err : option GoError)
  (* the workload cluster *)
  | EvRemoteGetNode (key : NamespacedName) (answer : result Node)
  | EvRemotePatchNode (before after : Node) (err : option GoError)
  (* the host *)
  | EvRunCmd (cmd : string) (err : option GoError)
  | EvGlob (pattern : string)
  | EvRemoveAll (path : string) (err : option GoError)
  | EvGetenv (name value : string)
  | EvStat (path : string) (err : option GoError)
  | EvRemove (path : string) (err : option GoError)
  | EvDeleteIP (ip iface : string) (err : option GoError)
  | EvMkdirIfNotExists (dir : string) (err : option GoError)
  | EvWriteToFile (path content : string) (err : option GoError).

(** The shell commands among [own] a run performed with success, counted. *)
Definition succeeded (own : string → bool) (t : list Event) : nat :=
  length (omap (λ ev, match ev with
                      | EvRunCmd c None => if own c then Some tt else None
                      | _ => None
                      end) t).

Definition EventTypeNormal : string := "Normal".
Definition EventTypeWarning : string := "Warning".

Definition is_cmd (ev : Event) : bool := match ev with EvRunCmd _ _ => true | _ => false end.
(** The shell commands of a run, in order. *)
Definition cmds (t : list Event) : list string :=
  omap (λ ev, match ev with EvRunCmd c _ => Some c | _ => None end) t.
(** The objects a run sent to the API server as patches, with what the server answered. *)
Definition patches (t : list Event) : list (Object * Object * option GoError) :=
  omap (λ ev, match ev with EvPatch b a r => Some (b, a, r) | _ => None end) t.

(** How often the recorder was given an event with this reason. *)
Definition recorded (reason : string) (t : list Event) : nat :=
  length (omap (λ ev, match ev with
                      | EvRecord _ _ r _ => if bool_decide (r = reason) then Some tt else None
                      | _ => None
                      end) t).

Lemma cmds_app t1 t2 : cmds (t1 ++ t2) = cmds t1 ++ cmds t2.
Proof. apply omap_app. Qed.
Lemma patches_app t1 t2 : patches (t1 ++ t2) = patches t1 ++ patches t2.
Proof. apply omap_app. Qed.
Lemma recorded_app reason t1 t2 : recorded reason (t1 ++ t2) = recorded reason t1 + recorded reason t2.
Proof. unfold recorded. by rewrite omap_app, length_app. Qed.

Lemma succeeded_app own t1 t2 : succeeded own (t1 ++ t2) = succeeded own t1 + succeeded own t2.
Proof. unfold succeeded. by rewrite omap_app, length_app. Qed.
(** No command of [own], no success. *)
Lemma succeeded_none own t : Forall (λ c, own c = false) (cmds t) → succeeded own t = 0.
Proof.
  unfold cmds, succeeded. induction t as [|ev t IH]; simpl; [done|].
  destruct ev; try exact IH. intros [Hc Ht]%Forall_cons.
  destruct err as [err|]; simpl; [by apply IH|]. rewrite Hc. by apply IH.
Qed.

Lemma length_cmds_succeeded own t : succeeded own t ≤ length (cmds t).
Proof.
  unfold cmds, succeeded. induction t as [|ev t IH]; [done|].
  destruct ev; try exact IH. cbn. destruct err; cbn; [apply Nat.le_le_succ_r, IH|].
  destruct (own cmd); cbn; [apply le_n_S, IH|apply Nat.le_le_succ_r, IH].
Qed.

Lemma cmds_nil : cmds [] = [].
Proof. done. Qed.
Lemma patches_nil : patches [] = [].
Proof. done. Qed.
Lemma recorded_nil reason : recorded reason [] = 0.
Proof. done. Qed.

#[export] Hint Rewrite cmds_app patches_app recorded_app cmds_nil patches_nil recorded_nil : go.

(** Splits the observations of a trace over its parts and rewrites with what
    the context knows of each part. *)
Ltac trace_simpl :=
  autorewrite with go;
  repeat match goal with
    | H : cmds ?t = _ |- context [cmds ?t] => rewrite H
    | H : patches ?t = _ |- context [patches ?t] => rewrite H
    | H : recorded ?s ?t = _ |- context [recorded ?s ?t] => rewrite H
    end.

(** ** The controller-runtime client and the Cluster API patch helper *)

Class Kube (E : Type) := {
  kube_Get : ∀ k : Kind, NamespacedName → E → E * result (obj k);
  kube_List : ∀ k : Kind, ListOptions → E → E * result (list (obj k));
  (** [Create] and [Update] replace the object by what the server returns. *)
  kube_Create : ∀ k : Kind, obj k → E → E * result (obj k);
  kube_Update : ∀ k : Kind, obj k → E → E * result (obj k);
  kube_Delete : ∀ k : Kind, obj k → E → E * option GoError;
  (** [patch.NewHelper(obj, client)] can fail; [helper.Patch] sends the
      difference between the object it was created on and the given one. *)
  patch_NewHelper : ∀ k : Kind, obj k → E → E * option GoError;
  patch_Patch : ∀ k : Kind, obj k → obj k → list string → E → E * option GoError }.

(** What the event of a read shows of the answer. *)
Definition answer_of (k : Kind) (r : result (obj k)) : result Object :=
  match r with Ok x => Ok (to_object k x) | Err err => Err err end.

(** ** Operations as computations *)
Section ClientCalls.
  Context {E L : Type} `{!Kube E}.

Definition Get (k : Kind) (key : NamespacedName) : M Event E L (result (obj k)) :=
  call (kube_Get k key) (λ r, [EvGet k key (answer_of k r)]).
Definition List_ (k : Kind) (opts : ListOptions) : M Event E L (result (list (obj k))) :=
  call (kube_List k opts) (λ _, [EvList k opts]).

Definition err_of {A} (r : result A) : option GoError :=
  match r with Ok _ => None | Err e => Some e end.

Definition Create (k : Kind) (o : obj k) : M Event E L (result (obj k)) :=
  call (kube_Create k o) (λ r, [EvCreate (to_object k o) (err_of r)]).
Definition Update (k : Kind) (o : obj k) : M Event E L (result (obj k)) :=
  call (kube_Update k o) (λ r, [EvUpdate (to_object k o) (err_of r)]).
Definition Delete (k : Kind) (o : obj k) : M Event E L (option GoError) :=
  call (kube_Delete k o) (λ r, [EvDelete (to_object k o) r]).

(** The helper is the snapshot of the object it was created on; [None] is
    the nil helper that comes with an error. *)
Definition NewHelper (k : Kind) (o : obj k) : M Event E L (option (obj k) * option GoError) :=
  let! err := call (patch_NewHelper k o) (λ _, []) in
  ret (match err with Some e => (None, Some e) | None => (Some o, None) end).

(** [helper.Patch(ctx, obj, WithOwnedConditions)]; on a nil helper it panics. *)
Definition Patch_with (k : Kind) (owned : list string) (helper : option (obj k)) (o : obj k) :
    M Event E L (option GoError) :=
  let! before := deref helper in
  call (patch_Patch k before o owned) (λ r, [EvPatch (to_object k before) (to_object k o) r]).
Definition Patch (k : Kind) (helper : option (obj k)) (o : obj k) : M Event E L (option GoError) :=
  Patch_with k [] helper o.

(** [Recorder.Event] / [Recorder.Eventf] *)
Definition Record_Event (o : Object) (etype reason message : string) : M Event E L unit :=
  emit (EvRecord o etype reason message).

(** The deferred function the controllers share: patch the object, and report
    the failure of the patch when the handler had none to report. *)
Definition deferred_patch (k : Kind) (owned : list string) (proj : L → obj k)
    (helper : option (obj k)) (res : Result * option GoError) : M Event E L (Result * option GoError) :=
  let! l := get_local in
  let! err := Patch_with k owned helper (proj l) in
  ret (match err, res.2 with
       | Some err, None => (res.1, Some err)
       | _, _ => res
       end).

(** The run asked for the object under [key], and the server answered [x]. *)
Definition fetched (k : Kind) (key : NamespacedName) (x : obj k) (t : list Event) : Prop :=
  EvGet k key (Ok (to_object k x)) ∈ t ∧ ∃ e, (kube_Get k key e).2 = Ok x.

Lemma fetched_mono k key x t t' : fetched k key x t → t ⊆ t' → fetched k key x t'.
Proof. intros [Hin Hans] Hsub. split; [by apply Hsub|done]. Qed.
Lemma fetched_now k key x e e1 t :
  kube_Get k key e = (e1, Ok x) → EvGet k key (Ok (to_object k x)) ∈ t → fetched k key x t.
Proof. intros Hget Hin. split; [done|]. exists e. by rewrite Hget. Qed.

(** Rules for the patch helper. *)
Lemma wp_NewHelper {k} (x : obj k) e (l : L) Q :
  (∀ e1 err, Q e1 l [] (Val (None, Some err))) → (∀ e1, Q e1 l [] (Val (Some x, None))) →
  wp (NewHelper k x) e l Q.
Proof.
  intros H1 H2. unfold NewHelper. apply wp_bind, wp_call. intros e1 [err|] _; apply wp_ret; auto.
Qed.
Lemma wp_Patch {k} owned (x y : obj k) e (l : L) Q :
  (∀ e1 err, Q e1 l [EvPatch (to_object k x) (to_object k y) err] (Val err)) →
  wp (Patch_with k owned (Some x) y) e l Q.
Proof. intros HQ. unfold Patch_with. apply wp_bind, wp_ret, wp_call. intros e1 err _. apply HQ. Qed.
Lemma wp_Patch_nil {k} owned (y : obj k) e (l : L) Q :
  Q e l [] Panic → wp (Patch_with k owned None y) e l Q.
Proof. intros HQ. unfold Patch_with. by apply wp_bind, wp_panic. Qed.
End ClientCalls.

(** How a handler and its deferred patch end together. *)
Definition with_patch (perr : option GoError) (ob : Outcome (Result * option GoError)) :
    Outcome (Result * option GoError) :=
  match ob with
  | Val (res, None) => Val (res, perr)
  | Val (res, Some err) => Val (res, Some err)
  | Panic => Panic
  end.

Lemma wp_scoped_patch {E L L'} `{!Kube E} (k : Kind) owned (proj : L' → obj k) helper (l0 : L')
    (body : M Event E L' (Result * option GoError)) e (l : L) Q :
  wp body e l0 (λ e1 l1 tb ob,
    match helper with
    | None => ∀ e2, Q e2 l tb Panic
    | Some x => ∀ e2 perr, Q e2 l (tb ++ [EvPatch (to_object k x) (to_object k (proj l1)) perr])
                             (with_patch perr ob)
    end) →
  wp (scoped l0 body (Result0, None) (deferred_patch k owned proj helper)) e l Q.
Proof.
  intros Hb. apply wp_scoped. eapply wp_mono; [exact Hb|]. cbn beta. intros e1 l1 tb ob HQ.
  unfold deferred_patch. apply wp_bind, wp_get_local, wp_bind. destruct helper as [x|].
  - apply wp_Patch. intros e2 perr. apply wp_ret. specialize (HQ e2 perr). rewrite app_nil_r.
    by destruct ob as [[res [err|]]|], perr.
  - apply wp_Patch_nil. simpl. rewrite app_nil_r. by destruct ob.
Qed.

(** ** Computations that keep an invariant

    [maintains I P m]: from a local state in [I] every run of [m] ends in one,
    also when it panics, and each of its patches satisfies [P]. *)
Section Maintains.
  Context {E L : Type} `{!Kube E} (I : L → Prop) (P : Object * Object * option GoError → Prop).

Definition maintains {A} (m : M Event E L A) : Prop :=
  ∀ e l, I l → wp m e l (λ _ l' t _, I l' ∧ Forall P (patches t)).

Lemma maintains_bind {A B} (m : M Event E L A) (f : A → M Event E L B) :
  maintains m → (∀ a, maintains (f a)) → maintains (bind m f).
Proof.
  intros Hm Hf e l Hl. apply wp_bind. eapply wp_mono; [by apply Hm|]. cbn beta.
  intros e1 l1 t1 [a|] [Hl1 Ht1]; [|done]. eapply wp_mono; [by apply Hf|]. cbn beta.
  intros e2 l2 t2 o [Hl2 Ht2]. rewrite patches_app. auto using Forall_app_2.
Qed.
Lemma maintains_quiet {A} (m : M Event E L A) :
  (∀ e l, I l → wp m e l (λ _ l' t _, I l' ∧ patches t = [])) → maintains m.
Proof.
  intros Hm e l Hl. eapply wp_mono; [by apply Hm|]. cbn beta. intros e' l' t o [Hl' ->]. by split.
Qed.
Lemma maintains_ret {A} (a : A) : maintains (ret a).
Proof. apply maintains_quiet. intros e l Hl. by apply wp_ret. Qed.
Lemma maintains_call {A} (f : E → E * A) ev : (∀ a, patches (ev a) = []) → maintains (call f ev).
Proof. intros Hev. apply maintains_quiet. intros e l Hl. by apply wp_call. Qed.
Lemma maintains_emit ev : patches [ev] = [] → maintains (emit ev).
Proof. intros Hev. apply maintains_quiet. intros e l Hl. by apply wp_emit. Qed.
Lemma maintains_get_local : maintains get_local.
Proof. apply maintains_quiet. intros e l Hl. by apply wp_get_local. Qed.
Lemma maintains_deref {A} (p : option A) : maintains (deref p).
Proof. apply maintains_quiet. intros e l Hl. apply wp_deref. by destruct p. Qed.
Lemma maintains_modify f : (∀ l, I l → I (f l)) → maintains (modify f).
Proof. intros Hf. apply maintains_quiet. intros e l Hl. apply wp_modify. auto. Qed.
Lemma maintains_Patch k owned helper (o : obj k) :
  (∀ b err, P (to_object k b, to_object k o, err)) → maintains (Patch_with k owned helper o).
Proof.
  intros HP e l Hl. destruct helper as [b|]; [|by apply wp_Patch_nil].
  apply wp_Patch. intros e1 err. split; [done|]. repeat constructor. apply HP.
Qed.
End Maintains.

(** The structural rules; what remains is the handlers' own. *)
Ltac maintains_step :=
  cbn beta;
  lazymatch goal with
  | |- maintains _ _ (bind _ _) => apply maintains_bind; [|intros ?]
  | |- maintains _ _ (ret _) => apply maintains_ret
  | |- maintains _ _ get_local => apply maintains_get_local
  | |- maintains _ _ (deref _) => apply maintains_deref
  | |- maintains _ _ (call _ _) => apply maintains_call; done
  | |- maintains _ _ (emit _) => apply maintains_emit; done
  | |- maintains _ _ (match ?x with _ => _ end) => destruct x eqn:?
  end.

(** ** Cluster API utilities *)

(** sigs.k8s.io/cluster-api/util/conditions *)
Class ConditionsUtil := {
  conditions_Get : Conditions → string → option Condition;
  conditions_IsTrue : Conditions → string → bool;
  conditions_GetReason : Conditions → string → string;
  conditions_MarkTrue : Conditions → string → Conditions;
  conditions_MarkFalse : Conditions → string → string → ConditionSeverity → string → Conditions;
  conditions_SetSummary : Conditions → bool → Conditions }.

(** Documented behaviour: [Get] returns the condition with the given type, and
    marking one condition sets its fields and leaves the other ones alone. *)
Class ConditionsLaws (C : ConditionsUtil) : Prop := {
  Get_MarkTrue_eq : ∀ cs t,
    conditions_Get (conditions_MarkTrue cs t) t = Some (mkCondition t ConditionTrue SeverityNone "" "");
  Get_MarkTrue_ne : ∀ cs t t', t ≠ t' →
    conditions_Get (conditions_MarkTrue cs t) t' = conditions_Get cs t';
  Get_MarkFalse_eq : ∀ cs t reason sev msg,
    conditions_Get (conditions_MarkFalse cs t reason sev msg) t =
      Some (mkCondition t ConditionFalse sev reason msg);
  Get_MarkFalse_ne : ∀ cs t t' reason sev msg, t ≠ t' →
    conditions_Get (conditions_MarkFalse cs t reason sev msg) t' = conditions_Get cs t';
  IsTrue_Get : ∀ cs t,
    conditions_IsTrue cs t =
      match conditions_Get cs t with
      | Some c => bool_decide (cond_Status c = ConditionTrue)
      | None => false
      end;
  GetReason_Get : ∀ cs t,
    conditions_GetReason cs t =
      match conditions_Get cs t with Some c => cond_Reason c | None => "" end }.

(** Derived facts and the automation for conditions. *)
Section ConditionFacts.
  Context {CU : ConditionsUtil} `{!ConditionsLaws CU}.

Lemma IsTrue_MarkTrue_eq cs t : conditions_IsTrue (conditions_MarkTrue cs t) t = true.
Proof. by rewrite IsTrue_Get, Get_MarkTrue_eq. Qed.
Lemma IsTrue_MarkTrue_ne cs t t' : t ≠ t' →
  conditions_IsTrue (conditions_MarkTrue cs t) t' = conditions_IsTrue cs t'.
Proof. intros. by rewrite !IsTrue_Get, Get_MarkTrue_ne. Qed.
Lemma IsTrue_MarkFalse_eq cs t r s m :
  conditions_IsTrue (conditions_MarkFalse cs t r s m) t = false.
Proof. by rewrite IsTrue_Get, Get_MarkFalse_eq. Qed.
Lemma IsTrue_MarkFalse_ne cs t t' r s m : t ≠ t' →
  conditions_IsTrue (conditions_MarkFalse cs t r s m) t' = conditions_IsTrue cs t'.
Proof. intros. by rewrite !IsTrue_Get, Get_MarkFalse_ne. Qed.
Lemma GetReason_MarkFalse_eq cs t r s m :
  conditions_GetReason (conditions_MarkFalse cs t r s m) t = r.
Proof. by rewrite GetReason_Get, Get_MarkFalse_eq. Qed.
End ConditionFacts.

#[export] Hint Rewrite @Get_MarkTrue_eq @Get_MarkFalse_eq @IsTrue_MarkTrue_eq @IsTrue_MarkFalse_eq
  @GetReason_MarkFalse_eq using typeclasses eauto : go.
#[export] Hint Rewrite @Get_MarkTrue_ne @Get_MarkFalse_ne @IsTrue_MarkTrue_ne @IsTrue_MarkFalse_ne
  using (typeclasses eauto || discriminate) : go.

(** cluster-api/util, util/annotations, controllerutil, labels *)
Class CapiUtil (E : Type) := {
  util_GetOwnerMachine : ObjectMeta → E → E * result (option CapiMachine);
  util_GetClusterFromMetadata : ObjectMeta → E → E * result (option CapiCluster);
  util_GetOwnerCluster : ObjectMeta → E → E * result (option CapiCluster);
  annotations_IsPaused : CapiCluster → ObjectMeta → bool;
  annotations_AddAnnotations : gmap string string → gmap string string → gmap string string;
  controllerutil_AddFinalizer : list string → string → list string;
  controllerutil_RemoveFinalizer : list string → string → list string;
  controllerutil_ContainsFinalizer : list string → string → bool;
  labels_NewRequirement : string → Operator → list string → result Requirement;
  labels_SelectorAdd : Selector → Requirement → Selector;
  labels_Matches : Selector → gmap string string → bool;
  metav1_LabelSelectorAsSelector : LabelSelector → result Selector }.

Class CapiUtilLaws {E} (U : CapiUtil E) : Prop := {
  IsPaused_spec : ∀ c m, annotations_IsPaused c m = true ↔
    clus_Paused c = true ∨ is_Some (meta_Annotations m !! PausedAnnotation);
  AddAnnotations_spec : ∀ old new, annotations_AddAnnotations old new = new ∪ old;
  AddFinalizer_in : ∀ l f g, g ∈ controllerutil_AddFinalizer l f ↔ g = f ∨ g ∈ l;
  RemoveFinalizer_in : ∀ l f g, g ∈ controllerutil_RemoveFinalizer l f ↔ g ≠ f ∧ g ∈ l;
  ContainsFinalizer_in : ∀ l f, controllerutil_ContainsFinalizer l f = true ↔ f ∈ l;
  NewRequirement_Equals : ∀ k v, valid_label_key k = true → valid_label_value v = true →
    labels_NewRequirement k Equals [v] = Ok (mkRequirement k Equals [v]);
  NewRequirement_Ok : ∀ k op vs r, labels_NewRequirement k op vs = Ok r → r = mkRequirement k op vs;
  NewRequirement_DoesNotExist : ∀ k, valid_label_key k = true →
    labels_NewRequirement k DoesNotExist [] = Ok (mkRequirement k DoesNotExist []);
  Matches_Add : ∀ s r ls, labels_Matches (labels_SelectorAdd s r) ls = true ↔
    labels_Matches s ls = true ∧ labels_Matches [r] ls = true;
  Matches_DoesNotExist : ∀ k vs ls,
    labels_Matches [mkRequirement k DoesNotExist vs] ls = true ↔ ls !! k = None;
  Matches_Equals : ∀ k v ls,
    labels_Matches [mkRequirement k Equals [v]] ls = true ↔ ls !! k = Some v;
  Matches_nil : ∀ ls, labels_Matches [] ls = true }.

(** [List] returns objects of the asked namespace that the selector matches. *)
Class KubeListLaws (E : Type) `{!Kube E, !CapiUtil E} : Prop := {
  List_selected : ∀ k opts e e' items x,
    kube_List k opts e = (e', Ok items) → x ∈ items →
    labels_Matches (lo_LabelSelector opts) (meta_Labels (meta_of k x)) = true ∧
    (lo_Namespace opts ≠ "" → meta_Namespace (meta_of k x) = lo_Namespace opts) }.
