(* ===== verification/CloudInit.v ===== *)
(** * The cloud-init executor (agent/cloudinit, common/utils.go)

    [ScriptExecutor.Execute] with the decoding of file contents, the template
    parser and the gzip helpers of package common.  The interfaces
    [IFileWriter] and [ICmdRunner] are the operations of class [HostSystem];
    FileWriter.v implements the first one from the sources.  Theorems: what a
    successful run did, in which order, and that a run stops at its first
    failing step; the encodings are inverted. *)

From S2P Require Import Prelude GoStrings Encoding Api Platform.

(** [Files] and [bootstrapConfig] *)
Record Files := mkFiles {
  Path : string; file_Encoding : string; Owner : string; Permissions : string;
  Content : string; Append : bool }.

Record bootstrapConfig := mkBootstrapConfig {
  FilesToWrite : list Files; CommandsToExecute : list string }.

Definition set_Content (c : string) (f : Files) : Files :=
  mkFiles (Path f) (file_Encoding f) (Owner f) (Permissions f) c (Append f).

(** ** Libraries *)

(** sigs.k8s.io/yaml, on the one type the sources unmarshal here *)
Class Yaml := { yaml_Unmarshal : string → result bootstrapConfig }.

(** compress/gzip on memory buffers *)
Class Gzip := {
  GzReader : Type;
  gzip_NewReader : string → result GzReader;
  gzip_ReadFrom : GzReader → result string;
  GzWriter : Type;
  gzip_NewWriter : GzWriter;
  gzip_Write : GzWriter → string → GzWriter * option GoError;
  gzip_Flush : GzWriter → GzWriter * option GoError;
  gzip_Close : GzWriter → GzWriter * option GoError;
  gzip_Bytes : GzWriter → string }.

(** The reader inverts the writer. *)
Class GzipLaws (G : Gzip) : Prop := {
  gzip_roundtrip : ∀ d w1 w2 w3,
    gzip_Write gzip_NewWriter d = (w1, None) → gzip_Flush w1 = (w2, None) →
    gzip_Close w2 = (w3, None) →
    ∃ r, gzip_NewReader (gzip_Bytes w3) = Ok r ∧ gzip_ReadFrom r = Ok d }.

(** The data a template is applied to: a string map, or [registration.HostInfo]. *)
Inductive TemplateData :=
  | TDMap (m : gmap string string)
  | TDHostInfo (DefaultNetworkInterfaceName : string).

(** text/template *)
Class TextTemplate := {
  Tmpl : Type;
  template_Parse : string → result Tmpl;
  template_Execute : Tmpl → TemplateData → result string }.

(** The host the agent runs on: the two interfaces of package cloudinit. *)
Class HostSystem (E : Type) := {
  sys_RunCmd : string → E → E * option GoError;
  sys_MkdirIfNotExists : string → E → E * option GoError;
  sys_WriteToFile : Files → E → E * option GoError }.

(** ** common/utils.go: GzipData and GunzipData *)
Section Common.
  Context `{!Gzip}.

Definition GzipData (data : string) : result string :=
  match gzip_Write gzip_NewWriter data with
  | (_, Some err) => Err err
  | (gz, None) =>
      match gzip_Flush gz with
      | (_, Some err) => Err err
      | (gz, None) =>
          match gzip_Close gz with
          | (_, Some err) => Err err
          | (gz, None) => Ok (gzip_Bytes gz)
          end
      end
  end.

Definition GunzipData (data : string) : result string :=
  match gzip_NewReader data with
  | Err err => Err err
  | Ok r =>
      match gzip_ReadFrom r with
      | Err err => Err err
      | Ok resB => Ok resB
      end
  end.

Lemma GunzipData_GzipData `{!GzipLaws _} d z : GzipData d = Ok z → GunzipData z = Ok d.
Proof.
  unfold GzipData, GunzipData.
  destruct (gzip_Write _ d) as [w1 [|]] eqn:H1; [done|].
  destruct (gzip_Flush w1) as [w2 [|]] eqn:H2; [done|].
  destruct (gzip_Close w2) as [w3 [|]] eqn:H3; [done|]. intros [= <-].
  destruct (gzip_roundtrip d w1 w2 w3) as (r & -> & ->); done.
Qed.
End Common.

(** ** template_parser.go *)
Section TemplateParser.
  Context `{!TextTemplate}.

(** On failure the unparsed content comes back with the error. *)
Definition ParseTemplate (tp : TemplateData) (templateContent : string) : string * option GoError :=
  match template_Parse templateContent with
  | Err err => (templateContent, Some err)
  | Ok tmpl =>
      match template_Execute tmpl tp with
      | Err err => (templateContent, Some err)
      | Ok parsedContent => (parsedContent, None)
      end
  end.
End TemplateParser.

(** ** cloudinit.go *)

Definition encodingBase64 : string := "application/base64".
Definition encodingGzip : string := "application/x-gzip".
Definition encodingPlain : string := "text/plain".

Definition parseEncodingScheme (e : string) : list string :=
  let e := ToLower e in
  let e := TrimSpace e in
  if bool_decide (e = "gz+base64") || bool_decide (e = "gzip+base64") ||
     bool_decide (e = "gz+b64") || bool_decide (e = "gzip+b64") then [encodingBase64; encodingGzip]
  else if bool_decide (e = "base64") || bool_decide (e = "b64") then [encodingBase64]
  else [encodingPlain].

Section Execute.
  Context {E L : Type} `{!HostSystem E, !Yaml, !Gzip, !TextTemplate}.

Fixpoint decodeContent (content : string) (encodings : list string) : string * option GoError :=
  match encodings with
  | [] => (content, None)
  | e :: rest =>
      if bool_decide (e = encodingBase64) then
        match Base64.DecodeString content with
        | Err err => (content, Some err)
        | Ok rByte => decodeContent rByte rest
        end
      else if bool_decide (e = encodingGzip) then
        match GunzipData content with
        | Err err => (content, Some err)
        | Ok rByte => decodeContent rByte rest
        end
      else if bool_decide (e = encodingPlain) then decodeContent content rest
      else (content, Some (errors_New ("Unknown bootstrap data encoding: " +:+ strconv_Quote content)))
  end.

Definition RunCmd (cmd : string) : M Event E L (option GoError) :=
  call (sys_RunCmd cmd) (λ r, [EvRunCmd cmd r]).
Definition MkdirIfNotExists (dir : string) : M Event E L (option GoError) :=
  call (sys_MkdirIfNotExists dir) (λ r, [EvMkdirIfNotExists dir r]).
Definition WriteToFile (f : Files) : M Event E L (option GoError) :=
  call (sys_WriteToFile f) (λ r, [EvWriteToFile (Path f) (Content f) r]).

(** The loop over [write_files].  The template parser is a pointer: calling
    its method through nil panics. *)
Fixpoint write_files (tp : option TemplateData) (files : list Files) : M Event E L (option GoError) :=
  match files with
  | [] => ret None
  | f :: rest =>
      let directoryToCreate := Dir (Path f) in
      let! err := MkdirIfNotExists directoryToCreate in
      match err with
      | Some err =>
          ret (Some (errors_Wrap err ("Error creating the directory " +:+ directoryToCreate)))
      | None =>
          let encodings := parseEncodingScheme (file_Encoding f) in
          let '(content, err) := decodeContent (Content f) encodings in
          match err with
          | Some err => ret (Some (errors_Wrap err ("error decoding content for " +:+ Path f)))
          | None =>
              let! data := deref tp in
              let '(content, err) := ParseTemplate data content in
              match err with
              | Some err =>
                  ret (Some (errors_Wrap err ("error parse template content for " +:+ Path f)))
              | None =>
                  let! err := WriteToFile (set_Content content f) in
                  match err with
                  | Some err => ret (Some (errors_Wrap err ("Error writing the file " +:+ Path f)))
                  | None => write_files tp rest
                  end
              end
          end
      end
  end.

Fixpoint run_cmds (commands : list string) : M Event E L (option GoError) :=
  match commands with
  | [] => ret None
  | cmd :: rest =>
      let! err := RunCmd cmd in
      match err with
      | Some err => ret (Some (errors_Wrap err ("Error running the command " +:+ cmd)))
      | None => run_cmds rest
      end
  end.

(** [ScriptExecutor.Execute] *)
Definition Execute (tp : option TemplateData) (bootstrapScript : string) : M Event E L (option GoError) :=
  match yaml_Unmarshal bootstrapScript with
  | Err err =>
      ret (Some (errors_Wrap err ("error parsing write_files action: " +:+ bootstrapScript)))
  | Ok cloudInitData =>
      let! err := write_files tp (FilesToWrite cloudInitData) in
      match err with
      | Some err => ret (Some err)
      | None => run_cmds (CommandsToExecute cloudInitData)
      end
  end.

(** ** Specification of a run *)

(** What writing a file amounts to: its decoded content, with the template applied. *)
Definition rendered (data : TemplateData) (f : Files) : option string :=
  match decodeContent (Content f) (parseEncodingScheme (file_Encoding f)) with
  | (_, Some _) => None
  | (c, None) => match ParseTemplate data c with (_, Some _) => None | (c', None) => Some c' end
  end.

(** The effects of a fully successful run. *)
Definition file_effects (fc : Files * string) : list Event :=
  [EvMkdirIfNotExists (Dir (Path (fst fc))) None; EvWriteToFile (Path (fst fc)) (snd fc) None].
Definition run_effects (files : list (Files * string)) (commands : list string) : list Event :=
  (files ≫= file_effects) ++ ((λ c, EvRunCmd c None) <$> commands).

(** The error an event of the executor carries. *)
Definition ev_err (ev : Event) : option GoError :=
  match ev with
  | EvRunCmd _ r | EvMkdirIfNotExists _ r | EvWriteToFile _ _ r => r
  | _ => None
  end.

(** Only the last effect of a trace may have failed. *)
Definition fail_stop (t : list Event) : Prop :=
  ∀ t1 ev t2, t = t1 ++ ev :: t2 → t2 ≠ [] → ev_err ev = None.

Lemma fail_stop_nil : fail_stop [].
Proof. intros [|??] ev t2 Heq; done. Qed.
Lemma fail_stop_one ev : fail_stop [ev].
Proof. intros [|? []] ev' t2 Heq Hne; simplify_eq/=. Qed.
Lemma fail_stop_cons ev t : ev_err ev = None → fail_stop t → fail_stop (ev :: t).
Proof.
  intros Hev Ht [|e t1] ev' t2 Heq Hne; simplify_eq/=; [done|]. by eapply Ht.
Qed.
Lemma fail_stop_app t1 t2 :
  Forall (λ ev, ev_err ev = None) t1 → fail_stop t2 → fail_stop (t1 ++ t2).
Proof. induction 1; simpl; eauto using fail_stop_cons. Qed.

Definition no_cmd (t : list Event) : Prop := cmds t = [].

(** What the two loops do, on every outcome. *)
Lemma write_files_spec tp files e l :
  wp (write_files tp files) e l (λ e' l' t o,
    l' = l ∧ cmds t = [] ∧
    match o with
    | Val None =>
        ∃ cs, Forall2 (λ f c, ∃ data, tp = Some data ∧ rendered data f = Some c) files cs ∧
              t = zip files cs ≫= file_effects
    | _ => fail_stop t ∧ (o = Panic → tp = None)
    end).
Proof.
  revert e. induction files as [|f files IH]; intros e; simpl.
  { wp_run. split_and!; [done..|]. by exists []. }
  unfold MkdirIfNotExists, WriteToFile.
  wp_step. wp_step. destruct a as [err|]; cbn iota.
  { wp_run. split_and!; [done..| |done]. simpl. apply fail_stop_one. }
  destruct (decodeContent _ _) as [c [err|]] eqn:Hdec; cbn iota.
  { wp_run. split_and!; [done..| |done]. apply fail_stop_one. }
  wp_step. apply wp_deref. destruct tp as [data|]; cbn iota.
  2:{ split_and!; [done..| |done]. apply fail_stop_one. }
  destruct (ParseTemplate data c) as [c' [err|]] eqn:Hpt; cbn iota.
  { wp_run. split_and!; [done..| |done]. apply fail_stop_one. }
  wp_step. wp_step. destruct a as [err|]; cbn iota.
  { wp_run. split_and!; [done..| |done]. by apply fail_stop_cons, fail_stop_one. }
  eapply wp_mono; [apply IH|]. cbn beta. intros e' l' t o (-> & Hc & Ho).
  split_and!; [done|done|].
  destruct o as [[err|]|]; [by destruct Ho; split; [repeat apply fail_stop_cons|]| |
                            by destruct Ho; split; [repeat apply fail_stop_cons|]].
  destruct Ho as (cs & Hcs & ->). exists (c' :: cs). split; [|done].
  constructor; [|done]. exists data. split; [done|]. unfold rendered. by rewrite Hdec, Hpt.
Qed.

Lemma run_cmds_spec commands e l :
  wp (run_cmds commands) e l (λ e' l' t o,
    l' = l ∧
    match o with
    | Val None => t = (λ c, EvRunCmd c None) <$> commands
    | Val (Some _) => fail_stop t ∧ cmds t `prefix_of` commands
    | Panic => False
    end).
Proof.
  revert e. induction commands as [|c commands IH]; intros e; simpl.
  { wp_run. done. }
  unfold RunCmd. wp_step. wp_step. destruct a as [err|]; cbn iota.
  { wp_run. split; [done|]. split; [apply fail_stop_one|]. simpl. apply prefix_cons, prefix_nil. }
  eapply wp_mono; [apply IH|]. cbn beta. intros e' l' t o (-> & Ho). split; [done|].
  destruct o as [[err|]|]; [|by rewrite Ho|done]. destruct Ho as [Hf Hp].
  split; [by apply fail_stop_cons|]. simpl. by apply prefix_cons.
Qed.

Lemma file_effects_ok fcs : Forall (λ ev, ev_err ev = None) (fcs ≫= file_effects).
Proof.
  induction fcs as [|[f c] fcs IH]; [constructor|]. cbn. repeat constructor. apply IH.
Qed.

Lemma run_effects_ok fcs commands : Forall (λ ev, ev_err ev = None) (run_effects fcs commands).
Proof.
  apply Forall_app_2; [apply file_effects_ok|].
  apply Forall_fmap, Forall_true. done.
Qed.

(** The whole specification of a run: what success means, and that a failing
    run stops at its first failing step. *)
Definition Execute_post (tp : option TemplateData) (script : string)
    (t : list Event) (o : Outcome (option GoError)) : Prop :=
  match o with
  | Val None =>
      ∃ d cs, yaml_Unmarshal script = Ok d ∧
        Forall2 (λ f c, ∃ data, tp = Some data ∧ rendered data f = Some c) (FilesToWrite d) cs ∧
        t = run_effects (zip (FilesToWrite d) cs) (CommandsToExecute d)
  | _ =>
      fail_stop t ∧ (o = Panic → tp = None) ∧
      (cmds t = [] ∨
       ∃ d cs t', yaml_Unmarshal script = Ok d ∧ length cs = length (FilesToWrite d) ∧
         t = (zip (FilesToWrite d) cs ≫= file_effects) ++ t' ∧
         cmds t' `prefix_of` CommandsToExecute d)
  end.

Lemma Execute_spec tp script e l :
  wp (Execute tp script) e l (λ e' l' t o, l' = l ∧ Execute_post tp script t o).
Proof.
  unfold Execute, Execute_post. destruct (yaml_Unmarshal script) as [d|err] eqn:Hd.
  2:{ wp_run. split_and!; [done|apply fail_stop_nil|done|by left]. }
  apply wp_bind. eapply wp_mono; [apply write_files_spec|]. cbn beta.
  intros e1 l1 t1 [[err|]|] (-> & Hc & Ho).
  - apply wp_ret. rewrite app_nil_r. destruct Ho. by split_and!; [..|left].
  - destruct Ho as (cs & Hcs & ->).
    eapply wp_mono; [apply run_cmds_spec|]. cbn beta. intros e2 l2 t2 o (-> & Ho).
    split; [done|]. destruct o as [[err|]|]; [|by subst; eauto 10|done].
    destruct Ho as [Hf Hp]. split_and!; [by apply fail_stop_app; [apply file_effects_ok|]|done|].
    right. exists d, cs, t2. split_and!; [done|symmetry; by eapply Forall2_length|done|done].
  - destruct Ho. by split_and!; [..|left].
Qed.

Lemma cmds_file_effects fcs : cmds (fcs ≫= file_effects) = [].
Proof. induction fcs as [|[f c] fcs IH]; [done|]. exact IH. Qed.
Lemma cmds_run_cmds commands : cmds ((λ c, EvRunCmd c None) <$> commands) = commands.
Proof. induction commands as [|c cs IH]; [done|]. unfold cmds in *. cbn. by rewrite IH. Qed.

(** Whatever its outcome, a run executes a prefix of the script's commands. *)
Lemma Execute_cmds tp script e l :
  wp (Execute tp script) e l (λ _ _ t _,
    cmds t = [] ∨ ∃ d, yaml_Unmarshal script = Ok d ∧ cmds t `prefix_of` CommandsToExecute d).
Proof.
  eapply wp_mono; [apply Execute_spec|]. cbn beta. unfold Execute_post. intros e' l' t [[err|]|] [_ Ho].
  2:{ destruct Ho as (d & cs & Hd & _ & ->). right. exists d. split; [done|]. unfold run_effects.
      by rewrite cmds_app, cmds_file_effects, cmds_run_cmds. }
  all: destruct Ho as (_ & _ & [?|(d & cs & t' & Hd & _ & -> & Hpre)]); [by left|];
    right; exists d; by rewrite cmds_app, cmds_file_effects.
Qed.

(** The executor only touches the host. *)
Definition host_event (ev : Event) : Prop :=
  match ev with EvRunCmd _ _ | EvMkdirIfNotExists _ _ | EvWriteToFile _ _ _ => True | _ => False end.

Lemma host_events_silent t : Forall host_event t → patches t = [] ∧ ∀ reason, recorded reason t = 0.
Proof. induction 1 as [|[] t ? _ IH]; done. Qed.

Lemma write_files_host tp files e l :
  wp (write_files tp files) e l (λ _ _ t _, Forall host_event t).
Proof.
  revert e. induction files as [|f files IH]; intros e; simpl; [by apply wp_ret|].
  unfold MkdirIfNotExists, WriteToFile. wp_run; try by repeat constructor.
  eapply wp_mono; [apply IH|]. cbn beta. by repeat constructor.
Qed.

Lemma run_cmds_host commands e l :
  wp (run_cmds commands) e l (λ _ _ t _, Forall host_event t).
Proof.
  revert e. induction commands as [|c commands IH]; intros e; simpl; [by apply wp_ret|].
  unfold RunCmd. wp_run; try by repeat constructor.
  eapply wp_mono; [apply IH|]. cbn beta. by repeat constructor.
Qed.

Lemma Execute_host tp script e l : wp (Execute tp script) e l (λ _ _ t _, Forall host_event t).
Proof.
  unfold Execute. wp_run; [|constructor]. eapply wp_mono; [apply write_files_host|].
  cbn beta. intros e1 l1 t1 [[err|]|] Ht1; [wp_run; by rewrite app_nil_r| |done].
  eapply wp_mono; [apply run_cmds_host|]. cbn beta. intros. by apply Forall_app_2.
Qed.

(** The operations of the host that a script needs succeed: its directories,
    its files with these contents and its commands.  Nothing is assumed of
    others. *)
Record script_runs (d : bootstrapConfig) (cs : list string) : Prop := {
  sr_mkdir : Forall (λ f, ∀ e, (sys_MkdirIfNotExists (Dir (Path f)) e).2 = None) (FilesToWrite d);
  sr_write : Forall2 (λ f c, ∀ e, (sys_WriteToFile (set_Content c f) e).2 = None) (FilesToWrite d) cs;
  sr_cmds : Forall (λ c, ∀ e, (sys_RunCmd c e).2 = None) (CommandsToExecute d) }.

(** A run on such a host, of a script that parses and whose files all render,
    reaches the end of the script. *)
Lemma write_files_progress data files cs e l :
  Forall (λ f, ∀ e, (sys_MkdirIfNotExists (Dir (Path f)) e).2 = None) files →
  Forall2 (λ f c, ∀ e, (sys_WriteToFile (set_Content c f) e).2 = None) files cs →
  Forall2 (λ f c, rendered data f = Some c) files cs →
  wp (write_files (Some data) files) e l (λ _ _ _ o, o = Val None).
Proof.
  intros Hmk Hwr Hcs. revert e. induction Hcs as [|f c files cs Hf _ IH]; intros e; [by apply wp_ret|].
  apply Forall_cons in Hmk as [Hm Hmk]. apply Forall2_cons_1 in Hwr as [Hw Hwr].
  revert Hf. unfold rendered. destruct (decodeContent _ _) as [c0 [|]] eqn:Hdec; [done|].
  destruct (ParseTemplate data c0) as [c1 [|]] eqn:Hpt; [done|]. intros [= ->]. cbn [write_files].
  apply wp_bind, (wp_call_ans _ _ None); [apply Hm|]. intros e1. cbn iota. rewrite Hdec. apply wp_bind, wp_ret.
  rewrite Hpt. apply wp_bind, (wp_call_ans _ _ None); [apply Hw|]. intros e2. by apply IH.
Qed.

Lemma run_cmds_progress commands e l :
  Forall (λ c, ∀ e, (sys_RunCmd c e).2 = None) commands →
  wp (run_cmds commands) e l (λ _ _ _ o, o = Val None).
Proof.
  intros Hrun. revert e. induction Hrun as [|c commands Hc _ IH]; intros e; [by apply wp_ret|]. cbn [run_cmds].
  apply wp_bind, (wp_call_ans _ _ None); [apply Hc|]. intros e1. apply IH.
Qed.

Lemma Execute_progress data script d cs e l :
  script_runs d cs → yaml_Unmarshal script = Ok d →
  Forall2 (λ f c, rendered data f = Some c) (FilesToWrite d) cs →
  wp (Execute (Some data) script) e l (λ _ _ _ o, o = Val None).
Proof.
  intros [Hmk Hwr Hrun] Hd Hcs. unfold Execute. rewrite Hd. apply wp_bind.
  eapply wp_mono; [by apply (write_files_progress data _ cs)|]. cbn beta. intros e1 l1 t1 o ->. by apply run_cmds_progress.
Qed.
End Execute.

(** ** The content of a directive, without the loops of the executor *)
Section DirectiveContent.
  Context `{!Gzip, !TextTemplate}.

(** The content decoded as its encoding says, and the template applied. *)
Definition decoded_as (encoding content d : string) : Prop :=
  let e := TrimSpace (ToLower encoding) in
  (e ∈ ["gz+base64"; "gzip+base64"; "gz+b64"; "gzip+b64"] ∧
     ∃ z, Base64.DecodeString content = Ok z ∧ GunzipData z = Ok d) ∨
  (e ∈ ["base64"; "b64"] ∧ Base64.DecodeString content = Ok d) ∨
  (e ∉ ["gz+base64"; "gzip+base64"; "gz+b64"; "gzip+b64"; "base64"; "b64"] ∧ d = content).
Definition file_content (data : TemplateData) (f : Files) (c : string) : Prop :=
  ∃ d tmpl, decoded_as (file_Encoding f) (Content f) d ∧
    template_Parse d = Ok tmpl ∧ template_Execute tmpl data = Ok c.

Lemma parseEncodingScheme_cases encoding :
  let e := TrimSpace (ToLower encoding) in
  (e ∈ ["gz+base64"; "gzip+base64"; "gz+b64"; "gzip+b64"] ∧
     parseEncodingScheme encoding = [encodingBase64; encodingGzip]) ∨
  (e ∈ ["base64"; "b64"] ∧ parseEncodingScheme encoding = [encodingBase64]) ∨
  (e ∉ ["gz+base64"; "gzip+base64"; "gz+b64"; "gzip+b64"; "base64"; "b64"] ∧
     parseEncodingScheme encoding = [encodingPlain]).
Proof.
  cbn zeta. unfold parseEncodingScheme. repeat case_bool_decide; cbn [orb]; set_solver.
Qed.

Lemma rendered_content data f c : rendered data f = Some c → file_content data f c.
Proof.
  unfold rendered, file_content, decoded_as, ParseTemplate.
  destruct (decodeContent (Content f) _) as [d [|]] eqn:Hdec; [done|].
  destruct (template_Parse d) as [tmpl|] eqn:Hp; [|done].
  destruct (template_Execute tmpl data) as [c'|] eqn:Hx; [|done]. intros [= <-].
  exists d, tmpl. split_and!; try done. revert Hdec.
  destruct (parseEncodingScheme_cases (file_Encoding f)) as [[He ->]|[[He ->]|[He ->]]]; cbn.
  - destruct (Base64.DecodeString _) as [z|]; [|done]. destruct (GunzipData z) eqn:Hz; [|done]. intros [= <-].
    left. split; [done|]. eauto.
  - destruct (Base64.DecodeString _) as [z|]; [|done]. intros [= <-]. right. by left.
  - intros [= <-]. right. by right.
Qed.
End DirectiveContent.

(** ** Theorems *)

(** C12. [ScriptExecutor.Execute], whatever the host
    answers: a nil error means that the script parsed, every file decoded and
    rendered, and the effects are exactly, in this order, the directory and
    the rendered content of each file and then each command, all successful.
    Any other end (an error, or a panic, which only a nil template parser
    causes) performs
    no effect after the first failing one, and runs a command only after all
    files are written, a prefix of the script's commands in their order. *)
Theorem Execute_effects {E L : Type} `{!HostSystem E, !Yaml, !Gzip, !TextTemplate}
    (tp : option TemplateData) (script : string) (e : E) (l : L) :
  wp (Execute tp script) e l (λ _ l' t o, l' = l ∧ Execute_post tp script t o).
Proof. apply Execute_spec. Qed.

(** C13. Content that was gzipped and base64 encoded
    (or base64 encoded, or left plain) is recovered by [decodeContent] under
    every spelling of its encoding that [parseEncodingScheme] accepts,
    whatever the case of its letters. *)
Theorem decodeContent_encoded `{!Gzip, !GzipLaws _} (content z enc : string) :
  GzipData content = Ok z →
  (TrimSpace (ToLower enc) ∈ ["gz+base64"; "gzip+base64"; "gz+b64"; "gzip+b64"] →
   decodeContent (Base64.EncodeToString z) (parseEncodingScheme enc) = (content, None)) ∧
  (TrimSpace (ToLower enc) ∈ ["base64"; "b64"] →
   decodeContent (Base64.EncodeToString content) (parseEncodingScheme enc) = (content, None)) ∧
  (TrimSpace (ToLower enc) ∉ ["gz+base64"; "gzip+base64"; "gz+b64"; "gzip+b64"; "base64"; "b64"] →
   decodeContent content (parseEncodingScheme enc) = (content, None)).
Proof.
  intros Hz. unfold parseEncodingScheme.
  split_and!; intros He.
  - rewrite !elem_of_cons, elem_of_nil in He.
    destruct He as [->|[->|[->|[->|[]]]]]; simpl;
      rewrite Base64.DecodeString_EncodeToString; simpl; by rewrite (GunzipData_GzipData content z).
  - rewrite !elem_of_cons, elem_of_nil in He.
    destruct He as [->|[->|[]]]; simpl; by rewrite Base64.DecodeString_EncodeToString.
  - rewrite !not_elem_of_cons in He. destruct He as (?&?&?&?&?&?&?).
    repeat rewrite bool_decide_eq_false_2 by done. done.
Qed.

(** [Execute] returns nil, without panicking, when
    the script parses, its files decode and render, the agent has a template
    parser and the host's operations succeed: the executor adds no failure
    of its own. *)
Theorem Execute_completes {E L : Type} `{!HostSystem E, !Yaml, !Gzip, !TextTemplate}
    (data : TemplateData) (script : string) (d : bootstrapConfig) (cs : list string) (e : E) (l : L) :
  (∀ d e, (sys_MkdirIfNotExists d e).2 = None) → (∀ f e, (sys_WriteToFile f e).2 = None) →
  (∀ c e, (sys_RunCmd c e).2 = None) →
  yaml_Unmarshal script = Ok d →
  Forall2 (λ f c, rendered data f = Some c) (FilesToWrite d) cs →
  r_out (Execute (Some data) script e l) = Val None ∧
  r_trace (Execute (Some data) script e l) =
    run_effects (zip (FilesToWrite d) cs) (CommandsToExecute d).
Proof.
  intros Hmk Hwr Hrun Hd Hcs.
  assert (r_out (Execute (Some data) script e l) = Val None) as Ho.
  { apply (Execute_progress data script d cs e l); [split|done..]; [by apply Forall_true| |by apply Forall_true].
    eapply Forall2_impl; [exact Hcs|]. auto. }
  split; [done|]. destruct (Execute_spec (Some data) script e l) as [_ Hp].
  rewrite Ho in Hp. destruct Hp as (d' & cs' & Hd' & Hcs' & ->).
  assert (d' = d) as -> by congruence.
  assert (cs' = cs) as ->; [|done]. eapply Forall2_agree; [|exact Hcs'|exact Hcs].
  cbn. intros f c1 c2 (data' & Hdata & H3) H4. congruence.
Qed.
