(* ===== verification/FileWriter.v ===== *)
(** * The file writer (agent/cloudinit/file_writer.go)

    [FileWriter.MkdirIfNotExists] and [FileWriter.WriteToFile] on a model of
    the file system: regular files with content, permission bits and owner,
    directories, a umask, the user database, the number of open descriptors
    and a schedule of faults, which makes any system call fail at any time.
    The writer implements the interface [HostSystem] the executor of
    CloudInit.v is verified against.  Set-user-ID bits, links and the
    permissions of directories are outside the model. *)

From S2P Require Import Prelude GoStrings Encoding Api Platform CloudInit.

(** ** The file system *)

Record File := mkFile { f_Content : string; f_Perm : Z; f_Uid : Z; f_Gid : Z }.

(** A failing system call: its error, and how much a write or a creation of
    directories did before it failed. *)
Record Fault := mkFault { fault_Err : GoError; fault_Done : nat }.

Record Host := mkHost {
  fs_Files : gmap string File;
  fs_Dirs : gset string;
  fs_Umask : Z;
  fs_Uid : Z;
  fs_Gid : Z;
  fs_Users : gmap string (string * string);  (* name to Uid and Gid, as user.Lookup prints them *)
  fs_Open : nat;                             (* open descriptors *)
  fs_Faults : list (option Fault) }.

Definition set_Files (f : gmap string File → gmap string File) (h : Host) : Host :=
  mkHost (f (fs_Files h)) (fs_Dirs h) (fs_Umask h) (fs_Uid h) (fs_Gid h) (fs_Users h) (fs_Open h) (fs_Faults h).
Definition set_Dirs (f : gset string → gset string) (h : Host) : Host :=
  mkHost (fs_Files h) (f (fs_Dirs h)) (fs_Umask h) (fs_Uid h) (fs_Gid h) (fs_Users h) (fs_Open h) (fs_Faults h).
Definition set_Open (f : nat → nat) (h : Host) : Host :=
  mkHost (fs_Files h) (fs_Dirs h) (fs_Umask h) (fs_Uid h) (fs_Gid h) (fs_Users h) (f (fs_Open h)) (fs_Faults h).
Definition set_Faults (fs : list (option Fault)) (h : Host) : Host :=
  mkHost (fs_Files h) (fs_Dirs h) (fs_Umask h) (fs_Uid h) (fs_Gid h) (fs_Users h) (fs_Open h) fs.

(** Every system call takes the next entry of the schedule. *)
Definition next_fault (h : Host) : Host * option Fault :=
  match fs_Faults h with
  | [] => (h, None)
  | f :: fs => (set_Faults fs h, f)
  end.

Definition O_WRONLY : Z := 1.
Definition O_CREATE : Z := 64.
Definition O_APPEND : Z := 1024.
Definition has_flag (flags flag : Z) : bool := negb (Z.land flags flag =? 0)%Z.

(** [fs.FileMode.Perm]: the bits of a mode that reach chmod and open. *)
Definition Perm (mode : Z) : Z := Z.land mode 511.

Definition enoent (name : string) : GoError := mkError ENotFound (name +:+ ": no such file or directory").
Definition enotdir (name : string) : GoError := mkError EOther (name +:+ ": not a directory").
Definition eisdir (name : string) : GoError := mkError EOther (name +:+ ": is a directory").

(** The directories on the way to a path, and the path itself. *)
Fixpoint prefixes (s : string) : list string :=
  match s with
  | EmptyString => []
  | String c s' =>
      (if Ascii.eqb c slash then [EmptyString] else []) ++ (String c <$> prefixes s')
  end.
Definition ancestors (p : string) : list string := filter (λ q, q ≠ "") (prefixes p) ++ [p].

Fixpoint mkdir_each (ds : list string) (h : Host) : Host * option GoError :=
  match ds with
  | [] => (h, None)
  | d :: ds' =>
      match fs_Files h !! d with
      | Some _ => (h, Some (enotdir d))
      | None => mkdir_each ds' (set_Dirs (union {[d]}) h)
      end
  end.

(** [os.Stat]; stat(2) never reports EEXIST. *)
Definition Stat (name : string) (h : Host) : Host * option GoError :=
  match next_fault h with
  | (h, Some f) =>
      (h, Some (if IsAlreadyExists (fault_Err f) then mkError EOther (err_msg (fault_Err f)) else fault_Err f))
  | (h, None) =>
      (h, if bool_decide (Clean name ∈ fs_Dirs h) || bool_decide (is_Some (fs_Files h !! Clean name))
          then None else Some (enoent name))
  end.

Definition MkdirAll (name : string) (h : Host) : Host * option GoError :=
  match next_fault h with
  | (h, Some f) => ((mkdir_each (take (fault_Done f) (ancestors (Clean name))) h).1, Some (fault_Err f))
  | (h, None) => mkdir_each (ancestors (Clean name)) h
  end.

(** A descriptor: the file it is open on and whether it appends. *)
Record Fd := mkFd { fd_Path : string; fd_Append : bool }.

Definition OpenFile (name : string) (flag perm : Z) (h : Host) : Host * result Fd :=
  let p := Clean name in
  match next_fault h with
  | (h, Some f) => (h, Err (fault_Err f))
  | (h, None) =>
      if bool_decide (p ∈ fs_Dirs h) then (h, Err (eisdir name))
      else
        match fs_Files h !! p with
        | Some _ => (set_Open S h, Ok (mkFd p (has_flag flag O_APPEND)))
        | None =>
            if has_flag flag O_CREATE && bool_decide (Dir p ∈ fs_Dirs h) then
              (set_Open S (set_Files
                 (insert p (mkFile "" (Z.ldiff (Perm perm) (fs_Umask h)) (fs_Uid h) (fs_Gid h))) h),
               Ok (mkFd p (has_flag flag O_APPEND)))
            else (h, Err (enoent name))
        end
  end.

(** Writing at the start of a file keeps what lies beyond the written bytes. *)
Definition overlay (s old : string) : string := s +:+ slice_from (String.length s) old.
Definition write_at (fd : Fd) (s : string) (f : File) : File :=
  mkFile (if fd_Append fd then f_Content f +:+ s else overlay s (f_Content f)) (f_Perm f) (f_Uid f) (f_Gid f).

(** The first write on a fresh descriptor. *)
Definition WriteString (fd : Fd) (s : string) (h : Host) : Host * option GoError :=
  match next_fault h with
  | (h, Some f) =>
      (set_Files (alter (write_at fd (slice_to (fault_Done f) s)) (fd_Path fd)) h, Some (fault_Err f))
  | (h, None) => (set_Files (alter (write_at fd s) (fd_Path fd)) h, None)
  end.

Definition Chmod (fd : Fd) (mode : Z) (h : Host) : Host * option GoError :=
  match next_fault h with
  | (h, Some f) => (h, Some (fault_Err f))
  | (h, None) =>
      (set_Files (alter (λ f, mkFile (f_Content f) (Perm mode) (f_Uid f) (f_Gid f)) (fd_Path fd)) h, None)
  end.

Definition Chown (fd : Fd) (uid gid : Z) (h : Host) : Host * option GoError :=
  match next_fault h with
  | (h, Some f) => (h, Some (fault_Err f))
  | (h, None) =>
      (set_Files (alter (λ f, mkFile (f_Content f) (f_Perm f) uid gid) (fd_Path fd)) h, None)
  end.

(** close(2) releases the descriptor also when it reports an error. *)
Definition Close (fd : Fd) (h : Host) : Host * option GoError :=
  let '(h, f) := next_fault h in (set_Open pred h, fault_Err <$> f).

(** [user.Lookup] *)
Definition Lookup (name : string) (h : Host) : Host * result (string * string) :=
  match next_fault h with
  | (h, Some f) => (h, Err (fault_Err f))
  | (h, None) =>
      (h, match fs_Users h !! name with
          | Some u => Ok u
          | None => Err (errors_New ("user: unknown user " +:+ name))
          end)
  end.

(** [strconv.ParseUint] for a base of at most ten. *)
Fixpoint parse_uint (base maxVal acc : Z) (s : string) : result Z :=
  match s with
  | EmptyString => Ok acc
  | String c s' =>
      let d := (Z.of_nat (Ascii.nat_of_ascii c) - 48)%Z in
      if ((d <? 0) || (base <=? d))%Z then Err (errors_New "invalid syntax")
      else if (maxVal <? acc * base + d)%Z then Err (errors_New "value out of range")
      else parse_uint base maxVal (acc * base + d) s'
  end.
Definition ParseUint (s : string) (base bitSize : Z) : result Z :=
  match (if bool_decide (s = "") then Err (errors_New "invalid syntax")
         else parse_uint base (2 ^ bitSize - 1) 0 s) with
  | Ok n => Ok n
  | Err err => Err (errors_New ("strconv.ParseUint: parsing " +:+ strconv_Quote s +:+ ": " +:+ err_msg err))
  end.

(** ** file_writer.go *)

Definition filePermission : Z := 420.  (* 0644 *)
Definition dirPermission : Z := 484.   (* 0744 *)

Section Writer.
  Context {L : Type}.

Abbreviation FM := (M Event Host L).
Definition sys {A} (f : Host → Host * A) : FM A := call f (λ _, []).

Definition MkdirIfNotExists (dirName : string) : FM (option GoError) :=
  let! err := sys (Stat dirName) in
  match err with
  | Some err => if IsNotFound err then sys (MkdirAll dirName) else ret (Some err)
  | None => ret None
  end.

(** The mode in [file.Permissions] is set on the descriptor. *)
Definition set_permissions (f : Fd) (file : Files) : FM (option GoError) :=
  if bool_decide (Permissions file ≠ "") then
    match ParseUint (Permissions file) 8 32 with
    | Err err => ret (Some (errors_Wrap err ("Error parse the file permission " +:+ Permissions file)))
    | Ok fileMode => sys (Chmod f fileMode)
    end
  else ret None.

(** The owner in [file.Owner]: the user's own group is set with it. *)
Definition set_owner (f : Fd) (file : Files) : FM (option GoError) :=
  if bool_decide (Owner file ≠ "") then
    match Split (Owner file) (chr 58) with
    | [owner; _] =>
        let! userInfo := sys (Lookup owner) in
        match userInfo with
        | Err err => ret (Some (errors_Wrap err ("Error Lookup user " +:+ owner)))
        | Ok (Uid, Gid) =>
            match ParseUint Uid 10 32 with
            | Err err => ret (Some (errors_Wrap err ("Error convert uid " +:+ Uid)))
            | Ok uid =>
                match ParseUint Gid 10 32 with
                | Err err => ret (Some (errors_Wrap err ("Error convert gid " +:+ Gid)))
                | Ok gid => sys (Chown f uid gid)
                end
            end
        end
    | _ => ret (Some (errors_New ("invalid owner format '" +:+ Owner file +:+ "'")))
    end
  else ret None.

(** The work on the open file. *)
Definition write_opened (f : Fd) (file : Files) : FM (option GoError) :=
  let! err := sys (WriteString f (Content file)) in
  match err with
  | Some err => ret (Some err)
  | None =>
      let! err := set_permissions f file in
      match err with
      | Some err => ret (Some err)
      | None =>
          let! err := set_owner f file in
          match err with
          | Some err => ret (Some err)
          | None => sys (Close f)
          end
      end
  end.

(** [WriteToFile].  [os.IsExist(err)] is asked of the error of [os.Stat],
    whose first result is nil when there is one. *)
Definition WriteToFile (file : Files) : FM (option GoError) :=
  let! err := sys (Stat (Path file)) in
  let! initPermission :=
    match err with
    | Some err => if IsAlreadyExists err then panic else ret filePermission
    | None => ret filePermission
    end in
  let flag := Z.lor O_WRONLY O_CREATE in
  let flag := if Append file then Z.lor flag O_APPEND else flag in
  let! f := sys (OpenFile (Path file) flag initPermission) in
  match f with
  | Err err => ret (Some err)
  | Ok f => write_opened f file
  end.
End Writer.

(** ** Specification *)

(** Everything but the file [p], the open descriptors and the schedule. *)
Record keeps (p : string) (h h' : Host) : Prop := {
  keeps_files : delete p (fs_Files h') = delete p (fs_Files h);
  keeps_dirs : fs_Dirs h' = fs_Dirs h;
  keeps_ids : fs_Umask h' = fs_Umask h ∧ fs_Uid h' = fs_Uid h ∧ fs_Gid h' = fs_Gid h;
  keeps_users : fs_Users h' = fs_Users h }.

#[export] Instance keeps_preorder p : PreOrder (keeps p).
Proof.
  split; [by split|]. intros h1 h2 h3 [Hf1 Hd1 (?&?&?) Hu1] [Hf2 Hd2 (?&?&?) Hu2].
  split; [|..|split_and!|]; congruence.
Qed.

(** The file as it is before the write: the existing one, or a new one. *)
Definition opened (h : Host) (file : Files) : File :=
  default (mkFile "" (Z.ldiff filePermission (fs_Umask h)) (fs_Uid h) (fs_Gid h)) (fs_Files h !! Clean (Path file)).

(** Permissions and owner the directive asks for. *)
Definition perm_of (file : Files) (old : Z) : option Z :=
  if bool_decide (Permissions file = "") then Some old
  else match ParseUint (Permissions file) 8 32 with Ok m => Some (Perm m) | Err _ => None end.
Definition owner_of (users : gmap string (string * string)) (file : Files) (old : Z * Z) : option (Z * Z) :=
  if bool_decide (Owner file = "") then Some old
  else match Split (Owner file) (chr 58) with
       | [owner; _] =>
           match users !! owner with
           | Some (uid, gid) =>
               match ParseUint uid 10 32, ParseUint gid 10 32 with
               | Ok u, Ok g => Some (u, g)
               | _, _ => None
               end
           | None => None
           end
       | _ => None
       end.
Definition new_content (file : Files) (old : string) : string :=
  if Append file then old +:+ Content file else overlay (Content file) old.

(** What a successful write leaves at the path. *)
Definition written (h : Host) (file : Files) : option File :=
  let f := opened h file in
  perm ← perm_of file (f_Perm f);
  ids ← owner_of (fs_Users h) file (f_Uid f, f_Gid f);
  Some (mkFile (new_content file (f_Content f)) perm ids.1 ids.2).

(** ** System calls *)

Lemma next_fault_set h : ∃ fs, (next_fault h).1 = set_Faults fs h.
Proof. unfold next_fault. destruct (fs_Faults h) eqn:Hf; [exists []|by eexists]. destruct h. cbn in *. by subst. Qed.

Lemma keeps_set_Faults p fs h : keeps p h (set_Faults fs h).
Proof. by split. Qed.
Lemma keeps_set_Open p f h : keeps p h (set_Open f h).
Proof. by split. Qed.
Lemma keeps_alter p f h : keeps p h (set_Files (alter f p) h).
Proof. split; try done. cbn. by rewrite delete_alter_eq. Qed.
Lemma keeps_insert p x h : keeps p h (set_Files (insert p x) h).
Proof. split; try done. cbn. by rewrite delete_insert_eq. Qed.
#[local] Hint Resolve keeps_set_Faults keeps_set_Open keeps_alter keeps_insert : go.

(** Splits on whether the next call fails. *)
Ltac on_fault h fs f Hn :=
  destruct (next_fault_set h) as [fs Hn]; destruct (next_fault h) as [? [f|]]; simpl in Hn; subst.

(** A stage that works on the open file [p]: it keeps the rest of the host
    and ends without a panic. *)
Definition stage {L} (p : string) (h : Host) (l : L) (Q : Host → option GoError → Prop)
    (h' : Host) (l' : L) (t : list Event) (o : Outcome (option GoError)) : Prop :=
  l' = l ∧ t = [] ∧ keeps p h h' ∧ fs_Open h' = fs_Open h ∧ (fs_Faults h = [] → fs_Faults h' = []) ∧
  ∃ err, o = Val err ∧ Q h' err.

Lemma no_fault h : fs_Faults h = [] → next_fault h = (h, None).
Proof. unfold next_fault. by intros ->. Qed.
Lemma fault_some h h1 f : next_fault h = (h1, Some f) → fs_Faults h ≠ [].
Proof. unfold next_fault. by destruct (fs_Faults h). Qed.

(** One system call on the open file. *)
Lemma wp_sys_alter {L} p h (l : L) (g : File → File) (k : Fault → File → File)
    (c : Host → Host * option GoError) Q :
  (c h = match next_fault h with
         | (h1, Some f) => (set_Files (alter (k f) p) h1, Some (fault_Err f))
         | (h1, None) => (set_Files (alter g p) h1, None)
         end) →
  (∀ h' err, fs_Files h' = (if err is Some _ then fs_Files h' else alter g p (fs_Files h)) →
     (fs_Faults h = [] → err = None) → stage p h l (λ _ _, True) h' l [] (Val err) →
     Q h' l [] (Val err)) →
  wp (sys c) h l Q.
Proof.
  intros Hc HQ. apply wp_call. intros h' err Heq. rewrite Hc in Heq.
  destruct (next_fault h) as [h1 [f|]] eqn:Hn; destruct (next_fault_set h) as [fs Hs]; rewrite Hn in Hs;
    simpl in Hs; subst h1; injection Heq as <- <-; apply HQ; try done.
  - intros Hnf. by apply fault_some in Hn.
  - split_and!; try done; [|by intros Hnf; apply fault_some in Hn|by eexists].
    etrans; [apply (keeps_set_Faults p fs)|apply keeps_alter].
  - split_and!; try done; [| |by eexists].
    + etrans; [apply (keeps_set_Faults p fs)|apply keeps_alter].
    + intros Hnf. unfold next_fault in Hn. rewrite Hnf in Hn. injection Hn as Hh.
      apply (f_equal fs_Faults) in Hh. cbn in *. congruence.
Qed.

Lemma alter_id_host p h : set_Files (alter id p) h = h.
Proof. destruct h. unfold set_Files. cbn. f_equal. apply alter_id. done. Qed.

(** Stages compose. *)
Lemma stage_bind {L} p h h1 (l : L) Q R (m : M Event Host L (option GoError)) :
  stage p h l Q h1 l [] (Val None) → (Q h1 None → wp m h1 l (stage p h1 l R)) →
  wp m h1 l (stage p h l R).
Proof.
  intros (_ & _ & Hk & Ho & Hf & err & [= <-] & HQ) Hm. eapply wp_mono; [by apply Hm|].
  intros h2 l2 t2 o2 (-> & -> & Hk2 & Ho2 & Hf2 & HR). split_and!; try done; [by etrans|congruence|auto].
Qed.

Lemma set_permissions_spec {L} f file x h (l : L) :
  fs_Files h !! fd_Path f = Some x →
  wp (set_permissions f file) h l (stage (fd_Path f) h l (λ h' err,
    (err = None → ∃ perm, perm_of file (f_Perm x) = Some perm ∧
       fs_Files h' !! fd_Path f = Some (mkFile (f_Content x) perm (f_Uid x) (f_Gid x))) ∧
    (fs_Faults h = [] → is_Some (perm_of file (f_Perm x)) → err = None))).
Proof.
  intros Hx. unfold set_permissions, perm_of. rewrite bool_decide_not.
  case_bool_decide as Hp; cbn [negb].
  { apply wp_ret. split_and!; try done. eexists. split; [done|]. split; [|done].
    intros _. eexists. split; [done|]. by destruct x. }
  destruct (ParseUint _ _ _) as [m|err].
  2:{ apply wp_ret. split_and!; try done. eexists. split; [done|]. split; [done|]. by intros _ [? [=]]. }
  eapply (wp_sys_alter _ _ _ _ (λ _, id)).
  { unfold Chmod. destruct (next_fault h) as [h1 [ft|]]; [|done]. by rewrite alter_id_host. }
  intros h' err Hf Hnf (_ & _ & Hk & Ho & Hfs & _). split_and!; try done. eexists. split; [done|]. split.
  - intros ->. eexists. split; [done|]. by rewrite Hf, lookup_alter_eq, Hx.
  - intros Hn _. by apply Hnf.
Qed.

(** A call that only reads: the host keeps everything but the schedule. *)
Lemma wp_sys_read {A L} p h (l : L) (c : Host → Host * A) (bad : Fault → A) (good : Host → A) Q :
  (c h = match next_fault h with (h1, Some f) => (h1, bad f) | (h1, None) => (h1, good h1) end) →
  (∀ h' a, (a = good h ∨ fs_Faults h ≠ [] ∧ ∃ f, a = bad f) →
     (∀ fs, good (set_Faults fs h) = good h) → fs_Files h' = fs_Files h →
     stage p h l (λ _ _, True) h' l [] (Val None) → Q h' l [] (Val a)) →
  (∀ fs, good (set_Faults fs h) = good h) →
  wp (sys c) h l Q.
Proof.
  intros Hc HQ Hgood. apply wp_call. intros h' a Heq. rewrite Hc in Heq.
  destruct (next_fault h) as [h1 [f|]] eqn:Hn; destruct (next_fault_set h) as [fs Hs]; rewrite Hn in Hs;
    simpl in Hs; subst h1; injection Heq as <- <-.
  - apply fault_some in Hn as Hne. apply HQ; try done; [right; eauto|]. split_and!; try done; by eexists.
  - apply HQ; try done; [left; apply Hgood|]. split_and!; try done; [|by eexists].
    intros Hnf. unfold next_fault in Hn. rewrite Hnf in Hn. injection Hn as Hh.
    apply (f_equal fs_Faults) in Hh. cbn in *. congruence.
Qed.

Lemma stage_ret {L} p h (l : L) (Q : Host → option GoError → Prop) err :
  Q h err → wp (ret err) h l (stage p h l Q).
Proof. intros HQ. apply wp_ret. split_and!; try done. by eexists. Qed.

Lemma set_owner_spec {L} f file x h (l : L) :
  fs_Files h !! fd_Path f = Some x →
  wp (set_owner f file) h l (stage (fd_Path f) h l (λ h' err,
    (err = None → ∃ ids, owner_of (fs_Users h) file (f_Uid x, f_Gid x) = Some ids ∧
       fs_Files h' !! fd_Path f = Some (mkFile (f_Content x) (f_Perm x) ids.1 ids.2)) ∧
    (fs_Faults h = [] → is_Some (owner_of (fs_Users h) file (f_Uid x, f_Gid x)) → err = None))).
Proof.
  intros Hx. unfold set_owner, owner_of. rewrite bool_decide_not.
  assert (∀ (P : Prop) e, (Some e : option GoError) = None → P) as Hne by done.
  assert (is_Some (None : option (Z * Z)) → False) as Hnone by by intros [? [=]].
  case_bool_decide as Hp; cbn [negb].
  { apply stage_ret. split; [|done]. intros _. eexists. split; [done|]. by destruct x. }
  destruct (Split (Owner file) (chr 58)) as [|owner [|g []]]; try (apply stage_ret; naive_solver).
  apply wp_bind, (wp_sys_read (fd_Path f) _ _ _ (λ f, Err (fault_Err f))
    (λ h, match fs_Users h !! owner with Some u => Ok u | None => Err (errors_New ("user: unknown user " +:+ owner)) end));
    [by unfold Lookup; destruct (next_fault h) as [? []]| |done].
  intros h1 a Ha _ Hf1 Hst. eapply stage_bind; [exact Hst|intros _].
  pose proof Hst as (_ & _ & _ & _ & Hfs1 & _).
  destruct Ha as [-> |[Hft [ft ->]]]; [|apply stage_ret; naive_solver].
  destruct (fs_Users h !! owner) as [[u gd]|]; [|apply stage_ret; naive_solver].
  destruct (ParseUint u 10 32) as [uid|]; [|apply stage_ret; naive_solver].
  destruct (ParseUint gd 10 32) as [gid|]; [|apply stage_ret; naive_solver].
  eapply (wp_sys_alter _ _ _ _ (λ _, id)).
  { unfold Chown. destruct (next_fault h1) as [h2 [ft|]]; [|done]. by rewrite alter_id_host. }
  intros h' err Hf Hnf (_ & _ & Hk & Ho & Hfs & _). split_and!; try done. eexists. split; [done|]. split.
  - intros ->. eexists. split; [done|]. by rewrite Hf, lookup_alter_eq, Hf1, Hx.
  - intros Hn _. auto.
Qed.

(** A path that can be opened for writing. *)
Definition openable (h : Host) (p : string) : Prop :=
  p ∉ fs_Dirs h ∧ (is_Some (fs_Files h !! p) ∨ Dir p ∈ fs_Dirs h).

Lemma faults_stay h fs : next_fault h = (set_Faults fs h, None) → fs_Faults h = [] → fs = [].
Proof.
  unfold next_fault. intros Hn Hnf. rewrite Hnf in Hn. injection Hn as Hh.
  apply (f_equal fs_Faults) in Hh. cbn in *. congruence.
Qed.

Lemma wp_OpenFile {L} name flag h (l : L) Q :
  has_flag flag O_CREATE = true →
  let p := Clean name in
  let x := default (mkFile "" (Z.ldiff filePermission (fs_Umask h)) (fs_Uid h) (fs_Gid h)) (fs_Files h !! p) in
  (∀ h' err, keeps p h h' → fs_Files h' = fs_Files h → fs_Open h' = fs_Open h →
     (fs_Faults h = [] → ~ openable h p) → Q h' l [] (Val (Err err))) →
  (∀ h', keeps p h h' → fs_Open h' = S (fs_Open h) → fs_Files h' !! p = Some x →
     (fs_Faults h = [] → fs_Faults h' = []) → openable h p →
     Q h' l [] (Val (Ok (mkFd p (has_flag flag O_APPEND))))) →
  wp (sys (OpenFile name flag filePermission)) h l Q.
Proof.
  intros Hcr p x Herr Hok. apply wp_call. intros h' r Heq. unfold OpenFile in Heq. fold p in Heq.
  destruct (next_fault h) as [h1 [f|]] eqn:Hn; destruct (next_fault_set h) as [fs Hs]; rewrite Hn in Hs;
    simpl in Hs; subst h1.
  { injection Heq as <- <-. apply Herr; try done. intros Hnf. by apply fault_some in Hn. }
  pose proof (faults_stay h fs Hn) as Hfs. unfold openable in *. cbn [fs_Dirs fs_Files set_Faults] in Heq.
  case_bool_decide as Hdir; [injection Heq as <- <-; apply Herr; try done; naive_solver|].
  rewrite Hcr in Heq. destruct (fs_Files h !! p) as [y|] eqn:Hy.
  { injection Heq as <- <-. apply Hok; try done. split; [done|]. left. eauto. }
  cbn [andb] in Heq. case_bool_decide as Hd; injection Heq as <- <-.
  - apply Hok; try done; [|by cbn; rewrite lookup_insert_eq|split; [done|by right]].
    etrans; [apply (keeps_set_Faults p fs)|]. etrans; [apply keeps_insert|apply keeps_set_Open].
  - apply Herr; try done. intros _ [_ [[? [=]]|?]]. done.
Qed.

Lemma written_stages h file x perm ids : opened h file = x →
  perm_of file (f_Perm x) = Some perm → owner_of (fs_Users h) file (f_Uid x, f_Gid x) = Some ids →
  written h file = Some (mkFile (new_content file (f_Content x)) perm ids.1 ids.2).
Proof. intros <- Hp Ho. unfold written. rewrite Hp. simpl. by rewrite Ho. Qed.
Lemma written_inv h file : is_Some (written h file) →
  is_Some (perm_of file (f_Perm (opened h file))) ∧
  is_Some (owner_of (fs_Users h) file (f_Uid (opened h file), f_Gid (opened h file))).
Proof.
  unfold written. destruct (perm_of _ _); simpl; [|by intros [? [=]]].
  destruct (owner_of _ _ _); simpl; [eauto|by intros [? [=]]].
Qed.

(** A stage on the open file that the remaining code follows. *)
Lemma wp_stage {L} p h (l : L) (m : M Event Host L (option GoError)) k Q R :
  wp m h l (stage p h l R) →
  (∀ h' err, stage p h l R h' l [] (Val (Some err)) → R h' (Some err) → Q h' l [] (Val (Some err))) →
  (∀ h', stage p h l R h' l [] (Val None) → R h' None → wp k h' l Q) →
  wp (let! err := m in match err with Some err => ret (Some err) | None => k end) h l Q.
Proof.
  intros Hm Herr Hok. apply wp_bind. eapply wp_mono; [exact Hm|].
  intros h' l' t o (-> & -> & Hk & Ho & Hf & err & -> & HR). destruct err as [err|].
  - apply wp_ret. cbn. apply Herr; [|done]. split_and!; try done. by eexists.
  - eapply wp_mono; [apply Hok; [|done]|by intros]. split_and!; try done. by eexists.
Qed.

(** What [WriteToFile] guarantees, whatever fails. *)
Definition write_post (h : Host) (file : Files) (h' : Host) (err : option GoError) : Prop :=
  let p := Clean (Path file) in
  keeps p h h' ∧ fs_Open h ≤ fs_Open h' ≤ S (fs_Open h) ∧
  (err = None → ∃ f, written h file = Some f ∧ fs_Files h' !! p = Some f ∧ fs_Open h' = fs_Open h) ∧
  (fs_Faults h = [] → err = None ↔ openable h p ∧ is_Some (written h file)).

Lemma write_failed h file h' err :
  keeps (Clean (Path file)) h h' → fs_Open h' = S (fs_Open h) →
  (fs_Faults h = [] → is_Some (written h file) → False) → write_post h file h' (Some err).
Proof.
  intros Hk Ho Hno. split_and!; [done|lia|lia|done|]. intros Hn. split; [done|]. intros [_ Hw]. by destruct Hno.
Qed.

(** The result of the work on the open file, from the host [h] before the open. *)
Lemma write_opened_spec {L} f file h h1 (l : L) (p := Clean (Path file)) :
  f = mkFd p (Append file) → openable h p →
  fs_Files h1 !! p = Some (opened h file) → keeps p h h1 → fs_Open h1 = S (fs_Open h) →
  (fs_Faults h = [] → fs_Faults h1 = []) →
  wp (write_opened f file) h1 l (λ h' l' t o, l' = l ∧ t = [] ∧ ∃ err, o = Val err ∧ write_post h file h' err).
Proof.
  intros -> Hopen Hx Hk Ho Hfs. set (f := mkFd p (Append file)). unfold write_opened.
  eapply (wp_stage p).
  { eapply (wp_sys_alter p _ _ (write_at f (Content file)) (λ ft, write_at f (slice_to (fault_Done ft) (Content file)))).
    - unfold WriteString. by destruct (next_fault h1) as [? []].
    - intros h2 err Hf2 Hnf2 (_ & _ & Hk2 & Ho2 & Hfs2 & _). split_and!; try done. eexists. split; [done|].
      refine (_ : (λ h2 err, (err = None → fs_Files h2 !! p = Some (write_at f (Content file) (opened h file))) ∧
        (fs_Faults h1 = [] → err = None)) h2 err). split; [|done].
      intros ->. by rewrite Hf2, lookup_alter_eq, Hx. }
  { intros h2 err (_ & _ & Hk2 & Ho2 & Hfs2 & _) [_ Hnf]. split_and!; try done. eexists. split; [done|].
    apply write_failed; [by etrans|congruence|]. intros Hn. by specialize (Hnf (Hfs Hn)). }
  intros h2 (_ & _ & Hk2 & Ho2 & Hfs2 & _) [Hx2 _]. specialize (Hx2 eq_refl).
  eapply (wp_stage p); [by apply (set_permissions_spec f)| |].
  { intros h3 err (_ & _ & Hk3 & Ho3 & _ & _) [_ Hnf]. split_and!; try done. eexists. split; [done|].
    apply write_failed; [by etrans; [exact Hk|etrans]|congruence|].
    intros Hn [Hp _]%written_inv. by discriminate (Hnf (Hfs2 (Hfs Hn)) Hp). }
  intros h3 (_ & _ & Hk3 & Ho3 & Hfs3 & _) [(perm & Hp & Hx3) _]; [done|].
  assert (keeps p h h3) as Hkh3 by (etrans; [exact Hk|etrans; [exact Hk2|exact Hk3]]).
  eapply (wp_stage p); [by apply (set_owner_spec f)| |].
  { intros h4 err (_ & _ & Hk4 & Ho4 & _ & _) [_ Hnf]. split_and!; try done. eexists. split; [done|].
    apply write_failed; [by etrans|congruence|]. intros Hn [_ Hw]%written_inv.
    destruct Hkh3 as [_ _ _ Hu]. rewrite Hu in Hnf. by discriminate (Hnf (Hfs3 (Hfs2 (Hfs Hn))) Hw). }
  intros h4 (_ & _ & Hk4 & Ho4 & Hfs4 & _) [(ids & Hids & Hx4) _]; [done|].
  assert (written h file = Some (mkFile (new_content file (f_Content (opened h file))) perm ids.1 ids.2)) as Hw.
  { destruct Hkh3 as [_ _ _ Hu]. rewrite Hu in Hids. by eapply written_stages. }
  apply wp_call. intros h5 err Heq. unfold Close in Heq. destruct (next_fault_set h4) as [fs Hs].
  destruct (next_fault h4) as [h4' ft] eqn:Hnf. simpl in Hs. subst h4'. injection Heq as <- <-.
  split_and!; try done. eexists. split; [done|]. split_and!; cbn; [|lia|lia| |].
  - etrans; [exact Hkh3|]. etrans; [exact Hk4|]. etrans; [apply (keeps_set_Faults p fs)|apply keeps_set_Open].
  - intros _. eexists. split; [exact Hw|]. split; [|lia]. refine (eq_trans Hx4 _).
    cbn. unfold new_content. by destruct (Append file).
  - intros Hn. rewrite no_fault in Hnf by auto. injection Hnf as _ <-. split; [|done]. intros _. split; [done|]. by rewrite Hw.
Qed.

Lemma WriteToFile_spec {L} file h (l : L) :
  wp (WriteToFile file) h l (λ h' l' t o, l' = l ∧ t = [] ∧ ∃ err, o = Val err ∧ write_post h file h' err).
Proof.
  unfold WriteToFile. set (p := Clean (Path file)).
  apply wp_bind, (wp_sys_read p _ _ _
    (λ f, Some (if IsAlreadyExists (fault_Err f) then mkError EOther (err_msg (fault_Err f)) else fault_Err f))
    (λ h, if bool_decide (p ∈ fs_Dirs h) || bool_decide (is_Some (fs_Files h !! p)) then None
          else Some (enoent (Path file))));
    [by unfold Stat; destruct (next_fault h) as [? []]| |done].
  intros h0 a Ha _ Hf0 (_ & _ & Hk0 & Ho0 & Hfs0 & _).
  apply wp_bind, (wp_mono _ _ _ (λ h' l' t o, h' = h0 ∧ l' = l ∧ t = [] ∧ o = Val filePermission)).
  { destruct Ha as [-> |[_ [f ->]]]; [by destruct (_ || _)|]. destruct (IsAlreadyExists (fault_Err f)) eqn:Hx.
    - done.
    - by rewrite Hx. }
  intros h1 l1 t1 o1 (-> & -> & -> & ->). apply wp_bind.
  assert (opened h file = default (mkFile "" (Z.ldiff filePermission (fs_Umask h0)) (fs_Uid h0) (fs_Gid h0)) (fs_Files h0 !! p)) as Hop.
  { unfold opened. destruct Hk0 as [_ _ (-> & -> & ->) _]. by rewrite Hf0. }
  assert (openable h0 p ↔ openable h p) as Hoe by (unfold openable; destruct Hk0 as [_ -> _ _]; by rewrite Hf0).
  apply wp_OpenFile; [by destruct (Append file)| |].
  { intros h' err Hk Hf Ho Hno. apply wp_ret. split_and!; try done. eexists. split; [done|].
    split_and!; [by etrans|lia|lia|done|]. intros Hnf. split; [done|]. intros [? _]. exfalso. apply Hno; [auto|by apply Hoe]. }
  intros h1 Hk1 Ho1 Hx1 Hfs1 Hopen. apply write_opened_spec; [by destruct (Append file)|by apply Hoe| |by etrans|congruence|auto].
  fold p. by rewrite Hop.
Qed.

(** ** Directories *)

Definition same_but_dirs (h h' : Host) : Prop :=
  fs_Files h' = fs_Files h ∧ fs_Dirs h ⊆ fs_Dirs h' ∧ fs_Umask h' = fs_Umask h ∧ fs_Uid h' = fs_Uid h ∧
  fs_Gid h' = fs_Gid h ∧ fs_Users h' = fs_Users h ∧ fs_Open h' = fs_Open h.

Lemma mkdir_each_spec ds h :
  same_but_dirs h (mkdir_each ds h).1 ∧ fs_Faults (mkdir_each ds h).1 = fs_Faults h ∧
  ((mkdir_each ds h).2 = None → ∀ d, d ∈ ds → d ∈ fs_Dirs (mkdir_each ds h).1) ∧
  ((mkdir_each ds h).2 = None ↔ Forall (λ d, fs_Files h !! d = None) ds).
Proof.
  revert h. induction ds as [|d ds IH]; intros h; cbn [mkdir_each].
  { split_and!; try done. intros _ d Hd. by apply elem_of_nil in Hd. }
  destruct (fs_Files h !! d) as [x|] eqn:Hx.
  { split_and!; try done. cbn. split; [done|]. intros Hf. apply Forall_cons in Hf. naive_solver. }
  destruct (IH (set_Dirs (union {[d]}) h)) as ((Hf & Hd & Hrest) & Hfs & Hin & Hiff).
  cbn [fs_Files fs_Dirs fs_Faults set_Dirs] in *. split_and!; [|done| |].
  - split; [done|]. split; [|exact Hrest]. etrans; [apply union_subseteq_r|exact Hd].
  - intros Ho d' [-> |?]%elem_of_cons; [|auto]. apply Hd, elem_of_union_l, elem_of_singleton. done.
  - rewrite Hiff, Forall_cons. tauto.
Qed.

(** [MkdirIfNotExists] leaves the files alone; nil means that the path is
    there, and without faults it is nil unless a file is in the way. *)
Definition mkdir_post (dir : string) (h h' : Host) (err : option GoError) : Prop :=
  same_but_dirs h h' ∧
  (err = None → Clean dir ∈ fs_Dirs h' ∨ is_Some (fs_Files h' !! Clean dir)) ∧
  (fs_Faults h = [] → fs_Faults h' = [] ∧
     (Forall (λ d, fs_Files h !! d = None) (ancestors (Clean dir)) → err = None ∧ Clean dir ∈ fs_Dirs h')).

Lemma same_but_dirs_faults h fs h' : same_but_dirs (set_Faults fs h) h' → same_but_dirs h h'.
Proof. done. Qed.

Lemma MkdirAll_spec dir h h' err : MkdirAll dir h = (h', err) → mkdir_post dir h h' err.
Proof.
  intros Heq. unfold MkdirAll in Heq. destruct (next_fault_set h) as [fs Hs].
  destruct (next_fault h) as [h0 [f|]] eqn:Hn; simpl in Hs; subst h0.
  - injection Heq as <- <-. apply fault_some in Hn. split_and!; [|done|done].
    by apply (same_but_dirs_faults h fs), mkdir_each_spec.
  - pose proof (faults_stay h fs Hn) as Hfs.
    destruct (mkdir_each_spec (ancestors (Clean dir)) (set_Faults fs h)) as (Hsame & Hf & Hin & Hiff).
    rewrite Heq in Hsame, Hf, Hin, Hiff. cbn [fst snd fs_Faults fs_Files set_Faults] in *.
    assert (Clean dir ∈ ancestors (Clean dir)) as Hself by (apply elem_of_app; right; by apply list_elem_of_singleton).
    split_and!; [done|auto|]. intros Hnf. split; [by rewrite Hf, Hfs|]. intros Hall. apply Hiff in Hall. auto.
Qed.

Lemma MkdirIfNotExists_spec {L} dir h (l : L) :
  wp (MkdirIfNotExists dir) h l (λ h' l' t o, l' = l ∧ t = [] ∧ ∃ err, o = Val err ∧ mkdir_post dir h h' err).
Proof.
  unfold MkdirIfNotExists. apply wp_bind, wp_call. intros h1 a Heq. unfold Stat in Heq.
  destruct (next_fault_set h) as [fs Hs]. destruct (next_fault h) as [h0 [f|]] eqn:Hn; simpl in Hs; subst h0.
  - injection Heq as <- <-. apply fault_some in Hn. cbn beta iota.
    destruct (IsNotFound (if IsAlreadyExists _ then _ else _)).
    + apply wp_call. intros h2 err (Hsame & Hno & _)%MkdirAll_spec. split_and!; try done. eexists. split; [done|]. by split_and!.
    + apply wp_ret. split_and!; try done. eexists. split; [done|]. by split_and!.
  - pose proof (faults_stay h fs Hn) as Hfs. cbn [fs_Files fs_Dirs set_Faults] in Heq. injection Heq as <- <-.
    destruct (bool_decide _ || _) eqn:Hb.
    + apply wp_ret. split_and!; try done. eexists. split; [done|].
      apply orb_true_iff in Hb. rewrite !bool_decide_eq_true in Hb. split_and!; try done.
      intros Hnf. split; [by cbn; apply Hfs|]. intros Hall. split; [done|]. destruct Hb as [?|[x Hx]]; [done|].
      unfold ancestors in Hall. rewrite Forall_app, Forall_singleton in Hall. destruct Hall as [_ Hall]. congruence.
    + apply wp_call. intros h2 err (Hsame & Hno & Hok)%MkdirAll_spec. split_and!; try done. eexists. split; [done|].
      split_and!; [done|done|]. intros Hnf. apply Hok. cbn. auto.
Qed.

(** ** The writer as the host of the executor *)
Section OnHost.
  Context (run : list string → Host → Host * option GoError) `{!Yaml, !Gzip, !TextTemplate}.

(** [CmdRunner.RunCmd] (cmd_runner.go): the command is given to a shell; [run]
    executes an argument vector. *)
Definition CmdRunner_RunCmd (cmd : string) : Host → Host * option GoError := run ["/bin/bash"; "-c"; cmd].

(** The two operations never panic, by their specifications. *)
Definition run_op (m : M Event Host unit (option GoError)) (h : Host) : Host * option GoError :=
  (r_env (m h tt), match r_out (m h tt) with Val err => err | Panic => None end).

#[local] Instance writer_host : HostSystem Host := {|
  sys_RunCmd := CmdRunner_RunCmd;
  sys_MkdirIfNotExists := λ d, run_op (MkdirIfNotExists d);
  sys_WriteToFile := λ f, run_op (WriteToFile f) |}.

Lemma run_mkdir dir h h' err : run_op (MkdirIfNotExists dir) h = (h', err) → mkdir_post dir h h' err.
Proof.
  unfold run_op. destruct (MkdirIfNotExists_spec dir h tt) as (_ & _ & e & He & Hp). rewrite He. by intros [= <- <-].
Qed.
Lemma run_write file h h' err : run_op (WriteToFile file) h = (h', err) → write_post h file h' err.
Proof.
  unfold run_op. destruct (WriteToFile_spec file h tt) as (_ & _ & e & He & Hp). rewrite He. by intros [= <- <-].
Qed.

(** The disk after the files of a script: each directive replaces the file at its path. *)
Fixpoint disk (h : Host) (fcs : list (Files * string)) : option (gmap string File) :=
  match fcs with
  | [] => Some (fs_Files h)
  | (f, c) :: fcs' =>
      match written h (set_Content c f) with
      | Some x => disk (set_Files (insert (Clean (Path f)) x) h) fcs'
      | None => None
      end
  end.

(** Hosts that agree on what a write reads. *)
Definition same_base (h h' : Host) : Prop :=
  fs_Files h' = fs_Files h ∧ fs_Umask h' = fs_Umask h ∧ fs_Uid h' = fs_Uid h ∧ fs_Gid h' = fs_Gid h ∧
  fs_Users h' = fs_Users h.

Lemma written_base h h' file : same_base h h' → written h' file = written h file.
Proof. intros (Hf & Hu & Hi & Hg & Hus). unfold written, opened. by rewrite Hf, Hu, Hi, Hg, Hus. Qed.
Lemma disk_base h h' fcs : same_base h h' → disk h' fcs = disk h fcs.
Proof.
  revert h h'. induction fcs as [|[f c] fcs IH]; intros h h' Hb; cbn [disk].
  - by destruct Hb as [-> _].
  - rewrite (written_base h h') by done. destruct (written h _) as [x|]; [|done]. apply IH.
    destruct Hb as (Hf & Hrest). split; [|exact Hrest]. cbn. by rewrite Hf.
Qed.

Lemma write_put h c f h' x : keeps (Clean (Path f)) h h' → written h (set_Content c f) = Some x →
  fs_Files h' !! Clean (Path f) = Some x → same_base (set_Files (insert (Clean (Path f)) x) h) h'.
Proof.
  intros [Hf _ (? & ? & ?) ?] Hw Hx.
  split; [|done]. cbn. rewrite <- (insert_delete_id (fs_Files h') _ x Hx), Hf. by rewrite insert_delete_eq.
Qed.

Lemma write_files_disk {L} data files h (l : L) :
  wp (write_files (Some data) files) h l (λ h' _ _ o, o = Val None →
    ∃ cs, Forall2 (λ f c, rendered data f = Some c) files cs ∧ disk h (zip files cs) = Some (fs_Files h')).
Proof.
  revert h. induction files as [|f files IH]; intros h; cbn [write_files].
  { apply wp_ret. intros _. by exists []. }
  apply wp_bind, wp_call. intros h1 [err|] Hm; [by apply wp_ret|]. apply run_mkdir in Hm as (Hsame & _).
  assert (∀ c, decodeContent (Content f) (parseEncodingScheme (file_Encoding f)) = (c, None) →
    ∀ c', ParseTemplate data c = (c', None) → rendered data f = Some c') as Hr.
  { unfold rendered. by intros c -> c' ->. }
  destruct (decodeContent _ _) as [c [err|]]; [by apply wp_ret|]. apply wp_bind, wp_ret.
  destruct (ParseTemplate data c) as [c' [err|]] eqn:Hpt; [by apply wp_ret|]. specialize (Hr c eq_refl c' Hpt).
  apply wp_bind, wp_call. intros h2 [err|] Hw; [by apply wp_ret|].
  apply run_write in Hw as (Hk & _ & Hok & _). destruct (Hok eq_refl) as (x & Hx & Hf & _).
  eapply wp_mono; [apply IH|]. cbn beta. intros h3 l3 t3 o3 Hrest Ho. destruct (Hrest Ho) as (cs & Hcs & Hd).
  exists (c' :: cs). split; [by constructor|]. cbn [zip zip_with disk].
  assert (same_base h h1) as Hb by (destruct Hsame as (?&_&?&?&?&?&_); done).
  rewrite <- (written_base h h1), Hx, <- Hd by done. rewrite (disk_base (set_Files (insert (Clean (Path f)) x) h1) h2).
  - symmetry. apply disk_base. destruct Hb as (Hf1 & Hrest1). split; [|exact Hrest1]. cbn. by rewrite Hf1.
  - by apply (write_put h1 c' f).
Qed.

Lemma disk_lookup_ne h fcs m p :
  disk h fcs = Some m → Forall (λ fc, Clean (Path fc.1) ≠ p) fcs → m !! p = fs_Files h !! p.
Proof.
  intros Hd Hne. revert h Hd. induction Hne as [|[f c] fcs Hfc _ IH]; intros h; cbn [disk]; [by intros [= <-]|].
  destruct (written h _) as [x|]; [|done]. intros Hd. rewrite (IH _ Hd). by apply lookup_insert_ne.
Qed.

(** What a directive with content [c] leaves at its path, over what was there
    before: appended, or written over the start of the old content, whose tail
    stays; the permission bits and the owner it asks for, or the old ones. *)
Definition content_over (old : option File) (f : Files) (c : string) : string :=
  match old with
  | None => c
  | Some y => if Append f then f_Content y +:+ c else c +:+ slice_from (String.length c) (f_Content y)
  end.
Definition left_over (h : Host) (m : gmap string File) (f : Files) (c : string) : Prop :=
  ∃ x, m !! Clean (Path f) = Some x ∧ f_Content x = content_over (fs_Files h !! Clean (Path f)) f c ∧
    (Permissions f ≠ "" → ∃ md, ParseUint (Permissions f) 8 32 = Ok md ∧ f_Perm x = Perm md) ∧
    (Permissions f = "" → ∀ y, fs_Files h !! Clean (Path f) = Some y → f_Perm x = f_Perm y) ∧
    owner_of (fs_Users h) f (f_Uid (opened h f), f_Gid (opened h f)) = Some (f_Uid x, f_Gid x).

Lemma written_over h c f x : written h (set_Content c f) = Some x →
  ∀ m, m !! Clean (Path f) = Some x → left_over h m f c.
Proof.
  unfold written. intros (perm & Hp & (ids & Ho & [= <-])%bind_Some)%bind_Some m Hm. eexists. split; [exact Hm|].
  revert Hp Ho. unfold opened, perm_of, new_content, content_over, owner_of, overlay.
  cbn [Append Path Permissions Content Owner set_Content f_Content f_Perm f_Uid f_Gid].
  intros Hp Ho. split_and!.
  - destruct (fs_Files h !! _) as [y|]; cbn [default]; [done|]. destruct (Append f); [done|]. cbn.
    replace (slice_from (String.length c) "") with "" by by destruct c. apply sapp_nil_r.
  - intros Hne. rewrite bool_decide_eq_false_2 in Hp by done. destruct (ParseUint _ _ _) as [md|]; [|done].
    exists md. by injection Hp as <-.
  - intros He y Hy. rewrite bool_decide_eq_true_2, Hy in Hp by done. by injection Hp as <-.
  - by rewrite <- surjective_pairing.
Qed.

(** Hosts that agree on the path of the directive. *)
Lemma left_over_base h h' m f c :
  fs_Files h' !! Clean (Path f) = fs_Files h !! Clean (Path f) → fs_Users h' = fs_Users h →
  fs_Umask h' = fs_Umask h → fs_Uid h' = fs_Uid h → fs_Gid h' = fs_Gid h →
  left_over h' m f c → left_over h m f c.
Proof. intros Hf Hus Hum Hui Hgi. unfold left_over, opened. by rewrite Hf, Hus, Hum, Hui, Hgi. Qed.

(** Every directive of a script with distinct paths. *)
Lemma disk_left_over h files cs m :
  length files = length cs → NoDup ((λ f, Clean (Path f)) <$> files) → disk h (zip files cs) = Some m →
  Forall2 (left_over h m) files cs.
Proof.
  revert h cs. induction files as [|f files IH]; intros h [|c cs]; try done. cbn [zip zip_with disk fmap list_fmap].
  rewrite NoDup_cons. intros [= Hlen] [Hnin Hnd].
  destruct (written h _) as [x|] eqn:Hw; [|done]. intros Hd. constructor.
  - eapply written_over; [exact Hw|]. rewrite (disk_lookup_ne _ _ _ _ Hd); [by apply lookup_insert_eq|].
    apply Forall_forall. intros [f' c'] Hin Heq. apply Hnin, list_elem_of_fmap. exists f'.
    split; [by rewrite <- Heq|]. by eapply elem_of_zip_l.
  - specialize (IH _ cs Hlen Hnd Hd). apply Forall2_same_length_lookup in IH as [Hl Hlk].
    apply Forall2_same_length_lookup. split; [done|]. intros i f' c' Hf' Hc'. specialize (Hlk i f' c' Hf' Hc').
    eapply left_over_base; [..|exact Hlk]; try done. cbn. apply lookup_insert_ne. intros Heq.
    apply Hnin, list_elem_of_fmap. exists f'. split; [done|]. by eapply list_elem_of_lookup_2.
Qed.
End OnHost.

(** ** Theorems *)

(** C33. [FileWriter.WriteToFile], whatever system call fails:
    it never panics; nothing on the host but the file at the path changes;
    nil means that the file has the content, permission bits and owner of the
    directive ([written]: appended, or written over the start of the old
    content, whose tail stays; the group is the one of the user, not the one
    of the directive) and that the descriptor was closed again, while an
    error may leave one open; without faults it returns nil exactly when the
    path can be opened and mode and owner of the directive are well formed. *)
Theorem file_written {L} (file : Files) (h : Host) (l : L) :
  wp (WriteToFile file) h l (λ h' _ _ o, ∃ err, o = Val err ∧ write_post h file h' err).
Proof. eapply wp_mono; [apply WriteToFile_spec|]. by intros h' l' t o (_ & _ & ?). Qed.

(** C34. The executor on this writer, under any faults: when the files of
    a bootstrap script have distinct paths, a nil return of the loop over
    [write_files] means that each of them is on the disk.  The content is that
    of the directive, decoded as its encoding says and with the template
    applied ([file_content]); where there was no file before it is exactly
    that, where there was one (as on a retry) it is appended to the old
    content or written over its start, so a longer old content keeps its tail
    ([content_over]).  Permission bits and owner are those the directive asks
    for, or the former ones, and every other file is as it was. *)
Theorem script_files_on_disk {L} (run : list string → Host → Host * option GoError) `{!Yaml, !Gzip, !TextTemplate}
    (data : TemplateData) (files : list Files) (h : Host) (l : L) :
  NoDup ((λ f, Clean (Path f)) <$> files) →
  wp (write_files (HostSystem0:=writer_host run) (Some data) files) h l (λ h' _ _ o, o = Val None →
    (∃ cs, Forall2 (file_content data) files cs ∧ Forall2 (left_over h (fs_Files h')) files cs) ∧
    ∀ p, p ∉ ((λ f, Clean (Path f)) <$> files) → fs_Files h' !! p = fs_Files h !! p).
Proof.
  intros Hnd. eapply wp_mono; [apply write_files_disk|]. cbn beta. intros h' l' t o Hd Ho.
  destruct (Hd Ho) as (cs & Hcs & Hdisk). apply Forall2_length in Hcs as Hlen. split.
  - exists cs. split; [|by apply disk_left_over].
    eapply Forall2_impl; [exact Hcs|]. apply rendered_content.
  - intros p Hp. eapply disk_lookup_ne; [exact Hdisk|]. apply Forall_forall. intros [f c] Hin Heq.
    apply Hp, list_elem_of_fmap. exists f. split; [by rewrite <- Heq|]. by eapply elem_of_zip_l.
Qed.

(** Writing a shorter content over a file keeps the tail of the old one. *)
Theorem shorter_write_keeps_tail (h : Host) (f : Files) (x : File) :
  fs_Files h !! Clean (Path f) = Some x → Append f = false → Permissions f = "" → Owner f = "" →
  written h f = Some (mkFile (Content f +:+ slice_from (String.length (Content f)) (f_Content x))
                        (f_Perm x) (f_Uid x) (f_Gid x)).
Proof.
  intros Hx Ha Hp Ho. unfold written, opened, perm_of, owner_of, new_content. rewrite Hx, Ha, Hp, Ho. done.
Qed.
