(* ===== verification/HostAgent.v ===== *)
(** * The host agent's reconciler (agent/reconciler/host_reconciler.go)

    The controller that runs on each host: it installs the Kubernetes
    components and bootstraps the node when a machine claims the host, and
    resets, uninstalls and releases the host when it is marked for cleanup.
    The pointer [byoHost] is the local store of the monad: handlers update it
    in place, and the deferred function of [Reconcile] patches what they left
    in it, whatever their outcome. *)

From S2P Require Import Prelude GoStrings Encoding Api SafeLabel Platform CloudInit.

(** ** Libraries of the host: package os, path/filepath, kube-vip *)

Class HostOS (E : Type) := {
  filepath_Glob : string → E → E * result (list string);
  os_RemoveAll : string → E → E * option GoError;
  os_Stat : string → E → E * option GoError;
  os_Remove : string → E → E * option GoError;
  VipNetwork : Type;
  vip_NewConfig : string → string → E → E * result VipNetwork;
  vip_DeleteIP : VipNetwork → E → E * option GoError }.

(** [os.IsNotExist(err)], false on nil *)
Definition os_IsNotExist (err : option GoError) : bool :=
  match err with Some e => bool_decide (err_kind e = ENotFound) | None => false end.

(** [HostReconciler]; the client, the command runner and the file writer are
    the class operations, the template parser is a pointer to its data, and
    [LocalHostRegistrar] is the package variable of agent/registration, of
    which the default interface name is read. *)
Record HostReconciler := mkHostReconciler {
  TemplateParser : option TemplateData;
  SkipK8sInstallation : bool;
  DownloadPath : string;
  LocalHostRegistrar : option string }.

Definition bootstrapSentinelFile : string := "/run/cluster-api/bootstrap-success.complete".
Definition KubeadmResetCommand : string := "kubeadm reset --force".

(** ** common.RemoveGlob *)
Section RemoveGlob.
  Context {E L : Type} `{!HostOS E}.

Definition RemoveAll (path : string) : M Event E L (option GoError) :=
  call (os_RemoveAll path) (λ r, [EvRemoveAll path r]).

Fixpoint remove_all (contents : list string) : M Event E L (option GoError) :=
  match contents with
  | [] => ret None
  | item :: rest =>
      let! err := RemoveAll item in
      match err with
      | Some err => ret (Some err)
      | None => remove_all rest
      end
  end.

Definition RemoveGlob (path : string) : M Event E L (option GoError) :=
  let! contents := call (filepath_Glob path) (λ _, [EvGlob path]) in
  match contents with
  | Err err => ret (Some err)
  | Ok contents => remove_all contents
  end.
End RemoveGlob.

Section HostReconciler.
  Context {E : Type} `{!Kube E, !HostSystem E, !HostOS E, !Yaml, !Gzip, !TextTemplate, !ConditionsUtil}.
  Context (r : HostReconciler).

(** Handlers run on the fetched host. *)
Abbreviation HM := (M Event E ByoHost).

(** [conditions.MarkTrue(byoHost, t)] and [conditions.MarkFalse(byoHost, t, ...)] *)
Definition MarkTrue (t : string) : HM unit :=
  modify (λ h, host_SetConditions (conditions_MarkTrue (host_GetConditions h) t) h).
Definition MarkFalse (t reason : string) (sev : ConditionSeverity) : HM unit :=
  modify (λ h, host_SetConditions (conditions_MarkFalse (host_GetConditions h) t reason sev "") h).
Definition IsTrue (h : ByoHost) (t : string) : bool := conditions_IsTrue (host_GetConditions h) t.

(** [r.Recorder.Event(byoHost, ...)] *)
Definition RecordHost (etype reason message : string) : HM unit :=
  let! byoHost := get_local in Record_Event (OByoHost byoHost) etype reason message.

Definition resetNode : HM (option GoError) :=
  let! err := RunCmd KubeadmResetCommand in
  match err with
  | Some err =>
      RecordHost EventTypeWarning "ResetK8sNodeFailed" "k8s Node Reset failed" ;;;
      ret (Some (errors_Wrap err "failed to exec kubeadm reset"))
  | None =>
      RecordHost EventTypeNormal "ResetK8sNodeSucceeded" "k8s Node Reset completed" ;;;
      ret None
  end.

Definition parseScript (script : string) : result string :=
  match ParseTemplate (TDMap {["BundleDownloadPath" := DownloadPath r]}) script with
  | (_, Some _) => Err (errors_New "unable to apply install parsed template to the data object")
  | (data, None) => Ok data
  end.

Definition getBootstrapScript (dataSecretName namespace : string) : HM (result string) :=
  let! secret := Get KSecret (mkKey namespace dataSecretName) in
  match secret with
  | Err err => ret (Err err)
  | Ok secret => ret (Ok (default "" (sec_Data secret !! "value")))
  end.

Definition executeInstallerController : HM (option GoError) :=
  let! byoHost := get_local in
  match host_InstallationSecret byoHost with
  | None => ret (Some (errors_New ("InstallationSecret not found in ByoHost " +:+ host_Name byoHost)))
  | Some ref =>
      let! secret := Get KSecret (mkKey (ref_Namespace ref) (ref_Name ref)) in
      match secret with
      | Err err =>
          RecordHost EventTypeWarning "ReadInstallationSecretFailed"
            ("install script " +:+ ref_Name ref +:+ " not found") ;;;
          ret (Some err)
      | Ok secret =>
          match sec_Data secret !! "install" with
          | None => ret (Some (errors_New ("install script not found in secret " +:+
                                           meta_Name (sec_Meta secret))))
          | Some installScript =>
              match parseScript installScript with
              | Err err => ret (Some err)
              | Ok installScript =>
                  let! err := RunCmd installScript in
                  match err with
                  | Some err =>
                      RecordHost EventTypeWarning "InstallScriptExecutionFailed"
                        "install script execution failed" ;;;
                      MarkFalse K8sComponentsInstallationSucceeded
                        K8sComponentsInstallationFailedReason SeverityInfo ;;;
                      ret (Some err)
                  | None => ret None
                  end
              end
          end
      end
  end.

Definition k8s_dirs : list string := ["/run/kubeadm/*"; "/etc/cni/net.d/*"].

(** Every directory is cleaned, whatever happened to the ones before it. *)
Fixpoint clean_dirs (dirs : list string) : HM (list GoError) :=
  match dirs with
  | [] => ret []
  | dir :: rest =>
      let! err := RemoveGlob dir in
      let! errList := clean_dirs rest in
      ret (match err with Some err => err :: errList | None => errList end)
  end.

Definition join_errors (err e : GoError) : GoError :=
  mkError (err_kind err) (err_msg err +:+ "; " +:+ err_msg e +:+ " error").

Definition cleank8sdirectories : HM (option GoError) :=
  let! errList := clean_dirs k8s_dirs in
  match errList with
  | [] => ret None
  | err :: es =>
      ret (Some (errors_Wrap (foldl join_errors err es) "not all k8s directories are cleaned up"))
  end.

Definition bootstrapK8sNode (bootstrapScript : string) : HM (option GoError) :=
  Execute (TemplateParser r) bootstrapScript.

Definition removeSentinelFile : HM (option GoError) :=
  let! err := call (os_Stat bootstrapSentinelFile) (λ r, [EvStat bootstrapSentinelFile r]) in
  if negb (os_IsNotExist err) then
    let! err := call (os_Remove bootstrapSentinelFile) (λ r, [EvRemove bootstrapSentinelFile r]) in
    match err with
    | Some err =>
        ret (Some (errors_Wrap err ("failed to delete sentinel file " +:+ bootstrapSentinelFile)))
    | None => ret None
    end
  else ret None.

Definition deleteEndpointIP : HM (option GoError) :=
  let! byoHost := get_local in
  match host_Annotations byoHost !! EndPointIPAnnotation with
  | Some IP =>
      let! iface := deref (LocalHostRegistrar r) in
      let! network := call (vip_NewConfig IP iface) (λ _, []) in
      match network with
      | Ok network => call (vip_DeleteIP network) (λ r, [EvDeleteIP IP iface r])
      | Err _ => ret None
      end
  | None => ret None
  end.

Definition removeAnnotations : HM unit :=
  modify (host_set_MachineRef None) ;;;
  modify (host_set_BootstrapSecret None) ;;;
  modify (host_set_Labels (delete ClusterNameLabel)) ;;;
  modify (host_set_Labels (delete AttachedByoMachineLabel)) ;;;
  modify (host_set_Annotations (delete EndPointIPAnnotation)) ;;;
  modify (host_set_Annotations (delete HostCleanupAnnotation)) ;;;
  modify (host_set_Annotations (delete K8sVersionAnnotation)) ;;;
  modify (host_set_Annotations (delete BundleLookupBaseRegistryAnnotation)).

(** The uninstall script of [hostCleanUp], behind [UninstallationSecret]. *)
Definition run_uninstall : HM (option GoError) :=
  let! byoHost := get_local in
  match host_UninstallationSecret byoHost with
  | Some ref =>
      if negb (SkipK8sInstallation r) then
        let! secret := Get KSecret (mkKey (ref_Namespace ref) (ref_Name ref)) in
        match secret with
        | Err err =>
            RecordHost EventTypeWarning "ReadUninstallationSecretFailed"
              ("uninstallation secret " +:+ ref_Name ref +:+ " not found") ;;;
            ret (Some err)
        | Ok secret =>
            match sec_Data secret !! "uninstall" with
            | None => ret (Some (errors_New ("uninstall script not found in secret " +:+
                                             meta_Name (sec_Meta secret))))
            | Some uninstallScript =>
                match parseScript uninstallScript with
                | Err err => ret (Some err)
                | Ok uninstallScript =>
                    let! err := RunCmd uninstallScript in
                    match err with
                    | Some err =>
                        RecordHost EventTypeWarning "UninstallScriptExecutionFailed"
                          "uninstall script execution failed" ;;;
                        ret (Some err)
                    | None => ret None
                    end
                end
            end
        end
      else ret None
  | None => ret None
  end.

(** The reset of [hostCleanUp], behind the installation condition. *)
Definition run_reset : HM (option GoError) :=
  let! byoHost := get_local in
  match conditions_Get (host_GetConditions byoHost) K8sComponentsInstallationSucceeded with
  | Some c =>
      if bool_decide (cond_Status c = ConditionTrue) then
        let! err := resetNode in
        match err with
        | Some err => ret (Some err)
        | None =>
            MarkFalse K8sComponentsInstallationSucceeded K8sNodeAbsentReason SeverityInfo ;;;
            ret None
        end
      else ret None
  | None => ret None
  end.

Definition hostCleanUp : HM (option GoError) :=
  let! err := run_reset in
  match err with
  | Some err => ret (Some err)
  | None =>
      let! err := run_uninstall in
      match err with
      | Some err => ret (Some err)
      | None =>
          MarkFalse K8sNodeBootstrapSucceeded K8sNodeAbsentReason SeverityInfo ;;;
          let! err := removeSentinelFile in
          match err with
          | Some err => ret (Some err)
          | None =>
              let! err := deleteEndpointIP in
              match err with
              | Some err => ret (Some err)
              | None =>
                  modify (host_set_InstallationSecret None) ;;;
                  removeAnnotations ;;;
                  MarkFalse K8sNodeBootstrapSucceeded K8sNodeAbsentReason SeverityInfo ;;;
                  ret None
              end
          end
      end
  end.

(** The installation step of [reconcileNormal]; [inl] is an early return of
    the handler, [inr] lets it go on. *)
Definition install_step : HM (option GoError + unit) :=
  let! byoHost := get_local in
  if SkipK8sInstallation r then ret (inr tt)
  else if negb (IsTrue byoHost K8sComponentsInstallationSucceeded) then
    match host_InstallationSecret byoHost with
    | None =>
        MarkFalse K8sComponentsInstallationSucceeded K8sInstallationSecretUnavailableReason SeverityInfo ;;;
        ret (inl None)
    | Some _ =>
        let! err := executeInstallerController in
        match err with
        | Some err => ret (inl (Some err))
        | None =>
            RecordHost EventTypeNormal "InstallScriptExecutionSucceeded" "install script executed" ;;;
            MarkTrue K8sComponentsInstallationSucceeded ;;;
            ret (inr tt)
        end
    end
  else ret (inr tt).

(** What follows the installation: clean the directories and bootstrap. *)
Definition bootstrap_step (bootstrapScript : string) : HM (Result * option GoError) :=
  let! err := cleank8sdirectories in
  match err with
  | Some err =>
      RecordHost EventTypeWarning "CleanK8sDirectoriesFailed" "clean k8s directories failed" ;;;
      MarkFalse K8sNodeBootstrapSucceeded CleanK8sDirectoriesFailedReason SeverityError ;;;
      ret (Result0, Some err)
  | None =>
      let! err := bootstrapK8sNode bootstrapScript in
      match err with
      | Some err =>
          RecordHost EventTypeWarning "BootstrapK8sNodeFailed" "k8s Node Bootstrap failed" ;;;
          resetNode ;;;
          MarkFalse K8sNodeBootstrapSucceeded CloudInitExecutionFailedReason SeverityError ;;;
          ret (Result0, Some err)
      | None =>
          RecordHost EventTypeNormal "BootstrapK8sNodeSucceeded" "k8s Node Bootstraped" ;;;
          MarkTrue K8sNodeBootstrapSucceeded ;;;
          ret (Result0, None)
      end
  end.

Definition reconcileNormal : HM (Result * option GoError) :=
  let! byoHost := get_local in
  match host_MachineRef byoHost with
  | None =>
      MarkFalse K8sNodeBootstrapSucceeded WaitingForMachineRefReason SeverityInfo ;;;
      ret (Result0, None)
  | Some _ =>
      match host_BootstrapSecret byoHost with
      | None =>
          MarkFalse K8sNodeBootstrapSucceeded BootstrapDataSecretUnavailableReason SeverityInfo ;;;
          ret (Result0, None)
      | Some ref =>
          if negb (IsTrue byoHost K8sNodeBootstrapSucceeded) then
            let! bootstrapScript := getBootstrapScript (ref_Name ref) (ref_Namespace ref) in
            match bootstrapScript with
            | Err err =>
                RecordHost EventTypeWarning "ReadBootstrapSecretFailed"
                  ("bootstrap secret " +:+ ref_Name ref +:+ " not found") ;;;
                ret (Result0, Some err)
            | Ok bootstrapScript =>
                let! go := install_step in
                match go with
                | inl err => ret (Result0, err)
                | inr _ => bootstrap_step bootstrapScript
                end
            end
          else ret (Result0, None)
      end
  end.

Definition reconcileDelete : HM (Result * option GoError) := ret (Result0, None).

(** What [Reconcile] does between the fetch and the deferred patch. *)
Definition reconcile_body : HM (Result * option GoError) :=
  let! byoHost := get_local in
  match host_Annotations byoHost !! HostCleanupAnnotation with
  | Some _ =>
      let! err := hostCleanUp in
      match err with
      | Some err => ret (Result0, Some err)
      | None => ret (Result0, None)
      end
  | None =>
      match meta_DeletionTimestamp (host_Meta byoHost) with
      | Some _ => reconcileDelete
      | None => reconcileNormal
      end
  end.

(** The deferred function. *)
Definition reconcile_defer (helper : option ByoHost) (res : Result * option GoError) :
    HM (Result * option GoError) :=
  let! byoHost := get_local in
  let! err := Patch KByoHost helper byoHost in
  ret (match err, res.2 with
       | Some err, None => (res.1, Some err)
       | _, _ => res
       end).

Definition Reconcile (req : NamespacedName) : M Event E unit (Result * option GoError) :=
  let! byoHost := Get KByoHost req in
  match byoHost with
  | Err err => ret (Result0, Some err)
  | Ok byoHost =>
      let! ' (helper, _) := NewHelper KByoHost byoHost in
      scoped byoHost reconcile_body (Result0, None) (reconcile_defer helper)
  end.

(** ** The cleanup, specified *)

(** The installation condition is recorded as true. *)
Definition installed (h : ByoHost) : bool :=
  match conditions_Get (host_GetConditions h) K8sComponentsInstallationSucceeded with
  | Some c => bool_decide (cond_Status c = ConditionTrue)
  | None => false
  end.

Definition mark_false (t reason : string) (sev : ConditionSeverity) (h : ByoHost) : ByoHost :=
  host_SetConditions (conditions_MarkFalse (host_GetConditions h) t reason sev "") h.
Definition mark_true (t : string) (h : ByoHost) : ByoHost :=
  host_SetConditions (conditions_MarkTrue (host_GetConditions h) t) h.

(** The host once the reset is done, and at the end of a cleanup. *)
Definition after_reset (h : ByoHost) : ByoHost :=
  if installed h
  then mark_false K8sComponentsInstallationSucceeded K8sNodeAbsentReason SeverityInfo h else h.
Definition node_absent : ByoHost → ByoHost :=
  mark_false K8sNodeBootstrapSucceeded K8sNodeAbsentReason SeverityInfo.
Definition released_annotations (a : gmap string string) : gmap string string :=
  delete BundleLookupBaseRegistryAnnotation (delete K8sVersionAnnotation
    (delete HostCleanupAnnotation (delete EndPointIPAnnotation a))).
Definition released_labels (a : gmap string string) : gmap string string :=
  delete AttachedByoMachineLabel (delete ClusterNameLabel a).
Definition release (h : ByoHost) : ByoHost :=
  host_set_Annotations released_annotations (host_set_Labels released_labels
    (host_set_BootstrapSecret None (host_set_MachineRef None (host_set_InstallationSecret None h)))).

(** The reset among the commands of a run; and: no uninstall script the run
    read renders to that very command. *)
Definition is_reset (c : string) : bool := bool_decide (c = KubeadmResetCommand).
Definition uninstall_no_reset (t : list Event) : Prop :=
  ∀ key secret script, EvGet KSecret key (Ok (OSecret secret)) ∈ t →
    sec_Data secret !! "uninstall" = Some script → parseScript script ≠ Ok KubeadmResetCommand.

Lemma uninstall_no_reset_mono t t' : uninstall_no_reset t' → t ⊆ t' → uninstall_no_reset t.
Proof. intros Ht Hsub key secret script Hin. apply (Ht key). by apply Hsub. Qed.

Lemma resetNode_spec e h :
  wp resetNode e h (λ _ h' t o,
    h' = h ∧ cmds t = [KubeadmResetCommand] ∧ patches t = [] ∧
    ((o = Val None ∧ succeeded is_reset t = 1) ∨
     (∃ err, o = Val (Some err) ∧ succeeded is_reset t = 0))).
Proof.
  unfold resetNode, RunCmd, RecordHost, Record_Event. wp_run; naive_solver.
Qed.

Lemma run_reset_spec e h :
  wp run_reset e h (λ _ h' t o,
    cmds t = (if installed h then [KubeadmResetCommand] else []) ∧ patches t = [] ∧
    match o with
    | Val None => h' = after_reset h ∧ succeeded is_reset t = (if installed h then 1 else 0)
    | Val (Some _) => h' = h ∧ installed h = true ∧ succeeded is_reset t = 0
    | Panic => False
    end).
Proof.
  unfold run_reset, after_reset, installed. apply wp_bind, wp_get_local.
  destruct (conditions_Get _ _) as [c|]; [|by apply wp_ret].
  case_bool_decide; [|by apply wp_ret]. apply wp_bind.
  eapply wp_mono; [apply resetNode_spec|]. cbn beta.
  intros e' h' t o (-> & Hc & Hp & [[-> Hr]|(err & -> & Hr)]); cbn iota.
  - unfold MarkFalse. wp_run. autorewrite with go. rewrite !succeeded_app, Hc, Hp, Hr. done.
  - wp_run. autorewrite with go. rewrite !succeeded_app, Hc, Hp, Hr. done.
Qed.

(** What the uninstall step of a successful cleanup ran: nothing, or the
    script under "uninstall" in the secret the host names, rendered. *)
Definition uninstall_cmds (h : ByoHost) (t : list Event) (cs : list string) : Prop :=
  cs = [] ∧ (SkipK8sInstallation r = true ∨ host_UninstallationSecret h = None) ∨
  ∃ ref secret script script',
    SkipK8sInstallation r = false ∧ host_UninstallationSecret h = Some ref ∧
    fetched KSecret (ref_key ref) secret t ∧ sec_Data secret !! "uninstall" = Some script ∧
    parseScript script = Ok script' ∧ EvRunCmd script' None ∈ t ∧ cs = [script'].

Lemma uninstall_cmds_mono h h' t t' cs :
  host_UninstallationSecret h' = host_UninstallationSecret h → t ⊆ t' →
  uninstall_cmds h t cs → uninstall_cmds h' t' cs.
Proof.
  intros Hh Hsub. unfold uninstall_cmds. rewrite Hh.
  intros [?|(ref & secret & script & script' & Hs & Href & Hf & Hsec & Hps & Hin & Hcs)]; [by left|].
  right. exists ref, secret, script, script'. split_and!; eauto using fetched_mono.
Qed.

Lemma run_uninstall_spec e h :
  wp run_uninstall e h (λ _ h' t o,
    h' = h ∧ patches t = [] ∧ (uninstall_no_reset t → succeeded is_reset t = 0) ∧
    match o with
    | Val None => uninstall_cmds h t (cmds t)
    | Val (Some _) => length (cmds t) ≤ 1 ∧ is_Some (host_UninstallationSecret h)
    | Panic => False
    end).
Proof.
  assert (∀ key secret script script' t, EvGet KSecret key (Ok (OSecret secret)) ∈ t →
    sec_Data secret !! "uninstall" = Some script → parseScript script = Ok script' → cmds t = [script'] →
    uninstall_no_reset t → succeeded is_reset t = 0) as Hsucc.
  { intros key secret script script' t Hin Hsec Hps Hc Hno. apply succeeded_none. rewrite Hc.
    repeat constructor. apply bool_decide_eq_false. intros ->. by apply (Hno key secret script). }
  unfold run_uninstall, Get. apply wp_bind, wp_get_local.
  destruct (host_UninstallationSecret h) as [ref|] eqn:Href; [|apply wp_ret; split_and!; unfold uninstall_cmds; eauto].
  destruct (SkipK8sInstallation r) eqn:Hskip; [apply wp_ret; split_and!; unfold uninstall_cmds; eauto|].
  apply wp_bind, wp_call. intros e1 [secret|err] Hget.
  2:{ unfold RecordHost, Record_Event. wp_run. split_and!; simpl; eauto with lia. }
  destruct (sec_Data secret !! "uninstall") as [script|] eqn:Hsec;
    [|apply wp_ret; split_and!; simpl; eauto with lia].
  destruct (parseScript script) as [script'|] eqn:Hps; [|apply wp_ret; split_and!; simpl; eauto with lia].
  unfold RunCmd, RecordHost, Record_Event. wp_run; (split; [done|]; split; [done|]; split).
  - apply (Hsucc (ref_key ref) secret script script'); [set_solver|done..].
  - simpl. eauto with lia.
  - apply (Hsucc (ref_key ref) secret script script'); [set_solver|done..].
  - right. exists ref, secret, script, script'. split_and!; try done; [|set_solver].
    eapply fetched_now; [done|]. set_solver.
Qed.

(** Steps that leave the host object alone, run no command and send no patch. *)
Definition quiet (t : list Event) : Prop :=
  cmds t = [] ∧ patches t = [].

Lemma quiet_succeeded own t : quiet t → succeeded own t = 0.
Proof. intros [Hc _]. apply succeeded_none. by rewrite Hc. Qed.

Lemma removeSentinelFile_spec e h :
  wp removeSentinelFile e h (λ _ h' t o, h' = h ∧ quiet t ∧ o ≠ Panic).
Proof. unfold removeSentinelFile. wp_run; done. Qed.

Lemma deleteEndpointIP_spec e h :
  wp deleteEndpointIP e h (λ _ h' t o,
    h' = h ∧ quiet t ∧
    (o = Panic → LocalHostRegistrar r = None ∧ is_Some (host_Annotations h !! EndPointIPAnnotation))).
Proof. unfold deleteEndpointIP. wp_run; split_and!; try done; eauto. Qed.

Lemma removeAnnotations_run e h :
  wp removeAnnotations e h (λ e' h' t o, o = Val tt ∧ t = [] ∧ e' = e ∧
    h' = host_set_Annotations released_annotations (host_set_Labels released_labels
           (host_set_BootstrapSecret None (host_set_MachineRef None h)))).
Proof. unfold removeAnnotations. wp_run. by destruct h. Qed.

Definition reset_count (h : ByoHost) : nat := if installed h then 1 else 0.

Definition cleanup_post (h h' : ByoHost) (t : list Event) (o : Outcome (option GoError)) : Prop :=
  patches t = [] ∧
  (o = Panic → LocalHostRegistrar r = None ∧ is_Some (host_Annotations h !! EndPointIPAnnotation)) ∧
  match o with
  | Val None =>
      h' = node_absent (release (node_absent (after_reset h))) ∧
      (uninstall_no_reset t → succeeded is_reset t = reset_count h) ∧
      ∃ cs, uninstall_cmds h t cs ∧
        cmds t = (if installed h then [KubeadmResetCommand] else []) ++ cs
  | _ =>
      (h' = h ∧ installed h = true ∧ succeeded is_reset t = 0) ∨
      ((h' = after_reset h ∨ h' = node_absent (after_reset h)) ∧
       (uninstall_no_reset t → succeeded is_reset t = reset_count h))
  end.

Lemma after_reset_fields h :
  host_UninstallationSecret (after_reset h) = host_UninstallationSecret h ∧
  host_Annotations (after_reset h) = host_Annotations h.
Proof. unfold after_reset. by destruct (installed h). Qed.

(** The resets of a cleanup are those of its first step. *)
Lemma cleanup_resets n t1 t2 t3 :
  succeeded is_reset t1 = n → (uninstall_no_reset t2 → succeeded is_reset t2 = 0) → cmds t3 = [] →
  uninstall_no_reset (t1 ++ t2 ++ t3) → succeeded is_reset (t1 ++ t2 ++ t3) = n.
Proof.
  intros Hr1 Hr2 Hc3 Hno. rewrite !succeeded_app, Hr1, Hr2, (succeeded_none _ t3); [lia|by rewrite Hc3|].
  eapply uninstall_no_reset_mono; [exact Hno|]. set_solver.
Qed.

Lemma hostCleanUp_spec e h :
  wp hostCleanUp e h (λ _ h' t o, cleanup_post h h' t o).
Proof.
  unfold hostCleanUp, cleanup_post, reset_count.
  apply wp_bind. eapply wp_mono; [apply run_reset_spec|]. cbn beta.
  intros e1 h1 t1 [[err|]|] (Hc1 & Hp1 & Ho); [| |done].
  { destruct Ho as (-> & Hi & Hr1). apply wp_ret. rewrite app_nil_r. split_and!; try done. by left. }
  destruct Ho as [-> Hr1]. destruct (after_reset_fields h) as [Hun Han].
  apply wp_bind. eapply wp_mono; [apply run_uninstall_spec|]. cbn beta.
  intros e2 h2 t2 [[err|]|] (-> & Hp2 & Hr2 & Ho2); [| |done].
  { apply wp_ret. trace_simpl. split_and!; try done. right. split; [by left|]. by apply cleanup_resets. }
  apply wp_bind. unfold MarkFalse at 1. apply wp_modify. fold (node_absent (after_reset h)).
  apply wp_bind. eapply wp_mono; [apply removeSentinelFile_spec|]. cbn beta.
  intros e3 h3 t3 [[err|]|] (-> & [Hc3 Hp3] & Hnp); [| |done].
  { apply wp_ret. simpl. rewrite app_nil_r. trace_simpl. split_and!; try done. right.
    split; [by right|]. by apply cleanup_resets. }
  apply wp_bind. eapply wp_mono; [apply deleteEndpointIP_spec|]. cbn beta.
  intros e4 h4 t4 o4 (-> & [Hc4 Hp4] & Hpan).
  assert (o4 = Panic → LocalHostRegistrar r = None ∧
    is_Some (host_Annotations h !! EndPointIPAnnotation)) as Hpan'.
  { rewrite <- Han. apply Hpan. }
  assert (cmds (t3 ++ t4) = []) as Hc34 by by trace_simpl.
  destruct o4 as [[err|]|].
  { apply wp_ret. simpl. rewrite app_nil_r. trace_simpl. split_and!; try done. right.
    split; [by right|]. by apply cleanup_resets. }
  2:{ simpl. trace_simpl. split_and!; try done. right. split; [by right|]. by apply cleanup_resets. }
  apply wp_bind, wp_modify, wp_bind. eapply wp_mono; [apply removeAnnotations_run|]. cbn beta.
  intros e5 h5 t5 o (-> & -> & -> & ->). unfold MarkFalse. wp_run. simpl. rewrite !app_nil_r. trace_simpl.
  split_and!; try done; [by apply cleanup_resets|].
  exists (cmds t2). split; [|by rewrite ?app_nil_r].
  eapply uninstall_cmds_mono; [by symmetry| |exact Ho2]. set_solver.
Qed.

(** ** The normal reconciliation, specified *)

(** Only the conditions of the host may differ. *)
Definition cond_only (h h' : ByoHost) : Prop := h' = host_SetConditions (host_GetConditions h') h.

Lemma cond_only_refl h : cond_only h h.
Proof. by destruct h as [? ? ? []]. Qed.
Lemma cond_only_trans h1 h2 h3 : cond_only h1 h2 → cond_only h2 h3 → cond_only h1 h3.
Proof. unfold cond_only. destruct h1, h2, h3; cbn. intros [= -> -> -> ->] [= -> -> -> ->]. done. Qed.
Lemma cond_only_mark_true t h : cond_only h (mark_true t h).
Proof. done. Qed.
Lemma cond_only_mark_false t rs sev h : cond_only h (mark_false t rs sev h).
Proof. done. Qed.

Definition InstallDone : string := "InstallScriptExecutionSucceeded".

(** Steps that neither patch nor report a finished installation. *)
Definition no_install (t : list Event) : Prop := patches t = [] ∧ recorded InstallDone t = 0.

Lemma RemoveGlob_spec path e (h : ByoHost) :
  wp (RemoveGlob path) e h (λ _ h' t o, h' = h ∧ cmds t = [] ∧ no_install t ∧ ∃ err, o = Val err).
Proof.
  unfold RemoveGlob. apply wp_bind, wp_call. intros e1 [contents|err] _; [|apply wp_ret; split_and!; eauto; done].
  assert (∀ e, wp (remove_all contents) e h (λ _ h' t o, h' = h ∧ cmds t = [] ∧ no_install t ∧
    ∃ err, o = Val err)) as Hra.
  { induction contents as [|c cs IH]; intros e'; simpl; [apply wp_ret; split_and!; eauto; done|].
    unfold RemoveAll. apply wp_bind, wp_call. intros e2 [err|] _; [apply wp_ret; split_and!; eauto; done|].
    eapply wp_mono; [apply IH|]. done. }
  eapply wp_mono; [apply Hra|]. done.
Qed.

Lemma cleank8sdirectories_spec e h :
  wp cleank8sdirectories e h (λ _ h' t o, h' = h ∧ cmds t = [] ∧ no_install t ∧ ∃ err, o = Val err).
Proof.
  assert (∀ dirs e, wp (clean_dirs dirs) e h (λ _ h' t o, h' = h ∧ cmds t = [] ∧ no_install t ∧
    ∃ errs, o = Val errs)) as Hcd.
  { induction dirs as [|d ds IH]; intros e'; simpl; [apply wp_ret; split_and!; eauto; done|].
    apply wp_bind. eapply wp_mono; [apply RemoveGlob_spec|]. cbn beta.
    intros e1 h1 t1 o (-> & Hc1 & [Hp1 Hr1] & err & ->).
    apply wp_bind. eapply wp_mono; [apply IH|]. cbn beta.
    intros e2 h2 t2 o (-> & Hc2 & [Hp2 Hr2] & errs & ->). apply wp_ret.
    unfold no_install. trace_simpl. split_and!; eauto. }
  unfold cleank8sdirectories. apply wp_bind. eapply wp_mono; [apply Hcd|]. cbn beta.
  intros e1 h1 t1 o (-> & Hc1 & [Hp1 Hr1] & [|err errs] & ->); apply wp_ret;
    unfold no_install; trace_simpl; split_and!; eauto.
Qed.

(** The one command of a successful installation: the script under "install"
    in the secret the host names, rendered. *)
Definition install_run (h : ByoHost) (t : list Event) : Prop :=
  ∃ ref secret script script', host_InstallationSecret h = Some ref ∧
    fetched KSecret (ref_key ref) secret t ∧ sec_Data secret !! "install" = Some script ∧
    parseScript script = Ok script' ∧ cmds t = [script'] ∧ EvRunCmd script' None ∈ t.

Lemma install_run_mono h t t' : t ⊆ t' → cmds t' = cmds t → install_run h t → install_run h t'.
Proof.
  intros Hsub Hc (ref & secret & script & script' & Href & Hf & Hsec & Hps & Hcs & Hin).
  exists ref, secret, script, script'. rewrite Hc. split_and!; eauto using fetched_mono.
Qed.

Lemma executeInstallerController_spec e h :
  wp executeInstallerController e h (λ _ h' t o,
    no_install t ∧
    match o with
    | Val None => h' = h ∧ install_run h t
    | Val (Some _) => length (cmds t) ≤ 1 ∧ (∀ own, succeeded own t = 0) ∧
        (h' = h ∨ h' = mark_false K8sComponentsInstallationSucceeded
                         K8sComponentsInstallationFailedReason SeverityInfo h)
    | Panic => False
    end).
Proof.
  unfold executeInstallerController, RunCmd, RecordHost, Record_Event, Get, MarkFalse.
  wp_run; simpl; split_and!; eauto with lia; try done.
  eexists _, _, _, _. split_and!; eauto; [|set_solver]. eapply fetched_now; [done|]. set_solver.
Qed.

Definition install_post (h h' : ByoHost) (t : list Event) (o : Outcome (option GoError + unit)) : Prop :=
  patches t = [] ∧
  match o with
  | Val (inr _) =>
      ((SkipK8sInstallation r || IsTrue h K8sComponentsInstallationSucceeded) = true ∧ h' = h ∧ t = []) ∨
      ((SkipK8sInstallation r || IsTrue h K8sComponentsInstallationSucceeded) = false ∧
       h' = mark_true K8sComponentsInstallationSucceeded h ∧ recorded InstallDone t = 1 ∧ install_run h t)
  | Val (inl err) =>
      (SkipK8sInstallation r || IsTrue h K8sComponentsInstallationSucceeded) = false ∧
      recorded InstallDone t = 0 ∧ length (cmds t) ≤ 1 ∧ (∀ own, succeeded own t = 0) ∧
      match err with
      | None => host_InstallationSecret h = None ∧ t = [] ∧
          h' = mark_false K8sComponentsInstallationSucceeded K8sInstallationSecretUnavailableReason SeverityInfo h
      | Some _ => h' = h ∨ h' = mark_false K8sComponentsInstallationSucceeded
                                 K8sComponentsInstallationFailedReason SeverityInfo h
      end
  | Panic => False
  end.

Lemma install_step_spec e h : wp install_step e h (λ _ h' t o, install_post h h' t o).
Proof.
  unfold install_step, install_post. apply wp_bind, wp_get_local.
  destruct (SkipK8sInstallation r) eqn:Hs; cbn [orb].
  { apply wp_ret. by split; [|left]. }
  destruct (IsTrue h _) eqn:Ht; cbn [negb].
  { apply wp_ret. by split; [|left]. }
  destruct (host_InstallationSecret h) as [ref|] eqn:Href.
  2:{ unfold MarkFalse. wp_run. split_and!; done || (simpl; lia). }
  apply wp_bind. eapply wp_mono; [apply executeInstallerController_spec|]. cbn beta.
  intros e1 h1 t1 [[err|]|] ([Hp1 Hr1] & Ho); [| |done].
  { apply wp_ret. rewrite app_nil_r. destruct Ho as (? & ? & ?). trace_simpl. by split_and!. }
  destruct Ho as (-> & Hrun).
  unfold RecordHost, Record_Event, MarkTrue. wp_run. trace_simpl. split; [done|].
  right. split_and!; try done. eapply install_run_mono; [| |exact Hrun]; [set_solver|].
  autorewrite with go. by rewrite app_nil_r.
Qed.
Definition bootstrapped (h : ByoHost) : ByoHost := mark_true K8sNodeBootstrapSucceeded h.

(** The files of a parsed script rendered by the agent's template parser. *)
Definition rendered_all (files : list Files) (cs : list string) : Prop :=
  Forall2 (λ f c, ∃ data, TemplateParser r = Some data ∧ rendered data f = Some c) files cs.

Definition bootstrap_post (script : string) (h h' : ByoHost) (t : list Event)
    (o : Outcome (Result * option GoError)) : Prop :=
  no_install t ∧
  match o with
  | Val (_, None) =>
      h' = bootstrapped h ∧
      ∃ d cs t1 ev, yaml_Unmarshal script = Ok d ∧ rendered_all (FilesToWrite d) cs ∧
        cmds t1 = [] ∧ cmds [ev] = [] ∧
        t = t1 ++ run_effects (zip (FilesToWrite d) cs) (CommandsToExecute d) ++ [ev]
  | Val (_, Some _) =>
      (h' = mark_false K8sNodeBootstrapSucceeded CleanK8sDirectoriesFailedReason SeverityError h ∧
       cmds t = []) ∨
      (h' = mark_false K8sNodeBootstrapSucceeded CloudInitExecutionFailedReason SeverityError h ∧
       ∃ cs, cmds t = cs ++ [KubeadmResetCommand])
  | Panic => h' = h ∧ TemplateParser r = None
  end.

Lemma resetNode_no_install e h : wp resetNode e h (λ _ _ t _, no_install t).
Proof. unfold resetNode, RunCmd, RecordHost, Record_Event. wp_run; done. Qed.

Lemma bootstrap_step_spec script e h :
  wp (bootstrap_step script) e h (λ _ h' t o, bootstrap_post script h h' t o).
Proof.
  unfold bootstrap_step, bootstrap_post, bootstrapK8sNode, no_install.
  apply wp_bind. eapply wp_mono; [apply cleank8sdirectories_spec|]. cbn beta.
  intros e1 h1 t1 o (-> & Hc1 & [Hp1 Hr1] & err & ->). destruct err as [err|].
  { unfold RecordHost, Record_Event, MarkFalse. wp_run. trace_simpl.
    split_and!; [done..|]. by left. }
  apply wp_bind. eapply wp_mono; [apply (wp_and _ _ _ _ _ (Execute_spec _ _ _ _) (Execute_host _ _ _ _))|].
  cbn beta. intros e2 h2 t2 o ((-> & Ho) & Hhost).
  apply host_events_silent in Hhost as [Hp2 Hr2]. specialize (Hr2 InstallDone).
  destruct o as [[err|]|]; cbn iota.
  - unfold RecordHost at 1, Record_Event at 1. apply wp_bind, wp_bind, wp_get_local, wp_emit.
    apply wp_bind. eapply wp_mono; [apply (wp_and _ _ _ _ _ (resetNode_spec _ _) (resetNode_no_install _ _))|].
    cbn beta. intros e3 h3 t3 o3 ((-> & Hc3 & _ & Ho3) & [Hp3 Hr3]).
    assert (∃ v, o3 = Val v) as [v ->] by (destruct Ho3 as [[? ?]|(? & ? & ?)]; eauto).
    unfold MarkFalse. wp_run. trace_simpl. split_and!; [done..|].
    right. split; [done|]. exists (cmds t2). simpl. by rewrite ?app_nil_r.
  - destruct Ho as (d & cs & Hd & Hcs & ->).
    unfold RecordHost, Record_Event, MarkTrue. wp_run. trace_simpl.
    split_and!; [done..|]. exists d, cs, t1. eexists. split_and!; try done; done.
  - destruct Ho as (_ & Htp & _). trace_simpl. split_and!; auto.
Qed.

(** Whether a run has to install, and what it then runs first. *)
Definition needs_install (h : ByoHost) : bool :=
  negb (SkipK8sInstallation r || IsTrue h K8sComponentsInstallationSucceeded).
Definition install_cmds (h : ByoHost) (t : list Event) : Prop :=
  if needs_install h then install_run h t else cmds t = [].
Definition bootstrap_script (secret : Secret) : string := default "" (sec_Data secret !! "value").
Definition after_install (h : ByoHost) : ByoHost :=
  if needs_install h then mark_true K8sComponentsInstallationSucceeded h else h.

(** A run on a claimed host with bootstrap data that is not bootstrapped yet. *)
Definition claimed_post (h h' : ByoHost) (t : list Event)
    (o : Outcome (Result * option GoError)) : Prop :=
  cond_only h h' ∧ patches t = [] ∧
  recorded InstallDone t ≤ (if needs_install h then 1 else 0) ∧
  match o with
  | Val (_, None) =>
      (needs_install h = true ∧ host_InstallationSecret h = None ∧ cmds t = [] ∧
       recorded InstallDone t = 0 ∧
       h' = mark_false K8sComponentsInstallationSucceeded K8sInstallationSecretUnavailableReason SeverityInfo h) ∨
      (h' = bootstrapped (after_install h) ∧
       ∃ ref secret d cs t1 ev, host_BootstrapSecret h = Some ref ∧
         fetched KSecret (ref_key ref) secret t1 ∧
         yaml_Unmarshal (bootstrap_script secret) = Ok d ∧ rendered_all (FilesToWrite d) cs ∧
         install_cmds h t1 ∧ cmds [ev] = [] ∧
         t = t1 ++ run_effects (zip (FilesToWrite d) cs) (CommandsToExecute d) ++ [ev])
  | Val (_, Some _) =>
      (* the bootstrap secret or the installation failed *)
      (recorded InstallDone t = 0 ∧ length (cmds t) ≤ 1 ∧
       (h' = h ∨ needs_install h = true ∧ h' = mark_false K8sComponentsInstallationSucceeded
                         K8sComponentsInstallationFailedReason SeverityInfo h)) ∨
      (* the directories could not be cleaned *)
      (h' = mark_false K8sNodeBootstrapSucceeded CleanK8sDirectoriesFailedReason SeverityError (after_install h)
       ∧ install_cmds h t) ∨
      (* the bootstrap failed: the node is reset *)
      (h' = mark_false K8sNodeBootstrapSucceeded CloudInitExecutionFailedReason SeverityError (after_install h)
       ∧ ∃ cs, cmds t = cs ++ [KubeadmResetCommand])
  | Panic => h' = after_install h ∧ TemplateParser r = None
  end.
Definition normal_post (h h' : ByoHost) (t : list Event)
    (o : Outcome (Result * option GoError)) : Prop :=
  match host_MachineRef h, host_BootstrapSecret h with
  | None, _ =>
      t = [] ∧ o = Val (Result0, None) ∧
      h' = mark_false K8sNodeBootstrapSucceeded WaitingForMachineRefReason SeverityInfo h
  | Some _, None =>
      t = [] ∧ o = Val (Result0, None) ∧
      h' = mark_false K8sNodeBootstrapSucceeded BootstrapDataSecretUnavailableReason SeverityInfo h
  | Some _, Some _ =>
      if IsTrue h K8sNodeBootstrapSucceeded
      then t = [] ∧ o = Val (Result0, None) ∧ h' = h
      else claimed_post h h' t o
  end.

(** An installed step and what follows it, put together. *)
Lemma claimed_install_failed h h' t0 t err :
  cmds t0 = [] → no_install t0 → install_post h h' t (Val (inl err)) →
  claimed_post h h' (t0 ++ t) (Val (Result0, err)).
Proof.
  intros Hc0 [Hp0 Hr0] (Hp & Hn & Hr & Hl & _ & Hh).
  assert (needs_install h = true) as Hni by (unfold needs_install; by rewrite Hn).
  unfold claimed_post. rewrite Hni. trace_simpl. split_and!.
  - destruct err; [destruct Hh as [-> | ->]|destruct Hh as (_ & _ & ->)];
      eauto using cond_only_refl, cond_only_mark_false.
  - done.
  - lia.
  - destruct err; [left; by destruct Hh; eauto|]. left. destruct Hh as (? & -> & ?). trace_simpl. by split_and!.
Qed.

Lemma claimed_bootstrap h h1 h' ref secret t0 t1 t2 o u :
  host_BootstrapSecret h = Some ref → fetched KSecret (ref_key ref) secret t0 →
  cmds t0 = [] → no_install t0 → install_post h h1 t1 (Val (inr u)) →
  bootstrap_post (bootstrap_script secret) h1 h' t2 o → claimed_post h h' (t0 ++ t1 ++ t2) o.
Proof.
  intros Href Hf Hc0 [Hp0 Hr0] (Hp1 & Hi) ([Hp2 Hr2] & Ho).
  assert (install_cmds h t1 ∧ h1 = after_install h ∧ cond_only h h1 ∧
          recorded InstallDone t1 = if needs_install h then 1 else 0) as (Hic & -> & Hco & Hr1).
  { unfold install_cmds, after_install, needs_install.
    destruct Hi as [(-> & -> & ->)|(-> & -> & Hr1 & Hi)]; simpl; eauto using cond_only_refl, cond_only_mark_true. }
  unfold claimed_post. trace_simpl. split_and!.
  - eapply cond_only_trans; [exact Hco|]. destruct o as [[? [err|]]|];
      [destruct Ho as [[-> _]|[-> _]]|destruct Ho as [-> _]|destruct Ho as [-> _]];
      unfold bootstrapped; auto using cond_only_refl, cond_only_mark_false, cond_only_mark_true.
  - done.
  - lia.
  - assert (∀ t', cmds t' = [] → install_cmds h (t0 ++ t1 ++ t')) as Hic'.
    { intros t' Ht'. revert Hic. unfold install_cmds. trace_simpl. rewrite app_nil_r.
      destruct (needs_install h); [|by intros ->]. apply install_run_mono; [set_solver|].
      trace_simpl. by rewrite app_nil_r. }
    destruct o as [[? [err|]]|]; [|destruct Ho as (-> & d & cs & ti & ev & Hd & Hcs & Hci & Hce & ->)|by destruct Ho].
    + right. destruct Ho as [[-> Hc2]|(-> & cs & Hc2)]; [left; split; [done|by apply Hic']|].
      right. split; [done|]. exists (cmds t1 ++ cs). by rewrite Hc2, <- app_assoc.
    + right. split; [done|]. exists ref, secret, d, cs, (t0 ++ t1 ++ ti), ev.
      split_and!; [done| |done..|by apply Hic'|done|by rewrite <- !app_assoc].
      eapply fetched_mono; [exact Hf|]. set_solver.
Qed.

Lemma reconcileNormal_run e h :
  wp reconcileNormal e h (λ _ h' t o, normal_post h h' t o).
Proof.
  unfold reconcileNormal, normal_post. apply wp_bind, wp_get_local.
  destruct (host_MachineRef h) as [mref|]; [|unfold MarkFalse; by wp_run].
  destruct (host_BootstrapSecret h) as [ref|] eqn:Href; [|unfold MarkFalse; by wp_run].
  destruct (IsTrue h _) eqn:Ht; cbn [negb]; [by apply wp_ret|].
  unfold getBootstrapScript, Get. apply wp_bind, wp_bind, wp_call. intros e1 [sec|err] Hget.
  2:{ unfold RecordHost, Record_Event. wp_run. unfold claimed_post. simpl.
      split_and!; [apply cond_only_refl|done|apply Nat.le_0_l|]. left. split_and!; [done|simpl; lia|by left]. }
  apply wp_ret, wp_bind. eapply wp_mono; [apply install_step_spec|]. cbn beta.
  intros e2 h2 t2 [[err|u]|] Hi; [| |by destruct Hi].
  - apply wp_ret. rewrite (app_nil_r t2). by apply (claimed_install_failed h h2 [_] t2).
  - eapply wp_mono; [apply bootstrap_step_spec|]. cbn beta. intros e3 h3 t3 o Hb. simpl.
    eapply (claimed_bootstrap _ _ _ ref sec [_]); try done. eapply fetched_now; [done|]. set_solver.
Qed.
(** Handlers never patch: only the deferred function does. *)
Lemma reconcile_body_patches e h : wp reconcile_body e h (λ _ _ t _, patches t = []).
Proof.
  unfold reconcile_body. apply wp_bind, wp_get_local. case_match.
  { apply wp_bind. eapply wp_mono; [apply hostCleanUp_spec|]. cbn beta.
    intros e1 h1 t1 [[err|]|] (Hp & _); wp_run; trace_simpl; done. }
  case_match; [by apply wp_ret|]. eapply wp_mono; [apply reconcileNormal_run|]. cbn beta.
  intros e1 h1 t1 o. unfold normal_post. repeat case_match; try (by intros (-> & _)).
  intros (_ & Hp & _). simpl. done.
Qed.

(** ** Progress of the cleanup

    A world in which what a cleanup needs works: the reset when it is due, the
    removal of a sentinel file that was found, the removal of the endpoint
    address, and reading, rendering and running the uninstall script the host
    names.  Nothing is assumed of other commands, files and secrets. *)
Record cleanup_works (h : ByoHost) : Prop := {
  cw_reset : installed h = true → ∀ e, (sys_RunCmd KubeadmResetCommand e).2 = None;
  cw_remove : ∀ e e1 err, os_Stat bootstrapSentinelFile e = (e1, err) → os_IsNotExist err = false →
    (os_Remove bootstrapSentinelFile e1).2 = None;
  cw_vip : ∀ n e, (vip_DeleteIP n e).2 = None;
  cw_registrar : is_Some (host_Annotations h !! EndPointIPAnnotation) → is_Some (LocalHostRegistrar r);
  cw_secret : ∀ ref, SkipK8sInstallation r = false → host_UninstallationSecret h = Some ref →
    ∃ secret script script', (∀ e, (kube_Get KSecret (ref_key ref) e).2 = Ok secret) ∧
      sec_Data secret !! "uninstall" = Some script ∧ parseScript script = Ok script' ∧
      ∀ e, (sys_RunCmd script' e).2 = None }.

(** A call that answers [a] in this world. *)
Lemma wp_call_at {L A} (f : E → E * A) ev (a : A) e (l : L) (Q : E → L → list Event → Outcome A → Prop) :
  (f e).2 = a → (∀ e1, Q e1 l (ev a) (Val a)) → wp (call f ev) e l Q.
Proof. intros Ha HQ. apply wp_call. intros e1 a' Heq. rewrite Heq in Ha. cbn in Ha. by subst. Qed.

Lemma run_reset_works h e : cleanup_works h →
  wp run_reset e h (λ _ h' _ o, h' = after_reset h ∧ o = Val None).
Proof.
  intros W. pose proof (cw_reset _ W) as Hcmd. unfold run_reset, after_reset, installed in *.
  apply wp_bind, wp_get_local.
  destruct (conditions_Get _ _); [|by apply wp_ret]. case_bool_decide; [|by apply wp_ret].
  unfold resetNode, RunCmd. apply wp_bind, wp_bind, (wp_call_at _ _ None); [by apply Hcmd|].
  intros e1. unfold RecordHost, Record_Event, MarkFalse. by wp_run.
Qed.

Lemma run_uninstall_works h h0 e :
  cleanup_works h → host_UninstallationSecret h0 = host_UninstallationSecret h →
  wp run_uninstall e h0 (λ _ h' _ o, h' = h0 ∧ o = Val None).
Proof.
  intros W Hun. unfold run_uninstall. apply wp_bind, wp_get_local. rewrite Hun.
  destruct (host_UninstallationSecret h) as [ref|] eqn:Href; [|by apply wp_ret].
  destruct (SkipK8sInstallation r) eqn:Hskip; [by apply wp_ret|].
  destruct (cw_secret _ W _ Hskip Href) as (sec & script & script' & Hget & Hsec & Hps & Hrun).
  apply wp_bind, (wp_call_ans _ _ (Ok sec)); [apply Hget|]. intros e1. cbn iota.
  rewrite Hsec, Hps. apply wp_bind, (wp_call_ans _ _ None); [apply Hrun|]. intros e2. by wp_run.
Qed.

Lemma removeSentinelFile_works h h0 e : cleanup_works h →
  wp removeSentinelFile e h0 (λ _ h' _ o, h' = h0 ∧ o = Val None).
Proof.
  intros W. unfold removeSentinelFile. apply wp_bind, wp_call. intros e1 err Hstat.
  destruct (os_IsNotExist err) eqn:Hne; cbn [negb]; [by apply wp_ret|].
  apply wp_bind, (wp_call_at _ _ None); [by eapply (cw_remove _ W)|]. intros e2. by wp_run.
Qed.

Lemma deleteEndpointIP_works h h0 e : cleanup_works h → host_Annotations h0 = host_Annotations h →
  wp deleteEndpointIP e h0 (λ _ _ _ o, o = Val None).
Proof.
  intros W Han. unfold deleteEndpointIP. apply wp_bind, wp_get_local. rewrite Han.
  destruct (host_Annotations h !! EndPointIPAnnotation) as [ip|] eqn:Hann; [|by apply wp_ret].
  destruct (cw_registrar _ W) as [iface Hif]; [by rewrite Hann|]. rewrite Hif.
  apply wp_bind, wp_ret, wp_bind, wp_call. intros e1 [n|err] _; [|by apply wp_ret].
  apply (wp_call_ans _ _ None); [apply (cw_vip _ W)|done].
Qed.

Lemma hostCleanUp_works h e : cleanup_works h → wp hostCleanUp e h (λ _ _ _ o, o = Val None).
Proof.
  intros W. unfold hostCleanUp. destruct (after_reset_fields h) as [Hun Han].
  apply wp_bind. eapply wp_mono; [by apply run_reset_works|]. cbn beta. intros e1 h1 t1 o [-> ->].
  apply wp_bind. eapply wp_mono; [by apply (run_uninstall_works h)|]. cbn beta. intros e2 h2 t2 o [-> ->].
  unfold MarkFalse at 1. apply wp_bind, wp_modify, wp_bind. fold (node_absent (after_reset h)).
  eapply wp_mono; [by apply (removeSentinelFile_works h)|]. cbn beta. intros e3 h3 t3 o [-> ->].
  apply wp_bind. eapply wp_mono; [by apply (deleteEndpointIP_works h)|]. cbn beta. intros e4 h4 t4 o ->.
  unfold removeAnnotations, MarkFalse. by wp_run.
Qed.

(** ** Attempts

    Successive calls of [Reconcile] for one host, each in any world, as long as
    the host the server stores is in [P].  When the server accepted the patch
    of a call, the next one reads the patched host, up to changes of other
    writers that leave the installation condition alone.  When it did not (or
    there was no patch helper), the call counts as lost, and the next one may
    read any host. [attempts P req h t n]: from the stored host [h] the calls
    had the effects [t], and [n] of them were lost. *)
Inductive attempts (P : ByoHost → Prop) (req : NamespacedName) : ByoHost → list Event → nat → Prop :=
  | attempts_nil h : attempts P req h [] 0
  | attempts_unread h e err t n :
      (kube_Get KByoHost req e).2 = Err err →
      attempts P req h t n →
      attempts P req h (r_trace (Reconcile req e tt) ++ t) n
  | attempts_kept h h' h2 e t n :
      P h → (kube_Get KByoHost req e).2 = Ok h →
      EvPatch (OByoHost h) (OByoHost h') None ∈ r_trace (Reconcile req e tt) →
      IsTrue h2 K8sComponentsInstallationSucceeded = IsTrue h' K8sComponentsInstallationSucceeded →
      attempts P req h2 t n →
      attempts P req h (r_trace (Reconcile req e tt) ++ t) n
  | attempts_lost h h2 e t n :
      P h → (kube_Get KByoHost req e).2 = Ok h →
      (∀ h', EvPatch (OByoHost h) (OByoHost h') None ∉ r_trace (Reconcile req e tt)) →
      attempts P req h2 t n →
      attempts P req h (r_trace (Reconcile req e tt) ++ t) (S n).

(** A call on a stored host: the handlers run on it, and at most one patch follows. *)
Lemma Reconcile_run req e h (Q : ByoHost → list Event → Prop) :
  (kube_Get KByoHost req e).2 = Ok h →
  (∀ e1, wp reconcile_body e1 h (λ _ h' tb _, Q h' tb)) →
  wp (Reconcile req) e tt (λ _ _ t _, ∃ h' tb tp, Q h' tb ∧ patches tb = [] ∧
    t = EvGet KByoHost req (Ok (OByoHost h)) :: tb ++ tp ∧
    (tp = [] ∨ ∃ perr, tp = [EvPatch (OByoHost h) (OByoHost h') perr])).
Proof.
  intros Hget HQ. unfold Reconcile, Get. apply wp_bind, (wp_call_at _ _ (Ok h)); [done|]. intros e1.
  apply wp_bind, wp_NewHelper; [intros e2 herr|intros e2]; cbn iota; apply wp_scoped;
    (eapply wp_mono; [apply (wp_and _ _ _ _ _ (HQ e2) (reconcile_body_patches e2 h))|]); cbn beta;
    intros e3 h' tb ob [Hq Hp]; unfold reconcile_defer, Patch; apply wp_bind, wp_get_local, wp_bind.
  - apply wp_Patch_nil. exists h', tb, []. eauto 6.
  - apply wp_Patch. intros e4 err. apply wp_ret. exists h', tb. eexists. split_and!; eauto.
Qed.

Lemma patch_in_run req h h1 h' tb tp perr :
  patches tb = [] → (tp = [] ∨ ∃ perr, tp = [EvPatch (OByoHost h) (OByoHost h') perr]) →
  EvPatch (OByoHost h) (OByoHost h1) perr ∈ EvGet KByoHost req (Ok (OByoHost h)) :: tb ++ tp → h1 = h'.
Proof.
  intros Hp Htp Hin.
  assert ((OByoHost h, OByoHost h1, perr) ∈ patches (tb ++ tp)) as Hin'.
  { apply list_elem_of_omap. eexists (EvPatch _ _ _). split; [|done]. set_solver. }
  rewrite patches_app, Hp in Hin'. destruct Htp as [-> | [perr' ->]]; set_solver.
Qed.

Lemma succeeded_run own req h h' tb tp :
  (tp = [] ∨ ∃ perr, tp = [EvPatch (OByoHost h) (OByoHost h') perr]) →
  succeeded own (EvGet KByoHost req (Ok (OByoHost h)) :: tb ++ tp) = succeeded own tb.
Proof.
  intros Htp. change (succeeded own (tb ++ tp) = succeeded own tb). rewrite succeeded_app.
  destruct Htp as [-> | [? ->]]; cbn; lia.
Qed.

(** What a kept attempt adds and leaves bounds the whole sequence: each lost
    attempt allows one more. *)
Lemma attempts_bound P req own (safe : list Event → Prop) (bound : bool → nat) h t n :
  (∀ t t', t ⊆ t' → safe t' → safe t) → (∀ b, bound b ≤ 1) →
  (∀ h e, P h → wp reconcile_body e h (λ _ h' tb _, safe tb →
     succeeded own tb + bound (IsTrue h' K8sComponentsInstallationSucceeded) ≤
       bound (IsTrue h K8sComponentsInstallationSucceeded))) →
  attempts P req h t n → safe t →
  succeeded own t ≤ bound (IsTrue h K8sComponentsInstallationSucceeded) + n.
Proof.
  intros Hmono Hb Hbody Hat. induction Hat as [h|h e err t n Hget _ IH|h h' h2 e t n HP Hget Hin Hsame _ IH|h h2 e t n HP Hget _ _ IH];
    intros Hsafe; [apply Nat.le_0_l|..]; rewrite succeeded_app;
    assert (safe t) as Ht by (eapply Hmono; [|exact Hsafe]; set_solver); specialize (IH Ht).
  - assert (wp (Reconcile req) e tt (λ _ _ t _, succeeded own t = 0)) as Hw.
    { unfold Reconcile, Get. apply wp_bind, (wp_call_at _ _ (Err err)); [done|]. intros e1. by apply wp_ret. }
    unfold wp in Hw. lia.
  - pose proof (Reconcile_run req e h _ Hget (λ e1, Hbody h e1 HP)) as (h1 & tb & tp & Hq & Hp & Heq & Htp).
    rewrite Heq in *. pose proof (patch_in_run _ _ _ _ _ _ _ Hp Htp Hin) as ->.
    rewrite (succeeded_run _ _ _ _ _ _ Htp).
    assert (safe tb) as Htb by (eapply Hmono; [|exact Hsafe]; set_solver).
    specialize (Hq Htb). rewrite Hsame in IH. lia.
  - pose proof (Reconcile_run req e h _ Hget (λ e1, Hbody h e1 HP)) as (h1 & tb & tp & Hq & Hp & Heq & Htp).
    rewrite Heq in *. rewrite (succeeded_run _ _ _ _ _ _ Htp).
    assert (safe tb) as Htb by (eapply Hmono; [|exact Hsafe]; set_solver).
    specialize (Hq Htb). pose proof (Hb (IsTrue h2 K8sComponentsInstallationSucceeded)). lia.
Qed.

Section WithLaws.
  Context `{!ConditionsLaws _}.

Lemma installed_IsTrue h : installed h = IsTrue h K8sComponentsInstallationSucceeded.
Proof. unfold installed, IsTrue. by rewrite IsTrue_Get. Qed.

Lemma installed_node_absent h : installed (node_absent h) = installed h.
Proof. unfold installed, node_absent, mark_false. cbn. by rewrite Get_MarkFalse_ne. Qed.

Lemma installed_after_reset h : installed (after_reset h) = false.
Proof.
  unfold after_reset. destruct (installed h) eqn:Hi; [|done].
  unfold installed, mark_false. cbn. by rewrite Get_MarkFalse_eq.
Qed.

(** A cleanup resets when the components are recorded as installed, and
    then no longer records them. *)
Lemma hostCleanUp_resets e h :
  wp hostCleanUp e h (λ _ h' t _, uninstall_no_reset t →
    succeeded is_reset t + reset_count h' ≤ reset_count h).
Proof.
  eapply wp_mono; [apply hostCleanUp_spec|]. cbn beta. unfold reset_count.
  assert (∀ h', h' = after_reset h ∨ h' = node_absent (after_reset h) → installed h' = false) as Hni.
  { intros h' [-> | ->]; rewrite ?installed_node_absent; apply installed_after_reset. }
  intros e1 h1 t1 [[err|]|] (_ & _ & Ho) Hno.
  2:{ destruct Ho as (-> & Hr & _). rewrite Hr, installed_node_absent by done. unfold reset_count.
      change (installed (release (node_absent (after_reset h)))) with (installed (node_absent (after_reset h))).
      rewrite (Hni (node_absent (after_reset h))) by auto. lia. }
  all: destruct Ho as [(-> & -> & ->)|(Hh & Hr)]; [lia|];
    rewrite Hr, (Hni h1) by done; unfold reset_count; lia.
Qed.

(** What the conditions of a released host say. *)
Lemma released_conditions h :
  let cs := host_GetConditions (node_absent (release (node_absent (after_reset h)))) in
  conditions_Get cs K8sNodeBootstrapSucceeded =
    Some (mkCondition K8sNodeBootstrapSucceeded ConditionFalse SeverityInfo K8sNodeAbsentReason "") ∧
  conditions_Get cs K8sComponentsInstallationSucceeded =
    (if installed h
     then Some (mkCondition K8sComponentsInstallationSucceeded ConditionFalse SeverityInfo K8sNodeAbsentReason "")
     else conditions_Get (host_GetConditions h) K8sComponentsInstallationSucceeded) ∧
  (∀ ty, ty ≠ K8sNodeBootstrapSucceeded → ty ≠ K8sComponentsInstallationSucceeded →
     conditions_Get cs ty = conditions_Get (host_GetConditions h) ty).
Proof.
  unfold after_reset, mark_false. split_and!; cbn; [by rewrite Get_MarkFalse_eq|..].
  - rewrite !Get_MarkFalse_ne by done. destruct (installed h); cbn; by rewrite ?Get_MarkFalse_eq.
  - intros ty Hb Hi. rewrite !Get_MarkFalse_ne by done. destruct (installed h); cbn; [|done].
    by rewrite Get_MarkFalse_ne.
Qed.

Definition install_count (h : ByoHost) : nat := if needs_install h then 1 else 0.

Lemma install_count_mark_other t rs sev h :
  t ≠ K8sComponentsInstallationSucceeded → install_count (mark_false t rs sev h) = install_count h.
Proof.
  intros. unfold install_count, needs_install, IsTrue, mark_false. cbn. by rewrite IsTrue_MarkFalse_ne.
Qed.
Lemma install_count_bootstrapped h : install_count (bootstrapped h) = install_count h.
Proof.
  unfold install_count, needs_install, IsTrue, bootstrapped, mark_true. cbn. by rewrite IsTrue_MarkTrue_ne.
Qed.
Lemma install_count_after_install h : install_count (after_install h) = 0.
Proof.
  unfold install_count, after_install. destruct (needs_install h) eqn:Hn; [|by rewrite Hn].
  unfold needs_install, IsTrue, mark_true. cbn. by rewrite IsTrue_MarkTrue_eq, orb_true_r.
Qed.
Lemma install_count_le h : install_count h ≤ 1.
Proof. unfold install_count. destruct (needs_install h); lia. Qed.

(** The commands in [own] are not those of a bootstrap script the run read. *)
Definition bootstrap_free (own : string → bool) (t : list Event) : Prop :=
  ∀ key secret d, EvGet KSecret key (Ok (OSecret secret)) ∈ t →
    yaml_Unmarshal (bootstrap_script secret) = Ok d → Forall (λ c, own c = false) (CommandsToExecute d).

Lemma bootstrap_step_own own script e h :
  own KubeadmResetCommand = false →
  (∀ d, yaml_Unmarshal script = Ok d → Forall (λ c, own c = false) (CommandsToExecute d)) →
  wp (bootstrap_step script) e h (λ _ h' t _, succeeded own t = 0 ∧ install_count h' = install_count h).
Proof.
  intros Hreset Hown. apply wp_and.
  2:{ eapply wp_mono; [apply bootstrap_step_spec|]. cbn beta. intros e1 h1 t [[? [err|]]|] [_ Ho];
        [destruct Ho as [[-> _]|[-> _]]|destruct Ho as [-> _]|by destruct Ho as [-> _]];
        by rewrite ?install_count_mark_other, ?install_count_bootstrapped. }
  enough (wp (bootstrap_step script) e h (λ _ _ t _, Forall (λ c, own c = false) (cmds t))) as Hw.
  { eapply wp_mono; [exact Hw|]. cbn beta. intros. by apply succeeded_none. }
  unfold bootstrap_step. apply wp_bind. eapply wp_mono; [apply cleank8sdirectories_spec|]. cbn beta.
  intros e1 h1 t1 o (-> & Hc1 & _ & err & ->). destruct err as [err|].
  { unfold RecordHost, Record_Event, MarkFalse. wp_run. trace_simpl. constructor. }
  apply wp_bind. eapply wp_mono; [apply Execute_cmds|]. cbn beta. intros e2 h2 t2 o Hc2.
  assert (Forall (λ c, own c = false) (cmds t2)) as Ht2.
  { destruct Hc2 as [-> | (d & Hd & [k Hk])]; [constructor|]. specialize (Hown d Hd).
    rewrite Hk in Hown. by apply Forall_app in Hown as [? _]. }
  destruct o as [[err|]|]; [| |trace_simpl; done].
  - unfold RecordHost at 1, Record_Event at 1. apply wp_bind, wp_bind, wp_get_local, wp_emit.
    apply wp_bind. eapply wp_mono; [apply resetNode_spec|]. cbn beta. intros e3 h3 t3 o3 (-> & Hc3 & _ & Ho3).
    destruct o3; [|by destruct Ho3 as [[? _]|(? & ? & _)]]. unfold MarkFalse. wp_run. trace_simpl.
    cbn. apply Forall_app_2; [done|]. by repeat constructor.
  - unfold RecordHost, Record_Event, MarkTrue. wp_run. trace_simpl. cbn. by rewrite app_nil_r.
Qed.

Lemma install_step_own own e h :
  wp install_step e h (λ _ h' t o, succeeded own t + install_count h' ≤ install_count h).
Proof.
  eapply wp_mono; [apply install_step_spec|]. cbn beta. intros e1 h1 t [[err|u]|] [_ Ho]; [| |done].
  - destruct Ho as (Hn & _ & _ & -> & _). pose proof (install_count_le h1).
    unfold install_count at 2, needs_install. rewrite Hn. cbn. lia.
  - destruct Ho as [(_ & -> & ->)|(Hn & -> & _ & _ & _ & _ & script' & _ & _ & _ & _ & Hc & _)]; [done|].
    pose proof (install_count_after_install h) as Ha. unfold after_install in Ha.
    assert (needs_install h = true) as Hni by (unfold needs_install; by rewrite Hn). rewrite Hni in Ha. rewrite Ha.
    unfold install_count. rewrite Hni, Nat.add_0_r. pose proof (length_cmds_succeeded own t) as Hl. by rewrite Hc in Hl.
Qed.

(** A normal reconciliation installs when the components are not recorded as
    installed, and then records them. *)
Lemma reconcileNormal_own own e h :
  own KubeadmResetCommand = false →
  wp reconcileNormal e h (λ _ h' t _, bootstrap_free own t →
    succeeded own t + install_count h' ≤ install_count h).
Proof.
  intros Hreset. unfold reconcileNormal. apply wp_bind, wp_get_local.
  destruct (host_MachineRef h) as [mref|].
  2:{ unfold MarkFalse. wp_run. intros _. by apply Nat.eq_le_incl, (install_count_mark_other K8sNodeBootstrapSucceeded). }
  destruct (host_BootstrapSecret h) as [ref|].
  2:{ unfold MarkFalse. wp_run. intros _. by apply Nat.eq_le_incl, (install_count_mark_other K8sNodeBootstrapSucceeded). }
  destruct (IsTrue h _); cbn [negb]; [by apply wp_ret|].
  unfold getBootstrapScript, Get. apply wp_bind, wp_bind, wp_call. intros e1 [sec|err] _.
  2:{ unfold RecordHost, Record_Event. by wp_run. }
  apply wp_ret, wp_bind. eapply wp_mono; [apply (install_step_own own)|]. cbn beta.
  intros e2 h2 t2 [[err|u]|] Hi; [| |done].
  - apply wp_ret. intros _. rewrite (app_nil_r t2). exact Hi.
  - apply wp_intro. intros e3 h3 t3 o Hrun Hfree.
    assert (succeeded own t3 = 0 ∧ install_count h3 = install_count h2) as [H3 Hc3].
    { refine (wp_elim _ _ _ _ _ _ _ _ (bootstrap_step_own own _ e2 h2 Hreset _) Hrun). intros d Hd.
      apply (Hfree (ref_key ref) sec); [set_solver|done]. }
    change (succeeded own (t2 ++ t3) + install_count h3 ≤ install_count h).
    rewrite succeeded_app, H3, Hc3. lia.
Qed.

Lemma body_resets h e : is_Some (host_Annotations h !! HostCleanupAnnotation) →
  wp reconcile_body e h (λ _ h' t _, uninstall_no_reset t →
    succeeded is_reset t + reset_count h' ≤ reset_count h).
Proof.
  intros [a Ha]. unfold reconcile_body. apply wp_bind, wp_get_local. rewrite Ha.
  apply wp_bind. eapply wp_mono; [apply hostCleanUp_resets|]. cbn beta.
  intros e1 h1 t1 [[err|]|] Hr; wp_run; by rewrite ?app_nil_r.
Qed.

Lemma body_installs own h e : own KubeadmResetCommand = false →
  host_Annotations h !! HostCleanupAnnotation = None →
  wp reconcile_body e h (λ _ h' t _, bootstrap_free own t →
    succeeded own t + install_count h' ≤ install_count h).
Proof.
  intros Hreset Ha. unfold reconcile_body. apply wp_bind, wp_get_local. rewrite Ha.
  destruct (meta_DeletionTimestamp _); [by apply wp_ret|]. by apply reconcileNormal_own.
Qed.
End WithLaws.
End HostReconciler.

(** ** Theorems *)
Section Theorems.
  Context {E : Type} `{!Kube E, !HostSystem E, !HostOS E, !Yaml, !Gzip, !TextTemplate, !ConditionsUtil}.
  Context (r : HostReconciler).

(** C6. A cleanup that reports success has released the host.  The whole
    object is given: no machine reference, no bootstrap and installation
    secret, no attachment labels, none of the four annotations (the cleanup
    mark included), the bootstrap condition false, the installation condition
    false if it was true; every other field and every other condition, and the
    reference to the uninstall secret, are as before.  It ran the reset exactly
    when the components were recorded as installed, and then, unless the
    installation is skipped or the host names no uninstall secret, the script
    under "uninstall" of the secret the server returned for that reference,
    rendered, and that script succeeded. *)
Theorem hostCleanUp_releases `{!ConditionsLaws _} (e : E) (h : ByoHost) :
  wp (hostCleanUp r) e h (λ _ h' t o, o = Val None →
    h' = mkByoHost (host_Type h)
           (mkObjectMeta (host_Name h) (meta_Namespace (host_Meta h)) (meta_UID (host_Meta h))
              (delete AttachedByoMachineLabel (delete ClusterNameLabel (host_Labels h)))
              (delete BundleLookupBaseRegistryAnnotation (delete K8sVersionAnnotation
                 (delete HostCleanupAnnotation (delete EndPointIPAnnotation (host_Annotations h)))))
              (meta_Finalizers (host_Meta h)) (meta_OwnerReferences (host_Meta h))
              (meta_DeletionTimestamp (host_Meta h)))
           (mkByoHostSpec None None (host_UninstallationSecret h))
           (mkByoHostStatus None (host_GetConditions h') (HostDetails (host_Status h)) (Network (host_Status h))) ∧
    conditions_Get (host_GetConditions h') K8sNodeBootstrapSucceeded =
      Some (mkCondition K8sNodeBootstrapSucceeded ConditionFalse SeverityInfo K8sNodeAbsentReason "") ∧
    conditions_Get (host_GetConditions h') K8sComponentsInstallationSucceeded =
      (if IsTrue h K8sComponentsInstallationSucceeded
       then Some (mkCondition K8sComponentsInstallationSucceeded ConditionFalse SeverityInfo K8sNodeAbsentReason "")
       else conditions_Get (host_GetConditions h) K8sComponentsInstallationSucceeded) ∧
    (∀ ty, ty ≠ K8sNodeBootstrapSucceeded → ty ≠ K8sComponentsInstallationSucceeded →
       conditions_Get (host_GetConditions h') ty = conditions_Get (host_GetConditions h) ty) ∧
    ∃ cs, cmds t = (if IsTrue h K8sComponentsInstallationSucceeded then [KubeadmResetCommand] else []) ++ cs ∧
      (cs = [] ∧ (SkipK8sInstallation r = true ∨ host_UninstallationSecret h = None) ∨
       ∃ ref secret script script',
         SkipK8sInstallation r = false ∧ host_UninstallationSecret h = Some ref ∧
         fetched KSecret (ref_key ref) secret t ∧ sec_Data secret !! "uninstall" = Some script ∧
         parseScript r script = Ok script' ∧ EvRunCmd script' None ∈ t ∧ cs = [script'])).
Proof.
  eapply wp_mono; [apply hostCleanUp_spec|]. cbn beta. intros e' h' t o (_ & _ & Ho) ->.
  destruct Ho as (-> & _ & cs & Hun & Hc). destruct (released_conditions h) as (Hb & Hi & Hother).
  rewrite !installed_IsTrue in *.
  split; [unfold after_reset; by destruct (installed h)|]. split_and!; try done. by exists cs.
Qed.

(** C8. A cleanup that fails (or panics, which
    needs an endpoint annotation and no registrar) leaves the claim on the
    host as it was: only conditions may differ, so the cleanup annotation is
    still there, the next reconciliation takes the cleanup branch again, and
    the secrets it needs are still referenced. *)
Theorem hostCleanUp_retryable (e : E) (h : ByoHost) :
  wp (hostCleanUp r) e h (λ _ h' t o, o ≠ Val None →
    h' = host_SetConditions (host_GetConditions h') h ∧
    (o = Panic → LocalHostRegistrar r = None ∧ is_Some (host_Annotations h !! EndPointIPAnnotation))).
Proof.
  eapply wp_mono; [apply hostCleanUp_spec|]. cbn beta. intros e' h' t o (_ & Hp & Ho) Hne.
  split; [|done]. assert (h' = h ∨ h' = after_reset h ∨ h' = node_absent (after_reset h)) as Hh.
  { destruct o as [[err|]|]; [|done|]; destruct Ho as [(-> & _)|([-> | ->] & _)]; auto. }
  change (cond_only h h'). unfold after_reset in Hh.
  destruct (installed h), Hh as [-> | [-> | ->]]; done || apply cond_only_refl.
Qed.

(** C7. Over any number of calls of [Reconcile] for a
    host marked for cleanup, each reading the stored host again and ending
    with the deferred patch, "kubeadm reset" succeeds at most once, and never
    when the components were not recorded as installed, plus once for each
    call whose patch the server did not accept: after such a call the stored
    host still says installed, and the node is reset again.  The uninstall
    scripts the calls read are assumed not to be that very command. *)
Theorem cleanup_resets_once `{!ConditionsLaws _} (req : NamespacedName) (h : ByoHost)
    (t : list Event) (lost : nat) :
  attempts r (λ h, is_Some (host_Annotations h !! HostCleanupAnnotation)) req h t lost →
  uninstall_no_reset r t →
  succeeded (λ c, bool_decide (c = KubeadmResetCommand)) t ≤
    (if IsTrue h K8sComponentsInstallationSucceeded then 1 else 0) + lost.
Proof.
  intros Hat Hno. revert Hat Hno. apply (attempts_bound r _ req is_reset _ (λ b, if b then 1 else 0)).
  - intros t1 t2 Hsub Ht. by eapply uninstall_no_reset_mono.
  - intros []; lia.
  - intros h0 e0 Hh0. rewrite <- installed_IsTrue. eapply wp_mono; [by apply body_resets|]. cbn beta.
    intros e1 h1 t1 o Hr Hno. specialize (Hr Hno). unfold reset_count in Hr. by rewrite <- installed_IsTrue.
Qed.

(** C9. The cleanup succeeds, whatever the state of the host's conditions,
    in a world that gives it what it needs, see [cleanup_works]: the reset
    command works if it is due; a sentinel file that was found can be removed
    (an absent one need not be); the endpoint address can be removed; and the
    uninstall secret the host names can be read, its script renders and that
    script runs.  So no state of the object is stuck in cleanup. *)
Theorem hostCleanUp_completes (e : E) (h : ByoHost) :
  cleanup_works r h → r_out (hostCleanUp r e h) = Val None.
Proof. apply hostCleanUp_works. Qed.

(** C10. Every outcome of the normal
    reconciliation.  Without a machine reference, or without bootstrap data,
    it does nothing but record why it waits; on a bootstrapped host it does
    nothing.  Otherwise, as [claimed_post] says: only conditions change;
    success means that the node is marked bootstrapped after, in this order,
    the install script succeeded (when it was needed), and the files and the
    commands of the bootstrap script succeeded, or that nothing ran and the
    installation secret is awaited; a failed bootstrap is followed by a
    reset and recorded as [CloudInitExecutionFailed]. *)
Theorem reconcileNormal_outcomes (e : E) (h : ByoHost) :
  wp (reconcileNormal r) e h (λ _ h' t o, normal_post r h h' t o).
Proof. apply reconcileNormal_run. Qed.

(** C11. Over any number of calls of [Reconcile] for a
    host that is not marked for cleanup, each reading the stored host again
    and ending with the deferred patch, through failures of the bootstrap in
    between, the install script succeeds at most once, and never when the
    condition already holds or the installation is skipped, plus once for each
    call whose patch the server did not accept.  [own] says which commands are
    counted: any, except the reset and the commands of the bootstrap scripts
    the calls read. *)
Theorem reconcileNormal_installs_once `{!ConditionsLaws _} (req : NamespacedName) (own : string → bool)
    (h : ByoHost) (t : list Event) (lost : nat) :
  attempts r (λ h, host_Annotations h !! HostCleanupAnnotation = None) req h t lost →
  own KubeadmResetCommand = false → bootstrap_free own t →
  succeeded own t ≤
    (if SkipK8sInstallation r || IsTrue h K8sComponentsInstallationSucceeded then 0 else 1) + lost.
Proof.
  intros Hat Hreset Hfree. revert Hat Hfree.
  apply (attempts_bound r _ req own _ (λ b, if SkipK8sInstallation r || b then 0 else 1)).
  - intros t1 t2 Hsub Hf key secret d Hin. apply (Hf key). by apply Hsub.
  - intros b. destruct (_ || _); lia.
  - intros h0 e0 Hh0. eapply wp_mono; [by apply (body_installs r own)|]. cbn beta.
    intros e1 h1 t1 o Hr Hf. specialize (Hr Hf). unfold install_count, needs_install in Hr.
    by repeat destruct (_ || _).
Qed.

(** The deferred patch: whenever the host was
    fetched and the patch helper created, the last effect of [Reconcile] is
    one patch from the fetched object to the one the handlers left, also
    when they fail or panic, and nothing was patched before it; [Reconcile]
    reports success only when the handlers and that patch succeeded.  A
    failed fetch is reported with no other effect, and a helper that could
    not be created makes the deferred function panic. *)
Theorem Reconcile_persists (req : NamespacedName) (e : E) :
  wp (Reconcile r req) e tt (λ _ _ t o,
    (∃ err, t = [EvGet KByoHost req (Err err)] ∧ o = Val (Result0, Some err)) ∨
    ∃ h h' e1 tb ob, wp (reconcile_body r) e1 h (λ _ l t o, l = h' ∧ t = tb ∧ o = ob) ∧
      patches tb = [] ∧
      ((o = Panic ∧ t = EvGet KByoHost req (Ok (OByoHost h)) :: tb) ∨
       ∃ perr, t = EvGet KByoHost req (Ok (OByoHost h)) :: tb ++ [EvPatch (OByoHost h) (OByoHost h') perr] ∧
         o = match ob with
             | Val (res, None) => Val (res, perr)
             | Val (res, Some err) => Val (res, Some err)
             | Panic => Panic
             end)).
Proof.
  unfold Reconcile, Get, NewHelper. apply wp_bind, wp_call. intros e1 [h|err] _.
  2:{ apply wp_ret. left. by exists err. }
  apply wp_bind, wp_bind, wp_call. intros e2 herr _. apply wp_ret.
  assert (wp (reconcile_body r) e2 h (λ _ _ t _, patches t = [])) as Hpb.
  { apply reconcile_body_patches. }
  destruct herr as [herr|]; cbn iota; apply wp_scoped, wp_intro;
    intros e3 h' tb ob Hb; apply (wp_elim _ _ _ _ _ _ _ _ Hpb) in Hb as Hp;
    unfold reconcile_defer, Patch, Patch_with; wp_run; right;
    exists h, h', e2, tb, ob; (split; [unfold wp; by rewrite Hb|]); (split; [done|]).
  - left. destruct ob; by rewrite ?app_nil_r.
  - right. exists a. split; [by rewrite ?app_nil_r|]. by destruct ob as [[res [err|]]|], a.
Qed.
End Theorems.
