(* ===== verification/ByoMachine.v ===== *)
(** * The ByoMachine controller (controllers/infrastructure/byomachine_controller.go, byomachine_scope.go)

    The controller that reserves a host for a machine, hands it the bootstrap
    and installer secrets, sets the provider ID of the node, and marks the
    host for cleanup when the machine is deleted.  The local store of the
    monad is the machine scope: the objects the handler's pointers reach. *)

From S2P Require Import Prelude GoStrings Encoding Regex Api SafeLabel Platform.

(** ** Libraries *)

(** The workload cluster, the unstructured helpers of apimachinery and
    cluster-api/controllers/external, and the random suffix. *)
Class MachineLibs (E : Type) := {
  RemoteClient : Type;
  tracker_GetClient : NamespacedName → E → E * result RemoteClient;
  remote_GetNode : RemoteClient → NamespacedName → E → E * result Node;
  remote_NewHelper : RemoteClient → Node → E → E * option GoError;
  remote_PatchNode : RemoteClient → Node → Node → E → E * option GoError;
  util_RandomString : nat → E → E * string;
  (** [schema.FromAPIVersionAndKind], behind [ObjectReference.GroupVersionKind] *)
  schema_FromAPIVersionAndKind : string → string → GVK;
  (** [unstructured.NestedFieldNoCopy(obj, fields...)]: the value, if any, or an error. *)
  unstructured_NestedField : Json → list string → result (option Json);
  (** [DefaultUnstructuredConverter.FromUnstructured] into an object reference *)
  FromUnstructured_ref : list (string * Json) → result ObjectReference;
  external_IsReady : Unstructured → result bool;
  external_GenerateTemplate :
    Unstructured → ObjectReference → string → gmap string string → string → OwnerReference →
    result Unstructured;
  metav1_NewControllerRef : ObjectMeta → GVK → OwnerReference }.

Definition ref_GVK {E} `{!MachineLibs E} (r : ObjectReference) : GVK :=
  schema_FromAPIVersionAndKind (ref_APIVersion r) (ref_Kind r).

(** [util.RandomString(n)]: [n] lower-case letters and digits. *)
Class RandomLaws (E : Type) `{!MachineLibs E} : Prop := {
  RandomString_alnum : ∀ n e, all_chars is_alnum (util_RandomString n e).2 = true;
  RandomString_length : ∀ n e, String.length (util_RandomString n e).2 = n }.

(** ** Constants and the scope *)

Definition ProviderIDPrefix : string := "byoh://".
Definition ProviderIDSuffixLength : nat := 6.
Definition RequeueForbyohost : Z := 10 * Second.
Definition RequeueInstallerConfigTime : Z := 10 * Second.
Definition UpgradeInProgressAnnotation : string := "barista.platform9.io/upgrade-in-progress".

Record byoMachineScope := mkScope {
  sc_Cluster : CapiCluster;
  sc_Machine : CapiMachine;
  sc_ByoCluster : ByoCluster;
  sc_ByoMachine : ByoMachine;
  sc_ByoHost : option ByoHost }.

Definition sc_set_ByoHost (h : option ByoHost) (s : byoMachineScope) : byoMachineScope :=
  mkScope (sc_Cluster s) (sc_Machine s) (sc_ByoCluster s) (sc_ByoMachine s) h.
Definition sc_update_ByoMachine (f : ByoMachine → ByoMachine) (s : byoMachineScope) : byoMachineScope :=
  mkScope (sc_Cluster s) (sc_Machine s) (sc_ByoCluster s) (f (sc_ByoMachine s)) (sc_ByoHost s).

(** ** The provider ID of a host *)

(** The IDs the controller takes for the node of a host. *)
Definition provider_id_ok (name id : string) : Prop :=
  regexp_MatchString (ProviderIDPrefix +:+ name +:+ "/.+") id = Ok true.

Lemma dns_plain_char c : is_dns_char c = true → plain_char c = true.
Proof.
  assert (implb (is_dns_char c) (plain_char c) = true) as H.
  { revert c. apply all_ascii. vm_compute. reflexivity. }
  by intros Hc; rewrite Hc in H.
Qed.

Lemma dns_plain s : dns_name s = true → plain s = true.
Proof.
  unfold dns_name. induction s as [|c s IH]; [done|]. simpl. intros [Hc Hs]%andb_prop.
  by rewrite dns_plain_char, IH.
Qed.

Lemma plain_app s t : plain (s +:+ t) = plain s && plain t.
Proof. induction s as [|c s IH]; [done|]. simpl. by rewrite IH, andb_assoc. Qed.

Lemma provider_plain name : dns_name name = true →
  plain (ProviderIDPrefix +:+ name +:+ "/") = true.
Proof. intros H. by rewrite !plain_app, (dns_plain name H). Qed.

Lemma provider_id_ok_iff name id : dns_name name = true →
  provider_id_ok name id ↔
  ∃ pre w c post, id = pre +:+ w +:+ String c post ∧
    like (ProviderIDPrefix +:+ name +:+ "/") w ∧ is_char 10 c = false.
Proof.
  intros H. unfold provider_id_ok. rewrite <- (match_plain_plus _ _ (provider_plain _ H)).
  replace (ProviderIDPrefix +:+ name +:+ "/.+") with ((ProviderIDPrefix +:+ name +:+ "/") +:+ ".+"); [done|].
  by rewrite <- !string_app_assoc.
Qed.
(** The ID the controller generates is one it takes. *)
Lemma provider_id_generated name suffix : dns_name name = true → dns_name suffix = true →
  suffix ≠ "" → provider_id_ok name (ProviderIDPrefix +:+ name +:+ "/" +:+ suffix).
Proof.
  intros Hn Hs Hne. apply provider_id_ok_iff; [done|].
  destruct suffix as [|c post]; [done|].
  exists EmptyString, (ProviderIDPrefix +:+ name +:+ "/"), c, post. split_and!.
  - by rewrite <- !string_app_assoc.
  - apply like_refl. rewrite !contains_char_app, (dns_no_newline name Hn). reflexivity.
  - apply dns_no_newline in Hs. cbn [contains_char] in Hs. apply orb_false_iff in Hs as [Hc _].
    unfold is_char. apply Nat.eqb_neq. intros Heq. apply Ascii.eqb_neq in Hc. apply Hc.
    unfold chr. by rewrite <- Heq, Ascii.ascii_nat_embedding.
Qed.

Lemma alnum_dns s : all_chars is_alnum s = true → dns_name s = true.
Proof. apply all_chars_impl. unfold is_dns_char. by intros c ->. Qed.

Section Reconciler.
  Context {E : Type} `{!Kube E, !CapiUtil E, !MachineLibs E, !ConditionsUtil}.

(** Handlers run on the scope. *)
Abbreviation SM := (M Event E byoMachineScope).

(** [machineScope.ByoHost], dereferenced, and an assignment to its fields. *)
Definition the_host : SM ByoHost :=
  let! s := get_local in deref (sc_ByoHost s).
Definition update_host (f : ByoHost → ByoHost) : SM unit :=
  let! h := the_host in modify (sc_set_ByoHost (Some (f h))).

Definition update_machine (f : ByoMachine → ByoMachine) : SM unit :=
  modify (sc_update_ByoMachine f).
Definition mark_machine_false (t reason : string) (sev : ConditionSeverity) : SM unit :=
  update_machine (λ m, bm_SetConditions (conditions_MarkFalse (bm_GetConditions m) t reason sev "") m).
Definition mark_machine_true (t : string) : SM unit :=
  update_machine (λ m, bm_SetConditions (conditions_MarkTrue (bm_GetConditions m) t) m).

Definition RecordMachine (etype reason message : string) : SM unit :=
  let! s := get_local in Record_Event (OByoMachine (sc_ByoMachine s)) etype reason message.

(** ** FetchAttachedByoHost *)

Definition FetchAttachedByoHost {L} (byomachineName byomachineNamespace : string) :
    M Event E L (result (option ByoHost)) :=
  let! byohostLabels :=
    deref (match labels_NewRequirement AttachedByoMachineLabel Equals
                   [generateSafeLabelValue byomachineNamespace byomachineName] with
           | Ok req => Some req
           | Err _ => None
           end) in
  let selector := labels_SelectorAdd [] byohostLabels in
  let! hostsList := List_ KByoHost (mkListOptions selector "") in
  match hostsList with
  | Err err => ret (Err err)
  | Ok [] => ret (Ok None)
  | Ok (h :: _) => ret (Ok (Some h))
  end.

(** ** The provider ID of the node *)

Definition setNodeProviderID (remoteClient : RemoteClient) (host : ByoHost) : SM (string * option GoError) :=
  let key := mkKey (meta_Namespace (host_Meta host)) (host_Name host) in
  let! node := call (remote_GetNode remoteClient key) (λ r, [EvRemoteGetNode key r]) in
  match node with
  | Err err => ret ("", Some err)
  | Ok node =>
      if bool_decide (node_ProviderID node ≠ "") then
        match regexp_MatchString (ProviderIDPrefix +:+ host_Name host +:+ "/.+") (node_ProviderID node) with
        | Err err => ret ("", Some err)
        | Ok true => ret (node_ProviderID node, None)
        | Ok false => ret ("", Some (errors_New "invalid format for node.Spec.ProviderID"))
        end
      else
        let! err := call (remote_NewHelper remoteClient node) (λ _, []) in
        match err with
        | Some err => ret ("", Some err)
        | None =>
            let! suffix := call (util_RandomString ProviderIDSuffixLength) (λ _, []) in
            let node' := mkNode (node_Meta node)
                           (ProviderIDPrefix +:+ host_Name host +:+ "/" +:+ suffix) in
            let! err := call (remote_PatchNode remoteClient node node')
                          (λ r, [EvRemotePatchNode node node' r]) in
            ret (node_ProviderID node', err)
        end
  end.

Definition getRemoteClient (byoMachine : ByoMachine) : SM (result RemoteClient) :=
  let! cluster := call (util_GetClusterFromMetadata (bm_Meta byoMachine)) (λ _, []) in
  match cluster with
  | Err err => ret (Err err)
  | Ok cluster =>
      let! cluster := deref cluster in
      let! remoteClient :=
        call (tracker_GetClient (mkKey (meta_Namespace (clus_Meta cluster)) (meta_Name (clus_Meta cluster))))
          (λ _, []) in
      match remoteClient with
      | Err err => ret (Err err)
      | Ok remoteClient => ret (Ok remoteClient)
      end
  end.

Definition updateNodeProviderID : SM (Result * option GoError) :=
  let! s := get_local in
  let! remoteClient := getRemoteClient (sc_ByoMachine s) in
  match remoteClient with
  | Err err => ret (Result0, Some err)
  | Ok remoteClient =>
      let! host := the_host in
      let! ' (providerID, err) := setNodeProviderID remoteClient host in
      match err with
      | Some err =>
          RecordMachine EventTypeWarning "SetNodeProviderFailed"
            ("Node " +:+ host_Name host +:+ " does not exist") ;;;
          ret (Result0, Some err)
      | None =>
          update_machine (bm_set_ProviderID providerID) ;;;
          update_machine (bm_set_Ready true) ;;;
          mark_machine_true BYOHostReady ;;;
          RecordMachine EventTypeNormal "NodeProvisionedSucceeded"
            ("Provisioned Node " +:+ host_Name host) ;;;
          ret (Result0, None)
      end
  end.

(** ** Pausing and releasing the host *)

(** [patch.NewHelper(machineScope.ByoHost, ...)] on a nil host is an error of
    the helper; a nil host reaches no caller of these functions. *)
Definition setPausedConditionForByoHost (isPaused : bool) : SM (option GoError) :=
  let! h := the_host in
  let! ' (helper, err) := NewHelper KByoHost h in
  match err with
  | Some err => ret (Some err)
  | None =>
      (if isPaused then
         update_host (host_set_Annotations (λ a, annotations_AddAnnotations a {[PausedAnnotation := ""]}))
       else
         update_host (host_set_Annotations (delete PausedAnnotation))) ;;;
      let! h := the_host in
      Patch KByoHost helper h
  end.

Definition markHostForCleanup : SM (option GoError) :=
  let! h := the_host in
  let! ' (helper, _) := NewHelper KByoHost h in
  update_host (host_set_Annotations (insert HostCleanupAnnotation "")) ;;;
  let! s := get_local in
  (if bool_decide (meta_Annotations (bm_Meta (sc_ByoMachine s)) !! UpgradeInProgressAnnotation = Some "true")
   then ret tt
   else
     update_host (host_set_Labels (delete ClusterLabel)) ;;;
     update_host (host_set_Labels (delete ClusterLabelCP))) ;;;
  let! h := the_host in
  Patch KByoHost helper h.

(** ** The installer configuration *)

Definition installer_GVK (ref : ObjectReference) : GVK :=
  let gvk := ref_GVK ref in
  mkGVK (gvk_Group gvk) (gvk_Version gvk) (ReplaceAll (gvk_Kind gvk) "Template" "").

Definition getInstallerConfig (byoMachine : ByoMachine) : SM (result Unstructured) :=
  let! ref := deref (bm_InstallerRef (bm_Spec byoMachine)) in
  (Get (KUnstructured (installer_GVK ref)) (mkKey (bm_Namespace byoMachine) (bm_Name byoMachine))
     : SM (result Unstructured)).

Definition getInstallerConfigAndStatus : SM (result (Unstructured * bool)) :=
  let! s := get_local in
  let! installerConfig := getInstallerConfig (sc_ByoMachine s) in
  match installerConfig with
  | Err err => ret (Err err)
  | Ok installerConfig =>
      match external_IsReady installerConfig with
      | Err err => ret (Err err)
      | Ok ready => ret (Ok (installerConfig, ready))
      end
  end.

(** [inl] carries the result and error of an early return. *)
Definition getInstallerConfigAndHelper :
    SM ((Result * option GoError) + (Unstructured * option ByoHost)) :=
  let! st := getInstallerConfigAndStatus in
  match st with
  | Err err => ret (inl (Result0, Some err))
  | Ok (_, false) => ret (inl (mkResult false RequeueInstallerConfigTime, None))
  | Ok (installerConfig, true) =>
      let! h := the_host in
      let! ' (helper, err) := NewHelper KByoHost h in
      match err with
      | Some err => ret (inl (Result0, Some err))
      | None => ret (inr (installerConfig, helper))
      end
  end.

(** The two setters differ in the field they read and the one they write. *)
Definition setSecretForByoHost (field what fail : string)
    (set : option ObjectReference → ByoHost → ByoHost) : SM (Result * option GoError) :=
  let! ich := getInstallerConfigAndHelper in
  match ich with
  | inl res => ret res
  | inr (installerConfig, helper) =>
      match unstructured_NestedField (un_Content installerConfig) ["status"; field] with
      | Err err => ret (Result0, Some err)
      | Ok None =>
          ret (Result0, Some (errors_New (what +:+ " not set on ready installerconfig " +:+
            gvk_Kind (un_GVK installerConfig) +:+ " " +:+ meta_Name (un_Meta installerConfig))))
      | Ok (Some secret) =>
          (* the type assertion [secret.(map[string]interface{})] *)
          let! fields := deref (match secret with JObj fs => Some fs | _ => None end) in
          match FromUnstructured_ref fields with
          | Err err => ret (Result0, Some (errors_New (fail +:+ err_msg err)))
          | Ok secretRef =>
              update_host (set (Some secretRef)) ;;;
              let! h := the_host in
              let! err := Patch KByoHost helper h in
              ret (Result0, err)
          end
      end
  end.

Definition setInstallationSecretForByoHost : SM (Result * option GoError) :=
  setSecretForByoHost "installationSecret" "installation secret"
    "failed to convert unstructured field, " host_set_InstallationSecret.
Definition setUninstallationSecretForByoHost : SM (Result * option GoError) :=
  setSecretForByoHost "uninstallationSecret" "uninstallation secret"
    "failed to convert unstructured uninstallationSecret, " host_set_UninstallationSecret.

(** [strings.Split( *version, "+")[0] ] *)
Definition version_base (v : string) : string := hd "" (Split v (chr 43)).

Definition createInstallerConfig : SM (option GoError) :=
  let! s := get_local in
  let bm := sc_ByoMachine s in
  let! installerConfig := getInstallerConfig bm in
  match installerConfig with
  | Ok _ => ret None
  | Err err =>
      if IsNotFound err then
        let! ref := deref (bm_InstallerRef (bm_Spec bm)) in
        let! template := Get (KUnstructured (ref_GVK ref)) (mkKey (ref_Namespace ref) (ref_Name ref)) in
        match template with
        | Err err => ret (Some err)
        | Ok template =>
            let! version := deref (mach_Version (sc_Machine s)) in
            let annotations : gmap string string := {[K8sVersionAnnotation := version_base version]} in
            match external_GenerateTemplate template ref (bm_Namespace bm) annotations
                    (meta_Name (clus_Meta (sc_Cluster s)))
                    (metav1_NewControllerRef (bm_Meta bm)
                       (schema_FromAPIVersionAndKind (tm_APIVersion (bm_Type bm)) (tm_Kind (bm_Type bm)))) with
            | Err err => ret (Some err)
            | Ok u =>
                let m := un_Meta u in
                let u' := mkUnstructured (un_GVK u)
                  (mkObjectMeta (bm_Name bm) (meta_Namespace m) (meta_UID m) (meta_Labels m)
                     (meta_Annotations m) (meta_Finalizers m) (meta_OwnerReferences m)
                     (meta_DeletionTimestamp m)) (un_Content u) in
                let! r := Create (KUnstructured (un_GVK u')) u' in
                ret (err_of r)
            end
        end
      else ret (Some err)
  end.

(** ** attachByoHost *)

(** The reservation the controller writes into the picked host. *)
Definition claim_host (s : byoMachineScope) (dataSecretName version : string) (host : ByoHost) : ByoHost :=
  let bm := sc_ByoMachine s in
  let host := host_set_MachineRef
    (Some (mkObjectReference (tm_Kind (bm_Type bm)) (bm_Namespace bm) (bm_Name bm)
             (meta_UID (bm_Meta bm)) (tm_APIVersion (bm_Type bm)))) host in
  let host := host_set_Labels
    (insert ClusterNameLabel (default "" (meta_Labels (bm_Meta bm) !! ClusterNameLabel))) host in
  let host := host_set_Labels
    (insert AttachedByoMachineLabel (generateSafeLabelValue (bm_Namespace bm) (bm_Name bm))) host in
  let host := host_set_BootstrapSecret
    (Some (mkObjectReference "Secret" (bm_Namespace bm) dataSecretName "" "")) host in
  let host := host_set_Annotations
    (insert EndPointIPAnnotation (clus_EndpointHost (sc_Cluster s))) host in
  let host := host_set_Annotations (insert K8sVersionAnnotation (version_base version)) host in
  host_set_Annotations
    (insert BundleLookupBaseRegistryAnnotation
       (bc_BundleLookupBaseRegistry (bc_Spec (sc_ByoCluster s)))) host.

(** The selector of the free hosts: the machine's own one, and no cluster label. *)
Definition attach_selector (bm : ByoMachine) : SM (result Selector) :=
  match match bm_Selector (bm_Spec bm) with
        | Some ls => metav1_LabelSelectorAsSelector ls
        | None => Ok []
        end with
  | Err err => ret (Err err)
  | Ok selector =>
      let! byohostLabels :=
        deref (match labels_NewRequirement ClusterNameLabel DoesNotExist [] with
               | Ok req => Some req
               | Err _ => None
               end) in
      ret (Ok (labels_SelectorAdd selector byohostLabels))
  end.

Definition attachByoHost : SM (Result * option GoError) :=
  let! s := get_local in
  match sc_ByoHost s with
  | Some _ => ret (Result0, None)
  | None =>
      let! selector := attach_selector (sc_ByoMachine s) in
      match selector with
      | Err err => ret (Result0, Some err)
      | Ok selector =>
          let! hostsList := List_ KByoHost (mkListOptions selector (bm_Namespace (sc_ByoMachine s))) in
          match hostsList with
          | Err err => ret (mkResult false RequeueForbyohost, Some err)
          | Ok [] =>
              RecordMachine EventTypeWarning "ByoHostSelectionFailed" "No available ByoHost" ;;;
              mark_machine_false BYOHostReady BYOHostsUnavailableReason SeverityInfo ;;;
              ret (mkResult false RequeueForbyohost, Some (errors_New "no hosts found"))
          | Ok (host :: _) =>
              let! ' (byohostHelper, _) := NewHelper KByoHost host in
              let! dataSecretName := deref (mach_DataSecretName (sc_Machine s)) in
              let! version := deref (mach_Version (sc_Machine s)) in
              let host := claim_host s dataSecretName version host in
              let! err := Patch KByoHost byohostHelper host in
              match err with
              | Some err => ret (Result0, Some err)
              | None =>
                  modify (sc_set_ByoHost (Some host)) ;;;
                  ret (Result0, None)
              end
          end
      end
  end.

(** ** reconcileDelete, reconcileNormal, Reconcile *)

Definition reconcileDelete : SM (Result * option GoError) :=
  let! s := get_local in
  let finish : SM (Result * option GoError) :=
    update_machine (bm_set_Meta (set_Finalizers (λ l, controllerutil_RemoveFinalizer l MachineFinalizer))) ;;;
    ret (Result0, None) in
  match sc_ByoHost s with
  | Some _ =>
      let! err := markHostForCleanup in
      match err with
      | Some err => ret (Result0, Some err)
      | None =>
          let! h := the_host in
          Record_Event (OByoHost h) EventTypeNormal "ByoHostReleaseSucceeded"
            ("ByoHost Released by " +:+ bm_Name (sc_ByoMachine s)) ;;;
          RecordMachine EventTypeNormal "ByoHostReleaseSucceeded" ("Released ByoHost " +:+ host_Name h) ;;;
          finish
      end
  | None => finish
  end.

Definition HostInfo0 : HostInfo := mkHostInfo "" "" "".

(** A setter of a secret, with the early return its requeue asks for: [inl]
    returns, [inr] goes on. *)
Definition secret_step (missing : ByoHost → bool) (setter : SM (Result * option GoError)) :
    SM ((Result * option GoError) + unit) :=
  let! s := get_local in
  match bm_InstallerRef (bm_Spec (sc_ByoMachine s)) with
  | None => ret (inr tt)
  | Some _ =>
      let! h := the_host in
      if missing h then
        let! ' (res, err) := setter in
        match err with
        | Some err => ret (inl (res, Some err))
        | None => if (0 <? RequeueAfter res)%Z then ret (inl (res, None)) else ret (inr tt)
        end
      else ret (inr tt)
  end.

Definition is_None {A} (o : option A) : bool := match o with None => true | Some _ => false end.

(** From the reservation on. *)
Definition provision : SM (Result * option GoError) :=
  let! s := get_local in
  let! att :=
    match sc_ByoHost s with
    | Some _ => ret (inr tt)
    | None =>
        let! ' (res, err) := attachByoHost in
        match err with
        | Some err => ret (inl (res, Some err))
        | None =>
            mark_machine_false BYOHostReady InstallationSecretNotAvailableReason SeverityInfo ;;;
            let! h := the_host in
            Record_Event (OByoHost h) EventTypeNormal "ByoHostAttachSucceeded"
              ("Attached to ByoMachine " +:+ bm_Name (sc_ByoMachine s)) ;;;
            RecordMachine EventTypeNormal "ByoHostAttachSucceeded" ("Attached ByoHost " +:+ host_Name h) ;;;
            ret (inr tt)
        end
    end in
  match att with
  | inl res => ret res
  | inr _ =>
      let! s := get_local in
      (if bool_decide (bm_HostInfo (bm_Status (sc_ByoMachine s)) = HostInfo0) then
         let! h := the_host in update_machine (bm_set_HostInfo (HostDetails (host_Status h)))
       else ret tt) ;;;
      let! inst := secret_step (λ h, is_None (host_InstallationSecret h)) setInstallationSecretForByoHost in
      match inst with
      | inl res => ret res
      | inr _ =>
          let! uninst := secret_step (λ h, is_None (host_UninstallationSecret h)) setUninstallationSecretForByoHost in
          match uninst with
          | inl res => ret res
          | inr _ => updateNodeProviderID
          end
      end
  end.

(** The two preconditions of a reservation. *)
Definition await_cluster : SM (Result * option GoError) :=
  let! s := get_local in
  if negb (clus_InfrastructureReady (sc_Cluster s)) then
    mark_machine_false BYOHostReady WaitingForClusterInfrastructureReason SeverityInfo ;;;
    ret (Result0, None)
  else
    match mach_DataSecretName (sc_Machine s) with
    | None =>
        mark_machine_false BYOHostReady WaitingForBootstrapDataSecretReason SeverityInfo ;;;
        ret (Result0, None)
    | Some _ => provision
    end.

Definition create_then_await : SM (Result * option GoError) :=
  let! s := get_local in
  let! err := match bm_InstallerRef (bm_Spec (sc_ByoMachine s)) with
              | Some _ => createInstallerConfig
              | None => ret None
              end in
  match err with
  | Some err => ret (Result0, Some err)
  | None => await_cluster
  end.

Definition reconcileNormal : SM (Result * option GoError) :=
  update_machine (bm_set_Meta (set_Finalizers (λ l, controllerutil_AddFinalizer l MachineFinalizer))) ;;;
  let! s := get_local in
  let! err := match sc_ByoHost s with
              | Some _ => setPausedConditionForByoHost false
              | None => ret None
              end in
  match err with
  | Some err => ret (Result0, Some err)
  | None => create_then_await
  end.

(** [byoMachineScopeParams]; the client is the class, only its presence is tested. *)
Record byoMachineScopeParams := mkScopeParams {
  sp_Client : option unit;
  sp_Cluster : option CapiCluster;
  sp_Machine : option CapiMachine;
  sp_ByoCluster : option ByoCluster;
  sp_ByoMachine : option ByoMachine;
  sp_ByoHost : option ByoHost }.

Definition newByoMachineScope (params : byoMachineScopeParams) : SM (result byoMachineScope) :=
  match sp_Client params with
  | None => ret (Err (errors_New "Client is required when creating a MachineScope"))
  | Some _ =>
  match sp_Cluster params with
  | None => ret (Err (errors_New "Cluster is required when creating a MachineScope"))
  | Some cluster =>
  match sp_Machine params with
  | None => ret (Err (errors_New "Machine is required when creating a MachineScope"))
  | Some machine =>
  match sp_ByoMachine params with
  | None => ret (Err (errors_New "BYOMachine is required when creating a MachineScope"))
  | Some byoMachine =>
  match sp_ByoCluster params with
  | None => ret (Err (errors_New "ByoCluster is required when creating a MachineScope"))
  | Some byoCluster =>
      let! ' (_, err) := NewHelper KByoMachine byoMachine in
      match err with
      | Some err => ret (Err (errors_Wrap err "failed to init patch helper"))
      | None => ret (Ok (mkScope cluster machine byoCluster byoMachine (sp_ByoHost params)))
      end
  end end end end end.

(** From the scope on: pause, deletion or the normal reconciliation. *)
Definition dispatch (refByoHost : option ByoHost) : SM (Result * option GoError) :=
  let! s := get_local in
  let bm := sc_ByoMachine s in
  let! scope := newByoMachineScope (mkScopeParams (Some tt) (Some (sc_Cluster s)) (Some (sc_Machine s))
    (Some (sc_ByoCluster s)) (Some bm) refByoHost) in
  match scope with
  | Err err => ret (Result0, Some err)
  | Ok scope =>
      put_local scope ;;;
      if annotations_IsPaused (sc_Cluster s) (bm_Meta bm) then
        (match refByoHost with
         | Some _ => let! _ := setPausedConditionForByoHost true in ret tt
         | None => ret tt
         end) ;;;
        mark_machine_false BYOHostReady ClusterOrResourcePausedReason SeverityInfo ;;;
        ret (Result0, None)
      else
        match meta_DeletionTimestamp (bm_Meta bm) with
        | Some _ => reconcileDelete
        | None => reconcileNormal
        end
  end.

(** The handlers between the fetches and the deferred patch. *)
Definition reconcile_machine : SM (Result * option GoError) :=
  let! s := get_local in
  let! refByoHost := FetchAttachedByoHost (bm_Name (sc_ByoMachine s)) (bm_Namespace (sc_ByoMachine s)) in
  match refByoHost with
  | Err err => ret (Result0, Some err)
  | Ok refByoHost => dispatch refByoHost
  end.

Definition machine_defer (helper : option ByoMachine) :
    Result * option GoError → SM (Result * option GoError) :=
  deferred_patch KByoMachine [] sc_ByoMachine helper.

Definition Reconcile (req : NamespacedName) : M Event E unit (Result * option GoError) :=
  let! byoMachine := Get KByoMachine req in
  match byoMachine with
  | Err err => ret (Result0, if IsNotFound err then None else Some err)
  | Ok byoMachine =>
      let! machine := call (util_GetOwnerMachine (bm_Meta byoMachine)) (λ _, []) in
      match machine with
      | Err err => ret (Result0, Some err)
      | Ok None => ret (Result0, None)
      | Ok (Some machine) =>
          let! cluster := call (util_GetClusterFromMetadata (bm_Meta byoMachine)) (λ _, []) in
          match cluster with
          | Err err => ret (Result0, Some err)
          | Ok None => ret (Result0, None)
          | Ok (Some cluster) =>
              let! infraRef := deref (clus_InfrastructureRef cluster) in
              let! byoCluster := Get KByoCluster (mkKey (bm_Namespace byoMachine) (ref_Name infraRef)) in
              match byoCluster with
              | Err err => ret (Result0, None)
              | Ok byoCluster =>
                  let! ' (helper, _) := NewHelper KByoMachine byoMachine in
                  scoped (mkScope cluster machine byoCluster byoMachine None)
                    reconcile_machine (Result0, None) (machine_defer helper)
              end
          end
      end
  end.

(** ** Map functions *)

Definition ByoHostToByoMachineMapFunc (gvk : GVK) (o : Object) : list NamespacedName :=
  match o with
  | OByoHost h =>
      match host_MachineRef h with
      | None => []
      | Some ref =>
          let g := ref_GVK ref in
          if bool_decide ((gvk_Group gvk, gvk_Kind gvk) ≠ (gvk_Group g, gvk_Kind g)) then []
          else [mkKey (ref_Namespace ref) (ref_Name ref)]
      end
  | _ => []
  end.

(** On a cluster; any other object is ignored. *)
Definition ClusterToByoMachines {L} (c : CapiCluster) : M Event E L (list NamespacedName) :=
  match meta_DeletionTimestamp (clus_Meta c) with
  | Some _ => ret []
  | None =>
      let! byoMachineList := List_ KByoMachine
        (mkListOptions [mkRequirement ClusterNameLabel Equals [meta_Name (clus_Meta c)]]
           (meta_Namespace (clus_Meta c))) in
      match byoMachineList with
      | Err _ => ret []
      | Ok items => ret ((λ m, mkKey (bm_Namespace m) (bm_Name m)) <$> items)
      end
  end.


(** ** Specifications of the handlers *)

(** A trace without patches of the local objects. *)
Definition unpatched (t : list Event) : Prop := patches t = [].

(** The key of a host's node in the workload cluster. *)
Definition node_key (host : ByoHost) : NamespacedName :=
  mkKey (meta_Namespace (host_Meta host)) (host_Name host).

(** The node of [host], read through [rc] in the run [t], carries the provider
    ID [id]: it had it, in the form of the host, or it had none and the
    workload cluster accepted the patch that sets it. *)
Definition node_named (rc : RemoteClient) (host : ByoHost) (id : string) (t : list Event) : Prop :=
  ∃ node, EvRemoteGetNode (node_key host) (Ok node) ∈ t ∧
    (∃ e, (remote_GetNode rc (node_key host) e).2 = Ok node) ∧
    ((node_ProviderID node = id ∧ id ≠ "" ∧ provider_id_ok (host_Name host) id) ∨
     (node_ProviderID node = "" ∧
      (∃ e, id = ProviderIDPrefix +:+ host_Name host +:+ "/" +:+ (util_RandomString ProviderIDSuffixLength e).2) ∧
      EvRemotePatchNode node (mkNode (node_Meta node) id) None ∈ t ∧
      ∃ e, (remote_PatchNode rc node (mkNode (node_Meta node) id) e).2 = None)).

Lemma node_named_mono rc host id t t' : t ⊆ t' → node_named rc host id t → node_named rc host id t'.
Proof.
  intros Hsub (node & Hin & Hget & Hid). exists node. split_and!; [by apply Hsub|done|].
  destruct Hid as [?|(? & ? & ? & ?)]; [by left|right; split_and!; auto].
Qed.

(** [rc] is a client of the workload cluster the metadata of the machine names. *)
Definition client_for (m : ByoMachine) (rc : RemoteClient) : Prop :=
  ∃ cluster, (∃ e, (util_GetClusterFromMetadata (bm_Meta m) e).2 = Ok (Some cluster)) ∧
    ∃ e, (tracker_GetClient (mkKey (meta_Namespace (clus_Meta cluster)) (meta_Name (clus_Meta cluster))) e).2 = Ok rc.

Lemma setNodeProviderID_spec rc host e s :
  wp (setNodeProviderID rc host) e s (λ _ s' t o,
    s' = s ∧ patches t = [] ∧
    match o with
    | Val (id, None) =>
        node_named rc host id t ∧
        (provider_id_ok (host_Name host) id ∧ (∃ node, t = [EvRemoteGetNode (node_key host) (Ok node)]) ∨
         ∃ node e0, id = ProviderIDPrefix +:+ host_Name host +:+ "/" +:+
              (util_RandomString ProviderIDSuffixLength e0).2 ∧ node_ProviderID node = "" ∧
           t = [EvRemoteGetNode (node_key host) (Ok node);
                EvRemotePatchNode node (mkNode (node_Meta node) id) None])
    | Val (_, Some _) => True
    | Panic => False
    end).
Proof.
  unfold setNodeProviderID. fold (node_key host). apply wp_bind, wp_call. intros e1 [node|err] Hget; [|by wp_run].
  assert (∃ e, (remote_GetNode rc (node_key host) e).2 = Ok node) as Hans by (exists e; by rewrite Hget).
  case_bool_decide as Hne.
  - destruct (regexp_MatchString _ _) as [[]|] eqn:Hm; wp_run; try done. split_and!; try done; [|left; eauto].
    exists node. split_and!; [set_solver|done|]. by left.
  - apply wp_bind, wp_call. intros e2 [err|] _; [by wp_run|].
    apply wp_bind, wp_call. intros e3 suffix Hsuf.
    assert (suffix = (util_RandomString ProviderIDSuffixLength e2).2) as -> by by rewrite Hsuf.
    assert (node_ProviderID node = "") as Hempty by by destruct (decide (node_ProviderID node = "")).
    apply wp_bind, wp_call. intros e4 [err|] Hpatch; wp_run; split_and!; try done.
    + exists node. split_and!; [set_solver|done|]. right.
      split_and!; [done|by exists e2|set_solver|]. exists e3. cbn [node_ProviderID]. by rewrite Hpatch.
    + right. by exists node, e2.
Qed.

Definition machine_selector (bm : ByoMachine) : result Selector :=
  match bm_Selector (bm_Spec bm) with
  | Some ls => metav1_LabelSelectorAsSelector ls
  | None => Ok []
  end.

(** A host the machine may take: in its namespace, selected by it, in no cluster. *)
Definition free_for (bm : ByoMachine) (h : ByoHost) : Prop :=
  host_Labels h !! ClusterNameLabel = None ∧
  (bm_Namespace bm ≠ "" → meta_Namespace (host_Meta h) = bm_Namespace bm) ∧
  ∃ sel, machine_selector bm = Ok sel ∧ labels_Matches sel (host_Labels h) = true.

Definition marked_machine (reason : string) (s : byoMachineScope) : byoMachineScope :=
  sc_update_ByoMachine
    (λ m, bm_SetConditions (conditions_MarkFalse (bm_GetConditions m) BYOHostReady reason SeverityInfo "") m) s.

(** What the reservation did; [accepted] patches are those without an error. *)
Definition attach_post (s s' : byoMachineScope) (t : list Event)
    (o : Outcome (Result * option GoError)) : Prop :=
  match sc_ByoHost s, o with
  | Some _, _ => s' = s ∧ t = [] ∧ o = Val (Result0, None)
  | None, Val (_, None) =>
      ∃ host ds v, free_for (sc_ByoMachine s) host ∧
        mach_DataSecretName (sc_Machine s) = Some ds ∧ mach_Version (sc_Machine s) = Some v ∧
        s' = sc_set_ByoHost (Some (claim_host s ds v host)) s ∧
        patches t = [(OByoHost host, OByoHost (claim_host s ds v host), None)]
  | None, Val (_, Some _) =>
      (s' = s ∨ s' = marked_machine BYOHostsUnavailableReason s) ∧ Forall (λ p, p.2 ≠ None) (patches t)
  | None, Panic =>
      s' = s ∧ patches t = []
  end.

Section AttachLaws.
  Context `{!CapiUtilLaws _, !KubeListLaws E}.

Lemma attach_selector_spec bm e s :
  wp (attach_selector bm) e s (λ e' s' t o,
    e' = e ∧ s' = s ∧ t = [] ∧
    match o with
    | Val (Ok sel) => ∃ sel0, machine_selector bm = Ok sel0 ∧
        ∀ ls, labels_Matches sel ls = true →
          labels_Matches sel0 ls = true ∧ ls !! ClusterNameLabel = None
    | Val (Err err) => machine_selector bm = Err err
    | Panic => False
    end).
Proof.
  unfold attach_selector. fold (machine_selector bm).
  destruct (machine_selector bm) as [sel0|err]; [|by apply wp_ret].
  rewrite NewRequirement_DoesNotExist by reflexivity. apply wp_bind, wp_ret, wp_ret.
  split_and!; try done. exists sel0. split; [done|]. intros ls.
  by rewrite Matches_Add, Matches_DoesNotExist.
Qed.

Lemma attachByoHost_spec e s :
  wp attachByoHost e s (λ _ s' t o, attach_post s s' t o).
Proof.
  unfold attachByoHost, attach_post. apply wp_bind, wp_get_local.
  destruct (sc_ByoHost s) as [h|] eqn:Hh; [by apply wp_ret|].
  apply wp_bind. eapply wp_mono; [apply attach_selector_spec|]. cbn beta.
  intros e1 s1 t1 [[sel|err]|] (-> & -> & -> & Ho); [| |done].
  2:{ apply wp_ret. split; [by left|constructor]. }
  destruct Ho as (sel0 & Hsel0 & Hsel).
  apply wp_bind, wp_call. intros e2 [[|host hosts]|err] Hlist.
  - unfold RecordMachine, Record_Event, mark_machine_false, update_machine. wp_run.
    split; [by right|constructor].
  - assert (free_for (sc_ByoMachine s) host) as Hfree.
    { edestruct (List_selected KByoHost) as [Hm Hns]; [exact Hlist|apply elem_of_cons; by left|].
      apply Hsel in Hm as [Hm Hcl]. split_and!; [done|exact Hns|]. eauto. }
    unfold NewHelper. apply wp_bind, wp_bind, wp_call. intros e3 herr _. apply wp_ret.
    destruct (mach_DataSecretName (sc_Machine s)) as [ds|]; [|destruct herr; wp_run; done].
    destruct (mach_Version (sc_Machine s)) as [v|]; [|destruct herr; wp_run; done].
    destruct herr as [herr|]; cbn iota.
    { apply wp_bind, wp_ret, wp_bind, wp_ret, wp_bind. unfold Patch, Patch_with. wp_run. done. }
    apply wp_bind, wp_ret, wp_bind, wp_ret, wp_bind. unfold Patch, Patch_with.
    apply wp_bind, wp_ret, wp_call. intros e4 [perr|] _; wp_run.
    + split; [by left|]. simpl. by constructor.
    + by exists host, ds, v.
  - wp_run. split; [by left|constructor].
Qed.
End AttachLaws.

(** ** Handlers that change only the host of the scope *)

Definition host_only (s s' : byoMachineScope) : Prop := s' = sc_set_ByoHost (sc_ByoHost s') s.

Lemma host_only_refl s : host_only s s.
Proof. by destruct s. Qed.
Lemma host_only_set s h : host_only s (sc_set_ByoHost h s).
Proof. by destruct s. Qed.
Lemma host_only_trans s1 s2 s3 : host_only s1 s2 → host_only s2 s3 → host_only s1 s3.
Proof. unfold host_only. destruct s1, s2, s3; cbn. by intros [= -> -> -> ->] [= -> -> -> ->]. Qed.
Lemma host_only_machine s s' : host_only s s' →
  sc_ByoMachine s' = sc_ByoMachine s ∧ sc_Machine s' = sc_Machine s ∧ sc_Cluster s' = sc_Cluster s.
Proof. intros ->. done. Qed.

(** The host once it is marked for cleanup. *)
Definition marked_host (bm : ByoMachine) (h : ByoHost) : ByoHost :=
  let h1 := host_set_Annotations (insert HostCleanupAnnotation "") h in
  if bool_decide (meta_Annotations (bm_Meta bm) !! UpgradeInProgressAnnotation = Some "true") then h1
  else host_set_Labels (delete ClusterLabelCP) (host_set_Labels (delete ClusterLabel) h1).

Lemma wp_the_host e s h Q : sc_ByoHost s = Some h → Q e s [] (Val h) → wp the_host e s Q.
Proof. intros Hh HQ. unfold the_host. apply wp_bind, wp_get_local. rewrite Hh. by apply wp_ret. Qed.

Lemma wp_update_host f e s h Q : sc_ByoHost s = Some h →
  Q e (sc_set_ByoHost (Some (f h)) s) [] (Val tt) → wp (update_host f) e s Q.
Proof.
  intros Hh HQ. unfold update_host. apply wp_bind. eapply wp_the_host; [done|].
  by apply wp_modify.
Qed.

Lemma markHostForCleanup_spec e s h : sc_ByoHost s = Some h →
  wp markHostForCleanup e s (λ _ s' t o,
    s' = sc_set_ByoHost (Some (marked_host (sc_ByoMachine s) h)) s ∧
    match o with
    | Val err => t = [EvPatch (OByoHost h) (OByoHost (marked_host (sc_ByoMachine s) h)) err]
    | Panic => t = []
    end).
Proof.
  intros Hh. unfold markHostForCleanup, marked_host, Patch.
  apply wp_bind. eapply wp_the_host; [done|].
  assert (∀ e helper, wp
    (update_host (host_set_Annotations (insert HostCleanupAnnotation "")) ;;;
     let! s := get_local in
     (if bool_decide (meta_Annotations (bm_Meta (sc_ByoMachine s)) !! UpgradeInProgressAnnotation = Some "true")
      then ret tt
      else update_host (host_set_Labels (delete ClusterLabel)) ;;;
           update_host (host_set_Labels (delete ClusterLabelCP))) ;;;
     let! h := the_host in Patch_with KByoHost [] helper h) e s
    (λ _ s' t o, s' = sc_set_ByoHost (Some (marked_host (sc_ByoMachine s) h)) s ∧
       match helper with
       | Some h0 => ∃ err, o = Val err ∧
           t = [EvPatch (OByoHost h0) (OByoHost (marked_host (sc_ByoMachine s) h)) err]
       | None => o = Panic ∧ t = []
       end)) as Hrest.
  { intros e1 helper. unfold marked_host. apply wp_bind. eapply wp_update_host; [done|].
    apply wp_bind, wp_get_local, wp_bind. cbn [sc_ByoMachine sc_set_ByoHost].
    destruct (bool_decide _); [apply wp_ret|apply wp_bind; eapply wp_update_host; [done|];
      eapply wp_update_host; [done|]]; cbn [sc_ByoHost sc_set_ByoHost];
      (apply wp_bind; eapply wp_the_host; [done|]);
      (destruct helper; [apply wp_Patch|apply wp_Patch_nil]); eauto. }
  apply wp_bind, wp_NewHelper; intros e1; [intros err|]; (eapply wp_mono; [apply Hrest|]); cbn beta.
  - intros e2 s2 t2 o (-> & -> & ->). done.
  - intros e2 s2 t2 o (-> & err & -> & ->). done.
Qed.

Lemma setPausedConditionForByoHost_spec b e s h : sc_ByoHost s = Some h →
  wp (setPausedConditionForByoHost b) e s (λ _ s' t o,
    host_only s s' ∧ (∃ err, o = Val err) ∧
    (t = [] ∧ s' = s ∨
     ∃ err h', sc_ByoHost s' = Some h' ∧ t = [EvPatch (OByoHost h) (OByoHost h') err] ∧ o = Val err ∧
       h' = host_set_Annotations
              (λ a, if b then annotations_AddAnnotations a {[PausedAnnotation := ""]}
                    else delete PausedAnnotation a) h)).
Proof.
  intros Hh. unfold setPausedConditionForByoHost, Patch.
  apply wp_bind. eapply wp_the_host; [done|]. apply wp_bind, wp_NewHelper.
  - intros e1 err. apply wp_ret. split_and!; [apply host_only_refl|eauto|by left].
  - intros e1. cbn iota. apply wp_bind.
    destruct b; (eapply wp_update_host; [done|]; apply wp_bind; eapply wp_the_host; [done|];
      apply wp_Patch; intros e2 err; split_and!; [apply host_only_set|eauto|];
      right; eexists _, _; split_and!; eauto).
Qed.

Lemma getInstallerConfigAndStatus_spec e s :
  wp getInstallerConfigAndStatus e s (λ _ s' t o,
    s' = s ∧ patches t = [] ∧ (o = Panic → bm_InstallerRef (bm_Spec (sc_ByoMachine s)) = None)).
Proof.
  unfold getInstallerConfigAndStatus, getInstallerConfig, Get.
  apply wp_bind, wp_get_local, wp_bind, wp_bind, wp_deref.
  destruct (bm_InstallerRef _) as [ref|]; [|by split_and!].
  apply wp_call. intros e1 [u|err] _; [|by wp_run]. cbn iota. destruct (external_IsReady u); by wp_run.
Qed.

Lemma getInstallerConfigAndHelper_spec e s h : sc_ByoHost s = Some h →
  wp getInstallerConfigAndHelper e s (λ _ s' t o,
    s' = s ∧ patches t = [] ∧
    match o with
    | Val (inr (_, helper)) => helper = Some h
    | Val (inl (res, None)) => res = mkResult false RequeueInstallerConfigTime
    | Val (inl (res, Some _)) => res = Result0
    | Panic => bm_InstallerRef (bm_Spec (sc_ByoMachine s)) = None
    end).
Proof.
  intros Hh. unfold getInstallerConfigAndHelper. apply wp_bind.
  eapply wp_mono; [apply getInstallerConfigAndStatus_spec|]. cbn beta.
  intros e1 s1 t1 [[[u []]|err]|] (-> & Hp & Hpan); try (wp_run; trace_simpl; by auto).
  - apply wp_bind. eapply wp_the_host; [done|]. apply wp_bind, wp_NewHelper.
    + intros e2 err. apply wp_ret. by trace_simpl.
    + intros e2. apply wp_ret. by trace_simpl.
Qed.

(** The outcome of a secret setter: requeued or failed without a change, or
    one patch that sets the field. *)
Definition secret_post (set : option ObjectReference → ByoHost → ByoHost) (h : ByoHost)
    (s s' : byoMachineScope) (t : list Event) (o : Outcome (Result * option GoError)) : Prop :=
  (s' = s ∧ patches t = [] ∧ ∀ res, o = Val (res, None) → res = mkResult false RequeueInstallerConfigTime) ∨
  ∃ ref err, s' = sc_set_ByoHost (Some (set (Some ref) h)) s ∧ o = Val (Result0, err) ∧
    patches t = [(OByoHost h, OByoHost (set (Some ref) h), err)].

Lemma setSecretForByoHost_spec field what fail set e s h : sc_ByoHost s = Some h →
  wp (setSecretForByoHost field what fail set) e s (λ _ s' t o, secret_post set h s s' t o).
Proof.
  intros Hh. unfold setSecretForByoHost, Patch, secret_post. apply wp_bind.
  eapply wp_mono; [by eapply getInstallerConfigAndHelper_spec|]. cbn beta.
  intros e1 s1 t1 [[[res err]|[u helper]]|] (-> & Hp & Ho).
  - apply wp_ret. left. trace_simpl. split_and!; [done..|]. intros res' [= <- ->]. done.
  - subst helper. destruct (unstructured_NestedField _ _) as [[secret|]|err] eqn:Hnf; cbn iota.
    2,3: apply wp_ret; left; trace_simpl; done.
    apply wp_bind, wp_deref.
    destruct secret; try (left; trace_simpl; split_and!; done).
    destruct (FromUnstructured_ref _) as [ref|err] eqn:Hfu; [|apply wp_ret; left; trace_simpl; done].
    apply wp_bind. eapply wp_update_host; [done|]. apply wp_bind. eapply wp_the_host; [done|].
    apply wp_bind, wp_Patch. intros e2 err. apply wp_ret. right. exists ref, err. by trace_simpl.
  - left. done.
Qed.

Lemma createInstallerConfig_spec e s :
  wp createInstallerConfig e s (λ _ s' t o,
    s' = s ∧ patches t = [] ∧
    (o = Panic → bm_InstallerRef (bm_Spec (sc_ByoMachine s)) = None ∨ mach_Version (sc_Machine s) = None)).
Proof.
  unfold createInstallerConfig, getInstallerConfig, Get, Create.
  apply wp_bind, wp_get_local, wp_bind, wp_bind, wp_deref.
  destruct (bm_InstallerRef _) as [ref|]; [|by auto]. apply wp_call. intros e1 [u|err] _; [by wp_run|].
  cbn iota. destruct (IsNotFound err); [|by wp_run]. apply wp_bind, wp_ret, wp_bind, wp_call.
  intros e2 [template|err2] _; [|by wp_run]. apply wp_bind, wp_deref.
  destruct (mach_Version _) as [v|]; [|by auto]. cbn iota.
  destruct (external_GenerateTemplate _ _ _ _ _ _); [|by wp_run].
  apply wp_bind, wp_call. intros e3 r _. by wp_run.
Qed.

(** Nothing of the machine that says whether it is provisioned changed. *)
Definition same_ready (s s' : byoMachineScope) : Prop :=
  bm_Ready (bm_Status (sc_ByoMachine s')) = bm_Ready (bm_Status (sc_ByoMachine s)) ∧
  bm_ProviderID (bm_Spec (sc_ByoMachine s')) = bm_ProviderID (bm_Spec (sc_ByoMachine s)).

Lemma same_ready_trans s1 s2 s3 : same_ready s1 s2 → same_ready s2 s3 → same_ready s1 s3.
Proof. unfold same_ready. intros [-> ->] [-> ->]. done. Qed.
Lemma host_only_same_ready s s' : host_only s s' → same_ready s s'.
Proof. intros (Hm & _)%host_only_machine. unfold same_ready. by rewrite Hm. Qed.

(** The metadata, the installer and the objects around the machine are as before. *)
Definition frame (s s' : byoMachineScope) : Prop :=
  bm_Meta (sc_ByoMachine s') = bm_Meta (sc_ByoMachine s) ∧
  bm_InstallerRef (bm_Spec (sc_ByoMachine s')) = bm_InstallerRef (bm_Spec (sc_ByoMachine s)) ∧
  sc_Machine s' = sc_Machine s ∧ sc_Cluster s' = sc_Cluster s.

Lemma frame_refl s : frame s s.
Proof. done. Qed.
Lemma frame_trans s1 s2 s3 : frame s1 s2 → frame s2 s3 → frame s1 s3.
Proof. unfold frame. intros (-> & -> & -> & ->) (-> & -> & -> & ->). done. Qed.
Lemma host_only_frame s s' : host_only s s' → frame s s'.
Proof. intros (Hm & Hc & Hcl)%host_only_machine. unfold frame. by rewrite Hm, Hc, Hcl. Qed.

Lemma updateNodeProviderID_spec e s h : sc_ByoHost s = Some h →
  wp updateNodeProviderID e s (λ _ s' t o,
    sc_ByoHost s' = Some h ∧ patches t = [] ∧ frame s s' ∧
    match o with
    | Val (res, None) => res = Result0 ∧ ∃ rc id, client_for (sc_ByoMachine s) rc ∧ node_named rc h id t ∧
        bm_ProviderID (bm_Spec (sc_ByoMachine s')) = id ∧
        bm_Ready (bm_Status (sc_ByoMachine s')) = true ∧
        bm_GetConditions (sc_ByoMachine s') =
          conditions_MarkTrue (bm_GetConditions (sc_ByoMachine s)) BYOHostReady
    | _ => s' = s
    end).
Proof.
  intros Hh. unfold updateNodeProviderID, getRemoteClient. apply wp_bind, wp_get_local, wp_bind, wp_bind, wp_call.
  intros e1 [[cluster|]|err] Hclus; [|by wp_run..]. apply wp_bind, wp_ret, wp_bind, wp_call.
  intros e2 [rc|err] Hrc; [|by wp_run]. apply wp_ret, wp_bind. eapply wp_the_host; [done|].
  apply wp_bind. eapply wp_mono; [apply setNodeProviderID_spec|]. cbn beta.
  intros e3 s3 t3 [[id [err|]]|] (-> & Hp & Ho); [| |done].
  - unfold RecordMachine, Record_Event. wp_run. by trace_simpl.
  - unfold RecordMachine, Record_Event, mark_machine_true, update_machine. wp_run. trace_simpl.
    split_and!; [done..|]. exists rc, id. split_and!; try done.
    + exists cluster. split; [exists e; by rewrite Hclus|exists e1; by rewrite Hrc].
    + eapply node_named_mono; [|exact (proj1 Ho)]. set_solver.
Qed.

(** A secret step leaves the host as it was or with the secret set, and goes
    on only when there is no installer or the secret is there. *)
Definition step_post (get : ByoHost → option ObjectReference)
    (set : option ObjectReference → ByoHost → ByoHost) (h : ByoHost) (s s' : byoMachineScope)
    (o : Outcome ((Result * option GoError) + unit)) : Prop :=
  host_only s s' ∧
  ∃ h', sc_ByoHost s' = Some h' ∧ (h' = h ∨ ∃ ref, h' = set (Some ref) h) ∧
    match o with
    | Val (inr _) => is_Some (bm_InstallerRef (bm_Spec (sc_ByoMachine s))) → is_Some (get h')
    | Val (inl (res, None)) => res = mkResult false RequeueInstallerConfigTime
    | _ => True
    end.

Lemma secret_step_spec get set field what fail e s h :
  sc_ByoHost s = Some h → (∀ ref, get (set (Some ref) h) = Some ref) →
  wp (secret_step (λ h, is_None (get h)) (setSecretForByoHost field what fail set)) e s
    (λ _ s' t o, step_post get set h s s' o).
Proof.
  intros Hh Hget. unfold secret_step, step_post. apply wp_bind, wp_get_local.
  destruct (bm_InstallerRef _) as [iref|] eqn:Hi.
  2:{ apply wp_ret. split; [apply host_only_refl|]. exists h. split_and!; auto. by intros []. }
  apply wp_bind. eapply wp_the_host; [done|]. destruct (get h) as [sref|] eqn:Hg; cbn [is_None].
  { apply wp_ret. split; [apply host_only_refl|]. exists h. rewrite Hg. split_and!; auto. }
  apply wp_bind. eapply wp_mono; [by apply setSecretForByoHost_spec|]. cbn beta.
  intros e1 s1 t1 o1 [(-> & _ & Hres)|(ref & err & -> & -> & _)].
  - destruct o1 as [[res [err|]]|]; [|pose proof (Hres res eq_refl) as ->|].
    + apply wp_ret. split; [apply host_only_refl|]. exists h. auto.
    + apply wp_ret. split; [apply host_only_refl|]. exists h. auto.
    + split; [apply host_only_refl|]. exists h. auto.
  - destruct err as [err|]; apply wp_ret; (split; [apply host_only_set|]);
      eexists; (split; [done|]); rewrite ?Hget; eauto.
Qed.

(** The machine is ready, on an equipped host whose node carries its provider ID. *)
Definition on_named_node (s s' : byoMachineScope) (t : list Event) : Prop :=
  ∃ host rc, sc_ByoHost s' = Some host ∧ client_for (sc_ByoMachine s') rc ∧
    node_named rc host (bm_ProviderID (bm_Spec (sc_ByoMachine s'))) t ∧
    bm_Ready (bm_Status (sc_ByoMachine s')) = true ∧
    (is_Some (bm_InstallerRef (bm_Spec (sc_ByoMachine s))) →
     is_Some (host_InstallationSecret host) ∧ is_Some (host_UninstallationSecret host)).

Lemma on_named_node_mono s1 s2 s' t t' :
  frame s1 s2 → t ⊆ t' → on_named_node s2 s' t → on_named_node s1 s' t'.
Proof.
  intros (_ & Hi & _) Hsub (host & rc & Hh & Hc & Hn & Hr & Hsec). exists host, rc. rewrite <- Hi.
  split_and!; eauto using node_named_mono.
Qed.

Definition provision_post (s s' : byoMachineScope) (t : list Event)
    (o : Outcome (Result * option GoError)) : Prop :=
  frame s s' ∧
  match o with
  | Val (res, None) =>
      (res = mkResult false RequeueInstallerConfigTime ∧ same_ready s s') ∨
      (res = Result0 ∧ on_named_node s s' t)
  | _ => same_ready s s'
  end.

Lemma provision_post_trans s1 s2 s3 t t' o :
  frame s1 s2 → same_ready s1 s2 → t ⊆ t' → provision_post s2 s3 t o → provision_post s1 s3 t' o.
Proof.
  intros Hf Hr Hsub [Hf2 Ho]. split; [by eapply frame_trans|].
  destruct o as [[res [err|]]|]; [by eapply same_ready_trans| |by eapply same_ready_trans].
  destruct Ho as [[-> Hr2]|[-> Ho]]; [left|right]; (split; [done|]);
    eauto using same_ready_trans, on_named_node_mono.
Qed.

(** The part after the reservation. *)
Lemma provision_attached e s h : sc_ByoHost s = Some h →
  wp (let! inst := secret_step (λ h, is_None (host_InstallationSecret h)) setInstallationSecretForByoHost in
      match inst with
      | inl res => ret res
      | inr _ =>
          let! uninst := secret_step (λ h, is_None (host_UninstallationSecret h)) setUninstallationSecretForByoHost in
          match uninst with
          | inl res => ret res
          | inr _ => updateNodeProviderID
          end
      end) e s (λ _ s' t o, provision_post s s' t o).
Proof.
  intros Hh. apply wp_bind.
  eapply wp_mono; [by eapply (secret_step_spec host_InstallationSecret host_set_InstallationSecret)|].
  cbn beta. intros e1 s1 t1 o1 (Hho & h1 & Hh1 & Heq1 & Ho1).
  apply host_only_frame in Hho as Hf. apply host_only_same_ready in Hho as Hr.
  destruct o1 as [[[res [err|]]|u]|]; [apply wp_ret; by split|apply wp_ret; subst; split; [done|by left]| |by split].
  eapply wp_bind, wp_mono; [by eapply (secret_step_spec host_UninstallationSecret host_set_UninstallationSecret)|].
  cbn beta. intros e2 s2 t2 o2 (Hho2 & h2 & Hh2 & Heq2 & Ho2).
  apply host_only_frame in Hho2 as Hf2. apply host_only_same_ready in Hho2 as Hr2.
  assert (frame s s2) as Hf' by (by eapply frame_trans). assert (same_ready s s2) as Hr' by (by eapply same_ready_trans).
  destruct o2 as [[[res [err|]]|u2]|]; [apply wp_ret; by split|apply wp_ret; subst; split; [done|by left]| |by split].
  eapply wp_mono; [by eapply updateNodeProviderID_spec|]. cbn beta.
  intros e3 s3 t3 o3 (Hh3 & _ & Hf3 & Ho3). split; [by eapply frame_trans|].
  destruct o3 as [[res [err|]]|]; [by subst| |by subst].
  destruct Ho3 as (-> & rc & id & Hrc & Hid & <- & Hready & _). right. split; [done|].
  exists h2, rc. split_and!; try done.
  { unfold client_for in *. by destruct Hf3 as (-> & _). }
  { eapply node_named_mono; [|exact Hid]. set_solver. }
  intros Hi. split.
  - assert (host_InstallationSecret h2 = host_InstallationSecret h1) as ->.
    { by destruct Heq2 as [-> |[ref ->]]. }
    by apply Ho1.
  - apply Ho2. destruct Hf as (_ & -> & _). done.
Qed.

Section NormalLaws.
  Context `{!CapiUtilLaws _, !KubeListLaws E}.

Lemma attach_post_frame s s' t o : attach_post s s' t o → frame s s' ∧ same_ready s s'.
Proof.
  unfold attach_post. destruct (sc_ByoHost s); [by intros (-> & _)|].
  destruct o as [[res [err|]]|].
  - by intros [[-> | ->] _].
  - by intros (host & ds & v & _ & _ & _ & -> & _).
  - by intros (-> & _).
Qed.

Lemma provision_spec e s : wp provision e s (λ _ s' t o, provision_post s s' t o).
Proof.
  unfold provision. apply wp_bind, wp_get_local.
  assert (∀ e s h, sc_ByoHost s = Some h → wp (
      let! s := get_local in
      (if bool_decide (bm_HostInfo (bm_Status (sc_ByoMachine s)) = HostInfo0) then
         let! h := the_host in update_machine (bm_set_HostInfo (HostDetails (host_Status h)))
       else ret tt) ;;;
      let! inst := secret_step (λ h, is_None (host_InstallationSecret h)) setInstallationSecretForByoHost in
      match inst with
      | inl res => ret res
      | inr _ =>
          let! uninst := secret_step (λ h, is_None (host_UninstallationSecret h)) setUninstallationSecretForByoHost in
          match uninst with
          | inl res => ret res
          | inr _ => updateNodeProviderID
          end
      end) e s (λ _ s' t o, provision_post s s' t o)) as Hrest.
  { intros e1 s1 h1 Hh1. apply wp_bind, wp_get_local, wp_bind. case_bool_decide.
    - apply wp_bind. eapply wp_the_host; [done|]. apply wp_modify.
      eapply wp_mono; [by eapply provision_attached|]. cbn beta.
      intros e2 s2 t2 o. apply provision_post_trans; [done|done|set_solver].
    - apply wp_ret. eapply wp_mono; [by eapply provision_attached|]. done. }
  destruct (sc_ByoHost s) as [h|] eqn:Hh.
  { apply wp_bind, wp_ret. eapply wp_mono; [by eapply Hrest|]. done. }
  apply wp_bind, wp_bind. eapply wp_mono; [apply attachByoHost_spec|]. cbn beta.
  intros e1 s1 t1 o1 Ha. destruct (attach_post_frame _ _ _ _ Ha) as [Hf Hr].
  destruct o1 as [[res [err|]]|]; [apply wp_ret, wp_ret; by split| |by split].
  unfold attach_post in Ha. rewrite Hh in Ha.
  destruct Ha as (host & ds & v & _ & _ & _ & Hs1 & _).
  apply wp_bind. unfold mark_machine_false, update_machine. apply wp_modify, wp_bind.
  eapply (wp_the_host _ _ (claim_host s ds v host)); [by rewrite Hs1|].
  apply wp_bind, wp_emit, wp_bind. unfold RecordMachine, Record_Event. apply wp_bind, wp_get_local, wp_emit, wp_ret.
  eapply wp_mono; [eapply (Hrest _ _ (claim_host s ds v host)); by rewrite Hs1|]. cbn beta.
  intros e2 s2 t2 o2. apply provision_post_trans; [by rewrite Hs1|by rewrite Hs1|]. set_solver.
Qed.

(** A machine becomes ready only on a claimed, equipped and named host. *)
Definition becomes_ready (s s' : byoMachineScope) (t : list Event)
    (o : Outcome (Result * option GoError)) : Prop :=
  o = Val (Result0, None) ∧
  clus_InfrastructureReady (sc_Cluster s) = true ∧ is_Some (mach_DataSecretName (sc_Machine s)) ∧
  on_named_node s s' t.

Definition normal_post (s s' : byoMachineScope) (t : list Event)
    (o : Outcome (Result * option GoError)) : Prop :=
  frame s s' ∧ (same_ready s s' ∨ becomes_ready s s' t o).

Lemma normal_post_trans s1 s2 s3 t t' o :
  frame s1 s2 → same_ready s1 s2 → t ⊆ t' → normal_post s2 s3 t o → normal_post s1 s3 t' o.
Proof.
  intros Hf12 Hr12 Hsub [Hf Ho]. split; [by eapply frame_trans|].
  destruct Ho as [Hr|(Ho & Hir & Hds & Hon)]; [left; by eapply same_ready_trans|right].
  split_and!; [done| | |by eapply on_named_node_mono]; destruct Hf12 as (_ & _ & Hm & Hc); by rewrite <- ?Hm, <- ?Hc.
Qed.
Lemma normal_post_frame s s' t o : frame s s' → same_ready s s' → normal_post s s' t o.
Proof. by split; [|left]. Qed.

Lemma await_cluster_spec e s : wp await_cluster e s (λ _ s' t o, normal_post s s' t o).
Proof.
  unfold await_cluster, mark_machine_false, update_machine. apply wp_bind, wp_get_local.
  destruct (clus_InfrastructureReady _) eqn:Hcr; cbn [negb]; [|wp_run; by apply normal_post_frame].
  destruct (mach_DataSecretName _) eqn:Hds; [|wp_run; by apply normal_post_frame].
  eapply wp_mono; [apply provision_spec|]. cbn beta. intros e2 s' t2 o2 [Hf Ho]. split; [done|].
  destruct o2 as [[res [err|]]|]; [by left| |by left].
  destruct Ho as [[_ ?]|[-> Hon]]; [by left|right]. split_and!; [done|done|by rewrite Hds|done].
Qed.

Lemma create_then_await_spec e s : wp create_then_await e s (λ _ s' t o, normal_post s s' t o).
Proof.
  unfold create_then_await. apply wp_bind, wp_get_local, wp_bind. destruct (bm_InstallerRef _).
  - eapply wp_mono; [apply createInstallerConfig_spec|]. cbn beta. intros e1 s1 t1 [[err|]|] (-> & _).
    + apply wp_ret. by apply normal_post_frame.
    + eapply wp_mono; [apply await_cluster_spec|]. cbn beta. intros e2 s2 t2 o2.
      apply normal_post_trans; [done|done|set_solver].
    + by apply normal_post_frame.
  - apply wp_ret. eapply wp_mono; [apply await_cluster_spec|]. done.
Qed.

Definition with_finalizer (s : byoMachineScope) : byoMachineScope :=
  sc_update_ByoMachine
    (bm_set_Meta (set_Finalizers (λ l, controllerutil_AddFinalizer l MachineFinalizer))) s.

Lemma reconcileNormal_spec e s :
  wp reconcileNormal e s (λ _ s' t o, normal_post (with_finalizer s) s' t o).
Proof.
  unfold reconcileNormal. apply wp_bind, wp_modify. fold (with_finalizer s).
  apply wp_bind, wp_get_local, wp_bind. set (s0 := with_finalizer s).
  destruct (sc_ByoHost s0) as [h|] eqn:Hh.
  - eapply wp_mono; [by eapply setPausedConditionForByoHost_spec|]. cbn beta.
    intros e1 s1 t1 o1 (Hho & [err ->] & _).
    apply host_only_frame in Hho as Hf. apply host_only_same_ready in Hho as Hr.
    destruct err as [err|]; [apply wp_ret; by apply normal_post_frame|].
    eapply wp_mono; [apply create_then_await_spec|]. cbn beta.
    intros e2 s2 t2 o2. apply normal_post_trans; [done|done|set_solver].
  - apply wp_ret. eapply wp_mono; [apply create_then_await_spec|]. done.
Qed.

(** The selector the controller looks an attached host up with. *)
Lemma FetchAttachedByoHost_spec {L} name ns e (l : L) :
  label_word ns = true → label_word name = true →
  wp (FetchAttachedByoHost name ns) e l (λ _ l' t o,
    l' = l ∧ o ≠ Panic ∧
    (∃ sel, t = [EvList KByoHost (mkListOptions sel "")] ∧
       ∀ ls, labels_Matches sel ls = true ↔
         ls !! AttachedByoMachineLabel = Some (generateSafeLabelValue ns name)) ∧
    ∀ h, o = Val (Ok (Some h)) →
      host_Labels h !! AttachedByoMachineLabel = Some (generateSafeLabelValue ns name)).
Proof.
  intros Hns Hn. unfold FetchAttachedByoHost.
  rewrite NewRequirement_Equals; [|reflexivity|by apply generateSafeLabelValue_valid_aux].
  apply wp_bind, wp_ret, wp_bind, wp_call. set (sel := labels_SelectorAdd _ _).
  assert (∀ ls, labels_Matches sel ls = true ↔
    ls !! AttachedByoMachineLabel = Some (generateSafeLabelValue ns name)) as Hsel.
  { intros ls. unfold sel. rewrite Matches_Add, Matches_Equals. pose proof (Matches_nil ls). tauto. }
  intros e1 [[|h hs]|err] Hlist; apply wp_ret; (split_and!; [done..|by exists sel|]); try done.
  intros h' [= <-]. apply Hsel. edestruct (List_selected KByoHost) as [Hm _]; [exact Hlist| |exact Hm].
  apply elem_of_cons. by left.
Qed.
End NormalLaws.

(** ** Deletion *)

Definition without_finalizer (s : byoMachineScope) : byoMachineScope :=
  sc_update_ByoMachine
    (bm_set_Meta (set_Finalizers (λ l, controllerutil_RemoveFinalizer l MachineFinalizer))) s.

Definition delete_post (s s' : byoMachineScope) (t : list Event)
    (o : Outcome (Result * option GoError)) : Prop :=
  match sc_ByoHost s with
  | None => o = Val (Result0, None) ∧ s' = without_finalizer s ∧ patches t = []
  | Some h =>
      let h' := marked_host (sc_ByoMachine s) h in
      let s1 := sc_set_ByoHost (Some h') s in
      match o with
      | Val (res, None) => res = Result0 ∧ s' = without_finalizer s1 ∧ patches t = [(OByoHost h, OByoHost h', None)]
      | Val (_, Some err) => s' = s1 ∧ patches t = [(OByoHost h, OByoHost h', Some err)]
      | Panic => s' = s1 ∧ patches t = []
      end
  end.

Lemma reconcileDelete_spec e s : wp reconcileDelete e s (λ _ s' t o, delete_post s s' t o).
Proof.
  unfold reconcileDelete, delete_post, update_machine. apply wp_bind, wp_get_local.
  destruct (sc_ByoHost s) as [h|] eqn:Hh; [|by wp_run].
  apply wp_bind. eapply wp_mono; [by eapply markHostForCleanup_spec|]. cbn beta.
  intros e1 s1 t1 [[err|]|] (-> & ->); [by wp_run| |done].
  apply wp_bind. eapply wp_the_host; [done|]. unfold RecordMachine, Record_Event. wp_run. done.
Qed.

(** ** Pausing *)
Lemma dispatch_paused refHost e s :
  annotations_IsPaused (sc_Cluster s) (bm_Meta (sc_ByoMachine s)) = true →
  wp (dispatch refHost) e s (λ _ s' t o,
    sc_ByoMachine s' = sc_ByoMachine s ∧ patches t = [] ∨
    sc_ByoMachine s' = sc_ByoMachine (marked_machine ClusterOrResourcePausedReason s) ∧
    (patches t = [] ∨ ∃ h err, patches t = [(OByoHost h,
       OByoHost (host_set_Annotations (λ a, annotations_AddAnnotations a {[PausedAnnotation := ""]}) h),
       err)])).
Proof.
  intros Hp. unfold dispatch. apply wp_bind, wp_get_local. rewrite Hp. apply wp_bind, wp_bind, wp_NewHelper.
  { intros e3 err. apply wp_ret, wp_ret. by left. }
  intros e3. cbn iota. apply wp_ret, wp_bind, wp_put_local, wp_bind.
  unfold mark_machine_false, update_machine. destruct refHost as [h|]; [|wp_run; right; by auto].
  apply wp_bind. eapply wp_mono; [by eapply setPausedConditionForByoHost_spec|]. cbn beta.
  intros e4 s4 t4 o4 (Hho & [err ->] & Hpat). wp_run. right.
  split; [by rewrite Hho|]. trace_simpl.
  destruct Hpat as [[-> _]|(err' & h' & _ & -> & _ & ->)]; [by left|]. right. simpl. eauto.
Qed.
End Reconciler.

(** ** Theorems *)
Section Theorems.
  Context {E : Type} `{!Kube E, !CapiUtil E, !MachineLibs E, !ConditionsUtil}.

(** C17. The reservation.  When it succeeds, one
    accepted patch turned a host that was free (in no cluster, in the
    machine's namespace, selected by the machine) into the claimed one:
    machine reference, both labels, bootstrap secret and the three
    annotations, and the scope holds it; when it fails, no patch was
    accepted and the scope has no host; a scope that has a host is left alone. *)
Theorem attach_reserves_free_host `{!CapiUtilLaws _, !KubeListLaws E} (e : E) (s : byoMachineScope) :
  wp attachByoHost e s (λ _ s' t o, attach_post s s' t o).
Proof. apply attachByoHost_spec. Qed.

(** The label the reservation writes is the one
    the next reconciliation looks for: the lookup cannot panic, lists with a
    selector that matches a claimed host exactly when the label values of
    the two machines agree (by [generateSafeLabelValue_inj], for names of
    less than 63 bytes, when they are the same machine), and returns only
    hosts that carry the value. *)
Theorem attached_host_is_found `{!CapiUtilLaws _, !KubeListLaws E} {L : Type}
    (name ns : string) (s : byoMachineScope) (ds v : string) (host : ByoHost) (e : E) (l : L) :
  label_word ns = true → label_word name = true →
  wp (FetchAttachedByoHost name ns) e l (λ _ _ t o,
    o ≠ Panic ∧
    (∃ sel, t = [EvList KByoHost (mkListOptions sel "")] ∧
       (labels_Matches sel (host_Labels (claim_host s ds v host)) = true ↔
        generateSafeLabelValue (bm_Namespace (sc_ByoMachine s)) (bm_Name (sc_ByoMachine s)) =
        generateSafeLabelValue ns name)) ∧
    ∀ h, o = Val (Ok (Some h)) →
      host_Labels h !! AttachedByoMachineLabel = Some (generateSafeLabelValue ns name)).
Proof.
  intros Hns Hn. eapply wp_mono; [by apply FetchAttachedByoHost_spec|]. cbn beta.
  intros e' l' t o (_ & Ho & (sel & -> & Hsel) & Hh). split_and!; [done| |done].
  exists sel. split; [done|]. rewrite Hsel. unfold claim_host, host_set_Labels. cbn.
  rewrite lookup_insert_eq. split; congruence.
Qed.

(** C18. A reconciliation of a live machine makes it
    ready (or touches its provider ID) only when the cluster infrastructure
    is ready, the bootstrap data exists, a host is attached that has, when
    the machine names an installer, both installer secrets, and the node of
    that host carries the provider ID now in the machine: the run read that
    node through a client of the cluster the machine's metadata names, and
    the node had this ID, in the form of the host, or it had none and the
    workload cluster accepted the patch that set it.  Whatever the outcome,
    the machine the handler leaves, for the deferred patch, has the
    finalizer. *)
Theorem machine_ready_sound `{!CapiUtilLaws _, !KubeListLaws E} (e : E) (s : byoMachineScope) :
  wp reconcileNormal e s (λ _ s' t o,
    MachineFinalizer ∈ meta_Finalizers (bm_Meta (sc_ByoMachine s')) ∧
    (same_ready s s' ∨
     o = Val (Result0, None) ∧
     clus_InfrastructureReady (sc_Cluster s) = true ∧ is_Some (mach_DataSecretName (sc_Machine s)) ∧
     ∃ host rc, sc_ByoHost s' = Some host ∧ client_for (sc_ByoMachine s') rc ∧
       node_named rc host (bm_ProviderID (bm_Spec (sc_ByoMachine s'))) t ∧
       bm_Ready (bm_Status (sc_ByoMachine s')) = true ∧
       (is_Some (bm_InstallerRef (bm_Spec (sc_ByoMachine s))) →
        is_Some (host_InstallationSecret host) ∧ is_Some (host_UninstallationSecret host)))).
Proof.
  eapply wp_mono; [apply reconcileNormal_spec|]. cbn beta. intros e' s' t o [(Hm & _) Ho].
  split; [|exact Ho]. rewrite Hm. cbn. apply AddFinalizer_in. by left.
Qed.

(** C19. Deleting a machine removes its finalizer
    only after a patch that marks its host for cleanup was accepted, or when
    no host is attached; when the patch fails the machine keeps its
    finalizer and nothing else of it changed, so the deletion is retried.
    The mark keeps the pf9 cluster labels exactly when an upgrade is in
    progress, and leaves the claim on the host as it is. *)
Theorem delete_marks_then_releases `{!CapiUtilLaws _} (e : E) (s : byoMachineScope) :
  wp reconcileDelete e s (λ _ s' t o,
    (MachineFinalizer ∈ meta_Finalizers (bm_Meta (sc_ByoMachine s)) →
     MachineFinalizer ∉ meta_Finalizers (bm_Meta (sc_ByoMachine s')) →
     o = Val (Result0, None) ∧
     (sc_ByoHost s = None ∨
      ∃ h h', sc_ByoHost s = Some h ∧ patches t = [(OByoHost h, OByoHost h', None)] ∧
        host_Annotations h' = <[HostCleanupAnnotation := ""]> (host_Annotations h) ∧
        host_MachineRef h' = host_MachineRef h ∧ host_Spec h' = host_Spec h ∧
        host_Labels h' =
          (if bool_decide (meta_Annotations (bm_Meta (sc_ByoMachine s)) !! UpgradeInProgressAnnotation = Some "true")
           then host_Labels h else delete ClusterLabelCP (delete ClusterLabel (host_Labels h))))) ∧
    (∀ res err, o = Val (res, Some err) → sc_ByoMachine s' = sc_ByoMachine s)).
Proof.
  eapply wp_mono; [apply reconcileDelete_spec|].
  cbn beta. unfold delete_post. intros e' s' t o Hd.
  destruct (sc_ByoHost s) as [h|] eqn:Hh.
  2:{ destruct Hd as (-> & -> & _). split; [eauto|done]. }
  destruct o as [[res [err|]]|].
  - destruct Hd as (-> & _). by split.
  - destruct Hd as (-> & -> & Hp). split; [|done]. intros _ _. split; [done|]. right.
    eexists h, _. split_and!; [done|exact Hp|..]; unfold marked_host; by case_bool_decide.
  - destruct Hd as (-> & _). by split.
Qed.

(** The provider ID a host's node ends up
    with: an existing one is kept, untouched, when it has the form of the
    host, and refused otherwise; a missing one is set by one patch to the
    prefix, the host's name and a random suffix, and the form check accepts
    it from then on, so repeating the operation keeps it. *)
Theorem setNodeProviderID_sound `{!RandomLaws E} (rc : RemoteClient) (host : ByoHost) (e : E)
    (s : byoMachineScope) :
  dns_name (host_Name host) = true →
  wp (setNodeProviderID rc host) e s (λ _ s' t o,
    s' = s ∧ ∃ id err, o = Val (id, err) ∧
    (err = None → provider_id_ok (host_Name host) id ∧
      (∃ node, t = [EvRemoteGetNode (node_key host) (Ok node)] ∨
         node_ProviderID node = "" ∧
         t = [EvRemoteGetNode (node_key host) (Ok node);
              EvRemotePatchNode node (mkNode (node_Meta node) id) None]))).
Proof.
  intros Hn. eapply wp_mono; [apply setNodeProviderID_spec|]. cbn beta.
  intros e' s' t [[id err]|] (-> & _ & Ho); [|done]. split; [done|].
  exists id, err. split; [done|]. intros ->. destruct Ho as [_ [[Hok [node ->]]|(node & e0 & -> & Hempty & ->)]].
  - split; [done|]. exists node. by left.
  - split; [|exists node; by right].
    apply provider_id_generated; [done|apply alnum_dns, RandomString_alnum|].
    intros Heq. pose proof (RandomString_length ProviderIDSuffixLength e0) as Hl. by rewrite Heq in Hl.
Qed.

(** What the form check accepts, for a host name
    without dots: the IDs that contain the prefix, the host's name, a slash
    and at least one more byte (the pattern is not anchored, so anything may
    stand before). *)
Theorem provider_id_form (name id : string) :
  dns_name name = true → contains_char (chr 46) name = false →
  regexp_MatchString (ProviderIDPrefix +:+ name +:+ "/.+") id = Ok true ↔
  ∃ pre c post, id = pre +:+ ProviderIDPrefix +:+ name +:+ "/" +:+ String c post ∧ c ≠ chr 10.
Proof.
  intros Hn Hd. change (regexp_MatchString _ _ = _) with (provider_id_ok name id).
  rewrite provider_id_ok_iff by done.
  assert (contains_char (chr 46) (ProviderIDPrefix +:+ name +:+ "/") = false) as Hdot.
  { by rewrite !contains_char_app, Hd. }
  assert (∀ c, is_char 10 c = false ↔ c ≠ chr 10) as Hnl.
  { intros c. unfold is_char. rewrite Nat.eqb_neq. split; intros Hc Heq; apply Hc.
    - by rewrite Heq.
    - unfold chr. by rewrite <- Heq, Ascii.ascii_nat_embedding. }
  split.
  - intros (pre & w & c & post & -> & Hw%like_eq & Hc); [|done]. subst w.
    exists pre, c, post. split; [by rewrite <- !string_app_assoc|by apply Hnl].
  - intros (pre & c & post & -> & Hc). exists pre, (ProviderIDPrefix +:+ name +:+ "/"), c, post.
    split_and!; [by rewrite <- !string_app_assoc| |by apply Hnl].
    apply like_refl. rewrite !contains_char_app, (dns_no_newline name Hn). reflexivity.
Qed.

(** While the cluster or the machine is
    paused, a reconciliation changes nothing of the machine but its
    conditions (no finalizer is added or removed, no host is reserved or
    released), and the only patch it sends adds the paused annotation to the
    attached host. *)
Theorem paused_machine_is_left_alone (e : E) (s : byoMachineScope) :
  annotations_IsPaused (sc_Cluster s) (bm_Meta (sc_ByoMachine s)) = true →
  wp reconcile_machine e s (λ _ s' t o,
    bm_Meta (sc_ByoMachine s') = bm_Meta (sc_ByoMachine s) ∧
    bm_Spec (sc_ByoMachine s') = bm_Spec (sc_ByoMachine s) ∧
    bm_Ready (bm_Status (sc_ByoMachine s')) = bm_Ready (bm_Status (sc_ByoMachine s)) ∧
    (patches t = [] ∨
     ∃ h err, patches t =
       [(OByoHost h,
         OByoHost (host_set_Annotations (λ a, annotations_AddAnnotations a {[PausedAnnotation := ""]}) h),
         err)])).
Proof.
  intros Hp. unfold reconcile_machine, FetchAttachedByoHost. apply wp_bind, wp_get_local, wp_bind, wp_bind.
  apply wp_deref. destruct (match labels_NewRequirement _ _ _ with Ok req => _ | Err _ => _ end); [|by auto].
  apply wp_bind, wp_call. intros e1 hosts _.
  destruct hosts as [[|h hs]|err]; apply wp_ret.
  3: apply wp_ret; auto.
  all: eapply wp_mono; [by apply dispatch_paused|]; cbn beta; intros e4 s4 t4 o4 [[-> ?]|[-> ?]]; auto.
Qed.

(** The deferred patch of the machine: once
    the machine, its owner, its cluster and the infrastructure cluster are
    there, every reconciliation ends with one patch of what the handlers
    left of the machine, also when they fail or panic, and reports success
    only when that patch was accepted; before that point nothing is patched. *)
Theorem machine_Reconcile_persists (req : NamespacedName) (e : E) :
  wp (Reconcile req) e tt (λ _ _ t o,
    patches t = [] ∨
    ∃ m s s' e1 tb ob perr, sc_ByoMachine s = m ∧ sc_ByoHost s = None ∧
      wp reconcile_machine e1 s (λ _ l t o, l = s' ∧ t = tb ∧ o = ob) ∧
      (o = Panic ∧ patches t = patches tb ∨
       patches t = patches tb ++ [(OByoMachine m, OByoMachine (sc_ByoMachine s'), perr)] ∧
       o = with_patch perr ob)).
Proof.
  unfold Reconcile, Get. apply wp_bind, wp_call. intros e1 [m|err] _; [|wp_run; by left].
  apply wp_bind, wp_call. intros e2 [[machine|]|err] _; [|wp_run; by left..].
  apply wp_bind, wp_call. intros e3 [[cluster|]|err] _; [|wp_run; by left..].
  apply wp_bind, wp_deref. destruct (clus_InfrastructureRef cluster) as [ref|]; [|by left].
  apply wp_bind, wp_call. intros e4 [bc|err] _; [|wp_run; by left].
  apply wp_bind, wp_NewHelper; [intros e5 herr|intros e5]; cbn iota;
    apply wp_scoped_patch, wp_intro; intros e6 s6 tb ob Hb;
    [intros e7|intros e7 perr]; right;
    exists m, (mkScope cluster machine bc m None), s6, e5, tb, ob;
    [exists None|exists perr]; (split_and!; [done|done|unfold wp; by rewrite Hb|]).
  - left. by trace_simpl.
  - right. by trace_simpl.
Qed.

(** A machine without a Kubernetes
    version cannot be given a host: where a free host is listed the
    reservation dereferences the nil version and panics, without a patch. *)
Theorem attach_without_version_panics (e : E) (s : byoMachineScope) :
  sc_ByoHost s = None → mach_Version (sc_Machine s) = None →
  wp attachByoHost e s (λ _ s' t o,
    patches t = [] ∧ (o = Panic ∨ ∃ res err, o = Val (res, Some err))).
Proof.
  intros Hh Hv. unfold attachByoHost, attach_selector. apply wp_bind, wp_get_local. rewrite Hh.
  apply wp_bind. destruct (match bm_Selector _ with Some _ => _ | None => _ end) as [sel|err]; [|wp_run; eauto].
  apply wp_bind, wp_deref. destruct (match labels_NewRequirement _ _ _ with Ok req => _ | Err _ => _ end); [|by auto].
  apply wp_ret, wp_bind, wp_call. intros e1 [[|host hosts]|err] _.
  - unfold RecordMachine, Record_Event, mark_machine_false, update_machine. wp_run. eauto.
  - apply wp_bind, wp_NewHelper; intros; rewrite Hv; wp_run; auto.
  - wp_run. eauto.
Qed.

(** The watch on hosts: an event of a
    claimed host enqueues exactly the machine that claimed it, when the
    controlled kind is the machine's; a host without a machine reference, or
    with a reference of another kind, enqueues nothing. *)
Theorem claimed_host_maps_to_machine (gvk : GVK) (s : byoMachineScope) (ds v : string) (h : ByoHost) :
  let bm := sc_ByoMachine s in
  let g := schema_FromAPIVersionAndKind (tm_APIVersion (bm_Type bm)) (tm_Kind (bm_Type bm)) in
  ByoHostToByoMachineMapFunc gvk (OByoHost (claim_host s ds v h)) =
    (if bool_decide (gvk_Group gvk = gvk_Group g ∧ gvk_Kind gvk = gvk_Kind g)
     then [mkKey (bm_Namespace bm) (bm_Name bm)] else []) ∧
  ByoHostToByoMachineMapFunc gvk (OByoHost (host_set_MachineRef None h)) = [].
Proof.
  split; [|done]. unfold ByoHostToByoMachineMapFunc. cbn.
  case_bool_decide as H1; case_bool_decide as H2; try done; exfalso.
  - apply H1. destruct H2. by f_equal.
  - apply H2. by injection H1.
Qed.
End Theorems.
