(* ===== verification/Installer.v ===== *)
(** * The installer library (installer/, installer/internal/algo)

    The registry of supported operating systems and Kubernetes versions, the
    addresses of bundles, and the choice of an installer with its rendered
    scripts.  Theorems: the registry is built without panicking, and what
    [NewInstaller] returns on every input. *)

From S2P Require Import Prelude GoStrings Encoding Regex Api Platform.

(** ** registry.go *)

Record filterOsBundlePair := mkFilterOsBundlePair { osFilter : string; osBundle : string }.
Record filterK8sBundle := mkFilterK8sBundle { k8sFilter : string }.

Record registry := mkRegistry {
  osk8sInstallerMap : gmap string (gmap string unit);
  filterOSBundleList : list filterOsBundlePair;
  filterK8sBundleList : list filterK8sBundle }.

Definition newRegistry : registry := mkRegistry ∅ [] [].

(** Adding a pair twice panics. *)
Definition AddBundleInstaller (os k8sVer : string) (r : registry) : Outcome registry :=
  let m := osk8sInstallerMap r in
  let m := match m !! os with Some _ => m | None => <[os := ∅]> m end in
  let versions := default ∅ (m !! os) in
  match versions !! k8sVer with
  | Some _ => Panic
  | None => Val (mkRegistry (<[os := <[k8sVer := tt]> versions]> m)
                   (filterOSBundleList r) (filterK8sBundleList r))
  end.

Definition AddOsFilter (filter bundle : string) (r : registry) : registry :=
  mkRegistry (osk8sInstallerMap r) (filterOSBundleList r ++ [mkFilterOsBundlePair filter bundle])
    (filterK8sBundleList r).

Definition AddK8sFilter (filter : string) (r : registry) : registry :=
  mkRegistry (osk8sInstallerMap r) (filterOSBundleList r)
    (filterK8sBundleList r ++ [mkFilterK8sBundle filter]).

Definition ListOS (r : registry) : list string * list string :=
  (osFilter <$> filterOSBundleList r, osBundle <$> filterOSBundleList r).

(** A pattern that does not compile matches nothing. *)
Definition os_matches (pattern os : string) : bool :=
  match regexp_MatchString pattern os with Ok b => b | Err _ => false end.

Fixpoint resolve (l : list filterOsBundlePair) (os : string) : string :=
  match l with
  | [] => ""
  | fbp :: rest => if os_matches (osFilter fbp) os then osBundle fbp else resolve rest os
  end.

Definition ResolveOsToOsBundle (r : registry) (os : string) : string :=
  resolve (filterOSBundleList r) os.

(** The keys come in no particular order. *)
Definition ListK8s (r : registry) (osBundleHost : string) : list string :=
  match osk8sInstallerMap r !! osBundleHost with
  | Some k8sMap => (map_to_list k8sMap).*1
  | None =>
      (map_to_list (default ∅ (osk8sInstallerMap r !! ResolveOsToOsBundle r osBundleHost))).*1
  end.

Definition linuxDistro20_04 : string := "Ubuntu_20.04.1_x86-64".
Definition linuxDistro22_04 : string := "Ubuntu_22.04_x86-64".
Definition filter20_04 : string := "Ubuntu_20.04.*_x86-64".
Definition filter22_04 : string := "Ubuntu_22.04.*_x86-64".

Definition GetSupportedRegistry : Outcome registry :=
  match AddBundleInstaller linuxDistro20_04 "v1.31.*" newRegistry with
  | Panic => Panic
  | Val reg =>
      match AddBundleInstaller linuxDistro22_04 "v1.31.*" reg with
      | Panic => Panic
      | Val reg =>
          let reg := AddK8sFilter "v1.31.*" reg in
          let reg := AddOsFilter filter20_04 linuxDistro20_04 reg in
          Val (AddOsFilter filter22_04 linuxDistro22_04 reg)
      end
  end.

(** ** bundle_downloader.go *)

Record bundleDownloader := mkBundleDownloader {
  bundleType : string; repoAddr : string; downloadPath : string }.

Definition NewBundleDownloader (bundleType repoAddr downloadPath : string) : bundleDownloader :=
  mkBundleDownloader bundleType repoAddr downloadPath.

Definition GetBundleName (normalizedOsVersion : string) : string :=
  ToLower ("byoh-bundle-" +:+ normalizedOsVersion +:+ "_k8s").

Definition GetBundleAddr (bd : bundleDownloader) (normalizedOsVersion k8sVersion : string) : string :=
  repoAddr bd +:+ "/" +:+ GetBundleName normalizedOsVersion +:+ ":" +:+ k8sVersion.

Definition getBundlePathWithRepo (bd : bundleDownloader) : string :=
  filepath_Join [downloadPath bd; ReplaceAll (repoAddr bd) "/" "."].

Definition GetBundleDirPath (bd : bundleDownloader) (k8sVersion : string) : string :=
  filepath_Join [getBundlePathWithRepo bd; bundleType bd] +:+ "-" +:+ k8sVersion.

(** ** internal/algo *)

Definition ImgpkgVersion : string := "v0.36.4".
Definition systemdCgroupConfig : string :=
  let bs := String (chr 92) EmptyString in
  "sed -i s/SystemdCgroup" +:+ bs +:+ " =" +:+ bs +:+ " false/SystemdCgroup" +:+ bs +:+ " =" +:+ bs +:+
  " true/ /etc/containerd/config.toml".

(** The data of the two templates. *)
Record ScriptData := mkScriptData {
  sd_BundleAddrs : string; sd_Arch : string; sd_ImgpkgVersion : string;
  sd_ContainerdConfig : string; sd_BundleDownloadPath : string; sd_SkipKernelModuleCleanup : bool }.

(** html/template, and the two embedded template files. *)
Class ScriptTemplates := {
  HtmlTmpl : Type;
  html_Parse : string → result HtmlTmpl;
  html_Execute : HtmlTmpl → ScriptData → result string;
  commonUbuntuInstallTemplate : string;
  commonUbuntuUninstallTemplate : string }.

Record BaseUbuntuInstaller := mkBaseUbuntuInstaller { install : string; uninstall : string }.

Section Algo.
  Context `{!ScriptTemplates}.

Definition NewBaseUbuntuInstaller (arch bundleAddrs containerdConfig : string)
    (skipKernelModuleCleanup : bool) : result BaseUbuntuInstaller :=
  if bool_decide (commonUbuntuInstallTemplate = "") then
    Err (errors_New "install template is empty - template file may be missing")
  else if bool_decide (commonUbuntuUninstallTemplate = "") then
    Err (errors_New "uninstall template is empty - template file may be missing")
  else
    let data := mkScriptData bundleAddrs arch ImgpkgVersion containerdConfig
                  "/var/lib/byoh/bundles" skipKernelModuleCleanup in
    match html_Parse commonUbuntuInstallTemplate with
    | Err err => Err (errors_New ("failed to parse install template: " +:+ err_msg err))
    | Ok installTemplate =>
        match html_Parse commonUbuntuUninstallTemplate with
        | Err err => Err (errors_New ("failed to parse uninstall template: " +:+ err_msg err))
        | Ok uninstallTemplate =>
            match html_Execute installTemplate data with
            | Err err => Err (errors_New ("failed to execute install template: " +:+ err_msg err))
            | Ok install =>
                match html_Execute uninstallTemplate data with
                | Err err => Err (errors_New ("failed to execute uninstall template: " +:+ err_msg err))
                | Ok uninstall => Ok (mkBaseUbuntuInstaller install uninstall)
                end
            end
        end
    end.

(** [K8sInstaller]: the interface with its two implementations. *)
Inductive K8sInstaller :=
  | Ubuntu20_04Installer (base : BaseUbuntuInstaller)
  | Ubuntu22_04Installer (base : BaseUbuntuInstaller).

Definition Install (i : K8sInstaller) : string :=
  match i with Ubuntu20_04Installer b | Ubuntu22_04Installer b => install b end.
Definition Uninstall (i : K8sInstaller) : string :=
  match i with Ubuntu20_04Installer b | Ubuntu22_04Installer b => uninstall b end.

Definition NewUbuntu20_04Installer (arch bundleAddrs : string) (skip : bool) : result K8sInstaller :=
  match NewBaseUbuntuInstaller arch bundleAddrs "" skip with
  | Err err => Err err
  | Ok base => Ok (Ubuntu20_04Installer base)
  end.
Definition NewUbuntu22_04Installer (arch bundleAddrs : string) (skip : bool) : result K8sInstaller :=
  match NewBaseUbuntuInstaller arch bundleAddrs systemdCgroupConfig skip with
  | Err err => Err err
  | Ok base => Ok (Ubuntu22_04Installer base)
  end.

(** ** installer.go *)

Definition ErrOsK8sNotSupported : GoError := errors_New "No k8s support for OS".
Definition ErrInstallerCreation : GoError := errors_New "Error creating installer".

Definition archOldNameMap : gmap string string := {["amd64" := "x86-64"]}.

(** The image and the architecture as bundles name them. *)
Definition bundle_os (osDist arch : string) : string :=
  let bundleArchName := match archOldNameMap !! arch with Some n => n | None => arch end in
  ReplaceAll osDist " " "_" +:+ "_" +:+ bundleArchName.

Definition NewInstaller (osDist arch k8sVersion : string) (downloader : bundleDownloader)
    (skipKernelModuleCleanup : bool) : Outcome (result K8sInstaller) :=
  let osArch := bundle_os osDist arch in
  match GetSupportedRegistry with
  | Panic => Panic
  | Val reg =>
      if length (ListK8s reg osArch) =? 0 then Val (Err ErrOsK8sNotSupported)
      else
        let osbundle := ResolveOsToOsBundle reg osArch in
        let addrs := GetBundleAddr downloader osbundle k8sVersion in
        let installer :=
          if Contains osbundle "Ubuntu_22.04"
          then NewUbuntu22_04Installer arch addrs skipKernelModuleCleanup
          else NewUbuntu20_04Installer arch addrs skipKernelModuleCleanup in
        match installer with
        | Err err =>
            Val (Err (mkError (err_kind ErrInstallerCreation)
                        (err_msg ErrInstallerCreation +:+ ": " +:+ err_msg err)))
        | Ok i => Val (Ok i)
        end
  end.

(** ** The registry *)

Definition supported : registry :=
  mkRegistry (<[linuxDistro22_04 := {["v1.31.*" := tt]}]> {[linuxDistro20_04 := {["v1.31.*" := tt]}]})
    [mkFilterOsBundlePair filter20_04 linuxDistro20_04; mkFilterOsBundlePair filter22_04 linuxDistro22_04]
    [mkFilterK8sBundle "v1.31.*"].

Lemma GetSupportedRegistry_eq : GetSupportedRegistry = Val supported.
Proof. vm_compute. reflexivity. Qed.

Lemma supported_lookup os :
  osk8sInstallerMap supported !! os =
    if bool_decide (os = linuxDistro20_04 ∨ os = linuxDistro22_04) then Some {["v1.31.*" := tt]} else None.
Proof.
  unfold supported. cbn [osk8sInstallerMap]. case_bool_decide as Hos.
  - destruct Hos as [-> | ->]; reflexivity.
  - rewrite lookup_insert_ne by (intros <-; tauto). apply lookup_singleton_ne. intros <-. tauto.
Qed.

Lemma bundle_names_match :
  os_matches filter20_04 linuxDistro20_04 = true ∧ os_matches filter20_04 linuxDistro22_04 = false ∧
  os_matches filter22_04 linuxDistro22_04 = true.
Proof. vm_compute. done. Qed.

Lemma resolve_supported os :
  ResolveOsToOsBundle supported os =
    if os_matches filter20_04 os then linuxDistro20_04
    else if os_matches filter22_04 os then linuxDistro22_04 else "".
Proof. reflexivity. Qed.

(** The registry lists a version exactly for the systems a filter matches. *)
Lemma ListK8s_supported os :
  length (ListK8s supported os) = if os_matches filter20_04 os || os_matches filter22_04 os then 1 else 0.
Proof.
  unfold ListK8s. rewrite supported_lookup, resolve_supported.
  destruct bundle_names_match as (H20 & H2022 & H22).
  case_bool_decide as Hos.
  { destruct Hos as [-> | ->]; rewrite ?H20, ?H2022, ?H22; reflexivity. }
  rewrite supported_lookup.
  destruct (os_matches filter20_04 os); [reflexivity|].
  destruct (os_matches filter22_04 os); reflexivity.
Qed.
End Algo.

Lemma NewInstaller_no_panic `{!ScriptTemplates} osDist arch k8sVersion bd skip :
  NewInstaller osDist arch k8sVersion bd skip ≠ Panic.
Proof.
  unfold NewInstaller. rewrite GetSupportedRegistry_eq. destruct (_ =? 0); [done|].
  cbn zeta. by case_match.
Qed.

(** ** What the filters match *)

Fixpoint no_newline (s : string) : bool :=
  match s with EmptyString => true | String c s' => negb (is_char 10 c) && no_newline s' end.

Lemma matches_dots l : matches (RStar (RTest TDot)) l ↔ ∃ s, l = syms s ∧ no_newline s = true.
Proof.
  split.
  - remember (RStar (RTest TDot)) as r eqn:Hr. induction 1; try discriminate.
    + by exists EmptyString.
    + injection Hr as ->. destruct IHmatches2 as (s & -> & Hs); [done|].
      apply matches_test in H as (y & Heq & Hy). simplify_eq. destruct y as [|c|]; try done.
      exists (String c s). split; [done|]. change (negb (is_char 10 c) = true) in Hy. cbn [no_newline]. by rewrite Hy.
  - intros (s & -> & Hs). induction s as [|c s IH]; [constructor|].
    apply andb_prop in Hs as [Hc Hs].
    apply (M_star_app (RTest TDot) (SChar c) [] (syms s)); [by constructor|auto].
Qed.

(** The strings an OS filter [base.*_x86-64] matches. *)
Lemma match_filter base pattern r x :
  regexp_Compile pattern = Some r → r = chain base (RSeq (RStar (RTest TDot)) (chain "_x86-64" REps)) →
  base ≠ "" →
  os_matches pattern x = true ↔
  ∃ pre w mid post, x = pre +:+ w +:+ mid +:+ "_x86-64" +:+ post ∧ like base w ∧ no_newline mid = true.
Proof.
  intros Hc -> Hb. unfold os_matches, regexp_MatchString. rewrite Hc, search_spec.
  setoid_rewrite matches_chain. setoid_rewrite matches_seq_split.
  setoid_rewrite matches_dots. setoid_rewrite matches_chain. split.
  - intros (l1 & l & l2 & Ht & w & ? & -> & Hw & ? & ? & -> & (mid & -> & Hm) & u & ? & -> & Hu & ->%matches_eps).
    apply like_eq in Hu as ->; [|reflexivity].
    assert (text x = l1 ++ syms (w +:+ mid +:+ "_x86-64") ++ l2) as Hp.
    { rewrite Ht, !syms_app. cbn. by rewrite <- !app_assoc. }
    assert (∃ pre post, x = pre +:+ (w +:+ mid +:+ "_x86-64") +:+ post) as (pre & post & ->).
    { destruct base as [|b base], w as [|d w]; try done. by apply text_piece in Hp. }
    exists pre, w, mid, post. split_and!; [|done..]. by rewrite <- !string_app_assoc.
  - intros (pre & w & mid & post & -> & Hw & Hm).
    exists (SBegin :: syms pre), (syms w ++ syms mid ++ syms "_x86-64" ++ []), (syms post ++ [SEnd]). split.
    + unfold text. rewrite !syms_app. cbn. by rewrite <- !app_assoc.
    + exists w, (syms mid ++ syms "_x86-64" ++ []). split_and!; [done|done|].
      exists (syms mid), (syms "_x86-64" ++ []). split_and!; [done|eauto|].
      exists "_x86-64", []. split_and!; [done|by vm_compute|constructor].
Qed.

(** ** Theorems *)
Section Theorems.
  Context `{!ScriptTemplates}.

(** C20. What [NewInstaller] returns, on every input:
    never a panic; the 20.04 installer with the address of its bundle when
    the normalized image matches the first filter, the 22.04 one when it
    matches only the second, and [ErrOsK8sNotSupported] when it matches
    neither.  A failure to render the scripts is reported as an error of
    the installer's creation. *)
Theorem NewInstaller_total (osDist arch k8sVersion : string) (bd : bundleDownloader) (skip : bool) :
  NewInstaller osDist arch k8sVersion bd skip =
  let os := bundle_os osDist arch in
  let created (i : result K8sInstaller) :=
    match i with
    | Ok i => Ok i
    | Err err => Err (errors_New ("Error creating installer: " +:+ err_msg err))
    end in
  Val (if os_matches filter20_04 os
       then created (NewUbuntu20_04Installer arch (GetBundleAddr bd linuxDistro20_04 k8sVersion) skip)
       else if os_matches filter22_04 os
       then created (NewUbuntu22_04Installer arch (GetBundleAddr bd linuxDistro22_04 k8sVersion) skip)
       else Err ErrOsK8sNotSupported).
Proof.
  unfold NewInstaller. rewrite GetSupportedRegistry_eq, ListK8s_supported, resolve_supported. cbn zeta.
  destruct (os_matches filter20_04 _); cbn [orb].
  - change (1 =? 0) with false. change (Contains linuxDistro20_04 "Ubuntu_22.04") with false. cbn iota.
    by destruct (NewUbuntu20_04Installer _ _ _).
  - destruct (os_matches filter22_04 _).
    + change (1 =? 0) with false. change (Contains linuxDistro22_04 "Ubuntu_22.04") with true. cbn iota.
      by destruct (NewUbuntu22_04Installer _ _ _).
    + reflexivity.
Qed.

(** Which images the two filters select: those that
    contain, after any prefix, the distribution and version (a dot of the
    version standing for any byte) and later the architecture [_x86-64]. *)
Theorem os_filter_form (os : string) :
  (os_matches filter20_04 os = true ↔
   ∃ pre w mid post, os = pre +:+ w +:+ mid +:+ "_x86-64" +:+ post ∧
     like "Ubuntu_20.04" w ∧ no_newline mid = true) ∧
  (os_matches filter22_04 os = true ↔
   ∃ pre w mid post, os = pre +:+ w +:+ mid +:+ "_x86-64" +:+ post ∧
     like "Ubuntu_22.04" w ∧ no_newline mid = true).
Proof. split; (eapply match_filter; [vm_compute; reflexivity|reflexivity|done]). Qed.
End Theorems.
