(* ===== verification/InstallerConfig.v ===== *)
(** * The K8sInstallerConfig controller (controllers/infrastructure/k8sinstallerconfig_controller.go)

    Generates the install and uninstall scripts for a machine's host, stores
    them in two secrets and publishes the references.  The local store of the
    handlers is the configuration object.  Theorems: a ready configuration
    has both references, what is stored where, and when nothing is stored. *)

From S2P Require Import Prelude GoStrings Encoding Regex Api SafeLabel Platform Installer.

(** [schema.ParseGroupVersion] and [schema.FromAPIVersionAndKind] *)
Class SchemaLibs := {
  schema_ParseGroupVersion : string → result (string * string);
  schema_GVK : string → string → GVK }.

Section Controller.
  Context {E : Type} `{!Kube E, !CapiUtil E, !ConditionsUtil, !ScriptTemplates, !SchemaLibs}.

Abbreviation CM := (M Event E K8sInstallerConfig).

(** ** Owners *)

Definition GetByoMachineByName {L} (namespace name : string) : M Event E L (result ByoMachine) :=
  Get KByoMachine (mkKey namespace name).

(** A nil machine without an error is [Ok None]. *)
Fixpoint GetOwnerByoMachine {L} (ns : string) (refs : list OwnerReference) :
    M Event E L (result (option ByoMachine)) :=
  match refs with
  | [] => ret (Ok None)
  | ref :: rest =>
      match schema_ParseGroupVersion (or_APIVersion ref) with
      | Err err => ret (Err err)
      | Ok (group, _) =>
          if bool_decide (or_Kind ref = "ByoMachine") && bool_decide (group = GroupVersion_Group) then
            let! m := GetByoMachineByName ns (or_Name ref) in
            ret (match m with Ok m => Ok (Some m) | Err err => Err err end)
          else GetOwnerByoMachine ns rest
      end
  end.

Definition hasOwnerReferenceFrom (refs : list OwnerReference) (kind name : string) : bool :=
  existsb (λ o, bool_decide (or_Kind o = kind) && bool_decide (or_Name o = name)) refs.

(** ** storeInstallationData *)

(** Create, or update when it exists already; the object is what the server returned last. *)
Definition store_secret (what : string) (config : K8sInstallerConfig) (secret : Secret) :
    CM (result Secret) :=
  let where_ := meta_Namespace (kic_Meta config) +:+ "/" +:+ meta_Name (kic_Meta config) in
  let! r := Create KSecret secret in
  match r with
  | Ok s => ret (Ok s)
  | Err err =>
      if negb (IsAlreadyExists err) then
        ret (Err (errors_Wrap err ("failed to create " +:+ what +:+ " secret for K8sInstallerConfig " +:+ where_)))
      else
        let! r := Update KSecret secret in
        match r with
        | Ok s => ret (Ok s)
        | Err err =>
            ret (Err (errors_Wrap err ("failed to update " +:+ what +:+ " secret for K8sInstallerConfig " +:+ where_)))
        end
  end.

Definition secret_ref (s : Secret) : ObjectReference :=
  mkObjectReference (tm_Kind (sec_Type s)) (meta_Namespace (sec_Meta s)) (meta_Name (sec_Meta s)) "" "".

Definition config_owner (config : K8sInstallerConfig) : OwnerReference :=
  mkOwnerReference GroupVersion_String (tm_Kind (kic_Type config)) (meta_Name (kic_Meta config))
    (meta_UID (kic_Meta config)) true.

Definition installSecret (config : K8sInstallerConfig) (clusterName install : string) : Secret :=
  mkSecret (mkTypeMeta "" "")
    (mkObjectMeta ("byoh-install-" +:+ meta_Name (kic_Meta config)) (meta_Namespace (kic_Meta config)) ""
       {[ClusterNameLabel := clusterName]} ∅ [] [config_owner config] None)
    {["install" := install]} ClusterSecretType.

Definition uninstallSecret (config : K8sInstallerConfig) (clusterName uninstall : string) : Secret :=
  mkSecret (mkTypeMeta "" "")
    (mkObjectMeta ("byoh-uninstall-" +:+ meta_Name (kic_Meta config)) (meta_Namespace (kic_Meta config)) ""
       {[ClusterNameLabel := clusterName]} ∅ [] [] None)
    {["uninstall" := uninstall]} ClusterSecretType.

Definition set_kic_InstallationSecret (r : option ObjectReference) (s : K8sInstallerConfigStatus) :=
  mkK8sInstallerConfigStatus (kic_Ready s) r (kic_UninstallationSecret s).
Definition set_kic_UninstallationSecret (r : option ObjectReference) (s : K8sInstallerConfigStatus) :=
  mkK8sInstallerConfigStatus (kic_Ready s) (kic_InstallationSecret s) r.
Definition set_kic_Ready (b : bool) (s : K8sInstallerConfigStatus) :=
  mkK8sInstallerConfigStatus b (kic_InstallationSecret s) (kic_UninstallationSecret s).

Definition storeInstallationData (cluster : CapiCluster) (install uninstall : string) :
    CM (option GoError) :=
  let! config := get_local in
  let clusterName := meta_Name (clus_Meta cluster) in
  let! r := store_secret "installation" config (installSecret config clusterName install) in
  match r with
  | Err err => ret (Some err)
  | Ok s =>
      modify (kic_set_Status (set_kic_InstallationSecret (Some (secret_ref s)))) ;;;
      let! r := store_secret "uninstallation" config (uninstallSecret config clusterName uninstall) in
      match r with
      | Err err => ret (Some err)
      | Ok s =>
          modify (kic_set_Status (set_kic_UninstallationSecret (Some (secret_ref s)))) ;;;
          modify (kic_set_Status (set_kic_Ready true)) ;;;
          ret None
      end
  end.

(** ** reconcileNormal, reconcileDelete, Reconcile *)

Definition reconcileNormal (skip : bool) (cluster : CapiCluster) (byoMachine : ByoMachine) :
    CM (Result * option GoError) :=
  let! config := get_local in
  let k8sVersion := default "" (meta_Annotations (kic_Meta config) !! K8sVersionAnnotation) in
  let downloader := NewBundleDownloader (BundleType (kic_Spec config)) (BundleRepo (kic_Spec config))
                      "{{.BUNDLE_DOWNLOAD_PATH}}" in
  let info := bm_HostInfo (bm_Status byoMachine) in
  match NewInstaller (OSImage info) (Architecture info) k8sVersion downloader skip with
  | Panic => panic
  | Val (Err err) => ret (Result0, Some err)
  | Val (Ok installerObj) =>
      let! err := storeInstallationData cluster (Install installerObj) (Uninstall installerObj) in
      match err with
      | Some err => ret (Result0, Some err)
      | None => ret (Result0, None)
      end
  end.

Definition reconcileDelete : CM (Result * option GoError) :=
  modify (kic_set_Meta (set_Finalizers (λ l, controllerutil_RemoveFinalizer l K8sInstallerConfigFinalizer))) ;;;
  ret (Result0, None).

(** The handlers between the helper and the deferred patch. *)
Definition reconcile_config (skip : bool) (byoMachine : option ByoMachine) : CM (Result * option GoError) :=
  let! config := get_local in
  (if negb (controllerutil_ContainsFinalizer (meta_Finalizers (kic_Meta config)) K8sInstallerConfigFinalizer)
   then modify (kic_set_Meta (set_Finalizers (λ l, controllerutil_AddFinalizer l K8sInstallerConfigFinalizer)))
   else ret tt) ;;;
  match meta_DeletionTimestamp (kic_Meta config) with
  | Some _ => reconcileDelete
  | None =>
      match byoMachine with
      | None => ret (Result0, None)
      | Some byoMachine =>
          let! cluster := call (util_GetClusterFromMetadata (bm_Meta byoMachine)) (λ _, []) in
          match cluster with
          | Err err => ret (Result0, Some err)
          | Ok cluster =>
              let! cluster := deref cluster in
              let! config := get_local in
              if annotations_IsPaused cluster (kic_Meta config) then ret (Result0, None)
              else if bool_decide (conditions_GetReason (bm_GetConditions byoMachine) BYOHostReady ≠
                                   InstallationSecretNotAvailableReason) then ret (Result0, None)
              else if kic_Ready (kic_Status config) then ret (Result0, None)
              else reconcileNormal skip cluster byoMachine
          end
      end
  end.

Definition Reconcile (skip : bool) (req : NamespacedName) : M Event E unit (Result * option GoError) :=
  let! config := Get KK8sInstallerConfig req in
  match config with
  | Err err => ret (Result0, if IsNotFound err then None else Some err)
  | Ok config =>
      let! owner := GetOwnerByoMachine (meta_Namespace (kic_Meta config)) (meta_OwnerReferences (kic_Meta config)) in
      match owner with
      | Err err =>
          if negb (IsNotFound err) then ret (Result0, Some err)
          else
            let! ' (helper, err) := NewHelper KK8sInstallerConfig config in
            match err with
            | Some err => ret (Result0, Some err)
            | None =>
                scoped config (reconcile_config skip None) (Result0, None)
                  (deferred_patch KK8sInstallerConfig [] id helper)
            end
      | Ok byoMachine =>
          let! ' (helper, err) := NewHelper KK8sInstallerConfig config in
          match err with
          | Some err => ret (Result0, Some err)
          | None =>
              scoped config (reconcile_config skip byoMachine) (Result0, None)
                (deferred_patch KK8sInstallerConfig [] id helper)
          end
      end
  end.

(** ** ByoMachineToK8sInstallerConfigMapFunc; an object of another type panics. *)
Definition ByoMachineToK8sInstallerConfigMapFunc {L} (o : Object) : M Event E L (list NamespacedName) :=
  match o with
  | OByoMachine m =>
      match bm_InstallerRef (bm_Spec m) with
      | Some ref =>
          if bool_decide (schema_GVK (ref_APIVersion ref) (ref_Kind ref) = WithKind "K8sInstallerConfigTemplate") then
            let! configs := List_ KK8sInstallerConfig (mkListOptions [] (bm_Namespace m)) in
            match configs with
            | Err _ => ret []
            | Ok items =>
                ret ((λ c, mkKey (meta_Namespace (kic_Meta c)) (meta_Name (kic_Meta c))) <$>
                       filter (λ c, hasOwnerReferenceFrom (meta_OwnerReferences (kic_Meta c)) "ByoMachine" (bm_Name m) = true) items)
            end
          else ret []
      | None => ret []
      end
  | _ => panic
  end.

(** ** Specifications *)

(** The writes of a run: secrets created or updated, with the answers. *)
Definition writes (t : list Event) : list (Object * option GoError) :=
  omap (λ ev, match ev with
              | EvCreate o r | EvUpdate o r => Some (o, r)
              | _ => None
              end) t.

Lemma writes_app t1 t2 : writes (t1 ++ t2) = writes t1 ++ writes t2.
Proof. apply omap_app. Qed.

(** The secret [s] was accepted by its last write, nothing else was written,
    and [s'] is what the server returned for that write. *)
Definition stored (s s' : Secret) (t : list Event) : Prop :=
  writes t = [(OSecret s, None)] ∧ (∃ e, (kube_Create KSecret s e).2 = Ok s') ∨
  ∃ err, IsAlreadyExists err = true ∧ writes t = [(OSecret s, Some err); (OSecret s, None)] ∧
    (∃ e, (kube_Update KSecret s e).2 = Ok s').

Lemma store_secret_spec what config s e l :
  wp (store_secret what config s) e l (λ _ l' t o,
    l' = l ∧ patches t = [] ∧ o ≠ Panic ∧ Forall (λ w, w.1 = OSecret s) (writes t) ∧
    ∀ s', o = Val (Ok s') → stored s s' t).
Proof.
  unfold store_secret, Create, Update. apply wp_bind, wp_call. intros e1 [s1|err] Hcr.
  { wp_run. split_and!; [done..|by repeat constructor|]. intros _ [= <-]. left. split; [done|].
    exists e. by rewrite Hcr. }
  cbn iota. destruct (IsAlreadyExists err) eqn:Hae; cbn [negb].
  2:{ wp_run. split_and!; [done..|by repeat constructor|done]. }
  apply wp_bind, wp_call. intros e2 [s2|err2] Hup; wp_run; (split_and!; [done..|by repeat constructor|]); [|done].
  intros _ [= <-]. right. exists err. split_and!; [done..|]. exists e1. by rewrite Hup.
Qed.

(** The invariant of a configuration's status. *)
Definition status_ok (c : K8sInstallerConfig) : Prop :=
  kic_Ready (kic_Status c) = true →
  is_Some (kic_InstallationSecret (kic_Status c)) ∧ is_Some (kic_UninstallationSecret (kic_Status c)).

Definition store_post (cluster : CapiCluster) (install uninstall : string)
    (c c' : K8sInstallerConfig) (t : list Event) (o : Outcome (option GoError)) : Prop :=
  kic_Meta c' = kic_Meta c ∧ kic_Spec c' = kic_Spec c ∧ patches t = [] ∧
  match o with
  | Val None =>
      ∃ s1 s2 t1 t2, t = t1 ++ t2 ∧
        stored (installSecret c (meta_Name (clus_Meta cluster)) install) s1 t1 ∧
        stored (uninstallSecret c (meta_Name (clus_Meta cluster)) uninstall) s2 t2 ∧
        kic_Status c' = mkK8sInstallerConfigStatus true (Some (secret_ref s1)) (Some (secret_ref s2))
  | Val (Some _) => kic_Ready (kic_Status c') = kic_Ready (kic_Status c) ∧ (status_ok c → status_ok c')
  | Panic => False
  end.

Lemma storeInstallationData_spec cluster install uninstall e c :
  wp (storeInstallationData cluster install uninstall) e c
    (λ _ c' t o, store_post cluster install uninstall c c' t o).
Proof.
  unfold storeInstallationData, store_post. apply wp_bind, wp_get_local, wp_bind.
  eapply wp_mono; [apply store_secret_spec|]. cbn beta.
  intros e1 c1 t1 [[s1|err]|] (-> & Hp1 & Hnp & _ & Hs1); [| |done].
  2:{ wp_run. by trace_simpl. }
  apply wp_bind, wp_modify, wp_bind. eapply wp_mono; [apply store_secret_spec|]. cbn beta.
  intros e2 c2 t2 [[s2|err]|] (-> & Hp2 & Hnp2 & _ & Hs2); [| |done].
  2:{ wp_run. trace_simpl. split_and!; try done. intros Hok Hrdy. cbn in *. split; [done|]. by apply Hok. }
  wp_run. trace_simpl. split_and!; try done.
  exists s1, s2, t1, t2. split_and!; [simpl; by rewrite app_nil_r|by eapply Hs1|by eapply Hs2|done].
Qed.

(** When the controller may generate scripts. *)
Definition may_generate (c : K8sInstallerConfig) (byoMachine : option ByoMachine) : Prop :=
  meta_DeletionTimestamp (kic_Meta c) = None ∧ kic_Ready (kic_Status c) = false ∧
  ∃ m, byoMachine = Some m ∧
    conditions_GetReason (bm_GetConditions m) BYOHostReady = InstallationSecretNotAvailableReason.

(** The installer for a machine's host, as the configuration asks for it. *)
Definition installer_for (skip : bool) (c : K8sInstallerConfig) (m : ByoMachine) : Outcome (result K8sInstaller) :=
  let info := bm_HostInfo (bm_Status m) in
  NewInstaller (OSImage info) (Architecture info)
    (default "" (meta_Annotations (kic_Meta c) !! K8sVersionAnnotation))
    (NewBundleDownloader (BundleType (kic_Spec c)) (BundleRepo (kic_Spec c)) "{{.BUNDLE_DOWNLOAD_PATH}}") skip.

(** The configuration became ready: the scripts of that installer are stored,
    and the status refers to the stored secrets. *)
Definition generated (skip : bool) (byoMachine : option ByoMachine) (c c' : K8sInstallerConfig)
    (t : list Event) : Prop :=
  ∃ m cluster i s1 s2 t1 t2, byoMachine = Some m ∧
    (∃ e, (util_GetClusterFromMetadata (bm_Meta m) e).2 = Ok (Some cluster)) ∧
    installer_for skip c m = Val (Ok i) ∧ writes t = writes t1 ++ writes t2 ∧
    stored (installSecret c (meta_Name (clus_Meta cluster)) (Install i)) s1 t1 ∧
    stored (uninstallSecret c (meta_Name (clus_Meta cluster)) (Uninstall i)) s2 t2 ∧
    kic_Status c' = mkK8sInstallerConfigStatus true (Some (secret_ref s1)) (Some (secret_ref s2)).

(** What a run leaves behind. *)
Definition config_post (skip : bool) (byoMachine : option ByoMachine) (c c' : K8sInstallerConfig) (t : list Event)
    (o : Outcome (Result * option GoError)) : Prop :=
  patches t = [] ∧ kic_Spec c' = kic_Spec c ∧ (status_ok c → status_ok c') ∧
  ((writes t = [] ∧ kic_Status c' = kic_Status c) ∨
   may_generate c byoMachine ∧
   (kic_Ready (kic_Status c') = true → o = Val (Result0, None) ∧ generated skip byoMachine c c' t)).

Lemma config_post_idle skip byoMachine c c' t o :
  patches t = [] → writes t = [] → kic_Spec c' = kic_Spec c → kic_Status c' = kic_Status c →
  config_post skip byoMachine c c' t o.
Proof.
  intros Hp Hw Hsp Hst. unfold config_post, status_ok. rewrite Hst. split_and!; auto.
Qed.

(** The name, namespace and owner of the secrets do not depend on finalizers. *)
Definition same_identity (c c' : K8sInstallerConfig) : Prop :=
  kic_Type c' = kic_Type c ∧ kic_Spec c' = kic_Spec c ∧ kic_Status c' = kic_Status c ∧
  meta_Name (kic_Meta c') = meta_Name (kic_Meta c) ∧ meta_UID (kic_Meta c') = meta_UID (kic_Meta c) ∧
  meta_Namespace (kic_Meta c') = meta_Namespace (kic_Meta c) ∧
  meta_Annotations (kic_Meta c') = meta_Annotations (kic_Meta c).

Lemma same_identity_secrets c c' cn x : same_identity c c' →
  installSecret c' cn x = installSecret c cn x ∧ uninstallSecret c' cn x = uninstallSecret c cn x.
Proof.
  intros (Hty & _ & _ & Hnm & Huid & Hns & _). unfold installSecret, uninstallSecret, config_owner.
  by rewrite Hty, Hnm, Huid, Hns.
Qed.

Lemma reconcileNormal_stores skip cluster m c c1 e0 e :
  (util_GetClusterFromMetadata (bm_Meta m) e0).2 = Ok (Some cluster) →
  same_identity c c1 → may_generate c (Some m) →
  wp (reconcileNormal skip cluster m) e c1 (λ _ c' t o, config_post skip (Some m) c c' t o).
Proof.
  intros Hclus Hid Hmay. assert (may_generate c (Some m)) as (Hdel & Hnr & _) by done.
  assert (same_identity c c1) as (_ & Hsp & Hst & _ & _ & _ & Han) by done.
  assert (installer_for skip c1 m = installer_for skip c m) as Hinst by (unfold installer_for; by rewrite Hsp, Han).
  unfold reconcileNormal. apply wp_bind, wp_get_local. cbn zeta. fold (installer_for skip c1 m).
  rewrite Hinst. destruct (installer_for skip c m) as [[i|err]|] eqn:Hnew; [| |by apply NewInstaller_no_panic in Hnew].
  2:{ wp_run. by apply config_post_idle. }
  apply wp_bind. eapply wp_mono; [apply storeInstallationData_spec|]. cbn beta.
  assert (status_ok c1) as Hok1 by (unfold status_ok; by rewrite Hst, Hnr).
  intros e1 c' t [[err|]|] (_ & Hsp' & Hp & Ho); [| |done].
  - wp_run. rewrite app_nil_r. destruct Ho as [Hr Hok]. unfold config_post.
    split_and!; [done|congruence|auto|]. right. split; [done|].
    intros Hr'. rewrite Hr, Hst, Hnr in Hr'. done.
  - wp_run. rewrite app_nil_r. destruct Ho as (s1 & s2 & t1 & t2 & -> & Hs1 & Hs2 & Hst'). unfold config_post.
    destruct (same_identity_secrets c c1 (meta_Name (clus_Meta cluster)) (Install i) Hid) as [Hi _].
    destruct (same_identity_secrets c c1 (meta_Name (clus_Meta cluster)) (Uninstall i) Hid) as [_ Hu].
    rewrite Hi in Hs1. rewrite Hu in Hs2.
    split_and!; [done|congruence|unfold status_ok; rewrite Hst'; cbn; eauto|]. right. split; [done|].
    intros _. split; [done|]. exists m, cluster, i, s1, s2, t1, t2.
    split_and!; [done|by exists e0|done|exact (writes_app t1 t2)|done..].
Qed.

Lemma reconcile_config_spec skip byoMachine e c :
  wp (reconcile_config skip byoMachine) e c (λ _ c' t o, config_post skip byoMachine c c' t o).
Proof.
  unfold reconcile_config. apply wp_bind, wp_get_local, wp_bind.
  set (rest := match meta_DeletionTimestamp (kic_Meta c) with Some _ => _ | None => _ end).
  assert (∀ e1 c1, same_identity c c1 → wp rest e1 c1 (λ _ c' t o, config_post skip byoMachine c c' t o)) as Hrest.
  { intros e1 c1 Hid. assert (same_identity c c1) as (_ & Hsp & Hst & _) by done. unfold rest.
    destruct (meta_DeletionTimestamp (kic_Meta c)) eqn:Hdel.
    { unfold reconcileDelete. wp_run. by apply config_post_idle. }
    destruct byoMachine as [m|]; [|wp_run; by apply config_post_idle].
    apply wp_bind, wp_call. intros e2 [cluster|err] Hclus; [|wp_run; by apply config_post_idle].
    cbn iota. apply wp_bind, wp_deref. destruct cluster as [cluster|]; [|by apply config_post_idle].
    apply wp_bind, wp_get_local. destruct (annotations_IsPaused _ _); [wp_run; by apply config_post_idle|].
    case_bool_decide as Hreason; [wp_run; by apply config_post_idle|].
    destruct (kic_Ready (kic_Status c1)) eqn:Hr; [wp_run; by apply config_post_idle|].
    eapply wp_mono; [apply (reconcileNormal_stores skip cluster m c c1 e1); [by rewrite Hclus|exact Hid|]|done].
    rewrite Hst in Hr. split_and!; [done|done|]. exists m. split; [done|]. done. }
  destruct (negb _).
  - apply wp_modify. eapply wp_mono; [by apply Hrest|]. done.
  - apply wp_ret. eapply wp_mono; [by apply Hrest|]. done.
Qed.
End Controller.

(** ** Theorems *)
Section Theorems.
  Context {E : Type} `{!Kube E, !CapiUtil E, !ConditionsUtil, !ScriptTemplates, !SchemaLibs}.


(** The deferred patch of the configuration:
    the references a run set reach the server by the one patch that ends
    every run past the helper, with the finalizer, and a run reports success
    only when that patch was accepted. *)
Theorem config_Reconcile_persists (skip : bool) (req : NamespacedName) (e : E) :
  wp (Reconcile skip req) e tt (λ _ _ t o,
    patches t = [] ∧ writes t = [] ∨
    ∃ c c' byoMachine e1 tb ob perr,
      wp (reconcile_config skip byoMachine) e1 c (λ _ l t o, l = c' ∧ t = tb ∧ o = ob) ∧
      patches t = [(OK8sInstallerConfig c, OK8sInstallerConfig c', perr)] ∧ writes t = writes tb ∧
      o = with_patch perr ob).
Proof.
  unfold Reconcile, Get. apply wp_bind, wp_call. intros e1 [c|err] _; [|wp_run; by left].
  cbn iota. apply wp_bind.
  assert (∀ refs e2, wp (GetOwnerByoMachine (meta_Namespace (kic_Meta c)) refs) e2 tt
    (λ _ _ t o, patches t = [] ∧ writes t = [] ∧ o ≠ Panic)) as Howner.
  { induction refs as [|ref refs IH]; intros e2; cbn [GetOwnerByoMachine]; [by apply wp_ret|].
    destruct (schema_ParseGroupVersion _) as [[group v]|err]; [|by wp_run].
    destruct (_ && _); [|apply IH]. unfold GetByoMachineByName, Get. by wp_run. }
  eapply wp_mono; [apply Howner|]. cbn beta. intros e2 u t2 o (Hp2 & Hw2 & Hnp).
  assert (∀ bm, wp (let! ' (helper, err) := NewHelper KK8sInstallerConfig c in
      match err with
      | Some err => ret (Result0, Some err)
      | None => scoped c (reconcile_config skip bm) (Result0, None)
                  (deferred_patch KK8sInstallerConfig [] id helper)
      end) e2 u (λ _ _ t3 o3, patches t3 = [] ∧ writes t3 = [] ∨ ∃ c' e1 tb ob perr,
        wp (reconcile_config skip bm) e1 c (λ _ l t o, l = c' ∧ t = tb ∧ o = ob) ∧
        patches t3 = [(OK8sInstallerConfig c, OK8sInstallerConfig c', perr)] ∧ writes t3 = writes tb ∧
        o3 = with_patch perr ob)) as Hrest.
  { intros bm. apply wp_bind, wp_NewHelper; intros e3; [intros err; wp_run; by left|].
    cbn iota. apply wp_scoped_patch, wp_intro. intros e4 c' tb ob Hb e5 perr. right.
    assert (patches tb = []) as Hpb.
    { eapply (wp_elim _ _ _ (λ _ _ t _, patches t = [])) in Hb; [exact Hb|].
      eapply wp_mono; [apply reconcile_config_spec|]. by intros ? ? ? ? (Hp & _). }
    exists c', e3, tb, ob, perr. split_and!; [unfold wp; by rewrite Hb|by trace_simpl| |done].
    rewrite !writes_app. exact (app_nil_r _). }
  destruct o as [[bm|err]|]; [|destruct (IsNotFound err); cbn [negb]|done].
  3:{ wp_run. left. trace_simpl. by rewrite !writes_app, Hw2. }
  all: (eapply wp_mono; [apply Hrest|]); cbn beta;
    intros e3 u3 t3 o3 [[Hp3 Hw3]|(c' & e4 & tb & ob & perr & Hb & Hp3 & Hw3 & ->)];
    [left; trace_simpl; by rewrite !writes_app, Hw2, Hw3|
     right; eexists c, c', _, e4, tb, ob, perr; split_and!;
       [exact Hb|by trace_simpl|by rewrite !writes_app, Hw2, Hw3|done]].
Qed.
End Theorems.
