(* ===== verification/ByoHostCtrl.v ===== *)
(** * The ByoHost controller (controllers/infrastructure/byohost_controller.go)

    The manager's side of a host's release: once the agent has cleaned the
    host up, the uninstall secret is deleted and the reference to it cleared. *)

From S2P Require Import Prelude GoStrings Encoding Api SafeLabel Platform CloudInit HostAgent.

(** [client.IgnoreNotFound] *)
Definition IgnoreNotFound (err : GoError) : option GoError := if IsNotFound err then None else Some err.

Section Controller.
  Context {E : Type} `{!Kube E}.

Abbreviation UM := (M Event E unit).

(** The host is released: no machine and no pending cleanup. *)
Definition released (h : ByoHost) : bool :=
  bool_decide (host_MachineRef h = None) && bool_decide (host_Annotations h !! HostCleanupAnnotation = None).

(** Deleting the uninstall secret; [Some] is an error to return. *)
Definition delete_uninstall_secret (ref : ObjectReference) : UM (option GoError) :=
  let! secret := Get KSecret (mkKey (ref_Namespace ref) (ref_Name ref)) in
  match secret with
  | Err err => ret (if IsNotFound err then None else Some err)
  | Ok secret =>
      let! delErr := Delete KSecret secret in
      match delErr with
      | Some delErr =>
          if IsNotFound delErr then ret None
          else ret (Some (errors_Wrap delErr
                 ("failed to delete uninstallation secret " +:+ meta_Name (sec_Meta secret))))
      | None => ret None
      end
  end.

Definition Reconcile (req : NamespacedName) : UM (Result * option GoError) :=
  let! byoHost := Get KByoHost req in
  match byoHost with
  | Err err => ret (Result0, IgnoreNotFound err)
  | Ok byoHost =>
      match host_UninstallationSecret byoHost with
      | Some ref =>
          if released byoHost then
            let! err := delete_uninstall_secret ref in
            match err with
            | Some err => ret (Result0, Some err)
            | None =>
                let! ' (helper, patchErr) := NewHelper KByoHost byoHost in
                match patchErr with
                | Some patchErr => ret (Result0, Some patchErr)
                | None =>
                    let! patchErr := Patch KByoHost helper (host_set_UninstallationSecret None byoHost) in
                    match patchErr with
                    | Some patchErr =>
                        ret (Result0, Some (errors_Wrap patchErr
                               "failed to clear uninstallationSecret reference on ByoHost"))
                    | None => ret (Result0, None)
                    end
                end
            end
          else ret (Result0, None)
      | None => ret (Result0, None)
      end
  end.

(** What a run deletes. *)
Definition deletes (t : list Event) : list Object :=
  omap (λ ev, match ev with EvDelete o _ => Some o | _ => None end) t.

Lemma deletes_app t1 t2 : deletes (t1 ++ t2) = deletes t1 ++ deletes t2.
Proof. apply omap_app. Qed.

(** The secret under [ref] is gone: it was not found, or the object the
    server returned was deleted, with an accepted request or one answered by
    not-found. *)
Definition secret_gone (ref : ObjectReference) (t : list Event) : Prop :=
  (∃ err, IsNotFound err = true ∧ t = [EvGet KSecret (ref_key ref) (Err err)]) ∨
  ∃ secret r, (∃ e, (kube_Get KSecret (ref_key ref) e).2 = Ok secret) ∧
    (∃ e, (kube_Delete KSecret secret e).2 = r) ∧
    t = [EvGet KSecret (ref_key ref) (Ok (OSecret secret)); EvDelete (OSecret secret) r] ∧
    (r = None ∨ ∃ err, r = Some err ∧ IsNotFound err = true).

Lemma delete_uninstall_secret_spec ref e :
  wp (delete_uninstall_secret ref) e tt (λ _ _ t o,
    patches t = [] ∧
    (deletes t = [] ∨ ∃ secret, fetched KSecret (ref_key ref) secret t ∧ deletes t = [OSecret secret]) ∧
    ∃ err, o = Val err ∧ (err = None → secret_gone ref t)).
Proof.
  unfold delete_uninstall_secret, secret_gone, Get, Delete. fold (ref_key ref).
  apply wp_bind, wp_call. intros e1 [secret|err] Hget.
  2:{ wp_run. split_and!; [done|by left|]. eexists. split; [done|].
      destruct (IsNotFound err) eqn:Hnf; [|done]. intros _. left. by exists err. }
  assert (∃ e, (kube_Get KSecret (ref_key ref) e).2 = Ok secret) as Hans by (exists e; by rewrite Hget).
  apply wp_bind, wp_call. intros e2 r Hdel.
  assert (∃ e, (kube_Delete KSecret secret e).2 = r) as Hans2 by (exists e1; by rewrite Hdel).
  assert (∀ t, t = [EvGet KSecret (ref_key ref) (Ok (OSecret secret)); EvDelete (OSecret secret) r] →
    fetched KSecret (ref_key ref) secret t) as Hf by (intros t ->; split; [set_solver|done]).
  destruct r as [delErr|]; [destruct (IsNotFound delErr) eqn:Hnf|]; wp_run;
    (split_and!; [done|right; exists secret; split; [by apply Hf|done]|]);
    eexists; (split; [done|]); intros Heq; try done; right; eexists secret, _; split_and!; eauto.
Qed.
End Controller.

(** ** Theorems *)

(** C22. The manager does anything beyond reading the host only when the
    host names an uninstall secret, has no machine and no pending cleanup; so
    the secret and the reference to it outlive every cleanup that may still
    need them.  It deletes at most the secret the server returned for the
    host's reference and patches nothing of the host but that reference.  On
    such a host a run that reports success found the secret gone or deleted
    it, and after that cleared the reference with an accepted patch, and a run
    that could not do one of the two reports an error, having cleared
    nothing. *)
Theorem uninstall_secret_outlives_cleanup {E : Type} `{!Kube E} (req : NamespacedName) (e : E) :
  wp (Reconcile req) e tt (λ _ _ t o,
    match (kube_Get KByoHost req e).2 with
    | Err err => t = [EvGet KByoHost req (Err err)] ∧ o = Val (Result0, IgnoreNotFound err)
    | Ok h =>
        let get := EvGet KByoHost req (Ok (OByoHost h)) in
        let clear r := EvPatch (OByoHost h) (OByoHost (host_set_UninstallationSecret None h)) r in
        (t = [get] ∧ o = Val (Result0, None) ∧
         (host_UninstallationSecret h = None ∨ host_MachineRef h ≠ None ∨
          host_Annotations h !! HostCleanupAnnotation ≠ None)) ∨
        ∃ ref, host_UninstallationSecret h = Some ref ∧
          host_MachineRef h = None ∧ host_Annotations h !! HostCleanupAnnotation = None ∧
          (deletes t = [] ∨ ∃ secret, fetched KSecret (ref_key ref) secret t ∧ deletes t = [OSecret secret]) ∧
          ((∃ t2, secret_gone ref t2 ∧ t = get :: t2 ++ [clear None] ∧ o = Val (Result0, None)) ∨
           ∃ err, o = Val (Result0, Some err) ∧
             (patches t = [] ∨ ∃ t2 perr, secret_gone ref t2 ∧ t = get :: t2 ++ [clear (Some perr)]))
    end).
Proof.
  unfold Reconcile, Get at 1. apply wp_bind, wp_call. intros e1 [h|err] Hget; rewrite Hget; cbn [snd].
  2:{ by wp_run. }
  cbn zeta. destruct (host_UninstallationSecret h) as [ref|]; [|wp_run; left; auto].
  destruct (released h) eqn:Hrel; unfold released in Hrel.
  2:{ wp_run. left. split_and!; [done..|]. right.
      apply andb_false_iff in Hrel as [?%bool_decide_eq_false|?%bool_decide_eq_false]; auto. }
  apply andb_prop in Hrel as [Hm%bool_decide_eq_true Ha%bool_decide_eq_true].
  apply wp_bind. eapply wp_mono; [apply delete_uninstall_secret_spec|]. cbn beta.
  intros e2 u t2 o (Hp & Hd & err & -> & Hgone).
  assert (∀ t', deletes t' = [] → let t := EvGet KByoHost req (Ok (OByoHost h)) :: t2 ++ t' in
    deletes t = [] ∨ ∃ secret, fetched KSecret (ref_key ref) secret t ∧ deletes t = [OSecret secret]) as Hdel.
  { intros t' Ht'. cbn zeta. change (deletes (?ev :: ?t)) with (deletes t). rewrite deletes_app, Ht', app_nil_r.
    destruct Hd as [?|(secret & Hf & ->)]; [by left|right]. exists secret. split; [|done].
    eapply fetched_mono; [exact Hf|]. set_solver. }
  destruct err as [err|].
  { apply wp_ret. right. exists ref. split_and!; [done..|by apply Hdel|]. right. exists err.
    split; [done|]. left. by trace_simpl. }
  apply wp_bind, wp_NewHelper; [intros e3 herr|intros e3]; cbn iota.
  { apply wp_ret. right. exists ref. split_and!; [done..|by apply Hdel|]. right. exists herr.
    split; [done|]. left. by trace_simpl. }
  apply wp_bind, wp_Patch. intros e4 [perr|]; apply wp_ret; right; exists ref;
    (split_and!; [done..|by apply Hdel|]); [right|left].
  - eexists. split; [done|]. right. exists t2, perr. split; [by apply Hgone|done].
  - exists t2. split; [by apply Hgone|done].
Qed.

(** The agent and the manager together: a host on
    which the agent's cleanup reported success passes the manager's test for
    a released host and still references the uninstall secret it had, so the
    secret of a cleaned host is always collected; a host whose cleanup failed
    and that carries the cleanup annotation does not pass it, so the secret
    outlives every retry. *)
Theorem release_is_complete {E : Type} `{!Kube E, !HostSystem E, !HostOS E, !Yaml, !Gzip, !TextTemplate, !ConditionsUtil}
    (r : HostReconciler) (e : E) (h : ByoHost) :
  wp (hostCleanUp r) e h (λ _ h' _ o,
    (o = Val None → released h' = true ∧ host_UninstallationSecret h' = host_UninstallationSecret h) ∧
    (o ≠ Val None → is_Some (host_Annotations h !! HostCleanupAnnotation) → released h' = false)).
Proof.
  eapply wp_mono; [apply hostCleanUp_spec|]. cbn beta. intros e' h' t o (_ & _ & Ho).
  destruct (after_reset_fields h) as [Hun Han]. split.
  - intros ->. destruct Ho as (-> & _). split; [|exact Hun].
    unfold released. apply andb_true_intro. split; apply bool_decide_eq_true_2; [done|].
    cbn. unfold released_annotations. rewrite !lookup_delete_ne by done. apply lookup_delete_eq.
  - intros Hne Ha. assert (host_Annotations h' = host_Annotations h) as Hann.
    { destruct o as [[err|]|]; [|done|]; destruct Ho as [(-> & _)|([-> | ->] & _)]; done. }
    unfold released. rewrite Hann. destruct Ha as [a Ha]. rewrite Ha. by rewrite andb_false_r.
Qed.
