(* ===== verification/ByoClusterCtrl.v ===== *)
(** * The ByoCluster controller (controllers/infrastructure/byocluster_controller.go)

    Marks the infrastructure cluster ready with a control plane port, and
    holds its deletion back while machines of the cluster exist. *)

From S2P Require Import Prelude GoStrings Encoding Api SafeLabel Platform.

Definition DefaultAPIEndpointPort : Z := 6443.

Section Controller.
  Context {E : Type} `{!Kube E, !CapiUtil E, !ConditionsUtil}.

Abbreviation CM := (M Event E ByoCluster).

(** The deferred patch, which first summarizes the conditions. *)
Definition patchByoCluster (patchHelper : option ByoCluster) : CM (option GoError) :=
  modify (λ c, bc_SetConditions
    (conditions_SetSummary (bc_GetConditions c)
       (bool_decide (meta_DeletionTimestamp (bc_Meta c) = None))) c) ;;;
  let! byoCluster := get_local in
  Patch_with KByoCluster [ReadyCondition] patchHelper byoCluster.

Definition GetByoMachinesInCluster {L} (namespace clusterName : string) :
    M Event E L (result (list ByoMachine)) :=
  List_ KByoMachine (mkListOptions [mkRequirement ClusterNameLabel Equals [clusterName]] namespace).

Definition reconcileDelete : CM (Result * option GoError) :=
  let! byoCluster := get_local in
  let ns := meta_Namespace (bc_Meta byoCluster) in
  let name := meta_Name (bc_Meta byoCluster) in
  let! byoMachines := GetByoMachinesInCluster ns name in
  match byoMachines with
  | Err err =>
      ret (Result0, Some (errors_Wrap err
        ("unable to list ByoMachines part of ByoCluster " +:+ ns +:+ "/" +:+ name)))
  | Ok byoMachines =>
      if 0 <? length byoMachines then ret (mkResult false (10 * Second), None)
      else
        modify (bc_set_Meta (set_Finalizers (λ l, controllerutil_RemoveFinalizer l ClusterFinalizer))) ;;;
        ret (Result0, None)
  end.

Definition reconcileNormal : CM (Result * option GoError) :=
  modify (bc_set_Meta (set_Finalizers (λ l, controllerutil_AddFinalizer l ClusterFinalizer))) ;;;
  let! byoCluster := get_local in
  (if (ep_Port (bc_ControlPlaneEndpoint (bc_Spec byoCluster)) =? 0)%Z
   then modify (bc_set_Port DefaultAPIEndpointPort) else ret tt) ;;;
  modify (bc_set_Ready true) ;;;
  ret (Result0, None).

Definition reconcile_cluster : CM (Result * option GoError) :=
  let! byoCluster := get_local in
  match meta_DeletionTimestamp (bc_Meta byoCluster) with
  | Some _ => reconcileDelete
  | None => reconcileNormal
  end.

Definition cluster_defer (patchHelper : option ByoCluster) (res : Result * option GoError) :
    CM (Result * option GoError) :=
  let! err := patchByoCluster patchHelper in
  ret (match err, res.2 with
       | Some err, None => (res.1, Some err)
       | _, _ => res
       end).

Definition Reconcile (req : NamespacedName) : M Event E unit (Result * option GoError) :=
  let! byoCluster := Get KByoCluster req in
  match byoCluster with
  | Err err => ret (Result0, if IsNotFound err then None else Some err)
  | Ok byoCluster =>
      let! cluster := call (util_GetOwnerCluster (bc_Meta byoCluster)) (λ _, []) in
      match cluster with
      | Err err => ret (Result0, Some err)
      | Ok None => ret (Result0, None)
      | Ok (Some cluster) =>
          if annotations_IsPaused cluster (bc_Meta byoCluster) then ret (Result0, None)
          else
            let! ' (patchHelper, err) := NewHelper KByoCluster byoCluster in
            match err with
            | Some err =>
                ret (Result0, Some (errors_Wrap err
                  ("failed to init patch helper for " +:+
                   GroupVersion_String +:+ ", Kind=" +:+ tm_Kind (bc_Type byoCluster) +:+ " " +:+
                   meta_Namespace (bc_Meta byoCluster) +:+ "/" +:+ meta_Name (bc_Meta byoCluster))))
            | None =>
                scoped byoCluster reconcile_cluster (Result0, None) (cluster_defer patchHelper)
            end
      end
  end.

(** ** Specification *)

(** A cluster that may be used: finalizer set, port set, ready. *)
Definition provisioned (c : ByoCluster) : Prop :=
  ClusterFinalizer ∈ meta_Finalizers (bc_Meta c) ∧
  ep_Port (bc_ControlPlaneEndpoint (bc_Spec c)) ≠ 0%Z ∧ bc_Ready (bc_Status c) = true.

(** The port the controller keeps or chooses. *)
Definition chosen_port (p : Z) : Z := if (p =? 0)%Z then DefaultAPIEndpointPort else p.

Definition summarized (c : ByoCluster) : ByoCluster :=
  bc_SetConditions (conditions_SetSummary (bc_GetConditions c)
    (bool_decide (meta_DeletionTimestamp (bc_Meta c) = None))) c.

(** The machines that hold a cluster back. *)
Definition machines_of (c : ByoCluster) : ListOptions :=
  mkListOptions [mkRequirement ClusterNameLabel Equals [meta_Name (bc_Meta c)]] (meta_Namespace (bc_Meta c)).

Definition cluster_post (e : E) (c c' : ByoCluster) (t : list Event) (o : Outcome (Result * option GoError)) : Prop :=
  match meta_DeletionTimestamp (bc_Meta c) with
  | None =>
      o = Val (Result0, None) ∧ t = [] ∧ provisioned c' ∧
      bc_ControlPlaneEndpoint (bc_Spec c') =
        mkAPIEndpoint (ep_Host (bc_ControlPlaneEndpoint (bc_Spec c)))
          (chosen_port (ep_Port (bc_ControlPlaneEndpoint (bc_Spec c))))
  | Some _ =>
      t = [EvList KByoMachine (machines_of c)] ∧
      match (kube_List KByoMachine (machines_of c) e).2 with
      | Ok [] => o = Val (Result0, None) ∧ (ClusterFinalizer ∉ meta_Finalizers (bc_Meta c')) ∧
          bc_Spec c' = bc_Spec c ∧ bc_Status c' = bc_Status c
      | Ok (_ :: _) => o = Val (mkResult false (10 * Second), None) ∧ c' = c
      | Err _ => (∃ err, o = Val (Result0, Some err)) ∧ c' = c
      end
  end.

Lemma reconcile_cluster_spec `{!CapiUtilLaws _} e c :
  wp reconcile_cluster e c (λ _ c' t o, cluster_post e c c' t o).
Proof.
  unfold reconcile_cluster, cluster_post. apply wp_bind, wp_get_local.
  destruct (meta_DeletionTimestamp (bc_Meta c)) as [ts|] eqn:Hdel.
  - unfold reconcileDelete, GetByoMachinesInCluster, List_. apply wp_bind, wp_get_local, wp_bind, wp_call.
    fold (machines_of c). intros e1 [[|m ms]|err] Hl; rewrite Hl; wp_run; try done; (split; [done|]); cbn; eauto.
    split_and!; try done. rewrite RemoveFinalizer_in. tauto.
  - unfold reconcileNormal. apply wp_bind, wp_modify, wp_bind, wp_get_local. cbn beta.
    change (ep_Port (bc_ControlPlaneEndpoint (bc_Spec (bc_set_Meta _ c))))
      with (ep_Port (bc_ControlPlaneEndpoint (bc_Spec c))).
    unfold provisioned, chosen_port.
    destruct (ep_Port (bc_ControlPlaneEndpoint (bc_Spec c)) =? 0)%Z eqn:Hport; wp_run; split_and!; try done.
    + cbn. apply AddFinalizer_in. by left.
    + cbn. apply AddFinalizer_in. by left.
    + cbn. by apply Z.eqb_neq.
    + cbn. by destruct (bc_ControlPlaneEndpoint (bc_Spec c)).
Qed.
End Controller.

(** ** Theorems *)
Section Theorems.
  Context {E : Type} `{!Kube E, !CapiUtil E, !ConditionsUtil}.

(** C23. A live cluster is made ready in one run without
    any other effect: it has the finalizer and a port that is not zero, the
    given one or 6443, and its endpoint host is kept.  A cluster that is
    being deleted loses the finalizer only when the listing of its machines
    returned none; while machines remain it is left as it is and requeued. *)
Theorem cluster_reconciled `{!CapiUtilLaws _} (e : E) (c : ByoCluster) :
  wp reconcile_cluster e c (λ _ c' t o, cluster_post e c c' t o).
Proof. apply reconcile_cluster_spec. Qed.

(** Past the patch helper every run of the
    cluster controller ends with one patch of what the handlers left, with
    the conditions summarized, and reports success only when the patch was
    accepted; a paused or unowned cluster, or a failed lookup, patches nothing. *)
Theorem cluster_Reconcile_persists (req : NamespacedName) (e : E) :
  wp (Reconcile req) e tt (λ _ _ t o,
    patches t = [] ∨
    ∃ c c' e1 tb ob perr,
      wp reconcile_cluster e1 c (λ _ l t o, l = c' ∧ t = tb ∧ o = ob) ∧
      patches t = patches tb ++ [(OByoCluster c, OByoCluster (summarized c'), perr)] ∧
      o = with_patch perr ob).
Proof.
  unfold Reconcile, Get. apply wp_bind, wp_call. intros e1 [c|err] _; [|wp_run; by left].
  apply wp_bind, wp_call. intros e2 [[cluster|]|err] _; [|wp_run; by left..]. cbn iota.
  destruct (annotations_IsPaused _ _); [wp_run; by left|].
  apply wp_bind, wp_NewHelper; intros e3; [intros herr; wp_run; by left|]. cbn iota.
  apply wp_scoped, wp_intro. intros e4 c' tb ob Hb. unfold cluster_defer, patchByoCluster.
  apply wp_bind, wp_bind, wp_modify, wp_bind, wp_get_local. fold (summarized c').
  apply wp_Patch. intros e5 perr. apply wp_ret. right. exists c, c', e3, tb, ob, perr.
  split_and!; [unfold wp; by rewrite Hb|by trace_simpl|].
  by destruct ob as [[res [err|]]|], perr.
Qed.
End Theorems.
