(* ===== verification/Admission.v ===== *)
(** * Admission (byoadmission_controller.go, byohost_webhook.go)

    The controller that approves the certificate requests of agents, and the
    validating webhook on hosts. *)

From S2P Require Import Prelude GoStrings Encoding Regex Api SafeLabel Platform.

(** ** byoadmission_controller.go *)

Definition CertificateApproved : string := "Approved".
Definition CertificateDenied : string := "Denied".

(** [certv1.CertificateSigningRequestCondition] and the request, as far as the controller looks. *)
Record CSRCondition := mkCSRCondition {
  csrc_Type : string; csrc_Status : ConditionStatus; csrc_Reason : string }.
Record CSR := mkCSR { csr_Name : string; csr_Conditions : list CSRCondition }.

(** The typed clientset for certificate requests. *)
Class CsrClient (E : Type) := {
  csr_Get : string → E → E * result CSR;
  csr_UpdateApproval : string → CSR → E → E * option GoError }.

Fixpoint checkCSRCondition (conditions : list CSRCondition) (conditionType : string) : bool :=
  match conditions with
  | [] => false
  | condition :: rest =>
      if bool_decide (csrc_Type condition = conditionType) then true
      else checkCSRCondition rest conditionType
  end.

(** The event filter: requests by name. *)
Definition csr_filter (name : string) : bool := HasPrefix name "byoh-csr-".

Section CSRController.
  Context {E : Type} `{!CsrClient E}.

Definition approved_condition : CSRCondition :=
  mkCSRCondition CertificateApproved ConditionTrue "Approved by ByoAdmission Controller".

Definition Reconcile (name : string) : M Event E unit (Result * option GoError) :=
  let! csr := call (csr_Get name) (λ _, []) in
  match csr with
  | Err err => ret (Result0, if IsNotFound err then None else Some err)
  | Ok csr =>
      let csrApproved := checkCSRCondition (csr_Conditions csr) CertificateApproved in
      let csrDenied := checkCSRCondition (csr_Conditions csr) CertificateDenied in
      if csrApproved || csrDenied then ret (Result0, None)
      else
        let csr := mkCSR (csr_Name csr) (csr_Conditions csr ++ [approved_condition]) in
        let! err := call (csr_UpdateApproval (csr_Name csr) csr)
          (λ r, [EvUpdateApproval (csr_Name csr) (csrc_Type <$> csr_Conditions csr) r]) in
        match err with
        | Some err => ret (Result0, Some err)
        | None => ret (Result0, None)
        end
  end.
End CSRController.

Lemma checkCSRCondition_spec cs ty : checkCSRCondition cs ty = true ↔ ty ∈ csrc_Type <$> cs.
Proof.
  induction cs as [|c cs IH]; simpl; [split; [done|set_solver]|].
  rewrite elem_of_cons. case_bool_decide as Hc; [|rewrite IH]; naive_solver.
Qed.

(** ** byohost_webhook.go *)

Inductive Operation := OpCreate | OpUpdate | OpDelete | OpConnect.

(** [admission.Response] *)
Inductive Response := Allowed (msg : string) | Denied (msg : string) | Errored (code : Z) (err : GoError).

Definition StatusBadRequest : Z := 400.

Definition kaapiManagerServiceAccount : string := "system:serviceaccount:kaapi:byoh-controller-manager".
Definition byohSystemManagerServiceAccount : string :=
  "system:serviceaccount:byoh-system:byoh-controller-manager".
Definition managerServiceAccounts : list string :=
  [kaapiManagerServiceAccount; byohSystemManagerServiceAccount].

Definition emailLikePattern : string :=
  "^[a-zA-Z0-9._%+-]+@[a-zA-Z0-9.-]+" +:+ String (chr 92) EmptyString +:+ ".[a-zA-Z]{2,}$".

(** [regexp.MustCompile] of a constant, at start-up *)
Definition emailLikeUserRegex : regex :=
  match regexp_Compile emailLikePattern with Some r => r | None => RNone end.

(** A request: its user and what the decoder makes of its two objects. *)
Record AdmissionRequest := mkAdmissionRequest {
  req_Operation : Operation;
  req_Username : string;
  req_Object : result ByoHost;      (* decoder.Decode( *req, byoHost) *)
  req_OldObject : result ByoHost    (* decoder.DecodeRaw(req.OldObject, byoHost) *) }.

Definition handleCreateUpdate (req : AdmissionRequest) : Response :=
  match req_Object req with
  | Err err => Errored StatusBadRequest err
  | Ok byoHost =>
      let userName := req_Username req in
      if bool_decide (userName ∈ managerServiceAccounts) then Allowed ""
      else if search emailLikeUserRegex userName then Allowed ""
      else
        let substrs := Split userName (chr 58) in
        if length substrs <? 2 then Denied (userName +:+ " is not a valid agent username")
        else Allowed ""
  end.

Section Webhook.
  Context {E : Type} `{!Kube E}.

Definition handleDelete (req : AdmissionRequest) : M Event E unit Response :=
  match req_OldObject req with
  | Err err => ret (Errored StatusBadRequest err)
  | Ok byoHost =>
      match host_MachineRef byoHost with
      | Some ref =>
          let! byoMachineObj := Get KByoMachine (mkKey (meta_Namespace (host_Meta byoHost)) (ref_Name ref)) in
          match byoMachineObj with
          | Err err =>
              if IsNotFound err then ret (Allowed "")
              else ret (Denied "cannot delete ByoHost when byomachine exists")
          | Ok _ => ret (Denied "cannot delete ByoHost when MachineRef is assigned")
          end
      | None => ret (Allowed "")
      end
  end.

Definition Handle (req : AdmissionRequest) : M Event E unit Response :=
  match req_Operation req with
  | OpCreate | OpUpdate => ret (handleCreateUpdate req)
  | OpDelete => handleDelete req
  | OpConnect => ret (Allowed "")
  end.
End Webhook.

Lemma length_Split_2 s c : (2 ≤ length (Split s c)) ↔ contains_char c s = true.
Proof.
  induction s as [|d s IH]; simpl; [split; [lia|done]|].
  rewrite (Ascii.eqb_sym c d). destruct (Ascii.eqb d c) eqn:Hd; simpl.
  - split; [done|]. intros _. destruct (Split s c) eqn:Hs; simpl; [|lia]. by destruct s; simpl in Hs; repeat case_match.
  - rewrite <- IH. destruct (Split s c) eqn:Hs; simpl; [|done]. split; lia.
Qed.

(** ** Theorems *)

(** The approver: it sends at most one approval per
    run, only for a request that is neither approved nor denied, and what it
    sends keeps the existing conditions, adds the approval and nothing else;
    the request as sent is one the controller leaves alone. *)
Theorem csr_approved_once {E : Type} `{!CsrClient E} (name : string) (e : E) :
  wp (Reconcile name) e tt (λ _ _ t o,
    o ≠ Panic ∧
    match (csr_Get name e).2 with
    | Ok csr =>
        if decide (CertificateApproved ∈ csrc_Type <$> csr_Conditions csr ∨
                   CertificateDenied ∈ csrc_Type <$> csr_Conditions csr)
        then t = [] ∧ o = Val (Result0, None)
        else
          let types := (csrc_Type <$> csr_Conditions csr) ++ [CertificateApproved] in
          ∃ r, t = [EvUpdateApproval (csr_Name csr) types r] ∧ o = Val (Result0, r)
    | Err err => t = [] ∧ o = Val (Result0, if IsNotFound err then None else Some err)
    end).
Proof.
  unfold Reconcile. apply wp_bind, wp_call. intros e1 [csr|err] Hget; rewrite Hget; cbn [snd]; [|by wp_run].
  case_decide as Hd.
  - replace (_ || _) with true; [by wp_run|]. symmetry. apply orb_true_iff. by rewrite !checkCSRCondition_spec.
  - replace (_ || _) with false.
    2:{ symmetry. apply not_true_iff_false. by rewrite orb_true_iff, !checkCSRCondition_spec. }
    cbn zeta. apply wp_bind, wp_call. intros e2 r _. destruct r; wp_run; (split; [done|]);
      eexists; (split; [|done]); cbn; by rewrite fmap_app.
Qed.

(** C24. The webhook on deletion: it is allowed
    exactly when the host has no machine reference or the referenced machine
    is known not to exist; a reference to an existing machine, or a lookup
    that failed otherwise, denies it, and an object that does not decode is
    an error. *)
Theorem host_deletion_guarded {E : Type} `{!Kube E} (req : AdmissionRequest) (h : ByoHost) (e : E) :
  req_Operation req = OpDelete → req_OldObject req = Ok h →
  wp (Handle req) e tt (λ _ _ t o, ∃ resp, o = Val resp ∧
    ((resp = Allowed "" ∧
      (host_MachineRef h = None ∨
       ∃ ref err, host_MachineRef h = Some ref ∧ IsNotFound err = true ∧
         (kube_Get KByoMachine (mkKey (meta_Namespace (host_Meta h)) (ref_Name ref)) e).2 = Err err)) ∨
     ((∃ msg, resp = Denied msg) ∧
      ∃ ref, host_MachineRef h = Some ref ∧
        match (kube_Get KByoMachine (mkKey (meta_Namespace (host_Meta h)) (ref_Name ref)) e).2 with
        | Ok _ => True
        | Err err => IsNotFound err = false
        end))).
Proof.
  intros Hop Hold. unfold Handle, handleDelete, Get. rewrite Hop, Hold.
  destruct (host_MachineRef h) as [ref|] eqn:Href; [|wp_run; eauto 10].
  apply wp_bind, wp_call. intros e1 [m|err] Hget.
  - wp_run. eexists. split; [done|]. right. split; [eauto|]. exists ref. by rewrite Hget.
  - destruct (IsNotFound err) eqn:Hnf; wp_run; eexists; (split; [done|]).
    + left. split; [done|]. right. exists ref, err. by rewrite Hget.
    + right. split; [eauto|]. exists ref. by rewrite Hget.
Qed.

(** Who may create or update a host: the two manager
    accounts, users with an email-like name, and every user whose name
    contains a colon, whatever host it names; nobody else. *)
Theorem host_writers (req : AdmissionRequest) (h : ByoHost) :
  req_Object req = Ok h →
  handleCreateUpdate req =
    (if decide (req_Username req ∈ managerServiceAccounts ∨
                search emailLikeUserRegex (req_Username req) = true ∨
                contains_char (chr 58) (req_Username req) = true)
     then Allowed "" else Denied (req_Username req +:+ " is not a valid agent username")).
Proof.
  intros Hobj. unfold handleCreateUpdate. rewrite Hobj. cbn zeta.
  destruct (bool_decide (req_Username req ∈ managerServiceAccounts)) eqn:Hm.
  { apply bool_decide_eq_true in Hm. by rewrite decide_True by auto. }
  apply bool_decide_eq_false in Hm.
  destruct (search _ _); [by rewrite decide_True by auto|].
  pose proof (length_Split_2 (req_Username req) (chr 58)) as Hl.
  destruct (length (Split (req_Username req) (chr 58)) <? 2) eqn:Hlt.
  - apply Nat.ltb_lt in Hlt. rewrite decide_False; [done|]. intros [?|[?|?]]; try done.
    apply Hl in H. lia.
  - apply Nat.ltb_ge in Hlt. rewrite decide_True; [done|]. right. right. by apply Hl.
Qed.
