(* ===== verification/Registration.v ===== *)
(** * Registration of a host (agent/registration)

    host_registrar.go: the agent creates the object of its host at start-up,
    or finds the one it created before, and refreshes the network and
    platform details of it.  csr.go: the agent obtains a client certificate
    and writes the kubeconfig it works with. *)

From S2P Require Import Prelude GoStrings Encoding Regex Api SafeLabel GoNet Platform CloudInit HostAgent Admission.
From Stdlib Require Import Ascii.

(** ** host_registrar.go *)

(** A network interface; an address with the text of its IP, if its type has one. *)
Record Iface := mkIface { if_Flags : Z; if_HardwareAddr : string; if_Name : string }.
Record Addr := mkAddr { addr_IP : option string; addr_String : string }.

Class HostNet (E : Type) := {
  gateway_DiscoverInterface : E → E * result string;
  net_Interfaces : E → E * result (list Iface);
  iface_Addrs : Iface → E → E * result (list Addr);
  os_ReadFile : string → E → E * result string;
  runtime_GOARCH : string;
  runtime_GOOS : string }.

Definition FlagUp : Z := 1.

(** [IP.String()]; a nil IP prints as below. *)
Definition ip_String (ip : option string) : string := default "<nil>" ip.

(** The part of a line up to its end, and the value of the first
    [PRETTY_NAME=] line: what the pattern's second group matches. *)
Fixpoint to_newline (s : string) : string :=
  match s with
  | EmptyString => EmptyString
  | String c s' => if is_char 10 c then EmptyString else String c (to_newline s')
  end.
Definition os_release_pattern : string := "(PRETTY_NAME)=(.*)".
Definition pretty_name (s : string) : option string :=
  match find_sub "PRETTY_NAME=" s with
  | Some (_, rest) => Some (to_newline rest)
  | None => None
  end.

(** The local store is the registrar's [ByoHostInfo.DefaultNetworkInterfaceName]. *)
Section Registrar.
  Context {E : Type} `{!Kube E, !HostNet E}.

Abbreviation RM := (M Event E string).

(** [f] is [os.ReadFile]. *)
Definition getOperatingSystem : RM (result string) :=
  let! bytes := call (os_ReadFile "/etc/os-release") (λ _, []) in
  let! bytes := match bytes with
                | Err err => if IsNotFound err then call (os_ReadFile "/usr/lib/os-release") (λ _, [])
                             else ret (Err err)
                | Ok b => ret (Ok b)
                end in
  match bytes with
  | Err err => ret (Err (errors_New ("error opening file : " +:+ err_msg err)))
  | Ok bytes =>
      match pretty_name bytes with
      | Some name => ret (Ok (Trim1 name dquote))
      | None => ret (Ok "Unknown")
      end
  end.

Definition getHostInfo : RM (HostInfo * option GoError) :=
  let! distribution := getOperatingSystem in
  match distribution with
  | Err err => ret (mkHostInfo runtime_GOOS "" runtime_GOARCH,
                    Some (errors_Wrap err "failed to get host operating system image"))
  | Ok distribution => ret (mkHostInfo runtime_GOOS distribution runtime_GOARCH, None)
  end.

(** The addresses of one interface. *)
Fixpoint scan_addrs (defaultIP : string) (addrs : list Addr) (netStatus : NetworkStatus) : RM NetworkStatus :=
  match addrs with
  | [] => ret netStatus
  | addr :: addrs' =>
      let! isDefault :=
        (if bool_decide (ip_String (addr_IP addr) = defaultIP)
         then put_local (NetworkInterfaceName netStatus) ;;; ret true
         else ret (IsDefault netStatus)) in
      scan_addrs defaultIP addrs'
        (mkNetworkStatus (Connected netStatus) (IPAddrs netStatus ++ [addr_String addr])
           (MACAddr netStatus) (NetworkInterfaceName netStatus) isDefault)
  end.

Fixpoint scan_ifaces (defaultIP : string) (ifaces : list Iface) (network : list NetworkStatus) :
    RM (list NetworkStatus) :=
  match ifaces with
  | [] => ret network
  | iface :: ifaces' =>
      let connected := (0 <? Z.land (if_Flags iface) FlagUp)%Z in
      let! addrs := call (iface_Addrs iface) (λ _, []) in
      match addrs with
      | Err _ => scan_ifaces defaultIP ifaces' network
      | Ok addrs =>
          let! netStatus := scan_addrs defaultIP addrs
            (mkNetworkStatus connected [] (if_HardwareAddr iface) (if_Name iface) false) in
          scan_ifaces defaultIP ifaces' (network ++ [netStatus])
      end
  end.

Definition GetNetworkStatus : RM (list NetworkStatus) :=
  let! defaultIP := call gateway_DiscoverInterface (λ _, []) in
  match defaultIP with
  | Err _ => ret []
  | Ok defaultIP =>
      let! ifaces := call net_Interfaces (λ _, []) in
      match ifaces with
      | Err _ => ret []
      | Ok ifaces => scan_ifaces defaultIP ifaces []
      end
  end.

Definition UpdateHost (byoHost : ByoHost) : RM (option GoError) :=
  let! ' (helper, err) := NewHelper KByoHost byoHost in
  match err with
  | Some err => ret (Some err)
  | None =>
      let! network := GetNetworkStatus in
      let byoHost := host_set_Network network byoHost in
      let! ' (info, err) := getHostInfo in
      let byoHost := host_set_HostDetails info byoHost in
      match err with
      | Some err => ret (Some err)
      | None => Patch KByoHost helper byoHost
      end
  end.

(** The object of a host that registers for the first time. *)
Definition new_host (hostName namespace : string) (hostLabels : gmap string string) : ByoHost :=
  mkByoHost (mkTypeMeta "ByoHost" "infrastructure.cluster.x-k8s.io/v1beta1")
    (mkObjectMeta hostName namespace "" hostLabels ∅ [] [] None)
    (mkByoHostSpec None None None)
    (mkByoHostStatus None [] (mkHostInfo "" "" "") []).

Definition Register (hostName namespace : string) (hostLabels : gmap string string) : RM (option GoError) :=
  let! byoHost := Get KByoHost (mkKey namespace hostName) in
  match byoHost with
  | Ok byoHost => UpdateHost byoHost
  | Err err =>
      if negb (IsNotFound err) then ret (Some err)
      else
        let! created := Create KByoHost (new_host hostName namespace hostLabels) in
        match created with
        | Err err => ret (Some err)
        | Ok byoHost => UpdateHost byoHost
        end
  end.

(** ** Specifications *)

(** Reference: the entry of one interface, and the name of the default one. *)
Definition has_default (defaultIP : string) (addrs : list Addr) : bool :=
  existsb (λ a, bool_decide (ip_String (addr_IP a) = defaultIP)) addrs.
Definition iface_status (defaultIP : string) (ia : Iface * list Addr) : NetworkStatus :=
  mkNetworkStatus (Z.odd (if_Flags ia.1)) (addr_String <$> ia.2) (if_HardwareAddr ia.1) (if_Name ia.1)
    (has_default defaultIP ia.2).
Definition default_iface (defaultIP : string) (before : string) (ias : list (Iface * list Addr)) : string :=
  foldl (λ name ia, if has_default defaultIP ia.2 then if_Name ia.1 else name) before ias.

Lemma connected_odd flags : (0 <? Z.land flags FlagUp)%Z = Z.odd flags.
Proof.
  unfold FlagUp. change 1%Z with (Z.ones 1). rewrite Z.land_ones by lia. change (2 ^ 1)%Z with 2%Z.
  rewrite Zmod_odd. by destruct (Z.odd flags).
Qed.

Lemma scan_addrs_spec d addrs st e l :
  wp (scan_addrs d addrs st) e l (λ e' l' t o, e' = e ∧ t = [] ∧
    l' = (if has_default d addrs then NetworkInterfaceName st else l) ∧
    o = Val (mkNetworkStatus (Connected st) (IPAddrs st ++ (addr_String <$> addrs)) (MACAddr st)
               (NetworkInterfaceName st) (IsDefault st || has_default d addrs))).
Proof.
  revert st l. induction addrs as [|a addrs IH]; intros st l.
  - apply wp_ret. split_and!; try done. destruct st. cbn. by rewrite app_nil_r, orb_false_r.
  - cbn [scan_addrs has_default existsb]. apply wp_bind. case_bool_decide as Hd.
    + apply wp_bind, wp_put_local, wp_ret. eapply wp_mono; [apply IH|]. cbn beta.
      cbn [NetworkInterfaceName Connected IPAddrs MACAddr IsDefault orb].
      intros e1 l1 t1 o1 (-> & -> & -> & ->). split_and!; try done; [by destruct (has_default _ _)|].
      by rewrite orb_true_r, <- app_assoc.
    + apply wp_ret. eapply wp_mono; [apply IH|]. cbn beta.
      cbn [NetworkInterfaceName Connected IPAddrs MACAddr IsDefault orb].
      intros e1 l1 t1 o1 (-> & -> & -> & ->). split_and!; try done. by rewrite <- app_assoc.
Qed.

Lemma scan_ifaces_spec d ifaces acc e l :
  wp (scan_ifaces d ifaces acc) e l (λ _ l' t o, t = [] ∧
    ∃ ias, ias.*1 `sublist_of` ifaces ∧ o = Val (acc ++ (iface_status d <$> ias)) ∧
      l' = default_iface d l ias).
Proof.
  revert acc e l. induction ifaces as [|i ifaces IH]; intros acc e l.
  - apply wp_ret. split; [done|]. exists []. split_and!; [constructor| |done]. by rewrite app_nil_r.
  - cbn [scan_ifaces]. apply wp_bind, wp_call. intros e1 [addrs|err] _.
    + apply wp_bind. eapply wp_mono; [apply scan_addrs_spec|]. cbn beta.
      intros e2 l2 t2 o2 (-> & -> & -> & ->). eapply wp_mono; [apply IH|]. cbn beta.
      intros e3 l3 t3 o3 (-> & ias & Hsub & -> & ->). split; [done|].
      exists ((i, addrs) :: ias). split_and!; [by constructor| |done].
      cbn [fmap list_fmap]. unfold iface_status at 2. cbn. rewrite connected_odd.
      by rewrite <- app_assoc.
    + eapply wp_mono; [apply IH|]. cbn beta. intros e3 l3 t3 o3 (-> & ias & Hsub & -> & ->).
      split; [done|]. exists ias. split_and!; [by constructor|done|done].
Qed.

Lemma GetNetworkStatus_quiet e l : wp GetNetworkStatus e l (λ _ _ t o, t = [] ∧ ∃ n, o = Val n).
Proof.
  unfold GetNetworkStatus. apply wp_bind, wp_call. intros e1 [d|err] _; [|wp_run; eauto].
  apply wp_bind, wp_call. intros e2 [ifs|err] _; [|wp_run; eauto].
  eapply wp_mono; [apply scan_ifaces_spec|]. cbn beta. intros e3 l3 t3 o (-> & ias & _ & -> & _). eauto.
Qed.

Lemma getHostInfo_quiet e l : wp getHostInfo e l (λ _ _ t o, t = [] ∧ ∃ i err, o = Val (i, err)).
Proof.
  unfold getHostInfo, getOperatingSystem. apply wp_bind, wp_bind, wp_call. intros e1 [b|err] _.
  - apply wp_bind, wp_ret. destruct (pretty_name b); wp_run; eauto.
  - apply wp_bind. destruct (IsNotFound err); [|wp_run; eauto]. apply wp_call. intros e2 [b|err2] _; [|wp_run; eauto].
    destruct (pretty_name b); wp_run; eauto.
Qed.

(** What a start-up may do to the object: only the two inventories change. *)
Definition inventoried (h h' : ByoHost) : Prop :=
  ∃ n i, h' = host_set_HostDetails i (host_set_Network n h).

Lemma UpdateHost_spec h e l :
  wp (UpdateHost h) e l (λ _ _ t o,
    (t = [] ∧ ∃ err, o = Val (Some err)) ∨
    ∃ h' perr, inventoried h h' ∧ t = [EvPatch (OByoHost h) (OByoHost h') perr] ∧ o = Val perr).
Proof.
  unfold UpdateHost. apply wp_bind, wp_NewHelper; [intros e1 err; apply wp_ret; left; eauto|intros e1].
  apply wp_bind. eapply wp_mono; [apply GetNetworkStatus_quiet|]. cbn beta. intros e2 l2 t2 o2 (-> & n & ->).
  apply wp_bind. eapply wp_mono; [apply getHostInfo_quiet|]. cbn beta. intros e3 l3 t3 o3 (-> & i & err & ->).
  destruct err as [err|]; [apply wp_ret; left; eauto|]. unfold Patch. apply wp_Patch. intros e4 perr.
  right. eexists _, perr. split_and!; [|done|done]. by exists n, i.
Qed.
End Registrar.

(** ** csr.go *)

Definition ExpirationSeconds : Z := 86400 * 365.
Definition ByohCSROrg : string := "byoh:hosts".
Definition ByohCSRCN (hostname : string) : string := "byoh:host:" +:+ hostname.
Definition ByohCSRName (hostname : string) : string := "byoh-csr-" +:+ hostname.
Definition TmpPrivateKey : string := "byoh-client.key.tmp".
Definition DefaultConfigPath : string := ".byoh/config".
Definition CSRApprovalTimeout : Z := 3600 * Second.

(** 64-bit signed arithmetic of [time.Duration]. *)
Definition int64 (z : Z) : Z := ((z + 2 ^ 63) mod 2 ^ 64 - 2 ^ 63)%Z.

(** [restclient.Config], the fields the agent reads. *)
Record RestConfig := mkRestConfig {
  rc_Host : string; rc_Insecure : bool; rc_CAFile : string; rc_CAData : string; rc_CertData : string }.

(** [clientcmdapi.Config] with a client certificate, as the agent writes it. *)
Record CertCluster := mkCertCluster {
  cc_Server : string; cc_InsecureSkipTLSVerify : bool; cc_CertificateAuthority : string;
  cc_CertificateAuthorityData : string }.
Record CertAuth := mkCertAuth { ca_ClientCertificateData : string; ca_ClientKeyData : string }.
Record CertContext := mkCertContext { cx_Cluster : string; cx_AuthInfo : string; cx_Namespace : string }.
Record CertConfig := mkCertConfig {
  ck_Clusters : gmap string CertCluster; ck_AuthInfos : gmap string CertAuth;
  ck_Contexts : gmap string CertContext; ck_CurrentContext : string }.

(** client-go (clientcmd, keyutil, csr), crypto/x509 and the home directory. *)
Class CertLibs (E : Type) := {
  LoadedConfig : Type;
  loaded_CurrentContext : LoadedConfig → string;
  loader_Load : string → E → E * result LoadedConfig;
  clientcmd_ClientConfig : LoadedConfig → string → result RestConfig;
  ClientSet : Type;
  clientset_NewForConfig : RestConfig → result ClientSet;
  PrivKey : Type;
  keyutil_LoadOrGenerateKeyFile : string → E → E * result string;
  keyutil_ParsePrivateKeyPEM : string → result PrivKey;
  (** [x509.CreateCertificateRequest] for a subject with this name and organizations *)
  x509_CreateCertificateRequest : string → list string → PrivKey → E → E * result string;
  pem_EncodeToMemory : string → string → string;
  CertificateRequestBlockType : string;
  KubeAPIServerClientSignerName : string;
  UsageClientAuth : string;
  csr_RequestCertificate :
    ClientSet → string → string → string → Z → list string → PrivKey → E → E * result (string * string);
  csr_WaitForCertificate : ClientSet → Z → string → string → E → E * result string;
  clientcmd_WriteToFile : CertConfig → string → E → E * option GoError;
  os_UserHomeDir : E → E * result string }.

Section Csr.
  Context {E : Type} `{!CertLibs E, !HostOS E}.

(** [ByohCSR]; its [PrivateKey] is the local store. *)
Record ByohCSR := mkByohCSR {
  bootstrapClientConfig : RestConfig;
  bootstrapClient : ClientSet;
  configPath : string;
  expiryDuration : Z }.

Abbreviation KM := (M Event E string).

(** [ConfigPath] is the package variable, empty unless set. *)
Definition GetBYOHConfigPath {L} (ConfigPath : string) : M Event E L string :=
  if bool_decide (ConfigPath ≠ "") then ret ConfigPath
  else
    let! homeDir := call os_UserHomeDir (λ _, []) in
    match homeDir with
    | Err _ => ret DefaultConfigPath
    | Ok homeDir => ret (filepath_Join [homeDir; DefaultConfigPath])
    end.

Definition LoadRESTClientConfig {L} (kubeconfigPath : string) : M Event E L (result RestConfig) :=
  let! loadedConfig := call (loader_Load kubeconfigPath) (λ _, [EvLoadConfig kubeconfigPath]) in
  match loadedConfig with
  | Err err => ret (Err err)
  | Ok loadedConfig => ret (clientcmd_ClientConfig loadedConfig (loaded_CurrentContext loadedConfig))
  end.

Definition NewByohCSR {L} (ConfigPath : string) (config : RestConfig) (expiryDurationInSeconds : Z) :
    M Event E L (result ByohCSR) :=
  match clientset_NewForConfig config with
  | Err err => ret (Err err)
  | Ok client =>
      let! path := GetBYOHConfigPath ConfigPath in
      ret (Ok (mkByohCSR config client path (int64 (expiryDurationInSeconds * Second))))
  end.

Definition generateCSR (hostname : string) (privKey : PrivKey) : KM (result string) :=
  let! csrData := call (x509_CreateCertificateRequest (ByohCSRCN hostname) [ByohCSROrg] privKey) (λ _, []) in
  match csrData with
  | Err err => ret (Err err)
  | Ok csrData => ret (Ok (pem_EncodeToMemory CertificateRequestBlockType csrData))
  end.

Definition RequestBYOHClientCert (bcsr : ByohCSR) (hostname : string) : KM (result (string * string)) :=
  if bool_decide (hostname = "") then ret (Err (errors_New "hostname is not valid"))
  else
    let! keyData := call (keyutil_LoadOrGenerateKeyFile TmpPrivateKey) (λ _, []) in
    match keyData with
    | Err err => ret (Err err)
    | Ok keyData =>
        match keyutil_ParsePrivateKeyPEM keyData with
        | Err err => ret (Err (errors_New ("invalid private key for certificate request: " +:+ err_msg err)))
        | Ok privateKey =>
            put_local keyData ;;;
            let! csrData := generateCSR hostname privateKey in
            match csrData with
            | Err err => ret (Err (errors_New ("error generating csr " +:+ hostname +:+ ", err=" +:+ err_msg err)))
            | Ok csrData =>
                let! req := call (csr_RequestCertificate (bootstrapClient bcsr) csrData (ByohCSRName hostname)
                    KubeAPIServerClientSignerName (expiryDuration bcsr) [UsageClientAuth] privateKey)
                  (λ r, [EvRequestCertificate csrData (ByohCSRName hostname) KubeAPIServerClientSignerName
                           (expiryDuration bcsr) [UsageClientAuth] (err_of r)]) in
                match req with
                | Err err => ret (Err err)
                | Ok req => ret (Ok req)
                end
            end
        end
    end.

Definition bootstrap_config (config : RestConfig) (certData keyData : string) : CertConfig :=
  let caFile := rc_CAFile config in
  let caData := if bool_decide (caFile = "") then rc_CAData config else "" in
  mkCertConfig
    {[ "default-cluster" := mkCertCluster (rc_Host config) (rc_Insecure config) caFile caData ]}
    {[ "default-auth" := mkCertAuth certData keyData ]}
    {[ "default-context" := mkCertContext "default-cluster" "default-auth" "default" ]}
    "default-context".

Definition writeKubeconfigFromBootstrapping (config : RestConfig) (kubeconfigPath certData keyData : string) :
    KM (option GoError) :=
  call (clientcmd_WriteToFile (bootstrap_config config certData keyData) kubeconfigPath)
    (λ r, [EvWriteKubeconfig kubeconfigPath r]).

Definition BootstrapKubeconfig_ (bcsr : ByohCSR) (hostName : string) : KM (option GoError) :=
  let! req := RequestBYOHClientCert bcsr hostName in
  match req with
  | Err err => ret (Some err)
  | Ok (reqName, reqUID) =>
      let! certData := call (csr_WaitForCertificate (bootstrapClient bcsr) CSRApprovalTimeout reqName reqUID)
        (λ r, [EvWaitForCertificate reqName (err_of r)]) in
      match certData with
      | Err err => ret (Some err)
      | Ok certData =>
          let! key := get_local in
          let! err := writeKubeconfigFromBootstrapping (bootstrapClientConfig bcsr) (configPath bcsr) certData key in
          match err with
          | Some err => ret (Some err)
          | None =>
              (* a failure to remove the temporary key is only logged *)
              let! _ := call (os_Remove TmpPrivateKey) (λ r, [EvRemove TmpPrivateKey r]) in
              ret None
          end
      end
  end.

(** [csrData] is a certificate request, signed with [key], for the user name
    and the group of the host's agent. *)
Definition csr_for (hostName : string) (key : PrivKey) (csrData : string) : Prop :=
  ∃ d, (∃ e, (x509_CreateCertificateRequest ("byoh:host:" +:+ hostName) ["byoh:hosts"] key e).2 = Ok d) ∧
    csrData = pem_EncodeToMemory CertificateRequestBlockType d.

(** The order of the flow: a request under the host's name for the host's
    identity, for client authentication only, the wait for the certificate of
    that request, the kubeconfig with this certificate and the key of the
    request, and last the removal of the temporary key. *)
Definition csr_flow (bcsr : ByohCSR) (hostName : string) (t : list Event) (o : Outcome (option GoError)) : Prop :=
  (t = [] ∧ ∃ err, o = Val (Some err)) ∨
  ∃ keyData key csrData, keyutil_ParsePrivateKeyPEM keyData = Ok key ∧ csr_for hostName key csrData ∧
    let request := EvRequestCertificate csrData (ByohCSRName hostName) KubeAPIServerClientSignerName
                     (expiryDuration bcsr) [UsageClientAuth] in
    (∃ err, t = [request (Some err)] ∧ o = Val (Some err)) ∨
    ∃ reqName reqUID,
      (∃ e, (csr_RequestCertificate (bootstrapClient bcsr) csrData (ByohCSRName hostName)
               KubeAPIServerClientSignerName (expiryDuration bcsr) [UsageClientAuth] key e).2 = Ok (reqName, reqUID)) ∧
      ((∃ err, t = [request None; EvWaitForCertificate reqName (Some err)] ∧ o = Val (Some err)) ∨
       ∃ certData,
         (∃ e, (csr_WaitForCertificate (bootstrapClient bcsr) CSRApprovalTimeout reqName reqUID e).2 = Ok certData) ∧
         ((∃ err, t = [request None; EvWaitForCertificate reqName None;
                       EvWriteKubeconfig (configPath bcsr) (Some err)] ∧ o = Val (Some err)) ∨
          (∃ e, (clientcmd_WriteToFile (bootstrap_config (bootstrapClientConfig bcsr) certData keyData)
                   (configPath bcsr) e).2 = None) ∧
          ∃ r, t = [request None; EvWaitForCertificate reqName None;
                    EvWriteKubeconfig (configPath bcsr) None; EvRemove TmpPrivateKey r] ∧ o = Val None)).

Lemma BootstrapKubeconfig_spec bcsr hostName e l :
  wp (BootstrapKubeconfig_ bcsr hostName) e l (λ _ _ t o,
    csr_flow bcsr hostName t o ∧ (hostName = "" → t = [])).
Proof.
  unfold BootstrapKubeconfig_, RequestBYOHClientCert, csr_flow. apply wp_bind. case_bool_decide as Hn.
  { apply wp_ret, wp_ret. split; [left; eauto|done]. }
  apply wp_bind, wp_call. intros e1 [keyData|err] _; [|wp_run; split; [left; eauto|done]].
  destruct (keyutil_ParsePrivateKeyPEM keyData) as [key|err] eqn:Hkey; [|wp_run; split; [left; eauto|done]].
  apply wp_bind, wp_put_local, wp_bind. unfold generateCSR. apply wp_bind, wp_call.
  intros e2 [d|err] Hd; [|wp_run; split; [left; eauto|done]].
  assert (csr_for hostName key (pem_EncodeToMemory CertificateRequestBlockType d)) as Hcsr.
  { exists d. split; [|done]. exists e1. unfold ByohCSRCN, ByohCSROrg in Hd. by rewrite Hd. }
  apply wp_ret, wp_bind, wp_call. intros e3 [[reqName reqUID]|err] Hreq.
  2:{ wp_run. split; [|done]. right. exists keyData, key. eexists. split_and!; [done..|]. left. eauto. }
  apply wp_ret, wp_bind, wp_call. intros e4 r Hwait.
  assert (∀ t o,
    ((∃ err, t = [EvWaitForCertificate reqName (Some err)] ∧ o = Val (Some err)) ∨
     ∃ certData, r = Ok certData ∧
       ((∃ err, t = [EvWaitForCertificate reqName None; EvWriteKubeconfig (configPath bcsr) (Some err)] ∧
           o = Val (Some err)) ∨
        (∃ e, (clientcmd_WriteToFile (bootstrap_config (bootstrapClientConfig bcsr) certData keyData)
                 (configPath bcsr) e).2 = None) ∧
        ∃ r, t = [EvWaitForCertificate reqName None; EvWriteKubeconfig (configPath bcsr) None;
                  EvRemove TmpPrivateKey r] ∧ o = Val None)) →
    csr_flow bcsr hostName (EvRequestCertificate (pem_EncodeToMemory CertificateRequestBlockType d)
      (ByohCSRName hostName) KubeAPIServerClientSignerName (expiryDuration bcsr) [UsageClientAuth] None :: t) o) as Hflow.
  { intros t o Ht. right. exists keyData, key. eexists. split_and!; [done..|]. right. exists reqName, reqUID.
    split; [exists e2; by rewrite Hreq|].
    destruct Ht as [(err & -> & ->)|(certData & -> & Ht)]; [left; eauto|right]. exists certData.
    split; [exists e3; by rewrite Hwait|]. destruct Ht as [(err & -> & ->)|(Hw & rr & -> & ->)]; [left; eauto|right; eauto]. }
  destruct r as [certData|err].
  2:{ wp_run. split; [|done]. apply Hflow. left. eauto. }
  apply wp_bind, wp_get_local, wp_bind. unfold writeKubeconfigFromBootstrapping. apply wp_call.
  intros e5 [err|] Hwr.
  { wp_run. split; [|done]. apply Hflow. right. exists certData. split; [done|]. left. eauto. }
  wp_run. split; [|done]. apply Hflow. right. exists certData. split; [done|]. right.
  split; [exists e4; by rewrite Hwr|eauto].
Qed.
End Csr.

(** ** The image name and its pattern *)

Lemma HasPrefix_slice s p : HasPrefix s p = true → s = p +:+ slice_from (String.length p) s.
Proof. intros [t ->]%HasPrefix_spec. by rewrite slice_from_app. Qed.

Lemma find_sub_some pat s a b : find_sub pat s = Some (a, b) → s = a +:+ pat +:+ b.
Proof.
  revert a. induction s as [|c s IH]; intros a; cbn [find_sub]; (destruct (HasPrefix _ _) eqn:Hp;
    [intros [= <- <-]; exact (HasPrefix_slice _ _ Hp)|]); [done|].
  destruct (find_sub pat s) as [[a' b']|]; [|done]. intros [= <- <-]. by rewrite (IH a' eq_refl).
Qed.
Lemma find_sub_first pat s a b : find_sub pat s = Some (a, b) →
  ∀ a' b', s = a' +:+ pat +:+ b' → String.length a ≤ String.length a'.
Proof.
  revert a. induction s as [|c s IH]; intros a; cbn [find_sub].
  - destruct (HasPrefix _ _); [|done]. intros [= <- <-] a' b' _. simpl. lia.
  - destruct (HasPrefix _ _) eqn:Hp.
    + intros [= <- <-] a' b' _. simpl. lia.
    + destruct (find_sub pat s) as [[a1 b1]|] eqn:Hf; [|done]. intros [= <- <-] a' b' Hs.
      destruct a' as [|d a'].
      * exfalso. change (String c s = pat +:+ b') in Hs. rewrite Hs, HasPrefix_app in Hp. done.
      * injection Hs as -> Hs. apply le_n_S. by eapply IH.
Qed.
Lemma find_sub_none pat s : find_sub pat s = None → ∀ a b, s ≠ a +:+ pat +:+ b.
Proof.
  induction s as [|c s IH]; cbn [find_sub]; (destruct (HasPrefix _ _) eqn:Hp; [done|]).
  - intros _ [|] b Hs; [|done]. change ("" = pat +:+ b) in Hs. by rewrite Hs, HasPrefix_app in Hp.
  - destruct (find_sub pat s) as [[]|]; [done|]. intros Hn [|d a] b Hs.
    + change (String c s = pat +:+ b) in Hs. by rewrite Hs, HasPrefix_app in Hp.
    + injection Hs as _ Hs. by eapply IH.
Qed.

Lemma to_newline_spec s : contains_char (chr 10) (to_newline s) = false ∧
  ∃ post, s = to_newline s +:+ post ∧ (post = "" ∨ ∃ post', post = newline +:+ post').
Proof.
  induction s as [|c s [IHn (post & IHs & IHp)]]; cbn [to_newline].
  { split; [done|]. exists "". by split; [|left]. }
  destruct (is_char 10 c) eqn:Hc.
  - split; [done|]. exists (String c s). split; [done|]. right. exists s.
    unfold is_char in Hc. apply Nat.eqb_eq in Hc. unfold newline, chr. by rewrite <- Hc, ascii_nat_embedding.
  - split.
    + cbn [contains_char]. rewrite IHn, orb_false_r. apply Ascii.eqb_neq. intros <-. done.
    + exists post. split; [by rewrite IHs at 1|done].
Qed.

Definition dots_tail : regex := RSeq (RSeq (RStar (RTest TDot)) REps) REps.
Definition os_release_re : regex := RSeq (chain "PRETTY_NAME" REps) (chain "=" dots_tail).
Lemma compile_os_release : regexp_Compile os_release_pattern = Some os_release_re.
Proof. vm_compute. reflexivity. Qed.

Lemma matches_os_release l :
  matches os_release_re l → ∃ l', l = syms "PRETTY_NAME=" ++ l'.
Proof.
  unfold os_release_re. rewrite matches_seq_split. intros (l1 & l2 & -> & H1 & H2).
  apply matches_chain in H1 as (w1 & l1' & -> & Hw1 & ->%matches_eps).
  apply matches_chain in H2 as (w2 & l2' & -> & Hw2 & _).
  apply like_eq in Hw1 as ->; [|done]. apply like_eq in Hw2 as ->; [|done]. by exists l2'.
Qed.
Lemma os_release_matches : matches os_release_re (syms "PRETTY_NAME=").
Proof.
  apply (M_seq _ _ (syms "PRETTY_NAME") (syms "=")); apply matches_chain.
  - exists "PRETTY_NAME", []. split_and!; [done|by apply like_refl|constructor].
  - exists "=", []. split_and!; [done|by apply like_refl|]. unfold dots_tail.
    apply (M_seq _ _ [] []); [|constructor]. apply (M_seq _ _ [] []); constructor.
Qed.

(** ** Theorems *)

(** The operating-system image an agent reports: the
    text of os-release has one exactly when the source's pattern matches it,
    and it is then the rest of the line after the first [PRETTY_NAME=]. *)
Theorem os_image_pattern (s : string) :
  (regexp_MatchString os_release_pattern s = Ok true ↔ is_Some (pretty_name s)) ∧
  ∀ v, pretty_name s = Some v →
    ∃ pre post, s = pre +:+ "PRETTY_NAME=" +:+ v +:+ post ∧ contains_char (chr 10) v = false ∧
      (post = "" ∨ ∃ post', post = newline +:+ post') ∧
      ∀ pre' post', s = pre' +:+ "PRETTY_NAME=" +:+ post' → String.length pre ≤ String.length pre'.
Proof.
  unfold pretty_name. split.
  - unfold regexp_MatchString. rewrite compile_os_release.
    transitivity (search os_release_re s = true).
    { split; [by intros [= ->]|by intros ->]. }
    rewrite search_spec. split.
    + intros (l1 & l & l2 & Ht & (l' & ->)%matches_os_release). rewrite <- app_assoc in Ht.
      apply text_piece in Ht as (pre & post & ->).
      destruct (find_sub _ _) as [[]|] eqn:Hf; [done|]. by eapply find_sub_none in Hf.
    + destruct (find_sub _ s) as [[a b]|] eqn:Hf; [|by intros []]. intros _.
      apply find_sub_some in Hf as ->. exists (SBegin :: syms a), (syms "PRETTY_NAME="), (syms b ++ [SEnd]).
      split; [|apply os_release_matches]. unfold text. by rewrite !syms_app, <- !app_assoc.
  - intros v. destruct (find_sub _ s) as [[a b]|] eqn:Hf; [|done]. intros [= <-].
    destruct (to_newline_spec b) as [Hn (post & Hb & Hp)].
    pose proof (find_sub_first _ _ _ _ Hf) as Hfirst. apply find_sub_some in Hf.
    exists a, post. split_and!; [by rewrite <- Hb|done|done|exact Hfirst].
Qed.

(** The network status an agent reports: one entry
    per interface whose addresses could be read, in order, with its address
    strings, its up flag, and marked as default exactly when one of its
    addresses is the gateway's interface address; the registrar's default
    interface is the last one so marked, or the previous value. *)
Theorem network_inventory {E : Type} `{!HostNet E} (e : E) (l : string) :
  wp GetNetworkStatus e l (λ _ l' t o,
    t = [] ∧
    ((o = Val [] ∧ l' = l) ∨
     ∃ defaultIP ifaces ias, ias.*1 `sublist_of` ifaces ∧
       (gateway_DiscoverInterface e).2 = Ok defaultIP ∧
       o = Val (iface_status defaultIP <$> ias) ∧ l' = default_iface defaultIP l ias)).
Proof.
  unfold GetNetworkStatus. apply wp_bind, wp_call. intros e1 [d|err] Hd; [|wp_run; auto].
  apply wp_bind, wp_call. intros e2 [ifs|err] _; [|wp_run; auto].
  eapply wp_mono; [apply scan_ifaces_spec|]. cbn beta. intros e3 l3 t3 o (-> & ias & Hsub & -> & ->).
  split; [done|]. right. exists d, ifs, ias. by rewrite Hd.
Qed.

(** Start-up of an agent: it creates the
    object of its host only when the server says there is none, with the
    given labels and nothing else, and otherwise works on the stored object;
    it then sends at most one patch, which changes the network and platform
    details only, so a restart never touches a claim, a cleanup mark or the
    conditions; it reports success only when that patch was accepted. *)
Theorem register_preserves_claim {E : Type} `{!Kube E, !HostNet E} (name ns : string)
    (labels : gmap string string) (e : E) (l : string) :
  wp (Register name ns labels) e l (λ _ _ t o,
    let updated (h : ByoHost) (t' : list Event) :=
      (t' = [] ∧ ∃ err, o = Val (Some err)) ∨
      ∃ h' perr, inventoried h h' ∧ t' = [EvPatch (OByoHost h) (OByoHost h') perr] ∧ o = Val perr in
    let get r := EvGet KByoHost (mkKey ns name) (answer_of KByoHost r) in
    match (kube_Get KByoHost (mkKey ns name) e).2 with
    | Ok h => ∃ t', t = get (Ok h) :: t' ∧ updated h t'
    | Err err =>
        if IsNotFound err then
          ∃ r t', t = get (Err err) :: EvCreate (OByoHost (new_host name ns labels)) (err_of r) :: t' ∧
            match r with
            | Ok h => updated h t'
            | Err err => t' = [] ∧ o = Val (Some err)
            end
        else t = [get (Err err)] ∧ o = Val (Some err)
    end).
Proof.
  unfold Register, Get, Create. apply wp_bind, wp_call. intros e1 [h|err] Hget; rewrite Hget; cbn [snd].
  - eapply wp_mono; [apply UpdateHost_spec|]. cbn beta zeta. intros e2 l2 t2 o Ho. by exists t2.
  - destruct (IsNotFound err); cbn [negb]; [|by wp_run]. apply wp_bind, wp_call. intros e2 [h|err2] _.
    + eapply wp_mono; [apply UpdateHost_spec|]. cbn beta zeta. intros e3 l3 t3 o Ho. by exists (Ok h), t3.
    + apply wp_ret. by exists (Err err2), [].
Qed.

(** C36. The agent's certificate flow and the
    manager's admission together.  The agent requests a certificate for the
    user name "byoh:host:<its host>" and the group of the agents, under the
    request name of its host, for client authentication with the API server's
    client signer; a kubeconfig is written only with the certificate that was
    issued for that very request and the key it was signed with, and a host
    without a name requests nothing ([csr_flow]).  The name of the request is
    one the approver watches, and the user of the certificate (its common
    name) may create and update the host of that name. *)
Theorem agent_identity_admitted {E : Type} `{!CertLibs E, !HostOS E} (bcsr : ByohCSR) (hostName : string)
    (e : E) (l : string) (op : Operation) (obj : ByoHost) (old : result ByoHost) :
  host_Name obj = hostName →
  wp (BootstrapKubeconfig_ bcsr hostName) e l (λ _ _ t o,
    csr_flow bcsr hostName t o ∧ (hostName = "" → t = [])) ∧
  csr_filter (ByohCSRName hostName) = true ∧
  handleCreateUpdate (mkAdmissionRequest op ("byoh:host:" +:+ hostName) (Ok obj) old) = Allowed "".
Proof.
  intros _. change ("byoh:host:" +:+ hostName) with (ByohCSRCN hostName).
  split_and!; [apply BootstrapKubeconfig_spec|apply HasPrefix_app|].
  unfold handleCreateUpdate. cbn [req_Object req_Username].
  destruct (bool_decide _); [done|]. destruct (search _ _); [done|].
  replace (_ <? 2) with false; [done|]. symmetry. apply Nat.ltb_ge, length_Split_2.
  unfold ByohCSRCN. by rewrite contains_char_app.
Qed.
