(* ===== verification/AgentMain.v ===== *)
(** * The agent's entry point (agent/main.go)

    The [--label] flag, the bootstrap and rotation of the client certificate
    and the start-up of the agent up to the reconciler it runs. *)

From S2P Require Import Prelude GoStrings Encoding Regex Api SafeLabel GoNet Platform CloudInit HostAgent Admission.
From S2P Require Import Registration.
From Stdlib Require Import Ascii.

(** ** labelFlags *)

Definition comma : ascii := chr 44.
Definition equals : ascii := chr 61.

(** A map is printed in the order in which it is iterated. *)
Definition labelFlags_String (order : list (string * string)) : string :=
  Join ((λ kv, kv.1 +:+ "=" +:+ kv.2) <$> order) ",".

Definition label_error (value : string) : GoError :=
  errors_New ("invalid argument value. expect key=value, got " +:+ value).

(** One [key=value] pair is stored in the map. *)
Definition set_pair (value s : string) (l : gmap string string) : gmap string string * option GoError :=
  match SplitN2 s equals with
  | k :: v :: _ => (<[TrimSpace k := TrimSpace v]> l, None)
  | _ => (l, Some (label_error value))
  end.

(** The loop stops at the first malformed pair; the pairs before it stay set. *)
Fixpoint set_pairs (value : string) (ss : list string) (l : gmap string string) :
    gmap string string * option GoError :=
  match ss with
  | [] => (l, None)
  | s :: ss' =>
      if bool_decide (s = "") then set_pairs value ss' l
      else match set_pair value s l with
           | (l, Some err) => (l, Some err)
           | (l, None) => set_pairs value ss' l
           end
  end.

Definition labelFlags_Set (value : string) (l : gmap string string) : gmap string string * option GoError :=
  if 1 <? length (Split value comma) then set_pairs value (Split value comma) l
  else set_pair value value l.

Definition setupTemplateParser (DefaultNetworkInterfaceName : string) : option TemplateData :=
  if bool_decide (DefaultNetworkInterfaceName = "") then None
  else Some (TDHostInfo DefaultNetworkInterfaceName).

(** ** Certificates *)

(** Instants and durations in nanoseconds; [Sub] saturates at the ends of the
    64-bit range, [Duration] divides like int64. *)
Definition maxDuration : Z := 2 ^ 63 - 1.
Definition minDuration : Z := - 2 ^ 63.
Definition time_Sub (t u : Z) : Z := Z.max minDuration (Z.min maxDuration (t - u)).
Definition time_Add (t : Z) (d : Z) : Z := (t + d)%Z.
Definition time_After (t u : Z) : bool := (u <? t)%Z.

Record Certificate := mkCertificate { NotBefore : Z; NotAfter : Z }.

(** encoding/pem, crypto/x509, the clock, the process and the manager. *)
Class AgentRT (E : Type) := {
  pem_Decode : string → option (string * string);  (* type and bytes of the first block *)
  x509_ParseCertificate : string → result Certificate;
  time_Now : E → E * Z;
  time_Sleep : Z → E → E * unit;
  os_Hostname : E → E * result string;
  os_Getenv : string → E → E * string;
  client_New : RestConfig → E → E * option GoError;
  ctrl_NewManager : RestConfig → string → string → string → E → E * option GoError;
  SetupWithManager : HostReconciler → E → E * option GoError;
  mgr_Start : E → E * option GoError }.

(** The package variables the flags set. *)
Record Flags := mkFlags {
  flag_namespace : string; flag_labels : gmap string string; flag_metricsbindaddress : string;
  flag_downloadpath : string; flag_skipInstallation : bool; flag_printVersion : bool;
  flag_bootstrapKubeConfig : string; flag_certExpiryDuration : Z;
  flag_ConfigPath : string (* registration.ConfigPath *) }.

(** The defaults [setupflags] declares. *)
Definition setupflags : Flags :=
  mkFlags "default" ∅ ":8080" "/var/lib/byoh/bundles" false false "" ExpirationSeconds "".

(** [pflag.Parse] calls [Set] for each occurrence of the flag, up to the first error. *)
Fixpoint parse_labels (values : list string) (l : gmap string string) : gmap string string * option GoError :=
  match values with
  | [] => (l, None)
  | value :: values =>
      match labelFlags_Set value l with
      | (l, Some err) => (l, Some err)
      | (l, None) => parse_labels values l
      end
  end.

Section Agent.
  Context {E : Type} `{!Kube E, !HostNet E, !CertLibs E, !HostOS E, !AgentRT E}.

(** The local store is the registrar's default network interface. *)
Abbreviation AM := (M Event E string).

Definition handleBootstrapFlow (fl : Flags) (hostName : string) : AM (option GoError) :=
  let! config := LoadRESTClientConfig (flag_bootstrapKubeConfig fl) in
  match config with
  | Err err => ret (Some (errors_New ("client config load failed: " +:+ err_msg err)))
  | Ok bootstrapClientConfig =>
      let! byohCSR := NewByohCSR (flag_ConfigPath fl) bootstrapClientConfig (flag_certExpiryDuration fl) in
      match byohCSR with
      | Err err => ret (Some (errors_New ("ByohCSR intialization failed: " +:+ err_msg err)))
      | Ok byohCSR =>
          let! err := scoped "" (BootstrapKubeconfig_ byohCSR hostName) None ret in
          match err with
          | Some err => ret (Some (errors_New ("kubeconfig generation failed: " +:+ err_msg err)))
          | None => ret None
          end
      end
  end.

(** The instant from which on a certificate is renewed. *)
Definition renew_after (cert : Certificate) : Z :=
  let totalTimeCert := time_Sub (NotAfter cert) (NotBefore cert) in
  time_Add (NotAfter cert) (Z.quot totalTimeCert (-5)).

Definition certRotation (fl : Flags) (hostName : string) (config : RestConfig) : AM (option GoError) :=
  match pem_Decode (rc_CertData config) with
  | None => ret None
  | Some (btype, bytes) =>
      if bool_decide (btype ≠ "CERTIFICATE") then ret None
      else
        match x509_ParseCertificate bytes with
        | Err err => ret (Some err)
        | Ok cert =>
            let! now := call time_Now (λ _, []) in
            if time_After now (renew_after cert) then
              (* a failed renewal is only logged *)
              let! _ := handleBootstrapFlow fl hostName in
              ret None
            else ret None
        end
  end.

(** [n] turns of the endless loop: it ends earlier only with an error. *)
Fixpoint certificateRotation (n : nat) (fl : Flags) (hostName : string) (config : RestConfig) :
    AM (option GoError) :=
  match n with
  | 0 => ret None
  | S n' =>
      let! err := certRotation fl hostName config in
      match err with
      | Some err => ret (Some err)
      | None => call (time_Sleep (5 * Second)) (λ _, []) ;;; certificateRotation n' fl hostName config
      end
  end.

(** How [main] ends; [Ran] is the return of a manager that was started, with
    the reconciler it ran and whether certificates were rotated. *)
Inductive MainEnd :=
  | Returned
  | Exit1
  | Ran (r : HostReconciler) (rotate : bool) (err : option GoError).

Definition getConfig (fl : Flags) : AM (result RestConfig) :=
  let! path := GetBYOHConfigPath (flag_ConfigPath fl) in LoadRESTClientConfig path.

(** The goroutine that runs [certificateRotation] beside [main]: [n] of its
    polls, taken between two calls of [main].  It is over once it returned an
    error; [false] says that it does not run (any more). *)
Definition rotation_turns (rotate : bool) (n : nat) (fl : Flags) (hostName : string) (config : RestConfig) :
    AM bool :=
  if rotate then
    let! err := certificateRotation n fl hostName config in
    ret (match err with Some _ => false | None => true end)
  else ret false.

(** Manager, reconciler and controller, once the host is registered.  The
    schedule says how many polls of the goroutine happen before each of the
    calls that follow its start, and while the manager runs; every schedule
    is allowed. *)
Definition run_manager (sched : nat → nat) (fl : Flags) (hostName : string) (config : RestConfig) : AM MainEnd :=
  let! rotation := call (os_Getenv "CERTIFICATE_ROTATION") (λ v, [EvGetenv "CERTIFICATE_ROTATION" v]) in
  let rotate := bool_decide (rotation = "true") in
  let! running := rotation_turns rotate (sched 0) fl hostName config in
  let! err := call (ctrl_NewManager config (flag_namespace fl) hostName (flag_metricsbindaddress fl)) (λ _, []) in
  match err with
  | Some _ => ret Returned
  | None =>
      let! running := rotation_turns running (sched 1) fl hostName config in
      let! iface := get_local in
      let hostReconciler := mkHostReconciler (setupTemplateParser iface) (flag_skipInstallation fl)
                              (flag_downloadpath fl) (Some iface) in
      let! err := call (SetupWithManager hostReconciler) (λ _, []) in
      match err with
      | Some _ => ret Returned
      | None =>
          let! running := rotation_turns running (sched 2) fl hostName config in
          let! err := call mgr_Start (λ _, []) in
          let! _ := rotation_turns running (sched 3) fl hostName config in
          ret (Ran hostReconciler rotate err)
      end
  end.

(** Config, client and registration, once a kubeconfig may be there. *)
Definition register_and_run (sched : nat → nat) (fl : Flags) (hostName : string) : AM MainEnd :=
  let! config := getConfig fl in
  match config with
  | Err _ => ret Exit1
  | Ok config =>
      let! err := call (client_New config) (λ _, []) in
      match err with
      | Some _ => ret Exit1
      | None =>
          put_local "" ;;;
          let! err := Register hostName (flag_namespace fl) (flag_labels fl) in
          match err with
          | Some _ => ret Returned
          | None => run_manager sched fl hostName config
          end
      end
  end.

Definition main (sched : nat → nat) (fl : Flags) : AM MainEnd :=
  if flag_printVersion fl then ret Returned
  else
    let! hostName := call os_Hostname (λ _, []) in
    match hostName with
    | Err _ => ret Returned
    | Ok hostName =>
        let! path := GetBYOHConfigPath (flag_ConfigPath fl) in
        let! err := call (os_Stat path) (λ r, [EvStat path r]) in
        if bool_decide (flag_bootstrapKubeConfig fl ≠ "") && os_IsNotExist err then
          let! err := handleBootstrapFlow fl hostName in
          match err with
          | Some _ => ret Exit1
          | None => register_and_run sched fl hostName
          end
        else register_and_run sched fl hostName
    end.
End Agent.

(** ** Labels: lemmas *)

Lemma Split_Join l sep :
  l ≠ [] → Forall (λ s, contains_char sep s = false) l → Split (Join l (String sep EmptyString)) sep = l.
Proof.
  intros Hne Hl. induction Hl as [|s l Hs Hl IH]; [done|]. destruct l as [|s' l].
  - by apply Split_no_sep.
  - change (Split (s +:+ String sep (Join (s' :: l) (String sep ""))) sep = s :: s' :: l).
    rewrite Split_app by done. f_equal. by apply IH.
Qed.

(** A pair the flag can carry. *)
Definition plain_pair (kv : string * string) : Prop :=
  contains_char comma kv.1 = false ∧ contains_char equals kv.1 = false ∧ TrimSpace kv.1 = kv.1 ∧
  contains_char comma kv.2 = false ∧ TrimSpace kv.2 = kv.2.
Definition show_pair (kv : string * string) : string := kv.1 +:+ "=" +:+ kv.2.

Lemma contains_char_sapp c s t : contains_char c (s +:+ t) = contains_char c s || contains_char c t.
Proof. induction s as [|d s IH]; simpl; [done|]. by rewrite IH, orb_assoc. Qed.

Lemma show_pair_no_comma kv : plain_pair kv → contains_char comma (show_pair kv) = false.
Proof.
  intros (Hk & _ & _ & Hv & _). unfold show_pair. rewrite !contains_char_sapp, Hk, Hv. done.
Qed.
Lemma show_pair_not_empty kv : show_pair kv ≠ "".
Proof. unfold show_pair. by destruct kv as [[]]. Qed.

Lemma set_pair_show value kv l : plain_pair kv → set_pair value (show_pair kv) l = (<[kv.1 := kv.2]> l, None).
Proof.
  intros (_ & He & Hk & _ & Hv). unfold set_pair, show_pair.
  change (kv.1 +:+ "=" +:+ kv.2) with (kv.1 +:+ String equals kv.2). by rewrite SplitN2_app, Hk, Hv.
Qed.

Lemma insert_list_to_map (k v : string) (order : list (string * string)) (l : gmap string string) :
  k ∉ order.*1 → list_to_map order ∪ <[k := v]> l = <[k := v]> (list_to_map order : gmap _ _) ∪ l.
Proof.
  intros Hk. rewrite <- insert_union_r by by apply not_elem_of_list_to_map. by rewrite insert_union_l.
Qed.

Lemma set_pairs_show value order l : Forall plain_pair order → NoDup order.*1 →
  set_pairs value (show_pair <$> order) l = (list_to_map order ∪ l, None).
Proof.
  intros Hp. revert l. induction Hp as [|kv order Hkv _ IH]; intros l.
  - intros _. cbn. by rewrite (left_id_L ∅ (∪)).
  - intros [Hnin Hnd]%NoDup_cons. cbn [fmap list_fmap set_pairs].
    rewrite bool_decide_eq_false_2 by apply show_pair_not_empty.
    rewrite set_pair_show by done. rewrite IH by done. rewrite insert_list_to_map by done. by destruct kv.
Qed.

Lemma Set_String order l : order ≠ [] → Forall plain_pair order → NoDup order.*1 →
  labelFlags_Set (labelFlags_String order) l = (list_to_map order ∪ l, None).
Proof.
  intros Hne Hp Hnd. unfold labelFlags_Set.
  assert (Split (labelFlags_String order) comma = show_pair <$> order) as ->.
  { unfold labelFlags_String. apply (Split_Join (show_pair <$> order)); [by destruct order|].
    apply Forall_fmap. eapply Forall_impl; [exact Hp|]. apply show_pair_no_comma. }
  rewrite length_fmap. destruct order as [|kv [|kv' order]]; [done| |].
  - rewrite Forall_singleton in Hp. cbn [length Nat.ltb Nat.leb].
    change (labelFlags_String [kv]) with (show_pair kv). rewrite set_pair_show by done.
    destruct kv as [k v]. cbn. by rewrite insert_empty, <- insert_union_singleton_l.
  - cbn [length Nat.ltb Nat.leb]. by rewrite set_pairs_show.
Qed.

(** [--label a=1 --label b=2] is [--label a=1,b=2]: the two forms of giving
    labels set the same map, also over labels given before. *)
Theorem label_forms_agree (order : list (string * string)) (l : gmap string string) :
  order ≠ [] → Forall plain_pair order → NoDup order.*1 →
  parse_labels (show_pair <$> order) l = labelFlags_Set (labelFlags_String order) l.
Proof.
  intros Hne Hp Hnd. rewrite Set_String by done. clear Hne. revert l. induction Hp as [|kv order Hkv Hp IH]; intros l.
  - cbn. by rewrite (left_id_L ∅ (∪)).
  - apply NoDup_cons in Hnd as [Hnin Hnd]. cbn [fmap list_fmap parse_labels].
    pose proof (Set_String [kv] l) as Hone. change (labelFlags_String [kv]) with (show_pair kv) in Hone.
    rewrite Hone; [|done|by apply Forall_singleton|apply NoDup_singleton].
    rewrite IH by done. f_equal. destruct kv as [k v]. cbn. rewrite insert_empty, <- insert_union_singleton_l.
    by rewrite insert_list_to_map.
Qed.

(** ** Start-up and rotation: lemmas *)

Section AgentFacts.
  Context {E : Type} `{!Kube E, !HostNet E, !CertLibs E, !HostOS E, !AgentRT E}.

(** The events of the certificate flow. *)
Definition is_csr_event (ev : Event) : bool :=
  match ev with EvRequestCertificate _ _ _ _ _ _ | EvWaitForCertificate _ _ | EvWriteKubeconfig _ _ => true | _ => false end.
Definition quiet_csr (t : list Event) : Prop := Forall (λ ev, is_csr_event ev = false) t.

(** How often a kubeconfig was loaded. *)
Definition loads (t : list Event) : nat :=
  length (omap (λ ev, match ev with EvLoadConfig _ => Some tt | _ => None end) t).
Lemma loads_app t1 t2 : loads (t1 ++ t2) = loads t1 + loads t2.
Proof. unfold loads. by rewrite omap_app, length_app. Qed.

Lemma csr_flow_events bcsr hostName t o : csr_flow bcsr hostName t o →
  Forall (λ ev, is_csr_event ev = true ∨ ∃ r, ev = EvRemove TmpPrivateKey r) t ∧ ∃ err, o = Val err.
Proof.
  unfold csr_flow.
  intros [[-> [err ->]]|(kd & k & cd & _ & _ & [(err & -> & ->)|(n & u & _ & [(err & -> & ->)|
    (c & _ & [(err & -> & ->)|(_ & r & -> & ->)])])])]; 
    (split; [repeat (constructor; [eauto|]); constructor|eauto]).
Qed.
Lemma csr_flow_loads bcsr hostName t o : csr_flow bcsr hostName t o → loads t = 0.
Proof.
  intros [Ht _]%csr_flow_events. induction Ht as [|ev t Hev _ IH]; [done|].
  destruct Hev as [Hev|[r ->]]; [by destruct ev|done].
Qed.

(** Where the agent keeps its kubeconfig. *)
Definition config_path (fl : Flags) (p : string) : Prop :=
  if bool_decide (flag_ConfigPath fl ≠ "") then p = flag_ConfigPath fl
  else ∃ e, p = match (os_UserHomeDir e).2 with
                | Ok homeDir => filepath_Join [homeDir; ".byoh/config"]
                | Err _ => ".byoh/config"
                end.

Lemma GetBYOHConfigPath_spec {L} fl e (l : L) :
  wp (GetBYOHConfigPath (flag_ConfigPath fl)) e l (λ _ l' t o, l' = l ∧ t = [] ∧ ∃ p, o = Val p ∧ config_path fl p).
Proof.
  unfold GetBYOHConfigPath, config_path. case_bool_decide; [apply wp_ret; eauto|].
  apply wp_bind, wp_call. intros e1 r Hr. destruct r; apply wp_ret; (split_and!; [done..|]);
    eexists; (split; [done|]); exists e; by rewrite Hr.
Qed.

(** One bootstrap flow: it loads the bootstrap kubeconfig, and with a client
    for it requests a certificate of the given lifetime and writes the
    agent's kubeconfig ([csr_flow]). *)
Definition bootstrap_flow (fl : Flags) (hostName : string) (t : list Event) (err : option GoError) : Prop :=
  ∃ t', t = EvLoadConfig (flag_bootstrapKubeConfig fl) :: t' ∧
    ((t' = [] ∧ err ≠ None) ∨
     ∃ bcsr ferr, clientset_NewForConfig (bootstrapClientConfig bcsr) = Ok (bootstrapClient bcsr) ∧
       config_path fl (configPath bcsr) ∧
       expiryDuration bcsr = int64 (flag_certExpiryDuration fl * Second) ∧
       csr_flow bcsr hostName t' (Val ferr) ∧ (err = None ↔ ferr = None)).

Lemma bootstrap_flow_loads fl hostName t err : bootstrap_flow fl hostName t err → loads t = 1.
Proof.
  intros (t' & -> & [[-> _]|(bcsr & ferr & _ & _ & _ & Hf & _)]); [done|].
  by apply csr_flow_loads in Hf as Hl; apply (f_equal S).
Qed.

Lemma handleBootstrapFlow_spec fl hostName e l :
  wp (handleBootstrapFlow fl hostName) e l (λ _ l' t o, l' = l ∧ ∃ err, o = Val err ∧ bootstrap_flow fl hostName t err).
Proof.
  unfold handleBootstrapFlow, LoadRESTClientConfig, NewByohCSR, bootstrap_flow.
  apply wp_bind, wp_bind, wp_call. intros e1 [cfg|err] _; [|wp_run; split; [done|]; eexists; split; [done|]; eauto].
  apply wp_ret. destruct (clientcmd_ClientConfig _ _) as [rc|err];
    [|wp_run; split; [done|]; eexists; split; [done|]; eauto].
  apply wp_bind. destruct (clientset_NewForConfig rc) as [cl|err] eqn:Hcl;
    [|wp_run; split; [done|]; eexists; split; [done|]; eauto].
  apply wp_bind. eapply wp_mono; [apply GetBYOHConfigPath_spec|]. cbn beta.
  intros e2 l2 t2 o2 (-> & -> & p & -> & Hpath). apply wp_ret, wp_bind, wp_scoped.
  eapply wp_mono; [apply BootstrapKubeconfig_spec|]. cbn beta. intros e3 l3 t3 o3 [Hflow _].
  apply csr_flow_events in Hflow as Hval. destruct Hval as [_ [ferr ->]]. apply wp_ret. rewrite app_nil_r.
  destruct ferr; apply wp_ret; (split; [done|]); eexists; (split; [done|]); exists t3;
    cbn [app]; rewrite ?app_nil_r; (split; [done|]); right; eexists _, _; (split_and!; [..|exact Hflow|]); done.
Qed.

Lemma certRotation_spec fl hostName config cert bytes e l :
  pem_Decode (rc_CertData config) = Some ("CERTIFICATE", bytes) → x509_ParseCertificate bytes = Ok cert →
  wp (certRotation fl hostName config) e l (λ _ l' t o, l' = l ∧ o = Val None ∧
    if time_After (time_Now e).2 (renew_after cert) then ∃ err, bootstrap_flow fl hostName t err else t = []).
Proof.
  intros Hp Hc. unfold certRotation. rewrite Hp, Hc, bool_decide_eq_false_2 by naive_solver.
  apply wp_bind, wp_call. intros e1 now Hnow. rewrite Hnow. cbn [snd].
  destruct (time_After now _); [|by apply wp_ret]. apply wp_bind.
  eapply wp_mono; [apply handleBootstrapFlow_spec|]. cbn beta. intros e2 l2 t2 o2 (-> & err & -> & Hf).
  apply wp_ret. rewrite app_nil_r. eauto.
Qed.

(** What the rotation may do, at any time. *)
Definition rotation_event (fl : Flags) (ev : Event) : Prop :=
  ev = EvLoadConfig (flag_bootstrapKubeConfig fl) ∨ is_csr_event ev = true ∨ ∃ r, ev = EvRemove TmpPrivateKey r.

Lemma bootstrap_flow_events fl hostName t err : bootstrap_flow fl hostName t err → Forall (rotation_event fl) t.
Proof.
  intros (t' & -> & Hf). constructor; [by left|]. destruct Hf as [[-> _]|(bcsr & ferr & _ & _ & _ & Hf & _)]; [done|].
  apply csr_flow_events in Hf as [Hev _]. eapply Forall_impl; [exact Hev|]. intros ev ?. by right.
Qed.

Lemma certRotation_events fl hostName config e l :
  wp (certRotation fl hostName config) e l (λ _ l' t o, l' = l ∧ Forall (rotation_event fl) t ∧ ∃ err, o = Val err).
Proof.
  unfold certRotation. destruct (pem_Decode _) as [[btype bytes]|]; [|apply wp_ret; eauto].
  case_bool_decide; [apply wp_ret; eauto|]. destruct (x509_ParseCertificate bytes); [|apply wp_ret; eauto].
  apply wp_bind, wp_call. intros e1 now _. destruct (time_After _ _); [|apply wp_ret; eauto].
  apply wp_bind. eapply wp_mono; [apply handleBootstrapFlow_spec|]. cbn beta.
  intros e2 l2 t2 o2 (-> & err & -> & Hf%bootstrap_flow_events). apply wp_ret. rewrite app_nil_r. eauto.
Qed.

Lemma certificateRotation_events n fl hostName config e l :
  wp (certificateRotation n fl hostName config) e l (λ _ l' t o,
    l' = l ∧ Forall (rotation_event fl) t ∧ ∃ err, o = Val err).
Proof.
  revert e. induction n as [|n IH]; intros e; cbn [certificateRotation]; [apply wp_ret; eauto|].
  apply wp_bind. eapply wp_mono; [apply certRotation_events|]. cbn beta. intros e1 l1 t1 o1 (-> & Ht1 & err & ->).
  destruct err; [apply wp_ret; rewrite app_nil_r; eauto|]. apply wp_bind, wp_call. intros e2 [] _.
  eapply wp_mono; [apply IH|]. cbn beta. intros e3 l3 t3 o3 (-> & Ht3 & err & ->).
  split_and!; [done|by apply Forall_app|eauto].
Qed.

Lemma rotation_turns_spec rotate n fl hostName config e l :
  wp (rotation_turns rotate n fl hostName config) e l (λ _ l' t o, l' = l ∧ Forall (rotation_event fl) t ∧
    (rotate = false → t = []) ∧ ∃ b, o = Val b ∧ (rotate = false → b = false)).
Proof.
  unfold rotation_turns. destruct rotate; [|apply wp_ret; eauto 10]. apply wp_bind.
  eapply wp_mono; [apply certificateRotation_events|]. cbn beta. intros e1 l1 t1 o1 (-> & Ht & err & ->).
  apply wp_ret. rewrite app_nil_r. split_and!; eauto; [done|]. eexists. by split.
Qed.

(** The window in integers: renewal starts within the last fifth. *)
Lemma renew_window cert now : (NotBefore cert <= NotAfter cert)%Z →
  let total := Z.min maxDuration (NotAfter cert - NotBefore cert) in
  let left := (NotAfter cert - now)%Z in
  time_After now (renew_after cert) = true ↔ (left < total / 5)%Z.
Proof.
  intros Hle total left. unfold time_After, renew_after, time_Add, time_Sub. rewrite Z.ltb_lt.
  assert (Z.max minDuration (Z.min maxDuration (NotAfter cert - NotBefore cert)) = total) as ->.
  { subst total. unfold minDuration, maxDuration. lia. }
  assert (0 <= total)%Z by (subst total; unfold maxDuration; lia).
  change (-5)%Z with (- (5))%Z. rewrite Z.quot_opp_r, Z.quot_div_nonneg by lia. subst left. lia.
Qed.

(** [Register] starts its work with the registration's own events only. *)
Lemma Register_quiet name ns ls e l :
  wp (Register name ns ls) e l (λ _ _ t o, quiet_csr t ∧ ∃ err, o = Val err ∧
    (err = None → ∃ t1 h h', inventoried h h' ∧ t = t1 ++ [EvPatch (OByoHost h) (OByoHost h') None])).
Proof.
  assert (∀ h pre e l, quiet_csr pre → wp (UpdateHost h) e l (λ _ _ t o, quiet_csr (pre ++ t) ∧
    ∃ err, o = Val err ∧
    (err = None → ∃ t1 h h', inventoried h h' ∧ pre ++ t = t1 ++ [EvPatch (OByoHost h) (OByoHost h') None]))) as Hup.
  { intros h pre e0 l0 Hq. eapply wp_mono; [apply UpdateHost_spec|]. cbn beta.
    intros e1 l1 t1 o [[-> [err ->]]|(h' & perr & Hi & -> & ->)].
    - rewrite app_nil_r. split; [done|]. by eexists.
    - split; [by apply Forall_app; split; [|repeat constructor]|]. exists perr. split; [done|]. intros ->. eauto. }
  unfold Register, Get, Create. apply wp_bind, wp_call. intros e1 [h|err] _.
  - apply Hup. by repeat constructor.
  - destruct (negb _); [apply wp_ret; split; [by repeat constructor|by eexists]|].
    apply wp_bind, wp_call. intros e2 [h|err2] _.
    + eapply wp_mono; [apply (Hup h [EvGet KByoHost (mkKey ns name) (Err err); EvCreate (OByoHost (new_host name ns ls)) None]);
        by repeat constructor|]. cbn beta. intros ???? [Hq Hrest]. split; [exact Hq|]. exact Hrest.
    + apply wp_ret. split; [by repeat constructor|]. by eexists.
Qed.

(** The agent read from its environment that the rotation is switched on. *)
Definition rotation_on (t : list Event) : Prop := EvGetenv "CERTIFICATE_ROTATION" "true" ∈ t.

(** The reconciler that is run. *)
Definition runs_reconciler (fl : Flags) (iface : string) (r : HostReconciler) : Prop :=
  TemplateParser r = (if bool_decide (iface = "") then None else Some (TDHostInfo iface)) ∧
  SkipK8sInstallation r = flag_skipInstallation fl ∧ DownloadPath r = flag_downloadpath fl ∧
  LocalHostRegistrar r = Some iface.

(** What the agent runs, and when: after an accepted inventory and a look at
    the environment, followed by events of the rotation only, and by nothing
    when it is off. *)
Definition started (fl : Flags) (l' : string) (t : list Event) (o : Outcome MainEnd) : Prop :=
  ∃ end_, o = Val end_ ∧ ∀ r rotate err, end_ = Ran r rotate err →
    runs_reconciler fl l' r ∧
    ∃ t1 h h' v t2, inventoried h h' ∧
      t = t1 ++ EvPatch (OByoHost h) (OByoHost h') None :: EvGetenv "CERTIFICATE_ROTATION" v :: t2 ∧
      Forall (rotation_event fl) t2 ∧ (v ≠ "true" → t2 = []) ∧ rotate = bool_decide (v = "true").

Lemma run_manager_spec sched fl hostName config e l :
  wp (run_manager sched fl hostName config) e l (λ _ l' t o, l' = l ∧ ∃ v t2,
    t = EvGetenv "CERTIFICATE_ROTATION" v :: t2 ∧ Forall (rotation_event fl) t2 ∧ (v ≠ "true" → t2 = []) ∧
    ∃ end_, o = Val end_ ∧ ∀ r rotate err, end_ = Ran r rotate err →
      runs_reconciler fl l r ∧ rotate = bool_decide (v = "true")).
Proof.
  unfold run_manager. apply wp_bind, wp_call. intros e1 v _. cbn zeta.
  set (rotate := bool_decide (v = "true")).
  assert (∀ t : list Event, (rotate = false → t = []) → v ≠ "true" → t = []) as Hoff.
  { intros t Ht Hno. apply Ht. by apply bool_decide_eq_false_2. }
  apply wp_bind. eapply wp_mono; [apply rotation_turns_spec|]. cbn beta.
  intros e2 l2 t2 o2 (-> & Ht2 & Hq2 & b2 & -> & Hb2). apply wp_bind, wp_call.
  intros e3 [err|] _; [apply wp_ret; split; [done|]; exists v, t2; rewrite ?app_nil_r;
    split_and!; [done..|by apply Hoff|by eexists]|].
  apply wp_bind. eapply wp_mono; [apply rotation_turns_spec|]. cbn beta.
  intros e4 l4 t4 o4 (-> & Ht4 & Hq4 & b4 & -> & Hb4). apply wp_bind, wp_get_local, wp_bind, wp_call.
  assert (rotate = false → t2 ++ t4 = []) as Hq24.
  { intros Hr. rewrite Hq2, Hq4 by auto. done. }
  intros e5 [err|] _; [apply wp_ret; split; [done|]; exists v, (t2 ++ t4); cbn [app]; rewrite ?app_nil_r;
    split_and!; [done|by apply Forall_app|by apply Hoff|by eexists]|].
  apply wp_bind. eapply wp_mono; [apply rotation_turns_spec|]. cbn beta.
  intros e6 l6 t6 o6 (-> & Ht6 & Hq6 & b6 & -> & Hb6). apply wp_bind, wp_call. intros e7 err _.
  apply wp_bind. eapply wp_mono; [apply rotation_turns_spec|]. cbn beta.
  intros e8 l8 t8 o8 (-> & Ht8 & Hq8 & b8 & -> & Hb8). apply wp_ret. split; [done|].
  assert (rotate = false → t2 ++ t4 ++ t6 ++ t8 = []) as Hq.
  { intros Hr. rewrite Hq2, Hq4, Hq6, Hq8 by auto. done. }
  exists v, (t2 ++ t4 ++ t6 ++ t8). cbn [app]. rewrite ?app_nil_r.
  split_and!; [done|by rewrite !Forall_app|by apply Hoff|]. eexists. split; [done|].
  by intros r' rot' err' [= <- <- <-].
Qed.

Lemma register_and_run_spec sched fl hostName e l :
  wp (register_and_run sched fl hostName) e l (λ _ l' t o, (¬ rotation_on t → quiet_csr t) ∧ started fl l' t o).
Proof.
  unfold register_and_run, getConfig, LoadRESTClientConfig, started.
  apply wp_bind, (wp_mono _ _ _ (λ _ l' t o, quiet_csr t ∧ ∃ r, o = Val r)).
  { unfold GetBYOHConfigPath. apply wp_bind. case_bool_decide; wp_run; (split; [by repeat constructor|eauto]). }
  intros e1 l1 t1 o1 [Hq [[cfg|err] ->]]; [|apply wp_ret; rewrite app_nil_r; split; [done|by eexists]].
  apply wp_bind, wp_call. intros e2 [err|] _; [apply wp_ret; rewrite !app_nil_r; split; [done|by eexists]|].
  apply wp_bind, wp_put_local, wp_bind. eapply wp_mono; [apply Register_quiet|]. cbn beta.
  intros e3 l3 t3 o3 [Hq3 (err & -> & Hreg)].
  destruct err as [err|]; [apply wp_ret; rewrite app_nil_r; split; [intros _; by apply Forall_app|by eexists]|].
  destruct (Hreg eq_refl) as (t0 & h & h' & Hi & ->).
  eapply wp_mono; [apply run_manager_spec|]. cbn beta.
  intros e4 l4 t4 o4 (-> & v & t2 & -> & Hrot & Hoff & en & -> & Hr). cbn [app]. split.
  - intros Hno. rewrite Hoff.
    + rewrite app_assoc. apply Forall_app. split; [by apply Forall_app|by repeat constructor].
    + intros ->. apply Hno. unfold rotation_on. set_solver.
  - exists en. split; [done|]. intros r rot err' Heq. destruct (Hr _ _ _ Heq) as [Hrr Hv]. split; [done|].
    exists (t1 ++ t0), h, h', v, t2. split_and!; [done|by rewrite <- !app_assoc|done..].
Qed.
End AgentFacts.

Lemma started_prefix fl l' t0 t o : started fl l' t o → started fl l' (t0 ++ t) o.
Proof.
  intros (en & -> & Hr). exists en. split; [done|]. intros r rot err Heq.
  destruct (Hr _ _ _ Heq) as (Hrr & t1 & h & h' & v & t2 & Hi & -> & ?). split; [done|].
  exists (t0 ++ t1), h, h', v, t2. split_and!; [done|by rewrite <- app_assoc|naive_solver..].
Qed.

(** ** Theorems *)

(** The label flag of the agent: what
    [labelFlags.String] prints, in whatever order the map is iterated,
    [labelFlags.Set] reads back as exactly those labels over the ones already
    given, for a non-empty set of labels without commas, with keys without
    equals signs and without surrounding blanks. *)
Theorem labels_roundtrip (order : list (string * string)) (l : gmap string string) :
  order ≠ [] → Forall plain_pair order → NoDup order.*1 →
  labelFlags_Set (labelFlags_String order) l = (list_to_map order ∪ l, None).
Proof. apply Set_String. Qed.

(** C35. One poll of the certificate rotation renews, by one
    bootstrap flow, exactly when less than a fifth of the certificate's
    lifetime is left, computed like the code in whole nanoseconds with a
    lifetime that saturates at the 64-bit maximum: it never renews with a
    fifth or more left, and always with a fifth less one nanosecond left.
    A renewal is a whole bootstrap flow for the host, and a poll that does not
    renew does nothing. *)
Theorem renewal_window {E : Type} `{!Kube E, !HostNet E, !CertLibs E, !HostOS E, !AgentRT E}
    (fl : Flags) (hostName : string) (config : RestConfig) (cert : Certificate) (bytes : string) (e : E) (l : string) :
  pem_Decode (rc_CertData config) = Some ("CERTIFICATE", bytes) → x509_ParseCertificate bytes = Ok cert →
  (NotBefore cert <= NotAfter cert)%Z →
  let total := Z.min maxDuration (NotAfter cert - NotBefore cert) in
  let left := (NotAfter cert - (time_Now e).2)%Z in
  wp (certRotation fl hostName config) e l (λ _ l' t o, l' = l ∧ o = Val None ∧
    (loads t = 1 ∨ loads t = 0) ∧ (loads t = 1 ↔ (left < total / 5)%Z) ∧
    (loads t = 1 → (5 * left < total)%Z) ∧ ((5 * left + 5 <= total)%Z → loads t = 1) ∧
    (loads t = 1 → ∃ err, bootstrap_flow fl hostName t err) ∧ (loads t = 0 → t = [])).
Proof.
  intros Hp Hc Hle total left. eapply wp_mono; [by eapply certRotation_spec|]. cbn beta.
  intros e' l' t o (-> & -> & Hf). pose proof (renew_window cert (time_Now e).2 Hle) as Hw.
  fold total left in Hw.
  assert (left < total / 5 ↔ 5 * left + 5 <= total)%Z as Hdiv.
  { pose proof (Z.div_mod total 5). pose proof (Z.mod_pos_bound total 5). lia. }
  destruct (time_After _ _).
  - destruct Hf as [err Hf]. apply bootstrap_flow_loads in Hf as Hl. rewrite Hl.
    assert (left < total / 5)%Z as Hlt by by apply Hw.
    split_and!; try done; eauto; intros; lia.
  - subst t. change (loads []) with 0.
    assert (¬ (left < total / 5)%Z) as Hge by by rewrite <- Hw. split_and!; eauto; try done.
    intros H5. exfalso. tauto.
Qed.

(** The rotation keeps the configuration it was started with: once its
    certificate is in the window, every later poll renews again. *)
Theorem rotation_repeats {E : Type} `{!Kube E, !HostNet E, !CertLibs E, !HostOS E, !AgentRT E}
    (n : nat) (fl : Flags) (hostName : string) (config : RestConfig) (cert : Certificate) (bytes : string) (e : E) (l : string) :
  pem_Decode (rc_CertData config) = Some ("CERTIFICATE", bytes) → x509_ParseCertificate bytes = Ok cert →
  (∀ e : E, time_After (time_Now e).2 (renew_after cert) = true) →
  wp (certificateRotation n fl hostName config) e l (λ _ _ t o, o = Val None ∧ loads t = n).
Proof.
  intros Hp Hc Hnow. revert e. induction n as [|n IH]; intros e; cbn [certificateRotation]; [by apply wp_ret|].
  apply wp_bind. eapply wp_mono; [by eapply certRotation_spec|]. cbn beta. intros e1 l1 t1 o1 (-> & -> & Hf).
  rewrite Hnow in Hf. destruct Hf as [err Hl%bootstrap_flow_loads]. apply wp_bind, wp_call. intros e2 [] _. eapply wp_mono; [apply IH|]. cbn beta.
  intros e3 l3 t3 o3 [-> Hl3]. split; [done|]. cbn [app]. rewrite loads_app. lia.
Qed.

(** C32. The start of an agent, whatever the outside answers and however
    the polls of the rotation goroutine are scheduled: it never panics.  It
    looks for its kubeconfig at the configured path (or the default one in the
    home directory) and nowhere else; exactly when the bootstrap flag is given
    and that file does not exist, a bootstrap flow for this host comes next,
    and the agent exits with nothing else done when it fails.  Beside that
    flow, unless it read from the environment that the rotation is on, it
    requests no certificate and writes no kubeconfig.  The reconciler runs only after the
    inventory of the host was accepted by the server, followed by nothing but
    the events of the rotation (by nothing when it is off), with the options
    of the flags and with a template parser exactly when a default network
    interface was found. *)
Theorem agent_startup {E : Type} `{!Kube E, !HostNet E, !CertLibs E, !HostOS E, !AgentRT E}
    (sched : nat → nat) (fl : Flags) (e : E) (l : string) :
  wp (main sched fl) e l (λ _ l' t o,
    started fl l' t o ∧
    ((t = [] ∧ o = Val Returned) ∨
     ∃ hostName p r t', (os_Hostname e).2 = Ok hostName ∧ config_path fl p ∧
       t = EvStat p r :: t' ∧ (∃ e1, (os_Stat p e1).2 = r) ∧
       if bool_decide (flag_bootstrapKubeConfig fl ≠ "") && os_IsNotExist r
       then ∃ tb err t2, bootstrap_flow fl hostName tb err ∧ t' = tb ++ t2 ∧
              (err ≠ None → t2 = [] ∧ o = Val Exit1) ∧ (¬ rotation_on t → quiet_csr t2)
       else ¬ rotation_on t → quiet_csr t')).
Proof.
  unfold main. destruct (flag_printVersion fl); [apply wp_ret; split; [by eexists|by left]|].
  apply wp_bind, wp_call. intros e1 [hostName|err] Hname; [|apply wp_ret; split; [by eexists|by left]].
  apply wp_bind. eapply wp_mono; [apply GetBYOHConfigPath_spec|]. cbn beta.
  intros e2 l2 t2 o2 (-> & -> & path & -> & Hpath). apply wp_bind, wp_call. intros e3 r Hstat.
  assert (∃ e1, (os_Stat path e1).2 = r) as Hans by (exists e2; by rewrite Hstat). rewrite Hname.
  destruct (bool_decide _ && _) eqn:Hcond.
  - apply wp_bind. eapply wp_mono; [apply handleBootstrapFlow_spec|]. cbn beta.
    intros e4 l4 t4 o4 (-> & berr & -> & Hflow).
    destruct berr as [berr|].
    + apply wp_ret. split; [by eexists|]. right. exists hostName, path, r, t4. rewrite Hcond, app_nil_r.
      split_and!; [done..|]. exists t4, (Some berr), []. rewrite app_nil_r. split_and!; try done. by repeat constructor.
    + eapply wp_mono; [apply register_and_run_spec|]. cbn beta. intros e5 l5 t5 o5 [Hq Hs]. cbn [app].
      split; [by apply (started_prefix _ _ (_ :: t4))|]. right. exists hostName, path, r, (t4 ++ t5).
      rewrite Hcond. split_and!; [done..|]. exists t4, None, t5. split_and!; [done..|].
      intros Hno. apply Hq. intros Hon. apply Hno. unfold rotation_on in *. set_solver.
  - eapply wp_mono; [apply register_and_run_spec|]. cbn beta. intros e5 l5 t5 o5 [Hq Hs]. cbn [app].
    split; [by apply (started_prefix _ _ [EvStat path r])|]. right. exists hostName, path, r, t5.
    rewrite Hcond. split_and!; [done..|]. intros Hno. apply Hq. intros Hon. apply Hno. unfold rotation_on in *. set_solver.
Qed.
