(* ===== verification/HostOps.v ===== *)
(** * Deauthorising and decommissioning a host (cmd/byohctl: pkg/host_operations.go,
    client/k8s.go, utils/helper.go, cmd/decommission.go, cmd/deauthorise.go)

    The command-line tool takes a host out of its cluster: it marks the
    machine of the host, scales its deployment down by one, waits until the
    agent has released the host and, to decommission, deletes the object and
    purges the agent.  The protocol is a state machine over the effects of a
    run, and every run of [PerformHostOperation] follows it. *)

From S2P Require Import Prelude Protocol GoStrings Encoding Api Platform.

(** ** Effects and libraries *)

Record GVR := mkGVR { gvr_Group : string; gvr_Version : string; gvr_Resource : string }.

(** [capiv1beta1.MachineDeployment]: the replica count and all the rest. *)
Record MachineDeployment := mkMachineDeployment { md_Replicas : option Z; md_Rest : Json }.

Inductive CtlEvent :=
  | CGetHost (namespace name : string) (machineRef : result (option ObjectReference))
  | CDeleteHost (namespace name : string) (err : option GoError)
  | CGetMachine (namespace name : string)
  | CUpdateMachine (namespace : string) (machine : Unstructured) (err : option GoError)
  | CGetDeployment (namespace name : string) (replicas : result (option Z))
  | CUpdateDeployment (namespace : string) (replicas : option Z) (err : option GoError)
  | CAsk (answer : string)
  | CExec (argv : list string) (err : option GoError).

(** client-go, the unstructured converter, yaml.v2, the terminal, the clock
    and the shell. *)
Class CtlLibs (E : Type) := {
  ctl_Stat : string → E → E * option GoError;
  ctl_ReadFile : string → E → E * result string;
  ctl_Hostname : E → E * result string;
  (** current context, and name and namespace of each context *)
  ctl_yaml_Config : string → result (string * list (string * string));
  BuildConfigFromFlags : string → E → E * option GoError;
  kubernetes_NewForConfig : E → E * option GoError;
  dynamic_NewForConfig : E → E * option GoError;
  dynamic_Get : GVR → string → string → E → E * result Unstructured;
  dynamic_Update : GVR → string → Unstructured → E → E * result Unstructured;
  dynamic_Delete : GVR → string → string → E → E * option GoError;
  FromUnstructured_ByoHost : Unstructured → result ByoHost;
  FromUnstructured_MachineDeployment : Unstructured → result MachineDeployment;
  ToUnstructured_MachineDeployment : MachineDeployment → result Unstructured;
  stdout_Fprintf : string → E → E * option GoError;
  stdin_ReadLine : E → E * (string * bool * option GoError);
  exec_LookPath : string → E → E * result string;
  exec_CombinedOutput : list string → E → E * (string * option GoError);
  ctl_Now : E → E * Z;
  ctl_Sleep : Z → E → E * unit }.

Definition byohostGVR : GVR := mkGVR "infrastructure.cluster.x-k8s.io" "v1beta1" "byohosts".
Definition machineGVR : GVR := mkGVR "cluster.x-k8s.io" "v1beta1" "machines".
Definition deploymentGVR : GVR := mkGVR "cluster.x-k8s.io" "v1beta1" "machinedeployments".

(** service/constants.go *)
Definition ByohAgentServiceName : string := "pf9-byohost-agent".
Definition ByohConfigDir : string := ".byoh".
Definition WaitForMachineRefToBeUnsetTimeout : Z := 300 * Second.
Definition ByohDir (HomeDir : string) : string := filepath_Join [HomeDir; ByohConfigDir].
Definition KubeconfigFilePath (HomeDir : string) : string := filepath_Join [ByohDir HomeDir; "config"].

Definition DeploymentNameLabel : string := "cluster.x-k8s.io/deployment-name".
Definition ExcludeNodeDraining : string := "machine.cluster.x-k8s.io/exclude-node-draining".
Definition DeleteMachine : string := "cluster.x-k8s.io/delete-machine".

(** 32-bit signed arithmetic of the replica count. *)
Definition int32 (z : Z) : Z := ((z + 2 ^ 31) mod 2 ^ 32 - 2 ^ 31)%Z.

Section Client.
  Context {E L : Type} `{!CtlLibs E}.

Abbreviation XM := (M CtlEvent E L).

(** ** client/k8s.go *)

Definition GetNamespaceFromConfig (kubeconfigPath : string) : XM (result string) :=
  let! data := call (ctl_ReadFile kubeconfigPath) (λ _, []) in
  match data with
  | Err err => ret (Err (errors_New ("error reading kubeconfig: " +:+ err_msg err)))
  | Ok data =>
      match ctl_yaml_Config data with
      | Err err => ret (Err (errors_New ("error parsing kubeconfig: " +:+ err_msg err)))
      | Ok (currentContext, contexts) =>
          match list_find (λ c, c.1 = currentContext) contexts with
          | Some (_, c) => ret (Ok c.2)
          | None => ret (Err (errors_New "namespace not found in kubeconfig"))
          end
      end
  end.

Definition GetK8sClient {Ev} (kubeconfigPath : string) : M Ev E L (option GoError) :=
  let! err := call (BuildConfigFromFlags kubeconfigPath) (λ _, []) in
  match err with
  | Some err => ret (Some (errors_New ("error building kubeconfig: " +:+ err_msg err)))
  | None =>
      let! err := call kubernetes_NewForConfig (λ _, []) in
      match err with
      | Some err => ret (Some (errors_New ("error creating Kubernetes client: " +:+ err_msg err)))
      | None =>
          let! err := call dynamic_NewForConfig (λ _, []) in
          match err with
          | Some err => ret (Some (errors_New ("error creating dynamic client: " +:+ err_msg err)))
          | None => ret None
          end
      end
  end.

(** What the answer to a get says of the host. *)
Definition machineRef_of (r : result Unstructured) : result (option ObjectReference) :=
  match r with
  | Err err => Err err
  | Ok u => match FromUnstructured_ByoHost u with Ok h => Ok (host_MachineRef h) | Err err => Err err end
  end.

Definition GetByoHostObject (namespace : string) : XM (result ByoHost) :=
  let! hostName := call ctl_Hostname (λ _, []) in
  match hostName with
  | Err err => ret (Err (errors_New ("error getting hostname: " +:+ err_msg err)))
  | Ok hostName =>
      let! unstructuredObj := call (dynamic_Get byohostGVR namespace hostName)
        (λ r, [CGetHost namespace hostName (machineRef_of r)]) in
      match unstructuredObj with
      | Err err => ret (Err (errors_New ("error getting ByoHosts: " +:+ err_msg err)))
      | Ok unstructuredObj =>
          match FromUnstructured_ByoHost unstructuredObj with
          | Err err => ret (Err (errors_New ("error converting ByoHosts: " +:+ err_msg err)))
          | Ok byoHost => ret (Ok byoHost)
          end
      end
  end.

Definition DeleteByoHostObject (namespace : string) : XM (option GoError) :=
  let! hostName := call ctl_Hostname (λ _, []) in
  match hostName with
  | Err err => ret (Some (errors_New ("error getting hostname: " +:+ err_msg err)))
  | Ok hostName =>
      call (dynamic_Delete byohostGVR namespace hostName) (λ r, [CDeleteHost namespace hostName r])
  end.

Definition un_set_Annotations (a : gmap string string) (u : Unstructured) : Unstructured :=
  mkUnstructured (un_GVK u) (set_Annotations (λ _, a) (un_Meta u)) (un_Content u).

Definition AnnotateMachineObject (machineObj : Unstructured) (namespace key value : string) : XM (option GoError) :=
  let machineObj := un_set_Annotations (<[key := value]> (meta_Annotations (un_Meta machineObj))) machineObj in
  let! r := call (dynamic_Update machineGVR namespace machineObj)
    (λ r, [CUpdateMachine namespace machineObj (err_of r)]) in
  match r with
  | Err err => ret (Some (errors_New ("error updating machine object: " +:+ err_msg err)))
  | Ok _ => ret None
  end.

Definition deployment_name (machineObj : Unstructured) : string :=
  default "" (meta_Labels (un_Meta machineObj) !! DeploymentNameLabel).
Definition replicas_of (r : result Unstructured) : result (option Z) :=
  match r with
  | Err err => Err err
  | Ok u => match FromUnstructured_MachineDeployment u with Ok d => Ok (md_Replicas d) | Err err => Err err end
  end.

(** The deployment of a machine, as both functions below read it. *)
Definition get_deployment (machineObj : Unstructured) (namespace : string) : XM (result MachineDeployment) :=
  let machineDeploymentName := deployment_name machineObj in
  if bool_decide (machineDeploymentName = "")
  then ret (Err (errors_New "machine object does not have a machine deployment name as a label."))
  else
    let! obj := call (dynamic_Get deploymentGVR namespace machineDeploymentName)
      (λ r, [CGetDeployment namespace machineDeploymentName (replicas_of r)]) in
    match obj with
    | Err err => ret (Err (errors_New ("error getting machine deployment object: " +:+ err_msg err)))
    | Ok obj =>
        match FromUnstructured_MachineDeployment obj with
        | Err err => ret (Err (errors_New ("error converting machine deployment object: " +:+ err_msg err)))
        | Ok md => ret (Ok md)
        end
    end.

(** A nil replica count is dereferenced by both. *)
Definition ScaleDownMachineDeployment (machineObj : Unstructured) (namespace : string) : XM (option GoError) :=
  let! md := get_deployment machineObj namespace in
  match md with
  | Err err => ret (Some err)
  | Ok md =>
      let! replicas := deref (md_Replicas md) in
      let md := mkMachineDeployment (Some (int32 (replicas - 1))) (md_Rest md) in
      match ToUnstructured_MachineDeployment md with
      | Err err => ret (Some (errors_New ("error converting machine deployment object: " +:+ err_msg err)))
      | Ok updated =>
          let! r := call (dynamic_Update deploymentGVR namespace updated)
            (λ r, [CUpdateDeployment namespace (md_Replicas md) (err_of r)]) in
          match r with
          | Err err => ret (Some (errors_New ("error updating machine deployment object: " +:+ err_msg err)))
          | Ok _ => ret None
          end
      end
  end.

Definition GetUnstructuredMachineObject (namespace machineName : string) : XM (result Unstructured) :=
  let! obj := call (dynamic_Get machineGVR namespace machineName) (λ _, [CGetMachine namespace machineName]) in
  match obj with
  | Err err => ret (Err (errors_New ("error getting machine object: " +:+ err_msg err)))
  | Ok obj => ret (Ok obj)
  end.

Definition GetMachineDeploymentReplicaCount (machineObj : Unstructured) (namespace : string) : XM (result Z) :=
  let! md := get_deployment machineObj namespace in
  match md with
  | Err err => ret (Err err)
  | Ok md => let! replicas := deref (md_Replicas md) in ret (Ok replicas)
  end.

(** How a command ends: with its error, or still waiting after the given
    number of polls. *)
Inductive OpEnd := Done (err : option GoError) | Waiting.

(** The polling loop, with at most [fuel] polls. *)
Fixpoint wait_loop (fuel : nat) (startTime : Z) (namespace : string) : XM OpEnd :=
  match fuel with
  | 0 => ret Waiting
  | S fuel' =>
      let! now := call ctl_Now (λ _, []) in
      if (WaitForMachineRefToBeUnsetTimeout <? now - startTime)%Z
      then ret (Done (Some (errors_New "timeout waiting for machineRef to be unset")))
      else
        let! byoHost := GetByoHostObject namespace in
        match byoHost with
        | Err err => ret (Done (Some (errors_New ("error getting byohost object: " +:+ err_msg err))))
        | Ok byoHost =>
            match host_MachineRef byoHost with
            | None => ret (Done None)
            | Some _ =>
                call (ctl_Sleep (5 * Second)) (λ _, []) ;;; wait_loop fuel' startTime namespace
            end
        end
  end.
Definition WaitForMachineRefToBeUnset (fuel : nat) (namespace : string) : XM OpEnd :=
  let! startTime := call ctl_Now (λ _, []) in wait_loop fuel startTime namespace.

(** ** utils/helper.go and service/agent.go *)

(** The error of a line that is too long is nil, and is dereferenced. *)
Definition AskBool (msg : string) : XM (result bool) :=
  let! err := call (stdout_Fprintf (msg +:+ ": ")) (λ _, []) in
  match err with
  | Some err => ret (Err (errors_New ("Unable to show options to user: " +:+ err_msg err)))
  | None =>
      let! ' (resp, isPrefix, err) := call stdin_ReadLine (λ r, [CAsk r.1.1]) in
      if isPrefix || bool_decide (err ≠ None) then
        let! err := deref err in
        ret (Err (errors_New ("Unable to read i/p: " +:+ err_msg err)))
      else if bool_decide (resp = "y") || bool_decide (resp = "Y") then ret (Ok true)
      else if bool_decide (resp = "n") || bool_decide (resp = "N") then ret (Ok false)
      else ret (Err (errors_New ("Please provide input as y or n, provided: " +:+ resp)))
  end.

Definition PurgeDebianPackage : XM (option GoError) :=
  let! dpkgPath := call (exec_LookPath "dpkg") (λ _, []) in
  let argv := [match dpkgPath with Ok p => p | Err _ => "" end; "--purge"; ByohAgentServiceName] in
  let! ' (output, err) := call (exec_CombinedOutput argv) (λ r, [CExec argv r.2]) in
  match err with
  | Some err => ret (Some (errors_New ("failed to purge package: " +:+ err_msg err +:+ newline +:+ "Output: " +:+ output)))
  | None => ret None
  end.

(** ** pkg/host_operations.go *)

Inductive HostOperationType := OperationDeauthorise | OperationDecommission.

Definition is_decommission (op : HostOperationType) : bool :=
  match op with OperationDecommission => true | OperationDeauthorise => false end.

Definition performHostDecommissionWithNoMachineRef (namespace : string) : XM (option GoError) :=
  let! err := DeleteByoHostObject namespace in
  match err with
  | Some err => ret (Some (errors_New ("failed to delete ByoHosts object: " +:+ err_msg err)))
  | None =>
      let! err := PurgeDebianPackage in
      match err with
      | Some err => ret (Some (errors_New ("failed to run dpkg purge: " +:+ err_msg err)))
      | None => ret None
      end
  end.

(** The object cannot be read: only a decommission goes on, when told to. *)
Definition host_not_found (op : HostOperationType) : XM (option GoError) :=
  if is_decommission op then
    let! continueDecommission := AskBool "Do you want to proceed with host cleanup? (y/n)" in
    match continueDecommission with
    | Err err => ret (Some (errors_New ("failed to get user input: " +:+ err_msg err)))
    | Ok false => ret None
    | Ok true =>
        let! err := PurgeDebianPackage in
        match err with
        | Some err => ret (Some (errors_New ("failed to run dpkg purge: " +:+ err_msg err)))
        | None => ret None
        end
    end
  else ret (Some (errors_New "Cannot proceed ahead with the deauthorisation. Either restart the pf9-byohost-agent service or decommission and re-onboard.")).

(** The last node of a deployment goes only when the user confirms, and
    without draining it. *)
Definition confirm_last_node (machineObj : Unstructured) (namespace : string) (replicaCount : Z) : XM (option GoError) :=
  if (replicaCount =? 1)%Z then
    let! continueDeauth := AskBool "Do you want to continue with de-auth? (y/n)" in
    match continueDeauth with
    | Err err => ret (Some (errors_New ("failed to get user input: " +:+ err_msg err)))
    | Ok false => ret (Some (errors_New "Info: De-auth cancelled by user."))
    | Ok true =>
        let! err := AnnotateMachineObject machineObj namespace ExcludeNodeDraining "" in
        match err with
        | Some err => ret (Some (errors_New ("failed to annotate the last machine object to be deauth: " +:+ err_msg err)))
        | None => ret None
        end
    end
  else ret None.

(** Marking the machine and scaling down, on a fresh copy of the machine. *)
Definition mark_and_scale (namespace machineName : string) : XM (option GoError) :=
  let! machineObj := GetUnstructuredMachineObject namespace machineName in
  match machineObj with
  | Err err => ret (Some (errors_New ("failed to get machine object: " +:+ err_msg err)))
  | Ok machineObj =>
      let! err := AnnotateMachineObject machineObj namespace DeleteMachine "yes" in
      match err with
      | Some err => ret (Some (errors_New ("failed to annotate machine object: " +:+ err_msg err)))
      | None =>
          let! err := ScaleDownMachineDeployment machineObj namespace in
          match err with
          | Some err => ret (Some (errors_New ("failed to scale down machine deployment: " +:+ err_msg err)))
          | None => ret None
          end
      end
  end.

(** A host that belongs to a machine, up to the scaled deployment. *)
Definition leave_cluster (namespace machineName : string) : XM (option GoError) :=
  let! machineObj := GetUnstructuredMachineObject namespace machineName in
  match machineObj with
  | Err err => ret (Some (errors_New ("failed to get machine object: " +:+ err_msg err)))
  | Ok machineObj =>
      let! replicaCount := GetMachineDeploymentReplicaCount machineObj namespace in
      match replicaCount with
      | Err err => ret (Some (errors_New ("failed to get machine deployment replica count: " +:+ err_msg err)))
      | Ok replicaCount =>
          let! err := confirm_last_node machineObj namespace replicaCount in
          match err with
          | Some err => ret (Some err)
          | None => mark_and_scale namespace machineName
          end
      end
  end.

(** Waiting for the release, and the end of a decommission. *)
Definition await_release (fuel : nat) (op : HostOperationType) (namespace : string) : XM OpEnd :=
  let! r := WaitForMachineRefToBeUnset fuel namespace in
  match r with
  | Waiting => ret Waiting
  | Done (Some err) => ret (Done (Some (errors_New ("failed to wait for machineRef to be unset: " +:+ err_msg err))))
  | Done None =>
      if is_decommission op then
        let! err := performHostDecommissionWithNoMachineRef namespace in ret (Done err)
      else ret (Done None)
  end.

(** From the object of the host on. *)
Definition host_operation (fuel : nat) (op : HostOperationType) (namespace : string) : XM OpEnd :=
  let! byoHost := GetByoHostObject namespace in
  match byoHost with
  | Err _ => let! err := host_not_found op in ret (Done err)
  | Ok byoHost =>
      match host_MachineRef byoHost with
      | None =>
          if is_decommission op then
            let! err := performHostDecommissionWithNoMachineRef namespace in ret (Done err)
          else ret (Done (Some (errors_New "machineRef is not set for the byohost object. This host is not part of the cluster. Cannot proceed ahead with de-auth")))
      | Some machineRef =>
          let! err := leave_cluster namespace (ref_Name machineRef) in
          match err with
          | Some err => ret (Done (Some err))
          | None => await_release fuel op namespace
          end
      end
  end.

Definition PerformHostOperation (fuel : nat) (HomeDir : string) (op : HostOperationType) (namespace : string) :
    XM OpEnd :=
  let path := KubeconfigFilePath HomeDir in
  let! err := call (ctl_Stat path) (λ _, []) in
  if match err with Some err => IsNotFound err | None => false end
  then ret (Done (Some (errors_New ("kubeconfig file not found at " +:+ path +:+ ". Please onboard the host first."))))
  else
    let! err := GetK8sClient path in
    match err with
    | Some err => ret (Done (Some (errors_New ("failed to get Kubernetes client: " +:+ err_msg err))))
    | None => host_operation fuel op namespace
    end.

(** The body the two commands share; the result is the exit code. *)
Definition runHostCommand (fuel : nat) (HomeDir : string) (op : HostOperationType) : XM (option nat) :=
  let! namespace := GetNamespaceFromConfig (KubeconfigFilePath HomeDir) in
  match namespace with
  | Err _ => ret (Some 1)
  | Ok namespace =>
      let! r := PerformHostOperation fuel HomeDir op namespace in
      match r with
      | Done (Some _) => ret (Some 1)
      | Done None => ret (Some 0)
      | Waiting => ret None
      end
  end.
Definition runDecommission (fuel : nat) (HomeDir : string) : XM (option nat) :=
  runHostCommand fuel HomeDir OperationDecommission.
Definition runDeauthorise (fuel : nat) (HomeDir : string) : XM (option nat) :=
  runHostCommand fuel HomeDir OperationDeauthorise.
End Client.

(** ** The protocol *)

(** Where a run is, as its effects tell. *)
Inductive Stage :=
  | Unread                           (* no answer about the host yet *)
  | Told                             (* the user wants the cleanup of a host that cannot be read *)
  | Detached                         (* the host was just seen without a machine *)
  | Deleted                          (* its object is gone *)
  | Attached (machine : string)      (* the host was seen with this machine *)
  | Counted (machine : string) (n : Z)
  | Agreed (machine : string)        (* last node, and the user agreed *)
  | Ready (machine : string)         (* the machine may be marked *)
  | Marked
  | Scaling (n : Z)
  | Scaled
  | Purged                           (* the agent's package is purged *)
  | Declined                         (* the user does not want the cleanup *)
  | Finished.                        (* a step failed *)

Definition is_yes (s : string) : bool := bool_decide (s = "y") || bool_decide (s = "Y").
Definition marks (key value : string) (u : Unstructured) : bool :=
  bool_decide (meta_Annotations (un_Meta u) !! key = Some value).
Definition is_purge (argv : list string) : bool :=
  match argv with [_; a; b] => bool_decide (a = "--purge") && bool_decide (b = ByohAgentServiceName) | _ => false end.

(** One effect.  [None]: the protocol does not allow it. *)
Definition next (op : HostOperationType) (s : Stage) (ev : CtlEvent) : option Stage :=
  match s, ev with
  | Unread, CGetHost _ _ (Ok None) => Some Detached
  | Unread, CGetHost _ _ (Ok (Some ref)) => Some (Attached (ref_Name ref))
  | Unread, CGetHost _ _ (Err _) => Some Unread
  | Unread, CAsk answer => if is_decommission op then Some (if is_yes answer then Told else Declined) else None
  | Told, CExec argv err => if is_purge argv then Some (if err is Some _ then Finished else Purged) else None
  | Detached, CDeleteHost _ _ err =>
      if is_decommission op then Some (if err is Some _ then Finished else Deleted) else None
  | Deleted, CExec argv err => if is_purge argv then Some (if err is Some _ then Finished else Purged) else None
  | Attached m, CGetMachine _ name => if bool_decide (name = m) then Some (Attached m) else None
  | Attached m, CGetDeployment _ _ (Ok (Some n)) => Some (Counted m n)
  | Attached m, CGetDeployment _ _ _ => Some Finished
  | Counted m n, CAsk answer =>
      if (n =? 1)%Z then Some (if is_yes answer then Agreed m else Finished) else None
  | Counted m n, CGetMachine _ name =>
      if bool_decide (n ≠ 1%Z) && bool_decide (name = m) then Some (Ready m) else None
  | Agreed m, CUpdateMachine _ u err =>
      if marks ExcludeNodeDraining "" u then Some (if err is Some _ then Finished else Agreed m) else None
  | Agreed m, CGetMachine _ name => if bool_decide (name = m) then Some (Ready m) else None
  | Ready m, CUpdateMachine _ u err =>
      if marks DeleteMachine "yes" u then Some (if err is Some _ then Finished else Marked) else None
  | Marked, CGetDeployment _ _ (Ok (Some n)) => Some (Scaling n)
  | Marked, CGetDeployment _ _ _ => Some Finished
  | Scaling n, CUpdateDeployment _ r err =>
      if bool_decide (r = Some (int32 (n - 1))) then Some (if err is Some _ then Finished else Scaled) else None
  | Scaled, CGetHost _ _ (Ok None) => Some Detached
  | Scaled, CGetHost _ _ (Ok (Some _)) => Some Scaled
  | Scaled, CGetHost _ _ (Err _) => Some Finished
  | _, _ => None
  end.

(** Effects that lead to a stage. *)
Lemma next_Detached op s ev : next op s ev = Some Detached → ∃ ns n, ev = CGetHost ns n (Ok None).
Proof.
  destruct s, ev as [? ? [[]|]| | | |? ? [[]|]| | |]; simpl; try done; eauto; repeat case_match; try done; by intros [= ?].
Qed.
Lemma follow_Detached op s t : follow (next op) s t = Some Detached → s ≠ Detached →
  ∃ t0 ns n, t = t0 ++ [CGetHost ns n (Ok None)].
Proof.
  destruct t as [|ev t] using rev_ind; [by intros [= ->]|]. rewrite follow_app. destruct (follow (next op) s t) as [s1|]; [|done].
  simpl. destruct (next op s1 ev) eqn:Hn; [|done]. intros [= ->] _. apply next_Detached in Hn as (ns & n & ->). eauto.
Qed.
Lemma delete_needs_detached op t t1 ns n err t2 s : follow (next op) Unread t = Some s → t = t1 ++ CDeleteHost ns n err :: t2 →
  op = OperationDecommission ∧ ∃ t0 ns' n', t1 = t0 ++ [CGetHost ns' n' (Ok None)].
Proof.
  intros Hf ->. rewrite follow_app in Hf. destruct (follow (next op) Unread t1) as [s1|] eqn:H1; [|done].
  simpl in Hf. destruct s1; try done. simpl in Hf. destruct op; [done|]. split; [done|]. by eapply follow_Detached.
Qed.

(** ** Runs follow the protocol *)
Section Protocol.
  Context {E L : Type} `{!CtlLibs E}.

(** What a call of the client makes of the stage. *)
Lemma get_host_follows op s ns e (l : L) Q :
  (s = Unread ∨ s = Scaled) →
  (∀ s' err, (s = Unread → s' = Unread) → Q s' (Val (Err err))) →
  (∀ h, Q (match host_MachineRef h with
           | None => Detached
           | Some ref => if s is Scaled then Scaled else Attached (ref_Name ref)
           end) (Val (Ok h))) →
  fwp (next op) s (GetByoHostObject ns) e l Q.
Proof.
  intros Hs Herr Hok. unfold GetByoHostObject. apply fwp_bind, fwp_quiet. intros [hn|err] e1 l1.
  2:{ apply fwp_ret, Herr. done. }
  apply fwp_bind, fwp_call. intros [u|err]; cbn [follow machineRef_of].
  - destruct (FromUnstructured_ByoHost u) as [h|err]; [specialize (Hok h)|].
    + destruct Hs as [-> | ->], (host_MachineRef h) as [ref|]; eexists; (split; [reflexivity|]); intros ??; by apply fwp_ret.
    + destruct Hs as [-> | ->]; eexists; (split; [reflexivity|]); intros ??; apply fwp_ret; by apply Herr.
  - destruct Hs as [-> | ->]; eexists; (split; [reflexivity|]); intros ??; apply fwp_ret; by apply Herr.
Qed.

Lemma purge_follows op s e (l : L) Q :
  s = Told ∨ s = Deleted → (∀ err, Q Finished (Val (Some err))) → Q Purged (Val None) →
  fwp (next op) s PurgeDebianPackage e l Q.
Proof.
  intros Hs Herr Hok. unfold PurgeDebianPackage. apply fwp_bind, fwp_quiet. intros p e1 l1.
  apply fwp_bind, fwp_call. intros [out [err|]]; destruct Hs as [-> | ->]; eexists; (split; [reflexivity|]);
    intros ??; by apply fwp_ret.
Qed.

Lemma decommission_follows s ns e (l : L) Q :
  s = Detached → (∀ s' err, Q s' (Val (Some err))) → Q Purged (Val None) →
  fwp (next OperationDecommission) s (performHostDecommissionWithNoMachineRef ns) e l Q.
Proof.
  intros -> Herr Hok. unfold performHostDecommissionWithNoMachineRef, DeleteByoHostObject.
  apply fwp_bind, fwp_bind, fwp_quiet. intros [hn|err] e1 l1; [|apply fwp_ret; intros ??; by apply fwp_ret].
  apply fwp_call. intros [err|]; eexists; (split; [reflexivity|]); intros ??; [by apply fwp_ret|].
  apply fwp_bind, purge_follows; [by right|intros err ??; by apply fwp_ret|intros ??; by apply fwp_ret].
Qed.

Lemma ask_follows op s msg e (l : L) Q :
  (∀ err, Q s (Val (Err err))) →
  (∀ ans, ∃ s', next op s (CAsk ans) = Some s' ∧ Q s' Panic ∧
     ∀ r, (r = Ok true → is_yes ans = true) → (r = Ok false → is_yes ans = false) → Q s' (Val r)) →
  fwp (next op) s (AskBool msg) e l Q.
Proof.
  intros Herr Hask. unfold AskBool. apply fwp_bind, fwp_quiet. intros [err|] e1 l1; [by apply fwp_ret|].
  apply fwp_bind, fwp_call. intros [[ans pre] err]. destruct (Hask ans) as (s' & Hn & Hp & Hr). exists s'. cbn [fst snd].
  split; [cbn [follow]; by rewrite Hn|]. intros e2 l2. destruct (pre || _).
  - apply fwp_bind, fwp_deref. destruct err; [|done]. intros ??. apply fwp_ret. by apply Hr.
  - assert (is_yes ans = bool_decide (ans = "y") || bool_decide (ans = "Y")) as Hy by done. destruct (_ || _) eqn:Hb.
    + apply fwp_ret. by apply Hr.
    + destruct (bool_decide (ans = "n") || _); apply fwp_ret; by apply Hr.
Qed.

Lemma annotate_follows op s s' u ns key value e (l : L) Q :
  (∀ u err, marks key value u = true →
     next op s (CUpdateMachine ns u err) = Some (if err is Some _ then Finished else s')) →
  (∀ err, Q Finished (Val (Some err))) → Q s' (Val None) →
  fwp (next op) s (AnnotateMachineObject u ns key value) e l Q.
Proof.
  intros Hn Herr Hok. unfold AnnotateMachineObject. set (u' := un_set_Annotations _ u).
  assert (marks key value u' = true) as Hm.
  { unfold marks. apply bool_decide_eq_true. cbn. apply lookup_insert_eq. }
  apply fwp_bind, fwp_call. intros [r|err]; eexists; cbn [follow err_of]; rewrite Hn by done; (split; [reflexivity|]);
    intros ??; by apply fwp_ret.
Qed.

Lemma get_deployment_follows op s f u ns e (l : L) Q :
  (∀ n r, next op s (CGetDeployment ns n r) = Some (match r with Ok (Some k) => f k | _ => Finished end)) →
  (∀ s' err, Q s' (Val (Err err))) →
  (∀ md, Q (match md_Replicas md with Some k => f k | None => Finished end) (Val (Ok md))) →
  fwp (next op) s (get_deployment u ns) e l Q.
Proof.
  intros Hn Herr Hok. unfold get_deployment. case_bool_decide; [by apply fwp_ret|].
  apply fwp_bind, fwp_call. intros [d|err]; eexists; cbn [follow replicas_of]; rewrite Hn; (split; [reflexivity|]); intros ??.
  - destruct (FromUnstructured_MachineDeployment d) as [md|err]; apply fwp_ret; [|done].
    specialize (Hok md). by destruct (md_Replicas md).
  - by apply fwp_ret.
Qed.

Lemma scale_follows op u ns e (l : L) Q :
  (∀ s' o, o ≠ Val None → Q s' o) → Q Scaled (Val None) →
  fwp (next op) Marked (ScaleDownMachineDeployment u ns) e l Q.
Proof.
  intros Hbad Hok. unfold ScaleDownMachineDeployment.
  apply fwp_bind, (get_deployment_follows _ _ Scaling); [by intros ? [[]|]|intros; apply fwp_ret; by apply Hbad|].
  intros md e1 l1. apply fwp_bind, fwp_deref. destruct (md_Replicas md) as [k|]; [|by apply Hbad]. intros e2 l2.
  destruct (ToUnstructured_MachineDeployment _) as [u'|err]; [|apply fwp_ret; by apply Hbad].
  apply fwp_bind, fwp_call. intros [r|err]; cbn [follow next err_of md_Replicas];
    rewrite bool_decide_eq_true_2 by done; eexists; (split; [reflexivity|]); intros ??; apply fwp_ret; [done|by apply Hbad].
Qed.

Lemma get_machine_follows op s s' ns m e (l : L) Q :
  next op s (CGetMachine ns m) = Some s' → (∀ r, Q s' (Val r)) →
  fwp (next op) s (GetUnstructuredMachineObject ns m) e l Q.
Proof.
  intros Hn HQ. unfold GetUnstructuredMachineObject. apply fwp_bind, fwp_call.
  intros [u|err]; exists s'; cbn [follow]; rewrite Hn; (split; [reflexivity|]); intros ??; by apply fwp_ret.
Qed.

Lemma mark_and_scale_follows op s ns m e (l : L) Q :
  next op s (CGetMachine ns m) = Some (Ready m) →
  (∀ s' o, o ≠ Val None → Q s' o) → Q Scaled (Val None) →
  fwp (next op) s (mark_and_scale ns m) e l Q.
Proof.
  intros Hn Hbad Hok. unfold mark_and_scale. apply fwp_bind, (get_machine_follows _ _ (Ready m)); [done|].
  intros [u|err] e1 l1; [|apply fwp_ret; by apply Hbad].
  apply fwp_bind, (annotate_follows _ _ Marked); [by intros u' err Hm; cbn; rewrite Hm|intros; apply fwp_ret; by apply Hbad|].
  intros e2 l2. apply fwp_bind, scale_follows; [|intros; by apply fwp_ret].
  intros s' [[err|]|] Ho; [intros; apply fwp_ret; by apply Hbad|done|by apply Hbad].
Qed.

Lemma leave_cluster_follows op ns m e (l : L) Q :
  (∀ s' o, o ≠ Val None → Q s' o) → Q Scaled (Val None) →
  fwp (next op) (Attached m) (leave_cluster ns m) e l Q.
Proof.
  intros Hbad Hok. unfold leave_cluster.
  apply fwp_bind, (get_machine_follows _ _ (Attached m)); [by cbn; rewrite bool_decide_eq_true_2|].
  intros [u|err] e1 l1; [|apply fwp_ret; by apply Hbad]. unfold GetMachineDeploymentReplicaCount.
  apply fwp_bind, fwp_bind, (get_deployment_follows _ _ (Counted m)); [by intros ? [[]|]| |].
  { intros s' err ??. apply fwp_ret. intros ??. apply fwp_ret. by apply Hbad. }
  intros md e2 l2. apply fwp_bind, fwp_deref. destruct (md_Replicas md) as [k|]; [|by apply Hbad].
  intros e3 l3. apply fwp_ret. intros e4 l4. unfold confirm_last_node. apply fwp_bind.
  destruct (Z.eqb_spec k 1) as [-> |Hk].
  - apply fwp_bind, ask_follows; [intros err ??; apply fwp_ret; intros ??; apply fwp_ret; by apply Hbad|].
    intros ans. eexists. split; [reflexivity|]. split; [by apply Hbad|]. intros [[]|err] Ht Hf e5 l5.
    + rewrite Ht by done.
      apply fwp_bind, (annotate_follows _ _ (Agreed m)); [by intros u' err Hm; cbn; rewrite Hm| |].
      * intros err ??. apply fwp_ret. intros ??. apply fwp_ret. by apply Hbad.
      * intros ??. apply fwp_ret. intros ??. apply mark_and_scale_follows; [|done|done].
        cbn. by rewrite bool_decide_eq_true_2.
    + apply fwp_ret. intros ??. apply fwp_ret. by apply Hbad.
    + apply fwp_ret. intros ??. apply fwp_ret. by apply Hbad.
  - apply fwp_ret. intros ??. apply mark_and_scale_follows; [|done|done].
    cbn. by rewrite !bool_decide_eq_true_2.
Qed.

Lemma wait_follows fuel op ns start e (l : L) Q :
  (∀ s' r, r ≠ Done None → Q s' (Val r)) → Q Detached (Val (Done None)) →
  fwp (next op) Scaled (wait_loop fuel start ns) e l Q.
Proof.
  intros Hbad Hok. revert e l. induction fuel as [|fuel IH]; intros e l; cbn [wait_loop]; [apply fwp_ret; by apply Hbad|].
  apply fwp_bind, fwp_quiet. intros now e1 l1. destruct (_ <? _)%Z; [apply fwp_ret; by apply Hbad|].
  apply fwp_bind, get_host_follows; [by right|intros; apply fwp_ret; by apply Hbad|].
  intros h e2 l2. destruct (host_MachineRef h); [|by apply fwp_ret].
  apply fwp_bind, fwp_quiet. intros [] e3 l3. apply IH.
Qed.

(** How a run that follows the protocol may end. *)
Definition op_result (op : HostOperationType) (s : Stage) (o : Outcome OpEnd) : Prop :=
  o = Val (Done None) → if is_decommission op then s = Purged ∨ s = Declined else s = Detached.

Lemma await_release_follows fuel op ns e (l : L) : fwp (next op) Scaled (await_release fuel op ns) e l (op_result op).
Proof.
  unfold await_release, WaitForMachineRefToBeUnset. apply fwp_bind, fwp_bind, fwp_quiet. intros start e1 l1.
  apply wait_follows.
  - intros s' [[err|]|] Hr e2 l2; [by apply fwp_ret|done|by apply fwp_ret].
  - intros e2 l2. destruct op; [by apply fwp_ret|].
    apply fwp_bind, decommission_follows; [done|intros; by apply fwp_ret|intros ??; apply fwp_ret; intros _; by left].
Qed.

Lemma host_operation_follows fuel op ns e (l : L) : fwp (next op) Unread (host_operation fuel op ns) e l (op_result op).
Proof.
  unfold host_operation. apply fwp_bind, get_host_follows; [by left| |].
  - intros s' err Hs e1 l1. rewrite Hs by done. apply fwp_bind. unfold host_not_found.
    destruct op; cbn [is_decommission]; [apply fwp_ret; intros ??; by apply fwp_ret|].
    apply fwp_bind, ask_follows; [intros err' ??; apply fwp_ret; intros ??; by apply fwp_ret|].
    intros ans. eexists. split; [reflexivity|]. split; [done|]. intros [[]|err'] Ht Hf e2 l2.
    + rewrite Ht by done. apply fwp_bind, purge_follows; [by left|intros err' ??; apply fwp_ret; intros ??; by apply fwp_ret|].
      intros ??. apply fwp_ret. intros ??. apply fwp_ret. intros _. by left.
    + rewrite Hf by done. apply fwp_ret. intros ??. apply fwp_ret. intros _. by right.
    + apply fwp_ret. intros ??. by apply fwp_ret.
  - intros h e1 l1. destruct (host_MachineRef h) as [ref|].
    + apply fwp_bind, leave_cluster_follows.
      * intros s' [[err|]|] Ho; [intros; by apply fwp_ret|done|done].
      * intros e2 l2. apply await_release_follows.
    + destruct op; cbn [is_decommission]; [by apply fwp_ret|].
      apply fwp_bind, decommission_follows; [done|intros; by apply fwp_ret|intros ??; apply fwp_ret; intros _; by left].
Qed.

Lemma operation_follows fuel HomeDir op ns e (l : L) :
  fwp (next op) Unread (PerformHostOperation fuel HomeDir op ns) e l (op_result op).
Proof.
  unfold PerformHostOperation, GetK8sClient. apply fwp_bind, fwp_quiet. intros err e1 l1.
  destruct (match err with Some _ => _ | None => _ end); [by apply fwp_ret|].
  apply fwp_bind, fwp_bind, fwp_quiet. intros [err1|] e2 l2; [apply fwp_ret; intros ??; by apply fwp_ret|].
  apply fwp_bind, fwp_quiet. intros [err2|] e3 l3; [apply fwp_ret; intros ??; by apply fwp_ret|].
  apply fwp_bind, fwp_quiet. intros [err3|] e4 l4; [apply fwp_ret; intros ??; by apply fwp_ret|].
  apply fwp_ret. intros e5 l5. apply host_operation_follows.
Qed.
End Protocol.

(** ** Termination of the wait *)

(** The clock does not run backwards, and a sleep lasts as long as asked. *)
Class CtlClock (E : Type) `{!CtlLibs E} := {
  clock : E → Z;
  clock_Now : ∀ e, (clock e <= clock (ctl_Now e).1)%Z ∧ (ctl_Now e).2 = clock (ctl_Now e).1;
  clock_Hostname : ∀ e, (clock e <= clock (ctl_Hostname e).1)%Z;
  clock_Get : ∀ g ns n e, (clock e <= clock (dynamic_Get g ns n e).1)%Z;
  clock_Sleep : ∀ d e, (clock e + d <= clock (ctl_Sleep d e).1)%Z }.

(** The polls that fit into the timeout, and the one that sees it expired. *)
Definition wait_polls : nat := 62.

Section Termination.
  Context {E L : Type} `{!CtlLibs E, !CtlClock E}.

(** The result, whatever ran before. *)
Definition ends {A} (m : M CtlEvent E L A) (P : Outcome A → Prop) : Prop := ∀ e l, wp m e l (λ _ _ _ o, P o).

Lemma ends_bind {A B} (m : M CtlEvent E L A) (f : A → M CtlEvent E L B) P :
  P Panic → (∀ a, ends (f a) P) → ends (bind m f) P.
Proof.
  intros Hp Hf e l. apply wp_bind, wp_intro. intros e1 l1 t1 [a|] _; [|done]. apply Hf.
Qed.
Lemma ends_ret {A} (a : A) (P : Outcome A → Prop) : P (Val a) → ends (ret a) P.
Proof. intros HP e l. by apply wp_ret. Qed.

Lemma GetByoHostObject_clock ns e l :
  wp (GetByoHostObject (L:=L) ns) e l (λ e' _ _ o, (clock e <= clock e')%Z ∧ ∃ r, o = Val r).
Proof.
  unfold GetByoHostObject. apply wp_bind, wp_call. intros e1 r Hr. pose proof (clock_Hostname e) as H1.
  rewrite Hr in H1. cbn in H1. destruct r as [hn|err]; [|by apply wp_ret; eauto].
  apply wp_bind, wp_call. intros e2 u Hu. pose proof (clock_Get byohostGVR ns hn e1) as H2. rewrite Hu in H2. cbn in H2.
  destruct u as [u|err]; [destruct (FromUnstructured_ByoHost u)|]; (apply wp_ret; split; [lia|eauto]).
Qed.

Lemma wait_loop_ends fuel start ns e (l : L) :
  (start + (Z.of_nat wait_polls - Z.of_nat (S fuel)) * (5 * Second) <= clock e)%Z →
  wp (wait_loop (S fuel) start ns) e l (λ _ _ _ o, o ≠ Val Waiting).
Proof.
  revert e l. induction fuel as [|fuel IH]; intros e l He.
  - cbn [wait_loop]. apply wp_bind, wp_call. intros e1 now Hn. destruct (clock_Now e) as [H1 H2]. rewrite Hn in H1, H2.
    cbn in H1, H2. replace (_ <? _)%Z with true; [by apply wp_ret|]. symmetry. apply Z.ltb_lt. subst now.
    unfold WaitForMachineRefToBeUnsetTimeout, wait_polls, Second in *. lia.
  - remember (S fuel) as n. cbn [wait_loop]. apply wp_bind, wp_call. intros e1 now Hn.
    destruct (clock_Now e) as [H1 H2]. rewrite Hn in H1, H2. cbn in H1, H2. destruct (_ <? _)%Z; [by apply wp_ret|].
    apply wp_bind. eapply wp_mono; [apply GetByoHostObject_clock|]. cbn beta. intros e2 l2 t2 o2 [H3 [r ->]].
    destruct r as [h|err]; [|by apply wp_ret]. destruct (host_MachineRef h); [|by apply wp_ret].
    apply wp_bind, wp_call. intros e3 [] Hs. pose proof (clock_Sleep (5 * Second) e2) as H4. rewrite Hs in H4. cbn in H4.
    subst n. eapply wp_mono; [apply IH|done]. unfold wait_polls, Second in *. lia.
Qed.

Lemma operation_ends fuel HomeDir op ns : wait_polls ≤ fuel →
  ends (PerformHostOperation (L:=L) fuel HomeDir op ns) (λ o, o ≠ Val Waiting).
Proof.
  intros Hfuel. unfold PerformHostOperation. apply ends_bind; [done|]. intros err.
  destruct (match err with Some _ => _ | None => _ end); [by apply ends_ret|].
  apply ends_bind; [done|]. intros [err1|]; [by apply ends_ret|].
  unfold host_operation. apply ends_bind; [done|]. intros [h|err2]; [|apply ends_bind; [done|intros; by apply ends_ret]].
  destruct (host_MachineRef h) as [ref|].
  - apply ends_bind; [done|]. intros [err3|]; [by apply ends_ret|]. unfold await_release.
    intros e l. apply wp_bind. unfold WaitForMachineRefToBeUnset. apply wp_bind, wp_call. intros e1 start Hs.
    destruct (clock_Now e) as [_ H2]. rewrite Hs in H2. cbn in H2.
    destruct fuel as [|fuel]; [unfold wait_polls in Hfuel; lia|].
    eapply wp_mono; [apply (wait_loop_ends fuel)|].
    { subst start. unfold wait_polls, Second in *. lia. }
    cbn beta. intros e2 l2 t2 [[[err4|]|]|] Ho; [by apply wp_ret| |done|done].
    destruct op; [by apply wp_ret|].
    apply (ends_bind _ _ (λ o, o ≠ Val Waiting)); [done|]. intros r. by apply ends_ret.
  - destruct op; [by apply ends_ret|]. apply ends_bind; [done|]. intros r. by apply ends_ret.
Qed.
End Termination.

(** ** Theorems *)

(** C29. Every run of [PerformHostOperation], in any
    world, is a run of the protocol: the deployment is scaled down once, by
    one in 32-bit arithmetic from the count just read, and only after the
    host's machine was marked for deletion by an accepted update; the last
    node goes only when the user agreed; the object of a host is deleted only
    to decommission, and directly after the server showed it without a
    machine; the package is purged only after that, or when the object cannot
    be read and the user agreed.  A deauthorisation that reports success saw
    the host released; a decommission that does has purged the package, or
    the user declined. *)
Theorem host_operation_protocol {E L : Type} `{!CtlLibs E} (fuel : nat) (HomeDir : string)
    (op : HostOperationType) (ns : string) (e : E) (l : L) :
  wp (PerformHostOperation fuel HomeDir op ns) e l (λ _ _ t o,
    ∃ s, follow (next op) Unread t = Some s ∧ op_result op s o ∧
      ∀ t1 ns' n err t2, t = t1 ++ CDeleteHost ns' n err :: t2 →
        op = OperationDecommission ∧ ∃ t0 ns' n', t1 = t0 ++ [CGetHost ns' n' (Ok None)]).
Proof.
  eapply wp_mono; [apply operation_follows|]. cbn beta. intros e' l' t o (s & Hs & Ho). exists s.
  split_and!; [done|done|]. intros t1 ns' n err t2 Ht. by eapply delete_needs_detached.
Qed.

(** C30. The wait for the release of a host is
    bounded: with a clock that does not run backwards and sleeps that last as
    long as asked, 62 polls of five seconds are more than the five minutes of
    the timeout, so an operation ends. *)
Theorem host_operation_terminates {E L : Type} `{!CtlLibs E, !CtlClock E} (fuel : nat) (HomeDir : string)
    (op : HostOperationType) (ns : string) (e : E) (l : L) :
  62 ≤ fuel → r_out (PerformHostOperation fuel HomeDir op ns e l) ≠ Val Waiting.
Proof. intros Hf. apply (operation_ends fuel HomeDir op ns Hf e l). Qed.

