(* ===== verification/Logger.v ===== *)
(** * The logger of byohctl (cmd/byohctl/utils/logger.go)

    Levelled messages to the console, filtered, and to the debug log, all of
    them; the package variables are the record [LogState].  A session is a
    sequence of calls between [InitLoggers] (in Onboard.v, with its file
    operations) and [CloseLoggers]. *)

From stdpp Require Import pretty.
From S2P Require Import Prelude GoStrings Encoding Api Platform.

(** ** Levels *)

Definition LevelDebug : string := "DEBUG".
Definition LevelInfo : string := "INFO".
Definition LevelSuccess : string := "SUCCESS".
Definition LevelWarning : string := "WARNING".
Definition LevelError : string := "ERROR".

Definition ConsoleOutputAll : string := "all".
Definition ConsoleOutputImportant : string := "important".
Definition ConsoleOutputMinimal : string := "minimal".
Definition ConsoleOutputCritical : string := "critical".
Definition ConsoleOutputNone : string := "none".

(** The package variables of the logger. *)
Record LogState := mkLogState {
  consoleOutputEnabled : bool; consoleOutputLevel : string; debugLogger : bool }.

Definition shouldShowOnConsole (st : LogState) (level : string) : bool :=
  if negb (consoleOutputEnabled st) then false
  else if bool_decide (consoleOutputLevel st = ConsoleOutputAll) then true
  else if bool_decide (consoleOutputLevel st = ConsoleOutputImportant) then bool_decide (level ≠ LevelDebug)
  else if bool_decide (consoleOutputLevel st = ConsoleOutputMinimal) then
    bool_decide (level = LevelSuccess) || bool_decide (level = LevelWarning) || bool_decide (level = LevelError)
  else if bool_decide (consoleOutputLevel st = ConsoleOutputCritical) then
    bool_decide (level = LevelWarning) || bool_decide (level = LevelError)
  else if bool_decide (consoleOutputLevel st = ConsoleOutputNone) then false
  else true.

(** Where a message goes. *)
Inductive Sink := Console (line : string) | LogFile (line : string).

Definition escape : string := String (chr 27) EmptyString.
Definition colour (code line : string) : string := escape +:+ "[0;" +:+ code +:+ "m" +:+ line +:+ escape +:+ "[0m".

(** The five functions of the logger differ in level and colour only. *)
Definition log_at (level : string) (paint : string → string) (timestamp message : string) (st : LogState) : list Sink :=
  let logMessage := "[" +:+ timestamp +:+ "] [" +:+ level +:+ "] " +:+ message in
  (if shouldShowOnConsole st level then [Console (paint logMessage)] else []) ++
  (if debugLogger st then [LogFile logMessage] else []).
Definition LogDebug : string → string → LogState → list Sink := log_at LevelDebug id.
Definition LogInfo : string → string → LogState → list Sink := log_at LevelInfo id.
Definition LogSuccess : string → string → LogState → list Sink := log_at LevelSuccess (colour "32").
Definition LogWarn : string → string → LogState → list Sink := log_at LevelWarning (colour "33").
Definition LogError : string → string → LogState → list Sink := log_at LevelError (colour "31").

Definition SetConsoleOutputLevel (timestamp level : string) (st : LogState) : LogState * list Sink :=
  if bool_decide (level ∈ [ConsoleOutputAll; ConsoleOutputImportant; ConsoleOutputMinimal; ConsoleOutputCritical;
                           ConsoleOutputNone])
  then (mkLogState (consoleOutputEnabled st) level (debugLogger st), [])
  else (mkLogState (consoleOutputEnabled st) ConsoleOutputImportant (debugLogger st),
        LogWarn timestamp ("Invalid console output level: " +:+ level +:+ ". Using default (important)") st).

(** [DisableConsoleOutput], [EnableConsoleOutput] *)
Definition DisableConsoleOutput (st : LogState) : LogState :=
  mkLogState false (consoleOutputLevel st) (debugLogger st).
Definition EnableConsoleOutput (st : LogState) : LogState :=
  mkLogState true (consoleOutputLevel st) (debugLogger st).

(** The message is also the error. *)
Definition LogErrorf (timestamp message : string) (st : LogState) : GoError * list Sink :=
  (errors_New message, LogError timestamp message st).

Definition TrackTime (timestamp name elapsed : string) (st : LogState) : list Sink :=
  LogDebug timestamp (name +:+ " took " +:+ elapsed) st.

(** The last line of a session; the file handle is set exactly when the logger is. *)
Definition CloseLoggers (timestamp : string) (st : LogState) : list Sink :=
  if debugLogger st
  then [LogFile (newline +:+ "===== BYOHCTL SESSION ENDED AT " +:+ timestamp +:+ " =====" +:+ newline +:+ newline)]
  else [].

(** How [ps -p pid] ends: exit code 0, another exit code, or not at all. *)
Inductive CmdEnd := Exited0 | ExitError (code : Z) | CmdFailed (err : GoError).

Definition ProcessExists (ps : CmdEnd) : bool * option GoError :=
  match ps with
  | Exited0 => (true, None)
  | ExitError code =>
      if (code =? 1)%Z then (false, None)
      else (false, Some (errors_New ("ps command failed with exit code " +:+ pretty code)))
  | CmdFailed err => (false, Some (errors_New ("error checking process status: " +:+ err_msg err)))
  end.

(** ** Sessions *)

Inductive LogCall :=
  | CallDebug (m : string) | CallInfo (m : string) | CallSuccess (m : string) | CallWarn (m : string)
  | CallError (m : string) | CallTrackTime (name elapsed : string)
  | CallSetLevel (level : string) | CallEnable | CallDisable.

Definition run_call (timestamp : string) (c : LogCall) (st : LogState) : LogState * list Sink :=
  match c with
  | CallDebug m => (st, LogDebug timestamp m st)
  | CallInfo m => (st, LogInfo timestamp m st)
  | CallSuccess m => (st, LogSuccess timestamp m st)
  | CallWarn m => (st, LogWarn timestamp m st)
  | CallError m => (st, LogError timestamp m st)
  | CallTrackTime name elapsed => (st, TrackTime timestamp name elapsed st)
  | CallSetLevel level => SetConsoleOutputLevel timestamp level st
  | CallEnable => (EnableConsoleOutput st, [])
  | CallDisable => (DisableConsoleOutput st, [])
  end.

(** Calls with their times. *)
Fixpoint run_calls (cs : list (string * LogCall)) (st : LogState) : LogState * list Sink :=
  match cs with
  | [] => (st, [])
  | (ts, c) :: cs =>
      let (st, out) := run_call ts c st in
      let (st, outs) := run_calls cs st in (st, out ++ outs)
  end.

Definition file_lines (out : list Sink) : list string :=
  omap (λ s, match s with LogFile l => Some l | Console _ => None end) out.
Definition console_lines (out : list Sink) : list string :=
  omap (λ s, match s with Console l => Some l | LogFile _ => None end) out.

(** ** Theorems *)

(** The verbosity levels, from quiet to talkative: each shows what the
    quieter ones show, and after [SetConsoleOutputLevel] one of them is set. *)
Definition console_levels : list string :=
  [ConsoleOutputNone; ConsoleOutputCritical; ConsoleOutputMinimal; ConsoleOutputImportant; ConsoleOutputAll].

Theorem console_levels_nested (st : LogState) (i j : nat) (li lj level : string) :
  i ≤ j → console_levels !! i = Some li → console_levels !! j = Some lj →
  shouldShowOnConsole (mkLogState (consoleOutputEnabled st) li (debugLogger st)) level = true →
  shouldShowOnConsole (mkLogState (consoleOutputEnabled st) lj (debugLogger st)) level = true.
Proof.
  unfold shouldShowOnConsole. cbn [consoleOutputEnabled consoleOutputLevel].
  destruct (consoleOutputEnabled st); [|done]. cbn [negb]. intros Hij Hi Hj.
  destruct i as [|[|[|[|[|]]]]], j as [|[|[|[|[|]]]]]; try lia; try done; injection Hi as <-; injection Hj as <-; cbn;
    repeat case_bool_decide; naive_solver.
Qed.

Theorem set_level_known (timestamp level : string) (st : LogState) :
  consoleOutputLevel (SetConsoleOutputLevel timestamp level st).1 ∈ console_levels.
Proof.
  unfold SetConsoleOutputLevel. case_bool_decide as Hl; cbn.
  - unfold console_levels. set_solver.
  - unfold console_levels. set_solver.
Qed.

(** What a call has to say: level and message. *)
Definition said (c : LogCall) : option (string * string) :=
  match c with
  | CallDebug m => Some (LevelDebug, m)
  | CallInfo m => Some (LevelInfo, m)
  | CallSuccess m => Some (LevelSuccess, m)
  | CallWarn m => Some (LevelWarning, m)
  | CallError m => Some (LevelError, m)
  | CallTrackTime name elapsed => Some (LevelDebug, name +:+ " took " +:+ elapsed)
  | CallSetLevel level =>
      if bool_decide (level ∈ console_levels) then None
      else Some (LevelWarning, "Invalid console output level: " +:+ level +:+ ". Using default (important)")
  | CallEnable | CallDisable => None
  end.
Definition log_line (ts : string) (lm : string * string) : string := "[" +:+ ts +:+ "] [" +:+ lm.1 +:+ "] " +:+ lm.2.

Lemma log_at_file level paint ts m st : debugLogger st = true →
  file_lines (log_at level paint ts m st) = [log_line ts (level, m)].
Proof. intros Hd. unfold log_at. rewrite Hd. by destruct (shouldShowOnConsole st level). Qed.
Lemma log_at_console level paint ts m st : consoleOutputEnabled st = false →
  console_lines (log_at level paint ts m st) = [].
Proof. intros Hc. unfold log_at, shouldShowOnConsole. rewrite Hc. by destruct (debugLogger st). Qed.

Lemma level_known level : level ∈ console_levels ↔
  level ∈ [ConsoleOutputAll; ConsoleOutputImportant; ConsoleOutputMinimal; ConsoleOutputCritical; ConsoleOutputNone].
Proof. unfold console_levels. set_solver. Qed.

Lemma run_call_file ts c st : debugLogger st = true →
  debugLogger (run_call ts c st).1 = true ∧
  file_lines (run_call ts c st).2 = log_line ts <$> option_list (said c).
Proof.
  intros Hd. destruct c; cbn [run_call said fst snd]; try done; try by (split; [|apply log_at_file]).
  unfold SetConsoleOutputLevel. rewrite (bool_decide_ext _ _ (level_known level)).
  case_bool_decide; [done|]. split; [done|by apply log_at_file].
Qed.

(** The debug log is complete: a session writes every message of its calls to
    the file, in order and whatever the console level is or becomes. *)
Theorem debug_log_complete (cs : list (string * LogCall)) (st : LogState) :
  debugLogger st = true →
  file_lines (run_calls cs st).2 = cs ≫= (λ tc, log_line tc.1 <$> option_list (said tc.2)).
Proof.
  revert st. induction cs as [|[ts c] cs IH]; intros st Hd; [done|]. cbn [run_calls].
  destruct (run_call_file ts c st Hd) as [Hd1 Hf]. destruct (run_call ts c st) as [st1 out].
  specialize (IH st1 Hd1). destruct (run_calls cs st1) as [st2 outs]. cbn [fst snd] in *.
  unfold file_lines in *. rewrite omap_app, Hf, IH. done.
Qed.

(** A disabled console stays silent until it is enabled again. *)
Theorem disabled_console_silent (cs : list (string * LogCall)) (st : LogState) :
  Forall (λ tc, tc.2 ≠ CallEnable) cs → console_lines (run_calls cs (DisableConsoleOutput st)).2 = [].
Proof.
  intros Hcs. assert (∀ st, consoleOutputEnabled st = false → console_lines (run_calls cs st).2 = []) as Hgen; [|by apply Hgen].
  induction Hcs as [|[ts c] cs Hc _ IH]; intros st0 He; [done|]. cbn [run_calls].
  assert (consoleOutputEnabled (run_call ts c st0).1 = false ∧ console_lines (run_call ts c st0).2 = []) as [He1 Hc1].
  { destruct c; cbn [run_call fst snd]; try done; try by (split; [|apply log_at_console]).
    unfold SetConsoleOutputLevel. case_bool_decide; [done|]. split; [done|by apply log_at_console]. }
  destruct (run_call ts c st0) as [st1 out]. specialize (IH st1 He1). destruct (run_calls cs st1) as [st2 outs].
  cbn [fst snd] in *. unfold console_lines in *. by rewrite omap_app, Hc1, IH.
Qed.
