(* ===== verification/Onboard.v ===== *)
(** * Onboarding a host (cmd/byohctl: cmd/onboard.go, client/auth.go, client/k8s.go,
    service/agent.go, service/constants.go)

    The command authenticates, fetches a kubeconfig from a secret, checks the
    region, and installs the agent's package.  The order of its effects is a
    protocol every run follows; the merge of flags with the configuration
    file has a theorem of its own. *)

From stdpp Require Import pretty.
From S2P Require Import Prelude Protocol GoStrings Encoding Api Platform HostOps Logger.

(** ** cmd/onboard.go: flags and configuration file *)

Record OnboardConfig := mkOnboardConfig {
  cfg_URL : string; cfg_Username : string; cfg_Password : string; cfg_ClientToken : string;
  cfg_Domain : string; cfg_Tenant : string; cfg_Verbosity : string; cfg_Region : string }.

(** The package variables the flags set. *)
Record OnboardFlags := mkOnboardFlags {
  fqdn : string; username : string; password : string; passwordInteractive : bool; clientToken : string;
  domain : string; tenant : string; verbosity : string; regionName : string; configFile : string }.

(** Flags and logger: what a run of the command reads and writes. *)
Record OnboardState := mkOnboardState { st_flags : OnboardFlags; st_log : LogState }.

(** The defaults of [AddOnboardFlags]. *)
Definition default_flags : OnboardFlags :=
  mkOnboardFlags "" "" "" false "" "default" "service" "minimal" "" "".

Definition if_unset (v unset from_config : string) : string := if bool_decide (v = unset) then from_config else v.
Definition if_default (v dflt from_config : string) : string :=
  if bool_decide (v = dflt) && bool_decide (from_config ≠ "") then from_config else v.

Definition mergeConfigWithFlags (cfg : OnboardConfig) (fl : OnboardFlags) : OnboardFlags :=
  mkOnboardFlags
    (if_unset (fqdn fl) "" (cfg_URL cfg)) (if_unset (username fl) "" (cfg_Username cfg))
    (if_unset (password fl) "" (cfg_Password cfg)) (passwordInteractive fl)
    (if_unset (clientToken fl) "" (cfg_ClientToken cfg))
    (if_default (domain fl) "default" (cfg_Domain cfg)) (if_default (tenant fl) "service" (cfg_Tenant cfg))
    (if_default (verbosity fl) "minimal" (cfg_Verbosity cfg))
    (if_unset (regionName fl) "" (cfg_Region cfg)) (configFile fl).

(** The required values that are missing. *)
Definition missing (fl : OnboardFlags) : list string :=
  (if bool_decide (fqdn fl = "") then ["--url (or config file 'url"] else []) ++
  (if bool_decide (username fl = "") then ["--username (or config file 'username')"] else []) ++
  (if bool_decide (clientToken fl = "") then ["--client-token (or config file 'client-token')"] else []) ++
  (if bool_decide (regionName fl = "") then ["--region (or config file 'region')"] else []).

(** ** Effects and libraries *)

Inductive ObEvent :=
  | ObExec (argv : list string) (output : string) (err : option GoError)
  | ObHttp (method url : string) (status : result Z)
  | ObDownload (url path : string) (err : option GoError)
  | ObMkdirAll (path : string) (err : option GoError)
  | ObOpenLog (path : string) (err : option GoError)
  | ObWriteFile (path content : string) (err : option GoError)
  | ObRemoveAll (path : string) (err : option GoError)
  | ObGetConfigMap (namespace name : string) (data : result (gmap string string)).

Class ObLibs (E : Type) := {
  ob_GOOS : string;
  ob_UserHomeDir : E → E * result string;
  ob_MkdirAll : string → E → E * option GoError;
  ob_OpenLog : string → E → E * option GoError;
  ob_WriteFile : string → string → E → E * option GoError;
  ob_RemoveAll : string → E → E * option GoError;
  exec_Output : list string → E → E * (string * option GoError);
  (** status and body of an answered request; reading the body may fail *)
  http_Do : string → string → list (string * string) → string → E → E * result (Z * result string);
  (** download of a file: get, create, copy, chmod, in this order *)
  http_Get : string → E → E * option GoError;
  os_Create : string → E → E * option GoError;
  io_Copy : string → E → E * option GoError;
  os_Chmod : string → E → E * option GoError;
  http_NewRequest : string → string → option GoError;
  json_TokenResponse : string → result string;
  json_Secret : string → result (gmap string string);
  yaml_OnboardConfig : string → result OnboardConfig;
  term_ReadPassword : E → E * result string;
  clientset_GetConfigMap : string → string → E → E * result (gmap string string);
  resolver_LookupHost : string → E → E * result (list string);
  build_Version : string  (* set by the linker *) }.

(** service/constants.go *)
Definition byohAgentDebRepo : string := "quay.io/platform9/cluster-api-provider-bringyourownhost/agent".
Definition ByohAgentDebPackageFilename : string := "pf9-byohost-agent.deb".
Definition ImgPkgVersion : string := "v0.45.0".
Definition ImgPkgURL : string :=
  "https://github.com/carvel-dev/imgpkg/releases/download/" +:+ ImgPkgVersion +:+ "/imgpkg-linux-amd64".
Definition ImgPkgPath : string := "/usr/local/bin/imgpkg".
Definition Systemctl : string := "systemctl".
Definition PcdKaapiRegionKey : string := "pcd-kaapi.pf9.io/region".
Definition SystemctlServiceExists : list string := ["list-unit-files"; ByohAgentServiceName +:+ ".service"].

(** [url.Values.Encode]: the pairs in the order of their keys, escaped. *)
Definition query_safe (c : Ascii.ascii) : bool :=
  is_alnum c || existsb (λ n, Ascii.nat_of_ascii c =? n) [45; 95; 46; 126].
Definition upper_hex (n : nat) : Ascii.ascii := if n <? 10 then chr (48 + n) else chr (55 + n).
Definition query_char (c : Ascii.ascii) : string :=
  let n := Ascii.nat_of_ascii c in
  if query_safe c then String c EmptyString
  else if n =? 32 then "+"
  else String (chr 37) (String (upper_hex (n / 16)) (String (upper_hex (n mod 16)) EmptyString)).
Fixpoint QueryEscape (s : string) : string :=
  match s with EmptyString => EmptyString | String c s' => query_char c +:+ QueryEscape s' end.
Definition form_encode (kvs : list (string * string)) : string :=
  Join ((λ kv, QueryEscape kv.1 +:+ "=" +:+ QueryEscape kv.2) <$> kvs) "&".

Definition StatusOK : Z := 200.

Section Onboard.
  Context {E : Type} `{!CtlLibs E, !ObLibs E}.

(** The local store holds the package variables. *)
Abbreviation OM := (M ObEvent E OnboardState).

Definition get_flags : OM OnboardFlags := let! st := get_local in ret (st_flags st).
Definition modify_flags (f : OnboardFlags → OnboardFlags) : OM unit :=
  modify (λ st, mkOnboardState (f (st_flags st)) (st_log st)).
Definition modify_log (f : LogState → LogState) : OM unit :=
  modify (λ st, mkOnboardState (st_flags st) (f (st_log st))).

Definition exec_combined (argv : list string) : OM (string * option GoError) :=
  call (exec_CombinedOutput argv) (λ r, [ObExec argv r.1 r.2]).
Definition MkdirAll (path : string) : OM (option GoError) :=
  call (ob_MkdirAll path) (λ r, [ObMkdirAll path r]).
Definition WriteFile (path content : string) : OM (option GoError) :=
  call (ob_WriteFile path content) (λ r, [ObWriteFile path content r]).

(** ** client/auth.go *)

Record AuthClient := mkAuthClient { ac_fqdn : string; ac_clientToken : string }.
Definition NewAuthClient (fqdn clientToken : string) : AuthClient := mkAuthClient fqdn clientToken.

Definition GetToken (c : AuthClient) (username password : string) : OM (result string) :=
  let tokenEndpoint := "https://" +:+ ac_fqdn c +:+ "/dex/token" in
  let body := form_encode [("client_id", "kubernetes"); ("client_secret", ac_clientToken c); ("grant_type", "password");
    ("password", password); ("scope", "openid offline_access groups federated:id email"); ("username", username)] in
  match http_NewRequest "POST" tokenEndpoint with
  | Some err => ret (Err (errors_New ("failed to create authentication request: " +:+ err_msg err)))
  | None =>
      let! resp := call (http_Do "POST" tokenEndpoint [("Content-Type", "application/x-www-form-urlencoded")] body)
        (λ r, [ObHttp "POST" tokenEndpoint (match r with Ok p => Ok p.1 | Err err => Err err end)]) in
      match resp with
      | Err err => ret (Err (errors_New ("failed to authenticate: " +:+ err_msg err)))
      | Ok (_, Err err) => ret (Err (errors_New ("failed to read authentication response: " +:+ err_msg err)))
      | Ok (status, Ok body) =>
          if bool_decide (status ≠ StatusOK)
          then ret (Err (errors_New ("authentication failed with status " +:+ pretty status +:+ ": " +:+ body)))
          else match json_TokenResponse body with
               | Err err => ret (Err (errors_New ("failed to parse authentication response: " +:+ err_msg err)))
               | Ok token => ret (Ok token)
               end
      end
  end.

(** ** client/k8s.go *)

Record K8sClient := mkK8sClient {
  kc_fqdn : string; kc_domain : string; kc_tenant : string; kc_bearerToken : string; kc_regionName : string }.

Definition NewK8sClient (fqdn domain tenant token regionName : string) : K8sClient :=
  mkK8sClient fqdn domain tenant token regionName.

Definition getNamespace (c : K8sClient) : string :=
  let fqdnPrefix := default "" (head (Split (kc_fqdn c) (chr 46))) in
  let tenant := ReplaceAll (kc_tenant c) "_" "-" in
  fqdnPrefix +:+ "-" +:+ kc_domain c +:+ "-" +:+ tenant.

Definition secretEndpoint (c : K8sClient) (secretName : string) : string :=
  let namespace := getNamespace c in
  "https://" +:+ kc_fqdn c +:+ "/oidc-proxy/" +:+ namespace +:+ "/" +:+ kc_regionName c +:+
  "/api/v1/namespaces/" +:+ namespace +:+ "/secrets/" +:+ secretName.

Definition GetSecret (c : K8sClient) (secretName : string) : OM (result (gmap string string)) :=
  let url := secretEndpoint c secretName in
  match http_NewRequest "GET" url with
  | Some err => ret (Err (errors_New ("error creating request: " +:+ err_msg err)))
  | None =>
      let! resp := call (http_Do "GET" url [("Authorization", "Bearer " +:+ kc_bearerToken c)] "")
        (λ r, [ObHttp "GET" url (match r with Ok p => Ok p.1 | Err err => Err err end)]) in
      match resp with
      | Err err => ret (Err (errors_New ("error making request: " +:+ err_msg err)))
      | Ok (_, Err err) => ret (Err (errors_New ("error reading response: " +:+ err_msg err)))
      | Ok (status, Ok body) =>
          if bool_decide (status ≠ StatusOK) then ret (Err (errors_New ("error getting secret (status " +:+ pretty status +:+ "): " +:+ body)))
          else match json_Secret body with
               | Err err => ret (Err (errors_New ("error parsing secret: " +:+ err_msg err)))
               | Ok secret => ret (Ok secret)
               end
      end
  end.

Definition SaveKubeConfig (c : K8sClient) (secretName : string) : OM (option GoError) :=
  let! secret := GetSecret c secretName in
  match secret with
  | Err err => ret (Some (errors_New ("failed to get secret: " +:+ err_msg err)))
  | Ok secret =>
      match secret !! "config" with
      | None => ret (Some (errors_New "kubeconfig not found in secret"))
      | Some kubeconfigString =>
          match Base64.DecodeString kubeconfigString with
          | Err err => ret (Some (errors_New ("failed to decode kubeconfig: " +:+ err_msg err)))
          | Ok kubeconfig =>
              let! homeDir := call ob_UserHomeDir (λ _, []) in
              match homeDir with
              | Err err => ret (Some (errors_New ("failed to get home directory: " +:+ err_msg err)))
              | Ok homeDir =>
                  let byohDir := filepath_Join [homeDir; ByohConfigDir] in
                  let! err := MkdirAll byohDir in
                  match err with
                  | Some err => ret (Some (errors_New ("failed to create byoh directory: " +:+ err_msg err)))
                  | None =>
                      let kubeconfigPath := filepath_Join [byohDir; "config"] in
                      let! err := WriteFile kubeconfigPath kubeconfig in
                      match err with
                      | Some err => ret (Some (errors_New ("failed to write kubeconfig: " +:+ err_msg err)))
                      | None => ret None
                      end
                  end
              end
          end
      end
  end.

Definition DeleteSavedKubeconfig (HomeDir : string) : OM (option GoError) :=
  let! err := call (ob_RemoveAll (ByohDir HomeDir)) (λ r, [ObRemoveAll (ByohDir HomeDir) r]) in
  match err with
  | Some err => ret (Some (errors_New ("failed to delete kubeconfig: " +:+ err_msg err)))
  | None => ret None
  end.

Definition CheckDNSResolution (c : K8sClient) : OM (result (list string)) :=
  let! addrs := call (resolver_LookupHost (kc_fqdn c)) (λ _, []) in
  match addrs with
  | Err err => ret (Err (errors_New ("DNS resolution failed for " +:+ kc_fqdn c +:+ ": " +:+ err_msg err)))
  | Ok [] => ret (Err (errors_New ("DNS resolution returned empty result for " +:+ kc_fqdn c)))
  | Ok addrs => ret (Ok addrs)
  end.

(** The regions of the config map, one per line. *)
Definition region_listed (data : gmap string string) (regionName : string) : bool :=
  match data !! "regions" with
  | Some regionsStr => existsb (λ region, bool_decide (TrimSpace region = regionName)) (Split regionsStr (chr 10))
  | None => false
  end.

Definition CheckRegionAvailability (HomeDir : string) (c : K8sClient) (regionName : string) :
    OM (bool * list string * option GoError) :=
  let! err := GetK8sClient (KubeconfigFilePath HomeDir) in
  match err with
  | Some err => ret (false, [], Some (errors_New ("error creating Kubernetes client: " +:+ err_msg err)))
  | None =>
      let! cm := call (clientset_GetConfigMap (getNamespace c) "region-config")
        (λ r, [ObGetConfigMap (getNamespace c) "region-config" r]) in
      match cm with
      | Err err => ret (false, [], Some (errors_New ("error getting region configmap: " +:+ err_msg err)))
      | Ok data =>
          match data !! "regions" with
          | None => ret (false, [], Some (errors_New "region configmap does not have regions key"))
          | Some regionsStr =>
              if region_listed data regionName then ret (true, [], None)
              else ret (false, Split regionsStr (chr 10), None)
          end
      end
  end.

(** ** service/agent.go *)

Definition GetVersion : string := if bool_decide (build_Version = "") then "0.0.0" else build_Version.
Definition byohAgentBundleURL : string := byohAgentDebRepo +:+ ":" +:+ GetVersion.

Definition RunWithStdout (argv : list string) : OM (string * option GoError) :=
  call (exec_Output argv) (λ r, [ObExec argv r.1 r.2]).

(** lsof exits with an error when nobody holds the lock. *)
Definition isAptUnlocked : OM (bool * option GoError) :=
  let! ' (_, err) := RunWithStdout ["lsof"; "/var/lib/apt/lists/lock"] in
  match err with
  | Some _ => ret (true, None)
  | None => ret (false, Some (errors_New "apt is locked <nil>"))
  end.

Definition isPackageInstalled (packageName : string) : OM bool :=
  let! ' (output, err) := exec_combined ["dpkg"; "-l"; packageName] in
  match err with
  | Some _ => ret false
  | None => ret (Contains output ("ii  " +:+ packageName))
  end.

(** The status of the answer is not looked at. *)
Definition install_imgpkg : OM (option GoError) :=
  let! err := call (http_Get ImgPkgURL) (λ _, []) in
  match err with
  | Some err => ret (Some (errors_New ("failed to download imgpkg: " +:+ err_msg err)))
  | None =>
      let! err := call (os_Create ImgPkgPath) (λ _, []) in
      match err with
      | Some err => ret (Some (errors_New ("failed to create file: " +:+ err_msg err)))
      | None =>
          let! err := call (io_Copy ImgPkgPath) (λ r, [ObDownload ImgPkgURL ImgPkgPath r]) in
          match err with
          | Some err => ret (Some (errors_New ("failed to write file: " +:+ err_msg err)))
          | None =>
              let! err := call (os_Chmod ImgPkgPath) (λ _, []) in
              match err with
              | Some err => ret (Some (errors_New ("failed to make file executable: " +:+ err_msg err)))
              | None => ret None
              end
          end
      end
  end.

Record Package := mkPackage {
  pkg_Name : string; InstallCommand : list string; VerifyCommand : string; PackageName : string;
  CustomInstaller : bool }.

Definition apt_package (name : string) : Package := mkPackage name ["apt-get"; "install"; "-y"; name] name name false.
Definition requiredPackages : list Package :=
  mkPackage "imgpkg" [] "imgpkg" "" true ::
  (apt_package <$> ["dpkg"; "ebtables"; "conntrack"; "socat"; "libseccomp2"]).

Definition install_package (pkg : Package) : OM (option GoError) :=
  if CustomInstaller pkg then
    let! found := call (exec_LookPath (VerifyCommand pkg)) (λ _, []) in
    match found with
    | Ok _ => ret None
    | Err _ =>
        let! err := install_imgpkg in
        match err with
        | Some err => ret (Some (errors_New ("failed to install " +:+ pkg_Name pkg +:+ ": " +:+ err_msg err)))
        | None => ret None
        end
    end
  else
    let! installed := isPackageInstalled (PackageName pkg) in
    if installed then ret None
    else
      let! ' (output, err) := exec_combined (InstallCommand pkg) in
      match err with
      | Some err => ret (Some (errors_New ("failed to install " +:+ pkg_Name pkg +:+ ": " +:+ err_msg err +:+ newline +:+
                                           "Output: " +:+ output)))
      | None => ret None
      end.

Fixpoint install_packages (pkgs : list Package) : OM (option GoError) :=
  match pkgs with
  | [] => ret None
  | pkg :: pkgs' =>
      let! err := install_package pkg in
      match err with
      | Some err => ret (Some err)
      | None => install_packages pkgs'
      end
  end.

Definition ensureRequiredPackages : OM (option GoError) :=
  let! ' (ok, err) := isAptUnlocked in
  if negb ok then ret err
  else
    let! ' (_, err) := RunWithStdout ["apt-get"; "update"] in
    match err with
    | Some err => ret (Some (errors_New ("failed to update apt packages: " +:+ err_msg err)))
    | None =>
        let! ' (output, err) := exec_combined ["apt-get"; "--fix-broken"; "install"; "-y"] in
        match err with
        | Some err => ret (Some (errors_New ("failed to fix broken packages: " +:+ err_msg err +:+ newline +:+
                                             "Output: " +:+ output)))
        | None => install_packages requiredPackages
        end
    end.

Definition path_or_empty (r : result string) : string := match r with Ok p => p | Err _ => "" end.

Definition downloadDebianPackage (tempDir : string) : OM (result string) :=
  let! imgpkgPath := call (exec_LookPath "imgpkg") (λ _, []) in
  let! ' (output, err) :=
    exec_combined [path_or_empty imgpkgPath; "pull"; "-i"; byohAgentBundleURL; "-o"; tempDir] in
  match err with
  | Some err => ret (Err (errors_New ("failed to pull package: " +:+ err_msg err +:+ newline +:+ "Output: " +:+ output)))
  | None =>
      let debFilePath := filepath_Join [tempDir; ByohAgentDebPackageFilename] in
      let! err := call (ctl_Stat debFilePath) (λ _, []) in
      match err with
      | Some _ => ret (Err (errors_New ("could not find downloaded Debian package in " +:+ tempDir)))
      | None => ret (Ok debFilePath)
      end
  end.

Definition installDebianPackage (debFilePath : string) : OM (option GoError) :=
  let! dpkgPath := call (exec_LookPath "dpkg") (λ _, []) in
  let! ' (output, err) := exec_combined [path_or_empty dpkgPath; "-i"; debFilePath] in
  match err with
  | Some err => ret (Some (errors_New ("failed to install package: " +:+ err_msg err +:+ newline +:+ "Output: " +:+ output)))
  | None => ret None
  end.

Definition SetupAgent (byohDirPath : string) : OM (option GoError) :=
  let! err := ensureRequiredPackages in
  match err with
  | Some err => ret (Some (errors_New ("failed to install required packages: " +:+ err_msg err)))
  | None =>
      let! packagePath := downloadDebianPackage byohDirPath in
      match packagePath with
      | Err err => ret (Some (errors_New ("failed to download Debian package: " +:+ err_msg err)))
      | Ok packagePath =>
          let! err := installDebianPackage packagePath in
          match err with
          | Some err => ret (Some (errors_New ("failed to install Debian package: " +:+ err_msg err)))
          | None => ret None
          end
      end
  end.

Definition PrepareAgentDirectory (byohDir : string) : OM (option GoError) :=
  let! err := MkdirAll byohDir in
  match err with
  | Some err => ret (Some (errors_New ("failed to create BYOH directory " +:+ byohDir +:+ ": " +:+ err_msg err)))
  | None => ret None
  end.

(** utils/logger.go *)
Definition InitLoggers (logDir : string) : OM (option GoError) :=
  let! err := MkdirAll logDir in
  match err with
  | Some err => ret (Some (errors_New ("failed to create log directory: " +:+ err_msg err)))
  | None =>
      let debugLogPath := filepath_Join [logDir; "byoh-agent-debug.log"] in
      let! err := call (ob_OpenLog debugLogPath) (λ r, [ObOpenLog debugLogPath r]) in
      match err with
      | Some err => ret (Some (errors_New ("failed to open debug log file: " +:+ err_msg err)))
      | None => modify_log (λ lg, mkLogState (consoleOutputEnabled lg) (consoleOutputLevel lg) true) ;;; ret None
      end
  end.

(** ** cmd/onboard.go *)

Definition isUbuntuSystem : OM bool :=
  if bool_decide (ob_GOOS ≠ "linux") then ret false
  else
    let! data := call (ctl_ReadFile "/etc/os-release") (λ _, []) in
    match data with
    | Err _ => ret false
    | Ok data => ret (Contains data "Ubuntu")
    end.

Definition LoadOnboardConfig (path : string) : OM (result OnboardConfig) :=
  let! data := call (ctl_ReadFile path) (λ _, []) in
  match data with
  | Err err => ret (Err err)
  | Ok data => ret (yaml_OnboardConfig data)
  end.

Definition set_password (p : string) (fl : OnboardFlags) : OnboardFlags :=
  mkOnboardFlags (fqdn fl) (username fl) p (passwordInteractive fl) (clientToken fl) (domain fl) (tenant fl)
    (verbosity fl) (regionName fl) (configFile fl).

(** The exit code of the command; [k] is the rest of it. *)
Definition exit1 : OM nat := ret 1.

(** Region label, package directory and the agent. *)
Definition install_agent (byohDir : string) : OM nat :=
  let! fl := get_flags in
  let regionLabel := PcdKaapiRegionKey +:+ "=" +:+ regionName fl in
  let! err := WriteFile (filepath_Join [byohDir; "region"]) regionLabel in
  match err with
  | Some _ => exit1
  | None =>
      let pkgDir := filepath_Join [byohDir; "packages"] in
      let! err := MkdirAll pkgDir in
      match err with
      | Some _ => exit1
      | None =>
          let! err := SetupAgent pkgDir in
          match err with
          | Some _ => exit1
          | None => ret 0
          end
      end
  end.

(** The region of the tenant, with the kubeconfig removed again when it is
    not available or cannot be checked. *)
Definition check_region (HomeDir : string) (c : K8sClient) (byohDir : string) : OM nat :=
  let! fl := get_flags in
  let! ' (available, regions, err) := CheckRegionAvailability HomeDir c (regionName fl) in
  match err with
  | Some _ => let! _ := DeleteSavedKubeconfig HomeDir in exit1
  | None =>
      if negb available then let! _ := DeleteSavedKubeconfig HomeDir in exit1
      else install_agent byohDir
  end.

(** From the token on. *)
Definition onboard_host (HomeDir : string) : OM nat :=
  let! fl := get_flags in
  let! token := GetToken (NewAuthClient (fqdn fl) (clientToken fl)) (username fl) (password fl) in
  match token with
  | Err _ => exit1
  | Ok token =>
      let k8sClient := NewK8sClient (fqdn fl) (domain fl) (tenant fl) token (regionName fl) in
      let! homeDir := call ob_UserHomeDir (λ _, []) in
      match homeDir with
      | Err _ => exit1
      | Ok homeDir =>
          let byohDir := filepath_Join [homeDir; ByohConfigDir] in
          let! err := PrepareAgentDirectory byohDir in
          match err with
          | Some _ => exit1
          | None =>
              let! err := SaveKubeConfig k8sClient "byoh-bootstrap-kc" in
              match err with
              | Some _ => exit1
              | None => check_region HomeDir k8sClient byohDir
              end
          end
      end
  end.

(** The service check and the loggers; the time stamps of messages, and the
    messages themselves, are left out. *)
Definition check_service (HomeDir : string) : OM nat :=
  let! ' (out, err) := RunWithStdout (Systemctl :: SystemctlServiceExists) in
  if match err with Some _ => false | None => Contains out ByohAgentServiceName end then exit1
  else
    let! homeDir := call ob_UserHomeDir (λ _, []) in
    match homeDir with
    | Err _ => exit1
    | Ok homeDir =>
        let! err := InitLoggers (filepath_Join [homeDir; ".byoh"]) in
        match err with
        | Some _ => exit1
        | None =>
            let! fl := get_flags in
            modify_log (λ lg, (SetConsoleOutputLevel "" (verbosity fl) lg).1) ;;;
            onboard_host HomeDir
        end
    end.

(** The interactive password. *)
Definition read_password : OM (option GoError) :=
  let! fl := get_flags in
  if passwordInteractive fl then
    let! pw := call term_ReadPassword (λ _, []) in
    match pw with
    | Err err => ret (Some err)
    | Ok pw =>
        if bool_decide (pw = "") then ret (Some (errors_New "Password cannot be empty"))
        else modify_flags (set_password pw) ;;; ret None
    end
  else ret None.

(** The configuration file fills in what the flags leave open. *)
Definition load_config : OM (option GoError) :=
  let! fl := get_flags in
  if bool_decide (configFile fl ≠ "") then
    let! cfg := LoadOnboardConfig (configFile fl) in
    match cfg with
    | Err err => ret (Some err)
    | Ok cfg => modify_flags (mergeConfigWithFlags cfg) ;;; ret None
    end
  else ret None.

Definition runOnboard (HomeDir : string) : OM nat :=
  let! err := load_config in
  match err with
  | Some _ => exit1
  | None =>
      let! fl := get_flags in
      if bool_decide (missing fl ≠ []) then exit1
      else
        let! ubuntu := isUbuntuSystem in
        if negb ubuntu then exit1
        else
          let! err := read_password in
          match err with
          | Some _ => exit1
          | None => check_service HomeDir
          end
  end.
End Onboard.

(** ** The protocol of an onboarding *)

Inductive ObStage :=
  | Checking                        (* nothing done yet *)
  | Starting                        (* no agent on this host *)
  | Authenticated
  | Fetched                         (* the bootstrap secret was served *)
  | Saved                           (* the kubeconfig is on the host *)
  | Available                       (* the tenant has the region *)
  | Labelled                        (* the region label is on the host *)
  | Installed
  | RolledBack
  | Stopped.

Definition is_install (argv : list string) : bool :=
  match argv with [_; a; _] => bool_decide (a = "-i") | _ => false end.
Definition is_200 (status : result Z) : bool :=
  match status with Ok n => bool_decide (n = StatusOK) | Err _ => false end.
Definition is_ok (err : option GoError) : bool := match err with None => true | Some _ => false end.

(** One effect of a run with these flags.  [None]: the protocol does not allow it. *)
Definition ob_next (HomeDir : string) (fl : OnboardFlags) (s : ObStage) (ev : ObEvent) : option ObStage :=
  match s, ev with
  | Checking, ObExec argv out err =>
      if bool_decide (argv = Systemctl :: SystemctlServiceExists)
      then Some (if is_ok err && Contains out ByohAgentServiceName then Stopped else Starting) else None
  | Starting, ObMkdirAll _ _ | Starting, ObOpenLog _ _ => Some Starting
  | Starting, ObHttp method url status =>
      if bool_decide (method = "POST") && bool_decide (url = "https://" +:+ fqdn fl +:+ "/dex/token")
      then Some (if is_200 status then Authenticated else Stopped) else None
  | Authenticated, ObMkdirAll _ _ => Some Authenticated
  | Authenticated, ObHttp method _ status =>
      if bool_decide (method = "GET")
      then Some (if is_200 status then Fetched else Stopped) else None
  | Fetched, ObMkdirAll _ _ => Some Fetched
  | Fetched, ObWriteFile _ _ err => Some (if is_ok err then Saved else Stopped)
  | Saved, ObGetConfigMap _ name data =>
      if bool_decide (name = "region-config")
      then Some (match data with
                 | Ok data => if region_listed data (regionName fl) then Available else Saved
                 | Err _ => Saved
                 end) else None
  | Saved, ObRemoveAll path _ => if bool_decide (path = ByohDir HomeDir) then Some RolledBack else None
  | Available, ObWriteFile _ content err =>
      if bool_decide (content = PcdKaapiRegionKey +:+ "=" +:+ regionName fl)
      then Some (if is_ok err then Labelled else Stopped) else None
  | Labelled, ObMkdirAll _ _ | Labelled, ObDownload _ _ _ => Some Labelled
  | Labelled, ObExec argv _ err =>
      Some (if is_install argv then (if is_ok err then Installed else Stopped) else Labelled)
  | _, _ => None
  end.

(** ** Runs follow the protocol *)
Section Follows.
  Context {E : Type} `{!CtlLibs E, !ObLibs E} (HomeDir : string) (st : OnboardState).

Abbreviation nx := (ob_next HomeDir (st_flags st)).

Lemma lfwp_get_flags s e l Q : Q s l (Val (st_flags l)) → lfwp nx s (get_flags (E:=E)) e l Q.
Proof. intros HQ. apply lfwp_bind, lfwp_get_local. intros e1. by apply lfwp_ret. Qed.

(** Steps that stay in a stage. *)
Definition stays {A} (s : ObStage) (m : M ObEvent E OnboardState A) : Prop :=
  ∀ e Q, (∀ a, Q s st (Val a)) → lfwp nx s m e st Q.

Lemma stays_ret {A} s (a : A) : stays s (ret a).
Proof. intros e Q HQ. by apply lfwp_ret. Qed.
Lemma stays_bind {A B} s (m : M ObEvent E OnboardState A) (f : A → M ObEvent E OnboardState B) :
  stays s m → (∀ a, stays s (f a)) → stays s (bind m f).
Proof. intros Hm Hf e Q HQ. apply lfwp_bind, Hm. intros a e1. by apply Hf. Qed.
Lemma stays_quiet {A} s (f : E → E * A) : stays s (call f (λ _, [])).
Proof. intros e Q HQ. by apply lfwp_quiet. Qed.
Lemma stays_event {A} s (f : E → E * A) ev : (∀ a, nx s (ev a) = Some s) → stays s (call f (λ a, [ev a])).
Proof. intros Hn e Q HQ. apply lfwp_event. intros a. by exists s. Qed.

Lemma stays_exec argv : is_install argv = false → stays Labelled (exec_combined argv).
Proof. intros Hi. apply stays_event. intros [out err]. cbn. by rewrite Hi. Qed.
Lemma stays_output argv : is_install argv = false → stays Labelled (RunWithStdout argv).
Proof. intros Hi. apply stays_event. intros [out err]. cbn. by rewrite Hi. Qed.

Lemma stays_install_package pkg : is_install (InstallCommand pkg) = false → stays Labelled (install_package pkg).
Proof.
  intros Hi. unfold install_package, install_imgpkg, isPackageInstalled. destruct (CustomInstaller pkg).
  - apply stays_bind; [apply stays_quiet|]. intros [p|err]; [apply stays_ret|].
    apply stays_bind; [|intros []; apply stays_ret].
    apply stays_bind; [apply stays_quiet|]. intros [e1|]; [apply stays_ret|].
    apply stays_bind; [apply stays_quiet|]. intros [e2|]; [apply stays_ret|].
    apply stays_bind; [by apply stays_event|]. intros [e3|]; [apply stays_ret|].
    apply stays_bind; [apply stays_quiet|]. intros []; apply stays_ret.
  - apply stays_bind; [apply stays_bind; [by apply stays_exec|intros [out []]; apply stays_ret]|].
    intros []; [apply stays_ret|]. apply stays_bind; [by apply stays_exec|]. intros [out []]; apply stays_ret.
Qed.
Lemma stays_install_packages pkgs :
  Forall (λ p, is_install (InstallCommand p) = false) pkgs → stays Labelled (install_packages pkgs).
Proof.
  induction 1 as [|p pkgs Hp _ IH]; cbn [install_packages]; [apply stays_ret|].
  apply stays_bind; [by apply stays_install_package|]. intros []; [apply stays_ret|apply IH].
Qed.
Lemma stays_ensure : stays Labelled ensureRequiredPackages.
Proof.
  unfold ensureRequiredPackages, isAptUnlocked. apply stays_bind.
  { apply stays_bind; [by apply stays_output|]. intros [out []]; apply stays_ret. }
  intros [[] err]; cbn [negb]; [|apply stays_ret].
  apply stays_bind; [by apply stays_output|]. intros [out []]; [apply stays_ret|].
  apply stays_bind; [by apply stays_exec|]. intros [out' []]; [apply stays_ret|].
  apply stays_install_packages. by repeat constructor.
Qed.
Lemma stays_download dir : stays Labelled (downloadDebianPackage dir).
Proof.
  unfold downloadDebianPackage. apply stays_bind; [apply stays_quiet|]. intros p.
  apply stays_bind; [by apply stays_exec|]. intros [out []]; [apply stays_ret|].
  apply stays_bind; [apply stays_quiet|]. intros []; apply stays_ret.
Qed.

(** How a run ends: success is an installed agent; after a failure the
    kubeconfig is not left behind without its region being available. *)
Definition ob_result (s : ObStage) (l : OnboardState) (o : Outcome nat) : Prop :=
  st_flags l = st_flags st ∧ (o = Val 0 ∧ s = Installed ∨ o = Val 1 ∧ s ≠ Installed ∧ s ≠ Saved).

Lemma exit1_follows s e : s ≠ Installed → s ≠ Saved → lfwp nx s (exit1 (E:=E)) e st ob_result.
Proof. intros ??. apply lfwp_ret. split; [done|]. by right. Qed.
#[local] Hint Extern 1 (lfwp _ _ exit1 _ _ _) => (apply exit1_follows; discriminate) : core.

Lemma install_agent_follows byohDir e : lfwp nx Available (install_agent byohDir) e st ob_result.
Proof.
  unfold install_agent. apply lfwp_bind, lfwp_get_flags. intros e1. cbn zeta.
  apply lfwp_bind, lfwp_event. intros err. cbn [ob_next]. rewrite bool_decide_eq_true_2 by done.
  eexists. split; [reflexivity|]. intros e2. destruct err; cbn [is_ok]; [auto|].
  apply lfwp_bind. apply stays_event; [done|]. intros [err|] e3; [auto|].
  apply lfwp_bind. unfold SetupAgent. apply lfwp_bind, stays_ensure. intros [err|] e4; [apply lfwp_ret; auto|].
  apply lfwp_bind, stays_download. intros [p|err] e5; [|apply lfwp_ret; auto].
  apply lfwp_bind. unfold installDebianPackage. apply lfwp_bind, lfwp_quiet. intros dpkg e6.
  apply lfwp_bind, lfwp_event. intros [out err]. cbn [ob_next is_install]. rewrite bool_decide_eq_true_2 by done.
  eexists. split; [reflexivity|]. intros e7. cbn [snd]. destruct err; cbn [is_ok]; apply lfwp_ret; intros e8.
  - apply lfwp_ret. auto.
  - apply lfwp_ret. intros e9. apply lfwp_ret. split; [done|]. by left.
Qed.

Lemma rollback_follows e :
  lfwp nx Saved (let! _ := DeleteSavedKubeconfig (E:=E) HomeDir in exit1) e st ob_result.
Proof.
  apply lfwp_bind. unfold DeleteSavedKubeconfig. apply lfwp_bind, lfwp_event. intros err. cbn [ob_next].
  rewrite bool_decide_eq_true_2 by done. eexists. split; [reflexivity|]. intros e1. destruct err; apply lfwp_ret; auto.
Qed.

Lemma check_region_follows c byohDir e : lfwp nx Saved (check_region HomeDir c byohDir) e st ob_result.
Proof.
  unfold check_region. apply lfwp_bind, lfwp_get_flags. intros e1. apply lfwp_bind.
  unfold CheckRegionAvailability, GetK8sClient.
  apply lfwp_bind, lfwp_bind, lfwp_quiet. intros [err1|] e2; [apply lfwp_ret; intros e3; apply lfwp_ret; intros e4; apply rollback_follows|].
  apply lfwp_bind, lfwp_quiet. intros [err2|] e3; [apply lfwp_ret; intros e4; apply lfwp_ret; intros e5; apply rollback_follows|].
  apply lfwp_bind, lfwp_quiet. intros [err3|] e4; [apply lfwp_ret; intros e5; apply lfwp_ret; intros e6; apply rollback_follows|].
  apply lfwp_ret. intros e5. apply lfwp_bind, lfwp_event. intros cm. cbn [ob_next]. rewrite bool_decide_eq_true_2 by done.
  eexists. split; [reflexivity|]. intros e6. destruct cm as [data|err4].
  2:{ apply lfwp_ret. intros e7. apply rollback_follows. }
  destruct (data !! "regions") as [rs|] eqn:Hrs.
  - destruct (region_listed data (regionName (st_flags st))); apply lfwp_ret; intros e7.
    + apply install_agent_follows.
    + apply rollback_follows.
  - unfold region_listed. rewrite Hrs. apply lfwp_ret. intros e7. apply rollback_follows.
Qed.

Lemma save_follows c name e Q :
  (∀ s err, s ≠ Saved → s ≠ Installed → Q s st (Val (Some err))) → Q Saved st (Val None) →
  lfwp nx Authenticated (SaveKubeConfig c name) e st Q.
Proof.
  intros Herr Hok. unfold SaveKubeConfig, GetSecret. apply lfwp_bind.
  destruct (http_NewRequest "GET" _) as [err|]; [apply lfwp_ret; intros e1; apply lfwp_ret; by apply Herr|].
  apply lfwp_bind, lfwp_event. intros resp. cbn [ob_next]. rewrite bool_decide_eq_true_2 by done.
  eexists. split; [reflexivity|]. intros e1. set (s1 := if is_200 _ then Fetched else Stopped).
  assert (∀ err, Q s1 st (Val (Some err))) as Herr1 by (intros err; subst s1; apply Herr; by destruct (is_200 _)).
  destruct resp as [[status [body|err]]|err]; [|apply lfwp_ret; intros e2; by apply lfwp_ret|apply lfwp_ret; intros e2; by apply lfwp_ret].
  case_bool_decide as Hst; [apply lfwp_ret; intros e2; by apply lfwp_ret|].
  destruct (json_Secret body) as [secret|err]; apply lfwp_ret; intros e2; [|by apply lfwp_ret].
  destruct (secret !! "config") as [ks|]; [|by apply lfwp_ret].
  destruct (Base64.DecodeString ks) as [kc|err]; [|by apply lfwp_ret].
  apply lfwp_bind, lfwp_quiet. intros [home|err] e3; [|by apply lfwp_ret].
  assert (s1 = Fetched) as Hs1.
  { subst s1. cbn. destruct (decide (status = StatusOK)); [by rewrite bool_decide_eq_true_2|done]. }
  rewrite Hs1. apply lfwp_bind. apply stays_event; [done|]. intros [err|] e4; [apply lfwp_ret; by apply Herr|].
  apply lfwp_bind, lfwp_event. intros err. eexists. split; [reflexivity|]. intros e5.
  destruct err; apply lfwp_ret; [by apply Herr|done].
Qed.

Lemma onboard_host_follows e : lfwp nx Starting (onboard_host HomeDir) e st ob_result.
Proof.
  unfold onboard_host, GetToken. apply lfwp_bind, lfwp_get_flags. intros e1. apply lfwp_bind.
  destruct (http_NewRequest "POST" _) as [err|]; [apply lfwp_ret; auto|].
  apply lfwp_bind, lfwp_event. intros resp. cbn [ob_next]. rewrite !bool_decide_eq_true_2 by done.
  eexists. split; [reflexivity|]. intros e2. set (s1 := if is_200 _ then Authenticated else Stopped).
  assert (∀ e, lfwp nx s1 (exit1 (E:=E)) e st ob_result) as Hex by (intros e'; subst s1; apply exit1_follows; by destruct (is_200 _)).
  destruct resp as [[status [body|err]]|err]; [|apply lfwp_ret; auto|apply lfwp_ret; auto].
  case_bool_decide as Hst; [apply lfwp_ret; auto|].
  destruct (json_TokenResponse body) as [token|err]; apply lfwp_ret; intros e3; [|auto].
  assert (s1 = Authenticated) as Hs1.
  { subst s1. cbn. destruct (decide (status = StatusOK)); [by rewrite bool_decide_eq_true_2|done]. }
  rewrite Hs1. apply lfwp_bind, lfwp_quiet. intros [home|err] e4; [|auto].
  apply lfwp_bind. unfold PrepareAgentDirectory. apply lfwp_bind. apply stays_event; [done|].
  intros [err|] e5; apply lfwp_ret; intros e6; [auto|].
  apply lfwp_bind, save_follows; [intros s err ?? e7; by apply exit1_follows|]. intros e7. apply check_region_follows.
Qed.

End Follows.

Lemma check_service_follows {E : Type} `{!CtlLibs E, !ObLibs E} HomeDir st (e : E) :
  lfwp (ob_next HomeDir (st_flags st)) Checking (check_service HomeDir) e st (ob_result st).
Proof.
  assert (∀ s st' (e : E), s ≠ Installed → s ≠ Saved → st_flags st' = st_flags st →
    lfwp (ob_next HomeDir (st_flags st)) s (exit1 (E:=E)) e st' (ob_result st)) as Hex.
  { intros s st' e' ?? Hst. apply lfwp_ret. split; [done|]. by right. }
  unfold check_service, InitLoggers. apply lfwp_bind, lfwp_event. intros [out err]. cbn [ob_next].
  rewrite bool_decide_eq_true_2 by done. eexists. split; [reflexivity|]. intros e1. cbn [fst snd].
  assert (match err with Some _ => false | None => Contains out ByohAgentServiceName end =
          is_ok err && Contains out ByohAgentServiceName) as -> by by destruct err.
  destruct (is_ok err && _); [by apply Hex|].
  apply lfwp_bind, lfwp_quiet. intros [home|err'] e2; [|by apply Hex]. apply lfwp_bind.
  apply lfwp_bind. apply stays_event; [done|]. intros [err'|] e3; [apply lfwp_ret; intros e4; by apply Hex|].
  apply lfwp_bind. apply stays_event; [done|]. intros [err'|] e4; [apply lfwp_ret; intros e5; by apply Hex|].
  apply lfwp_bind, lfwp_modify. intros e5. apply lfwp_ret. intros e6. apply lfwp_bind, lfwp_get_flags.
  intros e7. apply lfwp_bind, lfwp_modify. intros e8. apply (onboard_host_follows HomeDir (mkOnboardState (st_flags st) _)).
Qed.

(** The part before the first effect. *)
Section Before.
  Context {E : Type} `{!CtlLibs E, !ObLibs E}.

Lemma load_config_quiet e l : wp (load_config (E:=E)) e l (λ _ _ t o, t = [] ∧ ∃ err, o = Val err).
Proof.
  unfold load_config, LoadOnboardConfig, get_flags. apply wp_bind, wp_bind, wp_get_local, wp_ret. case_bool_decide; [|wp_run; eauto].
  apply wp_bind, wp_bind, wp_call. intros e1 [d|err] _; [|wp_run; eauto].
  apply wp_ret. destruct (yaml_OnboardConfig d); wp_run; eauto.
Qed.
Lemma isUbuntu_quiet e l : wp (isUbuntuSystem (E:=E)) e l (λ _ l' t o, l' = l ∧ t = [] ∧ ∃ b, o = Val b).
Proof. unfold isUbuntuSystem. case_bool_decide; wp_run; eauto. Qed.
Lemma read_password_quiet e l : wp (read_password (E:=E)) e l (λ _ _ t o, t = [] ∧ ∃ err, o = Val err).
Proof.
  unfold read_password, get_flags. apply wp_bind, wp_bind, wp_get_local, wp_ret. destruct (passwordInteractive (st_flags l)); [|wp_run; eauto].
  apply wp_bind, wp_call. intros e1 [pw|err] _; [|wp_run; eauto]. case_bool_decide; wp_run; eauto.
Qed.
End Before.

(** ** Theorems *)

Lemma runOnboard_follows {E : Type} `{!CtlLibs E, !ObLibs E} (HomeDir : string) (e : E) (st0 : OnboardState) :
  wp (runOnboard HomeDir) e st0 (λ _ st t o,
    ∃ s, follow (ob_next HomeDir (st_flags st)) Checking t = Some s ∧
      (o = Val 0 ∧ s = Installed ∨ o = Val 1 ∧ s ≠ Installed ∧ s ≠ Saved)).
Proof.
  unfold runOnboard. apply wp_bind. eapply wp_mono; [apply load_config_quiet|]. cbn beta.
  intros e1 fl1 t1 o1 (-> & err & ->). destruct err; [apply wp_ret; exists Checking; auto|].
  unfold get_flags. apply wp_bind, wp_bind, wp_get_local, wp_ret. case_bool_decide; [apply wp_ret; exists Checking; auto|].
  apply wp_bind. eapply wp_mono; [apply isUbuntu_quiet|]. cbn beta. intros e2 fl2 t2 o2 (-> & -> & b & ->).
  destruct b; cbn [negb]; [|apply wp_ret; exists Checking; auto].
  apply wp_bind. eapply wp_mono; [apply read_password_quiet|]. cbn beta.
  intros e3 fl3 t3 o3 (-> & err & ->). destruct err; [apply wp_ret; exists Checking; auto|].
  eapply wp_mono; [apply (check_service_follows HomeDir fl3)|]. cbn beta.
  intros e4 st4 t4 o4 (s & Hs & Hfl & Ho). rewrite Hfl. exists s. by split.
Qed.

(** C31. Every run of [runOnboard], whatever the host
    and the servers answer, never panics and is a run of the protocol: on a
    host with the agent's service it does nothing; the kubeconfig is stored
    only after the token and the secret were served with status 200; the
    agent is installed only with the kubeconfig stored, the region found in
    the tenant's list and its label written; and a run that cannot confirm
    the region removes the stored kubeconfig before it fails.  The exit code
    is 0 exactly when the package was installed. *)
Theorem onboarding_protocol {E : Type} `{!CtlLibs E, !ObLibs E} (HomeDir : string) (e : E) (st0 : OnboardState) :
  wp (runOnboard HomeDir) e st0 (λ _ st t o,
    ∃ s, follow (ob_next HomeDir (st_flags st)) Checking t = Some s ∧
      (o = Val 0 ∧ s = Installed ∨ o = Val 1 ∧ s ≠ Installed ∧ s ≠ Saved)).
Proof. apply runOnboard_follows. Qed.

(** A flag that was given with its default value loses against the file. *)
Theorem explicit_default_loses (cfg : OnboardConfig) (fl : OnboardFlags) :
  domain fl = domain default_flags → cfg_Domain cfg ≠ "" →
  domain (mergeConfigWithFlags cfg fl) = cfg_Domain cfg.
Proof. intros Hd Hc. cbn. unfold if_default. rewrite Hd, !bool_decide_eq_true_2 by done. done. Qed.
