(* ===== verification/Byohctl.v ===== *)
(** * The byohctl process (cmd/byohctl/main.go, cmd/byohctl/cmd)

    The commands with their flags as the [init] functions declare them, the
    pre-run of the root command, and the process from the command line to its
    exit code.  cobra and pflag are a parameter: which command a command line
    names and which flags it gives, and whether they may be given together. *)

From stdpp Require Import pretty.
From S2P Require Import Prelude Protocol GoStrings Encoding Api Platform HostOps Logger Onboard.

(** ** Flags *)

(** The package variables of cmd. *)
Inductive FlagVar :=
  | FqdnVar | UsernameVar | PasswordVar | PasswordInteractiveVar | ClientTokenVar | DomainVar | TenantVar
  | VerbosityVar | RegionNameVar | ConfigFileVar.

Inductive FlagValue := FString (s : string) | FBool (b : bool).

(** [StringVarP(p, name, shorthand, value, _)], [BoolVar(p, name, value, _)] *)
Record FlagDecl := mkFlag { fd_var : FlagVar; fd_name : string; fd_short : string; fd_value : FlagValue }.

Definition assign (v : FlagVar) (x : FlagValue) (fl : OnboardFlags) : OnboardFlags :=
  match fl with
  | mkOnboardFlags u e p pi c d t vb r f =>
      match v, x with
      | FqdnVar, FString s => mkOnboardFlags s e p pi c d t vb r f
      | UsernameVar, FString s => mkOnboardFlags u s p pi c d t vb r f
      | PasswordVar, FString s => mkOnboardFlags u e s pi c d t vb r f
      | PasswordInteractiveVar, FBool b => mkOnboardFlags u e p b c d t vb r f
      | ClientTokenVar, FString s => mkOnboardFlags u e p pi s d t vb r f
      | DomainVar, FString s => mkOnboardFlags u e p pi c s t vb r f
      | TenantVar, FString s => mkOnboardFlags u e p pi c d s vb r f
      | VerbosityVar, FString s => mkOnboardFlags u e p pi c d t s r f
      | RegionNameVar, FString s => mkOnboardFlags u e p pi c d t vb s f
      | ConfigFileVar, FString s => mkOnboardFlags u e p pi c d t vb r s
      | _, _ => fl
      end
  end.

(** cmd/onboard.go *)
Definition AddOnboardFlags : list FlagDecl * list (list string) :=
  ([mkFlag FqdnVar "url" "u" (FString "");
    mkFlag UsernameVar "username" "e" (FString "");
    mkFlag PasswordVar "password" "p" (FString "");
    mkFlag PasswordInteractiveVar "password-interactive" "" (FBool false);
    mkFlag ClientTokenVar "client-token" "c" (FString "");
    mkFlag DomainVar "domain" "d" (FString "default");
    mkFlag TenantVar "tenant" "t" (FString "service");
    mkFlag VerbosityVar "verbosity" "v" (FString "minimal");
    mkFlag RegionNameVar "region" "r" (FString "");
    mkFlag ConfigFileVar "config" "f" (FString "")],
   [["password"; "password-interactive"]]).

Definition verbosity_flag : FlagDecl := mkFlag VerbosityVar "verbosity" "v" (FString "minimal").

(** ** Commands *)

Inductive RunFn := RunOnboard | RunDecommission | RunDeauthorise | RunVersion.

Record Command := mkCommand {
  cmd_Use : string; cmd_Run : RunFn; cmd_Flags : list FlagDecl; cmd_Exclusive : list (list string) }.

Definition deauthoriseCmd : Command := mkCommand "deauthorise" RunDeauthorise [verbosity_flag] [].
Definition decommissionCmd : Command := mkCommand "decommission" RunDecommission [verbosity_flag] [].
Definition onboardCmd : Command := mkCommand "onboard" RunOnboard AddOnboardFlags.1 AddOnboardFlags.2.
Definition versionCmd : Command := mkCommand "version" RunVersion [] [].

(** The [init] functions, in the order of the files: a command joins the root
    command, and declaring a flag sets its variable. *)
Record Cli := mkCli { cli_commands : list Command; cli_vars : OnboardFlags }.

Definition AddCommand (c : Command) (cli : Cli) : Cli :=
  mkCli (cli_commands cli ++ [c])
    (foldl (λ fl d, assign (fd_var d) (fd_value d) fl) (cli_vars cli) (cmd_Flags c)).

Definition zero_flags : OnboardFlags := mkOnboardFlags "" "" "" false "" "" "" "" "" "".

Definition deauthorise_init : Cli → Cli := AddCommand deauthoriseCmd.
Definition decommission_init : Cli → Cli := AddCommand decommissionCmd.
Definition onboard_init : Cli → Cli := AddCommand onboardCmd.
Definition version_init : Cli → Cli := AddCommand versionCmd.

Definition rootCmd : Cli :=
  foldl (λ cli init, init cli) (mkCli [] zero_flags) [deauthorise_init; decommission_init; onboard_init; version_init].

(** ** cobra *)

(** What a command line asks for: help, or a command with the flags it gives. *)
Inductive Invocation := Help | Invoke (name : string) (given : list (string * FlagValue)).

Class Cobra := {
  cobra_Parse : list Command → list string → result Invocation;
  cobra_ValidateFlagGroups : Command → list (string * FlagValue) → option GoError }.

Definition find_command (name : string) (cs : list Command) : option Command :=
  List.find (λ c, bool_decide (cmd_Use c = name)) cs.
Definition find_flag (name : string) (c : Command) : option FlagDecl :=
  List.find (λ d, bool_decide (fd_name d = name)) (cmd_Flags c).

Definition set_given (c : Command) (given : list (string * FlagValue)) (fl : OnboardFlags) : OnboardFlags :=
  foldl (λ fl nx, match find_flag nx.1 c with Some d => assign (fd_var d) nx.2 fl | None => fl end) fl given.

(** ** The process *)

Inductive CliEvent :=
  | EvOb (ev : ObEvent) | EvCtl (ev : CtlEvent) | EvLog (s : Sink) | EvPrint (line : string).

(** A computation with its effects as effects of the process. *)
Definition relabel {Ev Ev' E L A} (f : Ev → Ev') (m : M Ev E L A) : M Ev' E L A := λ e l,
  match m e l with mkRes e1 l1 t o => mkRes e1 l1 (f <$> t) o end.

Lemma wp_relabel {Ev Ev' E L A} (f : Ev → Ev') (m : M Ev E L A) e l Q :
  wp m e l (λ e' l' t o, Q e' l' (f <$> t) o) → wp (relabel f m) e l Q.
Proof. unfold wp, relabel. by destruct (m e l). Qed.

Section Process.
  Context {E : Type} `{!CtlLibs E, !ObLibs E, !Cobra} (HomeDir stamp : string).

Abbreviation CM := (M CliEvent E OnboardState).

Definition log (f : string → string → LogState → list Sink) (message : string) : CM unit :=
  let! st := get_local in
  call (λ e, (e, tt)) (λ _, EvLog <$> f stamp message (st_log st)).

(** [PersistentPreRunE] of the root command *)
Definition PersistentPreRunE : CM (option GoError) :=
  let! err := relabel EvOb (InitLoggers (ByohDir HomeDir)) in
  match err with
  | Some err => ret (Some (errors_New ("failed to initialize loggers: " +:+ err_msg err)))
  | None => ret None
  end.

(** [utils.SetConsoleOutputLevel(verbosity)] of the two host commands *)
Definition set_verbosity : CM unit :=
  modify (λ st, mkOnboardState (st_flags st) (SetConsoleOutputLevel stamp (verbosity (st_flags st)) (st_log st)).1).

(** The [Run] function of a command; the exit code, or [None] for a wait that
    is not over after [fuel] polls. *)
Definition run_command (fuel : nat) (r : RunFn) : CM (option nat) :=
  match r with
  | RunOnboard => let! code := relabel EvOb (runOnboard HomeDir) in ret (Some code)
  | RunDecommission => set_verbosity ;;; relabel EvCtl (runDecommission fuel HomeDir)
  | RunDeauthorise => set_verbosity ;;; relabel EvCtl (runDeauthorise fuel HomeDir)
  | RunVersion => emit (EvPrint GetVersion) ;;; ret (Some 0)
  end.

(** [rootCmd.Execute()]: cobra finds the command, sets its flags, runs the
    pre-run of the root, validates the groups of flags and runs the command. *)
Definition cli_Execute (fuel : nat) (args : list string) : CM (result (option nat)) :=
  match cobra_Parse (cli_commands rootCmd) args with
  | Err err => ret (Err err)
  | Ok Help => ret (Ok (Some 0))
  | Ok (Invoke name given) =>
      match find_command name (cli_commands rootCmd) with
      | None => ret (Err (errors_New ("unknown command " +:+ name)))
      | Some c =>
          modify (λ st, mkOnboardState (set_given c given (st_flags st)) (st_log st)) ;;;
          let! err := PersistentPreRunE in
          match err with
          | Some err => ret (Err err)
          | None =>
              match cobra_ValidateFlagGroups c given with
              | Some err => ret (Err err)
              | None => let! code := run_command fuel (cmd_Run c) in ret (Ok code)
              end
          end
      end
  end.

(** main.go *)
Definition main (fuel : nat) (args : list string) : CM (option nat) :=
  let! r := cli_Execute fuel args in
  match r with
  | Err err => log LogError ("Command execution failed: " +:+ err_msg err) ;;; ret (Some 1)
  | Ok code => ret code
  end.

(** The process starts with the declared defaults and a logger without file. *)
Definition start_state : OnboardState :=
  mkOnboardState (cli_vars rootCmd) (mkLogState true ConsoleOutputMinimal false).
End Process.

(** The defaults the commands declare together: the shared verbosity variable
    gets the same one from each of them. *)
Lemma rootCmd_defaults : cli_vars rootCmd = default_flags.
Proof. reflexivity. Qed.

(** ** What a process does *)

(** Effects of the log set-up in the directory of the tool. *)
Definition is_setup (HomeDir : string) (ev : CliEvent) : bool :=
  match ev with
  | EvOb (ObMkdirAll path _) => bool_decide (path = ByohDir HomeDir)
  | EvOb (ObOpenLog path _) => bool_decide (path = filepath_Join [ByohDir HomeDir; "byoh-agent-debug.log"])
  | EvLog _ => true
  | _ => false
  end.

Definition op_of (r : RunFn) : option HostOperationType :=
  match r with
  | RunDecommission => Some OperationDecommission
  | RunDeauthorise => Some OperationDeauthorise
  | _ => None
  end.

(** The effects of a command and how it ends, by the protocol of the command. *)
Definition run_of {E} `{!ObLibs E} (HomeDir : string) (r : RunFn) (t : list CliEvent)
    (o : Outcome (option nat)) : Prop :=
  match r with
  | RunOnboard => ∃ t' fl s, t = EvOb <$> t' ∧ follow (ob_next HomeDir fl) Checking t' = Some s ∧
      (o = Val (Some 0) ∧ s = Installed ∨ o = Val (Some 1) ∧ s ≠ Installed ∧ s ≠ Saved)
  | RunVersion => t = [EvPrint (GetVersion (E:=E))] ∧ o = Val (Some 0)
  | RunDecommission | RunDeauthorise => ∃ op t' s, op_of r = Some op ∧ t = EvCtl <$> t' ∧
      follow (next op) Unread t' = Some s ∧ (o = Val (Some 0) → op_result op s (Val (Done None)))
  end.

Section Runs.
  Context {E : Type} `{!CtlLibs E, !ObLibs E, !Cobra} (HomeDir stamp : string).

Lemma InitLoggers_setup e l :
  wp (relabel EvOb (InitLoggers (E:=E) (ByohDir HomeDir))) e l (λ _ l' t o,
    Forall (λ ev, is_setup HomeDir ev = true) t ∧ st_flags l' = st_flags l ∧ ∃ err, o = Val err).
Proof.
  apply wp_relabel. unfold InitLoggers, MkdirAll, modify_log. wp_run; cbn;
    (split; [repeat constructor; by apply bool_decide_eq_true_2|split; [done|by eexists]]).
Qed.

Lemma runHostCommand_follows fuel op e (l : OnboardState) :
  fwp (next op) Unread (runHostCommand (E:=E) fuel HomeDir op) e l (λ s o,
    o = Val (Some 0) → op_result op s (Val (Done None))).
Proof.
  unfold runHostCommand, GetNamespaceFromConfig. apply fwp_bind, fwp_bind, fwp_quiet.
  intros [data|err] e1 l1; [|by apply fwp_ret; intros ??; apply fwp_ret].
  destruct (ctl_yaml_Config data) as [[cur ctxs]|err]; [|by apply fwp_ret; intros ??; apply fwp_ret].
  destruct (list_find _ ctxs) as [[i c]|]; [|by apply fwp_ret; intros ??; apply fwp_ret].
  apply fwp_ret. intros e2 l2. apply fwp_bind. eapply fwp_mono; [apply operation_follows|].
  intros s [[[err|]|]|] Hr; [..|done]; intros e3 l3; by apply fwp_ret.
Qed.

Lemma run_command_runs fuel r e l :
  wp (run_command HomeDir stamp fuel r) e l (λ _ _ t o, run_of (E:=E) HomeDir r t o).
Proof.
  assert (∀ op r, op_of r = Some op →
    wp (set_verbosity (E:=E) stamp ;;; relabel EvCtl (runHostCommand fuel HomeDir op)) e l
      (λ _ _ t o, run_of (E:=E) HomeDir r t o)) as Hhost.
  { intros op r' Hop. apply wp_bind, wp_modify, wp_relabel.
    eapply wp_mono; [apply runHostCommand_follows|]. cbn beta. intros e1 l1 t o (s & Hs & Ho).
    destruct r'; try done; cbn [run_of]; exists op, t, s; done. }
  destruct r; cbn [run_command]; [|by apply Hhost..|].
  - apply wp_bind, wp_relabel. eapply wp_mono; [apply runOnboard_follows|]. cbn beta.
    intros e1 l1 t o (s & Hs & Ho). destruct o as [code|]; [|naive_solver]. apply wp_ret.
    exists t, (st_flags l1), s. rewrite app_nil_r. split_and!; [done..|]. naive_solver.
  - apply wp_bind, wp_emit, wp_ret. done.
Qed.

(** What a command line does, whatever cobra makes of it. *)
Definition process_result (args : list string) (t : list CliEvent) (o : Outcome (option nat)) : Prop :=
  match cobra_Parse (cli_commands rootCmd) args with
  | Ok Help => t = [] ∧ o = Val (Some 0)
  | r =>
      (* an error: at most the log is set up, and the process fails *)
      Forall (λ ev, is_setup HomeDir ev = true) t ∧ o = Val (Some 1) ∨
      (* one command, after the log was set up *)
      ∃ name given c pre run, r = Ok (Invoke name given) ∧ find_command name (cli_commands rootCmd) = Some c ∧
        cobra_ValidateFlagGroups c given = None ∧
        t = pre ++ run ∧ Forall (λ ev, is_setup HomeDir ev = true) pre ∧
        run_of (E:=E) HomeDir (cmd_Run c) run o
  end.

Lemma wp_log f m e l (Q : E → OnboardState → list CliEvent → Outcome unit → Prop) :
  Q e l (EvLog <$> f stamp m (st_log l)) (Val tt) → wp (log stamp f m) e l Q.
Proof. intros HQ. apply wp_bind, wp_get_local, wp_call. intros e1 [] [= <-]. by rewrite app_nil_l. Qed.

Lemma log_setup sinks : Forall (λ ev, is_setup HomeDir ev = true) (EvLog <$> sinks).
Proof. apply Forall_fmap, Forall_true. done. Qed.

Abbreviation only_setup t := (Forall (λ ev, is_setup HomeDir ev = true) t).

Lemma PersistentPreRunE_setup e l :
  wp (PersistentPreRunE HomeDir) e l (λ (_ : E) _ t o, only_setup t ∧ ∃ err, o = Val err).
Proof.
  apply wp_bind. eapply wp_mono; [apply InitLoggers_setup|]. cbn beta.
  intros e1 l1 t o (Ht & _ & err & ->). destruct err; apply wp_ret; rewrite app_nil_r; eauto.
Qed.

(** After an error: the message, and exit code 1. *)
Definition report (r : result (option nat)) : M CliEvent E OnboardState (option nat) :=
  match r with
  | Err err => log stamp LogError ("Command execution failed: " +:+ err_msg err) ;;; ret (Some 1)
  | Ok code => ret code
  end.

Lemma wp_report_err err pre e l (Q : E → OnboardState → list CliEvent → Outcome (option nat) → Prop) :
  only_setup pre → (∀ e' l' t o, only_setup (pre ++ t) ∧ o = Val (Some 1) → Q e' l' t o) →
  wp (report (Err err)) e l Q.
Proof.
  intros Hpre HQ. apply wp_bind, wp_log, wp_ret. rewrite app_nil_r. apply HQ. split; [|done].
  apply Forall_app. split; [done|apply log_setup].
Qed.

(** A process does nothing but set up its log, log an error and fail, unless
    its command line names a command whose flags may be given together; then
    it runs this command, after the set-up, by the protocol of the command. *)
Theorem byohctl_process (fuel : nat) (args : list string) (e : E) :
  wp (main HomeDir stamp fuel args) e start_state (λ _ _ t o, process_result args t o).
Proof.
  unfold main, cli_Execute, process_result. fold report. apply wp_bind.
  destruct (cobra_Parse _ args) as [[|name given]|err].
  - by apply wp_ret, wp_ret.
  - destruct (find_command name _) as [c|] eqn:Hfind.
    2: { apply wp_ret, (wp_report_err _ []); [done|by left]. }
    apply wp_bind, wp_modify, wp_bind. eapply wp_mono; [apply PersistentPreRunE_setup|]. cbn beta.
    intros e1 l1 pre o (Hpre & [err|] & ->).
    { apply wp_ret, (wp_report_err _ pre); [done|]. intros. rewrite app_nil_l, app_nil_r. by left. }
    destruct (cobra_ValidateFlagGroups c given) as [err|] eqn:Hgroups.
    { apply wp_ret, (wp_report_err _ pre); [done|]. intros. rewrite app_nil_l, app_nil_r. by left. }
    apply wp_bind. eapply wp_mono; [apply run_command_runs|]. cbn beta.
    intros e2 l2 run [code|] Hrun; [apply wp_ret, wp_ret|]; right; exists name, given, c, pre, run;
      rewrite ?app_nil_r, ?app_nil_l; done.
  - apply wp_ret, (wp_report_err _ []); [done|by left].
Qed.
End Runs.
