(* ===== verification/Lifecycle.v ===== *)
(** * The life of a host: the agent and the manager together

    The object of one host in the API server, under every interleaving of the
    three controllers that write it (the agent on the host, the ByoMachine
    controller and the ByoHost controller) and of restarts of the agent.  A step is an accepted patch in a
    run of one of them, in any world, from the object as it is stored.  (Patches
    computed from an older version of the object are in Interference.v.)

    The local transformations the code can make are the constructors of
    [host_step]; the runs are shown to make only those.  On the reachable
    objects the fields of a claim stand and fall together, and the phases of
    a host (free, claimed, being cleaned) follow the cycle of [phase_step]. *)

From S2P Require Import Prelude GoStrings Encoding Api SafeLabel Platform CloudInit HostAgent ByoMachine ByoHostCtrl Registration.

(** ** Transformations of the host object *)

(** The label value a machine is known by. *)
Definition machine_label (bm : ByoMachine) : string := generateSafeLabelValue (bm_Namespace bm) (bm_Name bm).

Definition attached_to (v : string) (h : ByoHost) : Prop :=
  host_Labels h !! AttachedByoMachineLabel = Some v.

(** Changes of annotations a claim does not depend on. *)
Definition same_claim_annotations (a a' : gmap string string) : Prop :=
  a' !! HostCleanupAnnotation = a !! HostCleanupAnnotation ∧
  a' !! EndPointIPAnnotation = a !! EndPointIPAnnotation.

Section Steps.
  Context `{!ConditionsUtil}.

Inductive host_step : ByoHost → ByoHost → Prop :=
  (* attachByoHost *)
  | hs_claim s ds v h :
      host_Labels h !! ClusterNameLabel = None →
      host_step h (claim_host s ds v h)
  (* setInstallationSecretForByoHost, setUninstallationSecretForByoHost *)
  | hs_install_secret v ref h : attached_to v h → host_step h (host_set_InstallationSecret (Some ref) h)
  | hs_uninstall_secret v ref h : attached_to v h → host_step h (host_set_UninstallationSecret (Some ref) h)
  (* setPausedConditionForByoHost *)
  | hs_pause v f h : attached_to v h → same_claim_annotations (host_Annotations h) (f (host_Annotations h)) →
      host_step h (host_set_Annotations f h)
  (* markHostForCleanup, by the machine whose label the host carries *)
  | hs_mark bm h : attached_to (machine_label bm) h → host_step h (marked_host bm h)
  (* the agent: conditions, and the end of a cleanup *)
  | hs_conditions h h' : cond_only h h' → host_step h h'
  | hs_release h : is_Some (host_Annotations h !! HostCleanupAnnotation) →
      host_step h (node_absent (release (node_absent (after_reset h))))
  (* the agent's start-up *)
  | hs_inventory h h' : inventoried h h' → host_step h h'
  (* the ByoHost controller *)
  | hs_clear h : released h = true → host_step h (host_set_UninstallationSecret None h).

(** A patch of a host that was accepted is one of the transformations. *)
Definition patch_ok (p : Object * Object * option GoError) : Prop :=
  match p with
  | (OByoHost h, OByoHost h', None) => host_step h h'
  | _ => True
  end.
Definition patches_ok (t : list Event) : Prop := Forall patch_ok (patches t).

Lemma patches_ok_app t1 t2 : patches_ok t1 → patches_ok t2 → patches_ok (t1 ++ t2).
Proof. unfold patches_ok. rewrite patches_app. apply Forall_app_2. Qed.
Lemma patches_ok_nil t : patches t = [] → patches_ok t.
Proof. unfold patches_ok. by intros ->. Qed.
End Steps.

(** ** The ByoMachine controller *)
Section Machine.
  Context {E : Type} `{!Kube E, U : !CapiUtil E, !MachineLibs E, !ConditionsUtil}.
  Context `{!CapiUtilLaws U, !KubeListLaws E}.

(** The host of a scope carries the label of the scope's machine. *)
Definition scope_ok (v : string) (s : byoMachineScope) : Prop :=
  machine_label (sc_ByoMachine s) = v ∧ ∀ h, sc_ByoHost s = Some h → attached_to v h.

(** A handler that keeps the scope so and patches hosts only by [host_step]. *)
Abbreviation good v := (maintains (E:=E) (scope_ok v) patch_ok).

Lemma good_update_machine v f : (∀ m, machine_label (f m) = machine_label m) → good v (update_machine f).
Proof. intros Hf. apply maintains_modify. intros s [Hv Hh]. split; [cbn; by rewrite Hf|exact Hh]. Qed.

Ltac good_step := first [maintains_step|apply good_update_machine; done].
Ltac good_run := repeat good_step.

Lemma good_the_host v : good v the_host.
Proof. unfold the_host. good_run. Qed.
Lemma good_RecordMachine v a b c : good v (RecordMachine a b c).
Proof. unfold RecordMachine, Record_Event. good_run. Qed.

(** From a specification of a handler on a host of the scope. *)
Lemma good_of_host {A} v (m : M Event E byoMachineScope A) :
  (∀ e s, sc_ByoHost s = None → wp m e s (λ _ s' t _, s' = s ∧ patches t = [])) →
  (∀ e s h, scope_ok v s → sc_ByoHost s = Some h → wp m e s (λ _ s' t _, scope_ok v s' ∧ patches_ok t)) →
  good v m.
Proof.
  intros Hn Hs e s Hok. destruct (sc_ByoHost s) as [h|] eqn:Hh; [by eapply Hs|].
  eapply wp_mono; [by apply Hn|]. cbn beta. intros e' s' t o [-> Ht]. by split; [|apply patches_ok_nil].
Qed.

Lemma scope_ok_set_host v s h : scope_ok v s → attached_to v h → scope_ok v (sc_set_ByoHost (Some h) s).
Proof. intros [Hv _] Ha. split; [exact Hv|]. by intros h' [= <-]. Qed.

Lemma the_host_nil e s (Q : E → byoMachineScope → list Event → Outcome ByoHost → Prop) :
  sc_ByoHost s = None → Q e s [] Panic → wp the_host e s Q.
Proof. intros Hn HQ. unfold the_host. apply wp_bind, wp_get_local. rewrite Hn. by apply wp_panic. Qed.

Lemma good_setPaused v b : good v (setPausedConditionForByoHost b).
Proof.
  apply good_of_host.
  - intros e s Hn. unfold setPausedConditionForByoHost. apply wp_bind. by apply the_host_nil.
  - intros e s h Hok Hh. eapply wp_mono; [by eapply setPausedConditionForByoHost_spec|]. cbn beta.
    intros e' s' t o (Hho & _ & [[-> ->]|(err & h' & Hh' & -> & _ & Heq)]).
    { by split; [|apply patches_ok_nil]. }
    assert (attached_to v h) as Ha by (by apply Hok). split.
    + rewrite Hho, Hh'. apply scope_ok_set_host; [done|]. by rewrite Heq.
    + subst h'. constructor; [|constructor]. destruct err; [done|]. eapply hs_pause; [exact Ha|].
      unfold same_claim_annotations. destruct b.
      * rewrite AddAnnotations_spec. by rewrite !lookup_union_r by by rewrite lookup_singleton_ne.
      * by rewrite !lookup_delete_ne.
Qed.

Lemma good_setSecret v field what fail set :
  (∀ ref h, attached_to v h → host_step h (set (Some ref) h) ∧ attached_to v (set (Some ref) h)) →
  good v (setSecretForByoHost field what fail set).
Proof.
  intros Hset. apply good_of_host.
  - intros e s Hn. unfold setSecretForByoHost, getInstallerConfigAndHelper. apply wp_bind, wp_bind.
    eapply wp_mono; [apply getInstallerConfigAndStatus_spec|]. cbn beta.
    intros e1 s1 t1 [[[u []]|err]|] (-> & Hp & _); try (wp_run; trace_simpl; done).
  - intros e s h Hok Hh. eapply wp_mono; [by eapply setSecretForByoHost_spec|]. cbn beta.
    intros e' s' t o [(-> & Hp & _)|(ref & err & -> & _ & Hp)].
    { by split; [|apply patches_ok_nil]. }
    destruct (Hset ref h) as [Hstep Ha]; [by apply Hok|]. split; [by apply scope_ok_set_host|].
    unfold patches_ok. rewrite Hp. constructor; [|constructor]. by destruct err.
Qed.

Lemma good_mark v e s : scope_ok v s →
  wp markHostForCleanup e s (λ _ s' t _, scope_ok v s' ∧ patches_ok t).
Proof.
  revert e s. apply good_of_host.
  - intros e s Hn. unfold markHostForCleanup. apply wp_bind. by apply the_host_nil.
  - intros e s h Hok Hh. eapply wp_mono; [by eapply markHostForCleanup_spec|]. cbn beta.
    assert (attached_to v h) as Ha by (by apply Hok). destruct Hok as [Hv Hok].
    intros e' s' t o [-> Ho]. split.
    + apply scope_ok_set_host; [by split|]. unfold attached_to, marked_host in *.
      case_bool_decide; [done|]. cbn. by rewrite !lookup_delete_ne.
    + destruct o as [err|]; subst t; [|by apply patches_ok_nil]. constructor; [|constructor].
      destruct err; [done|]. apply hs_mark. by rewrite Hv.
Qed.

Lemma good_attach v : good v attachByoHost.
Proof.
  intros e s Hok. eapply wp_mono; [apply attachByoHost_spec|]. cbn beta. unfold attach_post.
  intros e' s' t o. destruct (sc_ByoHost s) as [h|] eqn:Hh.
  { intros (-> & -> & _). by split; [|apply patches_ok_nil]. }
  destruct Hok as [Hv Hnone]. destruct o as [[res [err|]]|].
  - intros [Hs Hf]. split.
    + destruct Hs as [-> | ->]; (split; [exact Hv|]); cbn; by rewrite Hh.
    + unfold patches_ok. eapply Forall_impl; [exact Hf|]. by intros [[[] []] []].
  - intros (host & ds & ver & (Hfree & _) & _ & _ & -> & Hp). split.
    + split; [exact Hv|]. intros h' [= <-]. unfold attached_to, claim_host. cbn.
      rewrite lookup_insert_eq. by rewrite <- Hv.
    + unfold patches_ok. rewrite Hp. constructor; [by apply hs_claim|constructor].
  - intros (-> & Hp). by split; [split; [|by rewrite Hh]|apply patches_ok_nil].
Qed.

Lemma good_install_secret v : good v setInstallationSecretForByoHost.
Proof. apply good_setSecret. intros ref h Ha. split; [by eapply hs_install_secret|done]. Qed.
Lemma good_uninstall_secret v : good v setUninstallationSecretForByoHost.
Proof. apply good_setSecret. intros ref h Ha. split; [by eapply hs_uninstall_secret|done]. Qed.

Lemma good_setNodeProviderID v rc host : good v (setNodeProviderID rc host).
Proof.
  intros e s Hok. eapply wp_mono; [apply setNodeProviderID_spec|]. cbn beta.
  intros e' s' t o (-> & Hp & _). by split; [|apply patches_ok_nil].
Qed.
Lemma good_createInstallerConfig v : good v createInstallerConfig.
Proof.
  intros e s Hok. eapply wp_mono; [apply createInstallerConfig_spec|]. cbn beta.
  intros e' s' t o (-> & Hp & _). by split; [|apply patches_ok_nil].
Qed.

Ltac good_all :=
  repeat first
    [ good_step | apply good_the_host | apply good_RecordMachine | apply good_setPaused
    | apply good_install_secret | apply good_uninstall_secret | apply good_attach
    | apply good_setNodeProviderID | apply good_createInstallerConfig ].

Lemma good_updateNodeProviderID v : good v updateNodeProviderID.
Proof. unfold updateNodeProviderID, getRemoteClient, mark_machine_true. good_all. Qed.

Lemma good_reconcileNormal v : good v reconcileNormal.
Proof.
  unfold reconcileNormal, create_then_await, await_cluster, provision, secret_step, mark_machine_false, Record_Event.
  good_all; apply good_updateNodeProviderID.
Qed.

Lemma good_reconcileDelete v : good v reconcileDelete.
Proof.
  unfold reconcileDelete, Record_Event. good_all. intros e s Hok. by apply good_mark.
Qed.

(** The host the controller looks up carries the machine's label. *)
Lemma Fetch_attached {L} bm e (l : L) :
  wp (FetchAttachedByoHost (bm_Name bm) (bm_Namespace bm)) e l (λ _ l' t o,
    l' = l ∧ patches t = [] ∧ ∀ h, o = Val (Ok (Some h)) → attached_to (machine_label bm) h).
Proof.
  unfold FetchAttachedByoHost, List_. apply wp_bind, wp_deref.
  destruct (labels_NewRequirement _ _ _) as [req|] eqn:Hreq; [|done].
  apply NewRequirement_Ok in Hreq as ->. apply wp_bind, wp_call.
  intros e1 [[|h hs]|err] Hlist; apply wp_ret; (split_and!; [done..|]); try done.
  intros h' [= <-]. edestruct (List_selected KByoHost) as [Hm _]; [exact Hlist|apply elem_of_cons; by left|].
  apply Matches_Add in Hm as [_ Hm]. by apply Matches_Equals in Hm.
Qed.

Lemma reconcile_machine_ok e s : wp reconcile_machine e s (λ _ _ t _, patches_ok t).
Proof.
  unfold reconcile_machine. apply wp_bind, wp_get_local, wp_bind.
  eapply wp_mono; [apply Fetch_attached|]. cbn beta. intros e1 s1 t1 [[ref|err]|] (-> & Hp & Hatt).
  2:{ apply wp_ret. apply patches_ok_nil. by trace_simpl. }
  2:{ by apply patches_ok_nil. }
  unfold dispatch, newByoMachineScope. cbn [sp_Client sp_Cluster sp_Machine sp_ByoMachine sp_ByoCluster sp_ByoHost].
  apply wp_bind, wp_get_local, wp_bind, wp_bind, wp_NewHelper; [intros e2 err|intros e2].
  { apply wp_ret, wp_ret, patches_ok_nil. by trace_simpl. }
  apply wp_ret, wp_bind, wp_put_local. set (s2 := mkScope _ _ _ _ _).
  assert (scope_ok (machine_label (sc_ByoMachine s)) s2) as Hok.
  { split; [done|]. intros h Hh. apply Hatt. cbn in Hh. by rewrite Hh. }
  match goal with |- wp ?m _ _ _ => assert (good (machine_label (sc_ByoMachine s)) m) as Hg end.
  { unfold mark_machine_false. good_all; first [apply good_reconcileDelete|apply good_reconcileNormal]. }
  eapply wp_mono; [by apply Hg|]. cbn beta. intros e3 s3 t3 o [_ Ht].
  repeat apply patches_ok_app; try done; by apply patches_ok_nil.
Qed.

Lemma machine_patches_ok req e : wp (ByoMachine.Reconcile req) e tt (λ _ _ t _, patches_ok t).
Proof.
  unfold ByoMachine.Reconcile, Get. apply wp_bind, wp_call. intros e1 [m|err] _; [|wp_run; by apply patches_ok_nil].
  apply wp_bind, wp_call. intros e2 [[machine|]|err] _; [|wp_run; by apply patches_ok_nil..].
  apply wp_bind, wp_call. intros e3 [[cluster|]|err] _; [|wp_run; by apply patches_ok_nil..].
  apply wp_bind, wp_deref. destruct (clus_InfrastructureRef cluster) as [ref|]; [|by apply patches_ok_nil].
  apply wp_bind, wp_call. intros e4 [bc|err] _; [|wp_run; by apply patches_ok_nil].
  apply wp_bind, wp_NewHelper; [intros e5 herr|intros e5]; cbn iota; apply wp_scoped_patch;
    (eapply wp_mono; [apply reconcile_machine_ok|]); cbn beta; intros e6 s6 tb ob Hb; [intros e7|intros e7 perr].
  - repeat (apply patches_ok_app; [by apply patches_ok_nil|]). done.
  - repeat (apply patches_ok_app; [by apply patches_ok_nil|]). apply patches_ok_app; [done|]. by constructor.
Qed.
End Machine.

(** ** The agent and the ByoHost controller *)
Section Others.
  Context {E : Type} `{!Kube E, !HostSystem E, !HostOS E, !Yaml, !Gzip, !TextTemplate, !ConditionsUtil}.

Lemma normal_cond_only r h h' t o : HostAgent.normal_post r h h' t o → cond_only h h'.
Proof.
  unfold HostAgent.normal_post. repeat case_match.
  - intros (_ & _ & ->). apply cond_only_refl.
  - by intros (Hc & _).
  - intros (_ & _ & ->). apply cond_only_mark_false.
  - intros (_ & _ & ->). apply cond_only_mark_false.
Qed.

Lemma cleanup_steps r h h' t o : is_Some (host_Annotations h !! HostCleanupAnnotation) →
  cleanup_post r h h' t o → host_step h h'.
Proof.
  intros Ha (_ & _ & Ho). destruct o as [[err|]|].
  2:{ destruct Ho as (-> & _). by apply hs_release. }
  all: apply hs_conditions; destruct Ho as [(-> & _)|([-> | ->] & _)];
    [apply cond_only_refl|unfold after_reset..];
    destruct (installed h); eauto using cond_only_refl, cond_only_mark_false, cond_only_trans;
    unfold node_absent; eauto using cond_only_refl, cond_only_mark_false, cond_only_trans.
Qed.

Lemma reconcile_body_step r e h : wp (reconcile_body r) e h (λ _ h' t _, host_step h h' ∧ patches t = []).
Proof.
  apply wp_and; [|apply reconcile_body_patches].
  unfold reconcile_body. apply wp_bind, wp_get_local. destruct (host_Annotations h !! _) as [a|] eqn:Ha.
  - apply wp_bind. eapply wp_mono; [apply hostCleanUp_spec|]. cbn beta. intros e1 h1 t1 o Hc.
    apply cleanup_steps in Hc; [|by rewrite Ha]. by destruct o as [[err|]|]; wp_run.
  - destruct (meta_DeletionTimestamp _).
    + apply wp_ret. apply hs_conditions, cond_only_refl.
    + eapply wp_mono; [apply reconcileNormal_run|]. cbn beta. intros e1 h1 t1 o Hn.
      by eapply hs_conditions, normal_cond_only.
Qed.

Lemma agent_patches_ok r req e : wp (HostAgent.Reconcile r req) e tt (λ _ _ t _, patches_ok t).
Proof.
  unfold HostAgent.Reconcile, Get. apply wp_bind, wp_call. intros e1 [h|err] _; [|wp_run; by apply patches_ok_nil].
  apply wp_bind, wp_NewHelper; [intros e2 herr|intros e2]; cbn iota; apply wp_scoped;
    (eapply wp_mono; [apply reconcile_body_step|]); cbn beta; intros e3 h' tb ob [Hstep Hp];
    unfold reconcile_defer; apply wp_bind, wp_get_local, wp_bind.
  - apply wp_Patch_nil. apply patches_ok_nil. by trace_simpl.
  - apply wp_Patch. intros e4 err. apply wp_ret. unfold patches_ok. trace_simpl. rewrite app_nil_r.
    constructor; [|constructor]. by destruct err.
Qed.

Lemma manager_patches_ok req e : wp (ByoHostCtrl.Reconcile req) e tt (λ _ _ t _, patches_ok t).
Proof.
  unfold ByoHostCtrl.Reconcile, Get. apply wp_bind, wp_call. intros e1 [h|err] _; [|wp_run; by apply patches_ok_nil].
  destruct (host_UninstallationSecret h) as [ref|]; [|wp_run; by apply patches_ok_nil].
  destruct (released h) eqn:Hr; [|wp_run; by apply patches_ok_nil].
  apply wp_bind. eapply wp_mono; [apply delete_uninstall_secret_spec|]. cbn beta.
  intros e2 u t2 o (Hp & _ & err & -> & _). destruct err as [err|]; [apply wp_ret, patches_ok_nil; by trace_simpl|].
  apply wp_bind, wp_NewHelper; [intros e3 herr; apply wp_ret, patches_ok_nil; by trace_simpl|intros e3].
  apply wp_bind, wp_Patch. intros e4 perr.
  assert (patches_ok [EvPatch (OByoHost h) (OByoHost (host_set_UninstallationSecret None h)) perr]) as Hok.
  { constructor; [|constructor]. destruct perr; [done|]. by apply hs_clear. }
  destruct perr; apply wp_ret; repeat (apply patches_ok_app; [by apply patches_ok_nil|]);
    (apply patches_ok_app; [exact Hok|by apply patches_ok_nil]).
Qed.

Lemma register_patches_ok `{!HostNet E} name ns ls e l :
  wp (Register name ns ls) e l (λ _ _ t _, patches_ok t).
Proof.
  assert (∀ h e l, wp (UpdateHost h) e l (λ _ _ t _, patches_ok t)) as Hup.
  { intros h e1 l1. eapply wp_mono; [apply UpdateHost_spec|]. cbn beta.
    intros e2 l2 t o [[-> _]|(h' & perr & Hi & -> & _)]; [by apply patches_ok_nil|].
    constructor; [|constructor]. destruct perr; [done|]. by apply hs_inventory. }
  unfold Register, Get, Create. apply wp_bind, wp_call. intros e1 [h|err] _.
  - eapply wp_mono; [apply Hup|]. cbn beta. intros e2 l2 t o Ht. apply (patches_ok_app [_] t); [by apply patches_ok_nil|done].
  - destruct (IsNotFound err); cbn [negb]; [|wp_run; by apply patches_ok_nil].
    apply wp_bind, wp_call. intros e2 [h|err2] _; [|wp_run; by apply patches_ok_nil].
    eapply wp_mono; [apply Hup|]. cbn beta. intros e3 l3 t o Ht. apply (patches_ok_app [_] (_ :: t)), (patches_ok_app [_] t); done || by apply patches_ok_nil.
Qed.
End Others.

(** ** Consistent objects and phases *)

(** The fields of a claim stand together, and a cleanup mark or an
    installation secret only on a claimed host. *)
Record consistent (h : ByoHost) : Prop := {
  cs_label : is_Some (host_Labels h !! AttachedByoMachineLabel) ↔ is_Some (host_MachineRef h);
  cs_cluster : is_Some (host_Labels h !! ClusterNameLabel) ↔ is_Some (host_MachineRef h);
  cs_bootstrap : is_Some (host_BootstrapSecret h) ↔ is_Some (host_MachineRef h);
  cs_marked : is_Some (host_Annotations h !! HostCleanupAnnotation) → is_Some (host_MachineRef h);
  cs_install : is_Some (host_InstallationSecret h) → is_Some (host_MachineRef h) }.

(** A host is free, claimed by the machine with a label value, or being
    cleaned up after it. *)
Inductive Phase := Free | Claimed (machine : string) | Cleaning (machine : string).

Definition phase (h : ByoHost) : Phase :=
  match host_Labels h !! AttachedByoMachineLabel with
  | None => Free
  | Some v =>
      match host_Annotations h !! HostCleanupAnnotation with
      | None => Claimed v
      | Some _ => Cleaning v
      end
  end.

(** The cycle a host goes through. *)
Inductive phase_step : Phase → Phase → Prop :=
  | ps_stay p : phase_step p p
  | ps_claim v : phase_step Free (Claimed v)
  | ps_mark v : phase_step (Claimed v) (Cleaning v)
  | ps_release v : phase_step (Cleaning v) Free.

(** An object as it is registered: no claim of any kind. *)
Definition fresh (h : ByoHost) : Prop :=
  host_Labels h !! AttachedByoMachineLabel = None ∧ host_Labels h !! ClusterNameLabel = None ∧
  host_Annotations h = ∅ ∧ host_Spec h = mkByoHostSpec None None None ∧ host_MachineRef h = None.

(** An object without any part of a claim. *)
Lemma unclaimed_consistent h :
  host_Labels h !! AttachedByoMachineLabel = None → host_Labels h !! ClusterNameLabel = None →
  host_BootstrapSecret h = None → host_MachineRef h = None →
  host_Annotations h !! HostCleanupAnnotation = None → host_InstallationSecret h = None → consistent h.
Proof. intros Hl Hc Hb Hm Ha Hi. split; rewrite ?Hl, ?Hc, ?Hb, ?Hm, ?Ha, ?Hi; done. Qed.

Lemma fresh_consistent h : fresh h → consistent h.
Proof.
  intros (Hl & Hc & Ha & Hs & Hm).
  apply unclaimed_consistent; unfold host_BootstrapSecret, host_InstallationSecret; by rewrite ?Hs, ?Ha.
Qed.

Section Phases.
  Context `{!ConditionsUtil}.

(** Two objects with the same claim. *)
Definition same_claim (h h' : ByoHost) : Prop :=
  host_Labels h' !! AttachedByoMachineLabel = host_Labels h !! AttachedByoMachineLabel ∧
  host_Labels h' !! ClusterNameLabel = host_Labels h !! ClusterNameLabel ∧
  host_BootstrapSecret h' = host_BootstrapSecret h ∧ host_MachineRef h' = host_MachineRef h.

Lemma consistent_same h h' : same_claim h h' → consistent h →
  (is_Some (host_Annotations h' !! HostCleanupAnnotation) → is_Some (host_MachineRef h)) →
  (is_Some (host_InstallationSecret h') → is_Some (host_MachineRef h)) → consistent h'.
Proof. intros (Hl & Hc & Hb & Hm) [] ? ?. split; by rewrite ?Hl, ?Hc, ?Hb, ?Hm. Qed.

Lemma phase_same h h' : same_claim h h' →
  host_Annotations h' !! HostCleanupAnnotation = host_Annotations h !! HostCleanupAnnotation →
  phase_step (phase h) (phase h').
Proof. intros (Hl & _) Ha. unfold phase. rewrite Hl, Ha. constructor. Qed.

Lemma attached_claimed v h : consistent h → attached_to v h → is_Some (host_MachineRef h).
Proof. intros [Hl _ _ _ _] Ha. apply Hl. by rewrite Ha. Qed.

(** The fields of the transformed objects. *)
Lemma marked_fields bm h : same_claim h (marked_host bm h) ∧
  host_Annotations (marked_host bm h) !! HostCleanupAnnotation = Some "" ∧
  host_InstallationSecret (marked_host bm h) = host_InstallationSecret h.
Proof.
  unfold same_claim, marked_host. case_bool_decide; cbn; rewrite ?lookup_delete_ne by done;
    by rewrite lookup_insert_eq.
Qed.
Lemma claim_fields s ds v h :
  host_Labels (claim_host s ds v h) !! AttachedByoMachineLabel = Some (machine_label (sc_ByoMachine s)) ∧
  is_Some (host_Labels (claim_host s ds v h) !! ClusterNameLabel) ∧
  is_Some (host_BootstrapSecret (claim_host s ds v h)) ∧ is_Some (host_MachineRef (claim_host s ds v h)) ∧
  host_Annotations (claim_host s ds v h) !! HostCleanupAnnotation = host_Annotations h !! HostCleanupAnnotation.
Proof.
  unfold claim_host. cbn. rewrite lookup_insert_eq, lookup_insert_ne by done. rewrite lookup_insert_eq.
  split_and!; try done. by rewrite !lookup_insert_ne.
Qed.
Lemma release_fields h : let h' := node_absent (release (node_absent (after_reset h))) in
  host_Labels h' !! AttachedByoMachineLabel = None ∧ host_Labels h' !! ClusterNameLabel = None ∧
  host_BootstrapSecret h' = None ∧ host_MachineRef h' = None ∧
  host_Annotations h' !! HostCleanupAnnotation = None ∧ host_InstallationSecret h' = None.
Proof.
  cbn. unfold released_labels, released_annotations.
  rewrite lookup_delete_eq, lookup_delete_ne, lookup_delete_eq by done.
  rewrite !(lookup_delete_ne _ _ HostCleanupAnnotation) by done. by rewrite lookup_delete_eq.
Qed.

Lemma host_step_consistent h h' : consistent h → host_step h h' → consistent h'.
Proof.
  intros Hc Hstep. pose proof Hc as [Hl Hcl Hb Hm Hi]. destruct Hstep as
    [s ds v h Hfree|v ref h Ha|v ref h Ha|v f h Ha [Hf _]|bm h Ha|h h' Hco|h Ha|h h' (n & i & ->)|h Hr].
  - destruct (claim_fields s ds v h) as (H1 & H2 & H3 & H4 & H5). split; rewrite ?H1; try done; split; eauto.
  - apply (consistent_same h); [by split_and!|done|exact Hm|]. intros _. by eapply attached_claimed.
  - apply (consistent_same h); [by split_and!|done|exact Hm|exact Hi].
  - apply (consistent_same h); [by split_and!|done| |exact Hi]. intros Hs. apply Hm.
    rewrite <- Hf. exact Hs.
  - destruct (marked_fields bm h) as (Hs & Hmk & Hins). apply attached_claimed in Ha; [|done].
    by apply (consistent_same h).
  - unfold cond_only in Hco. rewrite Hco. apply (consistent_same h); [by split_and!|done|exact Hm|exact Hi].
  - destruct (release_fields h) as (H1 & H2 & H3 & H4 & H5 & H6). by apply unclaimed_consistent.
  - apply (consistent_same h); [by split_and!|done|exact Hm|exact Hi].
  - apply (consistent_same h); [by split_and!|done|exact Hm|exact Hi].
Qed.

Lemma host_step_phase h h' : consistent h → host_step h h' → phase_step (phase h) (phase h').
Proof.
  intros Hc Hstep. pose proof Hc as [Hl Hcl Hb Hm Hi]. destruct Hstep as
    [s ds v h Hfree|v ref h Ha|v ref h Ha|v f h Ha [Hf _]|bm h Ha|h h' Hco|h Ha|h h' (n & i & ->)|h Hr].
  - destruct (claim_fields s ds v h) as (H1 & _ & _ & _ & H5). unfold phase. rewrite H1, H5.
    assert (host_MachineRef h = None) as Hnone.
    { apply eq_None_not_Some. intros Hs. apply Hcl in Hs. rewrite Hfree in Hs. by destruct Hs. }
    assert (host_Labels h !! AttachedByoMachineLabel = None) as ->.
    { apply eq_None_not_Some. intros Hs. apply Hl in Hs. rewrite Hnone in Hs. by destruct Hs. }
    assert (host_Annotations h !! HostCleanupAnnotation = None) as ->.
    { apply eq_None_not_Some. intros Hs. apply Hm in Hs. rewrite Hnone in Hs. by destruct Hs. }
    constructor.
  - by apply phase_same; [split_and!|].
  - by apply phase_same; [split_and!|].
  - by apply phase_same; [split_and!|].
  - destruct (marked_fields bm h) as ((Hlab & _) & Hmk & _). unfold phase. rewrite Hlab, Hmk.
    unfold attached_to in Ha. rewrite Ha. destruct (host_Annotations h !! _); constructor.
  - unfold cond_only in Hco. rewrite Hco. by apply phase_same; [split_and!|].
  - destruct (release_fields h) as (H1 & _). unfold phase. rewrite H1.
    pose proof (Hm Ha) as Hs. apply Hl in Hs as [v ->]. destruct Ha as [a ->]. constructor.
  - by apply phase_same; [split_and!|].
  - by apply phase_same; [split_and!|].
Qed.
End Phases.

(** ** Runs of the code *)
Section Runs.
  Context {E : Type} `{!Kube E, U : !CapiUtil E, !MachineLibs E, !ConditionsUtil}.
  Context `{!HostSystem E, !HostOS E, !HostNet E, !Yaml, !Gzip, !TextTemplate}.

(** One accepted patch of the host in a run of the code. *)
Inductive code_step (h h' : ByoHost) : Prop :=
  | cs_agent (r : HostReconciler) (req : NamespacedName) (e : E) :
      (OByoHost h, OByoHost h', None) ∈ patches (r_trace (HostAgent.Reconcile r req e tt)) → code_step h h'
  | cs_register (name ns l : string) (ls : gmap string string) (e : E) :
      (OByoHost h, OByoHost h', None) ∈ patches (r_trace (Register name ns ls e l)) → code_step h h'
  | cs_machine (req : NamespacedName) (e : E) :
      (OByoHost h, OByoHost h', None) ∈ patches (r_trace (ByoMachine.Reconcile req e tt)) → code_step h h'
  | cs_manager (req : NamespacedName) (e : E) :
      (OByoHost h, OByoHost h', None) ∈ patches (r_trace (ByoHostCtrl.Reconcile req e tt)) → code_step h h'.

Inductive reachable : ByoHost → Prop :=
  | reach_new h : fresh h → reachable h
  | reach_step h h' : reachable h → code_step h h' → reachable h'.

Context `{!CapiUtilLaws U, !KubeListLaws E}.

Lemma patches_ok_elem t h h' : patches_ok t → (OByoHost h, OByoHost h', None) ∈ patches t → host_step h h'.
Proof. unfold patches_ok. rewrite Forall_forall. intros Hf Hin. exact (Hf _ Hin). Qed.

Lemma code_host_step h h' : code_step h h' → host_step h h'.
Proof.
  intros [r req e Hin|name ns l ls e Hin|req e Hin|req e Hin]; (eapply patches_ok_elem; [|exact Hin]).
  - apply (agent_patches_ok r req e).
  - apply (register_patches_ok name ns ls e l).
  - apply (machine_patches_ok req e).
  - apply (manager_patches_ok req e).
Qed.

Lemma reachable_consistent h : reachable h → consistent h.
Proof.
  induction 1 as [h Hf|h h' _ IH Hs]; [by apply fresh_consistent|].
  eapply host_step_consistent; [exact IH|by apply code_host_step].
Qed.
End Runs.

(** ** Theorems *)
Section Theorems.
  Context {E : Type} `{!Kube E, U : !CapiUtil E, !MachineLibs E, !ConditionsUtil}.
  Context `{!HostSystem E, !HostOS E, !HostNet E, !Yaml, !Gzip, !TextTemplate, !CapiUtilLaws U, !KubeListLaws E}.

(** The controllers together implement the life cycle
    of a host.  From every object reachable by accepted patches of the agent,
    of its start-up, of the machine controller and of the host controller, in
    any order and in any worlds, the next accepted patch leaves the phase as
    it is or takes a free host to one machine, a claimed host to the cleanup
    after that same machine, or a cleaned host to free: a host never changes
    machines, and never becomes free, except through a completed cleanup. *)
Theorem lifecycle_refines (h h' : ByoHost) :
  reachable (E:=E) h → code_step (E:=E) h h' → phase_step (phase h) (phase h').
Proof.
  intros Hr Hs. apply host_step_phase; [by apply (reachable_consistent (E:=E))|by apply (code_host_step (E:=E))].
Qed.

(** C2. On every reachable object the claim is whole or
    absent: machine reference, machine label, cluster label and bootstrap
    secret are all set or all unset, so the object is free in the label view
    of the scheduler exactly when it is free in the view of the agent; a
    cleanup mark or an installation secret is only on a claimed host. *)
Theorem lifecycle_invariant (h : ByoHost) :
  reachable (E:=E) h →
  (host_MachineRef h = None ↔ phase h = Free) ∧
  (host_MachineRef h = None ↔ host_Labels h !! ClusterNameLabel = None) ∧
  (host_MachineRef h = None ↔ host_BootstrapSecret h = None) ∧
  (host_MachineRef h = None → host_InstallationSecret h = None ∧
     host_Annotations h !! HostCleanupAnnotation = None).
Proof.
  intros [Hl Hc Hb Hm Hi]%reachable_consistent. rewrite !eq_None_not_Some.
  assert (phase h = Free ↔ ~ is_Some (host_Labels h !! AttachedByoMachineLabel)) as ->.
  { clear. unfold phase. destruct (_ !! AttachedByoMachineLabel) as [v|]; [|split; [by intros _ []|done]].
    split; [by destruct (_ !! HostCleanupAnnotation)|]. intros []. eauto. }
  tauto.
Qed.
End Theorems.
