(* ===== verification/Interference.v ===== *)
(** * Concurrent writers: patches computed from older versions of a host

    The writers of a host object read it from caches and keep it in memory,
    so a patch can be computed from a version other writers have changed
    since.  The patch helper sends only the difference between the version it
    was created on and the new one, as a JSON merge patch without a resource
    version; the API server merges the difference into the object it stores.

    The merge is a parameter ([MergePatch]) with the documented behaviour of
    merge patches as laws ([MergePatchLaws]).  The state of the system is the
    stored object with every version a writer may still work from.  The life
    cycle of Lifecycle.v holds in this system as long as the patches that
    change a claim are computed from the current claim; all the others may be
    arbitrarily old.  [stale_claim_steals_host] shows what happens to a claim
    computed from an old version: nothing refuses it. *)

From S2P Require Import Prelude GoStrings Encoding Api SafeLabel Platform CloudInit HostAgent ByoMachine ByoHostCtrl Registration Lifecycle.

(** ** The merge of a patch *)

(** A map of labels or annotations under a merge patch from [b] to [a]: the
    entries that differ are written, the others are those of the stored map
    [c].  The map is left out of the document when it is empty, so a patch
    that empties it removes it as a whole. *)
Definition merge_entries (b a c : gmap string string) : gmap string string :=
  if decide (a = b) then c
  else if decide (a = ∅) then ∅
  else filter (λ kv, b !! kv.1 ≠ Some kv.2) a ∪ filter (λ kv, a !! kv.1 = b !! kv.1) c.

Lemma merge_entries_unchanged b a c k :
  a !! k = b !! k → (a = ∅ → b = ∅) → merge_entries b a c !! k = c !! k.
Proof.
  intros Hk He. unfold merge_entries. destruct (decide (a = b)) as [|Hne]; [done|].
  destruct (decide (a = ∅)) as [->|_]; [by rewrite He in Hne|].
  assert (filter (λ kv, b !! kv.1 ≠ Some kv.2) a !! k = None) as Hn.
  { apply map_lookup_filter_None. destruct (a !! k) as [v|] eqn:Ha; [right|by left].
    intros v' [= <-] Hd. cbn in Hd. by rewrite <- Hk in Hd. }
  rewrite lookup_union_r by done. destruct (c !! k) as [v|] eqn:Hc.
  - by apply map_lookup_filter_Some.
  - apply map_lookup_filter_None. by left.
Qed.

Lemma merge_entries_changed b a c k : a !! k ≠ b !! k → merge_entries b a c !! k = a !! k.
Proof.
  intros Hk. unfold merge_entries. destruct (decide (a = b)) as [->|Hne]; [done|].
  destruct (decide (a = ∅)) as [->|_]; [done|].
  assert (filter (λ kv, a !! kv.1 = b !! kv.1) c !! k = None) as Hn.
  { apply map_lookup_filter_None. right. by intros v _ Hd. }
  destruct (a !! k) as [v|] eqn:Ha.
  - apply lookup_union_Some_l, map_lookup_filter_Some. split; [done|]. cbn. congruence.
  - apply lookup_union_None. split; [|done]. apply map_lookup_filter_None. by left.
Qed.

Lemma merge_entries_current b a c k : c !! k = b !! k → merge_entries b a c !! k = a !! k.
Proof.
  intros Hk. destruct (decide (a !! k = b !! k)) as [Ha|Hne]; [|by apply merge_entries_changed].
  destruct (decide (a = ∅)) as [->|He].
  - unfold merge_entries. destruct (decide (∅ = b)) as [<-|_]; [done|by rewrite decide_True].
  - rewrite merge_entries_unchanged; congruence.
Qed.

(** An object-valued field: absent members are left out of the document, and
    a present object is merged member by member into a stored one, so only
    its presence is determined when the stored one is not the base. *)
Record merged_ref (b a c m : option ObjectReference) : Prop := {
  mr_unchanged : a = b → m = c;
  mr_removed : a = None → b ≠ None → m = None;
  mr_set : is_Some a → a ≠ b → is_Some m;
  mr_current : c = b → m = a }.

(** [helper.Patch] on a host: [merge_host base modified stored] is the object
    stored afterwards. *)
Class MergePatch := merge_host : ByoHost → ByoHost → ByoHost → ByoHost.

Class MergePatchLaws `{!MergePatch} : Prop := {
  merge_labels b a c :
    host_Labels (merge_host b a c) = merge_entries (host_Labels b) (host_Labels a) (host_Labels c);
  merge_annotations b a c :
    host_Annotations (merge_host b a c) =
      merge_entries (host_Annotations b) (host_Annotations a) (host_Annotations c);
  merge_machine_ref b a c :
    merged_ref (host_MachineRef b) (host_MachineRef a) (host_MachineRef c) (host_MachineRef (merge_host b a c));
  merge_bootstrap b a c :
    merged_ref (host_BootstrapSecret b) (host_BootstrapSecret a) (host_BootstrapSecret c)
      (host_BootstrapSecret (merge_host b a c));
  merge_install b a c :
    merged_ref (host_InstallationSecret b) (host_InstallationSecret a) (host_InstallationSecret c)
      (host_InstallationSecret (merge_host b a c)) }.

(** ** The claim of a host *)

(** The fields a claim consists of. *)
Record Claim := mkClaim {
  cl_machine : option string; cl_cluster : option string;
  cl_cleanup : option string; cl_endpoint : option string;
  cl_ref : option ObjectReference; cl_bootstrap : option ObjectReference;
  cl_install : option ObjectReference }.

#[export] Instance Claim_eq_dec : EqDecision Claim.
Proof. solve_decision. Defined.

Definition claim_of (h : ByoHost) : Claim :=
  mkClaim (host_Labels h !! AttachedByoMachineLabel) (host_Labels h !! ClusterNameLabel)
    (host_Annotations h !! HostCleanupAnnotation) (host_Annotations h !! EndPointIPAnnotation)
    (host_MachineRef h) (host_BootstrapSecret h) (host_InstallationSecret h).

(** Hosts with the same claim, whatever their conditions, inventories and
    other annotations. *)
Definition claim_eq (h h' : ByoHost) : Prop := claim_of h = claim_of h'.
Declare Scope claim_scope.
Infix "≈" := claim_eq (at level 70) : claim_scope.
Open Scope claim_scope.

#[export] Instance claim_eq_equivalence : Equivalence claim_eq.
Proof. split; [by intros h|by intros h h'|intros h1 h2 h3; unfold claim_eq; congruence]. Qed.
#[export] Instance claim_eq_dec h h' : Decision (h ≈ h').
Proof. unfold claim_eq. apply _. Defined.

#[export] Instance phase_proper : Proper (claim_eq ==> eq) phase.
Proof. intros h h' [= Hl _ Ha _ _ _ _]. unfold phase. by rewrite Hl, Ha. Qed.
#[export] Instance consistent_proper : Proper (claim_eq ==> iff) consistent.
Proof.
  intros h h' [= Hl Hc Ha _ Hm Hb Hi].
  split; intros [H1 H2 H3 H4 H5]; split; rewrite ?Hl, ?Hc, ?Ha, ?Hm, ?Hb, ?Hi in *; done.
Qed.

(** A consistent object whose claim names the endpoint of the cluster. *)
Definition claim_sound (h : ByoHost) : Prop :=
  consistent h ∧ (is_Some (cl_machine (claim_of h)) → is_Some (cl_endpoint (claim_of h))).

#[export] Instance claim_sound_proper : Proper (claim_eq ==> iff) claim_sound.
Proof.
  intros h h' He. unfold claim_sound. rewrite (consistent_proper _ _ He). unfold claim_eq in He. by rewrite He.
Qed.

(** A change that does not empty the labels or the annotations. *)
Definition keeps_maps (b a : ByoHost) : Prop :=
  (host_Labels a = ∅ → host_Labels b = ∅) ∧ (host_Annotations a = ∅ → host_Annotations b = ∅).

Section Merging.
  Context `{!MergePatch, !MergePatchLaws}.

(** A patch computed from the current claim replaces it. *)
Lemma merge_current b a c : b ≈ c → merge_host b a c ≈ a.
Proof.
  intros [= Hl Hc Ha He Hm Hb Hi]. unfold claim_eq, claim_of.
  rewrite merge_labels, merge_annotations, !merge_entries_current by done.
  f_equal.
  - by apply (mr_current _ _ _ _ (merge_machine_ref b a c)).
  - by apply (mr_current _ _ _ _ (merge_bootstrap b a c)).
  - by apply (mr_current _ _ _ _ (merge_install b a c)).
Qed.

(** A patch that does not concern the claim leaves the stored one. *)
Lemma merge_untouched b a c : a ≈ b → keeps_maps b a → merge_host b a c ≈ c.
Proof.
  intros [= Hl Hc Ha He Hm Hb Hi] [Hkl Hka]. unfold claim_eq, claim_of.
  rewrite merge_labels, merge_annotations, !merge_entries_unchanged by done.
  f_equal.
  - by apply (mr_unchanged _ _ _ _ (merge_machine_ref b a c)).
  - by apply (mr_unchanged _ _ _ _ (merge_bootstrap b a c)).
  - by apply (mr_unchanged _ _ _ _ (merge_install b a c)).
Qed.
End Merging.

(** ** What the transformations of the code do to a claim *)
Section Transformations.
  Context `{!ConditionsUtil}.

Lemma claim_endpoint s ds v h : is_Some (host_Annotations (claim_host s ds v h) !! EndPointIPAnnotation).
Proof. unfold claim_host. cbn. rewrite !lookup_insert_ne by done. rewrite lookup_insert_eq. eauto. Qed.

Lemma marked_endpoint bm h :
  host_Annotations (marked_host bm h) !! EndPointIPAnnotation = host_Annotations h !! EndPointIPAnnotation.
Proof. unfold marked_host. case_bool_decide; cbn; by rewrite lookup_insert_ne. Qed.

Lemma host_step_sound h h' : claim_sound h → host_step h h' → claim_sound h'.
Proof.
  intros [Hc He] Hstep. split; [by eapply host_step_consistent|]. cbn in *. destruct Hstep as
    [s ds v h Hfree|v ref h Ha|v ref h Ha|v f h Ha [_ Hf]|bm h Ha|h h' Hco|h Ha|h h' (n & i & ->)|h Hr];
    try exact He.
  - intros _. apply claim_endpoint.
  - change (host_Annotations (host_set_Annotations f h)) with (f (host_Annotations h)). by rewrite Hf.
  - rewrite marked_endpoint. destruct (marked_fields bm h) as ((-> & _) & _). exact He.
  - by rewrite Hco.
  - intros Hs. destruct (release_fields h) as (Hn & _). rewrite Hn in Hs. by destruct Hs.
Qed.

Lemma nonempty_lookup (m : gmap string string) k : is_Some (m !! k) → m ≠ ∅.
Proof. intros [v Hv] ->. by rewrite lookup_empty in Hv. Qed.

(** The code never empties the labels or annotations of a host except when
    it changes the claim. *)
Lemma host_step_keeps_maps h h' : claim_sound h → host_step h h' → h' ≈ h → keeps_maps h h'.
Proof.
  intros [_ He] Hstep [= Hl Hc Ha' _ _ _ _]. unfold keeps_maps. cbn in *. destruct Hstep as
    [s ds v h Hfree|v ref h Ha|v ref h Ha|v f h Ha [_ Hf]|bm h Ha|h h' Hco|h Ha|h h' (n & i & ->)|h Hr];
    try done.
  - destruct (claim_fields s ds v h) as (_ & Hs & _). rewrite Hc, Hfree in Hs. by destruct Hs.
  - split; [done|]. intros Hempty. exfalso. unfold attached_to in Ha. rewrite Ha in He.
    eapply nonempty_lookup; [|exact Hempty].
    change (host_Annotations (host_set_Annotations f h)) with (f (host_Annotations h)). rewrite Hf. eauto.
  - destruct (marked_fields bm h) as ((Hlab & _) & Hmk & _). unfold attached_to in Ha.
    split; intros Hempty; exfalso; (eapply nonempty_lookup; [|exact Hempty]).
    + rewrite Hlab, Ha. eauto.
    + rewrite Hmk. eauto.
  - by rewrite Hco.
  - destruct (release_fields h) as (_ & _ & _ & _ & Hn & _). cbn in Hn, Ha'. rewrite Hn in Ha'.
    rewrite <- Ha' in Ha. by destruct Ha.
Qed.
End Transformations.

(** ** The system *)
Section System.
  Context {E : Type} `{!Kube E, U : !CapiUtil E, !MachineLibs E, !ConditionsUtil}.
  Context `{!HostSystem E, !HostOS E, !HostNet E, !Yaml, !Gzip, !TextTemplate}.
  Context `{!MergePatch}.

(** The stored object, and the versions of it the writers may still hold:
    what was stored at some time, and what a writer has in memory after its
    own patch. *)
Record Server := mkServer { stored : ByoHost; known : list ByoHost }.

Definition registered (h : ByoHost) : Server := mkServer h [h].
Definition apply_patch (b a : ByoHost) (s : Server) : Server :=
  let m := merge_host b a (stored s) in mkServer m (m :: a :: known s).

(** A patch that changes the claim is computed from the current claim. *)
Definition timely (b a c : ByoHost) : Prop := a ≈ b ∨ b ≈ c.

Inductive server_step (s : Server) : Server → Prop :=
  | ss_patch b a : b ∈ known s → code_step (E:=E) b a → timely b a (stored s) → server_step s (apply_patch b a s).

Inductive server_reachable : Server → Prop :=
  | sr_new h : fresh h → server_reachable (registered h)
  | sr_step s s' : server_reachable s → server_step s s' → server_reachable s'.

  Context `{!CapiUtilLaws U, !KubeListLaws E, !MergePatchLaws}.

Lemma fresh_sound h : fresh h → claim_sound h.
Proof.
  intros Hf. split; [by apply fresh_consistent|]. destruct Hf as (Hl & _). cbn. rewrite Hl. by intros [].
Qed.

(** What a step stores has the claim the writer wrote, or the one stored before. *)
Lemma merged_claim b a c : claim_sound b → code_step (E:=E) b a → timely b a c →
  (b ≈ c ∧ merge_host b a c ≈ a) ∨ merge_host b a c ≈ c.
Proof.
  intros Hb Hs [Hab|Hbc].
  - right. apply merge_untouched; [done|]. apply host_step_keeps_maps; [done|by apply (code_host_step (E:=E))|done].
  - left. split; [done|by apply merge_current].
Qed.

Lemma merge_sound b a c : claim_sound b → claim_sound c → code_step (E:=E) b a → timely b a c →
  claim_sound (merge_host b a c).
Proof.
  intros Hb Hc Hs Ht. destruct (merged_claim b a c Hb Hs Ht) as [[_ ->]| ->]; [|done].
  eapply host_step_sound; [exact Hb|by apply (code_host_step (E:=E))].
Qed.

Lemma server_sound s : server_reachable s → claim_sound (stored s) ∧ Forall claim_sound (known s).
Proof.
  induction 1 as [h Hf|s s' _ [IHs IHk] [b a Hb Hs Ht]].
  - apply fresh_sound in Hf. by split; [|constructor].
  - assert (claim_sound b) as Hbs by (by eapply Forall_forall in IHk).
    assert (claim_sound (merge_host b a (stored s))) as Hm by (by apply merge_sound).
    split; [exact Hm|]. constructor; [exact Hm|]. constructor; [|exact IHk].
    eapply host_step_sound; [exact Hbs|by apply (code_host_step (E:=E))].
Qed.

Lemma server_step_phase s s' : server_reachable s → server_step s s' →
  phase_step (phase (stored s)) (phase (stored s')).
Proof.
  intros [Hs Hk]%server_sound [b a Hb Hc Ht].
  assert (claim_sound b) as Hbs by (by eapply Forall_forall in Hk).
  cbn [stored apply_patch]. destruct (merged_claim b a (stored s) Hbs Hc Ht) as [[Hbc Hm]|Hm]; rewrite Hm; [|constructor].
  rewrite <- Hbc. apply host_step_phase; [apply Hbs|by apply (code_host_step (E:=E))].
Qed.

(** C1. The life cycle of a host holds under concurrency.  The
    agent, its start-up, the machine controller and the host controller patch
    the host in any order, each from any version that was ever stored or that
    a writer still holds, and the API server merges the differences.  As long
    as the patches that change a claim (its labels, references, secrets, the
    endpoint or the cleanup mark) start from the claim that is stored, every
    step keeps the phase of the stored host or follows the cycle of claim,
    cleanup and release, and the claim stays whole; patches of conditions,
    inventories, the pause annotation or the uninstall secret may be as old
    as they like and never undo or tear a claim. *)
Theorem lifecycle_interleaved (s s' : Server) :
  server_reachable s → server_step s s' →
  phase_step (phase (stored s)) (phase (stored s')) ∧ consistent (stored s') ∧ Forall consistent (known s').
Proof.
  intros Hr Hs. split; [by apply server_step_phase|].
  destruct (server_sound s') as [[Hc _] Hk]; [by eapply sr_step|]. split; [done|].
  eapply Forall_impl; [exact Hk|]. by intros h [? _].
Qed.

(** The reservation of a host carries no version check.  A claim that
    [attachByoHost] computes from a version in which the host is still free
    goes through when another machine has claimed the host in the meantime,
    and the host changes hands without a cleanup: the last claim wins. *)
Theorem stale_claim_steals_host (sc : byoMachineScope) (ds ver : string) (b c : ByoHost) (v : string) :
  consistent b → host_Labels b !! ClusterNameLabel = None → phase c = Claimed v →
  phase (merge_host b (claim_host sc ds ver b) c) = Claimed (machine_label (sc_ByoMachine sc)).
Proof.
  intros [Hl Hcl _ _ _] Hfree Hc. destruct (claim_fields sc ds ver b) as (Hm & _ & _ & _ & Ha).
  unfold phase. rewrite merge_labels, merge_annotations, merge_entries_changed, Hm.
  - rewrite merge_entries_unchanged; [|exact Ha|].
    + clear Hfree Hm Ha Hl Hcl. unfold phase in Hc. by repeat case_match; simplify_eq.
    + intros He. exfalso. eapply nonempty_lookup; [|exact He]. apply claim_endpoint.
  - rewrite Hm. intros Hs. symmetry in Hs. apply mk_is_Some, Hl, Hcl in Hs. rewrite Hfree in Hs. by destruct Hs.
Qed.
End System.
