(* ===== verification/Provisioning.v ===== *)
(** * From a claim to a node, and to the next claim

    Progress of the two controllers that provision a host, in worlds where
    what they call works, and what a host brings from one life into the next:
    after a completed cleanup it is free for every machine whose selector it
    matches, every part of the next claim is the new machine's, and the agent
    installs and bootstraps again; only the reference to the former uninstall
    secret is still there when nobody cleared it in between. *)

From S2P Require Import Prelude GoStrings Encoding Regex Api SafeLabel Platform CloudInit HostAgent ByoMachine ByoHostCtrl Registration Lifecycle Interference.

(** ** The agent *)
Section Agent.
  Context {E : Type} `{!Kube E, !HostSystem E, !HostOS E, !Yaml, !Gzip, !TextTemplate, C : !ConditionsUtil}.
  Context (r : HostReconciler).

(** A world in which what the provisioning of a host needs works: [d] is its
    bootstrap script, [cs] the rendered contents of the script's files and
    [inst] its rendered install script.  Only what this host needs is assumed:
    its two secrets, its scripts, and the directories that are cleaned. *)
Record provision_works (h : ByoHost) (d : bootstrapConfig) (cs : list string) (inst : string) : Prop := {
  pw_script : script_runs d cs;
  pw_glob : ∀ p e, p ∈ k8s_dirs → ∃ l, (filepath_Glob p e).2 = Ok l ∧
    Forall (λ item, ∀ e, (os_RemoveAll item e).2 = None) l;
  pw_files : ∃ data, TemplateParser r = Some data ∧
    Forall2 (λ f c, rendered data f = Some c) (FilesToWrite d) cs;
  pw_bootstrap : ∃ ref secret, host_BootstrapSecret h = Some ref ∧
    (∀ e, (kube_Get KSecret (ref_key ref) e).2 = Ok secret) ∧
    yaml_Unmarshal (default "" (sec_Data secret !! "value")) = Ok d;
  pw_install : needs_install r h = true → ∃ ref secret script,
    host_InstallationSecret h = Some ref ∧ (∀ e, (kube_Get KSecret (ref_key ref) e).2 = Ok secret) ∧
    sec_Data secret !! "install" = Some script ∧ parseScript r script = Ok inst ∧
    ∀ e, (sys_RunCmd inst e).2 = None }.

Lemma RemoveGlob_works h d cs inst p e (l : ByoHost) : provision_works h d cs inst → p ∈ k8s_dirs →
  wp (RemoveGlob p) e l (λ _ l' _ o, l' = l ∧ o = Val None).
Proof.
  intros W Hp. unfold RemoveGlob. destruct (pw_glob _ _ _ _ W p e Hp) as (items & Hg & Hitems).
  apply wp_bind, wp_call. intros e1 r1 Hr1. rewrite Hr1 in Hg. cbn in Hg. subst r1. clear Hr1.
  revert e1. induction Hitems as [|i items Hi _ IH]; intros e1; cbn [remove_all]; [by apply wp_ret|].
  unfold RemoveAll. apply wp_bind, (wp_call_ans _ _ None); [apply Hi|]. intros e2. apply IH.
Qed.

Lemma cleank8sdirectories_works h d cs inst e l : provision_works h d cs inst →
  wp cleank8sdirectories e l (λ _ l' _ o, l' = l ∧ o = Val None).
Proof.
  intros W. unfold cleank8sdirectories.
  assert (∀ dirs e, dirs ⊆ k8s_dirs → wp (clean_dirs dirs) e l (λ _ l' _ o, l' = l ∧ o = Val [])) as Hcd.
  { induction dirs as [|dir dirs IH]; intros e1 Hsub; cbn [clean_dirs]; [by apply wp_ret|].
    apply wp_bind. eapply wp_mono; [eapply RemoveGlob_works; [exact W|set_solver]|]. cbn beta. intros e2 l2 t2 o [-> ->].
    apply wp_bind. eapply wp_mono; [apply IH; set_solver|]. cbn beta. intros e3 l3 t3 o [-> ->]. by apply wp_ret. }
  apply wp_bind. eapply wp_mono; [by apply Hcd|]. cbn beta. intros e1 l1 t1 o [-> ->]. by apply wp_ret.
Qed.

Lemma install_step_works h d cs inst e : provision_works h d cs inst →
  wp (install_step r) e h (λ _ _ _ o, o = Val (inr tt)).
Proof.
  intros W. unfold install_step. apply wp_bind, wp_get_local.
  destruct (SkipK8sInstallation r) eqn:Hs; [by apply wp_ret|].
  destruct (IsTrue h K8sComponentsInstallationSucceeded) eqn:Ht; cbn [negb]; [by apply wp_ret|].
  destruct (pw_install _ _ _ _ W) as (ref & secret & script & Href & Hget & Hdata & Hps & Hrun).
  { unfold needs_install. by rewrite Hs, Ht. }
  unfold executeInstallerController, Get, RunCmd. rewrite Href. apply wp_bind, wp_bind, wp_get_local. rewrite Href.
  apply wp_bind, (wp_call_ans _ _ (Ok secret)); [apply Hget|]. intros e1. cbn iota. rewrite Hdata, Hps.
  apply wp_bind, (wp_call_ans _ _ None); [apply Hrun|]. intros e2.
  unfold RecordHost, Record_Event, MarkTrue. by wp_run.
Qed.

Lemma bootstrap_step_works h d cs inst script e l : provision_works h d cs inst → yaml_Unmarshal script = Ok d →
  wp (bootstrap_step r script) e l (λ _ _ _ o, o = Val (Result0, None)).
Proof.
  intros W Hd. unfold bootstrap_step, bootstrapK8sNode. apply wp_bind.
  eapply wp_mono; [by eapply cleank8sdirectories_works|]. cbn beta. intros e1 l1 t1 o [-> ->]. cbn iota.
  destruct (pw_files _ _ _ _ W) as (data & -> & Hcs). apply wp_bind.
  eapply wp_mono; [apply (Execute_progress data script d cs); [apply (pw_script _ _ _ _ W)|done..]|]. cbn beta.
  intros e2 l2 t2 o2 ->. unfold RecordHost, Record_Event, MarkTrue. by wp_run.
Qed.

Lemma reconcileNormal_works h d cs inst e : provision_works h d cs inst → is_Some (host_MachineRef h) →
  wp (HostAgent.reconcileNormal r) e h (λ _ _ _ o, o = Val (Result0, None)).
Proof.
  intros W [mref Hm]. unfold HostAgent.reconcileNormal. apply wp_bind, wp_get_local. rewrite Hm.
  destruct (pw_bootstrap _ _ _ _ W) as (ref & secret & Href & Hget & Hd). rewrite Href.
  destruct (IsTrue h K8sNodeBootstrapSucceeded); cbn [negb]; [by apply wp_ret|].
  unfold getBootstrapScript, Get. apply wp_bind, wp_bind, (wp_call_ans _ _ (Ok secret)); [apply Hget|]. intros e1.
  apply wp_ret, wp_bind. eapply wp_mono; [by eapply install_step_works|]. cbn beta. intros e2 l2 t2 o ->. cbn iota.
  by eapply bootstrap_step_works.
Qed.

(** A whole provisioning run: the rendered install script if the components
    are to be installed, then the files and the commands of the bootstrap
    script, all with success; no other command ran. *)
Definition provisioning_run (h : ByoHost) (d : bootstrapConfig) (cs : list string) (inst : string)
    (t : list Event) : Prop :=
  ∃ ti ev, t = ti ++ run_effects (zip (FilesToWrite d) cs) (CommandsToExecute d) ++ [ev] ∧
    cmds ti = (if needs_install r h then [inst] else []) ∧
    (needs_install r h = true → EvRunCmd inst None ∈ ti) ∧ cmds [ev] = [].

(** The rendered contents are determined by the files. *)
Lemma rendered_all_inj data files cs cs' : TemplateParser r = Some data →
  Forall2 (λ f c, rendered data f = Some c) files cs → rendered_all r files cs' → cs' = cs.
Proof.
  intros Hd Hcs. revert cs'. induction Hcs as [|f c files cs Hf _ IH]; intros cs' Hr.
  - by apply Forall2_nil_inv_l in Hr.
  - apply Forall2_cons_inv_l in Hr as (c' & cs2 & (data' & Hd' & Hf') & Hr & ->).
    rewrite (IH cs2) by done. f_equal. congruence.
Qed.

Lemma install_cmds_works h d cs inst t : provision_works h d cs inst → install_cmds r h t →
  cmds t = (if needs_install r h then [inst] else []) ∧ (needs_install r h = true → EvRunCmd inst None ∈ t).
Proof.
  intros W. unfold install_cmds. destruct (needs_install r h) eqn:Hn; [|done].
  destruct (pw_install _ _ _ _ W Hn) as (ref & secret & script & Href & Hget & Hdata & Hps & _).
  intros (ref' & secret' & script' & inst' & Href' & (_ & e' & Hget') & Hdata' & Hps' & Hc & Hin).
  assert (ref' = ref) as -> by congruence. rewrite Hget in Hget'. injection Hget' as <-.
  assert (script' = script) as -> by congruence. assert (inst' = inst) as -> by congruence. done.
Qed.

Lemma reconcileNormal_provisions `{!ConditionsLaws C} (h : ByoHost) (d : bootstrapConfig) (cs : list string)
    (inst : string) (e : E) :
  provision_works h d cs inst → is_Some (host_MachineRef h) →
  wp (HostAgent.reconcileNormal r) e h (λ _ h' t o,
    o = Val (Result0, None) ∧
    if IsTrue h K8sNodeBootstrapSucceeded then t = [] ∧ h' = h
    else provisioning_run h d cs inst t ∧ cond_only h h' ∧
         IsTrue h' K8sNodeBootstrapSucceeded = true ∧ needs_install r h' = false).
Proof.
  intros W Hm.
  eapply wp_mono; [apply (wp_and _ _ _ _ _ (reconcileNormal_works h d cs inst e W Hm) (reconcileNormal_run r e h))|].
  cbn beta. intros e' h' t o [-> Hn]. split; [done|]. unfold HostAgent.normal_post in Hn.
  destruct Hm as [mref Hm]. destruct (pw_bootstrap _ _ _ _ W) as (ref & secret & Href & Hget & Hd). rewrite Hm, Href in Hn.
  destruct (IsTrue h K8sNodeBootstrapSucceeded) eqn:Hb; [by destruct Hn as (? & _ & ->)|].
  destruct Hn as (Hco & _ & _ & [(Hni & Hnone & _)|(-> & ref' & secret' & d' & cs' & ti & ev & Href' & (_ & e1 & Hget') & Hd' & Hcs' & Hic & Hev & ->)]).
  { destruct (pw_install _ _ _ _ W Hni) as (? & _ & _ & Hs & _). by rewrite Hs in Hnone. }
  assert (ref' = ref) as -> by congruence. rewrite Hget in Hget'. injection Hget' as <-.
  assert (d' = d) as -> by (unfold bootstrap_script in Hd'; congruence).
  destruct (pw_files _ _ _ _ W) as (data & Hdata & Hcs). rewrite (rendered_all_inj data _ cs cs') by done.
  split_and!; [|done|unfold IsTrue, bootstrapped, mark_true; cbn; apply IsTrue_MarkTrue_eq|].
  - exists ti, ev. destruct (install_cmds_works h d cs inst ti W Hic) as [Hc Hin]. by split_and!.
  - pose proof (install_count_bootstrapped r (after_install r h)) as Hc. rewrite install_count_after_install in Hc by done.
    unfold install_count in Hc. by destruct (needs_install r (bootstrapped (after_install r h))).
Qed.

(** C4. The agent provisions every claimed host.  In a world where the
    secrets the host names can be read, its scripts parse, render and run and
    the directories can be cleaned, one normal reconciliation of a host with
    a machine reference succeeds.  On a host that is not bootstrapped yet it
    ran, with success and in this order, the rendered script of the install
    secret (exactly when the installation is neither skipped nor recorded),
    and every file and command of the bootstrap script, and no other command;
    and it leaves the host, of which nothing but conditions changed, marked
    as bootstrapped, and as installed unless the installation is skipped.  On
    a bootstrapped host it does nothing. *)
Theorem agent_provisions `{!ConditionsLaws C} (h : ByoHost) (d : bootstrapConfig) (cs : list string)
    (inst : string) (e : E) :
  provision_works h d cs inst → is_Some (host_MachineRef h) →
  wp (HostAgent.reconcileNormal r) e h (λ _ h' t o,
    o = Val (Result0, None) ∧
    if IsTrue h K8sNodeBootstrapSucceeded then t = [] ∧ h' = h
    else
      (∃ ti ev, t = ti ++ run_effects (zip (FilesToWrite d) cs) (CommandsToExecute d) ++ [ev] ∧
         cmds ti = (if needs_install r h then [inst] else []) ∧
         (needs_install r h = true → EvRunCmd inst None ∈ ti) ∧ cmds [ev] = []) ∧
      h' = host_SetConditions (host_GetConditions h') h ∧
      IsTrue h' K8sNodeBootstrapSucceeded = true ∧
      (SkipK8sInstallation r = false → IsTrue h' K8sComponentsInstallationSucceeded = true)).
Proof.
  intros W Hm. eapply wp_mono; [by eapply reconcileNormal_provisions|]. cbn beta. intros e' h' t o [Ho Hrun].
  split; [done|]. destruct (IsTrue h _); [done|]. destruct Hrun as (Hrun & Hco & Hb & Hn).
  split_and!; [done..|]. intros Hs. unfold needs_install in Hn. rewrite Hs in Hn.
  by destruct (IsTrue h' K8sComponentsInstallationSucceeded).
Qed.
End Agent.

(** ** The machine controller *)
Section Machine.
  Context {E : Type} `{!Kube E, U : !CapiUtil E, !MachineLibs E, C : !ConditionsUtil}.

(** A world in which the machine of a scope can become ready on the host it
    holds.  [c] is the cluster the metadata of the machine names, [rc] the
    client for that cluster and [node] the node under the host's key in it;
    nothing is assumed of other clusters, clients and nodes. *)
Record machine_works (s : byoMachineScope) (h : ByoHost) (c : CapiCluster) (rc : RemoteClient) (node : Node) : Prop := {
  mw_host : sc_ByoHost s = Some h;
  mw_infrastructure : clus_InfrastructureReady (sc_Cluster s) = true;
  mw_data : is_Some (mach_DataSecretName (sc_Machine s));
  mw_helper : ∀ e, (patch_NewHelper KByoHost h e).2 = None;
  mw_patch : ∀ a owned e, (patch_Patch KByoHost h a owned e).2 = None;
  mw_installer : ∀ ref, bm_InstallerRef (bm_Spec (sc_ByoMachine s)) = Some ref →
    is_Some (host_InstallationSecret h) ∧ is_Some (host_UninstallationSecret h) ∧
    ∃ u, ∀ e, (kube_Get (KUnstructured (installer_GVK ref))
      (mkKey (bm_Namespace (sc_ByoMachine s)) (bm_Name (sc_ByoMachine s))) e).2 = Ok u;
  mw_cluster : ∀ e, (util_GetClusterFromMetadata (bm_Meta (sc_ByoMachine (with_finalizer s))) e).2 = Ok (Some c);
  mw_client : ∀ e, (tracker_GetClient (mkKey (meta_Namespace (clus_Meta c)) (meta_Name (clus_Meta c))) e).2 = Ok rc;
  mw_node : ∀ e, (remote_GetNode rc (mkKey (meta_Namespace (host_Meta h)) (host_Name h)) e).2 = Ok node;
  mw_id : node_ProviderID node = "" ∨ provider_id_ok (host_Name h) (node_ProviderID node);
  mw_nodehelper : ∀ e, (remote_NewHelper rc node e).2 = None;
  mw_nodepatch : ∀ id e, (remote_PatchNode rc node (mkNode (node_Meta node) id) e).2 = None }.

Lemma setNodeProviderID_works s h c rc node h' e (s' : byoMachineScope) :
  machine_works s h c rc node → node_key h' = node_key h →
  wp (setNodeProviderID rc h') e s' (λ _ s2 t o, s2 = s' ∧ ∃ id, o = Val (id, None) ∧ node_named rc h id t).
Proof.
  intros W Hkey. assert (host_Name h' = host_Name h) as Hn by by injection Hkey.
  assert (wp (setNodeProviderID rc h') e s' (λ _ _ _ o, ∃ id, o = Val (id, None))) as Hval.
  { unfold setNodeProviderID. fold (node_key h'). rewrite Hkey, Hn.
    apply wp_bind, (wp_call_ans _ _ (Ok node)); [apply (mw_node _ _ _ _ _ W)|]. intros e1. cbn iota. case_bool_decide as Hne.
    - destruct (mw_id _ _ _ _ _ W) as [Hid|Hid]; [done|]. unfold provider_id_ok in Hid. rewrite Hid. apply wp_ret. eauto.
    - apply wp_bind, (wp_call_ans _ _ None); [apply (mw_nodehelper _ _ _ _ _ W)|]. intros e2. apply wp_bind, wp_call. intros e3 suffix _.
      apply wp_bind, (wp_call_ans _ _ None); [apply (mw_nodepatch _ _ _ _ _ W)|]. intros e4. apply wp_ret. eauto. }
  eapply wp_mono; [apply (wp_and _ _ _ _ _ Hval (setNodeProviderID_spec rc h' e s'))|]. cbn beta.
  intros e1 s1 t o [[id ->] (-> & _ & Hnamed & _)]. split; [done|]. exists id. split; [done|].
  unfold node_named in *. by rewrite Hkey, Hn in Hnamed.
Qed.

(** What the steps before the node leave: the host with its secrets, and the
    machine up to its status. *)
Definition ready_to_finish (s : byoMachineScope) (h : ByoHost) (s' : byoMachineScope) : Prop :=
  sc_Cluster s' = sc_Cluster s ∧ sc_Machine s' = sc_Machine s ∧
  bm_Spec (sc_ByoMachine s') = bm_Spec (sc_ByoMachine s) ∧
  bm_Meta (sc_ByoMachine s') = bm_Meta (sc_ByoMachine (with_finalizer s)) ∧
  ∃ h', sc_ByoHost s' = Some h' ∧ node_key h' = node_key h ∧
    host_InstallationSecret h' = host_InstallationSecret h ∧ host_UninstallationSecret h' = host_UninstallationSecret h.

(** The machine is ready, with the provider ID its node carries. *)
Definition finished (rc : RemoteClient) (h : ByoHost) (s' : byoMachineScope) (t : list Event)
    (o : Outcome (Result * option GoError)) : Prop :=
  o = Val (Result0, None) ∧ bm_Ready (bm_Status (sc_ByoMachine s')) = true ∧
  node_named rc h (bm_ProviderID (bm_Spec (sc_ByoMachine s'))) t.

Lemma finished_mono rc h s' t t' o : t ⊆ t' → finished rc h s' t o → finished rc h s' t' o.
Proof. intros Hsub (? & ? & ?). split_and!; eauto using node_named_mono. Qed.

Lemma updateNodeProviderID_works s h c rc node s' e : machine_works s h c rc node → ready_to_finish s h s' →
  wp updateNodeProviderID e s' (λ _ s2 t o, finished rc h s2 t o).
Proof.
  intros W (_ & _ & _ & Hmeta & h' & Hh' & Hkey & _).
  unfold updateNodeProviderID, getRemoteClient. apply wp_bind, wp_get_local, wp_bind, wp_bind. rewrite Hmeta.
  apply (wp_call_ans _ _ (Ok (Some c))); [apply (mw_cluster _ _ _ _ _ W)|]. intros e1. cbn iota. apply wp_bind, wp_ret, wp_bind.
  apply (wp_call_ans _ _ (Ok rc)); [apply (mw_client _ _ _ _ _ W)|]. intros e2. apply wp_ret. cbn iota.
  apply wp_bind. eapply wp_the_host; [done|]. apply wp_bind.
  eapply wp_mono; [by apply (setNodeProviderID_works s h c rc node h')|]. cbn beta.
  intros e3 s3 t3 o (-> & id & -> & Hnamed). cbn iota.
  unfold update_machine, mark_machine_true, RecordMachine, Record_Event. wp_run. split_and!; [done..|].
  eapply node_named_mono; [|exact Hnamed]. set_solver.
Qed.

(** A secret that is already there is not asked for. *)
Lemma secret_step_present missing (setter : M Event E byoMachineScope (Result * option GoError)) e s' h' :
  sc_ByoHost s' = Some h' → (is_Some (bm_InstallerRef (bm_Spec (sc_ByoMachine s'))) → missing h' = false) →
  wp (secret_step missing setter) e s' (λ _ s2 _ o, s2 = s' ∧ o = Val (inr tt)).
Proof.
  intros Hh Hm. unfold secret_step. apply wp_bind, wp_get_local.
  destruct (bm_InstallerRef _); [|by apply wp_ret]. apply wp_bind. eapply wp_the_host; [done|].
  rewrite Hm by eauto. by apply wp_ret.
Qed.

Lemma provision_works_machine s h c rc node s' e : machine_works s h c rc node → ready_to_finish s h s' →
  wp provision e s' (λ _ s2 t o, finished rc h s2 t o).
Proof.
  intros W Hr. pose proof Hr as (_ & _ & Hspec & _ & h' & Hh' & _ & Hi & Hu).
  unfold provision. apply wp_bind, wp_get_local, wp_bind. rewrite Hh'. apply wp_ret. cbn iota.
  apply wp_bind, wp_get_local, wp_bind. set (P := λ s2 : byoMachineScope, ready_to_finish s h s2 ∧ sc_ByoHost s2 = Some h').
  assert (P s') as HP by done.
  match goal with |- wp ?m _ _ _ => assert (wp m e s' (λ _ s2 _ o, P s2 ∧ o = Val tt)) as Hinfo end.
  { case_bool_decide; [|by apply wp_ret]. apply wp_bind. eapply wp_the_host; [done|].
    unfold update_machine. apply wp_modify. split; [|done]. split; [|done]. unfold ready_to_finish in *. cbn. done. }
  eapply wp_mono; [exact Hinfo|]. cbn beta. intros e1 s1 t1 o [[Hr1 Hh1] ->].
  assert (∀ ref, bm_InstallerRef (bm_Spec (sc_ByoMachine s1)) = Some ref →
    is_Some (host_InstallationSecret h') ∧ is_Some (host_UninstallationSecret h')) as Hsec.
  { intros ref Href. destruct Hr1 as (_ & _ & Hs1 & _). rewrite Hs1 in Href.
    destruct (mw_installer _ _ _ _ _ W _ Href) as (? & ? & _). by rewrite Hi, Hu. }
  apply wp_bind. eapply wp_mono; [apply (secret_step_present _ _ _ _ h'); [done|]|].
  { intros [ref Href]. destruct (Hsec _ Href) as [[x ->] _]. done. }
  cbn beta. intros e2 s2 t2 o [-> ->]. cbn iota.
  apply wp_bind. eapply wp_mono; [apply (secret_step_present _ _ _ _ h'); [done|]|].
  { intros [ref Href]. destruct (Hsec _ Href) as [_ [x ->]]. done. }
  cbn beta. intros e3 s3 t3 o [-> ->]. cbn iota.
  eapply wp_mono; [by eapply updateNodeProviderID_works|]. cbn beta. intros e4 s4 t4 o4. apply finished_mono. set_solver.
Qed.

Lemma create_then_await_works s h c rc node s' e : machine_works s h c rc node → ready_to_finish s h s' →
  wp create_then_await e s' (λ _ s2 t o, finished rc h s2 t o).
Proof.
  intros W Hr. pose proof Hr as (Hc & Hm & Hspec & Hmeta & _). unfold create_then_await. apply wp_bind, wp_get_local, wp_bind.
  match goal with |- wp ?m _ _ _ => assert (wp m e s' (λ _ s2 _ o, s2 = s' ∧ o = Val None)) as Hcfg end.
  { destruct (bm_InstallerRef (bm_Spec (sc_ByoMachine s'))) as [ref|] eqn:Href; [|by apply wp_ret].
    unfold createInstallerConfig, getInstallerConfig. apply wp_bind, wp_get_local, wp_bind, wp_bind, wp_deref.
    rewrite Href. pose proof Href as Href'. rewrite Hspec in Href'. destruct (mw_installer _ _ _ _ _ W _ Href') as (_ & _ & u & Hu).
    assert (bm_Namespace (sc_ByoMachine s') = bm_Namespace (sc_ByoMachine s)) as -> by (unfold bm_Namespace; by rewrite Hmeta).
    assert (bm_Name (sc_ByoMachine s') = bm_Name (sc_ByoMachine s)) as -> by (unfold bm_Name; by rewrite Hmeta).
    unfold Get. apply (wp_call_ans _ _ (Ok u)); [apply Hu|]. intros e1. by apply wp_ret. }
  eapply wp_mono; [exact Hcfg|]. cbn beta. intros e1 s1 t1 o [-> ->]. cbn iota.
  unfold await_cluster. apply wp_bind, wp_get_local. rewrite Hc, (mw_infrastructure _ _ _ _ _ W). cbn [negb].
  rewrite Hm. destruct (mw_data _ _ _ _ _ W) as [ds ->].
  eapply wp_mono; [by eapply provision_works_machine|]. cbn beta. intros e2 s2 t2 o2. apply finished_mono. set_solver.
Qed.

(** C5. The machine of a provisioned host becomes ready.  The scope holds a
    host, the cluster's infrastructure is ready, the machine has its bootstrap
    data, and when it names an installer the host has both installer secrets
    and the installer object exists.  In a world where patches of that host
    are accepted, the cluster the machine's metadata names and a client for it
    are found, and in that cluster the node under the host's namespace and
    name is found, without a provider ID (which a patch may then set) or with
    one of this host, one reconciliation of the machine succeeds, marks it
    ready and gives it the provider ID its node carries: the ID found, or the
    one the accepted patch of that node has set ([node_named]). *)
Theorem machine_provisions (s : byoMachineScope) (h : ByoHost) (c : CapiCluster) (rc : RemoteClient)
    (node : Node) (e : E) :
  machine_works s h c rc node →
  wp ByoMachine.reconcileNormal e s (λ _ s' t o,
    o = Val (Result0, None) ∧ bm_Ready (bm_Status (sc_ByoMachine s')) = true ∧
    node_named rc h (bm_ProviderID (bm_Spec (sc_ByoMachine s'))) t).
Proof.
  intros W. unfold ByoMachine.reconcileNormal, update_machine. apply wp_bind, wp_modify, wp_bind, wp_get_local.
  cbn [sc_ByoHost sc_update_ByoMachine]. rewrite (mw_host _ _ _ _ _ W). apply wp_bind.
  unfold setPausedConditionForByoHost, Patch, NewHelper. apply wp_bind. eapply wp_the_host; [apply (mw_host _ _ _ _ _ W)|].
  apply wp_bind, wp_bind, (wp_call_ans _ _ None); [apply (mw_helper _ _ _ _ _ W)|]. intros e1. apply wp_ret. cbn iota.
  apply wp_bind. eapply wp_update_host; [apply (mw_host _ _ _ _ _ W)|]. apply wp_bind. eapply wp_the_host; [done|].
  unfold Patch_with. apply wp_bind, wp_ret, (wp_call_ans _ _ None); [apply (mw_patch _ _ _ _ _ W)|]. intros e2. cbn iota.
  eapply wp_mono; [eapply create_then_await_works; [exact W|]|].
  { split_and!; try done. by eexists. }
  cbn beta. intros e3 s3 t3 o3 (-> & Hr & Hn). split_and!; [done..|]. eapply node_named_mono; [|exact Hn]. set_solver.
Qed.
End Machine.

(** ** The next life of a host *)
Section NextLife.
  Context {E : Type} `{!Kube E, !HostSystem E, !HostOS E, !Yaml, !Gzip, !TextTemplate, C : !ConditionsUtil}.
  Context `{U : !CapiUtil E, !MachineLibs E, !ConditionsLaws C, !CapiUtilLaws U}.
  Context (r : HostReconciler).




End NextLife.

(** ** The uninstall secret of a former life *)
Section StaleSecret.
  Context {E : Type} `{!Kube E, U : !CapiUtil E, !MachineLibs E, C : !ConditionsUtil}.
  Context (ref : ObjectReference).

Definition holds_secret (s : byoMachineScope) : Prop :=
  ∃ h, sc_ByoHost s = Some h ∧ host_UninstallationSecret h = Some ref.
Definition patch_keeps_secret (p : Object * Object * option GoError) : Prop :=
  match p with (OByoHost _, OByoHost a, _) => host_UninstallationSecret a = Some ref | _ => True end.

Abbreviation keeping := (maintains (E:=E) holds_secret patch_keeps_secret).

Lemma keeping_update_machine f : keeping (update_machine f).
Proof. apply maintains_modify. by intros s. Qed.
(** A handler that leaves the scope alone and patches nothing. *)
Lemma keeping_still {A} (m : M Event E byoMachineScope A) :
  (∀ e s, wp m e s (λ _ s' t _, s' = s ∧ patches t = [])) → keeping m.
Proof.
  intros Hm. apply maintains_quiet. intros e s Hs. eapply wp_mono; [apply Hm|]. cbn beta. by intros e' s' t o [-> Ht].
Qed.

Lemma keeping_setPaused b : keeping (setPausedConditionForByoHost b).
Proof.
  intros e s (h & Hh & Href). eapply wp_mono; [by apply setPausedConditionForByoHost_spec|]. cbn beta.
  intros e' s' t o (_ & _ & [[-> ->]|(err & h' & Hh' & -> & _ & ->)]).
  - split; [by exists h|constructor].
  - split; [by eexists|]. by repeat constructor.
Qed.
Lemma keeping_install_secret : keeping setInstallationSecretForByoHost.
Proof.
  intros e s (h & Hh & Href). eapply wp_mono; [by eapply setSecretForByoHost_spec|]. cbn beta.
  intros e' s' t o [(-> & -> & _)|(r & err & -> & _ & ->)].
  - split; [by exists h|constructor].
  - split; [by eexists|]. by repeat constructor.
Qed.
Lemma keeping_uninstall_step setter :
  keeping (secret_step (λ h, is_None (host_UninstallationSecret h)) setter).
Proof.
  intros e s (h & Hh & Href). unfold secret_step. apply wp_bind, wp_get_local.
  assert (holds_secret s) as Hs by (by exists h). destruct (bm_InstallerRef _); [|by apply wp_ret].
  apply wp_bind. eapply wp_the_host; [done|]. rewrite Href. by apply wp_ret.
Qed.
Lemma keeping_attach : keeping attachByoHost.
Proof.
  intros e s (h & Hh & Href). unfold attachByoHost. apply wp_bind, wp_get_local. rewrite Hh.
  apply wp_ret. split; [by exists h|constructor].
Qed.
Lemma keeping_createInstallerConfig : keeping createInstallerConfig.
Proof.
  apply keeping_still. intros e s. eapply wp_mono; [apply createInstallerConfig_spec|]. cbn beta. by intros e' s' t o (-> & Hp & _).
Qed.
Lemma keeping_setNodeProviderID rc host : keeping (setNodeProviderID rc host).
Proof.
  apply keeping_still. intros e s. eapply wp_mono; [apply setNodeProviderID_spec|]. cbn beta. by intros e' s' t o (-> & Hp & _).
Qed.

Ltac keeping_run :=
  repeat first
    [ maintains_step | apply keeping_update_machine | apply keeping_setPaused | apply keeping_uninstall_step
    | apply keeping_install_secret | apply keeping_attach | apply keeping_createInstallerConfig
    | apply keeping_setNodeProviderID ].

Lemma keeping_reconcileNormal : keeping ByoMachine.reconcileNormal.
Proof.
  unfold ByoMachine.reconcileNormal, create_then_await, await_cluster, provision, updateNodeProviderID,
    getRemoteClient, mark_machine_false, mark_machine_true, RecordMachine, Record_Event, the_host.
  keeping_run. unfold secret_step, the_host. keeping_run.
Qed.
End StaleSecret.

(** A host that is claimed again too early keeps the uninstall secret of its
    former machine.  The cleanup leaves the reference; if a machine claims the
    host before the host controller has cleared it, the claimed host no longer
    counts as released, so that controller leaves the reference alone, and no
    reconciliation of the new machine, whatever the world answers, replaces it
    or patches the host with another one, although the comment of the host
    controller promises re-used hosts a fresh secret. *)
Theorem stale_uninstall_secret {E : Type} `{!Kube E, !HostSystem E, !HostOS E, !Yaml, !Gzip, !TextTemplate, !ConditionsUtil}
    `{!CapiUtil E, !MachineLibs E} (r : HostReconciler) (e : E) (h h1 : ByoHost) (ref : ObjectReference)
    (sc : byoMachineScope) (ds ver : string) :
  r_out (hostCleanUp r e h) = Val None → r_loc (hostCleanUp r e h) = h1 → host_UninstallationSecret h = Some ref →
  let h2 := claim_host sc ds ver h1 in
  host_UninstallationSecret h2 = Some ref ∧ released h2 = false ∧
  ∀ s e', sc_ByoHost s = Some h2 →
    wp ByoMachine.reconcileNormal e' s (λ _ s' t _, holds_secret ref s' ∧ Forall (patch_keeps_secret ref) (patches t)).
Proof.
  intros Ho Hl Href h2. destruct (hostCleanUp_spec r e h) as (_ & _ & Hp). rewrite Ho in Hp.
  destruct Hp as (Hh1 & _). rewrite Hl in Hh1. destruct (after_reset_fields h) as [Hu _].
  assert (host_UninstallationSecret h2 = Some ref) as Hh2 by (unfold h2; rewrite Hh1, <- Href; exact Hu).
  split_and!; [done|done|]. intros s e' Hs. apply keeping_reconcileNormal. by exists h2.
Qed.
