(* ===== verification/Bootstrap.v ===== *)
(** * Bootstrap kubeconfigs

    The token helpers (common/bootstraptoken/token.go), the webhook on
    bootstrap kubeconfigs (bootstrapkubeconfig_webhook.go) and the controller
    that publishes one (bootstrapkubeconfig_controller.go).  The token library
    of Kubernetes is the class [TokenLibs]; that a bootstrap token is an id of
    six and a secret of sixteen characters around a dot is its law. *)

From S2P Require Import Prelude GoStrings Encoding Api SafeLabel GoNet Platform.

(** [clientcmdapi.Config], the fields the sources set. *)
Record KCluster := mkKCluster {
  kcl_Server : string; kcl_InsecureSkipTLSVerify : bool; kcl_CertificateAuthorityData : string }.
Record KContext := mkKContext { kctx_Cluster : string; kctx_AuthInfo : string; kctx_Namespace : string }.
Record KubeConfig := mkKubeConfig {
  kc_Clusters : gmap string KCluster;
  kc_AuthInfos : gmap string string;     (* the token of each *)
  kc_Contexts : gmap string KContext;
  kc_CurrentContext : string }.

(** k8s.io/cluster-bootstrap, the clock and the kubeconfig codec. *)
Class TokenLibs (E : Type) := {
  BootstrapTokenPattern : string;
  BootstrapTokenRegexp_FindStringSubmatch : string → list string;
  BootstrapTokenSecretName : string → string;
  SecretTypeBootstrapToken : string;
  NamespaceSystem : string;
  BootstrapTokenIDKey : string;
  BootstrapTokenSecretKey : string;
  BootstrapTokenExpirationKey : string;
  BootstrapTokenUsageSigningKey : string;
  BootstrapTokenUsageAuthentication : string;
  BootstrapTokenDescriptionKey : string;
  BootstrapTokenExtraGroupsKey : string;
  GenerateBootstrapToken : E → E * result string;
  (** [time.Now().UTC().Add(ttl).Format(time.RFC3339)] *)
  time_Now_Add_RFC3339 : Z → E → E * string;
  (** [runtime.Encode(clientcmdlatest.Codec, config)] *)
  clientcmd_Encode : KubeConfig → result string }.

Definition token_char (c : Ascii.ascii) : bool := is_lower c || is_digit c.
(** The documented form of a bootstrap token. *)
Definition token_parts (t id secret : string) : Prop :=
  t = id +:+ "." +:+ secret ∧ String.length id = 6 ∧ String.length secret = 16 ∧
  all_chars token_char id = true ∧ all_chars token_char secret = true.

Class TokenLaws {E} (T : TokenLibs E) : Prop := {
  FindStringSubmatch_token : ∀ t id secret, token_parts t id secret →
    BootstrapTokenRegexp_FindStringSubmatch t = [t; id; secret];
  FindStringSubmatch_inv : ∀ t, BootstrapTokenRegexp_FindStringSubmatch t = [] ∨
    ∃ id secret, token_parts t id secret;
  GenerateBootstrapToken_form : ∀ e t, (GenerateBootstrapToken e).2 = Ok t → ∃ id secret, token_parts t id secret;
  token_keys_distinct : BootstrapTokenIDKey ≠ BootstrapTokenSecretKey }.

(** ** bootstrapkubeconfig_webhook.go *)

Definition APIServerURLScheme : string := "https".

(** [field.Invalid]: the path, the value and the detail. *)
Definition field_Invalid (path value detail : string) : GoError :=
  errors_New (path +:+ ": Invalid value: " +:+ strconv_Quote value +:+ ": " +:+ detail).

Definition isURLValid (parsedURL : URL) : bool :=
  if bool_decide (url_Host parsedURL = "") || bool_decide (url_Scheme parsedURL ≠ APIServerURLScheme)
     || bool_decide (url_Port parsedURL = "")
  then false else true.

Definition validateAPIServer (r : BootstrapKubeconfig) : option GoError :=
  let server := APIServer (bk_Spec r) in
  if bool_decide (server = "") then Some (field_Invalid "spec.apiserver" server "APIServer field cannot be empty")
  else
    match url_Parse server with
    | Err _ => Some (field_Invalid "spec.apiserver" server "APIServer URL is not valid")
    | Ok parsedURL =>
        if negb (isURLValid parsedURL)
        then Some (field_Invalid "spec.apiserver" server "APIServer is not of the format https://hostname:port")
        else None
    end.

Definition validateCAData (r : BootstrapKubeconfig) : option GoError :=
  let ca := CertificateAuthorityData (bk_Spec r) in
  if bool_decide (ca = "")
  then Some (field_Invalid "spec.caData" ca "CertificateAuthorityData field cannot be empty")
  else
    match Base64.DecodeString ca with
    | Err _ => Some (field_Invalid "spec.caData" ca "cannot base64 decode CertificateAuthorityData")
    | Ok decodedCAData =>
        if negb (pem_Decode_found decodedCAData)
        then Some (field_Invalid "spec.caData" ca "CertificateAuthorityData is not PEM encoded")
        else None
    end.

Definition ValidateCreate (r : BootstrapKubeconfig) : option GoError :=
  match validateAPIServer r with
  | Some err => Some err
  | None => match validateCAData r with Some err => Some err | None => None end
  end.

Definition ValidateUpdate (r old : BootstrapKubeconfig) : option GoError :=
  match validateAPIServer r with
  | Some err => Some err
  | None => match validateCAData r with Some err => Some err | None => None end
  end.

Definition ValidateDelete (r : BootstrapKubeconfig) : option GoError := None.

(** ** token.go *)
Section Token.
  Context {E : Type} `{!TokenLibs E}.

Abbreviation UM := (M Event E unit).

Definition GetTokenIDSecretFromBootstrapToken (tokenStr : string) : result (string * string) :=
  match BootstrapTokenRegexp_FindStringSubmatch tokenStr with
  | [_; tokenID; tokenSecret] => Ok (tokenID, tokenSecret)
  | _ => Err (errors_New ("the bootstrap token " +:+ strconv_Quote tokenStr +:+ " was not of the form " +:+
                          strconv_Quote BootstrapTokenPattern))
  end.

Definition token_secret_data (tokenID tokenSecret expiration : string) : gmap string string :=
  list_to_map
    [(BootstrapTokenIDKey, tokenID);
     (BootstrapTokenSecretKey, tokenSecret);
     (BootstrapTokenExpirationKey, expiration);
     (BootstrapTokenUsageSigningKey, "true");
     (BootstrapTokenUsageAuthentication, "true");
     (BootstrapTokenDescriptionKey, BootstrapTokenDescription);
     (BootstrapTokenExtraGroupsKey, BootstrapTokenExtraGroups)].

Definition token_secret (tokenID tokenSecret expiration : string) : Secret :=
  mkSecret (mkTypeMeta "" "")
    (mkObjectMeta (BootstrapTokenSecretName tokenID) NamespaceSystem "" ∅ ∅ [] [] None)
    (token_secret_data tokenID tokenSecret expiration) SecretTypeBootstrapToken.

Definition GenerateSecretFromBootstrapToken (tokenStr : string) (ttl : Z) : UM (result Secret) :=
  match GetTokenIDSecretFromBootstrapToken tokenStr with
  | Err err => ret (Err err)
  | Ok (tokenID, tokenSecret) =>
      let! expiration := call (time_Now_Add_RFC3339 ttl) (λ _, []) in
      ret (Ok (token_secret tokenID tokenSecret expiration))
  end.

Definition GenerateBootstrapKubeconfigFromBootstrapToken (tokenStr : string)
    (bootstrapKubeconfig : BootstrapKubeconfig) : result KubeConfig :=
  match GetTokenIDSecretFromBootstrapToken tokenStr with
  | Err err => Err err
  | Ok (tokenID, tokenSecret) =>
      Ok (mkKubeConfig
            {[ DefaultClusterName := mkKCluster (APIServer (bk_Spec bootstrapKubeconfig))
                 (InsecureSkipTLSVerify (bk_Spec bootstrapKubeconfig))
                 (CertificateAuthorityData (bk_Spec bootstrapKubeconfig)) ]}
            {[ DefaultAuth := tokenID +:+ "." +:+ tokenSecret ]}
            {[ DefaultContext := mkKContext DefaultClusterName DefaultAuth DefaultNamespace ]}
            DefaultContext)
  end.
End Token.

(** ** bootstrapkubeconfig_controller.go *)
Section Controller.
  Context {E : Type} `{!Kube E, !TokenLibs E}.

Abbreviation UM := (M Event E unit).

Definition ttl : Z := Minute * 30.

Definition set_ca (ca : string) (c : KCluster) : KCluster :=
  mkKCluster (kcl_Server c) (kcl_InsecureSkipTLSVerify c) ca.
Definition set_data (d : string) (b : BootstrapKubeconfig) : BootstrapKubeconfig :=
  mkBootstrapKubeconfig (bk_Type b) (bk_Meta b) (bk_Spec b) (Some d).

(** From the created secret to the published data. *)
Definition publish (tokenStr : string) (bootstrapKubeconfig : BootstrapKubeconfig) : UM (Result * option GoError) :=
  match GenerateBootstrapKubeconfigFromBootstrapToken tokenStr bootstrapKubeconfig with
  | Err err => ret (Result0, Some err)
  | Ok data =>
      let! cluster := deref (kc_Clusters data !! DefaultClusterName) in
      match Base64.DecodeString (kcl_CertificateAuthorityData cluster) with
      | Err err => ret (Result0, Some err)
      | Ok decodedCAData =>
          let data := mkKubeConfig (<[DefaultClusterName := set_ca decodedCAData cluster]> (kc_Clusters data))
                        (kc_AuthInfos data) (kc_Contexts data) (kc_CurrentContext data) in
          match clientcmd_Encode data with
          | Err err => ret (Result0, Some err)
          | Ok encoded =>
              let! ' (helper, err) := NewHelper KBootstrapKubeconfig bootstrapKubeconfig in
              match err with
              | Some err => ret (Result0, Some err)
              | None =>
                  let! err := Patch KBootstrapKubeconfig helper (set_data encoded bootstrapKubeconfig) in
                  ret (Result0, err)
              end
          end
      end
  end.

Definition Reconcile (req : NamespacedName) : UM (Result * option GoError) :=
  let! bootstrapKubeconfig := Get KBootstrapKubeconfig req in
  match bootstrapKubeconfig with
  | Err err => ret (Result0, if IsNotFound err then None else Some err)
  | Ok bootstrapKubeconfig =>
      match BootstrapKubeconfigData bootstrapKubeconfig with
      | Some _ => ret (Result0, None)
      | None =>
          let! tokenStr := call GenerateBootstrapToken (λ _, []) in
          match tokenStr with
          | Err err => ret (Result0, Some err)
          | Ok tokenStr =>
              let! secret := GenerateSecretFromBootstrapToken tokenStr ttl in
              match secret with
              | Err err => ret (Result0, Some err)
              | Ok secret =>
                  let! created := Create KSecret secret in
                  match created with
                  | Err err => ret (Result0, Some err)
                  | Ok _ => publish tokenStr bootstrapKubeconfig
                  end
              end
          end
      end
  end.
End Controller.

(** ** Specifications *)

(** The token a stored secret stands for, and the one a kubeconfig presents. *)
Definition secret_token {E} `{!TokenLibs E} (s : Secret) : option string :=
  id ← sec_Data s !! BootstrapTokenIDKey;
  secret ← sec_Data s !! BootstrapTokenSecretKey;
  Some (id +:+ "." +:+ secret).
Definition config_token (c : KubeConfig) : option string :=
  ctx ← kc_Contexts c !! kc_CurrentContext c;
  kc_AuthInfos c !! kctx_AuthInfo ctx.
Definition config_cluster (c : KubeConfig) : option KCluster :=
  ctx ← kc_Contexts c !! kc_CurrentContext c;
  kc_Clusters c !! kctx_Cluster ctx.

(** The kubeconfig published for a spec: what its current context reaches. *)
Definition kubeconfig_for (b : BootstrapKubeconfig) (token ca : string) (c : KubeConfig) : Prop :=
  config_token c = Some token ∧
  config_cluster c = Some (mkKCluster (APIServer (bk_Spec b)) (InsecureSkipTLSVerify (bk_Spec b)) ca).

Section Facts.
  Context {E : Type} `{!Kube E, T : !TokenLibs E, !TokenLaws T}.

Lemma GetTokenIDSecret_spec t id secret :
  GetTokenIDSecretFromBootstrapToken t = Ok (id, secret) ↔ token_parts t id secret.
Proof.
  unfold GetTokenIDSecretFromBootstrapToken. split.
  - destruct (FindStringSubmatch_inv t) as [->|(i & s & Hp)]; [done|].
    rewrite (FindStringSubmatch_token _ _ _ Hp). by intros [= -> ->].
  - intros Hp. by rewrite (FindStringSubmatch_token _ _ _ Hp).
Qed.

Lemma secret_token_spec id secret exp :
  secret_token (token_secret id secret exp) = Some (id +:+ "." +:+ secret).
Proof.
  unfold secret_token, token_secret, token_secret_data. cbn [sec_Data list_to_map foldr curry fst snd].
  rewrite lookup_insert_eq. cbn [mbind option_bind].
  rewrite lookup_insert_ne by apply token_keys_distinct. by rewrite lookup_insert_eq.
Qed.

Lemma kubeconfig_spec t id secret b : token_parts t id secret →
  ∃ c, GenerateBootstrapKubeconfigFromBootstrapToken t b = Ok c ∧
    kubeconfig_for b t (CertificateAuthorityData (bk_Spec b)) c ∧
    kc_Clusters c !! DefaultClusterName =
      Some (mkKCluster (APIServer (bk_Spec b)) (InsecureSkipTLSVerify (bk_Spec b))
              (CertificateAuthorityData (bk_Spec b))) ∧
    kc_Contexts c = {[ DefaultContext := mkKContext DefaultClusterName DefaultAuth DefaultNamespace ]} ∧
    kc_CurrentContext c = DefaultContext.
Proof.
  intros Hp. unfold GenerateBootstrapKubeconfigFromBootstrapToken.
  rewrite (proj2 (GetTokenIDSecret_spec t id secret) Hp). destruct Hp as [-> _].
  eexists. split; [done|]. by vm_compute.
Qed.

(** Publishing after the secret was created. *)
Lemma publish_spec t id secret b e :
  token_parts t id secret →
  wp (publish t b) e tt (λ _ _ tr o,
    match Base64.DecodeString (CertificateAuthorityData (bk_Spec b)) with
    | Err err => tr = [] ∧ o = Val (Result0, Some err)
    | Ok ca => ∃ c, kubeconfig_for b t ca c ∧
        match clientcmd_Encode c with
        | Err err => tr = [] ∧ o = Val (Result0, Some err)
        | Ok d =>
            (tr = [] ∧ ∃ err, o = Val (Result0, Some err)) ∨
            ∃ r, tr = [EvPatch (OBootstrapKubeconfig b) (OBootstrapKubeconfig (set_data d b)) r] ∧
                 o = Val (Result0, r)
        end
    end).
Proof.
  intros Hp. unfold publish. destruct (kubeconfig_spec t id secret b Hp) as (c & -> & [Htok Hcl] & Hdef & Hctx & Hcur).
  rewrite Hdef. apply wp_bind, wp_ret. cbn [kcl_CertificateAuthorityData].
  destruct (Base64.DecodeString _) as [ca|err] eqn:Hca; [|by apply wp_ret]. cbn zeta.
  match goal with |- context [clientcmd_Encode ?c'] => set (c1 := c') end.
  assert (kubeconfig_for b t ca c1) as Hc1.
  { split; [exact Htok|]. unfold config_cluster. subst c1. cbn [kc_Contexts kc_CurrentContext kc_Clusters].
    rewrite Hctx, Hcur, lookup_singleton_eq. cbn. apply lookup_insert_eq. }
  clearbody c1. destruct (clientcmd_Encode c1) as [d|err] eqn:Henc.
  2:{ apply wp_ret. exists c1. by rewrite Henc. }
  apply wp_bind, wp_NewHelper; [intros e1 err|intros e1].
  - apply wp_ret. exists c1. rewrite Henc. split; [done|]. left. eauto.
  - apply wp_bind, wp_Patch. intros e2 r. apply wp_ret. exists c1. rewrite Henc. split; [done|]. right. eauto.
Qed.
End Facts.

(** ** Theorems *)

(** C26. A token string splits into id and secret
    exactly when it has the documented form, and then the stored secret and
    the kubeconfig made from it both stand for that very token, the kubeconfig
    through its current context. *)
Theorem bootstrap_token_roundtrip {E : Type} `{T : !TokenLibs E, !TokenLaws T}
    (tokenStr : string) (b : BootstrapKubeconfig) (e : E) :
  match GetTokenIDSecretFromBootstrapToken tokenStr with
  | Ok (id, secret) =>
      token_parts tokenStr id secret ∧
      (∃ c, GenerateBootstrapKubeconfigFromBootstrapToken tokenStr b = Ok c ∧ config_token c = Some tokenStr) ∧
      wp (GenerateSecretFromBootstrapToken tokenStr ttl) e tt (λ _ _ t o,
        t = [] ∧ ∃ s, o = Val (Ok s) ∧ secret_token s = Some tokenStr)
  | Err err =>
      (∀ id secret, ~ token_parts tokenStr id secret) ∧
      GenerateBootstrapKubeconfigFromBootstrapToken tokenStr b = Err err ∧
      wp (GenerateSecretFromBootstrapToken tokenStr ttl) e tt (λ _ _ t o, t = [] ∧ o = Val (Err err))
  end.
Proof.
  destruct (GetTokenIDSecretFromBootstrapToken tokenStr) as [[id secret]|err] eqn:Hget.
  - pose proof Hget as Hp. apply GetTokenIDSecret_spec in Hp. split; [done|]. split.
    + destruct (kubeconfig_spec tokenStr id secret b Hp) as (c & Hc & [Htok _] & _). eauto.
    + unfold GenerateSecretFromBootstrapToken. rewrite Hget. apply wp_bind, wp_call.
      intros e1 exp _. apply wp_ret. split; [done|]. eexists. split; [done|].
      rewrite secret_token_spec. destruct Hp as [-> _]. done.
  - split_and!.
    + intros id secret Hp%GetTokenIDSecret_spec. congruence.
    + unfold GenerateBootstrapKubeconfigFromBootstrapToken. by rewrite Hget.
    + unfold GenerateSecretFromBootstrapToken. rewrite Hget. by apply wp_ret.
Qed.

(** C25. What a reconciliation of a bootstrap
    kubeconfig does: nothing when data is already published; otherwise it
    stores at most one secret, for one fresh well-formed token, and only when
    the server accepted that secret it publishes, in at most one patch that
    changes only the data, the encoding of a kubeconfig that presents the
    stored token to the API server of the spec with its decoded CA data.  It
    reports success only with an accepted patch. *)
Theorem token_stored_before_published {E : Type} `{!Kube E, T : !TokenLibs E, !TokenLaws T}
    (req : NamespacedName) (e : E) :
  wp (Reconcile req) e tt (λ _ _ t o,
    match (kube_Get KBootstrapKubeconfig req e).2 with
    | Err err => t = [EvGet KBootstrapKubeconfig req (Err err)] ∧
        o = Val (Result0, if IsNotFound err then None else Some err)
    | Ok b =>
        if decide (BootstrapKubeconfigData b = None) then
          (t = [EvGet KBootstrapKubeconfig req (Ok (OBootstrapKubeconfig b))] ∧ ∃ err, o = Val (Result0, Some err)) ∨
          ∃ token s r rest, t = EvGet KBootstrapKubeconfig req (Ok (OBootstrapKubeconfig b)) :: EvCreate (OSecret s) r :: rest ∧
            secret_token s = Some token ∧ (∃ id secret, token_parts token id secret) ∧
            ((rest = [] ∧ ∃ err, o = Val (Result0, Some err)) ∨
             r = None ∧ ∃ ca c d perr,
               Base64.DecodeString (CertificateAuthorityData (bk_Spec b)) = Ok ca ∧
               kubeconfig_for b token ca c ∧ clientcmd_Encode c = Ok d ∧
               rest = [EvPatch (OBootstrapKubeconfig b) (OBootstrapKubeconfig (set_data d b)) perr] ∧
               o = Val (Result0, perr))
        else t = [EvGet KBootstrapKubeconfig req (Ok (OBootstrapKubeconfig b))] ∧ o = Val (Result0, None)
    end).
Proof.
  unfold Reconcile, Get. apply wp_bind, wp_call. intros e1 [b|err] Hget; rewrite Hget; cbn [snd]; [|by wp_run].
  destruct (BootstrapKubeconfigData b) as [d|] eqn:Hd; case_decide; [done|by wp_run| |done]. apply wp_bind, wp_call. intros e2 [token|err] Htok; [|wp_run; left; eauto].
  destruct (GenerateBootstrapToken_form e1 token) as (id & secret & Hp); [by rewrite Htok|].
  unfold GenerateSecretFromBootstrapToken. rewrite (proj2 (GetTokenIDSecret_spec token id secret) Hp).
  apply wp_bind, wp_bind, wp_call. intros e3 exp _. apply wp_ret. cbn [app].
  assert (secret_token (token_secret id secret exp) = Some token) as Hst.
  { rewrite secret_token_spec. by destruct Hp as [-> _]. }
  unfold Create. apply wp_bind, wp_call. intros e4 [s|err] _.
  2:{ apply wp_ret. right. do 4 eexists. split_and!; [done|done|by eauto|left; eauto]. }
  eapply wp_mono; [by eapply publish_spec|]. cbn beta. intros e5 u t5 o Ho.
  right. do 4 eexists. split_and!; [done|done|by eauto|].
  destruct (Base64.DecodeString _) as [ca|err]; [|left; destruct Ho as [-> ->]; eauto].
  destruct Ho as (c & Hc & Ho). destruct (clientcmd_Encode c) as [d|err] eqn:Henc.
  2:{ left. destruct Ho as [-> ->]. eauto. }
  destruct Ho as [[-> ?]|(perr & -> & ->)]; [by left|]. right. split; [done|]. by exists ca, c, d, perr.
Qed.


(** C28. The webhook and the controller together: a
    kubeconfig request the webhook accepts, with no data yet, is published by
    the next reconciliation whenever the outside answers (a token is
    generated, the secret is stored, the encoder and the patch succeed); the
    CA data it passed is never what stops it. *)
Theorem accepted_is_published {E : Type} `{!Kube E, T : !TokenLibs E, !TokenLaws T}
    (req : NamespacedName) (b : BootstrapKubeconfig) (e : E) :
  ValidateCreate b = None → BootstrapKubeconfigData b = None →
  (kube_Get KBootstrapKubeconfig req e).2 = Ok b →
  (∀ e, ∃ token, (GenerateBootstrapToken e).2 = Ok token) →
  (∀ s e, ∃ s', (kube_Create KSecret s e).2 = Ok s') →
  (∀ c, ∃ d, clientcmd_Encode c = Ok d) →
  (∀ e, (patch_NewHelper KBootstrapKubeconfig b e).2 = None) →
  (∀ b' e, (patch_Patch KBootstrapKubeconfig b b' [] e).2 = None) →
  wp (Reconcile req) e tt (λ _ _ t o, o = Val (Result0, None) ∧
    ∃ d, patches t = [(OBootstrapKubeconfig b, OBootstrapKubeconfig (set_data d b), None)]).
Proof.
  intros Hv Hd Hget Htoken Hcreate Henc Hhelper Hpatch.
  assert (∃ ca, Base64.DecodeString (CertificateAuthorityData (bk_Spec b)) = Ok ca) as [ca Hca].
  { unfold ValidateCreate in Hv. destruct (validateAPIServer b); [done|]. unfold validateCAData in Hv.
    case_bool_decide; [done|]. destruct (Base64.DecodeString _); [eauto|done]. }
  unfold Reconcile, Get. apply wp_bind, wp_call. intros e1 r1 H1. rewrite H1 in Hget. cbn in Hget. subst r1.
  rewrite Hd. apply wp_bind, wp_call. intros e2 r2 H2.
  destruct (Htoken e1) as [token Ht]. pose proof Ht as (id & secret & Hp)%GenerateBootstrapToken_form.
  rewrite H2 in Ht. cbn in Ht. subst r2.
  unfold GenerateSecretFromBootstrapToken. rewrite (proj2 (GetTokenIDSecret_spec token id secret) Hp).
  apply wp_bind, wp_bind, wp_call. intros e3 exp _. apply wp_ret. cbn [app].
  unfold Create. apply wp_bind, wp_call. intros e4 r4 H4.
  destruct (Hcreate (token_secret id secret exp) e3) as [s Hs]. rewrite H4 in Hs. cbn in Hs. subst r4.
  unfold publish. destruct (kubeconfig_spec token id secret b Hp) as (c & -> & _ & -> & _).
  apply wp_bind, wp_ret. cbn [kcl_CertificateAuthorityData]. rewrite Hca. cbn zeta.
  destruct (Henc (mkKubeConfig (<[DefaultClusterName := set_ca ca (mkKCluster (APIServer (bk_Spec b))
    (InsecureSkipTLSVerify (bk_Spec b)) (CertificateAuthorityData (bk_Spec b)))]> (kc_Clusters c))
    (kc_AuthInfos c) (kc_Contexts c) (kc_CurrentContext c))) as [d ->].
  unfold NewHelper. apply wp_bind, wp_bind. eapply wp_call_ans; [exact Hhelper|]. intros e5.
  apply wp_ret, wp_bind. unfold Patch, Patch_with. apply wp_bind, wp_ret. eapply wp_call_ans; [apply Hpatch|].
  intros e6. apply wp_ret. split; [done|]. by exists d.
Qed.
