(* ===== verification/Watches.v ===== *)
(** * What wakes the controllers (the SetupWithManager functions)

    Each controller declares to controller-runtime the kind it reconciles,
    the other kinds it watches with a function from their objects to
    requests, and filters on events.  The declarations are values here
    ([Controller]), one per SetupWithManager of the manager and the agent;
    controller-runtime, which turns the events of the API server into
    requests by them, is a parameter ([ControllerRuntime]) with its documented
    behaviour as laws.  The theorems say which events reach which reconciler:
    those of a claimed host its machine, those of a paused host nobody on the
    host, and those of certificate requests the approver. *)

From S2P Require Import Prelude GoStrings Encoding Regex Api SafeLabel GoNet Platform CloudInit HostAgent.
From S2P Require Import ByoMachine Installer InstallerConfig ByoHostCtrl ByoClusterCtrl Admission Bootstrap.

(** ** Objects and events *)


Inductive Watched :=
  | WObject (o : Object) | WMachine (m : CapiMachine) | WCluster (c : CapiCluster)
  | WCSR (c : CSR) | WMachineTemplate (t : ByoMachineTemplate).

Inductive WatchKind :=
  | WKByoHost | WKByoMachine | WKByoCluster | WKK8sInstallerConfig | WKBootstrapKubeconfig
  | WKByoMachineTemplate | WKMachine | WKCluster | WKCSR | WKOther.

#[export] Instance WatchKind_eq_dec : EqDecision WatchKind.
Proof. solve_decision. Defined.

Definition kind_of (o : Watched) : WatchKind :=
  match o with
  | WObject (OByoHost _) => WKByoHost
  | WObject (OByoMachine _) => WKByoMachine
  | WObject (OByoCluster _) => WKByoCluster
  | WObject (OK8sInstallerConfig _) => WKK8sInstallerConfig
  | WObject (OBootstrapKubeconfig _) => WKBootstrapKubeconfig
  | WObject (OSecret _) | WObject (OUnstructured _) => WKOther
  | WMachine _ => WKMachine
  | WCluster _ => WKCluster
  | WCSR _ => WKCSR
  | WMachineTemplate _ => WKByoMachineTemplate
  end.

(** Name and namespace; certificate requests are not namespaced. *)
Definition watched_key (o : Watched) : NamespacedName :=
  let key m := mkKey (meta_Namespace m) (meta_Name m) in
  match o with
  | WObject (OByoHost h) => key (host_Meta h)
  | WObject (OByoMachine m) => key (bm_Meta m)
  | WObject (OByoCluster c) => key (bc_Meta c)
  | WObject (OK8sInstallerConfig c) => key (kic_Meta c)
  | WObject (OBootstrapKubeconfig b) => key (bk_Meta b)
  | WObject (OSecret s) => key (sec_Meta s)
  | WObject (OUnstructured u) => key (un_Meta u)
  | WMachine m => key (mach_Meta m)
  | WCluster c => key (clus_Meta c)
  | WCSR c => mkKey "" (csr_Name c)
  | WMachineTemplate t => key (mt_Meta t)
  end.

(** [event.CreateEvent] and the others. *)
Inductive WatchEvent :=
  | CreateEvent (o : Watched) | UpdateEvent (old new : Watched)
  | DeleteEvent (o : Watched) | GenericEvent (o : Watched).

(** The object an event is about, and the objects it carries. *)
Definition subject (ev : WatchEvent) : Watched :=
  match ev with CreateEvent o | UpdateEvent _ o | DeleteEvent o | GenericEvent o => o end.
Definition carried (ev : WatchEvent) : list Watched :=
  match ev with
  | UpdateEvent old new => [old; new]
  | CreateEvent o | DeleteEvent o | GenericEvent o => [o]
  end.

(** ** Declarations *)

(** [predicate.Funcs]: a function per kind of event, nil allowed. *)
Record Funcs := mkFuncs {
  CreateFunc : option (Watched → bool); UpdateFunc : option (Watched → Watched → bool);
  DeleteFunc : option (Watched → bool); GenericFunc : option (Watched → bool) }.

(** The filters the sources use: their own functions, and two of Cluster API. *)
Inductive Predicate :=
  | PFuncs (f : Funcs) | PResourceNotPaused | PClusterUnpausedAndInfrastructureReady.

(** The reconcilers, with the fields that differ between their instances. *)
Inductive Reconciler :=
  | ByoMachineReconciler | ByoHostReconciler | ByoMachineTemplateReconciler | ByoClusterReconciler
  | ByoAdmissionReconciler | K8sInstallerConfigReconciler (SkipKernelModuleCleanup : bool)
  | BootstrapKubeconfigReconciler | AgentHostReconciler (r : HostReconciler).

Section Declarations.
  Context {E : Type} `{!Kube E, !CapiUtil E, !MachineLibs E, !SchemaLibs}.

Record Watch := mkWatch {
  w_kind : WatchKind;
  w_map : Watched → M Event E unit (list NamespacedName);
  w_predicates : list Predicate }.

(** What [ctrl.NewControllerManagedBy(mgr)] collects until [Complete(r)]. *)
Record Controller := mkController {
  ctl_for : WatchKind; ctl_watches : list Watch; ctl_filter : list Predicate; ctl_reconciler : Reconciler }.

(** Two map functions of Cluster API. *)
Class InfrastructureMaps := {
  util_MachineToInfrastructureMapFunc : GVK → Watched → M Event E unit (list NamespacedName);
  util_ClusterToInfrastructureMapFunc : GVK → Watched → M Event E unit (list NamespacedName) }.

  Context `{!InfrastructureMaps}.

(** The map functions on any object. *)
Definition map_hosts (gvk : GVK) (o : Watched) : M Event E unit (list NamespacedName) :=
  match o with WObject o => ret (ByoHostToByoMachineMapFunc gvk o) | _ => ret [] end.
Definition map_clusters (o : Watched) : M Event E unit (list NamespacedName) :=
  match o with WCluster c => ClusterToByoMachines c | _ => ret [] end.
Definition map_machines_to_configs (o : Watched) : M Event E unit (list NamespacedName) :=
  match o with WObject o => ByoMachineToK8sInstallerConfigMapFunc o | _ => panic end.

Definition byomachine_SetupWithManager : Controller :=
  let controlledTypeGVK := WithKind "ByoMachine" in
  mkController WKByoMachine
    [ mkWatch WKByoHost (map_hosts controlledTypeGVK) [];
      mkWatch WKMachine (util_MachineToInfrastructureMapFunc controlledTypeGVK) [];
      mkWatch WKCluster map_clusters [PClusterUnpausedAndInfrastructureReady] ]
    [] ByoMachineReconciler.

Definition byohost_SetupWithManager : Controller := mkController WKByoHost [] [] ByoHostReconciler.

Definition byomachinetemplate_SetupWithManager : Controller :=
  mkController WKByoMachineTemplate [] [] ByoMachineTemplateReconciler.

Definition byocluster_SetupWithManager : Controller :=
  mkController WKByoCluster
    [ mkWatch WKCluster (util_ClusterToInfrastructureMapFunc (WithKind "ByoCluster")) [] ]
    [] ByoClusterReconciler.

Definition watched_name (o : Watched) : string := key_Name (watched_key o).

Definition csr_Funcs : Funcs :=
  mkFuncs (Some (λ o, csr_filter (watched_name o))) (Some (λ old _, csr_filter (watched_name old))) None None.
Definition byoadmission_SetupWithManager : Controller :=
  mkController WKCSR [] [PFuncs csr_Funcs] ByoAdmissionReconciler.

Definition k8sinstallerconfig_SetupWithManager (skip : bool) : Controller :=
  mkController WKK8sInstallerConfig [ mkWatch WKByoMachine map_machines_to_configs [] ]
    [] (K8sInstallerConfigReconciler skip).

Definition bootstrapkubeconfig_SetupWithManager : Controller :=
  mkController WKBootstrapKubeconfig [] [] BootstrapKubeconfigReconciler.

Definition host_SetupWithManager (r : HostReconciler) : Controller :=
  mkController WKByoHost [] [PResourceNotPaused] (AgentHostReconciler r).
End Declarations.
Arguments Watch : clear implicits.
Arguments Controller : clear implicits.
Arguments InfrastructureMaps : clear implicits.

(** ** controller-runtime *)

Class ControllerRuntime (E : Type) := {
  event_passes : Predicate → WatchEvent → bool;
  (** The requests an event puts into the queue of a controller. *)
  enqueued : Controller E → WatchEvent → E → list NamespacedName }.

Definition admitted {E} `{!ControllerRuntime E} (ps : list Predicate) (ev : WatchEvent) : bool :=
  forallb (λ p, event_passes p ev) ps.

(** A request has a reason in the declarations. *)
Definition declared {E} `{!ControllerRuntime E} (ctl : Controller E) (ev : WatchEvent) (k : NamespacedName) : Prop :=
  (kind_of (subject ev) = ctl_for ctl ∧ k = watched_key (subject ev)) ∨
  ∃ w o e ks, w ∈ ctl_watches ctl ∧ kind_of (subject ev) = w_kind w ∧ admitted (w_predicates w) ev = true ∧
    o ∈ carried ev ∧ r_out (w_map w o e tt) = Val ks ∧ k ∈ ks.

(** The documented behaviour: an unset function of [Funcs] lets every event
    pass; a filter of the controller applies to all its watches; the mapping
    of an update is run on both objects. *)
Class ControllerRuntimeLaws {E} (R : ControllerRuntime E) : Prop := {
  passes_funcs f ev : event_passes (PFuncs f) ev =
    match ev with
    | CreateEvent o => from_option (λ g, g o) true (CreateFunc f)
    | UpdateEvent old new => from_option (λ g, g old new) true (UpdateFunc f)
    | DeleteEvent o => from_option (λ g, g o) true (DeleteFunc f)
    | GenericEvent o => from_option (λ g, g o) true (GenericFunc f)
    end;
  passes_not_paused ev h : subject ev = WObject (OByoHost h) →
    event_passes PResourceNotPaused ev = bool_decide (host_Annotations h !! PausedAnnotation = None);
  enqueue_for ctl ev e : kind_of (subject ev) = ctl_for ctl → admitted (ctl_filter ctl) ev = true →
    watched_key (subject ev) ∈ enqueued ctl ev e;
  enqueue_map ctl w ev o ks e : w ∈ ctl_watches ctl → kind_of (subject ev) = w_kind w →
    admitted (ctl_filter ctl ++ w_predicates w) ev = true → o ∈ carried ev →
    (∀ e', r_out (w_map w o e' tt) = Val ks) → ks ⊆ enqueued ctl ev e;
  enqueue_only ctl ev e k : k ∈ enqueued ctl ev e → admitted (ctl_filter ctl) ev = true ∧ declared ctl ev k }.

(** ** The reconcilers by name *)
Section Dispatch.
  Context {E : Type} `{!Kube E, !CapiUtil E, !MachineLibs E, !SchemaLibs, !ConditionsUtil}.
  Context `{!ScriptTemplates, !TokenLibs E, !CsrClient E, !HostSystem E, !HostOS E, !Yaml, !Gzip, !TextTemplate}.

(** byomachinetemplate_controller.go: nothing to do. *)
Definition template_Reconcile (req : NamespacedName) : M Event E unit (Result * option GoError) :=
  ret (Result0, None).

(** The handler a queue calls with a request. *)
Definition reconcile (r : Reconciler) (req : NamespacedName) : M Event E unit (Result * option GoError) :=
  match r with
  | ByoMachineReconciler => ByoMachine.Reconcile req
  | ByoHostReconciler => ByoHostCtrl.Reconcile req
  | ByoMachineTemplateReconciler => template_Reconcile req
  | ByoClusterReconciler => ByoClusterCtrl.Reconcile req
  | ByoAdmissionReconciler => Admission.Reconcile (key_Name req)
  | K8sInstallerConfigReconciler skip => InstallerConfig.Reconcile skip req
  | BootstrapKubeconfigReconciler => Bootstrap.Reconcile req
  | AgentHostReconciler r => HostAgent.Reconcile r req
  end.
End Dispatch.

(** ** Theorems *)
Section Theorems.
  Context {E : Type} `{!Kube E, U : !CapiUtil E, !MachineLibs E, !SchemaLibs, !ConditionsUtil, !InfrastructureMaps E}.
  Context `{R : !ControllerRuntime E, !ControllerRuntimeLaws R}.

Lemma map_hosts_ref h ref e : host_MachineRef h = Some ref → ref_GVK ref = WithKind "ByoMachine" →
  r_out (map_hosts (WithKind "ByoMachine") (WObject (OByoHost h)) e tt) = Val [ref_key ref].
Proof.
  intros Hr Hg. cbn. unfold ByoHostToByoMachineMapFunc. rewrite Hr, Hg. by rewrite bool_decide_false by (intros Hn; by apply Hn).
Qed.

(** A filter that refuses an event keeps the queue empty. *)
Lemma enqueued_nil (ctl : Controller E) ev e : admitted (ctl_filter ctl) ev = false → enqueued ctl ev e = [].
Proof.
  intros Hf. destruct (enqueued ctl ev e) as [|k ks] eqn:Hq; [done|].
  assert (k ∈ enqueued ctl ev e) as Hk by (rewrite Hq; left). apply enqueue_only in Hk as [Hk _].
  by rewrite Hf in Hk.
Qed.

Lemma csr_refused ev : event_passes (PFuncs csr_Funcs) ev = false →
  admitted (ctl_filter (byoadmission_SetupWithManager (E:=E))) ev = false.
Proof. intros Hp. unfold admitted. cbn [ctl_filter byoadmission_SetupWithManager forallb]. by rewrite Hp. Qed.

(** C39. The writes of the agent reach the machine.  Every event on a host
    that carries, before or after the change, a claim as [attachByoHost]
    writes it puts a request for the claiming machine into the queue of the
    machine controller, and one for the host into the queue of the host
    controller: a conditions update of a claimed host, the claim itself, and
    the release, after which the new object no longer names the machine. *)
Theorem claimed_host_wakes_machine (sc : byoMachineScope) (ds v : string) (h : ByoHost) (ev : WatchEvent) (e : E) :
  let bm := sc_ByoMachine sc in
  schema_FromAPIVersionAndKind (tm_APIVersion (bm_Type bm)) (tm_Kind (bm_Type bm)) = WithKind "ByoMachine" →
  kind_of (subject ev) = WKByoHost → WObject (OByoHost (claim_host sc ds v h)) ∈ carried ev →
  mkKey (bm_Namespace bm) (bm_Name bm) ∈ enqueued byomachine_SetupWithManager ev e ∧
  watched_key (subject ev) ∈ enqueued byohost_SetupWithManager ev e.
Proof.
  intros bm Hg Hk Hin. split; [|by apply enqueue_for].
  eapply (enqueue_map byomachine_SetupWithManager (mkWatch WKByoHost (map_hosts (WithKind "ByoMachine")) []));
    [left|exact Hk|done|exact Hin| |].
  - intros e'. by apply map_hosts_ref.
  - left.
Qed.

(** C40. Pausing a cluster stops the agent of its hosts and resuming wakes it.
    When the machine controller has patched a host as paused, the event of
    that patch puts nothing into the queue of the agent; when it has patched
    it as resumed, the event requests the reconciliation of the host.  The
    host controller of the manager is woken in both cases. *)
Theorem pause_reaches_agent (isPaused : bool) (e e' : E) (s : byoMachineScope) (h h' : ByoHost)
    (old : Watched) (r : HostReconciler) `{!CapiUtilLaws U} :
  sc_ByoHost s = Some h →
  EvPatch (OByoHost h) (OByoHost h') None ∈ r_trace (setPausedConditionForByoHost isPaused e s) →
  let ev := UpdateEvent old (WObject (OByoHost h')) in
  (if isPaused then enqueued (host_SetupWithManager r) ev e' = []
   else watched_key (WObject (OByoHost h')) ∈ enqueued (host_SetupWithManager r) ev e') ∧
  watched_key (WObject (OByoHost h')) ∈ enqueued byohost_SetupWithManager ev e'.
Proof.
  intros Hh Hin ev. split; [|by apply (enqueue_for byohost_SetupWithManager ev)].
  pose proof (setPausedConditionForByoHost_spec isPaused e s h Hh) as (_ & _ & [[Ht _]|(err & h1 & _ & Ht & _ & Hh1)]);
    rewrite Ht in Hin; [by apply elem_of_nil in Hin|].
  apply list_elem_of_singleton in Hin as [= <- _].
  assert (event_passes PResourceNotPaused ev = negb isPaused) as Hp.
  { rewrite (passes_not_paused ev h') by done. rewrite Hh1.
    change (host_Annotations (host_set_Annotations ?f h)) with (f (host_Annotations h)). cbn beta.
    destruct isPaused; [apply bool_decide_false|apply bool_decide_true].
    - rewrite AddAnnotations_spec, lookup_union, lookup_singleton_eq. by destruct (_ !! _).
    - by rewrite lookup_delete_eq. }
  destruct isPaused.
  - apply enqueued_nil. cbn. by rewrite Hp.
  - apply (enqueue_for (host_SetupWithManager r) ev); [done|]. cbn. by rewrite Hp.
Qed.

(** The filter of the approver covers creations and updates only.  Events
    that create or update a certificate request whose name is not one of an
    agent are dropped, but the deletion of any request is let through, and
    the approver then approves whatever unanswered request bears the name
    by the time it looks: its handler does not check the name again. *)
Theorem foreign_csr_filter `{!ScriptTemplates, !TokenLibs E, !CsrClient E, !HostSystem E, !HostOS E, !Yaml, !Gzip, !TextTemplate}
    (c : CSR) :
  csr_filter (csr_Name c) = false →
  (∀ e, enqueued byoadmission_SetupWithManager (CreateEvent (WCSR c)) e = []) ∧
  (∀ new e, enqueued byoadmission_SetupWithManager (UpdateEvent (WCSR c) new) e = []) ∧
  (∀ e, mkKey "" (csr_Name c) ∈ enqueued byoadmission_SetupWithManager (DeleteEvent (WCSR c)) e) ∧
  (∀ e e1 c', csr_Get (csr_Name c) e = (e1, Ok c') →
     checkCSRCondition (csr_Conditions c') CertificateApproved = false →
     checkCSRCondition (csr_Conditions c') CertificateDenied = false →
     ∃ types err, EvUpdateApproval (csr_Name c') (types ++ [CertificateApproved]) err ∈
       r_trace (reconcile ByoAdmissionReconciler (mkKey "" (csr_Name c)) e tt)).
Proof.
  intros Hf. split_and!.
  - intros e. apply enqueued_nil, csr_refused.
    rewrite passes_funcs. exact Hf.
  - intros new e. apply enqueued_nil, csr_refused.
    rewrite passes_funcs. exact Hf.
  - intros e. apply (enqueue_for byoadmission_SetupWithManager (DeleteEvent (WCSR c))); [done|]. cbn.
    by rewrite passes_funcs.
  - intros e e1 c' Hg Ha Hd. exists (csrc_Type <$> csr_Conditions c'), (csr_UpdateApproval (csr_Name c')
      (mkCSR (csr_Name c') (csr_Conditions c' ++ [approved_condition])) e1).2.
    unfold reconcile, Admission.Reconcile, key_Name. unfold bind, call. cbn. rewrite Hg. cbn. rewrite Ha, Hd. cbn.
    destruct (csr_UpdateApproval _ _ _) as [e2 [err|]]; cbn; rewrite fmap_app; left.
Qed.
End Theorems.
