(* ===== verification/ManagerMain.v ===== *)
(** * The manager (main.go)

    The start-up of the manager: its options from the flags, the controllers
    and webhooks it registers in order, each of them or the process, and the
    manager as the collection of the reconcilers it registers.  The steps of
    the start-up are recorded as [Step]s with the answer of the library. *)

From S2P Require Import Prelude GoStrings Encoding Regex Api SafeLabel GoNet Platform CloudInit HostAgent.
From S2P Require Import ByoMachine Installer InstallerConfig ByoHostCtrl ByoClusterCtrl Admission Registration Bootstrap Lifecycle Watches.

(** ** Flags *)

Record ManagerFlags := mkManagerFlags {
  metricsAddr : string; enableLeaderElection : bool; probeAddr : string }.

(** [strconv.ParseBool], which the flag package uses for boolean flags. *)
Definition ParseBool (s : string) : option bool :=
  if bool_decide (s ∈ ["1"; "t"; "T"; "TRUE"; "true"; "True"]) then Some true
  else if bool_decide (s ∈ ["0"; "f"; "F"; "FALSE"; "false"; "False"]) then Some false
  else None.

(** The values given on the command line, by flag; a value of the wrong type
    ends the process in [flag.Parse]. *)
Definition setFlags (given : gmap string string) : option ManagerFlags :=
  leader ← match given !! "enable-leader-election" with
           | Some v => ParseBool v
           | None => Some false
           end;
  Some (mkManagerFlags (default ":8080" (given !! "metrics-addr")) leader
          (default ":8081" (given !! "health-probe-bind-address"))).

(** ** The libraries of the start-up *)

(** [ctrl.Options], less the scheme. *)
Record ManagerOptions := mkManagerOptions {
  opt_MetricsBindAddress : string; opt_Port : Z; opt_HealthProbeBindAddress : string;
  opt_LeaderElection : bool; opt_LeaderElectionID : string }.
(** [controller.Options] *)
Record ControllerOptions := mkControllerOptions { MaxConcurrentReconciles : Z }.
Definition concurrency (c : Z) : ControllerOptions := mkControllerOptions c.

Inductive Webhook := ByoHostValidator | BootstrapKubeconfigWebhook.

Inductive Step (E : Type) :=
  | StConfig | StNewManager (o : ManagerOptions) | StTracker | StClusterCache (o : ControllerOptions)
  | StController (c : Controller E) | StClientset | StRegister (path : string) (w : Webhook)
  | StWebhook (w : Webhook) | StHealthz (name : string) | StReadyz (name : string) | StStart.
Arguments StConfig {E}.
Arguments StNewManager {E} o.
Arguments StTracker {E}.
Arguments StClusterCache {E} o.
Arguments StController {E} c.
Arguments StClientset {E}.
Arguments StRegister {E} path w.
Arguments StWebhook {E} w.
Arguments StHealthz {E} name.
Arguments StReadyz {E} name.
Arguments StStart {E}.

(** What each call of the start-up answers.  [GetConfigOrDie] exits the
    process, [NewForConfigOrDie] panics; registering a handler with the
    webhook server gives no answer. *)
Class ManagerRT (E : Type) := step_answer : Step E → E → E * option GoError.

Inductive MainEnd := Returned | Exit1.

Section Main.
  Context {E : Type} `{!Kube E, !CapiUtil E, !MachineLibs E, !SchemaLibs, !InfrastructureMaps E, !ManagerRT E}.

(** Each step is performed and recorded with its answer. *)
Abbreviation SM := (M (Step E * option GoError) E unit).
Definition perform (st : Step E) : SM (option GoError) := call (step_answer st) (λ r, [(st, r)]).

Definition perform_ (st : Step E) : SM unit := call (λ e, ((step_answer st e).1, tt)) (λ _, [(st, None)]).

(** [if err := step; err != nil { log; os.Exit(1) }] *)
Definition or_exit (st : Step E) (k : SM MainEnd) : SM MainEnd :=
  let! err := perform st in
  match err with Some _ => ret Exit1 | None => k end.
(** A step that panics when it fails. *)
Definition or_panic (st : Step E) (k : SM MainEnd) : SM MainEnd :=
  let! err := perform st in
  match err with Some _ => panic | None => k end.

Definition manager_options (fl : ManagerFlags) : ManagerOptions :=
  mkManagerOptions (metricsAddr fl) 9443 (probeAddr fl) (enableLeaderElection fl) "controller-leader-election-caph".

(** [env] is the environment of the process. *)
Definition main (env : string → string) (fl : ManagerFlags) : SM MainEnd :=
  or_exit StConfig (or_exit (StNewManager (manager_options fl))
  (or_exit StTracker (or_exit (StClusterCache (concurrency 0))
  (or_exit (StController byomachine_SetupWithManager)
  (or_exit (StController byohost_SetupWithManager)
  (or_exit (StController byomachinetemplate_SetupWithManager)
  (or_exit (StController byocluster_SetupWithManager)
  (let rest :=
    let skipKernelModuleCleanup := bool_decide (env "BYOH_SKIP_KERNEL_MODULE_CLEANUP" = "enable") in
    or_exit (StController (k8sinstallerconfig_SetupWithManager skipKernelModuleCleanup))
    (perform_ (StRegister "/validate-infrastructure-cluster-x-k8s-io-v1beta1-byohost" ByoHostValidator) ;;;
    or_exit (StController bootstrapkubeconfig_SetupWithManager)
    (or_exit (StWebhook BootstrapKubeconfigWebhook)
    (or_exit (StHealthz "healthz") (or_exit (StReadyz "readyz") (or_exit StStart (ret Returned)))))) in
  if bool_decide (env "MANUAL_CSR_APPROVAL" ≠ "enable") then
    or_exit StConfig (or_panic StClientset (or_exit (StController byoadmission_SetupWithManager) rest))
  else rest)))))))).
End Main.

(** ** The start-up against its plan *)

(** The steps of a start-up in which nothing fails. *)
Section Plan.
  Context {E : Type} `{!Kube E, !CapiUtil E, !MachineLibs E, !SchemaLibs, !InfrastructureMaps E, !ManagerRT E}.

Definition skip_modules (env : string → string) : bool :=
  bool_decide (env "BYOH_SKIP_KERNEL_MODULE_CLEANUP" = "enable").
Definition auto_approval (env : string → string) : bool := bool_decide (env "MANUAL_CSR_APPROVAL" ≠ "enable").

Definition setup_plan (env : string → string) (fl : ManagerFlags) : list (Step E) :=
  [StConfig; StNewManager (manager_options fl); StTracker; StClusterCache (concurrency 0);
   StController byomachine_SetupWithManager; StController byohost_SetupWithManager;
   StController byomachinetemplate_SetupWithManager; StController byocluster_SetupWithManager] ++
  (if auto_approval env then [StConfig; StClientset; StController byoadmission_SetupWithManager] else []) ++
  [StController (k8sinstallerconfig_SetupWithManager (skip_modules env));
   StRegister "/validate-infrastructure-cluster-x-k8s-io-v1beta1-byohost" ByoHostValidator;
   StController bootstrapkubeconfig_SetupWithManager; StWebhook BootstrapKubeconfigWebhook;
   StHealthz "healthz"; StReadyz "readyz"].
Definition plan (env : string → string) (fl : ManagerFlags) : list (Step E) := setup_plan env fl ++ [StStart].

Definition ok_step (st : Step E) : Step E * option GoError := (st, None).
Definition failed_end (st : Step E) : Outcome MainEnd :=
  match st with StClientset => Panic | _ => Val Exit1 end.

(** A run follows a plan: step by step, to the end or to the first failure. *)
Inductive follows : list (Step E) → list (Step E * option GoError) → Outcome MainEnd → Prop :=
  | fo_end : follows [] [] (Val Returned)
  | fo_ok st sts t o : follows sts t o → follows (st :: sts) (ok_step st :: t) o
  | fo_fail st sts err : follows (st :: sts) [(st, Some err)] (failed_end st).

Lemma follows_or_exit st k sts e : failed_end st = Val Exit1 →
  (∀ e, wp k e tt (λ _ _ t o, follows sts t o)) → wp (or_exit st k) e tt (λ _ _ t o, follows (st :: sts) t o).
Proof.
  intros Hst Hk. unfold or_exit, perform. apply wp_bind, wp_call. intros e1 [err|] _.
  - apply wp_ret. rewrite <- Hst. apply fo_fail.
  - eapply wp_mono; [apply Hk|]. cbn beta. intros e2 [] t o Ht. by apply fo_ok.
Qed.
Lemma follows_or_panic k sts e :
  (∀ e, wp k e tt (λ _ _ t o, follows sts t o)) → wp (or_panic StClientset k) e tt (λ _ _ t o, follows (StClientset :: sts) t o).
Proof.
  intros Hk. unfold or_panic, perform. apply wp_bind, wp_call. intros e1 [err|] _.
  - apply wp_panic. apply (fo_fail StClientset).
  - eapply wp_mono; [apply Hk|]. cbn beta. intros e2 [] t o Ht. by apply fo_ok.
Qed.
Lemma follows_perform st k sts e :
  (∀ e, wp k e tt (λ _ _ t o, follows sts t o)) → wp (perform_ st ;;; k) e tt (λ _ _ t o, follows (st :: sts) t o).
Proof.
  intros Hk. unfold perform_. apply wp_bind, wp_call. intros e1 [] _.
  eapply wp_mono; [apply Hk|]. cbn beta. intros e2 [] t o Ht. by apply fo_ok.
Qed.

Ltac follow :=
  repeat first
    [ apply follows_or_exit; [done|intros ?] | apply follows_or_panic; intros ?
    | apply follows_perform; intros ? | apply wp_ret, fo_end ].

Lemma main_follows env fl e : wp (main env fl) e tt (λ _ _ t o, follows (plan env fl) t o).
Proof.
  unfold main, plan, setup_plan, auto_approval, skip_modules.
  destruct (bool_decide (env "MANUAL_CSR_APPROVAL" ≠ "enable")); cbn [app]; follow.
Qed.

Lemma follows_returned sts t o : follows sts t o → o = Val Returned ↔ t = ok_step <$> sts.
Proof.
  induction 1 as [|st sts t o _ IH|st sts err]; [done| |].
  - rewrite IH. cbn. split; [by intros ->|by intros [= ->]].
  - split; [by destruct st|by intros [=]].
Qed.
(** The last step is reached only when all the others succeeded. *)
Lemma follows_last sts st t o : follows (sts ++ [st]) t o → st ∉ sts → st ∈ t.*1 →
  ∃ err, t = (ok_step <$> sts) ++ [(st, err)] ∧ o = match err with None => Val Returned | Some _ => failed_end st end.
Proof.
  revert t. induction sts as [|st' sts IH]; intros t Hf Hni Hin; cbn in Hf.
  - inversion Hf as [|? ? ? ? Hn|]; subst; [|by eexists (Some _)]. inversion Hn; subst. by exists None.
  - inversion Hf as [|? ? ? ? Hn|]; subst; cbn in Hin.
    + apply elem_of_cons in Hin as [->|Hin]; [destruct Hni; left|].
      destruct (IH _ Hn) as (err & -> & ->); [set_solver|done|]. by exists err.
    + apply list_elem_of_singleton in Hin as ->. destruct Hni. left.
Qed.

Lemma start_not_in_setup env fl : StStart ∉ setup_plan env fl.
Proof.
  unfold setup_plan. destruct (auto_approval env); cbn [app]; intros Hin;
    repeat (apply elem_of_cons in Hin as [Hin|Hin]; [done|]); by apply elem_of_nil in Hin.
Qed.

(** C37. The manager starts with everything registered or not at all.  Its
    steps are a prefix of the plan that its environment selects; it ends at
    the first failure, with exit code 1 or, for the clientset, a panic; it
    returns exactly when every step of the plan succeeded, and the manager is
    started exactly after all controllers, both webhooks and both checks were
    accepted, the approver of certificate requests among them unless
    MANUAL_CSR_APPROVAL is "enable". *)
Theorem manager_startup (env : string → string) (fl : ManagerFlags) (e : E) :
  let r := main env fl e tt in
  follows (plan env fl) (r_trace r) (r_out r) ∧
  (r_out r = Val Returned ↔ r_trace r = ok_step <$> plan env fl) ∧
  (StStart ∈ (r_trace r).*1 →
     ∃ err, r_trace r = (ok_step <$> setup_plan env fl) ++ [(StStart, err)] ∧
       r_out r = match err with None => Val Returned | Some _ => Val Exit1 end) ∧
  omap (λ st, match st with StController c => Some (ctl_reconciler c) | _ => None end) (setup_plan env fl) =
    [ByoMachineReconciler; ByoHostReconciler; ByoMachineTemplateReconciler; ByoClusterReconciler] ++
    (if auto_approval env then [ByoAdmissionReconciler] else []) ++
    [K8sInstallerConfigReconciler (skip_modules env); BootstrapKubeconfigReconciler].
Proof.
  intros r. assert (follows (plan env fl) (r_trace r) (r_out r)) as Hf by apply (main_follows env fl e).
  split_and!; [done|by apply follows_returned| |].
  - intros Hin. by apply (follows_last _ StStart) in Hf; [|apply start_not_in_setup|].
  - unfold setup_plan. by destruct (auto_approval env).
Qed.
End Plan.

(** ** The manager as the collection of its reconcilers *)
Section Manager.
  Context {E : Type} `{!Kube E, U : !CapiUtil E, !MachineLibs E, !SchemaLibs, !ConditionsUtil, !InfrastructureMaps E}.
  Context `{!ScriptTemplates, !TokenLibs E, !CsrClient E, !HostSystem E, !HostOS E, !Yaml, !Gzip, !TextTemplate}.
  Context `{!ManagerRT E, !CapiUtilLaws U, !KubeListLaws E}.

(** A computation that patches hosts only by the transformations of the life cycle. *)
Abbreviation hosts_kept := (maintains (E:=E) (λ _, True) patch_ok).

Ltac hosts_kept_run := repeat first [maintains_step|apply maintains_Patch; done].

Lemma bootstrap_hosts_kept req : hosts_kept (Bootstrap.Reconcile (E:=E) req).
Proof.
  unfold Bootstrap.Reconcile, publish, GenerateSecretFromBootstrapToken, Get, Create, NewHelper, Patch.
  hosts_kept_run.
Qed.
Lemma admission_hosts_kept name : hosts_kept (Admission.Reconcile (E:=E) name).
Proof. unfold Admission.Reconcile. hosts_kept_run. Qed.
Lemma config_hosts_kept skip req : hosts_kept (InstallerConfig.Reconcile (E:=E) skip req).
Proof.
  intros e [] _. eapply wp_mono; [apply config_Reconcile_persists|]. cbn beta.
  intros e' [] t o [[-> _]|(c & c' & bm & e1 & tb & ob & perr & _ & -> & _)]; by repeat constructor.
Qed.
Lemma cluster_hosts_kept req : hosts_kept (ByoClusterCtrl.Reconcile (E:=E) req).
Proof.
  intros e [] _. eapply wp_mono; [apply cluster_Reconcile_persists|]. cbn beta.
  intros e' [] t o [-> |(c & c' & e1 & tb & ob & perr & Hb & -> & _)]; [by repeat constructor|].
  assert (patches tb = []) as ->; [|by repeat constructor].
  destruct Hb as (_ & <- & _). apply (wp_mono _ _ _ _ (λ _ _ t _, patches t = []) (reconcile_cluster_spec e1 c)).
  unfold cluster_post. intros e2 c2 t2 o2. by destruct (meta_DeletionTimestamp _); [intros [-> _]|intros (_ & -> & _)].
Qed.

(** C38. No other part of the manager writes hosts.  Whatever request is
    given to whatever controller the manager registers, under any settings of
    its environment and in any world, a patch of a host that the API server
    accepts is one of the transformations of the life cycle: the controllers
    the steps of the life cycle name are the only ones of the manager that
    patch hosts. *)
Theorem manager_host_writes (env : string → string) (fl : ManagerFlags) (ctl : Controller E)
    (req : NamespacedName) (e : E) (h h' : ByoHost) :
  StController ctl ∈ plan env fl →
  (OByoHost h, OByoHost h', None) ∈ patches (r_trace (reconcile (ctl_reconciler ctl) req e tt)) →
  host_step h h'.
Proof.
  intros Hin. apply patches_ok_elem. unfold plan, setup_plan in Hin.
  destruct (auto_approval env); cbn [app] in Hin;
    repeat (apply elem_of_cons in Hin as [Hin|Hin]; [simplify_eq|]); try by apply elem_of_nil in Hin.
  all: cbn [reconcile ctl_reconciler byomachine_SetupWithManager byohost_SetupWithManager
    byomachinetemplate_SetupWithManager byocluster_SetupWithManager byoadmission_SetupWithManager
    k8sinstallerconfig_SetupWithManager bootstrapkubeconfig_SetupWithManager].
  all: first [apply machine_patches_ok|apply manager_patches_ok|by apply cluster_hosts_kept
    |by apply admission_hosts_kept|by apply config_hosts_kept|by apply bootstrap_hosts_kept|by apply patches_ok_nil].
Qed.
End Manager.
