(* ===== verification/MemPlatform.v ===== *)
(** * A platform in memory

    Instances of the platform classes with their laws: an API server that
    keeps its objects in a list, the condition utilities on lists, the Cluster
    API utilities, and a host on which every operation succeeds.  The laws the
    theorems assume hold of it, and the witnesses run on it. *)

From S2P Require Import Prelude GoStrings Encoding Api SafeLabel GoNet Platform CloudInit HostAgent.
From S2P Require Import ByoMachine Registration Bootstrap.

(** ** Conditions as a list with one entry per type *)

Definition find_condition (cs : list Condition) (t : string) : option Condition :=
  list_find (λ c, cond_Type c = t) cs ≫= λ p, Some p.2.

Definition set_condition (cs : list Condition) (c : Condition) : list Condition :=
  c :: filter (λ d, cond_Type d ≠ cond_Type c) cs.

Lemma find_condition_cons c cs t :
  find_condition (c :: cs) t = if decide (cond_Type c = t) then Some c else find_condition cs t.
Proof.
  unfold find_condition. simpl. case_decide; [done|].
  by destruct (list_find _ cs) as [[]|].
Qed.

Lemma find_condition_filter (cs : list Condition) t t' : t ≠ t' →
  find_condition (filter (λ d, cond_Type d ≠ t) cs) t' = find_condition cs t'.
Proof.
  intros Hne. induction cs as [|c cs IH]; [done|]. rewrite filter_cons.
  case_decide; rewrite !find_condition_cons, ?IH; [done|].
  case_decide; [|done]. congruence.
Qed.

#[export] Instance mem_conditions : ConditionsUtil := {|
  conditions_Get := find_condition;
  conditions_IsTrue := λ cs t,
    match find_condition cs t with
    | Some c => bool_decide (cond_Status c = ConditionTrue)
    | None => false
    end;
  conditions_GetReason := λ cs t,
    match find_condition cs t with Some c => cond_Reason c | None => "" end;
  conditions_MarkTrue := λ cs t, set_condition cs (mkCondition t ConditionTrue SeverityNone "" "");
  conditions_MarkFalse := λ cs t reason sev msg,
    set_condition cs (mkCondition t ConditionFalse sev reason msg);
  conditions_SetSummary := λ cs ok,
    set_condition cs (mkCondition ReadyCondition (if ok then ConditionTrue else ConditionFalse)
                        SeverityNone "" "") |}.

Lemma find_set_condition_eq cs c : find_condition (set_condition cs c) (cond_Type c) = Some c.
Proof. unfold set_condition. by rewrite find_condition_cons, decide_True. Qed.
Lemma find_set_condition_ne cs c t : cond_Type c ≠ t →
  find_condition (set_condition cs c) t = find_condition cs t.
Proof.
  intros. unfold set_condition. rewrite find_condition_cons, decide_False by done.
  by apply find_condition_filter.
Qed.

#[export] Instance mem_conditions_laws : ConditionsLaws mem_conditions.
Proof.
  split; intros.
  - apply (find_set_condition_eq cs (mkCondition t _ _ _ _)).
  - by apply find_set_condition_ne.
  - apply (find_set_condition_eq cs (mkCondition t _ _ _ _)).
  - by apply find_set_condition_ne.
  - done.
  - done.
Qed.

(** ** The API server *)

Definition from_object (k : Kind) (o : Object) : option (obj k) :=
  match k, o with
  | KByoHost, OByoHost h => Some h
  | KByoMachine, OByoMachine m => Some m
  | KByoCluster, OByoCluster c => Some c
  | KK8sInstallerConfig, OK8sInstallerConfig c => Some c
  | KBootstrapKubeconfig, OBootstrapKubeconfig b => Some b
  | KSecret, OSecret s => Some s
  | KUnstructured gvk, OUnstructured u => if bool_decide (un_GVK u = gvk) then Some u else None
  | _, _ => None
  end.

(** What the witnesses need of the world: the stored objects and the objects
    the Cluster API lookups return. *)
Record World := mkWorld {
  w_Objects : list Object;
  w_Machine : option CapiMachine;
  w_Cluster : option CapiCluster;
  w_Failing : list string  (* the shell commands that fail on the host, and "patch" *) }.

Definition w_set_Objects (os : list Object) (w : World) : World :=
  mkWorld os (w_Machine w) (w_Cluster w) (w_Failing w).

Definition has_key (k : Kind) (key : NamespacedName) (o : Object) : bool :=
  match from_object k o with Some x => bool_decide (key_of k x = key) | None => false end.

Fixpoint find_object (k : Kind) (key : NamespacedName) (os : list Object) : option (obj k) :=
  match os with
  | [] => None
  | o :: os' =>
      match from_object k o with
      | Some x => if bool_decide (key_of k x = key) then Some x else find_object k key os'
      | None => find_object k key os'
      end
  end.

Definition replace_object (k : Kind) (x : obj k) (os : list Object) : list Object :=
  (λ o, if has_key k (key_of k x) o then to_object k x else o) <$> os.

Definition not_found : GoError := mkError ENotFound "not found".

Definition req_matches (ls : gmap string string) (r : Requirement) : bool :=
  match req_Operator r with
  | DoesNotExist => bool_decide (ls !! req_Key r = None)
  | Equals => match req_Values r with
              | [v] => bool_decide (ls !! req_Key r = Some v)
              | _ => false
              end
  | OtherOperator _ => false
  end.
Definition selector_matches (s : Selector) (ls : gmap string string) : bool :=
  forallb (req_matches ls) s.

#[export] Instance mem_kube : Kube World := {|
  kube_Get := λ k key w,
    (w, match find_object k key (w_Objects w) with Some x => Ok x | None => Err not_found end);
  kube_List := λ k opts w,
    (w, Ok (filter (λ x, selector_matches (lo_LabelSelector opts) (meta_Labels (meta_of k x)) = true ∧
                         (lo_Namespace opts = "" ∨ meta_Namespace (meta_of k x) = lo_Namespace opts))
              (omap (from_object k) (w_Objects w))));
  kube_Create := λ k x w,
    match find_object k (key_of k x) (w_Objects w) with
    | Some _ => (w, Err (mkError EAlreadyExists "already exists"))
    | None => (w_set_Objects (w_Objects w ++ [to_object k x]) w, Ok x)
    end;
  kube_Update := λ k x w,
    match find_object k (key_of k x) (w_Objects w) with
    | Some _ => (w_set_Objects (replace_object k x (w_Objects w)) w, Ok x)
    | None => (w, Err not_found)
    end;
  kube_Delete := λ k x w,
    match find_object k (key_of k x) (w_Objects w) with
    | Some _ => (w_set_Objects (filter (λ o, has_key k (key_of k x) o = false) (w_Objects w)) w, None)
    | None => (w, Some not_found)
    end;
  patch_NewHelper := λ k x w, (w, None);
  patch_Patch := λ k _ x _ w,
    if bool_decide ("patch" ∈ w_Failing w) then (w, Some (errors_New "timeout")) else
    match find_object k (key_of k x) (w_Objects w) with
    | Some _ => (w_set_Objects (replace_object k x (w_Objects w)) w, None)
    | None => (w, Some not_found)
    end |}.

(** ** Cluster API utilities *)

#[export] Instance mem_capi : CapiUtil World := {|
  util_GetOwnerMachine := λ _ w, (w, Ok (w_Machine w));
  util_GetClusterFromMetadata := λ _ w,
    (w, match w_Cluster w with Some c => Ok (Some c) | None => Err not_found end);
  util_GetOwnerCluster := λ _ w, (w, Ok (w_Cluster w));
  annotations_IsPaused := λ c m,
    clus_Paused c || bool_decide (is_Some (meta_Annotations m !! PausedAnnotation));
  annotations_AddAnnotations := λ old new, new ∪ old;
  controllerutil_AddFinalizer := λ l f, if bool_decide (f ∈ l) then l else l ++ [f];
  controllerutil_RemoveFinalizer := λ l f, filter (λ g, g ≠ f) l;
  controllerutil_ContainsFinalizer := λ l f, bool_decide (f ∈ l);
  labels_NewRequirement := λ k op vs,
    if valid_label_key k && forallb valid_label_value vs then Ok (mkRequirement k op vs)
    else Err (errors_New "invalid label");
  labels_SelectorAdd := λ s r, s ++ [r];
  labels_Matches := selector_matches;
  metav1_LabelSelectorAsSelector := λ ls,
    if bool_decide (ls_MatchExpressions ls = [])
    then Ok ((λ kv, mkRequirement kv.1 Equals [kv.2]) <$> map_to_list (ls_MatchLabels ls))
    else Err (errors_New "unsupported expression") |}.

#[export] Instance mem_capi_laws : CapiUtilLaws mem_capi.
Proof.
  split; cbn.
  - intros c m. by rewrite orb_true_iff, bool_decide_eq_true.
  - done.
  - intros l f g. case_bool_decide; rewrite ?elem_of_app, ?list_elem_of_singleton; [|tauto].
    split; [by right|]. by intros [-> |?].
  - intros l f g. rewrite list_elem_of_filter. done.
  - intros l f. by rewrite bool_decide_eq_true.
  - intros k v -> ->. done.
  - intros k op vs r. case_match; congruence.
  - intros k ->. done.
  - intros s r ls. unfold selector_matches. rewrite forallb_app, andb_true_iff. done.
  - intros k vs ls. unfold req_matches. cbn. by rewrite andb_true_r, bool_decide_eq_true.
  - intros k v ls. unfold req_matches. cbn. by rewrite andb_true_r, bool_decide_eq_true.
  - done.
Qed.

#[export] Instance mem_list_laws : KubeListLaws World.
Proof.
  split. intros k opts e e' items x [= <- <-] Hx. apply list_elem_of_filter in Hx as [[Hs Hns] _].
  split; [exact Hs|]. intros Hne. by destruct Hns.
Qed.

(** ** The workload cluster and the unstructured helpers *)

Fixpoint json_field (fs : list (string * Json)) (k : string) : option Json :=
  match fs with
  | [] => None
  | (k', v) :: fs' => if bool_decide (k = k') then Some v else json_field fs' k
  end.
Fixpoint json_path (j : Json) (path : list string) : result (option Json) :=
  match path with
  | [] => Ok (Some j)
  | k :: path' =>
      match j with
      | JObj fs => match json_field fs k with Some j' => json_path j' path' | None => Ok None end
      | _ => Err (errors_New "not an object")
      end
  end.
Definition json_string (fs : list (string * Json)) (k : string) : string :=
  match json_field fs k with Some (JStr s) => s | _ => "" end.

Fixpoint repeat_char (c : Ascii.ascii) (n : nat) : string :=
  match n with 0 => EmptyString | S n' => String c (repeat_char c n') end.

(** A node without a provider ID under every name. *)
#[export] Instance mem_machine_libs : MachineLibs World := {|
  RemoteClient := unit;
  tracker_GetClient := λ _ w, (w, Ok tt);
  remote_GetNode := λ _ key w,
    (w, Ok (mkNode (mkObjectMeta (key_Name key) (key_Namespace key) "" ∅ ∅ [] [] None) ""));
  remote_NewHelper := λ _ _ w, (w, None);
  remote_PatchNode := λ _ _ _ w, (w, None);
  util_RandomString := λ n w, (w, repeat_char (chr 97) n);
  schema_FromAPIVersionAndKind := λ v k,
    match Cut v slash with
    | (g, v', true) => mkGVK g v' k
    | (_, _, false) => mkGVK "" v k
    end;
  unstructured_NestedField := json_path;
  FromUnstructured_ref := λ fs,
    Ok (mkObjectReference (json_string fs "kind") (json_string fs "namespace") (json_string fs "name")
          (json_string fs "uid") (json_string fs "apiVersion"));
  external_IsReady := λ u,
    match json_path (un_Content u) ["status"; "ready"] with
    | Ok (Some (JBool b)) => Ok b
    | Ok _ => Ok false
    | Err err => Err err
    end;
  external_GenerateTemplate := λ u _ _ ls ns owner,
    Ok (mkUnstructured (un_GVK u) (mkObjectMeta (meta_Name (un_Meta u)) ns "" ls ∅ [] [owner] None) (un_Content u));
  metav1_NewControllerRef := λ m gvk,
    mkOwnerReference (gvk_Group gvk +:+ "/" +:+ gvk_Version gvk) (gvk_Kind gvk) (meta_Name m) (meta_UID m) true |}.

#[export] Instance mem_random_laws : RandomLaws World.
Proof. split; cbn; intros n _; induction n; simpl; auto. Qed.

(** ** Bootstrap tokens *)

Definition token_submatch (t : string) : list string :=
  match Cut t (chr 46) with
  | (id, secret, true) =>
      if (String.length id =? 6) && (String.length secret =? 16) &&
         all_chars token_char id && all_chars token_char secret
      then [t; id; secret] else []
  | _ => []
  end.
Definition sample_token : string := "abcdef.0123456789abcdef".

Definition token_libs {E} : TokenLibs E := {|
  BootstrapTokenPattern := "[a-z0-9]{6}[.][a-z0-9]{16}";
  BootstrapTokenRegexp_FindStringSubmatch := token_submatch;
  BootstrapTokenSecretName := λ id, "bootstrap-token-" +:+ id;
  SecretTypeBootstrapToken := "bootstrap.kubernetes.io/token";
  NamespaceSystem := "kube-system";
  BootstrapTokenIDKey := "token-id";
  BootstrapTokenSecretKey := "token-secret";
  BootstrapTokenExpirationKey := "expiration";
  BootstrapTokenUsageSigningKey := "usage-bootstrap-signing";
  BootstrapTokenUsageAuthentication := "usage-bootstrap-authentication";
  BootstrapTokenDescriptionKey := "description";
  BootstrapTokenExtraGroupsKey := "auth-extra-groups";
  GenerateBootstrapToken := λ w, (w, Ok sample_token);
  time_Now_Add_RFC3339 := λ _ w, (w, "2022-01-01T00:30:00Z");
  clientcmd_Encode := λ c, Ok (kc_CurrentContext c) |}.

Lemma Cut_app s sep t : contains_char sep s = false → Cut (s +:+ String sep t) sep = (s, t, true).
Proof.
  induction s as [|c s IH]; cbn [contains_char Cut String.append].
  - by rewrite Ascii.eqb_refl.
  - intros [Hc Hs]%orb_false_iff. by rewrite Ascii.eqb_sym, Hc, IH.
Qed.
Lemma Cut_true s sep a b : Cut s sep = (a, b, true) → s = a +:+ String sep b.
Proof.
  revert a. induction s as [|c s IH]; intros a; cbn [Cut]; [done|].
  destruct (Ascii.eqb c sep) eqn:Hc; [intros [= <- <-]; by apply Ascii.eqb_eq in Hc as ->|].
  destruct (Cut s sep) as [[a' b'] f] eqn:Hs. intros [= <- -> ->]. by rewrite (IH a').
Qed.

#[export] Instance mem_token_libs : TokenLibs World := token_libs.
#[export] Instance token_laws {E} : TokenLaws (@token_libs E).
Proof.
  split.
  - intros t id secret (-> & Hi & Hs & Hci & Hcs).
    change (token_submatch (id +:+ "." +:+ secret) = [id +:+ "." +:+ secret; id; secret]). unfold token_submatch.
    assert (Cut (id +:+ "." +:+ secret) (chr 46) = (id, secret, true)) as ->
      by (apply (Cut_app id (chr 46) secret); by eapply all_chars_not_contains, Hci).
    by rewrite Hi, Hs, Hci, Hcs.
  - intros t. cbn. unfold token_submatch. destruct (Cut t (chr 46)) as [[id secret] []] eqn:Hc; [|by left].
    destruct (_ && _) eqn:Hb; [|by left]. right. exists id, secret.
    rewrite !andb_true_iff, !Nat.eqb_eq in Hb. apply Cut_true in Hc. by destruct Hb as [[[??]?]?].
  - intros e t [= <-]. by exists "abcdef", "0123456789abcdef".
  - done.
Qed.

(** ** The host *)

(** Stored (uncompressed) streams behind the two magic bytes of the format. *)
Definition gz_magic : string := String (chr 31) (String (chr 139) EmptyString).

#[export] Instance gzip_stored : Gzip := {|
  GzReader := string;
  gzip_NewReader := λ s,
    if HasPrefix s gz_magic then Ok (slice_from 2 s) else Err (errors_New "gzip: invalid header");
  gzip_ReadFrom := λ r, Ok r;
  GzWriter := string;
  gzip_NewWriter := gz_magic;
  gzip_Write := λ w d, (w +:+ d, None);
  gzip_Flush := λ w, (w, None);
  gzip_Close := λ w, (w, None);
  gzip_Bytes := λ w, w |}.

#[export] Instance gzip_stored_laws : GzipLaws gzip_stored.
Proof.
  split. intros d w1 w2 w3. cbn -[gz_magic String.append]. intros [= <-] [= <-] [= <-].
  exists d. split; [|reflexivity]. by destruct d.
Qed.

Definition yaml_const (d : bootstrapConfig) : Yaml := {| yaml_Unmarshal := λ _, Ok d |}.

#[export] Instance template_id : TextTemplate :=
  {| Tmpl := string; template_Parse := λ s, Ok s; template_Execute := λ s _, Ok s |}.

#[export] Instance mem_host : HostSystem World := {|
  sys_RunCmd := λ c w,
    (w, if bool_decide (c ∈ w_Failing w) then Some (errors_New "exit status 1") else None);
  sys_MkdirIfNotExists := λ _ w, (w, None);
  sys_WriteToFile := λ _ w, (w, None) |}.

#[export] Instance mem_os : HostOS World := {|
  filepath_Glob := λ _ w, (w, Ok []);
  os_RemoveAll := λ _ w, (w, None);
  os_Stat := λ _ w, (w, None);
  os_Remove := λ _ w, (w, None);
  VipNetwork := string * string;
  vip_NewConfig := λ ip iface w, (w, Ok (ip, iface));
  vip_DeleteIP := λ _ w, (w, None) |}.

#[export] Instance mem_net : HostNet World := {|
  gateway_DiscoverInterface := λ w, (w, Ok "10.0.0.2");
  net_Interfaces := λ w, (w, Ok []);
  iface_Addrs := λ _ w, (w, Ok []);
  os_ReadFile := λ _ w, (w, Ok "PRETTY_NAME=Ubuntu 22.04 LTS");
  runtime_GOARCH := "amd64";
  runtime_GOOS := "linux" |}.

(** The secrets a run read. *)
Definition secrets_read (t : list Event) : list Secret :=
  omap (λ ev, match ev with EvGet _ _ (Ok (OSecret s)) => Some s | _ => None end) t.
Lemma secrets_read_in k key s t : EvGet k key (Ok (OSecret s)) ∈ t → s ∈ secrets_read t.
Proof. intros Hin. apply list_elem_of_omap. by exists (EvGet k key (Ok (OSecret s))). Qed.

(** The accepted patches of a run, by computation. *)
Definition refused (p : Object * Object * option GoError) : bool :=
  match p.2 with Some _ => true | None => false end.
Lemma no_accepted_patch t b a : forallb refused (patches t) = true → EvPatch b a None ∉ t.
Proof.
  intros Hall Hin. rewrite forallb_forall in Hall.
  assert (In (b, a, None) (patches t)) as Hin'.
  { apply list_elem_of_In, list_elem_of_omap. by exists (EvPatch b a None). }
  by apply Hall in Hin'.
Qed.
Lemma one_accepted_patch t b a : patches t = [(b, a, None)] → EvPatch b a None ∈ t.
Proof.
  intros Hp. assert ((b, a, None) ∈ patches t) as Hin by (rewrite Hp; set_solver).
  apply list_elem_of_omap in Hin as (ev & Hin & Hev). by destruct ev; simplify_eq.
Qed.

(** ** A world that never fails: fixed objects, no state *)

Definition fixed_kube (os : list Object) : Kube unit := {|
  kube_Get := λ k key w,
    (w, match find_object k key os with Some x => Ok x | None => Err not_found end);
  kube_List := λ k opts w, (w, Ok (omap (from_object k) os));
  kube_Create := λ k x w, (w, Ok x);
  kube_Update := λ k x w, (w, Ok x);
  kube_Delete := λ k x w, (w, None);
  patch_NewHelper := λ k x w, (w, None);
  patch_Patch := λ k _ x _ w, (w, None) |}.

#[export] Instance host_ok : HostSystem unit := {|
  sys_RunCmd := λ _ w, (w, None);
  sys_MkdirIfNotExists := λ _ w, (w, None);
  sys_WriteToFile := λ _ w, (w, None) |}.

#[export] Instance os_ok : HostOS unit := {|
  filepath_Glob := λ _ w, (w, Ok []);
  os_RemoveAll := λ _ w, (w, None);
  os_Stat := λ _ w, (w, None);
  os_Remove := λ _ w, (w, None);
  VipNetwork := string * string;
  vip_NewConfig := λ ip iface w, (w, Ok (ip, iface));
  vip_DeleteIP := λ _ w, (w, None) |}.
