(* ===== verification/HeapWitnesses.v ===== *)
(** * The structs of the libraries, and deep copies at a concrete heap

    An instance of the parameters of DeepCopy.v: the fields of the structs of
    Kubernetes and Cluster API the library reads, in memory and with deep
    copies, and with proofs of the laws.  A host in memory and its copy. *)

From S2P Require Import Prelude Api GoHeap DeepCopy.

(** ** The structs in memory *)

Record MObjectMeta := mkMObjectMeta {
  om_Name : string; om_Namespace : string; om_UID : string;
  om_Labels : GoMap string; om_Annotations : GoMap string;
  om_Finalizers : Slice string; om_OwnerReferences : Slice OwnerReference;
  om_DeletionTimestamp : Ptr Z }.

Record MListMeta := mkMListMeta {
  mlm_SelfLink : string; mlm_ResourceVersion : string; mlm_Continue : string;
  mlm_RemainingItemCount : Ptr Z }.

Record MRequirement := mkMRequirement {
  mreq_Key : string; mreq_Operator : string; mreq_Values : Slice string }.

Record MLabelSelector := mkMLabelSelector {
  mls_MatchLabels : GoMap string; mls_MatchExpressions : Slice MRequirement }.

Record MFailureDomainSpec := mkMFailureDomainSpec {
  mfd_ControlPlane : bool; mfd_Attributes : GoMap string }.

Record MTemplateMeta := mkMTemplateMeta { mtm_Labels : GoMap string; mtm_Annotations : GoMap string }.

Inductive MCell :=
  | MMap (m : gmap string string)
  | MOwners (l : list OwnerReference)
  | MRequirements (l : list MRequirement)
  | MInt (z : Z).

#[export] Instance mem_types : LibTypes := {|
  GObjectMeta := MObjectMeta; GListMeta := MListMeta; GLabelSelector := MLabelSelector;
  GCondition := Condition; GFailureDomainSpec := MFailureDomainSpec;
  GTemplateMeta := MTemplateMeta; LibCell := MCell |}.

#[export] Instance Storable_labels : Storable Cell (gmap string string) := {|
  to_cell m := CLib (MMap m);
  of_cell c := match c with CLib (MMap m) => Some m | _ => None end;
  of_to_cell _ := eq_refl |}.
#[export] Instance Storable_owners : Storable Cell (list OwnerReference) := {|
  to_cell l := CLib (MOwners l);
  of_cell c := match c with CLib (MOwners l) => Some l | _ => None end;
  of_to_cell _ := eq_refl |}.
#[export] Instance Storable_requirements : Storable Cell (list MRequirement) := {|
  to_cell l := CLib (MRequirements l);
  of_cell c := match c with CLib (MRequirements l) => Some l | _ => None end;
  of_to_cell _ := eq_refl |}.
#[export] Instance Storable_int : Storable Cell Z := {|
  to_cell z := CLib (MInt z);
  of_cell c := match c with CLib (MInt z) => Some z | _ => None end;
  of_to_cell _ := eq_refl |}.

#[export] Instance mem_range : RangeOrder := λ T m, map_to_list m.
#[export] Instance mem_range_laws : RangeLaws.
Proof. intros T m. reflexivity. Qed.

(** ** Views and copies *)

Definition view_meta (h : Heap Cell) (x : MObjectMeta) : View ObjectMeta :=
  vret mkObjectMeta
    ⊛ view_plain h (om_Name x)
    ⊛ view_plain h (om_Namespace x)
    ⊛ view_plain h (om_UID x)
    ⊛ view_map view_plain h (om_Labels x)
    ⊛ view_map view_plain h (om_Annotations x)
    ⊛ view_slice view_plain h (om_Finalizers x)
    ⊛ view_slice view_plain h (om_OwnerReferences x)
    ⊛ view_ptr view_plain h (om_DeletionTimestamp x).

Definition copy_meta (x : MObjectMeta) : HM Cell MObjectMeta :=
  let* labels := copy_map hret (om_Labels x) in
  let* annotations := copy_map hret (om_Annotations x) in
  let* finalizers := copy_slice hret (om_Finalizers x) in
  let* owners := copy_slice hret (om_OwnerReferences x) in
  let* deletion := copy_ptr hret (om_DeletionTimestamp x) in
  hret (mkMObjectMeta (om_Name x) (om_Namespace x) (om_UID x) labels annotations finalizers owners deletion).

Definition view_list_meta (h : Heap Cell) (x : MListMeta) : View ListMeta :=
  vret mkListMeta
    ⊛ view_plain h (mlm_SelfLink x)
    ⊛ view_plain h (mlm_ResourceVersion x)
    ⊛ view_plain h (mlm_Continue x)
    ⊛ view_ptr view_plain h (mlm_RemainingItemCount x).

Definition copy_list_meta (x : MListMeta) : HM Cell MListMeta :=
  let* count := copy_ptr hret (mlm_RemainingItemCount x) in
  hret (mkMListMeta (mlm_SelfLink x) (mlm_ResourceVersion x) (mlm_Continue x) count).

Definition view_requirement (h : Heap Cell) (x : MRequirement) : View LabelSelectorRequirement :=
  vret mkLSR
    ⊛ view_plain h (mreq_Key x)
    ⊛ view_plain h (mreq_Operator x)
    ⊛ view_slice view_plain h (mreq_Values x).

Definition copy_requirement (x : MRequirement) : HM Cell MRequirement :=
  let* values := copy_slice hret (mreq_Values x) in
  hret (mkMRequirement (mreq_Key x) (mreq_Operator x) values).

Definition view_selector (h : Heap Cell) (x : MLabelSelector) : View LabelSelector :=
  vret mkLabelSelector
    ⊛ view_map view_plain h (mls_MatchLabels x)
    ⊛ view_slice view_requirement h (mls_MatchExpressions x).

Definition copy_selector (x : MLabelSelector) : HM Cell MLabelSelector :=
  let* labels := copy_map hret (mls_MatchLabels x) in
  let* exprs := copy_slice copy_requirement (mls_MatchExpressions x) in
  hret (mkMLabelSelector labels exprs).

Definition view_domain (h : Heap Cell) (x : MFailureDomainSpec) : View FailureDomainSpec :=
  vret mkFailureDomainSpec
    ⊛ view_plain h (mfd_ControlPlane x)
    ⊛ view_map view_plain h (mfd_Attributes x).

Definition copy_domain (x : MFailureDomainSpec) : HM Cell MFailureDomainSpec :=
  let* attributes := copy_map hret (mfd_Attributes x) in
  hret (mkMFailureDomainSpec (mfd_ControlPlane x) attributes).

Definition view_tmeta (h : Heap Cell) (x : MTemplateMeta) : View TemplateMeta :=
  vret mkTemplateMeta
    ⊛ view_map view_plain h (mtm_Labels x)
    ⊛ view_map view_plain h (mtm_Annotations x).

Definition copy_tmeta (x : MTemplateMeta) : HM Cell MTemplateMeta :=
  let* labels := copy_map hret (mtm_Labels x) in
  let* annotations := copy_map hret (mtm_Annotations x) in
  hret (mkMTemplateMeta labels annotations).

#[export] Instance mem_copy : LibCopy := {|
  view_ObjectMeta := view_meta; view_ListMeta := view_list_meta;
  view_LabelSelector := view_selector; view_Condition := view_plain;
  view_FailureDomainSpec := view_domain; view_TemplateMeta := view_tmeta;
  ObjectMeta_DeepCopyInto := copy_meta; ListMeta_DeepCopyInto := copy_list_meta;
  LabelSelector_DeepCopyInto := copy_selector; Condition_DeepCopyInto := hret;
  FailureDomainSpec_DeepCopyInto := copy_domain; TemplateMeta_DeepCopyInto := copy_tmeta |}.

#[export] Instance Local_requirement : Local view_requirement.
Proof. local_fields. Qed.
#[export] Instance Copies_requirement : Copies view_requirement copy_requirement.
Proof. copy_fields. Qed.

#[export] Instance mem_laws : LibLaws.
Proof.
  split; simpl; first [local_fields | copy_fields | apply _].
Qed.

(** ** A claimed host in memory

    The pointer to the host is 0; the label map, the uninstall secret's
    reference, the conditions and the addresses are cells of their own. *)

Definition mem_secret_ref (name : string) : ObjectReference := mkObjectReference "Secret" "ns" name "" "v1".

Definition mem_host : GByoHost :=
  mkGByoHost (mkTypeMeta "ByoHost" GroupVersion_String)
    (mkMObjectMeta "host1" "ns" "uid1" (Some 1) None None None None)
    (mkGByoHostSpec None None (Some 2))
    (mkGByoHostStatus None (Some (mkWindow 3 0 1)) (mkHostInfo "linux" "Ubuntu" "amd64")
       (Some (mkWindow 4 1 1))).

Definition mem_heap : Heap Cell :=
  {[ 0 := CByoHost mem_host;
     1 := CLib (MMap {[ AttachedByoMachineLabel := "ns.m1" ]});
     2 := CObjectReference (mem_secret_ref "uninstall-1");
     3 := CConditions [mkCondition K8sNodeBootstrapSucceeded ConditionTrue SeverityNone "" ""];
     4 := CNetwork [mkGNetworkStatus false None "" "lo" false;
                    mkGNetworkStatus true (Some (mkWindow 5 0 1)) "aa" "eth0" true];
     5 := CStrings ["10.0.0.1"] ]}.

Definition mem_host_value : ByoHost :=
  mkByoHost (mkTypeMeta "ByoHost" GroupVersion_String)
    (mkObjectMeta "host1" "ns" "uid1" {[ AttachedByoMachineLabel := "ns.m1" ]} ∅ [] [] None)
    (mkByoHostSpec None None (Some (mem_secret_ref "uninstall-1")))
    (mkByoHostStatus None [mkCondition K8sNodeBootstrapSucceeded ConditionTrue SeverityNone "" ""]
       (mkHostInfo "linux" "Ubuntu" "amd64") [mkNetworkStatus true ["10.0.0.1"] "aa" "eth0" true]).

Lemma mem_host_view :
  view_object mem_heap (RByoHost (Some 0)) = Some (VByoHost mem_host_value, {[0; 1; 2; 3; 4; 5]}).
Proof. vm_compute. reflexivity. Defined.

Lemma DeepCopyObject_snapshot_witness :
  ∃ h' o' S', DeepCopyObject (RByoHost (Some 0)) mem_heap = Some (h', Some o') ∧ mem_heap ⊆ h' ∧
    view_object h' o' = Some (VByoHost mem_host_value, S') ∧
    (∀ h'', (∀ l, l ∈ dom h' → l ∉ dom mem_heap → h'' !! l = h' !! l) →
       view_object h'' o' = Some (VByoHost mem_host_value, S')) ∧
    (∀ h'', (∀ l, l ∉ S' → h'' !! l = h' !! l) →
       view_object h'' (RByoHost (Some 0)) = Some (VByoHost mem_host_value, {[0; 1; 2; 3; 4; 5]})).
Proof. apply (DeepCopyObject_snapshot mem_heap (RByoHost (Some 0))). exact mem_host_view. Defined.

(** Assigning a struct ([*out = *in]) is not a snapshot: when the handler
    writes through the secret's pointer, the assigned struct sees it, the deep
    copy does not. *)
Definition uninstall_secret_of (h : Heap Cell) (o : option RuntimeObject) : option string :=
  match o ≫= λ o, fst <$> view_object h o with
  | Some (VByoHost v) => ref_Name <$> host_UninstallationSecret v
  | _ => None
  end.

Definition write_secret (h : Heap Cell) : Heap Cell :=
  <[2 := CObjectReference (mem_secret_ref "other")]> h.

Example deep_copy_keeps_secret :
  match DeepCopyObject (RByoHost (Some 0)) mem_heap with
  | Some (h, o) => uninstall_secret_of (write_secret h) o
  | None => None
  end = Some "uninstall-1".
Proof. vm_compute. reflexivity. Qed.

Example assignment_shares_secret :
  match copy_ptr hret (Some 0 : Ptr GByoHost) mem_heap with
  | Some (h, p) => uninstall_secret_of (write_secret h) (Some (RByoHost p))
  | None => None
  end = Some "other".
Proof. vm_compute. reflexivity. Qed.

(** A nil list pointer. *)
Example nil_is_nil : DeepCopyObject (RByoHostList None) mem_heap = Some (mem_heap, None).
Proof. apply DeepCopyObject_nil. reflexivity. Qed.
