(* ===== verification/ManagerWitnesses.v ===== *)
(** * Witnesses for the manager's controllers and webhooks

    Each theorem on the manager that has hypotheses, applied to the platform
    in memory at a concrete state where its hypotheses hold. *)

From S2P Require Import Prelude GoStrings Encoding Regex Api SafeLabel GoNet Platform CloudInit HostAgent.
From S2P Require Import ByoMachine Installer InstallerConfig ByoHostCtrl ByoClusterCtrl Admission Registration Lifecycle Interference.
From S2P Require Import Bootstrap MemPlatform.

(** ** The ByoMachine controller *)

Definition meta_of_name (ns name : string) (ls ans : gmap string string) : ObjectMeta :=
  mkObjectMeta name ns "uid" ls ans [] [] None.

Definition free_host : ByoHost :=
  mkByoHost (mkTypeMeta "ByoHost" GroupVersion_String)
    (meta_of_name "default" "host-1" ∅ ∅) (mkByoHostSpec None None None)
    (mkByoHostStatus None [] (mkHostInfo "linux" "Ubuntu 22.04 LTS" "amd64") []).
Definition byo_machine : ByoMachine :=
  mkByoMachine (mkTypeMeta "ByoMachine" GroupVersion_String)
    (set_Finalizers (λ _, [MachineFinalizer]) (meta_of_name "default" "m-1" {[ClusterNameLabel := "c-1"]} ∅))
    (mkByoMachineSpec None "" None) (mkByoMachineStatus (mkHostInfo "" "" "") false []).
Definition capi_machine : CapiMachine :=
  mkCapiMachine (meta_of_name "default" "cm-1" ∅ ∅) (Some "v1.26.4+vmware.1") (Some "boot").
Definition capi_cluster : CapiCluster :=
  mkCapiCluster (meta_of_name "default" "c-1" ∅ ∅) false "10.0.0.7" None true.
Definition byo_cluster : ByoCluster :=
  mkByoCluster (mkTypeMeta "ByoCluster" GroupVersion_String) (meta_of_name "default" "c-1" ∅ ∅)
    (mkByoClusterSpec (mkAPIEndpoint "10.0.0.7" 0) "") (mkByoClusterStatus false [] ∅).
Definition scope0 : byoMachineScope := mkScope capi_cluster capi_machine byo_cluster byo_machine None.
Definition scope1 : byoMachineScope :=
  sc_set_ByoHost (Some (claim_host scope0 "boot" "v1.26.4" free_host)) scope0.
Definition w_manager : World := mkWorld [OByoHost free_host; OByoMachine byo_machine] None (Some capi_cluster) [].

Lemma attach_reserves_free_host_witness :
  r_out (attachByoHost w_manager scope0) = Val (Result0, None) ∧
  wp attachByoHost w_manager scope0 (λ _ s' t o, attach_post scope0 s' t o).
Proof.
  split; [vm_compute; reflexivity|]. apply (attach_reserves_free_host w_manager scope0).
Defined.

Lemma attached_host_is_found_witness :
  r_out (FetchAttachedByoHost "m-1" "default" w_manager tt) ≠ Panic.
Proof.
  apply (attached_host_is_found "m-1" "default" scope0 "boot" "v1" free_host w_manager tt); reflexivity.
Defined.

Lemma machine_ready_sound_witness :
  bm_Ready (bm_Status (sc_ByoMachine (r_loc (ByoMachine.reconcileNormal w_manager scope0)))) = true ∧
  MachineFinalizer ∈ meta_Finalizers (bm_Meta (sc_ByoMachine (r_loc (ByoMachine.reconcileNormal w_manager scope0)))).
Proof.
  split; [vm_compute; reflexivity|]. apply (machine_ready_sound w_manager scope0).
Defined.

Lemma delete_marks_then_releases_witness :
  r_out (ByoMachine.reconcileDelete w_manager scope1) = Val (Result0, None) ∧
  (sc_ByoHost scope1 = None ∨
   ∃ h h', sc_ByoHost scope1 = Some h ∧
     patches (r_trace (ByoMachine.reconcileDelete w_manager scope1)) = [(OByoHost h, OByoHost h', None)]).
Proof.
  pose proof (delete_marks_then_releases w_manager scope1) as [H _].
  destruct H as [Ho [Hn|(h & h' & Hh & Hp & _)]].
  - vm_compute. left.
  - vm_compute. intros Hin. inversion Hin.
  - split; [exact Ho|by left].
  - split; [exact Ho|right; by exists h, h'].
Defined.

Lemma setNodeProviderID_sound_witness :
  ∃ id, r_out (setNodeProviderID tt free_host w_manager scope0) = Val (id, None) ∧
    provider_id_ok (host_Name free_host) id.
Proof.
  pose proof (setNodeProviderID_sound tt free_host w_manager scope0 eq_refl) as (_ & id & err & Ho & Herr).
  assert (err = None) as Hnone by (vm_compute in Ho; congruence).
  exists id. rewrite Hnone in Ho. split; [exact Ho|]. by apply Herr.
Defined.

Lemma provider_id_form_witness :
  regexp_MatchString (ProviderIDPrefix +:+ "host-1" +:+ "/.+") "byoh://host-1/a1b2c3" = Ok true.
Proof.
  apply (provider_id_form "host-1" "byoh://host-1/a1b2c3"); [reflexivity|reflexivity|].
  by exists "", (chr 97), "1b2c3".
Defined.

Definition paused_scope : byoMachineScope :=
  mkScope (mkCapiCluster (clus_Meta capi_cluster) true "" None true) capi_machine byo_cluster byo_machine None.

Lemma paused_machine_is_left_alone_witness :
  bm_Meta (sc_ByoMachine (r_loc (reconcile_machine w_manager paused_scope))) = bm_Meta byo_machine.
Proof. apply (paused_machine_is_left_alone w_manager paused_scope). reflexivity. Defined.

Definition unversioned_scope : byoMachineScope :=
  mkScope capi_cluster (mkCapiMachine (mach_Meta capi_machine) None (Some "boot")) byo_cluster byo_machine None.

Lemma attach_without_version_panics_witness :
  r_out (attachByoHost w_manager unversioned_scope) = Panic ∧
  patches (r_trace (attachByoHost w_manager unversioned_scope)) = [].
Proof.
  split; [vm_compute; reflexivity|].
  apply (attach_without_version_panics w_manager unversioned_scope); reflexivity.
Defined.

(** ** The ByoCluster controller *)

Lemma cluster_reconciled_witness :
  wp reconcile_cluster w_manager byo_cluster (λ _ c' t o, cluster_post w_manager byo_cluster c' t o).
Proof. apply (cluster_reconciled w_manager byo_cluster). Defined.

(** ** Admission *)

Definition claimed : ByoHost := claim_host scope0 "boot" "v1.26.4" free_host.
Definition delete_request : AdmissionRequest :=
  mkAdmissionRequest OpDelete "admin@example.com" (Ok claimed) (Ok claimed).

Lemma host_deletion_guarded_witness :
  ∃ resp, r_out (Handle delete_request w_manager tt) = Val resp ∧ resp ≠ Allowed "".
Proof.
  pose proof (host_deletion_guarded delete_request claimed w_manager eq_refl eq_refl)
    as (resp & Ho & [[Hr [Hn|(ref & err & Href & Hnf & Hget)]]|[[msg Hr] _]]).
  - discriminate Hn.
  - injection Href as Hr'. rewrite <- Hr' in Hget. vm_compute in Hget. discriminate Hget.
  - exists resp. split; [exact Ho|]. rewrite Hr. discriminate.
Defined.

Lemma host_writers_witness :
  handleCreateUpdate (mkAdmissionRequest OpUpdate "nobody" (Ok free_host) (Ok free_host)) =
  Denied "nobody is not a valid agent username".
Proof.
  refine (eq_trans (host_writers (mkAdmissionRequest OpUpdate "nobody" (Ok free_host) (Ok free_host)) free_host _) _);
    [reflexivity|vm_compute; reflexivity].
Defined.

(** ** Bootstrap kubeconfigs *)

Definition kubeconfig_request : BootstrapKubeconfig :=
  mkBootstrapKubeconfig (mkTypeMeta "BootstrapKubeconfig" GroupVersion_String)
    (meta_of_name "default" "bk" ∅ ∅)
    (mkBootstrapKubeconfigSpec "https://10.0.0.7:6443" false (Base64.EncodeToString sample_pem)) None.
Definition w_bootstrap : World := mkWorld [OBootstrapKubeconfig kubeconfig_request] None None [].

Lemma bootstrap_token_roundtrip_witness :
  ∃ c, GenerateBootstrapKubeconfigFromBootstrapToken sample_token kubeconfig_request = Ok c ∧
    config_token c = Some sample_token.
Proof.
  pose proof (bootstrap_token_roundtrip sample_token kubeconfig_request w_bootstrap) as H.
  vm_compute in H. destruct H as (_ & [c [Hc Ht]] & _). by exists c.
Defined.

Lemma token_stored_before_published_witness :
  length (patches (r_trace (Bootstrap.Reconcile (mkKey "default" "bk") w_bootstrap tt))) = 1 ∧
  wp (Bootstrap.Reconcile (mkKey "default" "bk")) w_bootstrap tt (λ _ _ t _, t ≠ []).
Proof.
  split; [vm_compute; reflexivity|].
  pose proof (token_stored_before_published (mkKey "default" "bk") w_bootstrap) as H.
  eapply wp_mono; [exact H|]. intros e l t o Ht Hn. rewrite Hn in Ht.
  vm_compute in Ht. destruct Ht as [[Ht _]|(? & ? & ? & ? & Ht & _)]; discriminate Ht.
Defined.

#[local] Instance unit_kube : Kube unit := fixed_kube [OBootstrapKubeconfig kubeconfig_request].
#[local] Instance unit_tokens : TokenLibs unit := token_libs.

Lemma accepted_is_published_witness :
  ValidateCreate kubeconfig_request = None ∧
  r_out (Bootstrap.Reconcile (mkKey "default" "bk") tt tt) = Val (Result0, None).
Proof.
  split; [vm_compute; reflexivity|].
  refine (proj1 (accepted_is_published (mkKey "default" "bk") kubeconfig_request tt _ _ _ _ _ _ _ _)).
  - vm_compute. reflexivity.
  - reflexivity.
  - vm_compute. reflexivity.
  - intros e. by exists sample_token.
  - intros s e. by exists s.
  - intros c. by eexists.
  - done.
  - done.
Defined.

(** ** The life cycle of a host *)

#[local] Instance any_yaml : Yaml := yaml_const (mkBootstrapConfig [] []).

Definition w_cycle : World :=
  mkWorld [OByoHost free_host; OByoMachine byo_machine; OByoCluster byo_cluster] (Some capi_machine)
    (Some (mkCapiCluster (clus_Meta capi_cluster) false "10.0.0.7"
             (Some (mkObjectReference "ByoCluster" "default" "c-1" "" GroupVersion_String)) true)) [].
Definition cycle_run := ByoMachine.Reconcile (mkKey "default" "m-1") w_cycle tt.
Definition cycle_host : ByoHost :=
  match patches (r_trace cycle_run) with (_, OByoHost h, _) :: _ => h | _ => free_host end.

Lemma lifecycle_refines_witness :
  phase free_host = Free ∧ phase cycle_host = Claimed "default.m-1" ∧
  phase_step (phase free_host) (phase cycle_host).
Proof.
  split; [vm_compute; reflexivity|]. split; [vm_compute; reflexivity|].
  apply (lifecycle_refines (E:=World) free_host cycle_host).
  - apply reach_new. by split_and!.
  - apply (cs_machine free_host cycle_host (mkKey "default" "m-1") w_cycle). vm_compute. left.
Defined.

Lemma lifecycle_invariant_witness :
  host_MachineRef cycle_host ≠ None ∧ (host_MachineRef cycle_host = None ↔ phase cycle_host = Free).
Proof.
  split; [vm_compute; discriminate|].
  apply (lifecycle_invariant (E:=World) cycle_host). apply (reach_step free_host).
  - apply reach_new. by split_and!.
  - apply (cs_machine free_host cycle_host (mkKey "default" "m-1") w_cycle). vm_compute. left.
Defined.

(** ** Concurrent writers *)

(** A field of a patch: written when the patch changes it. *)
Definition merge_field {A} `{EqDecision A} (b a c : A) : A := if decide (a = b) then c else a.

Definition merge_spec (b a c : ByoHostSpec) : ByoHostSpec :=
  mkByoHostSpec (merge_field (BootstrapSecret b) (BootstrapSecret a) (BootstrapSecret c))
    (merge_field (InstallationSecret b) (InstallationSecret a) (InstallationSecret c))
    (merge_field (UninstallationSecret b) (UninstallationSecret a) (UninstallationSecret c)).
Definition merge_status (b a c : ByoHostStatus) : ByoHostStatus :=
  mkByoHostStatus (merge_field (MachineRef b) (MachineRef a) (MachineRef c))
    (merge_field (HostConditions b) (HostConditions a) (HostConditions c))
    (merge_field (HostDetails b) (HostDetails a) (HostDetails c))
    (merge_field (Network b) (Network a) (Network c)).

#[local] Instance field_merge : MergePatch := λ b a c,
  mkByoHost (host_Type c)
    (set_Labels (λ l, merge_entries (host_Labels b) (host_Labels a) l)
      (set_Annotations (λ l, merge_entries (host_Annotations b) (host_Annotations a) l) (host_Meta c)))
    (merge_spec (host_Spec b) (host_Spec a) (host_Spec c))
    (merge_status (host_Status b) (host_Status a) (host_Status c)).

Lemma merge_field_ref b a c : merged_ref b a c (merge_field b a c).
Proof. unfold merge_field. split; intros; destruct (decide (a = b)); congruence. Qed.
#[local] Instance field_merge_laws : MergePatchLaws.
Proof. split; intros b a c; first [reflexivity|apply merge_field_ref]. Qed.

(** The agent, on a version of the host from before the claim. *)
Definition late_agent := mkHostReconciler None false "/var/lib/byoh" None.
Definition late_run := HostAgent.Reconcile late_agent (mkKey "default" "host-1") w_cycle tt.
Definition late_host : ByoHost :=
  match patches (r_trace late_run) with (_, OByoHost h, _) :: _ => h | _ => free_host end.
Definition claimed_server : Server := apply_patch free_host cycle_host (registered free_host).

Lemma lifecycle_interleaved_witness :
  phase (stored claimed_server) = Claimed "default.m-1" ∧
  ~ claim_eq free_host (stored claimed_server) ∧
  phase (stored (apply_patch free_host late_host claimed_server)) = Claimed "default.m-1" ∧
  phase_step (phase (stored claimed_server)) (phase (stored (apply_patch free_host late_host claimed_server))).
Proof.
  split; [vm_compute; reflexivity|]. split; [vm_compute; discriminate|]. split; [vm_compute; reflexivity|].
  apply (lifecycle_interleaved (E:=World) claimed_server (apply_patch free_host late_host claimed_server)).
  - eapply sr_step; [apply (sr_new free_host); by split_and!|]. apply ss_patch.
    + left.
    + apply (cs_machine free_host cycle_host (mkKey "default" "m-1") w_cycle). vm_compute. left.
    + right. reflexivity.
  - apply ss_patch.
    + right. right. left.
    + apply (cs_agent free_host late_host late_agent (mkKey "default" "host-1") w_cycle). vm_compute. left.
    + left. vm_compute. reflexivity.
Defined.

Definition scope_other : byoMachineScope :=
  mkScope capi_cluster capi_machine byo_cluster
    (bm_set_Meta (λ m, mkObjectMeta "m-2" "default" "uid-2" (meta_Labels m) ∅ [] [] None) byo_machine) None.

Lemma stale_claim_steals_host_witness :
  phase cycle_host = Claimed "default.m-1" ∧
  phase (merge_host free_host (claim_host scope_other "boot" "v1.26.4" free_host) cycle_host) = Claimed "default.m-2".
Proof.
  split; [vm_compute; reflexivity|].
  apply (stale_claim_steals_host scope_other "boot" "v1.26.4" free_host cycle_host "default.m-1").
  - apply fresh_consistent. by split_and!.
  - reflexivity.
  - vm_compute. reflexivity.
Defined.
