(* ===== verification/WatchWitnesses.v ===== *)
(** * Witnesses for the start-up and the watches of the manager

    controller-runtime in memory, with its laws, and the theorems of
    Watches.v and ManagerMain.v applied to it. *)

From S2P Require Import Prelude GoStrings Encoding Regex Api SafeLabel GoNet Platform CloudInit HostAgent.
From S2P Require Import ByoMachine Installer InstallerConfig ByoHostCtrl ByoClusterCtrl Admission Registration Lifecycle.
From S2P Require Import Bootstrap Watches ManagerMain MemPlatform ManagerWitnesses.

#[local] Instance no_yaml : Yaml := yaml_const (mkBootstrapConfig [] []).
#[local] Instance no_maps : InfrastructureMaps World := {|
  util_MachineToInfrastructureMapFunc _ _ := ret []; util_ClusterToInfrastructureMapFunc _ _ := ret [] |}.
#[local] Instance any_schema : SchemaLibs := {|
  schema_ParseGroupVersion s := Ok ("infrastructure.cluster.x-k8s.io", "v1beta1");
  schema_GVK _ kind := WithKind kind |}.

(** ** controller-runtime in memory *)

Definition passes (p : Predicate) (ev : WatchEvent) : bool :=
  match p with
  | PFuncs f =>
      match ev with
      | CreateEvent o => from_option (λ g, g o) true (CreateFunc f)
      | UpdateEvent old new => from_option (λ g, g old new) true (UpdateFunc f)
      | DeleteEvent o => from_option (λ g, g o) true (DeleteFunc f)
      | GenericEvent o => from_option (λ g, g o) true (GenericFunc f)
      end
  | PResourceNotPaused =>
      match subject ev with
      | WObject (OByoHost h) => bool_decide (host_Annotations h !! PausedAnnotation = None)
      | _ => true
      end
  | PClusterUnpausedAndInfrastructureReady => true
  end.

Definition mapped (w : Watch World) (ev : WatchEvent) (e : World) : list NamespacedName :=
  if bool_decide (kind_of (subject ev) = w_kind w) && forallb (λ p, passes p ev) (w_predicates w)
  then carried ev ≫= (λ o, match r_out (w_map w o e tt) with Val ks => ks | Panic => [] end)
  else [].

#[local] Instance mem_runtime : ControllerRuntime World := {|
  event_passes := passes;
  enqueued ctl ev e :=
    if forallb (λ p, passes p ev) (ctl_filter ctl)
    then (if bool_decide (kind_of (subject ev) = ctl_for ctl) then [watched_key (subject ev)] else []) ++
      (ctl_watches ctl ≫= (λ w, mapped w ev e))
    else [] |}.

#[local] Instance mem_runtime_laws : ControllerRuntimeLaws mem_runtime.
Proof.
  split; unfold admitted; cbn [event_passes enqueued mem_runtime].
  - done.
  - intros ev h Hs. cbn. by rewrite Hs.
  - intros ctl ev e Hk ->. rewrite bool_decide_true by done. left.
  - intros ctl w ev o ks e Hw Hk Hp Ho Hks. rewrite forallb_app, andb_true_iff in Hp. destruct Hp as [-> Hp].
    intros k Hin. apply elem_of_app. right. apply list_elem_of_bind. exists w. split; [|done].
    unfold mapped. rewrite bool_decide_true, Hp by done. cbn. apply list_elem_of_bind. exists o. by rewrite Hks.
  - intros ctl ev e k. destruct (forallb _ (ctl_filter ctl)); [|by intros Hin%elem_of_nil].
    intros [Hin|Hin]%elem_of_app; (split; [done|]).
    + left. case_bool_decide; [|by apply elem_of_nil in Hin]. by apply list_elem_of_singleton in Hin.
    + right. apply list_elem_of_bind in Hin as (w & Hin & Hw). unfold mapped in Hin.
      case_bool_decide; cbn in Hin; [|by apply elem_of_nil in Hin].
      destruct (forallb _ (w_predicates w)) eqn:Hp; [|by apply elem_of_nil in Hin].
      apply list_elem_of_bind in Hin as (o & Hin & Ho). destruct (r_out _) as [ks|] eqn:Hks; [|by apply elem_of_nil in Hin].
      exists w, o, e, ks. by split_and!.
Qed.
#[local] Instance any_templates : ScriptTemplates := {|
  HtmlTmpl := string; html_Parse s := Ok s; html_Execute s _ := Ok s;
  commonUbuntuInstallTemplate := ""; commonUbuntuUninstallTemplate := "" |}.
(** A cluster with one unanswered certificate request under each name. *)
#[local] Instance pending_csrs : CsrClient World := {|
  csr_Get name w := (w, Ok (mkCSR name [])); csr_UpdateApproval _ _ w := (w, None) |}.
#[local] Instance all_accepted : ManagerRT World := λ _ w, (w, None).

(** ** The theorems at concrete inputs *)

(** The release of a host claimed by machine m-1. *)
Definition released_event : WatchEvent :=
  UpdateEvent (WObject (OByoHost claimed)) (WObject (OByoHost (release claimed))).

Lemma claimed_host_wakes_machine_witness :
  ByoHostToByoMachineMapFunc (WithKind "ByoMachine") (OByoHost (release claimed)) = [] ∧
  mkKey "default" "m-1" ∈ enqueued byomachine_SetupWithManager released_event w_manager.
Proof.
  split; [vm_compute; reflexivity|].
  apply (claimed_host_wakes_machine scope0 "boot" "v1.26.4" free_host released_event w_manager);
    [vm_compute; reflexivity|reflexivity|left].
Defined.

Definition held_scope : byoMachineScope := sc_set_ByoHost (Some claimed) scope0.
Definition paused_host : ByoHost := host_set_Annotations (insert PausedAnnotation "") claimed.

Lemma pause_reaches_agent_witness :
  enqueued (host_SetupWithManager late_agent) (UpdateEvent (WObject (OByoHost claimed)) (WObject (OByoHost paused_host)))
    w_manager = [].
Proof.
  apply (pause_reaches_agent true w_manager w_manager held_scope claimed paused_host (WObject (OByoHost claimed)) late_agent).
  - reflexivity.
  - vm_compute. left.
Defined.

Lemma foreign_csr_filter_witness :
  csr_filter "node-csr-1" = false ∧
  mkKey "" "node-csr-1" ∈ enqueued byoadmission_SetupWithManager (DeleteEvent (WCSR (mkCSR "node-csr-1" []))) w_manager.
Proof.
  split; [vm_compute; reflexivity|]. apply (foreign_csr_filter (mkCSR "node-csr-1" [])). vm_compute. reflexivity.
Defined.

Definition no_env (_ : string) : string := "".
Definition default_flags : ManagerFlags := mkManagerFlags ":8080" false ":8081".

Lemma default_flags_set : setFlags ∅ = Some default_flags.
Proof. vm_compute. reflexivity. Qed.

Lemma manager_host_writes_witness : host_step free_host cycle_host.
Proof.
  apply (manager_host_writes no_env default_flags byomachine_SetupWithManager (mkKey "default" "m-1") w_cycle).
  - apply elem_of_app. left. do 4 right. left.
  - vm_compute. left.
Defined.
