(* ===== verification/HostWitnesses.v ===== *)
(** * Witnesses for the agent's process and the command-line tool

    The theorems with hypotheses on the file writer, the agent's entry point
    and the host operations, applied at concrete states. *)

From S2P Require Import Prelude Protocol GoStrings Encoding Regex Api SafeLabel GoNet Platform CloudInit FileWriter.
From S2P Require Import HostAgent ByoMachine Admission Registration AgentMain HostOps Logger Onboard Byohctl MemPlatform.

(** ** Files on disk *)

#[local] Instance no_yaml : Yaml := yaml_const (mkBootstrapConfig [] []).

Definition kubeadm_file : Files :=
  mkFiles "/run/kubeadm/kubeadm.yaml" "base64" "root:adm" "0640" "aGVsbG8=" false.
Definition empty_host : Host := mkHost ∅ {["/"; "/run"]} 18 0 0 {["root" := ("0", "0")]} 0 [].

(** A retry over a longer file of a former run: its tail stays. *)
Definition retried_host : Host :=
  mkHost {["/run/kubeadm/kubeadm.yaml" := mkFile "goodbye" 420 0 0]} {["/"; "/run"; "/run/kubeadm"]} 18 0 0
    {["root" := ("0", "0")]} 0 [].
Definition after_script (h : Host) : Host :=
  r_env (write_files (HostSystem0:=writer_host (λ _ h, (h, None))) (Some (TDHostInfo "eth0")) [kubeadm_file] h tt).

Lemma script_files_on_disk_witness :
  fs_Files (after_script empty_host) !! "/run/kubeadm/kubeadm.yaml" = Some (mkFile "hello" 416 0 0) ∧
  fs_Files (after_script retried_host) !! "/run/kubeadm/kubeadm.yaml" = Some (mkFile "helloye" 416 0 0) ∧
  ∃ cs, Forall2 (file_content (TDHostInfo "eth0")) [kubeadm_file] cs ∧
    Forall2 (left_over retried_host (fs_Files (after_script retried_host))) [kubeadm_file] cs.
Proof.
  split; [vm_compute; reflexivity|]. split; [vm_compute; reflexivity|].
  pose proof (script_files_on_disk (λ _ h, (h, None)) (TDHostInfo "eth0") [kubeadm_file] retried_host tt) as H.
  unfold wp in H. apply H.
  - apply NoDup_singleton.
  - vm_compute. reflexivity.
Defined.

(** ** Labels *)

Definition site_labels : list (string * string) := [("site", "apac"); ("cores", "2")].

Lemma labels_roundtrip_witness :
  labelFlags_Set (labelFlags_String site_labels) ∅ = (list_to_map site_labels ∪ ∅, None) ∧
  labelFlags_String site_labels = "site=apac,cores=2".
Proof.
  split; [|reflexivity]. apply (labels_roundtrip site_labels ∅).
  - discriminate.
  - by repeat constructor.
  - apply NoDup_cons. split; [|apply NoDup_singleton]. intros Hin. vm_compute in Hin. by inversion Hin as [|? ? ? H2]; inversion H2.
Defined.

(** ** Certificates *)

#[local] Instance mem_certs : CertLibs World := {|
  LoadedConfig := unit;
  loaded_CurrentContext := λ _, "default";
  loader_Load := λ _ w, (w, Err not_found);
  clientcmd_ClientConfig := λ _ _, Err not_found;
  ClientSet := unit;
  clientset_NewForConfig := λ _, Ok tt;
  PrivKey := unit;
  keyutil_LoadOrGenerateKeyFile := λ _ w, (w, Ok "key");
  keyutil_ParsePrivateKeyPEM := λ _, Ok tt;
  x509_CreateCertificateRequest := λ cn orgs _ w, (w, Ok (cn +:+ "/" +:+ Join orgs ","));
  pem_EncodeToMemory := λ _ s, s;
  CertificateRequestBlockType := "CERTIFICATE REQUEST";
  KubeAPIServerClientSignerName := "kubernetes.io/kube-apiserver-client";
  UsageClientAuth := "client auth";
  csr_RequestCertificate := λ _ _ name _ _ _ _ w, (w, Ok (name, "uid"));
  csr_WaitForCertificate := λ _ _ _ _ w, (w, Ok "cert");
  clientcmd_WriteToFile := λ _ _ w, (w, None);
  os_UserHomeDir := λ w, (w, Ok "/root") |}.

(** A certificate for 1000 nanoseconds, seen at 850. *)
#[local] Instance mem_agent : AgentRT World := {|
  pem_Decode := λ s, Some ("CERTIFICATE", s);
  x509_ParseCertificate := λ _, Ok (mkCertificate 0 1000);
  time_Now := λ w, (w, 850%Z);
  time_Sleep := λ _ w, (w, tt);
  os_Hostname := λ w, (w, Ok "host-1");
  os_Getenv := λ _ w, (w, "");
  client_New := λ _ w, (w, None);
  ctrl_NewManager := λ _ _ _ _ w, (w, None);
  SetupWithManager := λ _ w, (w, None);
  mgr_Start := λ w, (w, None) |}.

Definition flags0 : Flags := mkFlags "default" ∅ ":8080" "/var/lib/byoh/bundles" false false "boot.conf" ExpirationSeconds "".
Definition rest0 : RestConfig := mkRestConfig "https://10.0.0.7:6443" false "" "" "pem".
Definition no_world : World := mkWorld [] None None [].

Lemma renewal_window_witness :
  loads (r_trace (certRotation flags0 "host-1" rest0 no_world "")) = 1 ∧
  (5 * (1000 - 850) < Z.min maxDuration (1000 - 0))%Z.
Proof.
  split; [vm_compute; reflexivity|].
  assert (Hle : (0 <= 1000)%Z) by lia.
  pose proof (renewal_window flags0 "host-1" rest0 (mkCertificate 0 1000) "pem" no_world "" eq_refl eq_refl Hle)
    as (_ & _ & _ & _ & Hw & _).
  apply Hw. vm_compute. reflexivity.
Defined.

Definition csr0 : ByohCSR := mkByohCSR rest0 tt "/root/.byoh/config" 1000.
Definition own_host : ByoHost :=
  mkByoHost (mkTypeMeta "ByoHost" "v1") (mkObjectMeta "host-1" "default" "" ∅ ∅ [] [] None) (mkByoHostSpec None None None)
    (mkByoHostStatus None [] (mkHostInfo "" "" "") []).

Lemma agent_identity_admitted_witness :
  r_trace (BootstrapKubeconfig_ csr0 "host-1" no_world "") =
    [EvRequestCertificate "byoh:host:host-1/byoh:hosts" "byoh-csr-host-1" "kubernetes.io/kube-apiserver-client"
       1000 ["client auth"] None;
     EvWaitForCertificate "byoh-csr-host-1" None; EvWriteKubeconfig "/root/.byoh/config" None;
     EvRemove TmpPrivateKey None] ∧
  handleCreateUpdate (mkAdmissionRequest OpUpdate "byoh:host:host-1" (Ok own_host) (Err not_found)) = Allowed "".
Proof.
  split; [vm_compute; reflexivity|].
  apply (agent_identity_admitted csr0 "host-1" no_world "" OpUpdate own_host (Err not_found)). reflexivity.
Defined.

(** ** The wait for a release: a world that is only a clock *)

Definition bound_host : ByoHost :=
  mkByoHost (mkTypeMeta "ByoHost" "v1") (mkObjectMeta "host-1" "ns" "" ∅ ∅ [] [] None) (mkByoHostSpec None None None)
    (mkByoHostStatus (Some (mkObjectReference "ByoMachine" "ns" "m-1" "" "")) [] (mkHostInfo "" "" "") []).
Definition some_object : Unstructured :=
  mkUnstructured (mkGVK "" "" "") (mkObjectMeta "m-1" "ns" "" {[DeploymentNameLabel := "md"]} ∅ [] [] None) (JObj []).

Definition clock_libs_with (content : string) : CtlLibs Z := {|
  ctl_Stat := λ _ w, (w, None);
  ctl_ReadFile := λ _ w, (w, Ok content);
  ctl_Hostname := λ w, (w, Ok "host-1");
  ctl_yaml_Config := λ _, Ok ("c", [("c", "ns")]);
  BuildConfigFromFlags := λ _ w, (w, None);
  kubernetes_NewForConfig := λ w, (w, None);
  dynamic_NewForConfig := λ w, (w, None);
  dynamic_Get := λ _ _ _ w, (w, Ok some_object);
  dynamic_Update := λ _ _ u w, (w, Ok u);
  dynamic_Delete := λ _ _ _ w, (w, None);
  FromUnstructured_ByoHost := λ _, Ok bound_host;
  FromUnstructured_MachineDeployment := λ _, Ok (mkMachineDeployment (Some 3%Z) (JObj []));
  ToUnstructured_MachineDeployment := λ _, Ok some_object;
  stdout_Fprintf := λ _ w, (w, None);
  stdin_ReadLine := λ w, (w, ("y", false, None));
  exec_LookPath := λ s w, (w, Ok s);
  exec_CombinedOutput := λ _ w, (w, ("", None));
  ctl_Now := λ w, (w, w);
  ctl_Sleep := λ d w, ((w + d)%Z, tt) |}.

#[local] Instance clock_libs : CtlLibs Z := clock_libs_with "".
#[local] Instance clock_laws : CtlClock Z.
Proof. refine (Build_CtlClock Z _ (λ z, z) _ _ _ _); cbn; intros; try split; try done; lia. Defined.

(** A host that is never released: the operation ends with the timeout. *)
Lemma host_operation_terminates_witness :
  r_out (PerformHostOperation 62 "/root" OperationDecommission "ns" 0%Z tt) ≠ Val Waiting ∧
  length (r_trace (PerformHostOperation 62 "/root" OperationDecommission "ns" 0%Z tt)) = 68.
Proof.
  split; [|vm_compute; reflexivity].
  apply (host_operation_terminates 62 "/root" OperationDecommission "ns" 0%Z tt). lia.
Defined.

(** ** The process of the tool *)

(** Everything works, the tenant has the region, and the command line is the
    name of a command followed by values for its flags. *)
Definition cli_libs (mkdir : option GoError) : ObLibs Z := {|
  ob_GOOS := "linux";
  ob_UserHomeDir := λ w, (w, Ok "/root");
  ob_MkdirAll := λ _ w, (w, mkdir);
  ob_OpenLog := λ _ w, (w, None);
  ob_WriteFile := λ _ _ w, (w, None);
  ob_RemoveAll := λ _ w, (w, None);
  exec_Output := λ argv w, (w, ("", if bool_decide (head argv = Some "lsof")
                                     then Some (errors_New "exit status 1") else None));
  http_Do := λ _ _ _ _ w, (w, Ok (200%Z, Ok ""));
  http_Get := λ _ w, (w, None);
  os_Create := λ _ w, (w, None);
  io_Copy := λ _ w, (w, None);
  os_Chmod := λ _ w, (w, None);
  http_NewRequest := λ _ _, None;
  json_TokenResponse := λ _, Ok "token";
  json_Secret := λ _, Ok {["config" := "a2M="]};
  yaml_OnboardConfig := λ _, Err (errors_New "no file");
  term_ReadPassword := λ w, (w, Ok "pw");
  clientset_GetConfigMap := λ _ _ w, (w, Ok {["regions" := "r1"]});
  resolver_LookupHost := λ _ w, (w, Ok ["10.0.0.1"]);
  build_Version := "1.2.3" |}.

#[local] Instance plain_cobra : Cobra := {|
  cobra_Parse := λ _ args, match args with
    | [] => Ok Help
    | name :: values => Ok (Invoke name (zip ["url"; "username"; "client-token"; "region"] (FString <$> values)))
    end;
  cobra_ValidateFlagGroups := λ _ _, None |}.

Definition cli_run (mkdir : option GoError) (args : list string) :=
  main (CtlLibs0 := clock_libs_with "Ubuntu") (ObLibs0 := cli_libs mkdir) "/root" "now" 62 args 0%Z start_state.

(** A whole onboarding succeeds; the log is opened, and so truncated, twice:
    by the pre-run and by the command. *)
Definition opened_logs (t : list CliEvent) : list string :=
  omap (λ ev, match ev with EvOb (ObOpenLog path None) => Some path | _ => None end) t.

Example onboard_opens_log_twice :
  let r := cli_run None ["onboard"; "fqdn"; "user"; "ct"; "r1"] in
  r_out r = Val (Some 0) ∧
  opened_logs (r_trace r) = ["/root/.byoh/byoh-agent-debug.log"; "/root/.byoh/byoh-agent-debug.log"].
Proof. vm_compute. done. Qed.

(** Without a writable home directory not even the version is printed. *)
Example version_needs_log_directory :
  r_out (cli_run (Some (errors_New "read-only")) ["version"]) = Val (Some 1) ∧
  r_trace (cli_run None ["version"]) =
    [EvOb (ObMkdirAll "/root/.byoh" None); EvOb (ObOpenLog "/root/.byoh/byoh-agent-debug.log" None);
     EvPrint "1.2.3"].
Proof. vm_compute. done. Qed.
