(* ===== verification/Witnesses.v ===== *)
(** * Witnesses

    Each theorem that has hypotheses, applied to the platform in memory at a
    concrete state where its hypotheses hold. *)

From S2P Require Import Prelude GoStrings Encoding Api SafeLabel Platform CloudInit HostAgent MemPlatform.

(** ** Label values *)

Definition long_ns : string := "a-namespace-that-is-long-enough-to-need-the-hash".
Definition long_name : string := "a-machine-with-a-long-name-too".

Lemma generateSafeLabelValue_bound_witness :
  String.length (generateSafeLabelValue long_ns long_name) = MaxK8sLabelValueLength.
Proof. apply (generateSafeLabelValue_bound long_ns long_name). vm_compute. lia. Defined.

Lemma generateSafeLabelValue_valid_witness :
  valid_label_value (generateSafeLabelValue long_ns long_name) = true.
Proof. apply (generateSafeLabelValue_valid long_ns long_name); reflexivity. Defined.

(** Two machines that share a label value: the name of the second one spells
    out the shortened value of the first. *)
Definition colliding_name : string :=
  slice_from (S (String.length long_ns)) (generateSafeLabelValue long_ns long_name).

Lemma generateSafeLabelValue_inj_witness :
  long_name ≠ colliding_name ∧
  generateSafeLabelValue long_ns long_name = generateSafeLabelValue long_ns colliding_name ∧
  slice_to 54 (long_ns +:+ "." +:+ long_name) = slice_to 54 (long_ns +:+ "." +:+ colliding_name).
Proof.
  split; [vm_compute; discriminate|]. split; [vm_compute; reflexivity|].
  destruct (generateSafeLabelValue_inj long_ns long_name long_ns colliding_name) as [[_ Hn]|(_ & _ & Hs & _)];
    [reflexivity|reflexivity|vm_compute; reflexivity|vm_compute in Hn; discriminate|exact Hs].
Defined.

(** ** The cloud-init executor *)

Definition sample_config : bootstrapConfig :=
  mkBootstrapConfig
    [mkFiles "/run/kubeadm/kubeadm.yaml" "base64" "root:root" "0640" "aGVsbG8=" false]
    ["kubeadm init --config /run/kubeadm/kubeadm.yaml"].

#[local] Instance sample_yaml : Yaml := yaml_const sample_config.

Definition w0 : World := mkWorld [] None None [].

Lemma decodeContent_encoded_witness :
  decodeContent (Base64.EncodeToString (gz_magic +:+ "kind: Node")) (parseEncodingScheme " GZ+B64") =
  ("kind: Node", None).
Proof.
  refine (proj1 (decodeContent_encoded "kind: Node" (gz_magic +:+ "kind: Node") " GZ+B64" _) _).
  - reflexivity.
  - vm_compute. right. right. left.
Defined.

Lemma Execute_completes_witness :
  r_out (Execute (Some (TDHostInfo "eth0")) "script" tt tt) = Val None ∧
  r_trace (Execute (Some (TDHostInfo "eth0")) "script" tt tt) =
  [EvMkdirIfNotExists "/run/kubeadm" None; EvWriteToFile "/run/kubeadm/kubeadm.yaml" "hello" None;
   EvRunCmd "kubeadm init --config /run/kubeadm/kubeadm.yaml" None].
Proof.
  apply (Execute_completes (TDHostInfo "eth0") "script" sample_config ["hello"] tt tt).
  - done.
  - done.
  - done.
  - reflexivity.
  - repeat constructor.
Defined.

(** ** The host agent *)

Definition meta0 (ns name : string) (ls ans : gmap string string) : ObjectMeta :=
  mkObjectMeta name ns "" ls ans [] [] None.

Definition uninstall_secret : Secret :=
  mkSecret (mkTypeMeta "Secret" "v1") (meta0 "default" "uninst" ∅ ∅)
    {["uninstall" := "uninstall.sh"]} "".
Definition uninstall_ref : ObjectReference := mkObjectReference "Secret" "default" "uninst" "" "v1".
Definition machine_ref : ObjectReference := mkObjectReference "ByoMachine" "default" "m-1" "" "v1beta1".

(** A bootstrapped host that is marked for cleanup. *)
Definition dirty_host : ByoHost :=
  mkByoHost (mkTypeMeta "ByoHost" "v1")
    (meta0 "default" "host-1"
       (<[ClusterNameLabel := "c-1"]> {[AttachedByoMachineLabel := "default.m-1"]})
       (<[EndPointIPAnnotation := "10.0.0.7"]> {[HostCleanupAnnotation := ""]}))
    (mkByoHostSpec (Some (mkObjectReference "Secret" "default" "boot" "" "v1")) None (Some uninstall_ref))
    (mkByoHostStatus (Some machine_ref)
       [mkCondition K8sComponentsInstallationSucceeded ConditionTrue SeverityNone "" "";
        mkCondition K8sNodeBootstrapSucceeded ConditionTrue SeverityNone "" ""]
       (mkHostInfo "linux" "Ubuntu" "amd64") []).

Definition agent0 : HostReconciler :=
  mkHostReconciler (Some (TDHostInfo "eth0")) false "/var/lib/byoh/bundles" (Some "eth0").

Definition w_agent : World := mkWorld [OByoHost dirty_host; OSecret uninstall_secret] None None [].

Lemma hostCleanUp_releases_witness :
  r_out (hostCleanUp agent0 w_agent dirty_host) = Val None ∧
  cmds (r_trace (hostCleanUp agent0 w_agent dirty_host)) = ["kubeadm reset --force"; "uninstall.sh"] ∧
  r_loc (hostCleanUp agent0 w_agent dirty_host) =
    mkByoHost (mkTypeMeta "ByoHost" "v1") (mkObjectMeta "host-1" "default" "" ∅ ∅ [] [] None)
      (mkByoHostSpec None None (Some uninstall_ref))
      (mkByoHostStatus None (host_GetConditions (r_loc (hostCleanUp agent0 w_agent dirty_host)))
         (mkHostInfo "linux" "Ubuntu" "amd64") []).
Proof.
  pose proof (hostCleanUp_releases agent0 w_agent dirty_host) as H.
  split; [vm_compute; reflexivity|]. split; [vm_compute; reflexivity|].
  etransitivity; [apply H; vm_compute; reflexivity|]. vm_compute. reflexivity.
Defined.

(** Three attempts with an uninstall script that fails.  The patch of the
    first one is lost: the node is reset a second time, and no third. *)
Definition host_req : NamespacedName := mkKey "default" "host-1".
Definition w_lost : World := mkWorld (w_Objects w_agent) None None ["uninstall.sh"; "patch"].
Definition w_kept : World := mkWorld (w_Objects w_agent) None None ["uninstall.sh"].
Definition reset_host : ByoHost := r_loc (hostCleanUp agent0 w_kept dirty_host).
Definition w_next : World := r_env (HostAgent.Reconcile agent0 host_req w_kept tt).
Definition cleanup_trace : list Event :=
  r_trace (HostAgent.Reconcile agent0 host_req w_lost tt) ++
  r_trace (HostAgent.Reconcile agent0 host_req w_kept tt) ++
  r_trace (HostAgent.Reconcile agent0 host_req w_next tt) ++ [].

Lemma cleanup_attempts_run :
  attempts (E:=World) agent0 (λ h, is_Some (host_Annotations h !! HostCleanupAnnotation)) host_req dirty_host cleanup_trace 1.
Proof.
  eapply (attempts_lost _ _ _ dirty_host dirty_host).
  - vm_compute. eauto.
  - vm_compute. reflexivity.
  - intros h'. apply no_accepted_patch. vm_compute. reflexivity.
  - eapply (attempts_kept _ _ _ dirty_host reset_host reset_host).
    + vm_compute. eauto.
    + vm_compute. reflexivity.
    + apply one_accepted_patch. vm_compute. reflexivity.
    + reflexivity.
    + eapply (attempts_kept _ _ _ reset_host reset_host reset_host).
      * vm_compute. eauto.
      * vm_compute. reflexivity.
      * apply one_accepted_patch. vm_compute. reflexivity.
      * reflexivity.
      * constructor.
Qed.

Lemma cleanup_resets_once_witness :
  succeeded (λ c, bool_decide (c = KubeadmResetCommand)) cleanup_trace = 2 ∧
  succeeded (λ c, bool_decide (c = KubeadmResetCommand)) cleanup_trace ≤
    (if IsTrue dirty_host K8sComponentsInstallationSucceeded then 1 else 0) + 1.
Proof.
  split; [vm_compute; reflexivity|].
  apply (cleanup_resets_once (E:=World) agent0 host_req dirty_host cleanup_trace 1).
  - apply cleanup_attempts_run.
  - intros key secret script Hin%secrets_read_in.
    assert (secrets_read cleanup_trace = [uninstall_secret; uninstall_secret; uninstall_secret]) as Heq
      by (vm_compute; reflexivity).
    rewrite Heq in Hin. assert (secret = uninstall_secret) as -> by set_solver.
    intros [= <-]. vm_compute. discriminate.
Defined.

Lemma hostCleanUp_retryable_witness :
  r_out (hostCleanUp agent0 (mkWorld [] None None []) dirty_host) ≠ Val None ∧
  r_loc (hostCleanUp agent0 (mkWorld [] None None []) dirty_host) =
    host_SetConditions (host_GetConditions
      (r_loc (hostCleanUp agent0 (mkWorld [] None None []) dirty_host))) dirty_host.
Proof.
  split; [vm_compute; discriminate|].
  apply (hostCleanUp_retryable agent0 (mkWorld [] None None []) dirty_host). vm_compute. discriminate.
Defined.

#[local] Instance sample_kube : Kube unit := fixed_kube [OByoHost dirty_host; OSecret uninstall_secret].

Lemma hostCleanUp_completes_witness : r_out (hostCleanUp agent0 tt dirty_host) = Val None.
Proof.
  apply (hostCleanUp_completes agent0 tt dirty_host). split.
  - done.
  - done.
  - done.
  - intros _. exists "eth0". reflexivity.
  - intros ref _ [= <-]. exists uninstall_secret, "uninstall.sh", "uninstall.sh". split_and!.
    + intros []. vm_compute. reflexivity.
    + reflexivity.
    + reflexivity.
    + done.
Defined.

(** Bootstrap with a failing kubeadm, retried: after a lost patch the install
    script runs a second time, and no third. *)
Definition install_secret : Secret :=
  mkSecret (mkTypeMeta "Secret" "v1") (meta0 "default" "inst" ∅ ∅) {["install" := "install.sh"]} "".
Definition boot_secret : Secret :=
  mkSecret (mkTypeMeta "Secret" "v1") (meta0 "default" "boot" ∅ ∅) {["value" := "script"]} "".
Definition claimed_host : ByoHost :=
  mkByoHost (mkTypeMeta "ByoHost" "v1") (meta0 "default" "host-1" ∅ ∅)
    (mkByoHostSpec (Some (mkObjectReference "Secret" "default" "boot" "" "v1"))
       (Some (mkObjectReference "Secret" "default" "inst" "" "v1")) None)
    (mkByoHostStatus (Some machine_ref) [] (mkHostInfo "linux" "Ubuntu" "amd64") []).
Definition w_boot (failing : list string) : World :=
  mkWorld [OSecret install_secret; OSecret boot_secret; OByoHost claimed_host] None None
    ("kubeadm init --config /run/kubeadm/kubeadm.yaml" :: failing).
Definition installed_host : ByoHost := r_loc (reconcileNormal agent0 (w_boot []) claimed_host).
Definition w_boot' : World := r_env (HostAgent.Reconcile agent0 host_req (w_boot []) tt).
Definition install_trace : list Event :=
  r_trace (HostAgent.Reconcile agent0 host_req (w_boot ["patch"]) tt) ++
  r_trace (HostAgent.Reconcile agent0 host_req (w_boot []) tt) ++
  r_trace (HostAgent.Reconcile agent0 host_req w_boot' tt) ++ [].

Lemma install_attempts_run :
  attempts (E:=World) agent0 (λ h, host_Annotations h !! HostCleanupAnnotation = None) host_req claimed_host install_trace 1.
Proof.
  eapply (attempts_lost _ _ _ claimed_host claimed_host).
  - reflexivity.
  - vm_compute. reflexivity.
  - intros h'. apply no_accepted_patch. vm_compute. reflexivity.
  - eapply (attempts_kept _ _ _ claimed_host installed_host installed_host).
    + reflexivity.
    + vm_compute. reflexivity.
    + apply one_accepted_patch. vm_compute. reflexivity.
    + reflexivity.
    + eapply (attempts_kept _ _ _ installed_host installed_host installed_host).
      * vm_compute. reflexivity.
      * vm_compute. reflexivity.
      * apply one_accepted_patch. vm_compute. reflexivity.
      * reflexivity.
      * constructor.
Qed.

Lemma reconcileNormal_installs_once_witness :
  succeeded (λ c, bool_decide (c = "install.sh")) install_trace = 2 ∧
  succeeded (λ c, bool_decide (c = "install.sh")) install_trace ≤
    (if SkipK8sInstallation agent0 || IsTrue claimed_host K8sComponentsInstallationSucceeded then 0 else 1) + 1.
Proof.
  split; [vm_compute; reflexivity|].
  apply (reconcileNormal_installs_once (E:=World) agent0 host_req (λ c, bool_decide (c = "install.sh")) claimed_host
           install_trace 1).
  - apply install_attempts_run.
  - reflexivity.
  - intros key secret d _ [= <-]. repeat constructor.
Defined.
