(* ===== verification/ProvisionWitnesses.v ===== *)
(** * Witnesses for provisioning and the next life of a host

    The theorems of Provisioning.v at concrete hosts, machines and worlds
    where their hypotheses hold. *)

From S2P Require Import Prelude GoStrings Encoding Regex Api SafeLabel Platform CloudInit HostAgent ByoMachine ByoHostCtrl.
From S2P Require Import Registration Lifecycle Interference Provisioning MemPlatform ManagerWitnesses Witnesses.

#[local] Instance config_yaml : Yaml := yaml_const sample_config.

(** ** The agent, in a world that never fails *)

#[local] Instance secrets_kube : Kube unit :=
  fixed_kube [OSecret install_secret; OSecret boot_secret;
    OUnstructured (mkUnstructured (WithKind "K8sInstallerConfig") (meta_of_name "default" "m-1" ∅ ∅) (JObj []))].

Lemma claimed_host_works : provision_works (E:=unit) agent0 claimed_host sample_config ["hello"] "install.sh".
Proof.
  split.
  - split; repeat constructor.
  - intros p [] _. by exists [].
  - exists (TDHostInfo "eth0"). split; [reflexivity|]. constructor; [vm_compute; reflexivity|constructor].
  - exists (mkObjectReference "Secret" "default" "boot" "" "v1"), boot_secret.
    split_and!; [reflexivity|intros []; vm_compute; reflexivity|reflexivity].
  - intros _. exists (mkObjectReference "Secret" "default" "inst" "" "v1"), install_secret, "install.sh".
    split_and!; [reflexivity|intros []; vm_compute; reflexivity|reflexivity|reflexivity|done].
Qed.

Lemma agent_provisions_witness :
  IsTrue claimed_host K8sNodeBootstrapSucceeded = false ∧
  cmds (r_trace (HostAgent.reconcileNormal agent0 tt claimed_host)) =
    ["install.sh"; "kubeadm init --config /run/kubeadm/kubeadm.yaml"] ∧
  ∃ ti ev, r_trace (HostAgent.reconcileNormal agent0 tt claimed_host) =
      ti ++ run_effects (zip (FilesToWrite sample_config) ["hello"]) (CommandsToExecute sample_config) ++ [ev] ∧
    cmds ti = ["install.sh"].
Proof.
  split; [vm_compute; reflexivity|]. split; [vm_compute; reflexivity|].
  destruct (agent_provisions agent0 claimed_host sample_config ["hello"] "install.sh" tt) as [_ H].
  - exact claimed_host_works.
  - eexists. reflexivity.
  - destruct H as ((ti & ev & Ht & Hc & _) & _). by exists ti, ev.
Defined.

(** ** The machine *)

#[local] Instance unit_capi : CapiUtil unit := {|
  util_GetOwnerMachine := λ _ e, (e, Ok None);
  util_GetClusterFromMetadata := λ m e,
    (e, if bool_decide (meta_Name m = "m-1") then Ok (Some capi_cluster) else Err not_found);
  util_GetOwnerCluster := λ _ e, (e, Ok None);
  annotations_IsPaused := annotations_IsPaused (E:=World);
  annotations_AddAnnotations := annotations_AddAnnotations (E:=World);
  controllerutil_AddFinalizer := controllerutil_AddFinalizer (E:=World);
  controllerutil_RemoveFinalizer := controllerutil_RemoveFinalizer (E:=World);
  controllerutil_ContainsFinalizer := controllerutil_ContainsFinalizer (E:=World);
  labels_NewRequirement := labels_NewRequirement (E:=World);
  labels_SelectorAdd := labels_SelectorAdd (E:=World);
  labels_Matches := labels_Matches (E:=World);
  metav1_LabelSelectorAsSelector := metav1_LabelSelectorAsSelector (E:=World) |}.

(** A fresh node, without a provider ID. *)
Definition new_node : Node := mkNode (meta_of_name "" "host-1" ∅ ∅) "".

#[local] Instance unit_machine_libs : MachineLibs unit := {|
  RemoteClient := unit;
  tracker_GetClient := λ key e, (e, if bool_decide (key_Name key = meta_Name (clus_Meta capi_cluster)) then Ok tt else Err not_found);
  remote_GetNode := λ _ key e, (e, if bool_decide (key_Name key = "host-1") then Ok new_node else Err not_found);
  remote_NewHelper := λ _ _ e, (e, None);
  remote_PatchNode := λ _ _ _ e, (e, None);
  util_RandomString := λ n e, (e, "abcdef");
  schema_FromAPIVersionAndKind := schema_FromAPIVersionAndKind (E:=World);
  unstructured_NestedField := unstructured_NestedField (E:=World);
  FromUnstructured_ref := FromUnstructured_ref (E:=World);
  external_IsReady := external_IsReady (E:=World);
  external_GenerateTemplate := external_GenerateTemplate (E:=World);
  metav1_NewControllerRef := metav1_NewControllerRef (E:=World) |}.

Definition some_ref : ObjectReference := mkObjectReference "Secret" "default" "inst" "" "v1".
Definition held_host : ByoHost :=
  host_set_UninstallationSecret (Some some_ref) (host_set_InstallationSecret (Some some_ref) claimed).
Definition ready_scope : byoMachineScope :=
  mkScope capi_cluster capi_machine byo_cluster
    (mkByoMachine (bm_Type byo_machine) (bm_Meta byo_machine)
       (mkByoMachineSpec None "" (Some (mkObjectReference "K8sInstallerConfigTemplate" "default" "tpl" "" GroupVersion_String)))
       (bm_Status byo_machine)) (Some held_host).

Definition the_client : @RemoteClient unit unit_machine_libs := tt.

Lemma ready_scope_works : machine_works (E:=unit) ready_scope held_host capi_cluster the_client new_node.
Proof.
  split; try (by intros; match goal with e : unit |- _ => destruct e end).
  - reflexivity.
  - reflexivity.
  - eexists. reflexivity.
  - intros ref [= <-]. split_and!; [by eexists..|].
    exists (mkUnstructured (WithKind "K8sInstallerConfig") (meta_of_name "default" "m-1" ∅ ∅) (JObj [])).
    intros []. vm_compute. reflexivity.
  - left. reflexivity.
Qed.

Lemma machine_provisions_witness :
  bm_Ready (bm_Status (sc_ByoMachine ready_scope)) = false ∧
  bm_Ready (bm_Status (sc_ByoMachine (r_loc (ByoMachine.reconcileNormal tt ready_scope)))) = true ∧
  node_named the_client held_host "byoh://host-1/abcdef" (r_trace (ByoMachine.reconcileNormal tt ready_scope)).
Proof.
  split; [reflexivity|].
  destruct (machine_provisions ready_scope held_host capi_cluster the_client new_node tt) as (_ & Hr & Hn).
  - exact ready_scope_works.
  - split; [exact Hr|exact Hn].
Defined.

(** ** The next life *)

Definition clean_host : ByoHost := r_loc (hostCleanUp agent0 w_agent dirty_host).


Lemma stale_uninstall_secret_witness :
  host_UninstallationSecret (claim_host scope_other "boot-2" "v1.27.1" clean_host) = Some uninstall_ref ∧
  released (claim_host scope_other "boot-2" "v1.27.1" clean_host) = false.
Proof.
  pose proof (stale_uninstall_secret agent0 w_agent dirty_host clean_host uninstall_ref scope_other "boot-2" "v1.27.1") as H.
  destruct H as (Hu & Hr & _); [vm_compute; reflexivity|reflexivity|reflexivity|]. split; [exact Hu|exact Hr].
Defined.
